(* ===== verification/_CoqProject ===== *)
-Q . S2P
Prelude.v
Frame.v
Threads.v
Rely.v
GoHeap.v
GoStrings.v
GoFloat.v
Rounding.v
Utils.v
OciModel.v
Pricing.v
DefaultPrice.v
PriceList.v
Cache.v
UnavailableOfferings.v
Api.v
DeepCopy.v
DeepCopyExamples.v
Options.v
Sched.v
Paging.v
InstanceType.v
Metrics.v
Selector.v
Subnet.v
SecurityGroup.v
Bootstrap.v
KubeModel.v
ImageFamily.v
Instance.v
CloudProvider.v
Capacity.v
ClaimLabels.v
OciConfig.v
Operator.v
Reconcile.v
Garbage.v
Workers.v
Collector.v
Tagging.v
NodeClassHash.v
NodeClassStatus.v
Registration.v
Launches.v
System.v
Goroutines.v
Concurrent.v
Mock.v
FakeNetwork.v
FakeCompute.v
Fixtures.v
FakeEnvironment.v
FakeSpec.v
Toy.v
InstanceTypeExamples.v
NetworkExamples.v
CloudExamples.v
ControllerExamples.v
RegistrationExamples.v
StartExamples.v
SystemExamples.v
ConcurrentExamples.v
FakeExamples.v
