(* ===== verification/Prelude.v ===== *)
(** * karpenter-oci: a verification library

    karpenter-oci is the Oracle Cloud provider of Karpenter, the node
    autoscaler of Kubernetes.  Karpenter decides that a pod needs a node and
    writes a node claim; this program turns the claim into an instance of the
    Oracle cloud (OCI), keeps the list of instance types and their prices,
    reports instances back as claims, and runs controllers that tag, garbage
    collect and describe what it made.  The library models the program as
    executable functions and proves what the functions promise one another.
    Go files are named below by their path under [src/pkg].

    ** How Go is modelled

    - A call that returns [(T, error)] is a value of [res]: [Ok], [Err] with a
      [gerror], or [Panic] for a nil dereference, an index out of range, a
      failed conversion or [lo.Must].  A call that changes state is a [run]: a
      function from a state to a [res] and the state reached, kept on every
      outcome.
    - Pointers are options; Go integers are [Z] with [wrap64] or [wrap32]
      written where they are computed; [float32] and [float64] are Stdlib's
      [spec_float] with rounding ([GoFloat]); strings are [String.string]
      ([GoStrings]).
    - A Go map is a [gmap].  The orders in which the loops of one operation
      range over maps are an instance of the class [MapOrder], of which only
      permutations are known; two loops over the same map have orders of their
      own.  Each operation of the running program draws its orders, its
      shuffles, the order of its work and its MIME boundary anew
      ([System.step]), and the theorems hold for all of them.
    - Code that is not in the repository is a class of operations, with the
      documented behaviour that is relied on as a second class of laws:
      [Cache.TTLCache] (go-cache), [Sched.Scheduling] and [Sched.Quantities]
      (requirements and quantities), [Sched.OfferingLib], [KubeModel.CloudLib]
      and [KubeModel.ConditionLib] (karpenter and operatorpkg),
      [KubeModel.KubeClient] (the API server and the event recorder),
      [OciModel.ComputeClient] and [OciModel.VirtualNetworkClient] (the OCI
      client), [Instance.Shuffler] and [Garbage.WorkOrder] (randomness and
      the work queue).  An instance that satisfies the laws accompanies each
      class, so that no law is vacuous.  [hashstructure], [url.Parse], the
      reader of MIME parts, and JSON and HTTP are arguments.

    ** Files

    - [Prelude]: results, runs, loops, tactics ([res_inv], [run_inv]) and the
      lemmas on them.  [Frame]: what a run keeps of its state, by rules along
      the combinators ([keeps], the tactic [keeping]).  [GoStrings],
      [GoFloat]: the standard library of Go the program uses.  [Rounding]: how
      far a rounded product or quotient is from the exact one.
    - [Threads]: goroutines as calls cut at their client calls and accesses to
      shared variables and mutexes, pools of them, and the rules for what they
      keep, how they end and that they do not wait for ever; the history of a
      thread that has returned, and the walk of a pool it is part of.  [Rely]: threads
      with pre- and postconditions that hold among the steps of others.
    - [GoHeap]: pointers, slices and maps in memory; [DeepCopy]: the generated
      deep copies of [apis/v1alpha1] over it.
    - [Utils] ([utils]), [OciModel] (the records of the SDK and
      [providers/internalmodel]), [Api] ([apis/v1alpha1]), [Options]
      ([operator/options]).
    - [Pricing] ([providers/pricing]), [DefaultPrice] (the embedded list, one
      definition per chunk), [PriceList] (what the calculator does on it).
    - [Cache], [UnavailableOfferings] ([cache]).
    - [Sched], [KubeModel]: the libraries of Kubernetes and karpenter.
      [Paging]: the loop over the pages of a listing; [Selector]: the cached
      listing by selectors that three providers share.
    - [InstanceType] ([providers/instancetype]) and [Metrics] (its gauges),
      [Subnet], [SecurityGroup], [Bootstrap] and [ImageFamily]
      ([providers/imagefamily], [launchtemplate]), [Instance]
      ([providers/instance]).
    - [CloudProvider] ([cloudprovider]) over all of these; its state is the
      caches of the providers, the shared table of unavailable offerings, the
      shared variables of the Ubuntu scripts, and the world.
      [Capacity] follows a launch without capacity through instances, table,
      listing and choice; [ClaimLabels] the labels of a claim from the listing.
    - [OciConfig] ([operator/oci]: configuration, instance metadata, retries)
      and [Operator] ([operator/operator.go]): the start-up.
    - [Reconcile] (results and combined errors, the pricing controller, and
      the interface [Cloud]), [Garbage], [Tagging], [NodeClassHash] (hash and
      termination), [NodeClassStatus]: the passes of [controllers].
      [Workers]: the pass of the collector with its workers in parallel;
      [Collector] discharges [Cloud] with [CloudProvider] and composes the
      collector with it.  [Registration]: what each controller watches and how
      events become requests.
    - [Launches] (what every operation keeps, along its calls) and [System]
      (the program [cmd/controller/main.go] assembles of a started operator: a
      step relation over its operations and the moves of the world).
      [Goroutines]: [CloudProvider.Create] and all it calls, as threads;
      [Concurrent]: the running program with any number of launches side by
      side.
    - [Mock], [FakeCompute], [FakeNetwork] ([fake]): the recording mocks and the
      two clients of the tests, which implement the classes of [OciModel].
      [FakeSpec]: the abstract cloud the compute client refines.  [Fixtures]
      and [FakeEnvironment] ([test]): options, class and environment of the
      tests, and the providers on the fakes.
    - [Toy], [InstanceTypeExamples], [NetworkExamples], [CloudExamples],
      [ControllerExamples], [RegistrationExamples], [StartExamples],
      [SystemExamples], [DeepCopyExamples], [ConcurrentExamples], [FakeExamples]:
      a small concrete cloud, the theorems at concrete inputs, and tests of the
      repository run on the model.

    How they interact: a controller, or karpenter, calls [CloudProvider];
    [CloudProvider.Create] resolves the class of a claim, lists the instance
    types ([InstanceType.List], with the prices of [Pricing] and the table of
    [UnavailableOfferings]), and calls [Instance.Create], which picks a subnet
    ([Subnet]), a type and a zone, makes the launch template and its script
    ([ImageFamily], [Bootstrap]) and launches.  A launch that finds no
    capacity marks the offering, so the next listing leaves it out.
    [Instance.List] finds what was launched by its tags, and the collector
    terminates what no claim owns.

    ** What is shown

    - The running program, with launches side by side:
      [Concurrent.launches_proper] (every launch ever made is of a ready
      class, for a claim it suits), [launches_return] (goroutines do not wait
      for one another for ever), [Concurrent.Create_returns] (what a launch
      that returns a claim has done, among all steps of the run),
      [marks_stay].  [launch_alone] checks the threads against the sequential
      model: with no other beside it, a launch is the operation [DoCreate].
      [System.launched_proper] and
      [System.marked_offering_avoided] are the versions with whole operations
      as steps.
    - Launching: [Instance.Create_safe], [pickBestInstanceType_spec],
      [FindLeastUtilizedSubnet_spec] (the first subnet with the most
      addresses), [launch_failure_spec], [getTags_spec];
      [CloudProvider.Create_spec].  Round trips: [flex_size_roundtrip] (labels
      to launch size) and [launched_is_listed] (tags to listing).  Capacity:
      [capacity_error_avoided], from the refusal to the next choice.  Claims:
      [claim_labels_spec], the exact labels of an instance's claim.
    - Listing and collecting: [InstanceList_spec]; [Workers.Reconciling_spec]
      and [owned_instance_spared], for every order of the workers' calls and of
      those of others; [Collector.leaked_instance_collected], which goes from
      the collector through the cloud provider to the OCI client.
      [Reconcile_is_pass]: the sequential pass of [Garbage] is one of the
      orders.
    - Instance types: [ListInstanceType_fresh], [splitFlexCpuMem_spec],
      [computeRequirements_spec], [CreateOfferings_spec] and
      [NewInstanceType_allocatable] (the capacity, with the memory overhead
      the options set, and that what is reserved is less).  Gauges:
      [metered_List_erases] (the writes neither panic nor change the listing),
      [CreateOfferings_gauges], [listing_gauges].
    - Prices: [FindPriceItems_spec], [Calculate_nonneg],
      [UpdateOnDemandPricing_spec], and the prices of the repository's tests on
      the embedded list.
    - Unavailable offerings: [offerings_refine] (a table of expiry times is
      implemented, over any history) and [SeqNum_tracks].
    - Scripts: [OKE_Script_spec]; the Ubuntu scripts alone and side by side
      ([Ubuntu_scripts_race]); base64 decodes what it encodes.
    - Controllers: [Status_invariant], [Termination_safe],
      [Hash_Reconcile_converges], [Tagging_spec]; drift:
      [drift_comparisons], [isNodeClassDrifted_spec].  Their requests:
      [deleted_class_released] and [class_hash_awaited] (an object that needs
      a pass has a request that is due within the longest back-off).
    - Copies: [OciNodeClass_DeepCopy_isolated] (nothing written to the copy or
      beside it changes the other).
    - Tests: [fake_refines_cloud] (the fake compute client is an abstract cloud,
      over any history of calls), [Invoke_history] (a mock fails as often as its
      budget says), [network_keeps_stored], [compute_keeps_ids],
      [Environment_Reset_spec], and what the fakes hide from the tests:
      [launch_not_listed] (they drop the tags of a launch), [Get_missing] (a
      missing instance is recognised on the fake only), [CreateTags_on_fake].
    - Start-up: [ReadConfig_spec], [NewOCIProvisioner_spec] and
      [NewOperator_spec] (a panic or a fresh operator, never an error).  A
      configuration is completed from the metadata service before it is
      validated.

    Where the code does not do what it means to, the theorem states what it
    does: [Create_first_size] (all sizes of a flexible shape share one name),
    [launched_is_listed] (tags of a class that replace the program's own),
    [launch_failure_spec] (only the on-demand offering is marked),
    [ImageList_spec] (a cache key without the image family),
    [Ubuntu_scripts_race] (shared variables), [subnet_overcommitted] (the check
    for free addresses reserves nothing), [late_collected] (an age read after
    the claims were listed), [toy_gauges] (one gauge for all sizes),
    [Tagging_spec] (only the missing tags are sent),
    [UpdateOnDemandPricing_spec] (a bad HTTP status wipes the catalog),
    [NewOCIProvisioner_spec] (the new passphrase field is never used).

    ** Bounds and fuel

    [Paging.pages] has fuel, one unit per request; [Paging.pages_chain] shows
    that a listing of [n] pages needs [n], and [pages_zero_token] that a
    server that answers with the token ["0"] is asked for ever.  The other
    functions recurse on their data.  [NewInstanceType_allocatable] is for at
    most 512 vCPUs, 2048 GB of memory and 2048 GB of boot volume, where the
    roundings of the tax brackets are checked exhaustively, and any proportion
    of memory overhead from 0 to 1, whose roundings [Rounding] bounds;
    [GetSubnetAvailableIPv4Count_spec] is for IPv4 blocks and whole
    percentages, checked likewise.

    ** What is not modelled

    Log output; what controller-runtime and karpenter's core do with the
    controllers, beyond the laws of [Registration.Runtime]; SDK constructors;
    the embedded resource definitions; the environment and the monitors of the
    end-to-end tests, which poll a real cluster.  In the fakes, copies of an
    instance that share one map of tags are not followed, and created subnets
    and groups have neither tags nor a lifecycle state.
    Concurrency: a launch is divided into its client calls and its accesses to
    the shared variables and the two mutexes, and a pass of the collector into
    the calls of its workers; every other operation is one step, which may fall
    between any two steps of a launch.  The atomicity of a single client call,
    of a cache access and of an access to a variable without a lock is
    assumed; the five fields a Ubuntu script writes first are written in one
    step.  The read-write lock of the prices ([providers/pricing/pricing.go])
    is not modelled: an update holds it over its HTTP request and is one step,
    so no launch ever waits for it.  Contexts are never cancelled: a
    cancellation lets [ParallelizeUntil] skip pieces of the collector's work
    and report no error. *)

From stdpp Require Import base list strings gmap.
From Stdlib Require Import ZArith Lia.

(** ** Go errors

    The error values the program builds or inspects.  [EText] is
    [errors.New] or [fmt.Errorf] without [%w]; [EWrap] is [fmt.Errorf] with
    [%w]; [EService] is an OCI [common.ServiceError]; the [EK8s...] values are
    the API server's status errors; the next three are the typed errors of
    karpenter's [cloudprovider] package; [EMulti] is a [multierr] value.  A
    message keeps the constant text of the format string. *)
Inductive gerror : Type :=
| EText (msg : string)
| EWrap (msg : string) (inner : gerror)
| EService (status : Z) (code msg : string)
| EK8sNotFound
| EK8sConflict
| EK8sOther (msg : string)
| EInsufficientCapacity (inner : gerror)
| ENodeClaimNotFound (inner : option gerror)
| ENodeClassNotReady (inner : gerror)
| EMulti (errs : list gerror).

(** ** Results of Go calls

    [Ok] and [Err] are the two ends of a [(T, error)] return; [Panic] is a run
    that panics (nil dereference, index out of range, [lo.Must]). *)
Inductive res (A : Type) : Type :=
| Ok (a : A)
| Err (e : gerror)
| Panic (why : string).
Arguments Ok {A} a.
Arguments Err {A} e.
Arguments Panic {A} why.

#[export] Instance res_ret : MRet res := λ A a, Ok a.
#[export] Instance res_bind : MBind res := λ A B f m,
  match m with
  | Ok a => f a
  | Err e => Err e
  | Panic w => Panic w
  end.

Definition is_ok {A} (r : res A) : bool :=
  match r with Ok _ => true | _ => false end.

(** Dereference of a Go pointer. *)
Definition deref {A} (p : option A) : res A :=
  match p with Some a => Ok a | None => Panic "nil pointer dereference" end.

(** Index into a slice. *)
Definition index {A} (l : list A) (i : nat) : res A :=
  match l !! i with Some a => Ok a | None => Panic "index out of range" end.

(** [lo.FromPtr] and [utils.ToString]-like reads: the zero value for nil. *)
Definition from_ptr {A} (zero : A) (p : option A) : A := default zero p.

(** ** Stateful runs

    A computation of the program over a state [S] (caches, counters and the
    outside world it calls): the state reached is kept on every outcome, since
    an effect done before an error stays done. *)
Definition run (S A : Type) : Type := S → res A * S.

#[export] Instance run_ret {S} : MRet (run S) := λ A a s, (Ok a, s).
#[export] Instance run_bind {S} : MBind (run S) := λ A B f m s,
  match m s with
  | (Ok a, s') => f a s'
  | (Err e, s') => (Err e, s')
  | (Panic w, s') => (Panic w, s')
  end.

Definition lift {S A} (r : res A) : run S A := λ s, (r, s).
Definition fail {S A} (e : gerror) : run S A := λ s, (Err e, s).
Definition get_state {S} : run S S := λ s, (Ok s, s).
Definition put_state {S} (s' : S) : run S unit := λ _, (Ok tt, s').

(** [if err != nil { return ..., wrap(err) }] *)
Definition map_err {S A} (f : gerror → gerror) (m : run S A) : run S A := λ s,
  match m s with
  | (Err e, s') => (Err (f e), s')
  | r => r
  end.

(** [r, err := m] with the error kept as a value. *)
Definition attempt {S A} (m : run S A) : run S (gerror + A) := λ s,
  match m s with
  | (Ok a, s') => (Ok (inr a), s')
  | (Err e, s') => (Ok (inl e), s')
  | (Panic w, s') => (Panic w, s')
  end.

(** A call into a component whose state is a part of the caller's. *)
Definition zoom {S T A} (get : S → T) (set : T → S → S) (m : run T A) : run S A := λ s,
  let '(r, t) := m (get s) in (r, set t s).

(** [for _, x := range l { b = body(b, x) }], left when [body] returns an error. *)
Fixpoint for_each {S A B} (body : B → A → run S B) (l : list A) (b : B) : run S B :=
  match l with
  | [] => mret b
  | x :: l' => b' ← body b x; for_each body l' b'
  end.

(** [for _, x := range l { if v, ok := f(x) ... }] over results without state. *)
Fixpoint map_res {A B} (f : A → res B) (l : list A) : res (list B) :=
  match l with
  | [] => Ok []
  | x :: l' => y ← f x; ys ← map_res f l'; Ok (y :: ys)
  end.

(** The values that were kept. *)
Definition keep {A} (l : list (option A)) : list A := omap (λ o, o) l.

(** A loop whose body may fail, without state. *)
Fixpoint fold_res {A B} (f : B → A → res B) (b : B) (l : list A) : res B :=
  match l with
  | [] => Ok b
  | x :: l' => b' ← f b x; fold_res f b' l'
  end.

(** ** Iteration over Go maps

    The order in which [range] visits a map is not specified, and differs from
    one loop to the next.  An instance of [MapOrder] has the orders of the loops
    of one operation: [moment] is what tells a loop from the others the
    operation runs over the same map, of any type.  Each operation of the
    running program has an instance of its own ([System.step]). *)
Class MapOrder : Type := {
  range_map : ∀ {M A : Type}, M → gmap string A → list (string * A);
  range_map_perm : ∀ {M A : Type} (moment : M) (m : gmap string A), range_map moment m ≡ₚ map_to_list m
}.

(** The orders of a call made at a moment of an operation. *)
Definition during `{order : MapOrder} {N : Type} (moment : N) : MapOrder := {|
  range_map := λ M A m, range_map (moment, m);
  range_map_perm := λ M A m, range_map_perm (moment, m)
|}.

(** The order of [map_to_list], for examples. *)
Definition list_order : MapOrder :=
  {| range_map := λ M A _ m, map_to_list m; range_map_perm := λ M A _ m, Permutation_refl _ |}.

(** [lo.Values] *)
Definition map_values `{MapOrder} {M A} (moment : M) (m : gmap string A) : list A := map snd (range_map moment m).

(** ** Lemmas *)

Lemma bind_Ok {A B} (m : res A) (f : A → res B) (b : B) :
  m ≫= f = Ok b ↔ ∃ a, m = Ok a ∧ f a = Ok b.
Proof.
  destruct m as [a|e|w]; simpl; split.
  - eauto.
  - by intros (? & [= <-] & ?).
  - done.
  - by intros (? & ? & ?).
  - done.
  - by intros (? & ? & ?).
Qed.

(** A run that ends well did so after each of its steps did. *)
Lemma run_bind_Ok {S A B} (m : run S A) (f : A → run S B) (s s' : S) (b : B) :
  (m ≫= f) s = (Ok b, s') ↔ ∃ a s1, m s = (Ok a, s1) ∧ f a s1 = (Ok b, s').
Proof.
  unfold mbind, run_bind. destruct (m s) as [[a|e|w] s1]; split.
  - eauto.
  - by intros (? & ? & [= <- <-] & ?).
  - done.
  - by intros (? & ? & ? & ?).
  - done.
  - by intros (? & ? & ? & ?).
Qed.

Lemma run_bind_step {S A B} (m : run S A) (f : A → run S B) s a s1 :
  m s = (Ok a, s1) → (m ≫= f) s = f a s1.
Proof. intros Hm. unfold mbind, run_bind. by rewrite Hm. Qed.

Lemma run_bind_stop {S A B} (m : run S A) (f : A → run S B) s e s1 :
  m s = (Err e, s1) → (m ≫= f) s = (Err e, s1).
Proof. intros Hm. unfold mbind, run_bind. by rewrite Hm. Qed.

Lemma for_each_app {S A B} (body : B → A → run S B) l1 l2 b s :
  for_each body (l1 ++ l2) b s = (for_each body l1 b ≫= for_each body l2) s.
Proof.
  revert b s; induction l1 as [|x l1 IH]; intros b s; [done|]. simpl.
  unfold mbind, run_bind at 1 2 3. destruct (body b x s) as [[b'|e|w] s1]; [|done..].
  by rewrite IH.
Qed.

(** An invariant of the body is one of the loop. *)
Lemma for_each_inv {S A B} (body : B → A → run S B) (P : B → S → Prop) l b s b' s' :
  P b s →
  (∀ x b s b' s', x ∈ l → P b s → body b x s = (Ok b', s') → P b' s') →
  for_each body l b s = (Ok b', s') → P b' s'.
Proof.
  revert b s; induction l as [|x l IH]; intros b s HP Hstep.
  - by intros [= <- <-].
  - simpl. intros (b1 & s1 & Hb & Hl)%run_bind_Ok.
    apply (IH b1 s1); [|intros; eapply Hstep; [by right|..]; eauto|done].
    eapply Hstep; [by left|done|done].
Qed.

Lemma map_res_Ok {A B} (f : A → res B) l ys :
  map_res f l = Ok ys ↔ Forall2 (λ x y, f x = Ok y) l ys.
Proof.
  revert ys; induction l as [|x l IH]; intros ys; simpl.
  - split; [by intros [= <-]|by inversion 1].
  - rewrite bind_Ok. split.
    + intros (y & Hy & (zs & Hz & [= <-])%bind_Ok). constructor; [done|]. by apply IH.
    + inversion 1; subst. eexists. split; [done|]. apply bind_Ok.
      eexists. split; [by apply IH|done].
Qed.

(** A loop whose body always ends well. *)
Lemma map_res_total {A B} (f : A → res B) (P : A → B → Prop) l :
  (∀ x, x ∈ l → ∃ y, f x = Ok y ∧ P x y) →
  ∃ ys, map_res f l = Ok ys ∧ Forall2 P l ys.
Proof.
  induction l as [|x l IH]; intros Hf; [by exists []|].
  destruct (Hf x) as (y & Hy & HP); [by left|].
  destruct IH as (ys & Hys & Hall); [intros; apply Hf; by right|].
  exists (y :: ys). simpl. rewrite Hy. simpl. rewrite Hys. by split; [|constructor].
Qed.

Lemma range_map_lookup `{MapOrder} {M A} (moment : M) (m : gmap string A) k a :
  (k, a) ∈ range_map moment m ↔ m !! k = Some a.
Proof. by rewrite range_map_perm, elem_of_map_to_list. Qed.

Lemma range_map_NoDup `{MapOrder} {M A} (moment : M) (m : gmap string A) : NoDup (range_map moment m).*1.
Proof. rewrite range_map_perm. apply NoDup_fst_map_to_list. Qed.

Lemma map_values_perm `{MapOrder} {M N A} (moment : M) (other : N) (m : gmap string A) :
  map_values moment m ≡ₚ map_values other m.
Proof. apply Permutation_map. by rewrite !range_map_perm. Qed.

Lemma map_values_elem `{MapOrder} {M A} (moment : M) (m : gmap string A) a :
  a ∈ map_values moment m ↔ ∃ k, m !! k = Some a.
Proof.
  unfold map_values. rewrite list_elem_of_fmap. split.
  - intros ([k x] & -> & Hx%range_map_lookup). eauto.
  - intros (k & Hk). exists (k, a). by rewrite range_map_lookup.
Qed.

Lemma deref_Ok {A} (p : option A) a : deref p = Ok a ↔ p = Some a.
Proof. destruct p; simpl; naive_solver. Qed.

Lemma map_err_Ok {S A} f (m : run S A) s a s' : map_err f m s = (Ok a, s') ↔ m s = (Ok a, s').
Proof. unfold map_err. destruct (m s) as [[]]; naive_solver. Qed.

Lemma attempt_Ok {S A} (m : run S A) s r s' :
  attempt m s = (Ok r, s') ↔ match r with inl e => m s = (Err e, s') | inr a => m s = (Ok a, s') end.
Proof. unfold attempt. destruct (m s) as [[a|e|w] s1], r; naive_solver. Qed.

Lemma lift_Ok {S A} (m : res A) (s s' : S) a : lift m s = (Ok a, s') ↔ m = Ok a ∧ s' = s.
Proof. unfold lift. naive_solver. Qed.

(** ** Automation

    [res_inv] takes apart every hypothesis that a chain of binds ended well. *)
Ltac res_inv :=
  repeat match goal with
  | H : mbind _ _ = Ok _ |- _ => apply bind_Ok in H as (? & ? & ?)
  | H : deref _ = Ok _ |- _ => apply deref_Ok in H
  | H : Ok _ = Ok _ |- _ => injection H; clear H; intros; subst
  | H : Err _ = Ok _ |- _ => discriminate H
  | H : Panic _ = Ok _ |- _ => discriminate H
  | H : mret _ = Ok _ |- _ => unfold mret, res_ret in H
  | H1 : ?e = Ok ?a, H2 : ?e = Ok ?b |- _ => rewrite H1 in H2; injection H2; clear H2; intros; subst
  end.

(** ... with the cases of the integer comparisons it made. *)
Ltac ltb_inv :=
  repeat (res_inv; try done;
    match goal with H : context [Z.ltb ?a ?b] |- _ => destruct (Z.ltb_spec a b) end).

(** ... and [run_inv] those of stateful runs. *)
Ltac run_inv :=
  repeat match goal with
  | H : mbind _ _ _ = (Ok _, _) |- _ => apply run_bind_Ok in H as (? & ? & ? & ?)
  | H : mret _ _ = (Ok _, _) |- _ => injection H; clear H; intros; subst
  | H : (Ok _, _) = (Ok _, _) |- _ => injection H; clear H; intros; subst
  end.

#[export] Hint Rewrite @run_bind_Ok @bind_Ok @deref_Ok : run.
