(* ===== verification/Frame.v ===== *)
(** * What a run leaves as it was

    [keeps P m]: from a state with [P], the run [m] ends in one with [P],
    whatever it returns.  The rules follow the combinators of [Prelude]; the
    tactic [keeping] applies them to the body of an operation. *)

From stdpp Require Import base list strings gmap.
From Stdlib Require Import ZArith Lia.
From S2P Require Import Prelude.

Definition keeps {S A} (P : S → Prop) (m : run S A) : Prop := ∀ s, P s → P (m s).2.

Section Rules.
Context {S : Type} (P : S → Prop).

Lemma keeps_ret {A} (a : A) : keeps P (mret a).
Proof. by intros s. Qed.
Lemma keeps_lift {A} (r : res A) : keeps P (lift r).
Proof. by intros s. Qed.
Lemma keeps_fail {A} e : keeps P (fail e : run S A).
Proof. by intros s. Qed.

Lemma keeps_bind {A B} (m : run S A) (f : A → run S B) :
  keeps P m → (∀ a, keeps P (f a)) → keeps P (m ≫= f).
Proof.
  intros Hm Hf s Hs. specialize (Hm s Hs). unfold mbind, run_bind.
  destruct (m s) as [[a|e|why] s']; [by apply Hf|done..].
Qed.

(** ... when the rest relies on what the first part returns. *)
Lemma keeps_bind_post {A B} (m : run S A) (f : A → run S B) (Q : A → Prop) :
  keeps P m → (∀ s a s', m s = (Ok a, s') → Q a) → (∀ a, Q a → keeps P (f a)) → keeps P (m ≫= f).
Proof.
  intros Hm HQ Hf s Hs. specialize (Hm s Hs). unfold mbind, run_bind.
  destruct (m s) as [[a|e|why] s'] eqn:E; [|done..]. apply Hf; [by eapply HQ|done].
Qed.
Lemma keeps_bind_lift {A B} (r : res A) (f : A → run S B) :
  (∀ a, r = Ok a → keeps P (f a)) → keeps P (lift r ≫= f).
Proof.
  intros Hf. apply (keeps_bind_post _ _ (λ a, r = Ok a)); [apply keeps_lift| |done].
  by intros s a s' [? _]%lift_Ok.
Qed.

(** ... and when it starts from the state that was read. *)
Lemma keeps_get {B} (f : S → run S B) : (∀ s, P s → P (f s s).2) → keeps P (get_state ≫= f).
Proof. intros Hf s Hs. by apply Hf. Qed.

(** ... when what follows keeps [P] whatever was read. *)
Lemma keeps_read {B} (f : S → run S B) : (∀ s, keeps P (f s)) → keeps P (get_state ≫= f).
Proof. intros Hf. apply keeps_get. intros s Hs. by apply Hf. Qed.

Lemma keeps_attempt {A} (m : run S A) : keeps P m → keeps P (attempt m).
Proof. intros Hm s Hs. specialize (Hm s Hs). unfold attempt. by destruct (m s) as [[]]. Qed.
Lemma keeps_map_err {A} f (m : run S A) : keeps P m → keeps P (map_err f m).
Proof. intros Hm s Hs. specialize (Hm s Hs). unfold map_err. by destruct (m s) as [[]]. Qed.

Lemma keeps_for_each {A B} (body : B → A → run S B) l b :
  (∀ b x, keeps P (body b x)) → keeps P (for_each body l b).
Proof.
  intros Hb. revert b. induction l as [|x l IH]; intros b; [apply keeps_ret|]. simpl. by apply keeps_bind.
Qed.

(** A property of a part of the state, which may depend on the rest. *)
Lemma keeps_part {T A} (Q : S → T → Prop) (get : S → T) (set : T → S → S) (m : run T A) :
  (∀ s, keeps (Q s) m) → (∀ s, P s → Q s (get s)) → (∀ s t, P s → Q s t → P (set t s)) → keeps P (zoom get set m).
Proof.
  intros Hm Hget Hset s Hs. specialize (Hm s (get s) (Hget s Hs)). unfold zoom.
  destruct (m (get s)) as [r t]. by apply Hset.
Qed.
Lemma keeps_zoom {T A} (Q : T → Prop) (get : S → T) (set : T → S → S) (m : run T A) :
  keeps Q m → (∀ s, P s → Q (get s)) → (∀ s t, P s → Q t → P (set t s)) → keeps P (zoom get set m).
Proof. intros Hm. by apply (keeps_part (λ _, Q)). Qed.
End Rules.


Create HintDb keeps.
#[export] Hint Resolve keeps_ret keeps_lift keeps_fail keeps_attempt keeps_map_err : keeps.

(** One rule, or one case analysis, at a time. *)
Ltac keeping_step :=
  match goal with
  | |- keeps _ (mbind _ get_state) => apply keeps_get; intros ? ?; try done
  | |- keeps _ (mbind _ _) => apply keeps_bind; [|intros ?]
  | |- keeps _ (attempt _) => apply keeps_attempt
  | |- keeps _ (map_err _ _) => apply keeps_map_err
  | |- keeps _ (for_each _ _ _) => apply keeps_for_each; intros ? ?
  | |- keeps _ (if ?b then _ else _) => destruct b
  | |- keeps _ (match ?x with _ => _ end) => destruct x
  | |- keeps _ (let '_ := ?x in _) => destruct x
  end.
Ltac keeping := repeat first [solve [eauto with keeps] | keeping_step].
