(* ===== verification/Threads.v ===== *)
(** * Goroutines

    Karpenter calls [Create] for several claims at a time and controller-runtime
    runs its controllers side by side.  A [thread] is such a call cut into the
    steps that no other goroutine can divide: a client call, an access to a
    shared variable or cache, [Lock] and [Unlock] of a [sync.Mutex].  A thread
    run alone is a [run] ([seq]); a pool of threads runs in any order. *)

From stdpp Require Import base list strings gmap relations.
From Stdlib Require Import ZArith Lia.
From S2P Require Import Prelude Frame.

(** [Act m k]: the step [m], then [k] of what it returned. *)
Inductive thread (L S A : Type) : Type :=
| Done (r : res A)
| Act (B : Type) (m : run S B) (k : res B → thread L S A)
| Lock (l : L) (k : thread L S A)
| Unlock (l : L) (k : thread L S A).
Arguments Done {L S A} r.
Arguments Act {L S A B} m k.
Arguments Lock {L S A} l k.
Arguments Unlock {L S A} l k.

(** ** Combinators *)

Section Combinators.
Context {L S : Type}.

(** [f] of what [t] returns, errors and panics included. *)
Fixpoint after {A B} (t : thread L S A) (f : res A → thread L S B) : thread L S B :=
  match t with
  | Done r => f r
  | Act m k => Act m (λ r, after (k r) f)
  | Lock l t => Lock l (after t f)
  | Unlock l t => Unlock l (after t f)
  end.

#[export] Instance thread_ret : MRet (thread L S) := λ A a, Done (Ok a).
#[export] Instance thread_bind : MBind (thread L S) := λ A B f t,
  after t (λ r, match r with Ok a => f a | Err e => Done (Err e) | Panic w => Done (Panic w) end).

Definition act {A} (m : run S A) : thread L S A := Act m Done.
Definition pure {A} (r : res A) : thread L S A := Done r.
Definition throw {A} (e : gerror) : thread L S A := Done (Err e).

(** [attempt], [map_err], [for_each] of [Prelude]. *)
Definition attempting {A} (t : thread L S A) : thread L S (gerror + A) :=
  after t (λ r, Done (match r with Ok a => Ok (inr a) | Err e => Ok (inl e) | Panic w => Panic w end)).
Definition mapping_err {A} (f : gerror → gerror) (t : thread L S A) : thread L S A :=
  after t (λ r, Done (match r with Err e => Err (f e) | r => r end)).
Fixpoint each {A B} (body : B → A → thread L S B) (l : list A) (b : B) : thread L S B :=
  match l with
  | [] => mret b
  | x :: l' => b' ← body b x; each body l' b'
  end.

(** [for _, x := range l { ys = append(ys, f(x)) }] *)
Fixpoint collecting {A B} (f : A → thread L S B) (l : list A) : thread L S (list B) :=
  match l with
  | [] => mret []
  | x :: l' => y ← f x; ys ← collecting f l'; mret (y :: ys)
  end.

(** A read of the shared state, and an update of it. *)
Definition reading {A} (f : S → res A) : thread L S A := act (λ s, (f s, s)).
Definition updating (f : S → S) : thread L S unit := act (λ s, (Ok tt, f s)).

(** [mu.Lock(); defer mu.Unlock()]: the lock is given back on every way out. *)
Definition locked {A} (l : L) (t : thread L S A) : thread L S A :=
  Lock l (after t (λ r, Unlock l (Done r))).
End Combinators.

(** A thread of a component whose state is a part of the caller's. *)
Fixpoint zooming {L S T A} (get : S → T) (set : T → S → S) (t : thread L T A) : thread L S A :=
  match t with
  | Done r => Done r
  | Act m k => Act (zoom get set m) (λ r, zooming get set (k r))
  | Lock l t => Lock l (zooming get set t)
  | Unlock l t => Unlock l (zooming get set t)
  end.

(** ** Alone *)

(** No other goroutine: every lock is free. *)
Fixpoint seq {L S A} (t : thread L S A) : run S A :=
  match t with
  | Done r => lift r
  | Act m k => λ s, let '(r, s') := m s in seq (k r) s'
  | Lock _ t | Unlock _ t => seq t
  end.

(** [t], alone, is [m]. *)
Definition implements {L S A} (t : thread L S A) (m : run S A) : Prop := ∀ s, seq t s = m s.

Section Alone.
Context {L S : Type}.

Lemma seq_after {A B} (t : thread L S A) (f : res A → thread L S B) s :
  seq (after t f) s = let '(r, s') := seq t s in seq (f r) s'.
Proof.
  revert s. induction t as [r|B' m k IH|l t IH|l t IH]; intros s; [done| |by apply IH..].
  simpl. destruct (m s) as [r s']. apply IH.
Qed.

Lemma implements_ret {A} (a : A) : implements (mret a : thread L S A) (mret a).
Proof. done. Qed.
Lemma implements_act {A} (m : run S A) : implements (act m : thread L S A) m.
Proof. intros s. simpl. by destruct (m s). Qed.
Lemma implements_pure {A} (r : res A) : implements (pure r : thread L S A) (lift r).
Proof. done. Qed.
Lemma implements_throw {A} e : implements (throw e : thread L S A) (fail e).
Proof. done. Qed.
Lemma implements_bind {A B} (t : thread L S A) (m : run S A) (f : A → thread L S B) (g : A → run S B) :
  implements t m → (∀ a, implements (f a) (g a)) → implements (t ≫= f) (m ≫= g).
Proof.
  intros Ht Hf s. unfold mbind, thread_bind, run_bind. rewrite seq_after, Ht.
  destruct (m s) as [[a|e|w] s']; [apply Hf|done..].
Qed.
Lemma implements_attempt {A} (t : thread L S A) (m : run S A) :
  implements t m → implements (attempting t) (attempt m).
Proof.
  intros Ht s. unfold attempting, attempt. rewrite seq_after, Ht. by destruct (m s) as [[]].
Qed.
Lemma implements_map_err {A} f (t : thread L S A) (m : run S A) :
  implements t m → implements (mapping_err f t) (map_err f m).
Proof.
  intros Ht s. unfold mapping_err, map_err. rewrite seq_after, Ht. by destruct (m s) as [[]].
Qed.
Lemma implements_each {A B} (body : B → A → thread L S B) (g : B → A → run S B) l b :
  (∀ b x, implements (body b x) (g b x)) → implements (each body l b) (for_each g l b).
Proof.
  intros Hb. revert b. induction l as [|x l IH]; intros b; [done|]. simpl. by apply implements_bind.
Qed.
Lemma implements_reading {A} (f : S → res A) : implements (reading f : thread L S A) (λ s, (f s, s)).
Proof. done. Qed.
(** A part of the state read first, where the run reads all of it. *)
Lemma implements_get {A B} (f : S → A) (u : A → thread L S B) (v : S → run S B) :
  (∀ s, seq (u (f s)) s = v s s) → implements (reading (λ s, Ok (f s)) ≫= u) (get_state ≫= v).
Proof. intros Hu s. apply Hu. Qed.
(** Reads only, all of the same state. *)
Lemma implements_collecting {A B} (f : A → thread L S B) (g : S → A → res B) l :
  (∀ x, implements (f x) (λ s, (g s x, s))) → implements (collecting f l) (λ s, (map_res (g s) l, s)).
Proof.
  intros Hf. induction l as [|x l IH]; intros s; [done|]. simpl. unfold mbind at 1, thread_bind at 1.
  rewrite seq_after, Hf. destruct (g s x) as [y|e|w]; [|done..]. simpl. unfold mbind at 1, thread_bind.
  rewrite seq_after, IH. by destruct (map_res (g s) l).
Qed.
Lemma implements_locked {A} l (t : thread L S A) (m : run S A) : implements t m → implements (locked l t) m.
Proof. intros Ht s. simpl. rewrite seq_after, Ht. by destruct (m s). Qed.
Lemma implements_eq {A} (t : thread L S A) (m m' : run S A) :
  implements t m → (∀ s, m s = m' s) → implements t m'.
Proof. intros Ht Hm s. by rewrite Ht. Qed.
End Alone.

(** A part of a state: what was set is what is found there. *)
Record part_of {S T} (get : S → T) (set : T → S → S) : Prop := {
  get_set s t : get (set t s) = t;
  set_set s t1 t2 : set t2 (set t1 s) = set t2 s;
  set_get s : set (get s) s = s
}.

Lemma implements_zoom {L S T A} (get : S → T) (set : T → S → S) (t : thread L T A) (m : run T A) :
  part_of get set → implements t m → implements (zooming get set t) (zoom get set m).
Proof.
  intros [Hgs Hss Hsg] Ht s. unfold zoom. rewrite <- Ht. clear Ht m.
  revert s. induction t as [r|B m k IH|l t IH|l t IH]; intros s; [|..|by apply IH|by apply IH].
  - simpl. unfold lift. by rewrite Hsg.
  - simpl. unfold zoom. destruct (m (get s)) as [r u]. rewrite IH, Hgs. by destruct (seq (k r) u) as [r' u'], (Hss s u u').
Qed.

Create HintDb implements.
#[export] Hint Resolve implements_ret implements_act implements_pure implements_throw implements_reading : implements.

(** One rule at a time. *)
Ltac implementing_step :=
  match goal with
  | |- implements (mbind _ _) (mbind _ _) => apply implements_bind; [|intros ?]
  | |- implements (attempting _) (attempt _) => apply implements_attempt
  | |- implements (mapping_err _ _) (map_err _ _) => apply implements_map_err
  | |- implements (each _ _ _) (for_each _ _ _) => apply implements_each; intros ? ?
  | |- implements (locked _ _) _ => apply implements_locked
  | |- implements (if ?b then _ else _) _ => destruct b
  | |- implements (match ?x with _ => _ end) _ => destruct x
  end.
Ltac implementing := repeat first [solve [eauto with implements] | implementing_step].

(** ** What the steps keep

    [guar P t]: every step of [t] keeps [P], whatever others do to the state
    between two steps. *)
Fixpoint guar {L S A} (P : S → Prop) (t : thread L S A) : Prop :=
  match t with
  | Done _ => True
  | Act m k => keeps P m ∧ ∀ s, guar P (k (m s).1)
  | Lock _ t | Unlock _ t => guar P t
  end.

(** [t] may end with [r], each of its steps in some state. *)
Fixpoint ends {L S A} (t : thread L S A) (r : res A) : Prop :=
  match t with
  | Done r' => r' = r
  | Act m k => ∃ s, ends (k (m s).1) r
  | Lock _ t | Unlock _ t => ends t r
  end.

Section Steps.
Context {L S : Type}.

Lemma ends_after {A B} (t : thread L S A) (f : res A → thread L S B) r :
  ends (after t f) r ↔ ∃ r0, ends t r0 ∧ ends (f r0) r.
Proof.
  induction t as [r'|B' m k IH|l t IH|l t IH]; simpl; [naive_solver| |done..].
  split.
  - intros [s (r0 & H0 & Hr)%IH]. eauto.
  - intros (r0 & [s H0] & Hr). exists s. apply IH. eauto.
Qed.
Lemma ends_act {A} (m : run S A) r : ends (act m : thread L S A) r ↔ ∃ s, (m s).1 = r.
Proof. done. Qed.
Lemma ends_bind {A B} (t : thread L S A) (f : A → thread L S B) r :
  ends (t ≫= f) r ↔ (∃ a, ends t (Ok a) ∧ ends (f a) r) ∨ (∃ e, ends t (Err e) ∧ r = Err e) ∨
    (∃ w, ends t (Panic w) ∧ r = Panic w).
Proof.
  unfold mbind, thread_bind. rewrite ends_after. split.
  - intros ([a|e|w] & Ht & Hr); simpl in Hr; [left|right; left|right; right]; eauto.
  - intros [(a & Ht & Hr)|[(e & Ht & ->)|(w & Ht & ->)]]; eexists; (split; [exact Ht|done]).
Qed.
Lemma ends_bind_Ok {A B} (t : thread L S A) (f : A → thread L S B) b :
  ends (t ≫= f) (Ok b) ↔ ∃ a, ends t (Ok a) ∧ ends (f a) (Ok b).
Proof. rewrite ends_bind. naive_solver. Qed.
Lemma ends_attempt {A} (t : thread L S A) r :
  ends (attempting t) (Ok r) ↔ match r with inl e => ends t (Err e) | inr a => ends t (Ok a) end.
Proof.
  unfold attempting. rewrite ends_after. split.
  - intros ([a|e|w] & Ht & Hr); simpl in Hr; by simplify_eq.
  - destruct r as [e|a]; intros Ht; eexists; (split; [done|done]).
Qed.
Lemma ends_map_err {A} f (t : thread L S A) a : ends (mapping_err f t) (Ok a) ↔ ends t (Ok a).
Proof.
  unfold mapping_err. rewrite ends_after. split.
  - intros ([b|e|w] & Ht & Hr); simpl in Hr; by simplify_eq.
  - intros Ht. eexists. by split; [exact Ht|].
Qed.
Lemma ends_locked {A} l (t : thread L S A) r : ends (locked l t) r ↔ ends t r.
Proof. simpl. rewrite ends_after. simpl. naive_solver. Qed.

(** A run alone is one way to end. *)
Lemma seq_ends {A} (t : thread L S A) s : ends t (seq t s).1.
Proof.
  revert s. induction t as [r|B m k IH|l t IH|l t IH]; intros s; simpl; [done| |by apply IH..].
  exists s. destruct (m s) as [r s'] eqn:E. simpl. apply (IH r s').
Qed.

Context (P : S → Prop).

Lemma guar_after {A B} (t : thread L S A) (f : res A → thread L S B) :
  guar P t → (∀ r, ends t r → guar P (f r)) → guar P (after t f).
Proof.
  induction t as [r|B' m k IH|l t IH|l t IH]; simpl; [by auto| |by auto..].
  intros [Hm Hk] Hf. split; [done|]. intros s. apply IH; [done|]. eauto.
Qed.
Lemma guar_ret {A} (a : A) : guar P (mret a : thread L S A).
Proof. done. Qed.
Lemma guar_pure {A} (r : res A) : guar P (pure r : thread L S A).
Proof. done. Qed.
Lemma guar_throw {A} e : guar P (throw e : thread L S A).
Proof. done. Qed.
Lemma guar_act {A} (m : run S A) : keeps P m → guar P (act m : thread L S A).
Proof. done. Qed.
Lemma guar_bind {A B} (t : thread L S A) (f : A → thread L S B) :
  guar P t → (∀ a, ends t (Ok a) → guar P (f a)) → guar P (t ≫= f).
Proof. intros Ht Hf. apply guar_after; [done|]. intros [a|e|w] Hr; [by apply Hf|done..]. Qed.
Lemma guar_attempt {A} (t : thread L S A) : guar P t → guar P (attempting t).
Proof. intros Ht. by apply guar_after. Qed.
Lemma guar_map_err {A} f (t : thread L S A) : guar P t → guar P (mapping_err f t).
Proof. intros Ht. by apply guar_after. Qed.
Lemma guar_each {A B} (body : B → A → thread L S B) l b :
  (∀ b x, guar P (body b x)) → guar P (each body l b).
Proof. intros Hb. revert b. induction l as [|x l IH]; intros b; [done|]. simpl. by apply guar_bind. Qed.
Lemma guar_collecting {A B} (f : A → thread L S B) l : (∀ x, guar P (f x)) → guar P (collecting f l).
Proof. intros Hf. induction l as [|x l IH]; [done|]. simpl. apply guar_bind; [done|]. intros y _. by apply guar_bind. Qed.
Lemma guar_reading {A} (f : S → res A) : guar P (reading f : thread L S A).
Proof. split; [by intros s|done]. Qed.
Lemma guar_updating (f : S → S) : (∀ s, P s → P (f s)) → guar P (updating f : thread L S unit).
Proof. intros Hf. by split. Qed.
Lemma guar_locked {A} l (t : thread L S A) : guar P t → guar P (locked l t).
Proof. intros Ht. by apply guar_after. Qed.
End Steps.

(** A property of a part, that may depend on the rest of the state. *)
Lemma guar_zoom {L S T A} (P : S → Prop) (Q : S → T → Prop) (get : S → T) (set : T → S → S) (t : thread L T A) :
  (∀ s, guar (Q s) t) → (∀ s, P s → Q s (get s)) → (∀ s u, P s → Q s u → P (set u s)) → guar P (zooming get set t).
Proof.
  intros Ht Hget Hset. induction t as [r|B m k IH|l t IH|l t IH]; simpl; [done| |by apply IH..].
  split.
  - apply (keeps_part _ Q); [|done..]. intros s. apply Ht.
  - intros s. unfold zoom. destruct (m (get s)) as [r u] eqn:Hm. simpl. apply IH. intros s'.
    destruct (Ht s') as [_ Hk]. specialize (Hk (get s)). by rewrite Hm in Hk.
Qed.
Lemma ends_zoom {L S T A} (get : S → T) (set : T → S → S) (t : thread L T A) r : ends (zooming get set t) r → ends t r.
Proof.
  induction t as [r'|B m k IH|l t IH|l t IH]; simpl; [done| |done..].
  intros [s Hs]. exists (get s). unfold zoom in Hs. destruct (m (get s)) as [r0 u]. by apply IH.
Qed.

Create HintDb guar.
#[export] Hint Resolve guar_ret guar_pure guar_throw guar_reading : guar.

Ltac guarding_step :=
  match goal with
  | |- guar _ (mbind _ _) => apply guar_bind; [|intros ? ?]
  | |- guar _ (act _) => apply guar_act; try solve [keeping]
  | |- guar _ (attempting _) => apply guar_attempt
  | |- guar _ (mapping_err _ _) => apply guar_map_err
  | |- guar _ (each _ _ _) => apply guar_each; intros ? ?
  | |- guar _ (collecting _ _) => apply guar_collecting; intros ?
  | |- guar _ (locked _ _) => apply guar_locked
  | |- guar _ (if ?b then _ else _) => destruct b
  | |- guar _ (match ?x with _ => _ end) => destruct x
  end.
Ltac guarding := repeat first [solve [eauto with guar] | guarding_step].

(** ... and the last result of a thread that ended well, taken apart. *)
Ltac ends_inv :=
  repeat match goal with
  | H : ends (mbind _ _) (Ok _) |- _ => apply ends_bind_Ok in H as (? & ? & H)
  | H : ends (attempting _) (Ok _) |- _ => apply ends_attempt in H
  | H : ends (mapping_err _ _) (Ok _) |- _ => apply ends_map_err in H
  | H : ends (locked _ _) _ |- _ => apply ends_locked in H
  | H : ends (act _) _ |- _ => destruct H as [? H]; cbn [ends] in H
  | H : ends (reading _) _ |- _ => destruct H as [? H]; cbn [ends] in H
  | H : ends (throw _) (Ok _) |- _ => discriminate H
  | H : ends (pure ?r) (Ok _) |- _ => change (r = Ok _) in H
  | H : ends (mret _) (Ok _) |- _ => injection H; clear H; intros; subst
  end.

(** ** Histories

    [history t l r]: [t] may end with [r] after the steps [l], each from the
    state before it to the state after it; others may change the state between
    two of them. *)
Fixpoint history {L S A} (t : thread L S A) (l : list (S * S)) (r : res A) : Prop :=
  match t with
  | Done r' => l = [] ∧ r' = r
  | Act m k => ∃ s l', l = (s, (m s).2) :: l' ∧ history (k (m s).1) l' r
  | Lock _ t | Unlock _ t => history t l r
  end.

Section Histories.
Context {L S : Type}.

Lemma history_ends {A} (t : thread L S A) l r : history t l r → ends t r.
Proof.
  revert l. induction t as [r'|B m k IH|l' t IH|l' t IH]; intros l; simpl; [by intros [_ ->]| |by apply IH..].
  intros (s & l' & _ & Hk). exists s. by eapply IH.
Qed.

Lemma history_after {A B} (t : thread L S A) (f : res A → thread L S B) l r :
  history (after t f) l r → ∃ r0 l1 l2, l = (l1 ++ l2)%list ∧ history t l1 r0 ∧ history (f r0) l2 r.
Proof.
  revert l. induction t as [r'|B' m k IH|l' t IH|l' t IH]; intros l; simpl; [|..|by apply IH|by apply IH].
  - intros Hl. by exists r', [], l.
  - intros (s & l' & -> & (r0 & l1 & l2 & -> & H1 & H2)%IH). exists r0, ((s, (m s).2) :: l1), l2.
    split_and!; [done| |done]. by exists s, l1.
Qed.
Lemma history_bind_Ok {A B} (t : thread L S A) (f : A → thread L S B) l b :
  history (t ≫= f) l (Ok b) → ∃ a l1 l2, l = (l1 ++ l2)%list ∧ history t l1 (Ok a) ∧ history (f a) l2 (Ok b).
Proof.
  intros ([a|e|w] & l1 & l2 & -> & H1 & H2)%history_after; [by exists a, l1, l2|by destruct H2..].
Qed.
Lemma history_attempt {A} (t : thread L S A) l r :
  history (attempting t) l (Ok r) → match r with inl e => history t l (Err e) | inr a => history t l (Ok a) end.
Proof.
  intros ([a|e|w] & l1 & l2 & -> & H1 & [-> H2])%history_after; simplify_eq; by rewrite app_nil_r.
Qed.
Lemma history_map_err {A} f (t : thread L S A) l a : history (mapping_err f t) l (Ok a) → history t l (Ok a).
Proof.
  intros ([b|e|w] & l1 & l2 & -> & H1 & [-> H2])%history_after; simplify_eq; by rewrite app_nil_r.
Qed.
Lemma history_act {A} (m : run S A) l r :
  history (act m : thread L S A) l r → ∃ s, l = [(s, (m s).2)] ∧ (m s).1 = r.
Proof. intros (s & l' & -> & -> & Hr). by exists s. Qed.

(** A part of a state that no step changes. *)
Lemma history_quiet {A X} (f : S → X) (t : thread L S A) l r :
  (∀ x, guar (λ s, f s = x) t) → history t l r → Forall (λ p, f p.2 = f p.1) l.
Proof.
  intros Ht. revert l. induction t as [r'|B m k IH|l' t IH|l' t IH]; intros l; simpl in *; [|..|by apply IH|by apply IH].
  - intros [-> _]. apply Forall_nil_2.
  - intros (s & l' & -> & Hl). apply Forall_cons_2.
    + destruct (Ht (f s)) as [Hm _]. by apply Hm.
    + eapply IH, Hl. intros x. by apply Ht.
Qed.
Lemma guar_True {A} (t : thread L S A) : guar (λ _, True) t.
Proof. induction t; simpl; [done| |done..]. by split. Qed.
End Histories.

(** What is seen of the state is the component's, step by step ... *)
Lemma history_zoom {L S T X A} (get : S → T) (set : T → S → S) (f : S → X) (g : T → X) (t : thread L T A) l r :
  (∀ s, f s = g (get s)) → (∀ s u, f (set u s) = g u) → history (zooming get set t) l r →
  ∃ l', history t l' r ∧ map (prod_map f f) l = map (prod_map g g) l'.
Proof.
  intros Hget Hset. revert l. induction t as [r'|B m k IH|l0 t IH|l0 t IH]; intros l; simpl; [|..|by apply IH|by apply IH].
  - intros [-> Hr]. by exists [].
  - intros (s & l' & -> & Hl). unfold zoom in *. destruct (m (get s)) as [r0 u] eqn:Hm. simpl in *.
    destruct (IH r0 _ Hl) as (l1 & H1 & Heq). exists ((get s, u) :: l1). split.
    + exists (get s), l1. by rewrite Hm.
    + simpl. rewrite Heq. unfold prod_map. simpl. by rewrite Hget, Hset.
Qed.
(** ... or not at all. *)
Lemma history_unseen {L S T X A} (get : S → T) (set : T → S → S) (f : S → X) (t : thread L T A) l r :
  (∀ s u, f (set u s) = f s) → history (zooming get set t) l r → Forall (λ p, f p.2 = f p.1) l.
Proof.
  intros Hset. apply history_quiet. intros x.
  apply (guar_zoom _ (λ _ _, True)); [intros _; apply guar_True|done|]. intros s u <- _. apply Hset.
Qed.

(** ** Locks

    [tidy h t]: with the lock [h] in hand, [t] takes a lock only when it holds
    none, gives back only what it holds, and keeps none at its end. *)
Fixpoint tidy {L S A} (h : option L) (t : thread L S A) : Prop :=
  match t with
  | Done _ => h = None
  | Act m k => ∀ r, tidy h (k r)
  | Lock l t => h = None ∧ tidy (Some l) t
  | Unlock l t => h = Some l ∧ tidy None t
  end.

(** Without locks. *)
Fixpoint plain {L S A} (t : thread L S A) : Prop :=
  match t with
  | Done _ => True
  | Act m k => ∀ r, plain (k r)
  | Lock _ _ | Unlock _ _ => False
  end.

Section Locks.
Context {L S : Type}.

Lemma tidy_after {A B} h (t : thread L S A) (f : res A → thread L S B) :
  tidy h t → (∀ r, tidy None (f r)) → tidy h (after t f).
Proof. revert h. induction t; intros h; simpl; naive_solver. Qed.
Lemma plain_after {A B} (t : thread L S A) (f : res A → thread L S B) :
  plain t → (∀ r, plain (f r)) → plain (after t f).
Proof. induction t; simpl; naive_solver. Qed.
Lemma tidy_plain_after {A B} h (t : thread L S A) (f : res A → thread L S B) :
  plain t → (∀ r, tidy h (f r)) → tidy h (after t f).
Proof. induction t; simpl; naive_solver. Qed.

Lemma plain_ret {A} (a : A) : plain (mret a : thread L S A).
Proof. done. Qed.
Lemma plain_pure {A} (r : res A) : plain (pure r : thread L S A).
Proof. done. Qed.
Lemma plain_throw {A} e : plain (throw e : thread L S A).
Proof. done. Qed.
Lemma plain_act {A} (m : run S A) : plain (act m : thread L S A).
Proof. done. Qed.
Lemma plain_bind {A B} (t : thread L S A) (f : A → thread L S B) :
  plain t → (∀ a, plain (f a)) → plain (t ≫= f).
Proof. intros Ht Hf. apply plain_after; [done|]. by intros []. Qed.
Lemma plain_attempt {A} (t : thread L S A) : plain t → plain (attempting t).
Proof. intros Ht. by apply plain_after. Qed.
Lemma plain_map_err {A} f (t : thread L S A) : plain t → plain (mapping_err f t).
Proof. intros Ht. by apply plain_after. Qed.
Lemma plain_each {A B} (body : B → A → thread L S B) l b : (∀ b x, plain (body b x)) → plain (each body l b).
Proof. intros Hb. revert b. induction l as [|x l IH]; intros b; [done|]. simpl. by apply plain_bind. Qed.

Lemma plain_collecting {A B} (f : A → thread L S B) l : (∀ x, plain (f x)) → plain (collecting f l).
Proof. intros Hf. induction l as [|x l IH]; [done|]. simpl. apply plain_bind; [done|]. intros y. by apply plain_bind. Qed.
Lemma plain_reading {A} (f : S → res A) : plain (reading f : thread L S A).
Proof. done. Qed.
Lemma plain_updating (f : S → S) : plain (updating f : thread L S unit).
Proof. done. Qed.

Lemma tidy_plain {A} (t : thread L S A) : plain t → tidy None t.
Proof. induction t; simpl; naive_solver. Qed.
Lemma tidy_ret {A} (a : A) : tidy None (mret a : thread L S A).
Proof. done. Qed.
Lemma tidy_pure {A} (r : res A) : tidy None (pure r : thread L S A).
Proof. done. Qed.
Lemma tidy_throw {A} e : tidy None (throw e : thread L S A).
Proof. done. Qed.
Lemma tidy_bind {A B} (t : thread L S A) (f : A → thread L S B) :
  tidy None t → (∀ a, tidy None (f a)) → tidy None (t ≫= f).
Proof. intros Ht Hf. apply tidy_after; [done|]. by intros []. Qed.
Lemma tidy_attempt {A} (t : thread L S A) : tidy None t → tidy None (attempting t).
Proof. intros Ht. by apply tidy_after. Qed.
Lemma tidy_map_err {A} f (t : thread L S A) : tidy None t → tidy None (mapping_err f t).
Proof. intros Ht. by apply tidy_after. Qed.
Lemma tidy_each {A B} (body : B → A → thread L S B) l b : (∀ b x, tidy None (body b x)) → tidy None (each body l b).
Proof. intros Hb. revert b. induction l as [|x l IH]; intros b; [done|]. simpl. by apply tidy_bind. Qed.
Lemma tidy_locked {A} l (t : thread L S A) : plain t → tidy None (locked l t).
Proof. intros Ht. split; [done|]. by apply tidy_plain_after. Qed.
End Locks.

Lemma plain_zoom {L S T A} (get : S → T) (set : T → S → S) (t : thread L T A) : plain t → plain (zooming get set t).
Proof. induction t; simpl; naive_solver. Qed.
Lemma tidy_zoom {L S T A} h (get : S → T) (set : T → S → S) (t : thread L T A) : tidy h t → tidy h (zooming get set t).
Proof. revert h. induction t; intros h; simpl; naive_solver. Qed.

Create HintDb tidy.
#[export] Hint Resolve tidy_ret tidy_pure tidy_throw plain_ret plain_pure plain_throw plain_act plain_reading plain_updating plain_zoom tidy_zoom tidy_locked : tidy.

Ltac tidying_step :=
  match goal with
  | |- plain (mbind _ _) => apply plain_bind; [|intros ?]
  | |- plain (attempting _) => apply plain_attempt
  | |- plain (mapping_err _ _) => apply plain_map_err
  | |- plain (each _ _ _) => apply plain_each; intros ? ?
  | |- plain (collecting _ _) => apply plain_collecting; intros ?
  | |- tidy None (mbind _ _) => apply tidy_bind; [|intros ?]
  | |- tidy None (attempting _) => apply tidy_attempt
  | |- tidy None (mapping_err _ _) => apply tidy_map_err
  | |- tidy None (each _ _ _) => apply tidy_each; intros ? ?
  | |- tidy None (collecting _ _) => apply tidy_plain
  | |- tidy None (locked _ _) => apply tidy_locked
  | |- tidy None (zooming _ _ _) => apply tidy_zoom
  | |- plain (zooming _ _ _) => apply plain_zoom
  | |- _ (if ?b then _ else _) => destruct b
  | |- _ (match ?x with _ => _ end) => destruct x
  | |- tidy None (act _) => apply tidy_plain
  | |- tidy None (reading _) => apply tidy_plain
  | |- tidy None (updating _) => apply tidy_plain
  end.
Ltac tidying := repeat first [solve [eauto with tidy] | tidying_step].

(** ** Pools *)

Section Pool.
Context {L S A : Type} `{Countable L}.

(** The goroutines, who holds which lock, and what they share. *)
Record pool := { threads : list (thread L S A); held : gmap L nat; shared : S }.

Definition finished (t : thread L S A) : Prop := match t with Done _ => True | _ => False end.
#[export] Instance finished_dec t : Decision (finished t).
Proof. destruct t; apply _. Defined.

Definition advance (t : thread L S A) (s : S) : option (thread L S A * S) :=
  match t with Act m k => let '(r, s') := m s in Some (k r, s') | _ => None end.

(** One goroutine goes on by one step; [Lock] waits for a free lock. *)
Inductive move (p : pool) : pool → Prop :=
| move_act i t t' s' :
    threads p !! i = Some t → advance t (shared p) = Some (t', s') →
    move p {| threads := <[i := t']> (threads p); held := held p; shared := s' |}
| move_lock i l t :
    threads p !! i = Some (Lock l t) → held p !! l = None →
    move p {| threads := <[i := t]> (threads p); held := <[l := i]> (held p); shared := shared p |}
| move_unlock i l t :
    threads p !! i = Some (Unlock l t) → is_Some (held p !! l) →
    move p {| threads := <[i := t]> (threads p); held := delete l (held p); shared := shared p |}.

(** What is left of a thread after a step. *)
Definition piece (t' t : thread L S A) : Prop :=
  match t with
  | Done _ => False
  | Act m k => ∃ r, t' = k r
  | Lock _ u | Unlock _ u => t' = u
  end.

Lemma piece_wf (t : thread L S A) : Acc piece t.
Proof. induction t; constructor; simpl; naive_solver. Qed.

Definition shrinks (ts' ts : list (thread L S A)) : Prop :=
  ∃ i t t', ts !! i = Some t ∧ piece t' t ∧ ts' = <[i := t']> ts.

Lemma shrinks_wf ts : Acc shrinks ts.
Proof.
  induction ts as [|t ts IH]; [constructor; intros ? (i & t & t' & Hi & _); by rewrite lookup_nil in Hi|].
  revert ts IH. induction (piece_wf t) as [t _ IHt]. induction 1 as [ts Hts IHts]. constructor.
  intros ? ([|i] & u & u' & Hi & Hp & ->); simpl in *.
  - simplify_eq. apply IHt; [done|]. by constructor.
  - apply IHts. by exists i, u, u'.
Qed.

Lemma move_threads (p p' : pool) :
  move p p' → ∃ i t t', threads p !! i = Some t ∧ threads p' = <[i := t']> (threads p) ∧
    ((advance t (shared p) = Some (t', shared p') ∧ held p' = held p) ∨
     (∃ l, t = Lock l t' ∧ held p !! l = None ∧ held p' = <[l := i]> (held p) ∧ shared p' = shared p) ∨
     (∃ l, t = Unlock l t' ∧ is_Some (held p !! l) ∧ held p' = delete l (held p) ∧ shared p' = shared p)).
Proof. destruct 1; naive_solver. Qed.

(** *** Locks are held by one goroutine each, that will give them back *)

Definition orderly (p : pool) : Prop :=
  (∀ i t, threads p !! i = Some t → ∃ h, tidy h t ∧ ∀ l, held p !! l = Some i ↔ h = Some l) ∧
  (∀ l i, held p !! l = Some i → is_Some (threads p !! i)).

Lemma orderly_move (p p' : pool) : move p p' → orderly p → orderly p'.
Proof.
  intros Hm [Hts Hheld]. apply move_threads in Hm as (i & t & t' & Hi & Hts' & Hcase).
  destruct (Hts i t Hi) as (h & Htidy & Hh). split.
  - intros j u. rewrite Hts'. destruct (decide (j = i)) as [->|Hne].
    + rewrite list_lookup_insert_eq by (by eapply lookup_lt_Some). intros [= <-].
      destruct Hcase as [[Ha ->]|[(l & -> & Hl & -> & _)|(l & -> & Hl & -> & _)]].
      * destruct t as [|B m k| |]; try done. simpl in Ha, Htidy. destruct (m (shared p)). simplify_eq. by exists h.
      * destruct Htidy as [-> Htidy]. exists (Some l). split; [done|]. intros l'. destruct (decide (l' = l)) as [->|].
        -- rewrite lookup_insert_eq. naive_solver.
        -- rewrite lookup_insert_ne by done. rewrite Hh. naive_solver.
      * destruct Htidy as [-> Htidy]. exists None. split; [done|]. intros l'. destruct (decide (l' = l)) as [->|].
        -- rewrite lookup_delete_eq. naive_solver.
        -- rewrite lookup_delete_ne by done. rewrite Hh. naive_solver.
    + rewrite list_lookup_insert_ne by done. intros Hj. destruct (Hts j u Hj) as (h' & Hu & Hh').
      exists h'. split; [done|]. intros l'.
      destruct Hcase as [[_ ->]|[(l & -> & Hl & -> & _)|(l & -> & Hl & -> & _)]]; [done|..];
        (destruct (decide (l' = l)) as [->|]; [|by rewrite ?lookup_insert_ne, ?lookup_delete_ne by done]).
      * rewrite lookup_insert_eq, <- Hh', Hl. naive_solver.
      * rewrite lookup_delete_eq, <- Hh'. destruct Htidy as [-> _]. assert (held p !! l = Some i) as -> by by apply Hh.
        naive_solver.
  - intros l j Hj. rewrite Hts', list_lookup_insert_is_Some.
    destruct (decide (j = i)) as [->|]; [by eexists; rewrite Hi|].
    destruct Hcase as [[_ Hheld']|[(l' & -> & Hl & Hheld' & _)|(l' & -> & Hl & Hheld' & _)]]; rewrite Hheld' in Hj.
    + by eapply Hheld.
    + destruct (decide (l = l')) as [->|]; [rewrite lookup_insert_eq in Hj; congruence|].
      rewrite lookup_insert_ne in Hj by done. by eapply Hheld.
    + apply lookup_delete_Some in Hj as [_ Hj]. by eapply Hheld.
Qed.

(** No deadlock: some goroutine can go on, or all have returned. *)
Lemma never_stuck (p : pool) : orderly p → Forall finished (threads p) ∨ ∃ p', move p p'.
Proof.
  intros [Hts Hheld]. destruct (Forall_Exists_dec finished (λ t, ¬ finished t) (λ t, decide (finished t)) (threads p)) as [Hall|Hex]; [by left|].
  right. assert (∀ i t h, threads p !! i = Some t → tidy h t → (∀ l, held p !! l = Some i ↔ h = Some l) →
    ¬ finished t → (∀ l t', t = Lock l t' → held p !! l = None) → ∃ p', move p p') as Hgo.
  { intros i t h Hi Ht Hh Hnot Hfree. destruct t as [r|B m k|l t|l t].
    - by destruct Hnot.
    - destruct (m (shared p)) as [r s'] eqn:Hm. eexists. eapply move_act; [exact Hi|]. simpl. by rewrite Hm.
    - eexists. eapply move_lock; [exact Hi|]. by eapply Hfree.
    - destruct Ht as [-> _]. eexists. eapply move_unlock; [exact Hi|]. exists i. by apply Hh. }
  apply Exists_exists in Hex as (t & [i Hi]%list_elem_of_lookup & Hnot). destruct (Hts i t Hi) as (h & Ht & Hh).
  destruct t as [r|B m k|l t|l t]; try by eapply Hgo.
  destruct (held p !! l) as [j|] eqn:Hl.
  2: { eapply Hgo; [exact Hi|exact Ht|exact Hh|done|]. intros l' t' Heq. by simplify_eq. }
  destruct (Hheld l j Hl) as [u Hu]. destruct (Hts j u Hu) as (h' & Hu' & Hh'). apply Hh' in Hl as ->.
  eapply Hgo; [exact Hu|exact Hu'|exact Hh'|by destruct u|]. intros l' u' ->. by destruct Hu'.
Qed.

Lemma move_shrinks (p p' : pool) : move p p' → shrinks (threads p') (threads p).
Proof.
  intros (i & t & t' & Hi & Hts & Hcase)%move_threads. exists i, t, t'. split_and!; [done| |done].
  destruct Hcase as [[Ha _]|[(l & -> & _)|(l & -> & _)]]; [|done..].
  destruct t as [|B m k| |]; try done. simpl in *. destruct (m (shared p)) as [r s]. simplify_eq. by exists r.
Qed.

Definition start (t : thread L S A) (p : pool) : pool :=
  {| threads := (threads p ++ [t])%list; held := held p; shared := shared p |}.
Definition set_shared (s : S) (p : pool) : pool := {| threads := threads p; held := held p; shared := s |}.

Lemma orderly_start t (p : pool) : tidy None t → orderly p → orderly (start t p).
Proof.
  intros Ht [Hts Hheld]. split; simpl.
  - intros i u [Hi|[Hge Hi]]%lookup_app_Some; [by apply Hts|].
    apply list_lookup_singleton_Some in Hi as [Hi <-]. exists None. split; [done|]. intros l. split; [|done].
    intros Hl. apply Hheld, lookup_lt_is_Some in Hl. lia.
  - intros l i Hl. apply Hheld in Hl. rewrite lookup_lt_is_Some in *. rewrite length_app. lia.
Qed.

(** What goroutine [i] has returned. *)
Definition returned (i : nat) (p : pool) : option (res A) :=
  match threads p !! i with Some (Done r) => Some r | _ => None end.
Lemma returned_Done i (p : pool) r : returned i p = Some r → threads p !! i = Some (Done r).
Proof. unfold returned. destruct (threads p !! i) as [[]|]; naive_solver. Qed.

(** *** Schedules *)

(** The next step of goroutine [i]; none when it waits or has returned. *)
Definition go (i : nat) (p : pool) : option pool :=
  match threads p !! i with
  | Some (Lock l t) =>
      match held p !! l with
      | None => Some {| threads := <[i := t]> (threads p); held := <[l := i]> (held p); shared := shared p |}
      | Some _ => None
      end
  | Some (Unlock l t) =>
      match held p !! l with
      | Some _ => Some {| threads := <[i := t]> (threads p); held := delete l (held p); shared := shared p |}
      | None => None
      end
  | Some t =>
      '(t', s') ← advance t (shared p);
      Some {| threads := <[i := t']> (threads p); held := held p; shared := s' |}
  | None => None
  end.

(** The goroutines of a list, each for one step if it can. *)
Fixpoint schedule (l : list nat) (p : pool) : pool :=
  match l with
  | [] => p
  | i :: l' => schedule l' (default p (go i p))
  end.

Lemma go_move i (p p' : pool) : go i p = Some p' → move p p'.
Proof.
  unfold go. destruct (threads p !! i) as [t|] eqn:Hi; [|done]. destruct t as [r|B m k|l t|l t].
  - done.
  - simpl. destruct (m (shared p)) as [r s'] eqn:Hm. intros [= <-]. eapply move_act; [exact Hi|]. simpl. by rewrite Hm.
  - destruct (held p !! l) eqn:Hl; [done|]. intros [= <-]. by eapply move_lock.
  - destruct (held p !! l) eqn:Hl; [|done]. intros [= <-]. by eapply move_unlock.
Qed.

Lemma schedule_moves l (p : pool) : rtc move p (schedule l p).
Proof.
  revert p. induction l as [|i l IH]; intros p; [done|]. simpl. destruct (go i p) as [p'|] eqn:Hg; simpl; [|done].
  by eapply rtc_l; [eapply go_move|].
Qed.

(** A goroutine without locks may run to its end before any other goes on. *)
Lemma moves_alone (t : thread L S A) : plain t → ∀ i (p : pool), threads p !! i = Some t →
  rtc move p {| threads := <[i := Done (seq t (shared p)).1]> (threads p); held := held p;
                shared := (seq t (shared p)).2 |}.
Proof.
  induction t as [r|B m k IH|l t IH|l t IH]; intros Hp i [ts h s] Hi; simpl in *; [|..|done|done].
  - rewrite list_insert_id by done. apply rtc_refl.
  - destruct (m s) as [r s'] eqn:Hm. eapply rtc_l.
    + eapply (move_act _ i); [exact Hi|]. simpl. by rewrite Hm.
    + pose proof (lookup_lt_Some _ _ _ Hi) as Hlt.
      specialize (IH r (Hp r) i {| threads := <[i := k r]> ts; held := h; shared := s' |}).
      simpl in IH. rewrite list_insert_insert_eq in IH. apply IH. by rewrite list_lookup_insert_eq.
Qed.

(** New goroutines, and what else happens to the state. *)
Variable starts : thread L S A → Prop.
Variable other : S → S → Prop.

Inductive pool_step (p : pool) : pool → Prop :=
| pool_move p' : move p p' → pool_step p p'
| pool_start t : starts t → pool_step p (start t p)
| pool_other s : other (shared p) s → pool_step p (set_shared s p).

Lemma moves_steps (p p' : pool) : rtc move p p' → rtc pool_step p p'.
Proof. apply rtc_subrel. intros q q'. apply pool_move. Qed.

(** *** What all of them keep, and how each ends *)

Lemma pool_safe (P : S → Prop) (p p' : pool) :
  (∀ t, starts t → guar P t) → (∀ s s', other s s' → P s → P s') →
  rtc pool_step p p' → Forall (guar P) (threads p) ∧ P (shared p) → Forall (guar P) (threads p') ∧ P (shared p').
Proof.
  intros Hstarts Hother. induction 1 as [|p q p' Hstep _ IH]; [done|]. intros [Hts Hs]. apply IH. clear IH.
  destruct Hstep as [q Hm|t Ht|s Hs']; simpl.
  - apply move_threads in Hm as (i & t & t' & Hi & -> & Hcase).
    pose proof (Forall_lookup_1 _ _ _ _ Hts Hi) as Hg. destruct Hcase as [[Ha _]|[(l & -> & _ & _ & ->)|(l & -> & _ & _ & ->)]].
    + destruct t as [|B m k| |]; try done. simpl in Ha. destruct Hg as [Hm Hk].
      specialize (Hm _ Hs). specialize (Hk (shared p)). destruct (m (shared p)) as [r s'].
      simplify_eq/=. split; [by apply Forall_insert|done].
    + split; [by apply Forall_insert|done].
    + split; [by apply Forall_insert|done].
  - split; [|done]. apply Forall_app. split; [done|]. by apply Forall_singleton, Hstarts.
  - split; [done|]. by eapply Hother.
Qed.

(** A run of the pool, with its steps in order. *)
Inductive walk (p : pool) : list (S * S) → pool → Prop :=
| walk_refl : walk p [] p
| walk_step l q q' : walk p l q → pool_step q q' → walk p (l ++ [(shared q, shared q')])%list q'.

Lemma walk_steps (p p' : pool) l : walk p l p' → rtc pool_step p p'.
Proof. induction 1; [done|]. by eapply rtc_r. Qed.
Lemma steps_walk (p p' : pool) : rtc pool_step p p' → ∃ l, walk p l p'.
Proof.
  revert p'. apply (rtc_ind_r (λ p', ∃ l, walk p l p')); [exists []; constructor|].
  intros p1 q _ Hstep [l IH]. eexists. by eapply walk_step.
Qed.

(** ... and the steps of a goroutine that has returned are among those of the run. *)
Lemma pool_history (p p' : pool) all i r :
  walk p all p' → threads p = [] → threads p' !! i = Some (Done r) →
  ∃ t l, starts t ∧ history t l r ∧ l `sublist_of` all.
Proof.
  intros Hwalk Hnone.
  set (from := λ (all : list (S * S)) (t' : thread L S A), ∃ t l, starts t ∧ l `sublist_of` all ∧
    ∀ l2 r, history t' l2 r → history t (l ++ l2)%list r).
  assert (Forall (from all) (threads p')) as Hall.
  { induction Hwalk as [|all q q' _ IH Hstep]; [by rewrite Hnone|].
    assert (Forall (from (all ++ [(shared q, shared q')])%list) (threads q)) as Hq.
    { eapply Forall_impl; [exact IH|]. intros u (t & l & Ht & Hl & Hu). exists t, l. split_and!; [done| |done].
      by apply sublist_inserts_r. }
    destruct Hstep as [q' Hm|t Ht|s Hs]; simpl in *; [| |done].
    - apply move_threads in Hm as (j & t & t' & Hj & -> & Hcase). apply Forall_insert; [done|].
      destruct Hcase as [[Ha _]|[(l & -> & _)|(l & -> & _)]]; [|by apply (Forall_lookup_1 _ _ _ _ Hq Hj)..].
      destruct (Forall_lookup_1 _ _ _ _ IH Hj) as (t0 & l & Ht0 & Hl & Hu). exists t0, (l ++ [(shared q, shared q')])%list.
      split_and!; [done|by apply sublist_app|]. intros l2 r' Hr'. rewrite <- app_assoc. apply Hu.
      destruct t as [|B m k| |]; try done. simpl in *. exists (shared q), l2. destruct (m (shared q)). by simplify_eq/=.
    - apply Forall_app. split; [done|]. apply Forall_singleton. exists t, []. split_and!; [done|apply sublist_nil_l|done]. }
  intros Hi. destruct (Forall_lookup_1 _ _ _ _ Hall Hi) as (t & l & Ht & Hl & Hu). exists t, l. split_and!; [done| |done].
  rewrite <- (app_nil_r l). by apply Hu.
Qed.

Lemma orderly_steps (p p' : pool) :
  (∀ t, starts t → tidy None t) → rtc pool_step p p' → orderly p → orderly p'.
Proof.
  intros Hstarts. induction 1 as [|p q p' Hstep _ IH]; [done|]. intros Hp. apply IH.
  destruct Hstep; [by eapply orderly_move|by eauto using orderly_start|done].
Qed.

(** *** Every goroutine returns *)

(** A move of some goroutine, after whatever else happens to the state. *)
Definition turn (p' p : pool) : Prop := ∃ s, rtc other (shared p) s ∧ move (set_shared s p) p'.

Lemma turns_end (p : pool) : Acc turn p.
Proof.
  destruct p as [ts h s]. revert h s. induction (shrinks_wf ts) as [ts _ IH]. intros h s. constructor.
  intros [ts' h' s'] (s0 & _ & Hm%move_shrinks). by apply IH.
Qed.

Lemma pool_returns (p : pool) : orderly p → ∃ p', rtc move p p' ∧ Forall finished (threads p').
Proof.
  induction (turns_end p) as [p _ IH]. intros Hp. destruct (never_stuck p Hp) as [Hdone|[p1 Hm]].
  - by exists p.
  - destruct (IH p1) as (p' & Hsteps & Hdone); [|by eapply orderly_move|exists p'; split; [by eapply rtc_l|done]].
    exists (shared p). split; [done|]. by destruct p.
Qed.
End Pool.
