(* ===== verification/Rely.v ===== *)
(** * Goroutines that rely on one another

    A relation [G] is what every step of everyone does to the shared state, a
    step of the goroutine at hand or of any other.  [does G pre t post]: from a
    state with [pre], the thread [t] does steps in [G] and ends with [post] of
    what it returns, whatever others in [G] do between its steps.  The rules
    follow the combinators of [Threads]; [pool_does] puts the threads of a pool
    together.  [rel] is a call that has many outcomes, as one that waits for
    goroutines it started. *)

From stdpp Require Import base list strings gmap relations.
From Stdlib Require Import ZArith Lia.
From S2P Require Import Prelude Frame Threads.

(** What no step of anyone undoes. *)
Definition stable {S} (G : S → S → Prop) (p : S → Prop) : Prop := ∀ s s', G s s' → p s → p s'.

(** Between the steps the assertions are stable. *)
Fixpoint does {L S A} (G : S → S → Prop) (pre : S → Prop) (t : thread L S A) (post : res A → S → Prop) : Prop :=
  match t with
  | Done r => ∀ s, pre s → post r s
  | Act m k => ∃ mid : res _ → S → Prop,
      (∀ s, pre s → G s (m s).2 ∧ mid (m s).1 (m s).2) ∧
      ∀ r, stable G (mid r) ∧ does G (mid r) (k r) post
  | Lock _ t | Unlock _ t => does G pre t post
  end.

Section Rules.
Context {L S : Type} (G : S → S → Prop).

Lemma does_weaken {A} (pre pre' : S → Prop) (t : thread L S A) (post : res A → S → Prop) :
  (∀ s, pre' s → pre s) → does G pre t post → does G pre' t post.
Proof.
  intros Hpre. induction t as [r|B m k IH|l t IH|l t IH]; simpl; [naive_solver| |by auto..].
  intros (mid & Hm & Hk). exists mid. split; [|done]. intros s Hs. by apply Hm, Hpre.
Qed.

Lemma does_post {A} (pre : S → Prop) (t : thread L S A) (post post' : res A → S → Prop) :
  does G pre t post → (∀ r s, post r s → post' r s) → does G pre t post'.
Proof.
  intros Ht Hp. revert pre Ht. induction t as [r|B m k IH|l t IH|l t IH]; intros pre; simpl; [by auto| |by auto..].
  intros (mid & Hm & Hk). exists mid. split; [done|]. intros r. destruct (Hk r). auto.
Qed.

(** Nothing is asked of a thread that never starts. *)
Lemma does_False {A} (pre : S → Prop) (t : thread L S A) (post : res A → S → Prop) :
  (∀ s, ¬ pre s) → does G pre t post.
Proof.
  intros Hno. revert pre Hno. induction t as [r|B m k IH|l t IH|l t IH]; intros pre Hno; simpl; [naive_solver| |by auto..].
  exists (λ _ _, False). split; [naive_solver|]. intros r. split; [by intros ???|]. apply IH. by intros ??.
Qed.

Lemma does_ret {A} (pre : S → Prop) (a : A) (post : res A → S → Prop) :
  (∀ s, pre s → post (Ok a) s) → does G pre (mret a : thread L S A) post.
Proof. done. Qed.

Lemma does_pure {A} (pre : S → Prop) (r : res A) (post : res A → S → Prop) :
  (∀ s, pre s → post r s) → does G pre (pure r : thread L S A) post.
Proof. done. Qed.

Lemma does_act {A} (pre : S → Prop) (m : run S A) (post : res A → S → Prop) :
  (∀ s, pre s → G s (m s).2 ∧ post (m s).1 (m s).2) → (∀ r, stable G (post r)) →
  does G pre (act m : thread L S A) post.
Proof. intros Hm Hpost. exists post. split; [done|]. intros r. split; [apply Hpost|by intros s Hs]. Qed.

Lemma does_after {A B} (pre : S → Prop) (t : thread L S A) (mid : res A → S → Prop)
    (f : res A → thread L S B) (post : res B → S → Prop) :
  does G pre t mid → (∀ r, does G (mid r) (f r) post) → does G pre (after t f) post.
Proof.
  revert pre. induction t as [r|B' m k IH|l t IH|l t IH]; intros pre; simpl; [| |by auto..].
  - intros Hr Hf. by eapply does_weaken; [|apply Hf].
  - intros (mid' & Hm & Hk) Hf. exists mid'. split; [done|]. intros r. destruct (Hk r) as [Hst Hdo].
    split; [done|by apply IH].
Qed.

(** What is not [Ok] is passed on. *)
Definition passed {A B} (r : res A) : option (res B) :=
  match r with Ok _ => None | Err e => Some (Err e) | Panic why => Some (Panic why) end.

Lemma does_bind {A B} (pre : S → Prop) (t : thread L S A) (mid : res A → S → Prop)
    (f : A → thread L S B) (post : res B → S → Prop) :
  does G pre t mid → (∀ a, does G (mid (Ok a)) (f a) post) →
  (∀ r r' s, passed r = Some r' → mid r s → post r' s) → does G pre (t ≫= f) post.
Proof.
  intros Ht Hf Hpass. unfold mbind, thread_bind. apply (does_after _ _ mid); [done|].
  intros [a|e|why]; [apply Hf|intros s Hs..]; [exact (Hpass (Err e) _ s eq_refl Hs)|exact (Hpass (Panic why) _ s eq_refl Hs)].
Qed.

Lemma does_attempt {A} (pre : S → Prop) (t : thread L S A) (post : res (gerror + A) → S → Prop) :
  does G pre t (λ r, post (match r with Ok a => Ok (inr a) | Err e => Ok (inl e) | Panic w => Panic w end)) →
  does G pre (attempting t) post.
Proof. intros Ht. eapply does_after; [exact Ht|]. by intros r s Hs. Qed.
End Rules.

(** ** Pools *)

Section Pools.
Context {L S A : Type} `{Countable L} (G : S → S → Prop).
Variable other : S → S → Prop.
Hypothesis other_G : ∀ s s', other s s' → G s s'.

(** Every thread of the pool is on its way to its postcondition. *)
Definition on_course (post : nat → res A → S → Prop) (p : pool (L := L) (S := S) (A := A)) : Prop :=
  ∀ i t, threads p !! i = Some t → ∃ pre, stable G pre ∧ pre (shared p) ∧ does G pre t (post i).

Lemma move_on_course post (p p' : pool) :
  move p p' → on_course post p → on_course post p' ∧ (shared p' = shared p ∨ G (shared p) (shared p')).
Proof.
  intros (i & t & t' & Hi & Hts & Hcase)%move_threads Hp.
  destruct (Hp i t Hi) as (pre & Hst & Hpre & Hdo).
  assert (∃ pre', stable G pre' ∧ pre' (shared p') ∧ does G pre' t' (post i) ∧
    (shared p' = shared p ∨ G (shared p) (shared p'))) as (pre' & Hst' & Hpre' & Hdo' & HG).
  { destruct Hcase as [[Ha _]|[(l & -> & _ & _ & ->)|(l & -> & _ & _ & ->)]].
    - destruct t as [|B m k| |]; try done. simpl in Ha. destruct Hdo as (mid & Hm & Hk).
      specialize (Hm _ Hpre). destruct (m (shared p)) as [r s'] eqn:Hs. simplify_eq/=.
      destruct Hm as [? ?]. destruct (Hk r) as [? ?]. exists (mid r). by split_and!; [..|right].
    - exists pre. by split_and!; [..|left].
    - exists pre. by split_and!; [..|left]. }
  split; [|done]. intros j u Hj. rewrite Hts in Hj. destruct (decide (i = j)) as [<-|Hne].
  - rewrite list_lookup_insert_eq in Hj by (by eapply lookup_lt_Some). injection Hj as <-. by exists pre'.
  - rewrite list_lookup_insert_ne in Hj by done. destruct (Hp j u Hj) as (q & Hq & Hqs & Hqd).
    exists q. split; [done|]. split; [|done]. destruct HG as [->|HG]; [done|by eapply Hq].
Qed.

Notation step := (pool_step (λ _, False) other).

Lemma step_on_course post (p p' : pool) :
  step p p' → on_course post p → on_course post p' ∧ (shared p' = shared p ∨ G (shared p) (shared p')).
Proof.
  intros [q Hm|t []|s Hs] Hp; [by apply move_on_course|]. apply other_G in Hs. split; [|by right].
  intros i t Hi. destruct (Hp i t Hi) as (pre & Hst & Hpre & Hdo). exists pre. split_and!; [done|by eapply Hst|done].
Qed.

(** From then on, everyone's steps are in [G], and a thread that has returned keeps its promise. *)
Lemma pool_does post (p p' : pool) :
  rtc step p p' → on_course post p →
  rtc G (shared p) (shared p') ∧ ∀ i r, threads p' !! i = Some (Done r) → post i r (shared p').
Proof.
  intros Hsteps Hp. assert (on_course post p' ∧ rtc G (shared p) (shared p')) as [Hp' HG].
  { revert Hp. induction Hsteps as [|p q p' Hstep _ IH]; [done|]. intros Hp.
    destruct (step_on_course post p q Hstep Hp) as [Hq HG]. destruct (IH Hq) as [? HG']. split; [done|].
    destruct HG as [<-|HG]; [done|by eapply rtc_l]. }
  split; [done|]. intros i r Hi. destruct (Hp' i _ Hi) as (pre & _ & Hpre & Hdo). by apply Hdo.
Qed.
End Pools.

(** ** Calls that wait for goroutines *)

(** What a call may return and where it may leave the state, from a state. *)
Definition rel (S A : Type) : Type := S → res A → S → Prop.

#[export] Instance rel_ret {S} : MRet (rel S) := λ A a s r s', r = Ok a ∧ s' = s.
#[export] Instance rel_bind {S} : MBind (rel S) := λ A B f m s r s',
  ∃ r1 s1, m s r1 s1 ∧
    match r1 with Ok a => f a s1 r s' | Err e => r = Err e ∧ s' = s1 | Panic w => r = Panic w ∧ s' = s1 end.

Definition rel_fail {S A} (e : gerror) : rel S A := λ s r s', r = Err e ∧ s' = s.

Section Rel.
Context {S : Type} (other : S → S → Prop).

(** A call that cannot be divided, after whatever others did. *)
Definition calls {A} (m : run S A) : rel S A := λ s r s', ∃ s0, rtc other s s0 ∧ m s0 = (r, s').

(** The errors of goroutines that have all returned, in their order. *)
Fixpoint gathered {L} (ts : list (thread L S unit)) : option (list gerror) :=
  match ts with
  | [] => Some []
  | Done (Ok _) :: ts' => gathered ts'
  | Done (Err e) :: ts' => cons e <$> gathered ts'
  | _ :: _ => None
  end.

(** A panic of one of them is a panic of the program. *)
Definition crash {L} (t : thread L S unit) : option string :=
  match t with Done (Panic why) => Some why | _ => None end.
Definition outcome {L} (ts : list (thread L S unit)) : option (res (list gerror)) :=
  match omap crash ts with
  | why :: _ => Some (Panic why)
  | [] => Ok <$> gathered ts
  end.

(** Goroutines are started and waited for. *)
Definition all_of {L} `{Countable L} (ts : list (thread L S unit)) : rel S (list gerror) := λ s r s',
  ∃ p, rtc (pool_step (λ _, False) other) {| threads := ts; held := ∅; shared := s |} p ∧
    outcome (threads p) = Some r ∧ shared p = s'.

Lemma gathered_elem {L} (ts : list (thread L S unit)) errs :
  gathered ts = Some errs → ∀ t, t ∈ ts → t = Done (Ok tt) ∨ ∃ e, t = Done (Err e) ∧ e ∈ errs.
Proof.
  revert errs. induction ts as [|t ts IH]; intros errs Hg u; [by intros ?%elem_of_nil|].
  destruct t as [[[]|e|why]| | |]; simpl in Hg; try done.
  - intros [->|Hu]%elem_of_cons; [by left|by eapply IH].
  - destruct (gathered ts) as [errs'|]; simplify_eq/=. intros [->|Hu]%elem_of_cons.
    + right. exists e. split; [done|by left].
    + destruct (IH _ eq_refl u Hu) as [->|(e' & -> & He)]; [by left|right]. exists e'. split; [done|by right].
Qed.

Lemma outcome_Ok {L} (ts : list (thread L S unit)) errs :
  outcome ts = Some (Ok errs) → ∀ t, t ∈ ts → t = Done (Ok tt) ∨ ∃ e, t = Done (Err e) ∧ e ∈ errs.
Proof.
  unfold outcome. destruct (omap crash ts); [|done]. destruct (gathered ts) eqn:Hg; [|done].
  intros [= <-]. by apply gathered_elem.
Qed.

Lemma outcome_finished {L} (ts : list (thread L S unit)) : Forall finished ts → ∃ r, outcome ts = Some r.
Proof.
  intros Hts. unfold outcome. destruct (omap crash ts) as [|why l] eqn:Hc; [|by eexists].
  assert (∃ errs, gathered ts = Some errs) as [errs ->]; [|by eexists].
  induction Hts as [|t ts Ht _ IH]; [by eexists|]. destruct t as [[[]|e|why]| | |]; try done; simpl in Hc.
  - by apply IH.
  - destruct (IH Hc) as [errs Hg]. simpl. rewrite Hg. by eexists.
Qed.

Lemma step_length {L} `{Countable L} (p p' : pool (L := L) (S := S) (A := unit)) :
  rtc (pool_step (λ _, False) other) p p' → length (threads p') = length (threads p).
Proof.
  induction 1 as [|p q p' Hstep _ IH]; [done|]. rewrite IH. destruct Hstep as [q Hm|t []|s Hs]; [|done].
  apply move_threads in Hm as (i & t & t' & _ & -> & _). apply length_insert.
Qed.

(** Goroutines that are waited for: what each does, it has done, without an error of any. *)
Lemma all_of_does {L} `{Countable L} (G : S → S → Prop) (ts : list (thread L S unit)) (post : nat → res unit → S → Prop) s r s' :
  (∀ s s', other s s' → G s s') →
  (∀ i t, ts !! i = Some t → ∃ pre, stable G pre ∧ pre s ∧ does G pre t (post i)) →
  all_of ts s r s' →
  rtc G s s' ∧ (r = Ok [] → ∀ i, i < length ts → post i (Ok tt) s').
Proof.
  intros Hother Hts (p & Hsteps & Hout & <-).
  destruct (pool_does G other Hother post _ _ Hsteps Hts) as [HG Hdone]. split; [done|].
  intros -> i Hi. apply step_length in Hsteps as Hlen. simpl in Hlen. rewrite <- Hlen in Hi.
  apply lookup_lt_is_Some in Hi as [t Ht]. apply Hdone.
  destruct (outcome_Ok _ _ Hout t) as [->|(e & _ & []%elem_of_nil)]; [by eapply list_elem_of_lookup_2|done].
Qed.

(** Without locks they all return. *)
Lemma all_of_returns {L} `{Countable L} (ts : list (thread L S unit)) s :
  Forall plain ts → ∃ r s', all_of ts s r s'.
Proof.
  intros Hts. destruct (pool_returns other {| threads := ts; held := ∅ : gmap L nat; shared := s |}) as (p & Hsteps & Hdone).
  { split; simpl.
    - intros i t Ht. exists None. split; [|by intros l].
      by eapply tidy_plain, (Forall_lookup_1 _ _ _ _ Hts).
    - intros l i. by rewrite lookup_empty. }
  destruct (outcome_finished _ Hdone) as [r Hr]. exists r, (shared p), p.
  split; [by apply moves_steps|done].
Qed.
End Rel.
