(* ===== verification/GoHeap.v ===== *)
(** * A heap of Go values, and copies on it

    Pointers, slices and maps share what they point to.  The other files model
    values without sharing; here a reference is a location of a heap, [repr]
    relates what is stored to the value it stands for and to the locations it
    is spread over, and [copies] says what a deep copy promises: an equal value
    at fresh locations, nothing else changed.

    A slice is a reference to the list of its elements and a map a reference to
    a finite map; [nil] is no reference. *)

From stdpp Require Import base list strings gmap.
From Stdlib Require Import ZArith Lia.
From S2P Require Import Prelude.

Notation loc := positive.
Notation heap C := (gmap loc C).

(** ** Cells *)

(** What a cell of type [C] can hold. *)
Class Cell (C A : Type) : Type := {
  to_cell : A → C;
  of_cell : C → option A;
  of_to_cell a : of_cell (to_cell a) = Some a
}.

Section Memory.
Context {C : Type}.

(** [*p]: a nil pointer panics. *)
Definition load `{Cell C A} (p : option loc) : run (heap C) A := λ h,
  match p with
  | None => (Panic "nil pointer dereference", h)
  | Some l =>
      match h !! l ≫= of_cell with
      | Some a => (Ok a, h)
      | None => (Panic "invalid memory", h)
      end
  end.

(** [new(T)] or [make(T)], with its content. *)
Definition new `{Cell C A} (a : A) : run (heap C) (option loc) := λ h,
  let l := fresh (dom h) in (Ok (Some l), <[l := to_cell a]> h).

(** [*p = a] *)
Definition store `{Cell C A} (p : option loc) (a : A) : run (heap C) unit := λ h,
  match p with
  | None => (Panic "nil pointer dereference", h)
  | Some l => (Ok tt, <[l := to_cell a]> h)
  end.

(** ** What is stored, and where *)

#[local] Obligation Tactic := idtac.

Record repr (A V : Type) := {
  rep : heap C → A → V → gset loc → Prop;
  rep_same h h' a v L : rep h a v L → (∀ l, l ∈ L → h' !! l = h !! l) → rep h' a v L;
  rep_dom h a v L : rep h a v L → L ⊆ dom h
}.
#[global] Arguments rep {A V} _ _ _ _ _.
#[global] Arguments rep_same {A V} _ _ _ _ _ _ _ _.
#[global] Arguments rep_dom {A V} _ _ _ _ _ _.

Lemma rep_grow {A V} (r : repr A V) h h' a v L : rep r h a v L → h ⊆ h' → rep r h' a v L.
Proof.
  intros Hr Hsub. apply (rep_same r h); [done|]. intros l Hl%(rep_dom r _ _ _ _ Hr).
  apply elem_of_dom in Hl as [c Hc]. rewrite Hc. by eapply lookup_weaken.
Qed.

(** A value without references. *)
Program Definition val_rep {A} : repr A A := {| rep h a v L := a = v ∧ L = ∅ |}.
Next Obligation. naive_solver. Qed.
Next Obligation. intros A h a v L [_ ->]. set_solver. Qed.

(** Another view of what is represented. *)
Program Definition view_rep {A V V'} (r : repr A V) (R : V → V' → Prop) : repr A V' :=
  {| rep h a v' L := ∃ v, rep r h a v L ∧ R v v' |}.
Next Obligation. intros A V V' r R h h' a v' L (v & Hr & Hv) Hl. exists v. split; [by eapply rep_same|done]. Qed.
Next Obligation. intros A V V' r R h a v' L (v & Hr & _). by eapply rep_dom. Qed.

(** A pointer, [nil] or to a cell. *)
Definition ptr_at `{Cell C A} {V} (r : repr A V) (h : heap C) (p : option loc) (v : option V) (L : gset loc) : Prop :=
  match p, v with
  | None, None => L = ∅
  | Some l, Some v => ∃ a L', h !! l = Some (to_cell a) ∧ rep r h a v L' ∧ L = {[l]} ∪ L'
  | _, _ => False
  end.
Program Definition ptr_rep `{Cell C A} {V} (r : repr A V) : repr (option loc) (option V) := {| rep := ptr_at r |}.
Next Obligation.
  intros A Hc V r h h' [l|] [v|] L; try done. intros (a & L' & Hl & Hr & ->) Hsame.
  exists a, L'. split_and!; [rewrite Hsame; set_solver| |done].
  apply (rep_same r h); [done|]. set_solver.
Qed.
Next Obligation.
  intros A Hc V r h [l|] [v|] L; try done; [|set_solver]. intros (a & L' & Hl & Hr & ->).
  apply (rep_dom r) in Hr. apply elem_of_dom_2 in Hl. set_solver.
Qed.

(** Elements. *)
Fixpoint list_at {A V} (r : repr A V) (h : heap C) (l : list A) (vs : list V) (L : gset loc) : Prop :=
  match l, vs with
  | [], [] => L = ∅
  | a :: l, v :: vs => ∃ L1 L2, rep r h a v L1 ∧ list_at r h l vs L2 ∧ L = L1 ∪ L2
  | _, _ => False
  end.
Program Definition list_rep {A V} (r : repr A V) : repr (list A) (list V) := {| rep := list_at r |}.
Next Obligation.
  intros A V r h h' l. induction l as [|a l IH]; intros [|v vs] L; simpl; try done.
  intros (L1 & L2 & H1 & H2 & ->) Hsame. exists L1, L2. split_and!; [|apply IH; [done|]|done]; [apply (rep_same r h); [done|]|];
    intros x Hx; apply Hsame; set_solver.
Qed.
Next Obligation.
  intros A V r h l. induction l as [|a l IH]; intros [|v vs] L; simpl; try done; [set_solver|].
  intros (L1 & L2 & H1%(rep_dom r) & H2%IH & ->). set_solver.
Qed.

(** Entries: a key is a value. *)
Program Definition entry_rep {A V} (r : repr A V) : repr (string * A) (string * V) :=
  {| rep h kv kw L := kv.1 = kw.1 ∧ rep r h kv.2 kw.2 L |}.
Next Obligation. intros A V r h h' [k a] [k' v] L [? Hr] Hs. split; [done|by eapply rep_same]. Qed.
Next Obligation. intros A V r h [k a] [k' v] L [_ Hr]. by eapply rep_dom. Qed.

Program Definition map_rep {A V} (r : repr A V) : repr (gmap string A) (gmap string V) := {|
  rep h m w L := ∃ vs, list_at (entry_rep r) h (map_to_list m) vs L ∧ w = list_to_map vs
|}.
Next Obligation.
  intros A V r h h' m w L (vs & Hl & ->) Hs. exists vs. split; [|done].
  by apply (rep_same (list_rep (entry_rep r)) h).
Qed.
Next Obligation. intros A V r h m w L (vs & Hl & _). by apply (rep_dom (list_rep (entry_rep r)) h (map_to_list m) vs). Qed.

(** A struct is its fields. *)
Inductive field : Type :=
| AField {A V : Type} (r : repr A V) (a : A) (v : V).

Fixpoint fields_at (h : heap C) (fs : list field) (L : gset loc) : Prop :=
  match fs with
  | [] => L = ∅
  | AField r a v :: fs => ∃ L1 L2, rep r h a v L1 ∧ fields_at h fs L2 ∧ L = L1 ∪ L2
  end.

Program Definition struct_rep {A V} (fs : A → V → list field) : repr A V :=
  {| rep h a v L := fields_at h (fs a v) L |}.
Next Obligation.
  intros A V fs h h' a v. simpl. generalize (fs a v). intros l.
  induction l as [|[A' V' r a' v'] l IH]; intros L; simpl; [done|]. intros (L1 & L2 & H1 & H2 & ->) Hs.
  exists L1, L2. split_and!; [|apply IH; [done|]|done]; [apply (rep_same r h); [done|]|]; intros x Hx; apply Hs; set_solver.
Qed.
Next Obligation.
  intros A V fs h a v. simpl. generalize (fs a v). intros l.
  induction l as [|[A' V' r a' v'] l IH]; intros L; simpl; [set_solver|].
  intros (L1 & L2 & H1%(rep_dom r) & H2%IH & ->). set_solver.
Qed.

(** ** What is stored stands for one value *)

Definition exact {A V} (r : repr A V) : Prop :=
  ∀ h a v v' L L', rep r h a v L → rep r h a v' L' → v = v'.

Lemma exact_val {A} : exact (val_rep (A := A)).
Proof. intros h a v v' L L' [-> _] [-> _]. done. Qed.
Lemma exact_view {A V V'} (r : repr A V) (R : V → V' → Prop) :
  exact r → (∀ v w w', R v w → R v w' → w = w') → exact (view_rep r R).
Proof.
  intros Hr HR h a w w' L L' (v & H1 & Hw) (v' & H2 & Hw').
  rewrite (Hr _ _ _ _ _ _ H1 H2) in Hw. by eapply HR.
Qed.
Lemma exact_ptr `{Cell C A} {V} (r : repr A V) : exact r → exact (ptr_rep r).
Proof.
  intros Hr h [l|] [v|] [v'|] L L'; try done. intros (a & L1 & Hl & H1 & _) (a' & L2 & Hl' & H2 & _).
  rewrite Hl in Hl'. injection Hl' as Heq. apply (f_equal of_cell) in Heq. rewrite !of_to_cell in Heq.
  injection Heq as <-. f_equal. by eapply Hr.
Qed.
Lemma exact_list {A V} (r : repr A V) : exact r → exact (list_rep r).
Proof.
  intros Hr h l. induction l as [|a l IH]; intros [|v vs] [|v' vs'] L L'; try done.
  intros (L1 & L2 & Ha & Hl & _) (L3 & L4 & Ha' & Hl' & _). f_equal; [by eapply Hr|by eapply IH].
Qed.
Lemma exact_entry {A V} (r : repr A V) : exact r → exact (entry_rep r).
Proof.
  intros Hr h [k a] [k1 v] [k2 v'] L L' [Hk H1] [Hk' H2]. simpl in *. subst. f_equal. by eapply Hr.
Qed.
Lemma exact_map {A V} (r : repr A V) : exact r → exact (map_rep r).
Proof.
  intros Hr h m w w' L L' (vs & Hl & ->) (vs' & Hl' & ->). f_equal.
  by apply (exact_list _ (exact_entry _ Hr) _ _ _ _ _ _ Hl Hl').
Qed.

(** ** Copies *)

(** [DeepCopyInto], as a function from the struct read to the struct
    written: it returns, nothing that was in memory has changed, and what it
    writes stands for the same value at new locations. *)
Definition copies {A V} (r : repr A V) (c : A → run (heap C) A) : Prop :=
  ∀ h a v L, rep r h a v L →
    ∃ a' h' L', c a h = (Ok a', h') ∧ h ⊆ h' ∧ rep r h' a' v L' ∧ L' ## dom h.

Definition copy_ptr `{Cell C A} (c : A → run (heap C) A) (p : option loc) : run (heap C) (option loc) :=
  match p with
  | None => mret None
  | Some _ => a ← load p; a' ← c a; new a'
  end.
(** [for i := range *in { ... (&( *out)[i]) }]; the assignment of values is [copy]. *)
Definition copy_elements {A} (c : A → run (heap C) A) (l : list A) : run (heap C) (list A) :=
  for_each (λ out a, a' ← c a; mret (out ++ [a'])) l [].
(** [for key, val := range *in { ( *out)[key] = ... }] *)
Definition copy_entries `{MapOrder} {A} (c : A → run (heap C) A) (m : gmap string A) : run (heap C) (gmap string A) :=
  h ← get_state; for_each (λ out kv, a' ← c kv.2; mret (<[kv.1 := a']> out)) (range_map h m) ∅.

Lemma copies_val {A} : copies (A := A) val_rep mret.
Proof. intros h a v L [-> ->]. exists v, h, ∅. split_and!; [done|done|done|set_solver]. Qed.

Lemma val_fresh {A} h (a v : A) L X : rep val_rep h a v L → L ## X.
Proof. intros [_ ->]. apply disjoint_empty_l. Qed.

Lemma copies_view {A V V'} (r : repr A V) (R : V → V' → Prop) c : copies r c → copies (view_rep r R) c.
Proof.
  intros Hc h a v' L (v & Hr & Hv). destruct (Hc h a v L Hr) as (a' & h' & L' & He & Hsub & Hr' & Hd).
  exists a', h', L'. split_and!; [done|done|by exists v|done].
Qed.

Lemma new_fresh (h : heap C) : h !! fresh (dom h) = None.
Proof. apply not_elem_of_dom, is_fresh. Qed.

Lemma copies_ptr `{Cell C A} {V} (r : repr A V) c : copies r c → copies (ptr_rep r) (copy_ptr c).
Proof.
  intros Hc h [l|] [v|] L Hp; try done; simpl in Hp.
  - destruct Hp as (a & L' & Hl & Hr & ->). destruct (Hc h a v L' Hr) as (a' & h' & L2 & He & Hsub & Hr' & Hd).
    exists (Some (fresh (dom h'))), (<[fresh (dom h') := to_cell a']> h'), ({[fresh (dom h')]} ∪ L2).
    pose proof (new_fresh h') as Hnew. split_and!.
    + unfold copy_ptr. rewrite (run_bind_step _ _ h a h) by (simpl; by rewrite Hl; simpl; rewrite of_to_cell).
      by rewrite (run_bind_step _ _ h a' h').
    + etrans; [done|by apply insert_subseteq].
    + exists a', L2. split_and!; [apply lookup_insert_eq| |done].
      apply (rep_grow r h'); [done|by apply insert_subseteq].
    + assert (fresh (dom h') ∉ dom h); [|set_solver].
      intros Hin%(subseteq_dom _ _ Hsub). by apply (is_fresh (dom h')).
  - subst L. exists None, h, ∅. split_and!; [done|done|done|set_solver].
Qed.

(** *** Elements *)

Lemma list_at_grow {A V} (r : repr A V) h h' l vs L : list_at r h l vs L → h ⊆ h' → list_at r h' l vs L.
Proof. apply (rep_grow (list_rep r)). Qed.

(** A copy of the first element, then of the others. *)
Lemma elements_loop {A V} (r : repr A V) c l vs h0 h out L :
  copies r c → h0 ⊆ h → list_at r h0 l vs L →
  ∃ l' h' L', for_each (λ out a, a' ← c a; mret (out ++ [a'])) l out h = (Ok (out ++ l'), h') ∧ h ⊆ h' ∧
    list_at r h' l' vs L' ∧ L' ## dom h0.
Proof.
  intros Hc. revert vs L h out. induction l as [|a l IH]; intros [|v vs] L h out Hsub Hl; try done; simpl in *.
  - exists [], h, ∅. split_and!; [by rewrite app_nil_r|done|done|set_solver].
  - destruct Hl as (L1 & L2 & Ha & Hl & _).
    destruct (Hc h a v L1) as (a' & h1 & L1' & He & Hsub1 & Ha' & Hd1); [by eapply rep_grow|].
    destruct (IH vs L2 h1 (out ++ [a'])%list) as (l' & h' & L' & He' & Hsub' & Hl' & Hd'); [by etrans|done|].
    exists (a' :: l'), h', (L1' ∪ L'). split_and!.
    + rewrite (run_bind_step _ _ h (out ++ [a'])%list h1) by (by rewrite (run_bind_step _ _ h a' h1)).
      by rewrite He', <- app_assoc.
    + by etrans.
    + exists L1', L'. split_and!; [by eapply rep_grow|done|done].
    + pose proof (subseteq_dom _ _ Hsub). set_solver.
Qed.

Lemma copies_list {A V} (r : repr A V) c : copies r c → copies (list_rep r) (copy_elements c).
Proof.
  intros Hc h l vs L Hl. by apply (elements_loop r c l vs h h [] L Hc).
Qed.

(** *** Entries *)

Lemma list_at_perm {A V} (r : repr A V) h l l' vs L :
  l ≡ₚ l' → list_at r h l vs L → ∃ vs', vs ≡ₚ vs' ∧ list_at r h l' vs' L.
Proof.
  intros Hp. revert vs L. induction Hp as [|a l l' _ IH|a b l|l1 l2 l3 _ IH1 _ IH2]; intros vs L Hl.
  - by exists vs.
  - destruct vs as [|v vs]; [done|]. destruct Hl as (L1 & L2 & Ha & (vs' & Hv & Hl)%IH & ->).
    exists (v :: vs'). split; [by f_equiv|]. by exists L1, L2.
  - destruct vs as [|v [|w vs]]; [done|by destruct Hl as (? & ? & _ & ? & _)|].
    destruct Hl as (L1 & ? & Ha & (L2 & L3 & Hb & Hl & ->) & ->).
    exists (w :: v :: vs). split; [by apply Permutation_swap|].
    exists L2, (L1 ∪ L3). split_and!; [done|by exists L1, L3|set_solver].
  - destruct (IH1 _ _ Hl) as (vs1 & Hv1 & Hl1). destruct (IH2 _ _ Hl1) as (vs2 & Hv2 & Hl2).
    exists vs2. split; [by etrans|done].
Qed.

Lemma list_at_keys {A V} (r : repr A V) h l vs L : list_at (entry_rep r) h l vs L → vs.*1 = l.*1.
Proof.
  revert vs L. induction l as [|a l IH]; intros [|v vs] L; try done. intros (L1 & L2 & [Hk _] & Hl & _).
  csimpl. f_equal; [done|by eapply IH].
Qed.

Definition insert_all {A} (out : gmap string A) (l : list (string * A)) : gmap string A :=
  foldl (λ m kv, <[kv.1 := kv.2]> m) out l.

Lemma insert_all_map {A} (l : list (string * A)) out : NoDup l.*1 → insert_all out l = list_to_map l ∪ out.
Proof.
  revert out. induction l as [|[k a] l IH]; intros out Hnd; csimpl in *; [by rewrite (left_id ∅ (∪))|].
  apply NoDup_cons in Hnd as [Hk Hnd]. unfold insert_all in *. simpl. rewrite IH by done.
  rewrite <- insert_union_r by (by apply not_elem_of_list_to_map_1). by rewrite insert_union_l.
Qed.

Lemma entries_loop {A V} (r : repr A V) c l vs h0 h out L :
  copies r c → h0 ⊆ h → list_at (entry_rep r) h0 l vs L →
  ∃ l' h' L', for_each (λ out (kv : string * A), a' ← c kv.2; mret (<[kv.1 := a']> out)) l out h
      = (Ok (insert_all out l'), h') ∧ h ⊆ h' ∧
    list_at (entry_rep r) h' l' vs L' ∧ L' ## dom h0.
Proof.
  intros Hc. revert vs L h out. induction l as [|[k a] l IH]; intros [|[k' v] vs] L h out Hsub Hl; try done; simpl in *.
  - exists [], h, ∅. split_and!; [done|done|done|set_solver].
  - destruct Hl as (L1 & L2 & [Hk Ha] & Hl & _). simpl in *. subst k'.
    destruct (Hc h a v L1) as (a' & h1 & L1' & He & Hsub1 & Ha' & Hd1); [by eapply rep_grow|].
    destruct (IH vs L2 h1 (<[k := a']> out)) as (l' & h' & L' & He' & Hsub' & Hl' & Hd'); [by etrans|done|].
    exists ((k, a') :: l'), h', (L1' ∪ L'). split_and!.
    + by rewrite (run_bind_step _ _ h (<[k := a']> out) h1) by (by rewrite (run_bind_step _ _ h a' h1)).
    + by etrans.
    + exists L1', L'. split_and!; [split; [done|by eapply rep_grow]|done|done].
    + pose proof (subseteq_dom _ _ Hsub). set_solver.
Qed.

Lemma copies_map `{MapOrder} {A V} (r : repr A V) c : copies r c → copies (map_rep r) (copy_entries c).
Proof.
  intros Hc h m w L (vs & Hl & ->).
  destruct (list_at_perm (entry_rep r) h (map_to_list m) (range_map h m) vs L) as (vs1 & Hp1 & Hl1); [by rewrite range_map_perm|done|].
  destruct (entries_loop r c (range_map h m) vs1 h h ∅ L Hc) as (l' & h' & L' & He & Hsub & Hl' & Hd); [done|exact Hl1|].
  pose proof (list_at_keys _ _ _ _ _ Hl1) as Hk1. pose proof (list_at_keys _ _ _ _ _ Hl') as Hk'.
  assert (NoDup l'.*1) as Hnd by (rewrite <- Hk', Hk1; apply range_map_NoDup).
  exists (insert_all ∅ l'), h', L'. split_and!; [done|done| |done].
  rewrite insert_all_map, (right_id ∅ (∪)) by done.
  destruct (list_at_perm (entry_rep r) h' l' (map_to_list (list_to_map l' : gmap string A)) vs1 L') as (vs2 & Hp2 & Hl2);
    [by rewrite map_to_list_to_map|done|].
  exists vs2. split; [done|]. apply list_to_map_proper; [|by etrans].
  rewrite Hp1, Hk1. apply range_map_NoDup.
Qed.

(** *** Slices, maps and structs *)

(** A nil slice and a nil map stand for empty ones. *)
Definition slice_rep {A V} `{Cell C (list A)} (r : repr A V) : repr (option loc) (list V) :=
  view_rep (ptr_rep (list_rep r)) (λ o l, l = default [] o).
Definition nil_map_rep {A V} `{Cell C (gmap string A)} (r : repr A V) : repr (option loc) (option (gmap string V)) :=
  ptr_rep (map_rep r).
Definition go_map_rep {A V} `{Cell C (gmap string A)} (r : repr A V) : repr (option loc) (gmap string V) :=
  view_rep (nil_map_rep r) (λ o m, m = default ∅ o).
(** A pointer that is not nil. *)
Definition some_rep {A V} `{Cell C A} (r : repr A V) : repr (option loc) V :=
  view_rep (ptr_rep r) (λ o v, o = Some v).

Definition copy_slice {A} `{Cell C (list A)} (c : A → run (heap C) A) : option loc → run (heap C) (option loc) :=
  copy_ptr (copy_elements c).
Definition copy_map `{MapOrder} {A} `{Cell C (gmap string A)} (c : A → run (heap C) A)
    : option loc → run (heap C) (option loc) :=
  copy_ptr (copy_entries c).

Lemma copies_slice {A V} `{Cell C (list A)} (r : repr A V) c : copies r c → copies (slice_rep r) (copy_slice c).
Proof. intros Hc. by apply copies_view, copies_ptr, copies_list. Qed.
Lemma copies_nil_map `{MapOrder} {A V} `{Cell C (gmap string A)} (r : repr A V) c :
  copies r c → copies (nil_map_rep r) (copy_map c).
Proof. intros Hc. by apply copies_ptr, copies_map. Qed.
Lemma copies_go_map `{MapOrder} {A V} `{Cell C (gmap string A)} (r : repr A V) c :
  copies r c → copies (go_map_rep r) (copy_map c).
Proof. intros Hc. by apply copies_view, copies_nil_map. Qed.
Lemma copies_some {A V} `{Cell C A} (r : repr A V) c : copies r c → copies (some_rep r) (copy_ptr c).
Proof. intros Hc. by apply copies_view, copies_ptr. Qed.

Lemma exact_slice {A V} `{Cell C (list A)} (r : repr A V) : exact r → exact (slice_rep r).
Proof. intros Hr. apply exact_view; [by apply exact_ptr, exact_list|by intros v w w' -> ->]. Qed.
Lemma exact_nil_map {A V} `{Cell C (gmap string A)} (r : repr A V) : exact r → exact (nil_map_rep r).
Proof. intros Hr. by apply exact_ptr, exact_map. Qed.
Lemma exact_go_map {A V} `{Cell C (gmap string A)} (r : repr A V) : exact r → exact (go_map_rep r).
Proof. intros Hr. apply exact_view; [by apply exact_nil_map|by intros v w w' -> ->]. Qed.
Lemma exact_some {A V} `{Cell C A} (r : repr A V) : exact r → exact (some_rep r).
Proof. intros Hr. apply exact_view; [by apply exact_ptr|intros v w w' -> Hw; by injection Hw]. Qed.

(** *** What is represented, from below *)

Lemma rep_val {A} h (a : A) : rep val_rep h a a ∅.
Proof. done. Qed.
Lemma rep_nil `{Cell C A} {V} (r : repr A V) h : rep (ptr_rep r) h None None ∅.
Proof. done. Qed.
Lemma rep_ptr `{Cell C A} {V} (r : repr A V) h l a v L :
  h !! l = Some (to_cell a) → rep r h a v L → rep (ptr_rep r) h (Some l) (Some v) ({[l]} ∪ L).
Proof. intros Hl Hr. by exists a, L. Qed.
Lemma rep_some `{Cell C A} {V} (r : repr A V) h l a v L :
  h !! l = Some (to_cell a) → rep r h a v L → rep (some_rep r) h (Some l) v ({[l]} ∪ L).
Proof. intros Hl Hr. exists (Some v). split; [by eapply rep_ptr|done]. Qed.
Lemma rep_slice_nil {A V} `{Cell C (list A)} (r : repr A V) h : rep (slice_rep r) h None [] ∅.
Proof. by exists None. Qed.
Lemma rep_slice {A V} `{Cell C (list A)} (r : repr A V) h l a v L :
  h !! l = Some (to_cell a) → rep (list_rep r) h a v L → rep (slice_rep r) h (Some l) v ({[l]} ∪ L).
Proof. intros Hl Hr. exists (Some v). split; [by eapply rep_ptr|done]. Qed.
Lemma rep_elements_nil {A V} (r : repr A V) h : rep (list_rep r) h [] [] ∅.
Proof. done. Qed.
Lemma rep_elements_cons {A V} (r : repr A V) h a v l vs L1 L2 :
  rep r h a v L1 → rep (list_rep r) h l vs L2 → rep (list_rep r) h (a :: l) (v :: vs) (L1 ∪ L2).
Proof. intros Ha Hl. by exists L1, L2. Qed.
Lemma rep_map_nil {A V} `{Cell C (gmap string A)} (r : repr A V) h : rep (go_map_rep r) h None ∅ ∅.
Proof. by exists None. Qed.
Lemma rep_map_val {A} `{Cell C (gmap string A)} h l (m : gmap string A) :
  h !! l = Some (to_cell m) → rep (go_map_rep val_rep) h (Some l) m ({[l]} ∪ ∅).
Proof.
  intros Hl. exists (Some m). split; [|done]. apply rep_ptr with (a := m); [done|].
  exists (map_to_list m). split; [|by rewrite list_to_map_to_list].
  induction (map_to_list m) as [|[k a] kvs IH]; [done|]. exists ∅, ∅. split_and!; [done|done|set_solver].
Qed.
Lemma rep_fields_nil h : fields_at h [] ∅.
Proof. done. Qed.
Lemma rep_fields_cons {A V} (r : repr A V) h a v fs L1 L2 :
  rep r h a v L1 → fields_at h fs L2 → fields_at h (AField r a v :: fs) (L1 ∪ L2).
Proof. intros Ha Hf. by exists L1, L2. Qed.

(** A run that only adds to the heap. *)
Definition ends {A} (m : run (heap C) A) (h : heap C) (Q : A → heap C → Prop) : Prop :=
  ∃ a h', m h = (Ok a, h') ∧ h ⊆ h' ∧ Q a h'.

Lemma ends_ret {A} (a : A) h (Q : A → heap C → Prop) : Q a h → ends (mret a) h Q.
Proof. intros HQ. by exists a, h. Qed.

(** A field read in [h0], copied in a later heap. *)
Lemma ends_copy {A V B} (r : repr A V) c h0 h a v L (k : A → run (heap C) B) Q :
  rep r h0 a v L → copies r c → h0 ⊆ h →
  (∀ a' h' L', h ⊆ h' → rep r h' a' v L' → L' ## dom h0 → ends (k a') h' Q) → ends (c a ≫= k) h Q.
Proof.
  intros Hr Hc Hsub Hk. destruct (Hc h a v L) as (a' & h1 & L' & He & Hsub1 & Hr' & Hd); [by eapply rep_grow|].
  destruct (Hk a' h1 L' Hsub1 Hr') as (b & h2 & Hb & Hsub2 & HQ).
  { pose proof (subseteq_dom _ _ Hsub). set_solver. }
  exists b, h2. split_and!; [by rewrite (run_bind_step _ _ h a' h1)|by etrans|done].
Qed.

Lemma copies_struct {A V} (fs : A → V → list field) c :
  (∀ h a v L, fields_at h (fs a v) L → ends (c a) h (λ a' h', ∃ L', fields_at h' (fs a' v) L' ∧ L' ## dom h)) →
  copies (struct_rep fs) c.
Proof.
  intros Hc h a v L Hf. destruct (Hc h a v L Hf) as (a' & h' & He & Hsub & L' & Hf' & Hd). by exists a', h', L'.
Qed.

End Memory.
Arguments repr : clear implicits.
Arguments field : clear implicits.

Arguments val_rep {C A}.

Create HintDb copies.
#[export] Hint Resolve copies_val copies_ptr copies_list copies_slice copies_nil_map copies_go_map copies_some : copies.

Create HintDb exact.
#[export] Hint Resolve exact_val exact_ptr exact_list exact_slice exact_nil_map exact_go_map exact_some : exact.

Create HintDb represents.
#[export] Hint Resolve rep_val rep_nil rep_ptr rep_some rep_slice_nil rep_slice rep_elements_nil rep_elements_cons
  rep_map_nil rep_map_val rep_fields_nil rep_fields_cons : represents.

(** [exact (struct_rep fs)]: field by field. *)
Ltac exact_fields :=
  match goal with |- exact ?r => unfold r end;
  let H1 := fresh in let H2 := fresh in
  intros ? ? v v' ? ? H1 H2; cbn [struct_rep rep fields_at] in H1, H2;
  repeat match goal with
  | H : ∃ _, _ |- _ => destruct H
  | H : _ ∧ _ |- _ => destruct H
  end;
  repeat match goal with
  | H : rep ?r ?h ?a ?v _, H' : rep ?r ?h ?a ?v' _ |- _ =>
      let He := fresh in
      assert (v = v') as He
        by (let Hr := fresh in assert (exact r) as Hr by (auto with exact); exact (Hr _ _ _ _ _ _ H H'));
      clear H H'
  end;
  repeat match goal with H : @eq (gset loc) _ _ |- _ => clear H end;
  first [destruct v, v'; cbn in *; f_equal; assumption
        |destruct v as [? []], v' as [? []]; cbn in *; subst; reflexivity].

(** Along the heaps of a copy, which only grow. *)
Ltac heap_chain :=
  first [reflexivity | eassumption | etrans; [eassumption|heap_chain]].

(** [copies (struct_rep fs) c]: every field is copied, or is a value. *)
Ltac copy_fields :=
  match goal with |- copies ?r ?c => unfold r end;
  apply copies_struct;
  let Hf := fresh in
  intros ? ? ? ? Hf; cbn [fields_at] in *;
  repeat match goal with
  | H : ∃ _, _ |- _ => destruct H
  | H : _ ∧ _ |- _ => destruct H
  end;
  match goal with |- ends (?c _) _ _ => unfold c end;
  repeat (eapply ends_copy; [eassumption|solve [auto with copies]|heap_chain|intros ? ? ? ? ? ?]);
  apply ends_ret;
  eexists; split;
    [repeat (do 2 eexists; split; [eapply rep_grow; [eassumption|heap_chain]|split; [|reflexivity]]); reflexivity
    |repeat (apply disjoint_union_l; split); first [eassumption|eapply val_fresh; eassumption|apply disjoint_empty_l]].
