(* ===== verification/GoStrings.v ===== *)
(** * Go's [strings] and [strconv] functions the program uses

    Go strings are byte strings: Rocq's [string] (a list of 8-bit [ascii]).
    [Contains], [HasPrefix], [HasSuffix], [Split], [Join], [ReplaceAll],
    [ToLower], [TrimSpace], [Atoi] and [Itoa] are rendered as executable
    functions; the lemmas at the end are what the components use. *)

From stdpp Require Import base list strings.
From Stdlib Require Import ZArith Lia Ascii DecimalString DecimalZ.
From S2P Require Import Prelude.

Local Open Scope string_scope.

(** [strings.HasPrefix s prefix] *)
Fixpoint HasPrefix (s prefix : string) : bool :=
  match prefix, s with
  | EmptyString, _ => true
  | String c p, String d s' => Ascii.eqb c d && HasPrefix s' p
  | String _ _, EmptyString => false
  end.

(** [strings.Contains s sub] *)
Fixpoint Contains (s sub : string) : bool :=
  HasPrefix s sub ||
  match s with
  | EmptyString => false
  | String _ s' => Contains s' sub
  end.

(** [strings.HasSuffix s suffix] *)
Fixpoint HasSuffix (s suffix : string) : bool :=
  String.eqb s suffix ||
  match s with
  | EmptyString => false
  | String _ s' => HasSuffix s' suffix
  end.

(** [strings.Split s sep] for a non-empty [sep]: cut at the leftmost
    non-overlapping occurrences.  [skip] is the number of bytes of a separator
    still to be dropped. *)
Fixpoint split_from (sep : string) (skip : nat) (s : string) : list string :=
  match s with
  | EmptyString => [""]
  | String c s' =>
      match skip with
      | S k => split_from sep k s'
      | O =>
          if HasPrefix s sep then "" :: split_from sep (String.length sep - 1) s'
          else match split_from sep 0 s' with
               | h :: t => String c h :: t
               | [] => [String c ""]
               end
      end
  end.
Definition Split (s sep : string) : list string := split_from sep 0 s.

(** [strings.Join elems sep] *)
Fixpoint Join (elems : list string) (sep : string) : string :=
  match elems with
  | [] => ""
  | [x] => x
  | x :: rest => x +:+ sep +:+ Join rest sep
  end.

(** [strings.ReplaceAll s old new] for a non-empty [old]. *)
Definition ReplaceAll (s old new : string) : string := Join (Split s old) new.

Definition ascii_lower (c : Ascii.ascii) : Ascii.ascii :=
  let n := Ascii.N_of_ascii c in
  if ((65 <=? n) && (n <=? 90))%N then Ascii.ascii_of_N (n + 32) else c.

(** Bytewise map. *)
Fixpoint string_map (f : Ascii.ascii → Ascii.ascii) (s : string) : string :=
  match s with
  | EmptyString => ""
  | String c s' => String (f c) (string_map f s')
  end.

(** [strings.ToLower]: exact on ASCII text; other bytes are left as they are.
    The program only tests the result for sub-strings of lower-case letters
    other than [i] and [k], and of digits and dots, on which the Unicode
    mapping agrees. *)
Definition ToLower (s : string) : string := string_map ascii_lower s.

Fixpoint string_forall (p : Ascii.ascii → bool) (s : string) : bool :=
  match s with
  | EmptyString => true
  | String c s' => p c && string_forall p s'
  end.

Definition is_space (c : Ascii.ascii) : bool :=
  match Ascii.N_of_ascii c with
  | 9 | 10 | 11 | 12 | 13 | 32 => true
  | _ => false
  end%N.

Definition is_digit (c : Ascii.ascii) : bool :=
  let n := Ascii.N_of_ascii c in ((48 <=? n) && (n <=? 57))%N.

Definition is_upper (c : Ascii.ascii) : bool :=
  let n := Ascii.N_of_ascii c in ((65 <=? n) && (n <=? 90))%N.

Definition is_lower (c : Ascii.ascii) : bool :=
  let n := Ascii.N_of_ascii c in ((97 <=? n) && (n <=? 122))%N.

(** [[a-zA-Z0-9]] *)
Definition is_alnum (c : Ascii.ascii) : bool := is_digit c || is_upper c || is_lower c.

(** The word characters of regular expressions, [\w]. *)
Definition is_word (c : Ascii.ascii) : bool := is_alnum c || Ascii.eqb c "_"%char.

Fixpoint trim_left (p : Ascii.ascii → bool) (s : string) : string :=
  match s with
  | String c s' => if p c then trim_left p s' else s
  | EmptyString => ""
  end.
Definition trim_right (p : Ascii.ascii → bool) (s : string) : string :=
  String.rev (trim_left p (String.rev s)).

(** [strings.TrimSpace] on ASCII white space, and [strings.Trim v] of one character. *)
Definition TrimSpace (s : string) : string := trim_right is_space (trim_left is_space s).
Definition TrimChar (c : Ascii.ascii) (s : string) : string :=
  trim_right (Ascii.eqb c) (trim_left (Ascii.eqb c) s).

(** The longest prefix of digits, as a regular expression's [\d*] takes. *)
Fixpoint take_digits (s : string) : string :=
  match s with
  | String c s' => if is_digit c then String c (take_digits s') else ""
  | EmptyString => ""
  end.

(** ** Decimal integers *)

Definition min_int64 : Z := - 2 ^ 63.
Definition max_int64 : Z := 2 ^ 63 - 1.
Definition in_int64 (z : Z) : bool := (min_int64 <=? z)%Z && (z <=? max_int64)%Z.

(** Two's complement wrap-around of Go's 64-bit [int] and [int64], and of [int32]. *)
Definition wrap64 (z : Z) : Z := (z + 2 ^ 63) mod 2 ^ 64 - 2 ^ 63.
Definition wrap32 (z : Z) : Z := (z + 2 ^ 31) mod 2 ^ 32 - 2 ^ 31.

(** [strconv.Itoa], [fmt.Sprint] of an integer and the verb [%d]. *)
Definition Itoa (z : Z) : string := NilZero.string_of_int (Z.to_int z).

(** [strconv.Atoi]: an optional sign, decimal digits, and the int64 range; the
    error is [None]. *)
Definition parse_int (s : string) : option Z :=
  match s with
  | String "+" s' => Z.of_uint <$> NilZero.uint_of_string s'
  | _ => Z.of_int <$> NilZero.int_of_string s
  end.
Definition Atoi (s : string) : option Z :=
  z ← parse_int s; if in_int64 z then Some z else None.

(** [lo.Compact] on strings: the non-empty ones, in order. *)
Definition Compact (l : list string) : list string :=
  List.filter (λ s, negb (String.eqb s "")) l.

(** ** Lemmas *)

Lemma app_nil_l_str s : "" +:+ s = s.
Proof. reflexivity. Qed.

Lemma app_cons_str c s t : String c s +:+ t = String c (s +:+ t).
Proof. reflexivity. Qed.

Lemma app_nil_r_str s : s +:+ "" = s.
Proof. induction s; [done|]. by rewrite app_cons_str, IHs. Qed.

Lemma app_assoc_str s t u : (s +:+ t) +:+ u = s +:+ (t +:+ u).
Proof. induction s; [done|]. by rewrite !app_cons_str, IHs. Qed.

#[export] Hint Rewrite app_nil_l_str app_cons_str app_nil_r_str app_assoc_str : str.

Lemma HasPrefix_spec s p : HasPrefix s p = true ↔ ∃ t, s = p +:+ t.
Proof.
  revert s; induction p as [|c p IH]; intros s.
  - split; [by exists s|]. by destruct s.
  - destruct s as [|d s]; simpl; [split; [done|by intros (t & ?)]|].
    rewrite andb_true_iff, Ascii.eqb_eq, IH. split.
    + intros (-> & t & ->). by exists t.
    + intros (t & Ht). rewrite app_cons_str in Ht. simplify_eq. eauto.
Qed.

Lemma HasPrefix_app p t : HasPrefix (p +:+ t) p = true.
Proof. apply HasPrefix_spec. eauto. Qed.

Lemma Contains_spec s sub : Contains s sub = true ↔ ∃ a b, s = a +:+ sub +:+ b.
Proof.
  induction s as [|c s IH]; cbn [Contains]; rewrite orb_true_iff, HasPrefix_spec.
  - split.
    + intros [(t & Ht)|?]; [|done]. rewrite Ht. by exists "", t.
    + intros (a & b & Hab). left. exists b. by destruct a.
  - rewrite IH. split.
    + intros [(t & Ht)|(a & b & ->)]; [rewrite Ht; by exists "", t|].
      exists (String c a), b. by autorewrite with str.
    + intros ([|a0 a] & b & Hab); autorewrite with str in Hab; [by left; exists b|].
      simplify_eq. right. eauto.
Qed.

Lemma Contains_refl s : Contains s s = true.
Proof. apply Contains_spec. exists "", "". by autorewrite with str. Qed.

Lemma Contains_empty s : Contains s "" = true.
Proof. apply Contains_spec. by exists "", s. Qed.

Lemma Contains_char_cons c d s :
  Contains (String d s) (String c "") = Ascii.eqb c d || Contains s (String c "").
Proof. simpl. by destruct s; rewrite andb_true_r. Qed.

Lemma length_app_str s t : String.length (s +:+ t) = String.length s + String.length t.
Proof. induction s; [done|]. by rewrite app_cons_str; simpl; rewrite IHs. Qed.

(** *** Split and Join *)

Lemma split_from_nonempty sep k s : split_from sep k s ≠ [].
Proof.
  revert k; induction s as [|c s IH]; intros [|k]; [done..| |by apply IH].
  cbn [split_from]. destruct (HasPrefix _ _); [done|].
  by destruct (split_from sep 0 s).
Qed.

Lemma split_from_skip sep u s :
  split_from sep (String.length u) (u +:+ s) = split_from sep 0 s.
Proof. induction u; [done|]. by rewrite app_cons_str. Qed.

Lemma Split_cut c p s :
  Split (String c p +:+ s) (String c p) = "" :: Split s (String c p).
Proof.
  unfold Split. rewrite app_cons_str. cbn [split_from].
  rewrite <- app_cons_str, HasPrefix_app. cbn [String.length].
  by rewrite Nat.sub_succ, Nat.sub_0_r, split_from_skip.
Qed.

Lemma Split_keep sep c s :
  HasPrefix (String c s) sep = false →
  ∃ h t, Split s sep = h :: t ∧ Split (String c s) sep = String c h :: t.
Proof.
  intros Hp. unfold Split. cbn [split_from]. rewrite Hp.
  destruct (split_from sep 0 s) as [|h t] eqn:Hs; [|eauto].
  by apply split_from_nonempty in Hs.
Qed.

Lemma Join_cons x l sep : l ≠ [] → Join (x :: l) sep = x +:+ sep +:+ Join l sep.
Proof. by destruct l. Qed.

Lemma Join_cons_char c h t sep : Join (String c h :: t) sep = String c (Join (h :: t) sep).
Proof. by destruct t. Qed.

(** Induction along the cuts of [Split]. *)
Lemma split_ind sep (P : string → Prop) :
  sep ≠ "" → P "" →
  (∀ s, P s → P (sep +:+ s)) →
  (∀ c s, HasPrefix (String c s) sep = false → P s → P (String c s)) →
  ∀ s, P s.
Proof.
  intros Hsep H0 Hcut Hkeep s.
  remember (String.length s) as n eqn:Hn. revert s Hn.
  induction (lt_wf n) as [n _ IH]; intros s ->.
  destruct s as [|c s]; [done|].
  destruct (HasPrefix (String c s) sep) eqn:Hp.
  - apply HasPrefix_spec in Hp as (t & Ht). rewrite Ht. apply Hcut.
    eapply IH; [|done]. rewrite Ht, length_app_str.
    destruct sep; [done|]; simpl; lia.
  - apply Hkeep; [done|]. eapply IH; [|done]. simpl; lia.
Qed.

(** Joining the pieces of a split with the separator gives the text back. *)
Lemma Join_Split s sep : sep ≠ "" → Join (Split s sep) sep = s.
Proof.
  intros Hsep. revert s. apply (split_ind sep); [done|done| |]; [intros s IH|intros c s Hp IH].
  - destruct sep as [|c p]; [done|]. rewrite Split_cut, Join_cons.
    + by rewrite IH.
    + apply split_from_nonempty.
  - destruct (Split_keep _ _ _ Hp) as (h & t & Hs & ->).
    by rewrite Join_cons_char, <- Hs, IH.
Qed.

Lemma Split_no_sep s sep : sep ≠ "" → Contains s sep = false → Split s sep = [s].
Proof.
  intros Hsep. induction s as [|c s IH]; [done|].
  cbn [Contains]. intros [Hp Hc]%orb_false_iff.
  destruct (Split_keep _ _ _ Hp) as (h & t & Hs & ->).
  rewrite IH in Hs by done. by simplify_eq.
Qed.

Lemma Split_length s sep :
  sep ≠ "" → (2 ≤ length (Split s sep))%nat ↔ Contains s sep = true.
Proof.
  intros Hsep. split.
  - intros Hl. destruct (Contains s sep) eqn:Hc; [done|].
    rewrite Split_no_sep in Hl by done. simpl in Hl; lia.
  - intros Hc. destruct (Split s sep) as [|x [|y l]] eqn:Hs; simpl; [| |lia].
    + by apply split_from_nonempty in Hs.
    + exfalso. pose proof (Join_Split s sep Hsep) as Hj. rewrite Hs in Hj. simpl in Hj.
      subst x. revert Hs Hc. clear -Hsep.
      induction s as [|c s IH]; cbn [Contains]; intros Hs.
      * destruct sep; [done|]. by simpl.
      * destruct (HasPrefix (String c s) sep) eqn:Hp.
        { unfold Split in Hs; cbn [split_from] in Hs. rewrite Hp in Hs. by simplify_eq. }
        simpl. destruct (Split_keep _ _ _ Hp) as (h & t & Hs' & Hs'').
        rewrite Hs'' in Hs. simplify_eq. by apply IH.
Qed.

(** A one-character separator. *)
Lemma HasPrefix_char c d s : HasPrefix (String d s) (String c "") = Ascii.eqb c d.
Proof. simpl. destruct s; by rewrite andb_true_r. Qed.

Lemma Split_char_pieces c s :
  Forall (λ x, Contains x (String c "") = false) (Split s (String c "")).
Proof.
  revert s. apply (split_ind (String c "")); [done|by repeat constructor| |];
    [intros s IH|intros d s Hp IH].
  - rewrite Split_cut. by constructor.
  - destruct (Split_keep _ _ _ Hp) as (h & t & Hs & ->). rewrite Hs in IH.
    inversion IH; subst. constructor; [|done].
    rewrite Contains_char_cons, H1, orb_false_r. by rewrite HasPrefix_char in Hp.
Qed.

Lemma Split_app_char c x s :
  Contains x (String c "") = false →
  Split (x +:+ String c s) (String c "") = x :: Split s (String c "").
Proof.
  induction x as [|d x IH]; intros Hx.
  - apply (Split_cut c "" s).
  - rewrite Contains_char_cons in Hx. apply orb_false_iff in Hx as [Hd Hx].
    rewrite app_cons_str.
    destruct (Split_keep (String c "") d (x +:+ String c s)) as (h & t & Hs & ->).
    { by rewrite HasPrefix_char. }
    rewrite IH in Hs by done. by simplify_eq.
Qed.

(** Splitting what was joined gives the pieces back, when none holds the
    separator. *)
Lemma Split_Join_char c l :
  l ≠ [] → Forall (λ x, Contains x (String c "") = false) l →
  Split (Join l (String c "")) (String c "") = l.
Proof.
  intros Hl Hf. induction Hf as [|x l Hx Hf IH]; [done|].
  destruct l as [|y l]; [by apply Split_no_sep|].
  rewrite Join_cons by done. rewrite app_cons_str, app_nil_l_str, Split_app_char by done.
  by rewrite IH.
Qed.

(** [ReplaceAll] of one character by one character is a bytewise map. *)
Lemma ReplaceAll_char c d s :
  ReplaceAll s (String c "") (String d "") =
  string_map (λ x, if Ascii.eqb c x then d else x) s.
Proof.
  unfold ReplaceAll. revert s. apply (split_ind (String c "")); [done|done| |];
    [intros s IH|intros x s Hp IH].
  - rewrite Split_cut, Join_cons by apply split_from_nonempty.
    rewrite IH. autorewrite with str. simpl. by rewrite Ascii.eqb_refl.
  - destruct (Split_keep _ _ _ Hp) as (h & t & Hs & ->).
    rewrite Join_cons_char, <- Hs, IH. simpl. rewrite HasPrefix_char in Hp. by rewrite Hp.
Qed.

(** *** Decimal integers *)

Lemma wrap64_id z : in_int64 z = true → wrap64 z = z.
Proof.
  unfold in_int64, wrap64, min_int64, max_int64. intros ?.
  rewrite Z.mod_small; lia.
Qed.

Lemma wrap64_in_int64 z : in_int64 (wrap64 z) = true.
Proof.
  unfold in_int64, wrap64, min_int64, max_int64.
  pose proof (Z.mod_pos_bound (z + 2 ^ 63) (2 ^ 64)). lia.
Qed.

Lemma Itoa_parse z : NilZero.int_of_string (Itoa z) = Some (Z.to_int z).
Proof.
  unfold Itoa. apply NilZero.isi; destruct z as [|p|p]; simpl; try done;
    pose proof (DecimalPos.Unsigned.to_uint_nonnil p); congruence.
Qed.

Lemma Itoa_not_plus z s : Itoa z ≠ String "+" s.
Proof.
  unfold Itoa, NilZero.string_of_int, NilZero.string_of_uint.
  destruct (Z.to_int z) as [d|d]; [|by destruct d].
  by destruct d.
Qed.

(** Printing and reading back an int64 is the identity. *)
Lemma Atoi_Itoa z : in_int64 z = true → Atoi (Itoa z) = Some z.
Proof.
  intros Hz. unfold Atoi.
  assert (parse_int (Itoa z) = Some z) as ->.
  { pose proof (Itoa_parse z) as Hp. pose proof (Itoa_not_plus z) as Hn.
    assert (parse_int (Itoa z) = Z.of_int <$> NilZero.int_of_string (Itoa z)) as ->.
    { destruct (Itoa z) as [|c s]; [done|]. unfold parse_int.
      destruct c as [[] [] [] [] [] [] [] []]; try done; by destruct (Hn s). }
    rewrite Hp. simpl. by rewrite DecimalZ.of_to. }
  simpl. by rewrite Hz.
Qed.

#[export] Instance Itoa_inj : Inj (=) (=) Itoa.
Proof.
  intros z1 z2 Hz. pose proof (Itoa_parse z1) as H1. pose proof (Itoa_parse z2) as H2.
  rewrite Hz, H2 in H1. simplify_eq.
  rewrite <- (DecimalZ.of_to z1), <- (DecimalZ.of_to z2). by rewrite H1.
Qed.

(** ** Characters of printed numbers *)

Lemma string_forall_app p s t : string_forall p (s +:+ t) = string_forall p s && string_forall p t.
Proof. induction s as [|c s IH]; [done|]. rewrite app_cons_str. simpl. by rewrite IH, andb_assoc. Qed.

Lemma string_forall_impl (p q : Ascii.ascii → bool) s :
  (∀ c, p c = true → q c = true) → string_forall p s = true → string_forall q s = true.
Proof.
  intros Hpq. induction s as [|c s IH]; simpl; [done|]. rewrite !andb_true_iff. intros [? ?]; auto.
Qed.

Lemma string_of_uint_digits d : string_forall is_digit (NilEmpty.string_of_uint d) = true.
Proof. induction d; simpl; auto. Qed.

Lemma Itoa_digits z : (0 <= z)%Z → string_forall is_digit (Itoa z) = true.
Proof.
  intros Hz. unfold Itoa. destruct z as [|p|p]; [done| |lia]. simpl.
  unfold NilZero.string_of_uint. destruct (Pos.to_uint p) eqn:Hu; [done|..];
    rewrite <- Hu; apply string_of_uint_digits.
Qed.

Definition is_number_char (c : Ascii.ascii) : bool := is_digit c || Ascii.eqb c "-"%char.

Lemma Itoa_chars z : string_forall is_number_char (Itoa z) = true.
Proof.
  destruct (Z.le_gt_cases 0 z) as [Hz|Hz].
  - apply (string_forall_impl is_digit); [|by apply Itoa_digits].
    intros c Hc. unfold is_number_char. by rewrite Hc.
  - assert (∃ n, (0 <= n)%Z ∧ Itoa z = String "-" (Itoa n)) as (n & Hn & ->).
    { exists (- z)%Z. split; [lia|]. destruct z as [|p|p]; [lia..|]. reflexivity. }
    simpl. apply (string_forall_impl is_digit); [|by apply Itoa_digits].
    intros c Hc. unfold is_number_char. by rewrite Hc.
Qed.

Lemma HasSuffix_spec s t : HasSuffix s t = true ↔ ∃ u, s = u +:+ t.
Proof.
  split.
  - induction s as [|c s IH].
    + destruct t; simpl; [|done]. by exists "".
    + cbn [HasSuffix]. rewrite orb_true_iff. intros [<-%String.eqb_eq|Hs]; [by exists ""|].
      destruct (IH Hs) as (u & ->). by exists (String c u).
  - intros (u & ->). induction u as [|c u IH].
    + rewrite app_nil_l_str. destruct t; cbn [HasSuffix]; [done|]. by rewrite String.eqb_refl.
    + rewrite app_cons_str. cbn [HasSuffix]. rewrite IH. by rewrite orb_true_r.
Qed.

Lemma HasSuffix_chars p s t :
  string_forall p s = true → string_forall p t = false → HasSuffix s t = false.
Proof.
  intros Hs Ht. destruct (HasSuffix s t) eqn:Hx; [|done].
  apply HasSuffix_spec in Hx as (u & ->). rewrite string_forall_app, Ht, andb_false_r in Hs. done.
Qed.

Lemma Contains_chars p s t :
  string_forall p s = true → string_forall p t = false → Contains s t = false.
Proof.
  intros Hs Ht. destruct (Contains s t) eqn:Hx; [|done].
  apply Contains_spec in Hx as (a & b & ->).
  by rewrite !string_forall_app, Ht, !andb_false_r in Hs.
Qed.
