(* ===== verification/GoFloat.v ===== *)
(** * Go's [float32] and [float64]

    Values are [SpecFloat]'s IEEE-754 numbers, at the formats (24, 128) and
    (53, 1024); every operation rounds to nearest, ties to even, as Go does on
    amd64 (no fused multiply-add). *)

From stdpp Require Import base list.
From Stdlib Require Import ZArith QArith Qabs Lia SpecFloat.
From S2P Require Import Prelude GoStrings.

Local Open Scope Z_scope.

Abbreviation f32 := spec_float (only parsing).
Abbreviation f64 := spec_float (only parsing).

Definition f32_add : f32 → f32 → f32 := SFadd 24 128.
Definition f32_mul : f32 → f32 → f32 := SFmul 24 128.
Definition f32_div : f32 → f32 → f32 := SFdiv 24 128.
Definition f64_add : f64 → f64 → f64 := SFadd 53 1024.
Definition f64_sub : f64 → f64 → f64 := SFsub 53 1024.
Definition f64_mul : f64 → f64 → f64 := SFmul 53 1024.
Definition f64_div : f64 → f64 → f64 := SFdiv 53 1024.

(** [float32(z)] and [float64(z)] of an integer. *)
Definition f32_of_Z (z : Z) : f32 := binary_normalize 24 128 z 0 false.
Definition f64_of_Z (z : Z) : f64 := binary_normalize 53 1024 z 0 false.

(** The conversions [float64(x)] and [float32(x)]. *)
Definition f64_of_f32 (x : f32) : f64 :=
  match x with S754_finite s m e => binary_round 53 1024 s m e | _ => x end.
Definition f32_of_f64 (x : f64) : f32 :=
  match x with S754_finite s m e => binary_round 24 128 s m e | _ => x end.

(** The decimal [m * 10^-k], correctly rounded: a literal of the source or of
    a JSON document. *)
Definition f32_of_decimal (m k : Z) : f32 :=
  match m with
  | Z0 => S754_zero false
  | Zpos p => SFdiv 24 128 (S754_finite false p 0) (S754_finite false (Z.to_pos (10 ^ k)) 0)
  | Zneg p => SFdiv 24 128 (S754_finite true p 0) (S754_finite false (Z.to_pos (10 ^ k)) 0)
  end.
Definition f64_of_decimal (m k : Z) : f64 :=
  match m with
  | Z0 => S754_zero false
  | Zpos p => SFdiv 53 1024 (S754_finite false p 0) (S754_finite false (Z.to_pos (10 ^ k)) 0)
  | Zneg p => SFdiv 53 1024 (S754_finite true p 0) (S754_finite false (Z.to_pos (10 ^ k)) 0)
  end.

(** [math.MaxFloat32] *)
Definition MaxFloat32 : f32 := SFmax_float 24 128.

(** Truncation towards zero of a finite number; [None] for NaN and infinities. *)
Definition sf_trunc (x : spec_float) : option Z :=
  match x with
  | S754_zero _ => Some 0
  | S754_finite s m e =>
      Some (cond_Zopp s (if 0 <=? e then Zpos m * 2 ^ e else Zpos m / 2 ^ (- e)))
  | _ => None
  end.

(** [math.Ceil] as an integer. *)
Definition sf_ceil (x : spec_float) : option Z :=
  match x with
  | S754_zero _ => Some 0
  | S754_finite s m e =>
      Some (if 0 <=? e then cond_Zopp s (Zpos m * 2 ^ e)
            else - (cond_Zopp (negb s) (Zpos m) / 2 ^ (- e)))
  | _ => None
  end.

(** [math.Ceil] (the sign of a zero result is not kept). *)
Definition f64_ceil (x : f64) : f64 :=
  match sf_ceil x with Some z => f64_of_Z z | None => x end.

(** [int64(x)] of a float: truncation; out of range, NaN and infinities give
    the smallest int64, which is what amd64 yields (the language leaves it to
    the implementation). *)
Definition int64_of_float (x : spec_float) : Z :=
  match sf_trunc x with
  | Some z => if in_int64 z then z else min_int64
  | None => min_int64
  end.

(** The exact rational value of a finite number. *)
Definition sf_to_Q (x : spec_float) : option Q :=
  match x with
  | S754_zero _ => Some 0%Q
  | S754_finite s m e =>
      Some (if 0 <=? e then inject_Z (cond_Zopp s (Zpos m * 2 ^ e))
            else Qmake (cond_Zopp s (Zpos m)) (Z.to_pos (2 ^ (- e))))
  | _ => None
  end.

(** [x] is within [eps] of [q]. *)
Definition within (eps : Q) (x : spec_float) (q : Q) : bool :=
  match sf_to_Q x with
  | Some v => Qle_bool (Qabs.Qabs (v - q)) eps
  | None => false
  end.

(** The sign of a number that is not NaN. *)
Definition sign_is (s : bool) (x : spec_float) : bool :=
  match x with
  | S754_zero s' | S754_infinity s' | S754_finite s' _ _ => Bool.eqb s s'
  | S754_nan => false
  end.
Definition is_finite (x : spec_float) : bool :=
  match x with S754_zero _ | S754_finite _ _ _ => true | _ => false end.

(** Positive zero, a positive number or [+Inf]; and the finite ones. *)
Definition nonneg (x : spec_float) : bool := sign_is false x.
Definition fin_nonneg (x : spec_float) : bool := nonneg x && is_finite x.

(** ** Signs of rounded results *)

Section Signs.
Context (prec emax : Z).

Lemma shr_1_nonneg mrs : 0 <= shr_m mrs → 0 <= shr_m (shr_1 mrs).
Proof. destruct mrs as [[|[p|p|]|[p|p|]] r s]; simpl; lia. Qed.

Lemma iter_pos_inv {A} (P : A → Prop) (f : A → A) n x :
  (∀ y, P y → P (f y)) → P x → P (iter_pos f n x).
Proof. intros Hf. revert x. induction n; intros x Hx; simpl; auto. Qed.

Lemma shr_fexp_nonneg m e l : 0 <= m → 0 <= shr_m (shr_fexp prec emax m e l).1.
Proof.
  intros Hm. unfold shr_fexp, shr.
  assert (0 <= shr_m (shr_record_of_loc m l)) by (destruct l as [|[]]; done).
  destruct (_ - e); simpl; [done| |done].
  apply (iter_pos_inv (λ r, 0 <= shr_m r)); auto using shr_1_nonneg.
Qed.

Lemma round_nearest_even_nonneg m l : 0 <= m → 0 <= round_nearest_even m l.
Proof. destruct l as [|[]]; simpl; try destruct (Z.even m); lia. Qed.

Lemma binary_round_aux_sign s m e l :
  0 <= m → sign_is s (binary_round_aux prec emax s m e l) = true.
Proof.
  intros Hm. unfold binary_round_aux.
  pose proof (shr_fexp_nonneg m e l Hm) as H1.
  destruct (shr_fexp prec emax m e l) as [r1 e1]. simpl in H1.
  pose proof (shr_fexp_nonneg (round_nearest_even (shr_m r1) (loc_of_shr_record r1)) e1 loc_Exact
    (round_nearest_even_nonneg _ _ H1)) as H2.
  destruct (shr_fexp _ _ _ e1 _) as [r2 e2]. simpl in H2.
  destruct (shr_m r2); [by destruct s| |lia].
  by destruct (_ <=? _); destruct s.
Qed.

Lemma binary_round_sign s m e : sign_is s (binary_round prec emax s m e) = true.
Proof.
  unfold binary_round. destruct (shl_align _ _ _). by apply binary_round_aux_sign.
Qed.

Lemma SFmul_nonneg x y :
  fin_nonneg x = true → fin_nonneg y = true → nonneg (SFmul prec emax x y) = true.
Proof.
  unfold fin_nonneg, nonneg.
  destruct x as [[]|[]| |[] mx ex], y as [[]|[]| |[] my ey]; simpl; try done.
  intros _ _. by apply binary_round_aux_sign.
Qed.

Lemma SFadd_nonneg x y :
  nonneg x = true → nonneg y = true → nonneg (SFadd prec emax x y) = true.
Proof.
  unfold nonneg.
  destruct x as [[]|[]| |[] mx ex], y as [[]|[]| |[] my ey]; simpl; try done.
  intros _ _. apply binary_round_sign.
Qed.

Lemma SFdiv_core_nonneg m1 e1 p e2 :
  0 <= m1 → 0 <= (SFdiv_core_binary prec emax m1 e1 (Zpos p) e2).1.1.
Proof.
  intros Hm. unfold SFdiv_core_binary.
  set (sh := _ - _). set (m' := match sh with Z0 => _ | Zpos _ => _ | Zneg _ => _ end).
  assert (0 <= m') by (unfold m'; destruct sh; [lia|by apply Z.shiftl_nonneg|lia]).
  pose proof (Z.div_pos m' (Zpos p)). unfold Z.div in *.
  destruct (Z.div_eucl m' (Zpos p)). simpl. lia.
Qed.

Lemma SFdiv_nonneg x y :
  fin_nonneg x = true → fin_nonneg y = true →
  (∀ b, y ≠ S754_zero b) → nonneg (SFdiv prec emax x y) = true.
Proof.
  unfold fin_nonneg, nonneg.
  destruct x as [[]|[]| |[] mx ex], y as [[]|[]| |[] my ey]; simpl; try done;
    try (by intros _ _ Hy; destruct (Hy false)).
  intros _ _ _. pose proof (SFdiv_core_nonneg (Zpos mx) ex my ey).
  destruct (SFdiv_core_binary _ _ _ _ _ _) as [[mz ez] lz]. simpl in *.
  apply binary_round_aux_sign. lia.
Qed.
End Signs.

(** ** Integers convert to finite numbers *)

Section Finite.
Context (prec emax : Z).

Lemma digits2_pos_le p k : Zpos p < 2 ^ k → Zpos (digits2_pos p) <= k.
Proof.
  revert k. induction p as [p IH|p IH|]; intros k Hk;
    assert (0 < k) by
      (destruct (Z.lt_ge_cases 0 k) as [|Hle]; [done|];
       apply (Z.pow_le_mono_r 2) in Hle; [rewrite Z.pow_0_r in Hle; lia|lia]);
    [| |simpl; lia];
    assert (2 ^ k = 2 * 2 ^ (k - 1))
      by (rewrite <- Z.pow_succ_r by lia; f_equal; lia);
    specialize (IH (k - 1)); simpl; rewrite Pos2Z.inj_succ; lia.
Qed.

Lemma digits2_pos_gt p : Zpos p < 2 ^ Zpos (digits2_pos p).
Proof.
  induction p as [p IH|p IH|]; simpl; [..|done];
    rewrite Pos2Z.inj_succ, Z.pow_succ_r by lia; lia.
Qed.

Lemma Zdigits2_le m k : 0 <= m < 2 ^ k → 0 <= k → Zdigits2 m <= k.
Proof. destruct m; simpl; intros; [lia|apply digits2_pos_le; lia|lia]. Qed.

Lemma shr_1_le r : 0 <= shr_m r → 0 <= shr_m (shr_1 r) <= shr_m r.
Proof. destruct r as [[|[p|p|]|[p|p|]] ? ?]; simpl; lia. Qed.

Lemma shr_fexp_bounds m e l k E :
  0 <= m < 2 ^ k → 0 <= k → e <= E → k + e - prec <= E → emin prec emax <= E →
  let r := shr_fexp prec emax m e l in 0 <= shr_m r.1 <= m ∧ r.2 <= E.
Proof.
  intros Hm Hk He HE Hmin. unfold shr_fexp, shr.
  assert (shr_m (shr_record_of_loc m l) = m) as Hl by (destruct l as [|[]]; done).
  pose proof (Zdigits2_le m k Hm Hk) as Hd.
  assert (fexp prec emax (Zdigits2 m + e) <= E) by (unfold fexp; lia).
  destruct (fexp prec emax (Zdigits2 m + e) - e) as [|n|n] eqn:Hn; simpl; rewrite ?Hl; [lia| |lia].
  split; [|lia].
  apply (iter_pos_inv (λ r, 0 <= shr_m r <= m)); [|lia].
  intros r Hr. pose proof (shr_1_le r). lia.
Qed.

Lemma round_nearest_even_le m l : m <= round_nearest_even m l <= m + 1.
Proof. destruct l as [|[]]; simpl; try destruct (Z.even m); lia. Qed.

Lemma binary_round_aux_finite s m e l k :
  0 <= m < 2 ^ k → 0 <= k → 0 <= prec →
  emin prec emax <= e → k + 1 + Z.max e (k + e - prec) <= emax - prec →
  is_finite (binary_round_aux prec emax s m e l) = true.
Proof.
  intros Hm Hk Hp Hmin HE. unfold binary_round_aux.
  pose proof (shr_fexp_bounds m e l k (Z.max e (k + e - prec)) Hm Hk) as [H1 H1'];
    [lia..|].
  destruct (shr_fexp prec emax m e l) as [r1 e1]. simpl in H1, H1'.
  set (m2 := round_nearest_even _ _).
  pose proof (round_nearest_even_le (shr_m r1) (loc_of_shr_record r1)) as Hm2. fold m2 in Hm2.
  assert (2 ^ (k + 1) = 2 * 2 ^ k) by (rewrite <- Z.pow_succ_r by lia; f_equal; lia).
  assert (0 < 2 ^ k) by (apply Z.pow_pos_nonneg; lia).
  pose proof (shr_fexp_bounds m2 e1 loc_Exact (k + 1)
    (k + 1 + Z.max e (k + e - prec))) as [H2 H2']; [lia..|].
  destruct (shr_fexp prec emax m2 e1 loc_Exact) as [r2 e2]. simpl in H2, H2'.
  destruct (shr_m r2); [done| |lia].
  by replace (e2 <=? emax - prec) with true by lia.
Qed.
End Finite.

Lemma f32_of_Z_finite z : 0 <= z <= max_int64 → is_finite (f32_of_Z z) = true.
Proof.
  unfold max_int64. intros Hz. destruct z as [|p|]; [done| |lia].
  unfold f32_of_Z, binary_normalize, binary_round, shl_align.
  pose proof (digits2_pos_le p 63) as Hd.
  set (f := fexp 24 128 (Zpos (digits2_pos p) + 0)).
  destruct (f - 0) as [|d|d] eqn:Hf.
  - apply (binary_round_aux_finite _ _ _ _ _ _ 63); simpl; unfold emin; lia.
  - apply (binary_round_aux_finite _ _ _ _ _ _ 63); simpl; unfold emin; lia.
  - assert (Zpos d <= 24) as Hd24 by (unfold f, fexp, emin in Hf; lia).
    assert (Zpos (Pos.iter xO p d) = Zpos p * 2 ^ Zpos d) as Hi.
    { rewrite <- Z.shiftl_mul_pow2 by lia. by apply Pos.iter_swap_gen. }
    assert (Zpos d = 24 - Zpos (digits2_pos p)) as Hd'.
    { unfold f, fexp, emin in Hf. lia. }
    apply (binary_round_aux_finite _ _ _ _ _ _ 24); [|lia|lia|unfold f, fexp, emin; lia..].
    rewrite Hi. split; [lia|].
    replace 24 with (Zpos (digits2_pos p) + Zpos d) by lia.
    rewrite Z.pow_add_r by lia. apply Z.mul_lt_mono_pos_r; [lia|apply digits2_pos_gt].
Qed.

Lemma f32_of_Z_nonneg z : 0 <= z → nonneg (f32_of_Z z) = true.
Proof. destruct z; [done| |lia]. intros _. apply binary_round_sign. Qed.

Lemma f32_of_Z_fin_nonneg z : 0 <= z <= max_int64 → fin_nonneg (f32_of_Z z) = true.
Proof.
  intros Hz. unfold fin_nonneg. by rewrite f32_of_Z_nonneg, f32_of_Z_finite by lia.
Qed.

Lemma f32_mul_nonneg x y :
  fin_nonneg x = true → fin_nonneg y = true → nonneg (f32_mul x y) = true.
Proof. apply SFmul_nonneg. Qed.

Lemma f32_add_nonneg x y :
  nonneg x = true → nonneg y = true → nonneg (f32_add x y) = true.
Proof. apply SFadd_nonneg. Qed.

(** ** Integers of at most [prec] digits convert exactly *)

Section Exact.
Context (prec emax : Z) (Hprec : 0 < prec) (Hemax : prec < emax).

Lemma digits2_pos_shift p n : Zpos (digits2_pos (Pos.iter xO p n)) = Zpos (digits2_pos p) + Zpos n.
Proof.
  induction n as [|n IH] using Pos.peano_ind; [simpl; lia|].
  rewrite Pos.iter_succ. simpl. lia.
Qed.

Lemma pos_shift_Z p n : Zpos (Pos.iter xO p n) = Zpos p * 2 ^ Zpos n.
Proof. rewrite <- Z.shiftl_mul_pow2 by lia. by apply Pos.iter_swap_gen. Qed.

Lemma shr_fexp_id m e :
  fexp prec emax (Zdigits2 m + e) = e →
  shr_fexp prec emax m e loc_Exact = (shr_record_of_loc m loc_Exact, e).
Proof. intros He. unfold shr_fexp. by rewrite He, Z.sub_diag. Qed.

Lemma binary_round_aux_exact s p e :
  fexp prec emax (Zpos (digits2_pos p) + e) = e → e <= emax - prec →
  binary_round_aux prec emax s (Zpos p) e loc_Exact = S754_finite s p e.
Proof.
  intros He Hle. unfold binary_round_aux. rewrite shr_fexp_id by done. simpl.
  rewrite shr_fexp_id by done. simpl. by replace (e <=? emax - prec) with true by lia.
Qed.

(** The value [m * 2^e] of a finite result. *)
Definition denotes (x : spec_float) (n : Z) : Prop :=
  match x with
  | S754_zero _ => n = 0
  | S754_finite s m e => e <= 0 ∧ cond_Zopp s (Zpos m) = n * 2 ^ (- e)
  | _ => False
  end.

Lemma binary_round_int s p :
  Zpos (digits2_pos p) <= prec →
  denotes (binary_round prec emax s p 0) (cond_Zopp s (Zpos p)).
Proof.
  intros Hd. unfold binary_round, shl_align. set (d := Zpos (digits2_pos p)) in *.
  assert (fexp prec emax (d + 0) = d - prec) as Hf by (unfold fexp, emin; lia).
  rewrite Hf, Z.sub_0_r. destruct (d - prec) as [|n|n] eqn:Hn; [|lia|].
  - rewrite binary_round_aux_exact; [simpl; split; [lia|by rewrite Z.mul_1_r]| |lia].
    fold d. by rewrite Hf.
  - rewrite binary_round_aux_exact.
    + split; [lia|]. change (- Zneg n) with (Zpos n). rewrite pos_shift_Z. destruct s; simpl cond_Zopp; lia.
    + rewrite digits2_pos_shift. fold d. unfold fexp, emin. lia.
    + lia.
Qed.
End Exact.

Lemma denotes_trunc x n : denotes x n → sf_trunc x = Some n.
Proof.
  destruct x as [s|s| |s m e]; simpl; try done; [by intros ->|]. intros [He Hm].
  assert (0 < 2 ^ (- e)) by (apply Z.pow_pos_nonneg; lia).
  f_equal. destruct (Z.leb_spec 0 e) as [Hle|Hlt].
  - assert (e = 0) as -> by lia. simpl in Hm. rewrite Z.mul_1_r in *. destruct s; simpl in *; lia.
  - destruct s; simpl in *.
    + assert (Zpos m = (- n) * 2 ^ (- e)) as -> by lia. rewrite Z.div_mul by lia. lia.
    + rewrite Hm. by apply Z.div_mul; lia.
Qed.

Lemma f64_of_Z_denotes n : Z.abs n < 2 ^ 53 → denotes (f64_of_Z n) n.
Proof.
  intros Hn. destruct n as [|p|p]; [done|..].
  - apply (binary_round_int 53 1024 ltac:(lia) ltac:(lia) false p), digits2_pos_le. lia.
  - apply (binary_round_int 53 1024 ltac:(lia) ltac:(lia) true p), digits2_pos_le. lia.
Qed.

Lemma f32_of_Z_denotes n : Z.abs n < 2 ^ 24 → denotes (f32_of_Z n) n.
Proof.
  intros Hn. destruct n as [|p|p]; [done|..].
  - apply (binary_round_int 24 128 ltac:(lia) ltac:(lia) false p), digits2_pos_le. lia.
  - apply (binary_round_int 24 128 ltac:(lia) ltac:(lia) true p), digits2_pos_le. lia.
Qed.

Lemma f64_of_Z_trunc n : Z.abs n <= 2 ^ 53 → sf_trunc (f64_of_Z n) = Some n.
Proof.
  intros Hn. destruct (decide (Z.abs n = 2 ^ 53)) as [He|Hne].
  - assert (n = 2 ^ 53 ∨ n = - 2 ^ 53) as [-> | ->] by lia; by vm_compute.
  - apply denotes_trunc, f64_of_Z_denotes. lia.
Qed.

Lemma f32_of_Z_trunc n : Z.abs n < 2 ^ 24 → sf_trunc (f32_of_Z n) = Some n.
Proof. intros. by apply denotes_trunc, f32_of_Z_denotes. Qed.

(** ** The order of floats

    Numbers other than NaN are ordered by sign, exponent and mantissa, so that
    [SFleb] is a total preorder on them. *)

Definition is_nan (x : spec_float) : bool := match x with S754_nan => true | _ => false end.

Definition sf_rank (x : spec_float) : Z * Z * Z :=
  match x with
  | S754_infinity true => (-2, 0, 0)
  | S754_finite true m e => (-1, - e, Zneg m)
  | S754_zero _ | S754_nan => (0, 0, 0)
  | S754_finite false m e => (1, e, Zpos m)
  | S754_infinity false => (2, 0, 0)
  end.

Definition rank_le (a b : Z * Z * Z) : Prop :=
  a.1.1 < b.1.1 ∨ a.1.1 = b.1.1 ∧ (a.1.2 < b.1.2 ∨ a.1.2 = b.1.2 ∧ a.2 <= b.2).

Lemma SFleb_rank x y :
  SFleb x y = true ↔ is_nan x = false ∧ is_nan y = false ∧ rank_le (sf_rank x) (sf_rank y).
Proof.
  unfold SFleb, rank_le.
  destruct x as [[]|[]| |[] mx ex], y as [[]|[]| |[] my ey]; simpl;
    try (split; [intros; try done; split_and!; try done; lia|intros (? & ? & ?); try done; exfalso; lia]);
    change (Pos.compare_cont Eq mx my) with (Pos.compare mx my);
    destruct (Z.compare_spec ex ey), (Pos.compare_spec mx my); simpl;
    (split; [intros; try done; split_and!; try done; lia|intros (? & ? & ?); try done; exfalso; lia]).
Qed.

Lemma SFleb_trans x y z : SFleb x y = true → SFleb y z = true → SFleb x z = true.
Proof. rewrite !SFleb_rank. unfold rank_le. intros (? & ? & ?) (? & ? & ?). split_and!; [done..|lia]. Qed.

Lemma SFleb_total x y : is_nan x = false → is_nan y = false → SFleb x y = true ∨ SFleb y x = true.
Proof. intros Hx Hy. rewrite !SFleb_rank, Hx, Hy. unfold rank_le. lia. Qed.

Lemma SFleb_refl x : is_nan x = false → SFleb x x = true.
Proof. intros Hx. destruct (SFleb_total x x Hx Hx); done. Qed.

Create HintDb float.
#[export] Hint Resolve f32_of_Z_nonneg f32_of_Z_fin_nonneg f32_mul_nonneg f32_add_nonneg : float.
