(* ===== verification/Rounding.v ===== *)
(** * How far a rounded result is from the exact one

    A finite number is an integer in units of [2^-K]; a product, and a quotient
    by 1024, is within a few units of its last place of the exact one. *)

From stdpp Require Import base list.
From Stdlib Require Import ZArith QArith Lia SpecFloat.
From S2P Require Import Prelude GoStrings GoFloat.

Local Open Scope Z_scope.

(** [x] is not negative and its value is [z] units. *)
Definition reads (K : Z) (x : spec_float) (z : Z) : Prop :=
  match x with
  | S754_zero _ => z = 0
  | S754_finite false m e => 0 <= e + K ∧ z = Zpos m * 2 ^ (e + K)
  | _ => False
  end.

Lemma pow_split a b : 0 <= a → 0 <= b → 2 ^ (a + b) = 2 ^ a * 2 ^ b.
Proof. intros. by rewrite Z.pow_add_r. Qed.

Lemma pow_pos_Z k : 0 <= k → 0 < 2 ^ k.
Proof. intros. by apply Z.pow_pos_nonneg. Qed.

(** A mantissa whose value is below [2^V] units. *)
Lemma mantissa_bound m e V : 0 <= m → 0 <= e → 0 <= V → m * 2 ^ e < 2 ^ V → m < 2 ^ Z.max 0 (V - e).
Proof.
  intros Hm He HV Hlt. pose proof (pow_pos_Z e He). destruct (Z.leb_spec e V) as [Hle|Hgt].
  - rewrite Z.max_r by lia. replace V with (V - e + e) in Hlt by lia. rewrite pow_split in Hlt by lia. nia.
  - rewrite Z.max_l by lia. assert (2 ^ V < 2 ^ e) by (apply Z.pow_lt_mono_r; lia). simpl. nia.
Qed.

Section Close.
Context (prec emax : Z) (Hprec : 0 < prec).

Lemma shr_1_half r : 0 <= shr_m r → shr_m (shr_1 r) = shr_m r / 2.
Proof.
  destruct r as [m b s]. simpl. intros Hm. destruct m as [|[p|p|]|p]; simpl; try done.
  - apply (Z.div_unique _ _ _ 1); lia.
  - apply (Z.div_unique _ _ _ 0); lia.
Qed.

Lemma iter_shr_nonneg n r : 0 <= shr_m r → 0 <= shr_m (iter_pos shr_1 n r).
Proof. intros Hr. apply (iter_pos_inv (λ r, 0 <= shr_m r)); [apply shr_1_nonneg|done]. Qed.

Lemma iter_shr n r : 0 <= shr_m r → shr_m (iter_pos shr_1 n r) = shr_m r / 2 ^ Zpos n.
Proof.
  revert r. induction n as [n IH|n IH|]; intros r Hr; simpl; [| |by apply shr_1_half].
  - assert (0 <= shr_m (shr_1 r)) by by apply shr_1_nonneg.
    rewrite !IH, shr_1_half, !Z.div_div by (try apply iter_shr_nonneg; try apply pow_pos_Z; lia). f_equal.
    rewrite (Pos2Z.inj_xI n), !Z.pow_add_r, Z.pow_mul_r by lia. change (2 ^ 1) with 2. 
    replace ((2 ^ 2) ^ Zpos n) with (2 ^ Zpos n * 2 ^ Zpos n) by (rewrite <- Z.pow_mul_l; done). lia.
  - rewrite !IH, Z.div_div by (try apply iter_shr_nonneg; try apply pow_pos_Z; lia). f_equal.
    rewrite <- pow_split by lia. f_equal. lia.
Qed.

(** A shift drops less than one unit of the new last place. *)
Lemma shr_fexp_close m e l k E :
  0 <= m < 2 ^ k → 0 <= k → e <= E → k + e - prec <= E → emin prec emax <= E →
  let r := shr_fexp prec emax m e l in
  e <= r.2 <= E ∧ 0 <= shr_m r.1 ∧ shr_m r.1 * 2 ^ (r.2 - e) <= m < (shr_m r.1 + 1) * 2 ^ (r.2 - e).
Proof.
  intros Hm Hk He HE Hmin r.
  destruct (shr_fexp_bounds prec emax m e l k E) as [Hb1 Hb2]; [lia..|]. fold r in Hb1, Hb2.
  revert Hb1 Hb2. unfold r, shr_fexp, shr. clear r.
  assert (shr_m (shr_record_of_loc m l) = m) as Hl by (destruct l as [|[]]; done).
  destruct (fexp prec emax (Zdigits2 m + e) - e) as [|n|n]; simpl; intros Hb1 Hb2.
  2: { rewrite iter_shr in * by lia. rewrite Hl in *. replace (e + Zpos n - e) with (Zpos n) by lia.
       pose proof (pow_pos_Z (Zpos n) ltac:(lia)). pose proof (Z.div_mod m (2 ^ Zpos n) ltac:(lia)).
       pose proof (Z.mod_pos_bound m (2 ^ Zpos n) ltac:(lia)). nia. }
  all: rewrite Hl in *; rewrite Z.sub_diag; simpl; lia.
Qed.

(** Rounding moves a number by at most three units of the last place [2^E]. *)
Lemma round_close m e l k E K :
  0 <= m < 2 ^ k → 0 <= k → e <= E → k + e - prec <= E → emin prec emax <= E → E + 1 <= emax - prec → 0 <= e + K →
  ∃ z, reads K (binary_round_aux prec emax false m e l) z ∧ Z.abs (z - m * 2 ^ (e + K)) <= 3 * 2 ^ (E + K).
Proof.
  intros Hm Hk He HkE Hmin Hmax HK. unfold binary_round_aux.
  destruct (shr_fexp_close m e l k E) as (He1 & Hq1 & Hc1); [lia..|].
  destruct (shr_fexp prec emax m e l) as [r1 e1]. cbn [fst snd] in *.
  pose proof (round_nearest_even_le (shr_m r1) (loc_of_shr_record r1)) as Hr.
  set (m1 := round_nearest_even _ _) in *. set (q1 := shr_m r1) in *.
  pose proof (pow_pos_Z (e1 - e) ltac:(lia)) as HB.
  assert (q1 < 2 ^ Z.max 0 (k - (e1 - e))) as Hq1' by (apply mantissa_bound; lia).
  destruct (shr_fexp_close m1 e1 loc_Exact (Z.max 0 (k - (e1 - e)) + 1) (E + 1)) as (He2 & Hq2 & Hc2); [|lia..|].
  { rewrite pow_split by lia. change (2 ^ 1) with 2. pose proof (pow_pos_Z (Z.max 0 (k - (e1 - e))) ltac:(lia)). lia. }
  destruct (shr_fexp prec emax m1 e1 loc_Exact) as [r2 e2]. cbn [fst snd] in *. set (q2 := shr_m r2) in *.
  exists (q2 * 2 ^ (e2 + K)). split.
  { destruct q2 as [|p|p]; simpl; [lia| |lia]. replace (e2 <=? emax - prec) with true by lia. simpl. lia. }
  pose proof (pow_pos_Z (e2 - e1) ltac:(lia)) as HC. pose proof (pow_pos_Z (e + K) ltac:(lia)) as HA.
  assert (2 ^ (e2 + K) = 2 ^ (e + K) * 2 ^ (e1 - e) * 2 ^ (e2 - e1)) as Hp2.
  { rewrite <- !pow_split by lia. f_equal. lia. }
  assert (2 ^ (e + K) * 2 ^ (e1 - e) <= 2 ^ (E + K)) as Hp1.
  { rewrite <- pow_split by lia. apply Z.pow_le_mono_r; lia. }
  assert (2 ^ (e + K) * 2 ^ (e1 - e) * 2 ^ (e2 - e1) <= 2 * 2 ^ (E + K)) as Hp3.
  { rewrite <- Hp2. change 2 with (2 ^ 1) at 2. rewrite <- pow_split by lia. apply Z.pow_le_mono_r; lia. }
  rewrite Hp2. set (A := 2 ^ (e + K)) in *. set (B := 2 ^ (e1 - e)) in *. set (C := 2 ^ (e2 - e1)) in *.
  assert (q2 * (B * C) <= m + B) as Hup by nia.
  assert (m - B - B * C <= q2 * (B * C)) as Hlow by nia.
  clearbody A B C. apply Z.abs_le. split; nia.
Qed.

(** The product of two numbers. *)
Lemma mul_close x y a b K1 K2 V E :
  reads K1 x a → reads K2 y b →
  (∀ s m e s' m' e', x = S754_finite s m e → y = S754_finite s' m' e' → e + e' <= E) →
  a * b < 2 ^ V → 0 <= V → V - (K1 + K2) - prec <= E → emin prec emax <= E → E + 1 <= emax - prec →
  0 <= E + (K1 + K2) →
  ∃ z, reads (K1 + K2) (SFmul prec emax x y) z ∧ Z.abs (z - a * b) <= 3 * 2 ^ (E + (K1 + K2)).
Proof.
  intros Hx Hy Hexp HV HV0 HE Hmin Hmax HK. pose proof (pow_pos_Z (E + (K1 + K2)) HK).
  assert (∀ s, ∃ z, reads (K1 + K2) (S754_zero s) z ∧ Z.abs (z - 0) <= 3 * 2 ^ (E + (K1 + K2))) as Hzero
    by (intros s; exists 0; split; [done|lia]).
  destruct x as [sx|sx| |[] mx ex], y as [sy|sy| |[] my ey]; simpl in Hx, Hy; try done.
  1-2: subst; apply Hzero. 1: subst; rewrite Z.mul_0_r; apply Hzero.
  destruct Hx as [Hex ->], Hy as [Hey ->]. specialize (Hexp _ _ _ _ _ _ eq_refl eq_refl). simpl.
  assert (Zpos mx * 2 ^ (ex + K1) * (Zpos my * 2 ^ (ey + K2)) = Zpos (mx * my) * 2 ^ (ex + ey + (K1 + K2))) as Heq.
  { replace (ex + ey + (K1 + K2)) with (ex + K1 + (ey + K2)) by lia. rewrite (pow_split (ex + K1)) by lia. rewrite Pos2Z.inj_mul. ring. }
  rewrite Heq in *. apply (round_close _ _ _ (Z.max 0 (V - (ex + ey + (K1 + K2))))); try lia.
  split; [lia|]. apply mantissa_bound; lia.
Qed.
End Close.

(** ** Quotients by 1024 *)

Lemma digits2_value p e V : 0 <= e → 0 <= V → Zpos p * 2 ^ e < 2 ^ V → Zpos (digits2_pos p) + e <= V.
Proof.
  intros He HV Hlt. pose proof (mantissa_bound (Zpos p) e V ltac:(lia) He HV Hlt) as Hp.
  destruct (Z.leb_spec e V) as [Hle|Hgt].
  - rewrite Z.max_r in Hp by lia. apply digits2_pos_le in Hp. lia.
  - rewrite Z.max_l in Hp by lia. simpl in Hp. lia.
Qed.

Lemma div_1024_close x a K V E :
  reads K x a → a < 2 ^ V → 10 <= V → V - K - 63 <= E → emin 53 1024 <= E → E <= 900 → 1074 <= K → 0 <= E + K →
  ∃ z, reads K (f64_div x (f64_of_Z 1024)) z ∧ Z.abs (1024 * z - a) <= 4096 * 2 ^ (E + K).
Proof.
  intros Hx Ha HV HE Hmin Hmax HK HEK. pose proof (pow_pos_Z (E + K) HEK) as Hu.
  assert (f64_of_Z 1024 = S754_finite false 4503599627370496 (-42)) as -> by reflexivity.
  destruct x as [s| | |[] m e]; try done.
  { exists 0. simpl in *. subst. split; [done|lia]. }
  destruct Hx as [He ->]. unfold f64_div, SFdiv, SFdiv_core_binary.
  change (Zdigits2 4503599627370496) with 53. change (Zdigits2 (Zpos m)) with (Zpos (digits2_pos m)).
  pose proof (digits2_value m (e + K) V He ltac:(lia) Ha) as Hd.
  set (e' := Z.min _ _).
  assert (e' <= E ∧ 0 <= e' + K ∧ e' <= e + 42) as (HeE & HeK & Hs) by (unfold e', fexp, emin in *; lia).
  set (n := e - -42 - e'). assert (0 <= n) as Hn by lia.
  set (m' := match n with Z0 => _ | Zpos _ => _ | Zneg _ => _ end).
  assert (m' = Zpos m * 2 ^ n) as ->.
  { unfold m'. destruct n as [|p|p]; [lia|by rewrite Z.shiftl_mul_pow2|lia]. }
  pose proof (Z_div_mod (Zpos m * 2 ^ n) 4503599627370496 ltac:(lia)) as Hq.
  destruct (Z.div_eucl _ _) as [q r]. destruct Hq as [Hq Hr]. change 4503599627370496 with (2 ^ 42 * 1024) in Hq, Hr.
  pose proof (pow_pos_Z n Hn) as Hpn. pose proof (pow_pos_Z (e' + K) HeK) as Hu'. pose proof (pow_pos_Z (e + K) He).
  assert (0 <= q) by nia.
  assert (2 ^ n * 2 ^ (e' + K) = 2 ^ 42 * 2 ^ (e + K)) as Hpow.
  { rewrite <- !pow_split by lia. f_equal. lia. }
  assert (Zpos m * 2 ^ (e + K) - 1024 * 2 ^ (e' + K) <= 1024 * (q * 2 ^ (e' + K)) <= Zpos m * 2 ^ (e + K)) as Hqv.
  { assert (Zpos m * (2 ^ n * 2 ^ (e' + K)) = (2 ^ 42 * 1024 * q + r) * 2 ^ (e' + K)) as Hall by (rewrite <- Hq; ring).
    rewrite Hpow in Hall. split; [|nia].
    assert (r * 2 ^ (e' + K) <= 2 ^ 42 * 1024 * 2 ^ (e' + K)) by nia. lia. }
  assert (2 ^ V = 2 ^ (V - 10) * 1024) as HVp.
  { change 1024 with (2 ^ 10). rewrite <- pow_split by lia. f_equal. lia. }
  destruct (round_close 53 1024 ltac:(lia) q e' (new_location 4503599627370496 r)
    (Z.max 0 (V - 10 - (e' + K))) E K) as (z & Hz & Hclose); [|lia..|].
  { split; [lia|]. apply mantissa_bound; lia. }
  exists z. split; [done|].
  assert (2 ^ (e' + K) <= 2 ^ (E + K)) by (apply Z.pow_le_mono_r; lia). lia.
Qed.

(** [math.Ceil] of a number that is not negative. *)
Lemma ceil_reads K x z : 0 <= K → reads K x z → ∃ c, sf_ceil x = Some c ∧ z <= c * 2 ^ K < z + 2 ^ K.
Proof.
  intros HK Hx. pose proof (pow_pos_Z K HK) as HpK. destruct x as [s| | |[] m e]; try done.
  { exists 0. simpl in *. subst. split; [done|lia]. }
  destruct Hx as [He ->]. simpl. eexists. split; [done|]. destruct (Z.leb_spec 0 e) as [Hle|Hlt].
  - rewrite (pow_split e K) by lia. lia.
  - pose proof (pow_pos_Z (- e) ltac:(lia)). pose proof (pow_pos_Z (e + K) He).
    assert (2 ^ K = 2 ^ (- e) * 2 ^ (e + K)) as -> by (replace K with (- e + (e + K)) at 1 by lia; apply pow_split; lia).
    pose proof (Z.div_mod (Zneg m) (2 ^ (- e)) ltac:(lia)). pose proof (Z.mod_pos_bound (Zneg m) (2 ^ (- e)) ltac:(lia)).
    change (- Zpos m) with (Zneg m). set (P := 2 ^ (- e)) in *. set (U := 2 ^ (e + K)) in *. set (d := Zneg m / P) in *. set (r := Zneg m mod P) in *.
    assert (Zpos m = - (P * d + r)) as -> by lia. assert (0 <= r * U) by (apply Z.mul_nonneg_nonneg; lia). assert (0 < (P - r) * U) by (apply Z.mul_pos_pos; lia). lia.
Qed.

(** ** A percentage of an amount of memory *)

(** A proportion, in units of [2^-1074]. *)
Lemma proportion_reads p q :
  valid_binary 53 1024 p = true → sf_to_Q p = Some q → (0 <= q <= 1)%Q →
  ∃ P, reads 1074 p P ∧ 0 <= P <= 2 ^ 1074 ∧ P * Zpos (Qden q) = Qnum q * 2 ^ 1074.
Proof.
  intros Hv Hq [H0 H1]. destruct p as [s| | |s m e]; simpl in Hq; try done.
  { injection Hq as <-. exists 0. done. }
  assert (-1074 <= e) as He.
  { simpl in Hv. apply andb_true_iff in Hv as [Hc _]. unfold canonical_mantissa, fexp, emin in Hc. lia. }
  pose proof (pow_pos_Z (e + 1074) ltac:(lia)) as HU. unfold Qle in H0, H1. destruct (Z.leb_spec 0 e) as [Hle|Hlt].
  - injection Hq as <-. simpl in *. pose proof (pow_pos_Z e Hle).
    destruct s; [simpl in *; nia|]. simpl in *. exists (Zpos m * 2 ^ (e + 1074)).
    rewrite pow_split in * by lia. split_and!; [lia|done|lia|nia|lia].
  - injection Hq as <-. simpl in *. pose proof (pow_pos_Z (- e) ltac:(lia)) as Hp. rewrite Z2Pos.id in * by lia.
    destruct s; [simpl in *; lia|]. simpl in *. exists (Zpos m * 2 ^ (e + 1074)).
    assert (2 ^ 1074 = 2 ^ (- e) * 2 ^ (e + 1074)) as -> by (rewrite <- pow_split by lia; f_equal; lia).
    split_and!; [lia|done|lia|nia|lia].
Qed.

(** [math.Ceil] of the MiB of a proportion [p] of [m] GiB. *)
Definition ceil_Mi (m : Z) (p : f64) : f64 :=
  f64_ceil (f64_div (f64_div (f64_mul (f64_of_Z (m * 2 ^ 30)) p) (f64_of_Z 1024)) (f64_of_Z 1024)).

(** Whole GiB are exact, with few digits. *)
Definition gib_exact (m : Z) : bool :=
  match f64_of_Z (m * 2 ^ 30) with
  | S754_finite false p e => (-52 <=? e) && (e <=? -11) && (Zpos p * 2 ^ (e + 52) =? m * 2 ^ 30 * 2 ^ 52)
  | _ => false
  end.

Lemma ceil_Mi_close m p P :
  gib_exact m = true → 1 <= m <= 2048 → reads 1074 p P → 0 <= P <= 2 ^ 1074 →
  1024 * m * P * 2 ^ 72 - 2 ^ 1119 <= int64_of_float (ceil_Mi m p) * 2 ^ 1146
    < 1024 * m * P * 2 ^ 72 + 2 ^ 1119 + 2 ^ 1146.
Proof.
  intros Hm Hb Hp HP. unfold gib_exact in Hm. unfold ceil_Mi.
  destruct (f64_of_Z (m * 2 ^ 30)) as [| | |[] mx ex] eqn:Hx; try done.
  apply andb_true_iff in Hm as [[He1 He2]%andb_true_iff Hv]. apply Z.eqb_eq in Hv.
  assert (0 <= m * P <= 2048 * 2 ^ 1074) as HmP by nia.
  assert (m * 2 ^ 30 * 2 ^ 52 * P = m * P * 2 ^ 82) as Hprod by ring.
  destruct (mul_close 53 1024 ltac:(lia) (S754_finite false mx ex) p (m * 2 ^ 30 * 2 ^ 52) P 52 1074 1168 (-11))
    as (z1 & Hz1 & Hc1); [split; lia|done| |lia|unfold emin; lia..|].
  { intros ? ? ? s m' e' [= <- <- <-] ->. destruct s; [done|]. destruct Hp as [Hp1 ->].
    assert (e' + 1074 <= 1074); [|lia]. destruct (Z.leb_spec (e' + 1074) 1074) as [|Hgt]; [done|exfalso].
    assert (2 ^ 1074 < 2 ^ (e' + 1074)) by (apply Z.pow_lt_mono_r; lia). nia. }
  fold (f64_mul (S754_finite false mx ex) p) in Hz1. change (52 + 1074) with 1126 in *. change (-11 + 1126) with 1115 in Hc1.
  destruct (div_1024_close _ z1 1126 1168 (-21) Hz1) as (z2 & Hz2 & Hc2); [lia|unfold emin; lia..|].
  change (-21 + 1126) with 1105 in Hc2.
  destruct (div_1024_close _ z2 1126 1159 (-30) Hz2) as (z3 & Hz3 & Hc3); [lia|unfold emin; lia..|].
  change (-30 + 1126) with 1096 in Hc3.
  destruct (ceil_reads 1126 _ z3 ltac:(lia) Hz3) as (c & Hc & Hcz).
  unfold f64_ceil. rewrite Hc. unfold int64_of_float.
  assert (-1 <= c <= 2 ^ 53) as Hcb by lia.
  rewrite f64_of_Z_trunc by lia. assert (in_int64 c = true) as -> by (unfold in_int64, min_int64, max_int64; lia).
  lia.
Qed.

(** The proportion [q] of [m] GiB in MiB, rounded up, but for a rounding error
    of the floats. *)
Definition about_Mi (m : Z) (q : Q) (n : Z) : Prop :=
  (inject_Z (1024 * m) * q - (1 # 2 ^ 27) <= inject_Z n)%Q ∧
  (inject_Z n < inject_Z (1024 * m) * q + 1 + (1 # 2 ^ 27))%Q.

Lemma ceil_Mi_about m p q :
  gib_exact m = true → 1 <= m <= 2048 → valid_binary 53 1024 p = true → sf_to_Q p = Some q → (0 <= q <= 1)%Q →
  about_Mi m q (int64_of_float (ceil_Mi m p)).
Proof.
  intros Hm Hb Hv Hq H01. destruct (proportion_reads p q Hv Hq H01) as (P & Hp & HP & Heq).
  pose proof (ceil_Mi_close m p P Hm Hb Hp HP) as Hc. set (n := int64_of_float _) in *. clearbody n.
  unfold about_Mi, Qle, Qlt, Qminus, Qplus, Qmult, Qopp, inject_Z. destruct q as [a b]. simpl in *.
  assert (1024 * m * P * 2 ^ 72 * Zpos b = 1024 * m * a * 2 ^ 1146) as Hab.
  { replace (1024 * m * P * 2 ^ 72 * Zpos b) with (1024 * m * 2 ^ 72 * (P * Zpos b)) by ring. rewrite Heq. lia. }
  destruct Hc as [Hc1 Hc2].
  apply (Z.mul_le_mono_nonneg_r _ _ (Zpos b)) in Hc1; [|lia].
  apply (Z.mul_lt_mono_pos_r (Zpos b)) in Hc2; [|lia].
  rewrite !Z.mul_sub_distr_r, !Z.mul_add_distr_r, Hab in *. lia.
Qed.
