(* ===== verification/Utils.v ===== *)
(** * [pkg/utils]: strings, pointers and label values *)

From stdpp Require Import base list strings gmap.
From Stdlib Require Import ZArith Lia Ascii.
From S2P Require Import Prelude GoStrings GoFloat.

Local Open Scope string_scope.

(** ** Definitions ([pkg/utils/oci.go], [ptr.go], [utils.go]) *)

Definition SafeTagKey (origin : string) : string :=
  ReplaceAll (ReplaceAll origin "." "_") " " "_".

Definition ToString (p : option string) : string :=
  match p with None => "" | Some v => v end.

Definition ToFloat64 (p : option f64) : f64 :=
  match p with None => f64_of_Z 0 | Some v => v end.
Definition ToFloat32 (p : option f32) : f32 :=
  match p with None => f32_of_Z 0 | Some v => v end.
(** The address of a copy of its argument. *)
Definition String_ptr (v : string) : option string := Some v.

(** [os.LookupEnv] and [strconv.ParseFloat] are arguments. *)
Definition WithDefaultFloat64 (LookupEnv : string → option string) (ParseFloat : string → option f64)
    (key : string) (def : f64) : f64 :=
  match LookupEnv key with
  | None => def
  | Some val => match ParseFloat val with None => def | Some f => f end
  end.

(** [PrettySlice] on a slice of strings: [maxItems] elements, then a count. *)
Fixpoint PrettySlice_from (i : nat) (s : list string) (maxItems : Z) : string :=
  match s with
  | [] => ""
  | elem :: rest =>
      if (maxItems - 1 <? Z.of_nat i)%Z
      then " and " +:+ Itoa (Z.of_nat (length s)) +:+ " other(s)"
      else (if (0 <? i)%nat then ", " else "") +:+ elem +:+ PrettySlice_from (S i) rest maxItems
  end.
Definition PrettySlice (s : list string) (maxItems : Z) : string := PrettySlice_from 0 s maxItems.

(** The number of bytes of the first UTF-8 rune, 1 for an invalid byte. *)
Definition rune_width (s : string) : nat :=
  let between (lo hi : N) (c : ascii) := ((lo <=? N_of_ascii c) && (N_of_ascii c <=? hi))%N in
  let cont := between 128%N 191%N in
  match s with
  | String c s1 =>
      let b := N_of_ascii c in
      if between 194%N 223%N c then
        match s1 with String c1 _ => if cont c1 then 2 else 1 | _ => 1 end
      else if between 224%N 239%N c then
        match s1 with
        | String c1 (String c2 _) =>
            let ok1 := if (b =? 224)%N then between 160%N 191%N c1
                       else if (b =? 237)%N then between 128%N 159%N c1 else cont c1 in
            if ok1 && cont c2 then 3 else 1
        | _ => 1
        end
      else if between 240%N 244%N c then
        match s1 with
        | String c1 (String c2 (String c3 _)) =>
            let ok1 := if (b =? 240)%N then between 144%N 191%N c1
                       else if (b =? 244)%N then between 128%N 143%N c1 else cont c1 in
            if ok1 && cont c2 && cont c3 then 4 else 1
        | _ => 1
        end
      else 1
  | EmptyString => 1
  end.

(** The characters outside the class [[^a-zA-Z0-9\-_.]]. *)
Definition is_qualified (c : ascii) : bool :=
  is_alnum c || Ascii.eqb c "-" || Ascii.eqb c "_" || Ascii.eqb c ".".

(** [qualifiedNameRegexp.ReplaceAllString(value, "_")]: one underscore per
    rune outside the class. *)
Fixpoint replace_unqualified (skip : nat) (s : string) : string :=
  match s with
  | EmptyString => ""
  | String c s' =>
      match skip with
      | S k => replace_unqualified k s'
      | O => if is_qualified c then String c (replace_unqualified 0 s')
             else String "_" (replace_unqualified (rune_width s - 1) s')
      end
  end.

Definition starts_alnum (s : string) : bool :=
  match s with String c _ => is_alnum c | EmptyString => false end.
Fixpoint ends_alnum (s : string) : bool :=
  match s with
  | EmptyString => false
  | String c EmptyString => is_alnum c
  | String _ s' => ends_alnum s'
  end.

Definition SanitizeLabelValue (value : string) : string :=
  let value := if (63 <? String.length value)%nat then String.substring 0 63 value else value in
  let value := replace_unqualified 0 value in
  if String.eqb value "" then value else
  let value := if starts_alnum value then value else "a_" +:+ value in
  if ends_alnum value then value else value +:+ "_z".

(** [FilterMap m f] keeps the entries on which [f] holds. *)
Definition FilterMap {V} (m : gmap string V) (f : string → V → bool) : gmap string V :=
  filter (λ kv, f kv.1 kv.2 = true) m.

Definition IsA1FlexShape (shapeName : string) : bool :=
  Contains (ToLower shapeName) "a1.flex".

(** The OCPU-to-vCPU multiplier that the price calculator and the shape
    expansion both take from [IsA1FlexShape]. *)
Definition ratioFactor (shapeName : string) : Z :=
  if IsA1FlexShape shapeName then 1 else 2.

(** ** Label values *)

(** What Kubernetes accepts as a label value, its length apart: empty, or
    qualified characters with alphanumeric ends. *)
Definition label_chars (s : string) : bool :=
  String.eqb s "" || (string_forall is_qualified s && starts_alnum s && ends_alnum s).

Lemma replace_unqualified_qualified k s : string_forall is_qualified (replace_unqualified k s) = true.
Proof.
  revert k; induction s as [|c s IH]; intros [|k]; cbn [replace_unqualified]; try done.
  destruct (is_qualified c) eqn:Hc; cbn; [by rewrite Hc, IH|apply IH].
Qed.

Lemma replace_unqualified_length k s :
  (String.length (replace_unqualified k s) <= String.length s)%nat.
Proof.
  revert k; induction s as [|c s IH]; intros [|k]; cbn [replace_unqualified String.length]; [lia..| |].
  - destruct (is_qualified c); cbn [String.length]; by apply le_n_S.
  - by apply Nat.le_le_succ_r.
Qed.

Lemma ends_alnum_app s t : t ≠ "" → ends_alnum (s +:+ t) = ends_alnum t.
Proof.
  intros Ht. induction s as [|c s IH]; [done|]. rewrite app_cons_str, <- IH.
  simpl. destruct (s +:+ t) eqn:Hst; [|done]. by destruct s, t.
Qed.

Lemma starts_alnum_app s t : s ≠ "" → starts_alnum (s +:+ t) = starts_alnum s.
Proof. by destruct s. Qed.

Lemma substring_0_length n s : (String.length (String.substring 0 n s) <= n)%nat.
Proof. revert n; induction s; intros [|n]; simpl; [lia..|]. specialize (IHs n). lia. Qed.

Lemma SafeTagKey_map s :
  SafeTagKey s = string_map (λ x, if Ascii.eqb " " x then "_"%char else x)
                   (string_map (λ x, if Ascii.eqb "." x then "_"%char else x) s).
Proof. unfold SafeTagKey. by rewrite !ReplaceAll_char. Qed.

Lemma string_map_length f s : String.length (string_map f s) = String.length s.
Proof. induction s; simpl; congruence. Qed.

Lemma string_map_map f g s : string_map f (string_map g s) = string_map (λ c, f (g c)) s.
Proof. induction s; simpl; congruence. Qed.

Lemma string_map_ext f g s : (∀ c, f c = g c) → string_map f s = string_map g s.
Proof. intros Hfg. induction s; simpl; [done|]. by rewrite Hfg, IHs. Qed.

(** Making a tag key safe twice changes nothing more. *)
Lemma SafeTagKey_idemp s : SafeTagKey (SafeTagKey s) = SafeTagKey s.
Proof.
  rewrite !SafeTagKey_map, !string_map_map. apply string_map_ext.
  intros [[] [] [] [] [] [] [] []]; reflexivity.
Qed.

(** ** Properties *)

(** SanitizeLabelValue returns a string of label characters that is empty or starts and
    ends with an alphanumeric character, at most 67 bytes long. *)
Theorem SanitizeLabelValue_label (v : string) :
  label_chars (SanitizeLabelValue v) = true ∧
  (String.length (SanitizeLabelValue v) <= 67)%nat.
Proof.
  unfold SanitizeLabelValue.
  set (v1 := if (63 <? String.length v)%nat then _ else v).
  assert (String.length v1 <= 63)%nat as Hl.
  { unfold v1. destruct (Nat.ltb_spec 63 (String.length v)); [apply substring_0_length|done]. }
  pose proof (replace_unqualified_qualified 0 v1) as Hq.
  pose proof (replace_unqualified_length 0 v1) as Hl2.
  set (w := replace_unqualified 0 v1) in *. clearbody w.
  destruct (String.eqb_spec w "") as [->|Hw]; [split; [done|simpl; lia]|].
  set (x := if starts_alnum w then w else "a_" +:+ w).
  assert (string_forall is_qualified x = true ∧ starts_alnum x = true ∧ x ≠ ""
    ∧ (String.length x <= 65)%nat) as (Hx1 & Hx2 & Hx3 & Hx4).
  { unfold x. destruct (starts_alnum w) eqn:Hs; [split_and!; [done..|lia]|].
    rewrite string_forall_app, length_app_str, Hq. split_and!; [done..|]. cbn [String.length]; lia. }
  clearbody x. unfold label_chars. destruct (ends_alnum x) eqn:He.
  - rewrite Hx1, Hx2, He, orb_true_r. split; [done|lia].
  - rewrite string_forall_app, starts_alnum_app, ends_alnum_app, length_app_str, Hx1, Hx2 by done.
    rewrite orb_true_r. split; [done|]. simpl. lia.
Qed.

(** The 63-byte limit is applied before the prefix and the suffix are added:
    a 63-byte value with a non-alphanumeric first byte becomes longer than a
    label value may be. *)
Lemma SanitizeLabelValue_overlong :
  ∃ v, String.length v = 63%nat ∧ String.length (SanitizeLabelValue v) = 67%nat.
Proof. exists (Join (replicate 32 "-") "-"). by vm_compute. Qed.
