(* ===== verification/OciModel.v ===== *)
(** * Data of the OCI SDK and of [pkg/providers/internalmodel]

    The records of [oci-go-sdk] hold the fields the program reads or writes,
    pointers as options; [WrapShape] and [WrapImage] are the program's own. *)

From stdpp Require Import base list strings gmap.
From Stdlib Require Import ZArith SpecFloat.
From S2P Require Import Prelude GoStrings GoFloat.

(** [core.ShapeOcpuOptions], [core.ShapeMemoryOptions],
    [core.ShapeMaxVnicAttachmentOptions], [core.ShapeNetworkingBandwidthOptions] *)
Record ShapeOcpuOptions := { Ocpu_Min : option f32; Ocpu_Max : option f32 }.
Record ShapeMemoryOptions := { MinInGBs : option f32; MaxInGBs : option f32 }.
Record ShapeMaxVnicAttachmentOptions := { DefaultPerOcpu : option f32 }.
Record ShapeNetworkingBandwidthOptions := {
  MinInGbps : option f32;
  MaxInGbps : option f32;
  DefaultPerOcpuInGbps : option f32
}.

(** [core.Shape] *)
Record Shape := {
  Shape_Shape : option string;
  IsFlexible : option bool;
  Ocpus : option f32;
  MemoryInGBs : option f32;
  NetworkingBandwidthInGbps : option f32;
  MaxVnicAttachments : option Z;
  Gpus : option Z;
  GpuDescription : option string;
  LocalDisksTotalSizeInGBs : option f32;
  OcpuOptions : option ShapeOcpuOptions;
  MemoryOptions : option ShapeMemoryOptions;
  MaxVnicAttachmentOptions : option ShapeMaxVnicAttachmentOptions;
  NetworkingBandwidthOptions : option ShapeNetworkingBandwidthOptions
}.

(** [internalmodel.WrapShape] embeds a [core.Shape]. *)
Record WrapShape := {
  wShape : Shape;
  CalcCpu : Z;
  CalMemInGBs : Z;
  AvailableDomains : list string;
  CalMaxVnic : Z;
  CalMaxBandwidthInGbps : Z
}.

(** A shape with its name only, for examples. *)
Definition named_shape (name : string) : Shape := {|
  Shape_Shape := Some name; IsFlexible := None; Ocpus := None; MemoryInGBs := None;
  NetworkingBandwidthInGbps := None; MaxVnicAttachments := None; Gpus := None;
  GpuDescription := None; LocalDisksTotalSizeInGBs := None; OcpuOptions := None;
  MemoryOptions := None; MaxVnicAttachmentOptions := None;
  NetworkingBandwidthOptions := None
|}.

(** ** Compute *)

(** [core.InstanceLifecycleStateEnum], the states the program tells apart. *)
Inductive InstanceLifecycleState : Type :=
| Lifecycle_Provisioning
| Lifecycle_Running
| Lifecycle_Terminating
| Lifecycle_Terminated
| Lifecycle_Other (name : string).

#[export] Instance InstanceLifecycleState_eq_dec : EqDecision InstanceLifecycleState.
Proof. solve_decision. Defined.

(** A value of a defined tag is an [interface{}]: a string or something else. *)
Inductive tag_value : Type :=
| TagString (s : string)
| TagOther.

#[export] Instance tag_value_eq_dec : EqDecision tag_value.
Proof. solve_decision. Defined.

(** Defined tags: namespace, key, value. *)
Notation defined_tags := (gmap string (gmap string tag_value)) (only parsing).

(** [SourceDetails], an interface: launched from an image or from something else. *)
Inductive InstanceSource : Type :=
| SourceViaImage (image_id : option string)
| SourceOther.

(** [core.Instance] *)
Record Instance := {
  Inst_Id : option string;
  Inst_Shape : option string;
  Inst_AvailabilityDomain : option string;
  Inst_LifecycleState : InstanceLifecycleState;
  Inst_DefinedTags : defined_tags;
  Inst_FreeformTags : gmap string string;
  Inst_ImageId : option string;
  Inst_SourceDetails : InstanceSource;
  Inst_TimeCreated : option Z;
  Inst_Preemptible : bool
}.

(** [core.VnicAttachment] and [core.Vnic] *)
Record VnicAttachment := {
  VA_Id : option string;
  VA_InstanceId : option string;
  VA_VnicId : option string;
  VA_SubnetId : option string
}.
Record Vnic := {
  Vnic_Id : option string;
  Vnic_SubnetId : option string;
  Vnic_IsPrimary : option bool;
  Vnic_NsgIds : list string
}.

(** [core.Image] *)
Record Image := {
  Image_Id : option string;
  Image_DisplayName : option string;
  Image_CompartmentId : option string
}.

(** ** Network *)

(** [core.Subnet] and [core.IpInventoryCidrUtilizationSummary] *)
Record Subnet := {
  Subnet_Id : option string;
  Subnet_DisplayName : option string;
  CidrBlock : option string;
  Subnet_CompartmentId : option string;
  Subnet_VcnId : option string;
  Subnet_TimeCreated : option Z
}.
Record IpInventoryCidrUtilizationSummary := {
  Smy_Cidr : option string;
  Smy_Utilization : option f32;
  Smy_AddressType : string
}.

(** [core.NetworkSecurityGroup] *)
Record NetworkSecurityGroup := {
  NSG_Id : option string;
  NSG_DisplayName : option string;
  NSG_CompartmentId : option string;
  NSG_VcnId : option string;
  NSG_TimeCreated : option Z
}.

#[export] Instance Subnet_eq_dec : EqDecision Subnet.
Proof. solve_decision. Defined.
#[export] Instance NetworkSecurityGroup_eq_dec : EqDecision NetworkSecurityGroup.
Proof. solve_decision. Defined.
#[export] Instance Image_eq_dec : EqDecision Image.
Proof. solve_decision. Defined.

(** ** Launch requests *)

Record LaunchInstanceShapeConfigDetails := { SC_Ocpus : f32; SC_MemoryInGBs : f32 }.

(** [core.LaunchOptions]; an enum that is not set, or a name the SDK does not
    know, is the empty text. *)
Record SdkLaunchOptions := {
  LO_BootVolumeType : string;
  LO_Firmware : string;
  LO_NetworkType : string;
  LO_RemoteDataVolumeType : string;
  LO_IsConsistentVolumeNamingEnabled : option bool
}.

(** [core.LaunchInstanceDetails] as the program fills it. *)
Record LaunchInstanceDetails := {
  Launch_SubnetId : option string;
  Launch_NsgIds : list string;
  Launch_VolumeAttachments : list (Z * Z);
  Launch_ImageId : string;
  Launch_BootVolumeVpusPerGB : Z;
  Launch_BootVolumeSizeInGBs : Z;
  Launch_DefinedTags : defined_tags;
  Launch_CompartmentId : string;
  Launch_DisplayName : string;
  Launch_AvailabilityDomain : string;
  Launch_Shape : string;
  Launch_Metadata : gmap string string;
  Launch_Preemptible : bool;
  Launch_ShapeConfig : option LaunchInstanceShapeConfigDetails;
  Launch_LaunchOptions : option SdkLaunchOptions;
  Launch_AgentPlugins : list string
}.

(** [core.CreateSubnetDetails] and [core.CreateNetworkSecurityGroupDetails] *)
Record CreateSubnetDetails := {
  CS_CompartmentId : option string;
  CS_VcnId : option string;
  CS_DisplayName : option string;
  CS_CidrBlock : option string
}.
Record CreateNetworkSecurityGroupDetails := {
  CG_CompartmentId : option string;
  CG_VcnId : option string;
  CG_DisplayName : option string
}.

(** ** The clients of [pkg/operator/oci/api]

    A call returns the response's items and the next page's token, or an
    error, in a world [W] the call may change.  The HTTP status of a raw
    response is kept where the program reads it. *)

Class ComputeClient (W : Type) : Type := {
  client_GetImage : string → run W Image;
  client_ListImages : string → string → run W (list Image);
  client_LaunchInstance : LaunchInstanceDetails → run W Instance;
  (** the status of the raw response, if there is one, and the error *)
  client_TerminateInstance : string → run W (option Z * option gerror);
  client_GetInstance : string → run W (Instance * option Z);
  client_ListInstances : string → string → run W (list Instance * option string);
  client_ListShapes : string → string → string → run W (list Shape * option string);
  client_ListVnicAttachments : string → string → run W (list VnicAttachment);
  client_UpdateInstance : string → gmap string string → run W (option Z * option gerror)
}.

Class VirtualNetworkClient (W : Type) : Type := {
  client_ListSubnets : string → string → string → run W (list Subnet);
  client_GetSubnet : option string → run W Subnet;
  client_ListNetworkSecurityGroups : string → string → string → run W (list NetworkSecurityGroup);
  client_GetNetworkSecurityGroup : string → run W NetworkSecurityGroup;
  client_GetVnic : option string → run W Vnic;
  client_GetSubnetCidrUtilization : option string → run W (list IpInventoryCidrUtilizationSummary);
  (** what follows is called by the end-to-end tests only *)
  client_CreateNetworkSecurityGroup : CreateNetworkSecurityGroupDetails → run W NetworkSecurityGroup;
  client_DeleteNetworkSecurityGroup : option string → run W unit;
  client_CreateSubnet : CreateSubnetDetails → run W Subnet;
  client_DeleteSubnet : option string → run W unit
}.

(** The instant at which the next cache operation happens. *)
Class Clock (W : Type) : Type := clock_now : W → Z.
