(* ===== verification/Pricing.v ===== *)
(** * [pkg/providers/pricing]: price list, shape parsing, price calculation

    [pricing.go] and [calculator.go].  A price is a [float32]; the price
    catalog's JSON text is the list of [Item]s it denotes. *)

From stdpp Require Import base list strings gmap.
From Stdlib Require Import ZArith Lia SpecFloat Ascii.
From S2P Require Import Prelude GoStrings GoFloat Utils OciModel.

Local Open Scope string_scope.

(** ** Data *)

(** The codes of [currency_code.go] are strings; the calculator uses [USD]. *)
Definition CurrencyCode := string.
Definition USD : CurrencyCode := "USD".

(** The constants, each named by its value. *)
Definition currencies : list CurrencyCode :=
  ["AFN"; "ALL"; "DZD"; "USD"; "EUR"; "AOA"; "XCD"; "ARS"; "AMD"; "AWG"; "AUD"; "AZN"; "BSD";
   "BHD"; "BDT"; "BBD"; "BYN"; "BZD"; "XOF"; "BMD"; "BTN"; "INR"; "BOB"; "BOV"; "BAM";
   "BWP"; "NOK"; "BRL"; "KYD"; "CRC"; "COP"; "KMF"; "CDF"; "XAF"; "NZD"; "DKK"; "DJF";
   "DOP"; "EGP"; "SVC"; "ERN"; "ETB"; "FKP"; "FJD"; "HNL"; "HKD"; "HUF"; "ISK"; "IDR";
   "IRR"; "IQD"; "ILS"; "JMD"; "JPY"; "JOD"; "KZT"; "KES"; "KPW"; "KRW"; "KWD"; "KGS";
   "LAK"; "LBP"; "LSL"; "ZAR"; "LRD"; "LYD"; "CHF"; "MGA"; "MWK"; "MYR"; "MVR"; "MZN";
   "MXN"; "PEN"; "PHP"; "PLN"; "PAB"; "QAR"; "RON"; "RUB"; "RWF"; "SCR"; "SGD"; "SLE";
   "SEK"; "TJS"; "TND"; "TRY"; "UYU"; "UZS"; "VUV"; "VND"; "XAU"; "XAG"; "ZMW"; "ZWL"].

Lemma currencies_codes : NoDup currencies ∧ USD ∈ currencies ∧ Forall (λ c, String.length c = 3) currencies.
Proof.
  split_and!; apply (bool_decide_unpack _); by vm_compute.
Qed.

Record Price := { Model : string; Value : f32 }.
Record CurrencyCodeLocalization := { CCL_CurrencyCode : CurrencyCode; Prices : list Price }.
Record Item := {
  PartNumber : string;
  DisplayName : string;
  MetricName : string;
  ServiceCategory : string;
  CurrencyCodeLocalizations : list CurrencyCodeLocalization
}.
Record PriceCatalog := { Items : list Item }.

Definition OcpuPerHour := "OCPU Per Hour".
Definition GpuPerHour := "GPU Per Hour".
Definition GigabytePerHour := "Gigabyte Per Hour".
Definition NodePerHour := "Node Per Hour".
Definition NVMeTerabytePerHour := "NVMe Terabyte Per Hour".

Definition specialTypeMap : gmap string string := list_to_map [
  ("GPU2", "GPU Standard - X7");
  ("GPU3", "GPU Standard - X7");
  ("Standard1", "Standard - X5");
  ("Optimized3", "Standard - HPC - X7");
  ("HPC", "Standard - HPC - X7")].

(** ** The methods of [Item] *)

Definition IsFree (item : Item) : bool := Contains (DisplayName item) "Free".
Definition IsGpu (item : Item) : bool := Contains (DisplayName item) "GPU".
Definition IsNvme (item : Item) : bool := Contains (DisplayName item) "NVMe".
Definition IsOcpuType (item : Item) : bool := Contains (DisplayName item) "OCPU".
Definition IsMemoryType (item : Item) : bool := Contains (DisplayName item) "Memory".
Definition IsNVMeType (item : Item) : bool := Contains (DisplayName item) "NVMe".
Definition IsHourlyCommit (item : Item) : bool := Contains (DisplayName item) "Hourly Commit".
Definition IsMonthCommit (item : Item) : bool := Contains (DisplayName item) "1 Month Commit".
Definition IsYearCommit (item : Item) : bool := Contains (DisplayName item) "1 Year Commit".
Definition Is3YearCommit (item : Item) : bool := Contains (DisplayName item) "3 Year Commit".

(** The last element of a slice, and the one before it. *)
Definition last_of {A} (l : list A) : res A := index l (length l - 1).
Definition second_to_last {A} (l : list A) : res A :=
  if (length l <? 2)%nat then Panic "index out of range" else index l (length l - 2).

(** [parseCoreNumFromDisplayNum] *)
Definition parseCoreNumFromDisplayNum (displayName : string) : Z :=
  let parts := Split displayName " - " in
  if (length parts <? 2)%nat then 1%Z else
  match second_to_last parts with
  | Ok secondToLast =>
      let subParts := Split secondToLast "." in
      if (length subParts =? 0)%nat then 1%Z else
      match last_of subParts with
      | Ok s => default 1%Z (Atoi s)
      | _ => 1%Z
      end
  | _ => 1%Z
  end.

(** [GetPrice]: the first localisation of that currency, its first price. *)
Fixpoint GetPrice_in (ls : list CurrencyCodeLocalization) (code : CurrencyCode) : res f32 :=
  match ls with
  | [] => Ok (S754_zero false)
  | local :: rest =>
      if String.eqb (CCL_CurrencyCode local) code
      then p ← index (Prices local) 0; Ok (Value p)
      else GetPrice_in rest code
  end.
Definition GetPrice (item : Item) (code : CurrencyCode) : res f32 :=
  GetPrice_in (CurrencyCodeLocalizations item) code.

Definition PricePerUnit (item : Item) : res f32 :=
  if String.eqb (MetricName item) NodePerHour then
    let coreNum := parseCoreNumFromDisplayNum (DisplayName item) in
    p ← GetPrice item USD; Ok (f32_div p (f32_of_Z coreNum))
  else GetPrice item USD.

Definition GetCpuNum (item : Item) : res Z :=
  if negb (IsHourlyCommit item) && negb (IsMonthCommit item) && negb (IsYearCommit item)
  then Ok 1%Z
  else
    shape ← second_to_last (Split (DisplayName item) "-");
    let sParts := Split shape "." in
    if (length sParts <=? 1)%nat then Ok 1%Z else
    s ← last_of sParts;
    Ok (default 1%Z (Atoi (TrimSpace s))).

(** ** Shape names *)

Record ParsedShape := {
  PS_ServiceCategory : string;
  CandidateServiceCategory : list string;
  ServiceType : string;
  CpuGpuType : string;
  CpuGpuScale : string
}.

Definition isNumeric (s : string) : bool :=
  match Atoi s with Some _ => true | None => false end.

(** The pattern "word, then at least one digit" somewhere in [s]. *)
Fixpoint contains_then_digit (word s : string) : bool :=
  (HasPrefix s word &&
   match String.substring (String.length word) 1 s with
   | String c _ => is_digit c
   | EmptyString => false
   end) ||
  match s with
  | EmptyString => false
  | String _ s' => contains_then_digit word s'
  end.

(** [re.FindString] of the pattern "word, then any digits" anchored at the
    start, when [word] is a prefix. *)
Definition prefix_and_digits (word s : string) : string :=
  word +:+ take_digits (String.substring (String.length word) (String.length s) s).

Definition service_category (item0 item1 : string) : string * list string :=
  if Contains item1 "GPU" then ("Compute - GPU", [])
  else if String.eqb item0 "BM"
  then ("Compute - Bare Metal", ["Compute - Virtual Machine"; "Compute - VMware"])
  else ("Compute - Virtual Machine", ["Compute - VMware"]).

Definition service_type (category item1 : string) : string :=
  if String.eqb category "Compute - GPU" then
    if contains_then_digit "GPU" item1 then item1 else "GPU"
  else if Contains item1 "DenseIO" then
    if negb (contains_then_digit "DenseIO" item1) then "Dense I/O" else item1
  else if HasPrefix item1 "Standard" then prefix_and_digits "Standard" item1
  else if HasPrefix item1 "HPC" then "HPC"
  else item1.

Definition ParseShape (shape : string) : res ParsedShape :=
  let items := Split shape "." in
  if (length items <? 2)%nat then Err (EText "invalid shape name") else
  item0 ← index items 0;
  item1 ← index items 1;
  let '(category, candidates) := service_category item0 item1 in
  let type := service_type category item1 in
  if (3 <? length items)%nat then
    item2 ← index items 2;
    item3 ← index items 3;
    let scale := if isNumeric item3 then item3
                 else if String.eqb item3 "Flex" then "Flexible" else "" in
    Ok {| PS_ServiceCategory := category; CandidateServiceCategory := candidates;
          ServiceType := type; CpuGpuType := item2; CpuGpuScale := scale |}
  else
    Ok {| PS_ServiceCategory := category; CandidateServiceCategory := candidates;
          ServiceType := type; CpuGpuType := ""; CpuGpuScale := "" |}.

(** ** Finding the items of a shape *)

(** [findCandidate]: an item appears once per matching category. *)
Fixpoint findCandidate (items : list Item) (serviceCategories : list string) : list Item :=
  match items with
  | [] => []
  | item :: rest =>
      map (λ _, item)
        (List.filter (String.eqb (ServiceCategory item)) serviceCategories)
      ++ findCandidate rest serviceCategories
  end.

(** A text without regular-expression operators, in ASCII. *)
Definition regex_literal (s : string) : bool :=
  string_forall (λ c, (N_of_ascii c <? 128)%N &&
    negb (existsb (Ascii.eqb c)
      ["\"; "."; "+"; "*"; "?"; "("; ")"; "|"; "["; "]"; "{"; "}"; "^"; "$"]%char)) s.

Definition head_char (s : string) : option ascii :=
  match s with String c _ => Some c | EmptyString => None end.
Fixpoint last_char (prev : option ascii) (s : string) : option ascii :=
  match s with String c s' => last_char (Some c) s' | EmptyString => prev end.

(** [\b]: one side is a word character and the other is not. *)
Definition boundary (a b : option ascii) : bool :=
  let w o := match o with Some c => is_word c | None => false end in
  xorb (w a) (w b).

(** A match of the pattern [\bkey\b] for a literal [key]; [prev] is the
    character before [s]. *)
Fixpoint word_match (prev : option ascii) (key s : string) : bool :=
  (HasPrefix s key && boundary prev (head_char s) &&
   boundary (last_char prev key)
     (head_char (String.substring (String.length key) (String.length s) s))) ||
  match s with
  | EmptyString => false
  | String c s' => word_match (Some c) key s'
  end.

Section Catalog.
(** [regexp.MatchString] on [\bkey\b] for a [key] with operators, [None] for
    an error.  No shape name of the service holds one. *)
Context (regexp_other : string → string → option bool).

Definition matches_word (key text : string) : bool :=
  if regex_literal key then word_match None key text
  else default false (regexp_other key text).

(** The service type after the special cases, then the search key. *)
Definition search_key (parsed : ParsedShape) : string :=
  let type := default (ServiceType parsed) (specialTypeMap !! ServiceType parsed) in
  if (0 <? String.length (CpuGpuType parsed))%nat
  then type +:+ " - " +:+ CpuGpuType parsed else type.

Definition FindPriceItems (catalog : PriceCatalog) (shape : string) : list Item :=
  match ParseShape shape with
  | Ok parsedShape =>
      let candidates := findCandidate (Items catalog) [PS_ServiceCategory parsedShape] in
      let searchKey := search_key parsedShape in
      let matchingItems := List.filter (λ candidate,
        Contains (DisplayName candidate) searchKey &&
        matches_word searchKey (DisplayName candidate)) candidates in
      if (length matchingItems =? 0)%nat then
        List.filter (λ candidate, Contains (DisplayName candidate) searchKey)
          (findCandidate (Items catalog) (CandidateServiceCategory parsedShape))
      else matchingItems
  | _ => []
  end.

(** ** [Calculate] ([calculator.go]) *)

(** [float32(shape.CalcCpu/int64(ratioFactor))] *)
Definition ocpus_of (shape : WrapShape) (name : string) : f32 :=
  f32_of_Z (Z.quot (CalcCpu shape) (ratioFactor name)).

(** The loop over several price items. *)
Fixpoint sum_items (shape : WrapShape) (name : string) (price : f32) (items : list Item) : res f32 :=
  match items with
  | [] => Ok price
  | item :: rest =>
      let per_ocpu :=
        p ← PricePerUnit item; Ok (f32_add price (f32_mul (ocpus_of shape name) p)) in
      if IsOcpuType item then
        price' ← per_ocpu; sum_items shape name price' rest
      else if IsMemoryType item then
        p ← PricePerUnit item;
        sum_items shape name (f32_add price (f32_mul (f32_of_Z (CalMemInGBs shape)) p)) rest
      else if IsNVMeType item then
        disk ← deref (LocalDisksTotalSizeInGBs (wShape shape));
        p ← PricePerUnit item;
        sum_items shape name (f32_add price (f32_mul (f32_div disk (f32_of_Z 1024)) p)) rest
      else if IsMonthCommit item then sum_items shape name price rest
      else if IsYearCommit item then sum_items shape name price rest
      else if Is3YearCommit item then sum_items shape name price rest
      else if IsHourlyCommit item then per_ocpu
      else price' ← per_ocpu; sum_items shape name price' rest
  end.

(** The price when one item was found. *)
Definition single_item (shape : WrapShape) (name : string) (it : Item) : res f32 :=
  let per_gpu :=
    gpus ← deref (Gpus (wShape shape)); p ← PricePerUnit it; Ok (f32_mul (f32_of_Z gpus) p) in
  let per_ocpu := p ← PricePerUnit it; Ok (f32_mul (ocpus_of shape name) p) in
  if IsFree it then Ok (S754_zero false)
  else if String.eqb (MetricName it) GpuPerHour then per_gpu
  else if String.eqb (MetricName it) OcpuPerHour then per_ocpu
  else if String.eqb (MetricName it) GigabytePerHour then
    p ← PricePerUnit it; Ok (f32_mul (f32_of_Z (CalMemInGBs shape)) p)
  else if String.eqb (MetricName it) NodePerHour then
    if IsGpu it then per_gpu else per_ocpu
  else if String.eqb (MetricName it) NVMeTerabytePerHour then
    disk ← deref (LocalDisksTotalSizeInGBs (wShape shape));
    p ← PricePerUnit it; Ok (f32_mul disk p)
  else Ok (S754_zero false).

Definition Calculate (shape : WrapShape) (catalog : option PriceCatalog) : res f32 :=
  shapeName ← deref (Shape_Shape (wShape shape));
  match catalog with
  | None =>
      Ok (f32_of_Z (wrap64 (wrap64 (8 * Z.quot (CalcCpu shape) (ratioFactor shapeName))
                            + CalMemInGBs shape)))
  | Some catalog =>
      match FindPriceItems catalog shapeName with
      | [] => Ok MaxFloat32
      | [it] => single_item shape shapeName it
      | items => sum_items shape shapeName (S754_zero false) items
      end
  end.
End Catalog.

(** ** The provider ([pricing.go], [DefaultProvider]) *)

(** What [http.Client.Get] and the reading of the body give: an error, or a
    status and the body ([None] when reading it fails). *)
Inductive http_outcome : Type :=
| HttpError (e : gerror)
| HttpResponse (status : Z) (body : option string).

Record DefaultProvider := { priceCatalog : option PriceCatalog; endpoint : string }.

Section Provider.
(** [json.Unmarshal] of the price list into a [PriceCatalog]. *)
Context (unmarshal : string → option PriceCatalog).
(** [ChangeMonitor.HasChanged] of karpenter. *)
Context (HasChanged : option PriceCatalog → bool).

(** [Get]: the catalog pointer and the error, both possibly nil. *)
Definition Get (outcome : http_outcome) : option PriceCatalog * option gerror :=
  match outcome with
  | HttpError e => (None, Some e)
  | HttpResponse status body =>
      if (299 <? status)%Z then (None, None) else
      match body with
      | None => (None, Some (EText "failed to read price list api"))
      | Some text =>
          match unmarshal text with
          | None => (None, Some (EText "failed to decode oci price list"))
          | Some catalog => (Some catalog, None)
          end
      end
  end.

Definition UpdateOnDemandPricing (useLocalPriceList : bool) (outcome : http_outcome)
  : run DefaultProvider unit := λ p,
  if useLocalPriceList then (Ok tt, p) else
  let '(catalog, err) := Get outcome in
  match err with
  | Some e => (Err (EWrap "retreiving on-demand pricing data" e), p)
  | None =>
      let p' := {| priceCatalog := catalog; endpoint := endpoint p |} in
      if HasChanged catalog then
        match catalog with
        | None => (Panic "nil pointer dereference", p')
        | Some _ => (Ok tt, p')
        end
      else (Ok tt, p')
  end.

(** [Reset] on the decoded embedded list. *)
Definition Reset (embedded : option PriceCatalog) : run DefaultProvider unit := λ p,
  match embedded with
  | None => (Ok tt, p)
  | Some staticCatalog =>
      (Ok tt, {| priceCatalog := Some staticCatalog; endpoint := endpoint p |})
  end.

Definition NewDefaultProvider (embedded : option PriceCatalog) (endpoint : string) : DefaultProvider :=
  (Reset embedded {| priceCatalog := None; endpoint := endpoint |}).2.
End Provider.

(** ** Lemmas *)

Lemma findCandidate_In items cats item :
  In item (findCandidate items cats) ↔ In item items ∧ In (ServiceCategory item) cats.
Proof.
  induction items as [|x items IH]; simpl; [tauto|].
  rewrite in_app_iff, IH, in_map_iff. setoid_rewrite filter_In.
  setoid_rewrite String.eqb_eq. split.
  - intros [(c & -> & Hc & <-)|[? ?]]; tauto.
  - intros [[->|?] ?]; [left; eauto|tauto].
Qed.

Lemma findCandidate_single items cat :
  findCandidate items [cat] = List.filter (λ it, String.eqb (ServiceCategory it) cat) items.
Proof.
  induction items as [|x items IH]; simpl; [done|].
  rewrite IH. by destruct (String.eqb (ServiceCategory x) cat).
Qed.

Lemma ParseShape_fields shape p :
  ParseShape shape = Ok p →
  ∃ item0 item1 rest, Split shape "." = item0 :: item1 :: rest ∧
    PS_ServiceCategory p = (service_category item0 item1).1 ∧
    CandidateServiceCategory p = (service_category item0 item1).2 ∧
    ServiceType p = service_type (PS_ServiceCategory p) item1 ∧
    CpuGpuType p = (if (3 <? length (Split shape "."))%nat then default "" (rest !! 0) else "").
Proof.
  unfold ParseShape. destruct (Split shape ".") as [|item0 [|item1 rest]]; [done..|].
  simpl. destruct (service_category item0 item1) as [c cs] eqn:Hc.
  destruct rest as [|item2 [|item3 rest]]; simpl; intros [= <-];
    eexists _, _, _; (split; [done|]); by rewrite Hc.
Qed.

(** [res] binds. *)
(** ** Properties *)

(** A shape name has at least two components; the category follows from them. *)
Theorem ParseShape_spec (shape : string) :
  (Contains shape "." = false ∧ ParseShape shape = Err (EText "invalid shape name")) ∨
  (∃ p, Contains shape "." = true ∧ ParseShape shape = Ok p ∧
    In (PS_ServiceCategory p)
       ["Compute - GPU"; "Compute - Bare Metal"; "Compute - Virtual Machine"] ∧
    ¬ In (PS_ServiceCategory p) (CandidateServiceCategory p) ∧
    (PS_ServiceCategory p = "Compute - GPU" ↔ ∃ i, Split shape "." !! 1 = Some i ∧ Contains i "GPU" = true) ∧
    (PS_ServiceCategory p = "Compute - Bare Metal" → HasPrefix shape "BM." = true)).
Proof.
  pose proof (Split_length shape "." ltac:(done)) as Hl.
  destruct (Contains shape ".") eqn:Hc.
  - right. assert (2 ≤ length (Split shape "."))%nat as Hl2 by by apply Hl.
    pose proof (Join_Split shape "." ltac:(done)) as Hj.
    assert (∃ p, ParseShape shape = Ok p) as (p & Hp).
    { unfold ParseShape. destruct (Split shape ".") as [|a [|b l]]; simpl in Hl2; [lia..|].
      simpl. destruct (service_category a b).
      destruct l as [|? [|? ?]]; simpl; eauto. }
    exists p. destruct (ParseShape_fields _ _ Hp) as (a & b & l & Hs & Hcat & Hcand & _).
    rewrite Hs in *. rewrite Join_cons in Hj by done. simpl lookup.
    unfold service_category in Hcat, Hcand.
    destruct (Contains b "GPU") eqn:Hg; [|destruct (String.eqb_spec a "BM") as [->|]];
      simpl in Hcat, Hcand; rewrite Hcat, Hcand; (split; [done|]); (split; [done|]);
      (split; [simpl; tauto|]); (split; [by intros H; repeat destruct H as [H|H]|]); (split;
      [split; [first [done|by intros _; exists b]|by intros (i & [= <-] & Hi); rewrite Hi in Hg]|]);
      try done.
    intros _. rewrite <- Hj. apply (HasPrefix_app "BM.").
  - left. split; [done|]. unfold ParseShape. by rewrite Split_no_sep.
Qed.

Section Nonneg.
Context (shape : WrapShape).

(** A shape as the service describes it: no negative quantity, and disks
    whose size in terabytes is a finite number. *)
Definition sane_shape : Prop :=
  (0 <= CalcCpu shape <= max_int64)%Z ∧ (0 <= CalMemInGBs shape <= max_int64)%Z ∧
  (∀ g, Gpus (wShape shape) = Some g → 0 <= g <= max_int64)%Z ∧
  (∀ d, LocalDisksTotalSizeInGBs (wShape shape) = Some d →
    fin_nonneg d = true ∧ fin_nonneg (f32_div d (f32_of_Z 1024)) = true).

(** An item with a finite, non-negative unit price. *)
Definition sane_item (it : Item) : bool :=
  match PricePerUnit it with Ok p => fin_nonneg p | _ => false end.

(** A price, or the dereference of a quantity the service left out. *)
Definition priced (r : res f32) : Prop :=
  (∃ x, r = Ok x ∧ nonneg x = true) ∨
  (r = Panic "nil pointer dereference" ∧
   (Gpus (wShape shape) = None ∨ LocalDisksTotalSizeInGBs (wShape shape) = None)).

Lemma priced_Ok x : nonneg x = true → priced (Ok x).
Proof. left. eauto. Qed.

Lemma priced_gpus k :
  (∀ g, Gpus (wShape shape) = Some g → priced (k g)) →
  priced (deref (Gpus (wShape shape)) ≫= k).
Proof. intros H. destruct (Gpus (wShape shape)) eqn:Hg; [by apply H|]. right. auto. Qed.

Lemma priced_disk k :
  (∀ d, LocalDisksTotalSizeInGBs (wShape shape) = Some d → priced (k d)) →
  priced (deref (LocalDisksTotalSizeInGBs (wShape shape)) ≫= k).
Proof.
  intros H. destruct (LocalDisksTotalSizeInGBs (wShape shape)) eqn:Hd; [by apply H|].
  right. auto.
Qed.

Lemma sane_item_Ok it : sane_item it = true → ∃ p, PricePerUnit it = Ok p ∧ fin_nonneg p = true.
Proof. unfold sane_item. destruct (PricePerUnit it); naive_solver. Qed.

Context (Hshape : sane_shape).

Lemma ocpus_of_nonneg name : fin_nonneg (ocpus_of shape name) = true.
Proof using Hshape.
  destruct Hshape as (Hc & _). apply f32_of_Z_fin_nonneg. unfold ratioFactor.
  destruct (IsA1FlexShape name); rewrite Z.quot_div_nonneg by lia.
  - rewrite Z.div_1_r. lia.
  - pose proof (Z.div_pos (CalcCpu shape) 2). pose proof (Z.div_le_upper_bound (CalcCpu shape) 2 max_int64).
    unfold max_int64 in *. lia.
Qed.

Ltac price_step :=
  match goal with
  | |- priced (if ?b then _ else _) => destruct b
  | |- priced (deref (Gpus _) ≫= _) => apply priced_gpus; intros ??
  | |- priced (deref (LocalDisksTotalSizeInGBs _) ≫= _) => apply priced_disk; intros ??
  | |- priced (Ok _) => apply priced_Ok
  | Hp : PricePerUnit ?it = Ok _ |- context [PricePerUnit ?it] => rewrite Hp; simpl
  end.

Lemma single_item_priced name it :
  sane_item it = true → priced (single_item shape name it).
Proof using Hshape.
  intros (p & Hp & Hn)%sane_item_Ok.
  destruct Hshape as (Hc & Hm & Hg & Hd). pose proof (ocpus_of_nonneg name).
  unfold single_item. repeat price_step; try done; apply f32_mul_nonneg;
    naive_solver eauto using f32_of_Z_fin_nonneg.
Qed.

Lemma sum_items_priced name items price :
  Forall (λ it, sane_item it = true) items → nonneg price = true →
  priced (sum_items shape name price items).
Proof using Hshape.
  intros Hits. revert price. pose proof (ocpus_of_nonneg name) as Ho.
  destruct Hshape as (Hc & Hm & Hg & Hd).
  induction Hits as [|it items (p & Hp & Hn)%sane_item_Ok _ IH]; intros price Hprice;
    cbn [sum_items]; repeat price_step;
    try apply IH; eauto with float.
  apply f32_add_nonneg, f32_mul_nonneg; naive_solver.
Qed.
End Nonneg.

Section Properties.
Context (regexp_other : string → string → option bool).

(** What an item must satisfy to be chosen for a parsed shape: its category,
    then its display name. *)
Definition primary_match (p : ParsedShape) (it : Item) : bool :=
  String.eqb (ServiceCategory it) (PS_ServiceCategory p) &&
  (Contains (DisplayName it) (search_key p) &&
   matches_word regexp_other (search_key p) (DisplayName it)).

(** FindPriceItems returns exactly the items of the service category whose display name
    matches the search key, in catalog order, when there is one, and otherwise exactly the items
    of the candidate categories that contain the key. *)
Theorem FindPriceItems_spec (catalog : PriceCatalog) (shape : string) (p : ParsedShape) :
  ParseShape shape = Ok p →
  let found := FindPriceItems regexp_other catalog shape in
  ((∃ it, In it (Items catalog) ∧ primary_match p it = true) →
    found = List.filter (primary_match p) (Items catalog)) ∧
  ((∀ it, In it (Items catalog) → primary_match p it = false) →
    ∀ it, In it found ↔ In it (Items catalog) ∧
      In (ServiceCategory it) (CandidateServiceCategory p) ∧
      Contains (DisplayName it) (search_key p) = true).
Proof.
  intros Hp. unfold FindPriceItems. rewrite Hp, findCandidate_single.
  set (f := λ candidate, _ && _). set (g := λ it, String.eqb _ _).
  assert (List.filter f (List.filter g (Items catalog))
          = List.filter (primary_match p) (Items catalog)) as ->.
  { induction (Items catalog) as [|x l IH]; simpl; [done|].
    unfold primary_match at 1. fold (g x) (f x).
    destruct (g x); simpl; [destruct (f x); by rewrite IH|done]. }
  split.
  - intros (it & Hin & Hm).
    destruct (List.filter (primary_match p) (Items catalog)) as [|x l] eqn:Hf; [|done].
    exfalso. apply (in_nil (a := it)). rewrite <- Hf. by apply filter_In.
  - intros Hnone it.
    assert (List.filter (primary_match p) (Items catalog) = []) as ->.
    { destruct (List.filter _ _) as [|x l] eqn:Hf; [done|].
      assert (In x (x :: l)) as Hx by by left.
      rewrite <- Hf in Hx. apply filter_In in Hx as [Hx1 Hx2].
      by rewrite Hnone in Hx2. }
    simpl. rewrite filter_In, findCandidate_In. tauto.
Qed.

Lemma FindPriceItems_incl catalog shape it :
  In it (FindPriceItems regexp_other catalog shape) → In it (Items catalog).
Proof.
  unfold FindPriceItems. destruct (ParseShape shape); [|done..].
  destruct (_ =? 0)%nat; rewrite filter_In, findCandidate_In; tauto.
Qed.

(** C35: With a catalog whose prices are finite and not negative and a shape with sane sizes,
    Calculate returns a price that is not negative, or panics, which happens only for a shape
    without GPU count or without local disk size. *)
Theorem Calculate_nonneg (shape : WrapShape) (name : string) (catalog : PriceCatalog) :
  Shape_Shape (wShape shape) = Some name →
  sane_shape shape →
  (∀ it, In it (Items catalog) → sane_item it = true) →
  (∃ price, Calculate regexp_other shape (Some catalog) = Ok price ∧ nonneg price = true) ∨
  (Calculate regexp_other shape (Some catalog) = Panic "nil pointer dereference" ∧
   (Gpus (wShape shape) = None ∨ LocalDisksTotalSizeInGBs (wShape shape) = None)).
Proof.
  intros Hname Hshape Hcat. unfold Calculate. rewrite Hname. cbn [deref mbind res_bind].
  assert (Forall (λ it, sane_item it = true) (FindPriceItems regexp_other catalog name)) as Hf.
  { apply List.Forall_forall. eauto using FindPriceItems_incl. }
  destruct (FindPriceItems regexp_other catalog name) as [|it [|it2 items]].
  - left. by exists MaxFloat32.
  - apply single_item_priced; [done|by inversion Hf].
  - by apply sum_items_priced.
Qed.

(** C36: UpdateOnDemandPricing keeps the catalog on a returned error and when the local price
    list is used, installs the decoded catalog on success, and on an HTTP status above 299 wipes
    the catalog and panics when the change monitor reports a change. *)
Theorem UpdateOnDemandPricing_spec unmarshal HasChanged (local : bool) outcome (p : DefaultProvider) :
  let '(r, p') := UpdateOnDemandPricing unmarshal HasChanged local outcome p in
  endpoint p' = endpoint p ∧
  (local = true → r = Ok tt ∧ p' = p) ∧
  (∀ e, r = Err e → p' = p) ∧
  (∀ status text catalog, local = false → outcome = HttpResponse status (Some text) →
    (status <= 299)%Z → unmarshal text = Some catalog →
    r = Ok tt ∧ priceCatalog p' = Some catalog) ∧
  (∀ status body, local = false → outcome = HttpResponse status body → (299 < status)%Z →
    priceCatalog p' = None ∧
    r = if HasChanged None then Panic "nil pointer dereference" else Ok tt).
Proof.
  unfold UpdateOnDemandPricing, Get.
  destruct local; [naive_solver|].
  destruct outcome as [e|status body]; [naive_solver|].
  destruct (Z.ltb_spec 299 status).
  - destruct (HasChanged None); split_and!; try done; naive_solver lia.
  - destruct body as [text|]; [|naive_solver lia].
    destruct (unmarshal text) as [c|] eqn:Hu; [|naive_solver lia].
    destruct (HasChanged (Some c)); split_and!; try done; naive_solver lia.
Qed.
End Properties.
