(* ===== verification/DefaultPrice.v ===== *)
(** * [pkg/providers/pricing/default_price.go]: the embedded price list

    The 514 items of the JSON text [defaultPrice], in order, as the decoder of
    [Reset] reads them into [Item]s: the keys [Item] and [Price] declare, a
    number as its correctly rounded [float32].  [description], [rangeMin] and
    [rangeMax] have no field in these types, and the decoder drops them. *)

From stdpp Require Import base list strings.
From Stdlib Require Import ZArith.
From S2P Require Import GoFloat Pricing.

Local Open Scope string_scope.

(** A decimal [m * 10^-k], the price of one model, and an item priced in US
    dollars. *)
Definition payg (m k : Z) : Price :=
  {| Model := "PAY_AS_YOU_GO"; Value := f32_of_decimal m k |}.
Definition usd_item (part name metric category : string) (prices : list Price) : Item := {|
  PartNumber := part; DisplayName := name; MetricName := metric; ServiceCategory := category;
  CurrencyCodeLocalizations := [{| CCL_CurrencyCode := USD; Prices := prices |}]
|}.

Definition defaultPrice_00 : list Item := [
  usd_item "B107951" "Oracle Exadata Exascale VM Filesystem Storage"
    "Gigabyte (GB) Storage Capacity Per Month" "Exadata Exascale Infrastructure" [payg 425 4];
  usd_item "B107952" "Oracle Exadata Exascale Smart Database Storage"
    "Gigabyte (GB) Storage Capacity Per Month" "Exadata Exascale Infrastructure" [payg 1156 4];
  usd_item "B107975" "OCI - FastConnect 400 Gbps"
    "Port Hour" "Networking - FastConnect" [payg 20 0];
  usd_item "B108004" "OCI Managed Service for Mac - M2 Pro"
    "Mac Server Per Hour" "Managed Services for Mac" [payg 74 2];
  usd_item "B108030" "MySQL Database - ECPU"
    "ECPU Per Hour" "MySQL" [payg 366 4];
  usd_item "B108077" "OCI Generative AI - Large Cohere"
    "10,000 Transactions" "OCI Generative AI" [payg 156 4];
  usd_item "B108078" "OCI Generative AI - Small Cohere"
    "10,000 Transactions" "OCI Generative AI" [payg 9 4];
  usd_item "B108079" "OCI Generative AI - Embed Cohere"
    "10,000 Transactions" "OCI Generative AI" [payg 1 3]].

Definition defaultPrice_01 : list Item := [
  usd_item "B108080" "OCI Generative AI - Large Meta"
    "10,000 Transactions" "OCI Generative AI" [payg 18 4];
  usd_item "B108082" "OCI Generative AI - Large Cohere - Dedicated"
    "AI Unit Per Hour" "OCI Generative AI" [payg 24 0];
  usd_item "B108083" "OCI Generative AI - Small Cohere - Dedicated"
    "AI Unit Per Hour" "OCI Generative AI" [payg 65 1];
  usd_item "B108084" "OCI Generative AI - Embed Cohere - Dedicated"
    "AI Unit Per Hour" "OCI Generative AI" [payg 109 1];
  usd_item "B108085" "OCI Generative AI - Large Meta - Dedicated"
    "AI Unit Per Hour" "OCI Generative AI" [payg 12 0];
  usd_item "B108130" "Oracle Backend for Spring Boot and Microservices - Standard Edition - Marketplace"
    "Each" "Oracle Backend for Microservices and AI" [payg 0 0];
  usd_item "B108188" "Oracle Cloud Guard Instance Security Enterprise"
    "Node Per Hour" "Cloud Guard - Security" [payg 69 4];
  usd_item "B108189" "Oracle Cloud Guard Instance Security Standard"
    "Node Per Hour" "Cloud Guard - Security" [payg 0 0]].

Definition defaultPrice_02 : list Item := [
  usd_item "B108190" "Oracle Cloud Guard Instance Security Adhoc Queries Enterprise"
    "Request" "Cloud Guard - Security" [payg 0 0; payg 1 3];
  usd_item "B108711" "OCI - Language - Dedicated Inferencing - Healthcare"
    "Inferencing Unit Hour" "OCI Language" [payg 20 0];
  usd_item "B108764" "OCI - Vulnerability Detection and Patching - External Databases"
    "Host CPU Core Per Hour" "Vulnerability Detection and Patching" [payg 5 2];
  usd_item "B108765" "OCI - Vulnerability Detection and Patching - External Databases BYOL"
    "Host CPU Core Per Hour" "Vulnerability Detection and Patching" [payg 25 3];
  usd_item "B108773" "OCI - SQL Performance Watch External DB"
    "Host CPU Core Per Month" "Oracle Database" [payg 40 0];
  usd_item "B108776" "WebCenter Imaging For OCI"
    "OCPU Per Hour" "WebCenter For OCI" [payg 6394 4];
  usd_item "B108777" "WebCenter Enterprise Capture For OCI"
    "OCPU Per Hour" "WebCenter For OCI" [payg 417 3];
  usd_item "B108778" "WebCenter Enterprise Capture Standard Edition For OCI"
    "OCPU Per Hour" "WebCenter For OCI" [payg 2085 4]].

Definition defaultPrice_03 : list Item := [
  usd_item "B108779" "WebCenter Sites For OCI"
    "OCPU Per Hour" "WebCenter For OCI" [payg 695 3];
  usd_item "B108780" "WebCenter Sites Satellite Server For OCI"
    "OCPU Per Hour" "WebCenter For OCI" [payg 1738 4];
  usd_item "B108781" "WebCenter Portal For OCI"
    "OCPU Per Hour" "WebCenter For OCI" [payg 8688 4];
  usd_item "B108782" "WebCenter Forms Recognition For OCI"
    "OCPU Per Hour" "WebCenter For OCI" [payg 695 3];
  usd_item "B108783" "WebCenter Content For OCI"
    "OCPU Per Hour" "WebCenter For OCI" [payg 11989 4];
  usd_item "B108784" "WebCenter Universal Content Management For OCI"
    "OCPU Per Hour" "WebCenter For OCI" [payg 7993 4];
  usd_item "B108806" "Oracle Cloud VMware Solution - BM.GPU.A10.64 - Monthly Commit"
    "Node Per Hour" "Compute - VMware" [payg 16 0];
  usd_item "B108807" "Oracle Cloud VMware Solution - BM.GPU.A10.64 - 1 Year Commit"
    "Node Per Hour" "Compute - VMware" [payg 13 0]].

Definition defaultPrice_04 : list Item := [
  usd_item "B108808" "Oracle Cloud VMware Solution - BM.GPU.A10.64 - 3 Year Commit"
    "Node Per Hour" "Compute - VMware" [payg 11 0];
  usd_item "B108809" "Oracle Cloud VMware Solution - BM.Standard.E5.48 - Hourly Commit"
    "Node Per Hour" "Compute - VMware" [payg 166617 4];
  usd_item "B108810" "Oracle Cloud VMware Solution - BM.Standard.E5.48 - 1 Year Commit"
    "Node Per Hour" "Compute - VMware" [payg 131604 4];
  usd_item "B108811" "Oracle Cloud VMware Solution - BM.Standard.E5.48 - 3 Year Commit"
    "Node Per Hour" "Compute - VMware" [payg 106119 4];
  usd_item "B109166" "MySQL HeatWave - AWS - Storage"
    "Gigabyte Storage Capacity Per Month" "HeatWave Cluster" [payg 3 2];
  usd_item "B109169" "MySQL Database - Outbound Data Transfer - Inter OCI Region"
    "Gigabyte Outbound Data Transfer Per Month" "MySQL" [payg 4 2];
  usd_item "B109187" "MySQL Database - AWS - Ingress private endpoint"
    "Endpoint Per Hour" "Database - MySQL HeatWave on AWS" [payg 214 4];
  usd_item "B109188" "MySQL Database - AWS - Egress private endpoint"
    "Endpoint Per Hour" "Database - MySQL HeatWave on AWS" [payg 106 4]].

Definition defaultPrice_05 : list Item := [
  usd_item "B109355" "Oracle Exadata Exascale RDMA Compute Infrastructure"
    "ECPU Per Hour" "Exadata Exascale Infrastructure" [payg 25 3];
  usd_item "B109356" "Oracle Exadata Exascale Database ECPU"
    "ECPU Per Hour" "Exadata Database Service ECPUs" [payg 336 3];
  usd_item "B109357" "Oracle Exadata Exascale Database ECPU - BYOL"
    "ECPU Per Hour" "Exadata Database Service ECPUs" [payg 807 4];
  usd_item "B109358" "OCI - MySQL Database - Oracle Ops Insights for MySQL HeatWave"
    "OCPU Per Hour" "Observability - Ops Insights" [payg 15 3];
  usd_item "B109359" "OCI - MySQL Database - Oracle Ops Insights for MySQL HeatWave"
    "ECPU Per Hour" "Observability - Ops Insights" [payg 75 4];
  usd_item "B109375" "Oracle Exadata Exascale Additional Flash Cache"
    "Gigabyte Per Hour" "Exadata Exascale Infrastructure" [payg 5 4];
  usd_item "B109380" "MySQL Database - ECPU - Free"
    "ECPU Per Hour" "HeatWave Free Tier" [payg 0 0];
  usd_item "B109381" "OCI HeatWave - Free"
    "HeatWave Capacity Per Hour" "HeatWave Free Tier" [payg 0 0]].

Definition defaultPrice_06 : list Item := [
  usd_item "B109382" "OCI - HeatWave - Storage - Free"
    "Gigabyte Storage Capacity Per Month" "HeatWave Free Tier" [payg 0 0];
  usd_item "B109383" "MySQL Database - Storage - Free"
    "Gigabyte Storage Capacity Per Month" "HeatWave Free Tier" [payg 0 0];
  usd_item "B109384" "MySQL Database - Backup Storage - Free"
    "Gigabyte Storage Capacity Per Month" "HeatWave Free Tier" [payg 0 0];
  usd_item "B109458" "MySQL Database - AWS - Private inbound and outbound network traffic"
    "Gigabyte (GB) of Data Transferred" "Database - MySQL HeatWave on AWS" [payg 86 4];
  usd_item "B109479" "Compute - GPU - L40S"
    "GPU Per Hour" "Compute - GPU" [payg 35 1];
  usd_item "B109485" "OCI - Compute - GPU - MI300X"
    "GPU Per Hour" "Compute - GPU" [payg 6 0];
  usd_item "B109492" "Roving Edge Device - RED.2 Compute"
    "Resource Possession Per Day" "Roving Edge Infrastructure" [payg 80 0];
  usd_item "B109493" "Roving Edge Device - RED.2 GPU"
    "Resource Possession Per Day" "Roving Edge Infrastructure" [payg 100 0]].

Definition defaultPrice_07 : list Item := [
  usd_item "B109494" "Roving Edge Device - RED.2.STG Storage"
    "Resource Possession Per Day" "Roving Edge Infrastructure" [payg 95 0];
  usd_item "B109495" "Roving Edge Device - RED.2 Non-Return Fee"
    "Each" "Roving Edge Infrastructure" [payg 25000 0];
  usd_item "B109496" "Roving Edge Device - RED.2 Ruggedized Case"
    "Resource Possession Per Day" "Roving Edge Infrastructure" [payg 10 0];
  usd_item "B109529" "Compute - Standard - A2 OCPU"
    "OCPU Per Hour" "Compute - Virtual Machine" [payg 14 3];
  usd_item "B109530" "Compute - Standard - A2 Memory"
    "Gigabyte Per Hour" "Compute - Virtual Machine" [payg 2 3];
  usd_item "B112145" "OCI - Compute - Standard - A4 - OCPU"
    "OCPU Per Hour" "Compute - Virtual Machine" [payg 138 4];
  usd_item "B112146" "OCI - Compute - Standard - A4 - Memory"
    "Gigabyte Per Hour" "Compute - Virtual Machine" [payg 27 4];
  usd_item "B109545" "Oracle Blockchain Platform Enterprise Edition for  OCI"
    "OCPU Per Hour" "Application Development - Blockchain" [payg 4301 4]].

Definition defaultPrice_08 : list Item := [
  usd_item "B109546" "File Storage Service - High Performance Mount Target"
    "Performance Units Per Gigabyte Per Month" "Storage - File Storage" [payg 3 1];
  usd_item "B109559" "Oracle Integration Cloud Service - Healthcare"
    "5K Messages Per Hour" "Application Integration - OIC" [payg 19355 4];
  usd_item "B109565" "OCI - Blockchain Platform Cloud Service - Digital Assets"
    "OCPU Per Hour" "Application Development - Blockchain" [payg 10161 4];
  usd_item "B109635" "Oracle Base Database Service on Ampere A1 - Developer"
    "OCPU Per Hour" "Database - Base Database Service - Virtual Machine" [payg 22 3];
  usd_item "B110274" "OCI Full Stack Disaster Recovery Service"
    "ECPU Per Hour" "Full Stack Disaster Recovery" [payg 32 4];
  usd_item "B110316" "Oracle Autonomous Database - Developer"
    "Instance Per Hour" "Database - Autonomous Database" [payg 391 4];
  usd_item "B110461" "OCI Generative AI Agents"
    "10,000 Transactions" "OCI Generative AI Agents" [payg 3 3];
  usd_item "B110462" "OCI Generative AI Agents - Knowledge Base Storage"
    "Gigabyte Storage Per Hour" "OCI Generative AI Agents" [payg 84 4]].

Definition defaultPrice_09 : list Item := [
  usd_item "B110463" "OCI Generative AI Agents - Data Ingestion"
    "10,000 Transactions" "OCI Generative AI Agents" [payg 3 4];
  usd_item "B110464" "Oracle Cloud Success Protection Service - Universal Credits Consumption (% applied to consumption, with minimum)"
    "Universal Credits Consumption" "Cloud Success Protection Service" [payg 1 1];
  usd_item "B110470" "Exadata Cloud@Customer - Database OCPU - Developer"
    "OCPU Per Hour" "Database - Exadata Database - Cloud@Customer" [payg 0 0];
  usd_item "B110475" "OCI Fleet Application Management Service"
    "1 Managed Resource Per Month" "Fleet Application Management" [payg 0 0; payg 2604 3];
  usd_item "B110500" "OCI Streaming With Apache Kafka"
    "OCPU Per Hour" "OCI Streaming With Apache Kafka" [payg 1 1];
  usd_item "B110517" "OCI Generative AI - Meta Llama 3.1 405B"
    "10,000 Transactions" "OCI Generative AI" [payg 267 4];
  usd_item "B110519" "OCI - Compute - GPU - H200"
    "GPU Per Hour" "Compute - GPU" [payg 10 0]].

Definition defaultPrice_10 : list Item := [
  usd_item "B110617" "OCI - Vision - Stored Video Analysis"
    "Processed Video Minute" "OCI Vision" [payg 0 0; payg 1 1];
  usd_item "B110625" "OCI - MySQL Database - Database Management for MySQL HeatWave"
    "ECPU Per Hour" "MySQL" [payg 75 4];
  usd_item "B110627" "Exadata Cloud Infrastructure - Database Server - X11M"
    "Hosted Environment Per Hour" "Exadata Cloud Infrastructure X11M" [payg 29032 4];
  usd_item "B110629" "Exadata Cloud Infrastructure - Storage Server - X11M"
    "Hosted Environment Per Hour" "Exadata Cloud Infrastructure X11M" [payg 29032 4];
  usd_item "B110631" "Exadata Database ECPU - Dedicated Infrastructure"
    "ECPU Per Hour" "Exadata Database Service ECPUs" [payg 336 3];
  usd_item "B110632" "Exadata Database ECPU - Dedicated Infrastructure - BYOL"
    "ECPU Per Hour" "Exadata Database Service ECPUs" [payg 807 4];
  usd_item "B110662" "Oracle Exadata Cloud@Customer Database ECPU - ECPU Per Hour"
    "ECPU Per Hour" "Database - Exadata Database - Cloud@Customer" [payg 336 3];
  usd_item "B110663" "Oracle Exadata Cloud@Customer Database ECPU - BYOL"
    "ECPU Per Hour" "Database - Exadata Database - Cloud@Customer" [payg 807 4]].

Definition defaultPrice_11 : list Item := [
  usd_item "B110679" "OCI Generative AI - Meta Llama 3.2 90B Vision"
    "10,000 Transactions" "OCI Generative AI" [payg 5 3];
  usd_item "B110680" "Oracle Cloud VMware Solution - BM.DenseIO.E5.32 - Hourly Commit"
    "Node Per Hour" "Compute - VMware" [payg 102379 4];
  usd_item "B110681" "Oracle Cloud VMware Solution - BM.DenseIO.E5.32 - Monthly Commit"
    "Node Per Hour" "Compute - VMware" [payg 8531 3];
  usd_item "B110682" "Oracle Cloud VMware Solution - BM.DenseIO.E5.32 - 1 Year Commit"
    "Node Per Hour" "Compute - VMware" [payg 68242 4];
  usd_item "B110683" "Oracle Cloud VMware Solution - BM.DenseIO.E5.32 - 3 Year Commit"
    "Node Per Hour" "Compute - VMware" [payg 6072 3];
  usd_item "B110684" "Oracle Cloud VMware Solution - Expansion - Monthly Commit"
    "OCPU Per Hour" "Compute - VMware" [payg 1338 4];
  usd_item "B110965" "Oracle Compute Cloud@Customer - Compute - GPU.L40S"
    "GPU Per Hour" "Compute Cloud@Customer" [payg 35 1];
  usd_item "B110978" "OCI - Compute - GPU - B200"
    "GPU Per Hour" "Compute - GPU" [payg 14 0]].

Definition defaultPrice_12 : list Item := [
  usd_item "B110979" "OCI - Compute - GPU - GB200"
    "GPU Per Hour" "Compute - GPU" [payg 16 0];
  usd_item "B110986" "OCI Application Performance Monitoring Service - Stack Monitoring - Enterprise Edition for GPU Infrastructure"
    "GPU Monitoring Unit Per Hour" "Stack Monitoring - GPU" [payg 7 2];
  usd_item "B110989" "Oracle Globally Distributed Exadata Exascale Database ECPU"
    "ECPU Per Hour" "Exadata Database Service ECPUs" [payg 3864 4];
  usd_item "B110990" "Oracle Globally Distributed Exadata Exascale Database ECPU - BYOL"
    "ECPU Per Hour" "Exadata Database Service ECPUs" [payg 928 4];
  usd_item "B110993" "Oracle Cloud Success Assurance Service - Universal Credits Consumption (% applied to consumption, with minimum)"
    "Universal Credits Consumption" "Cloud Success Assurance Service" [payg 5 2];
  usd_item "B111015" "OCI Generative AI - Cohere Rerank - Dedicated"
    "Cluster Hour" "OCI Generative AI" [payg 10 0];
  usd_item "B111035" "OCI Generative AI - Meta Llama 4 Scout"
    "10,000 Transactions" "OCI Generative AI" [payg 18 4];
  usd_item "B111036" "OCI Generative AI - Meta Llama 4 Maverick"
    "10,000 Transactions" "OCI Generative AI" [payg 18 4]].

Definition defaultPrice_13 : list Item := [
  usd_item "B111087" "OCI Ops Insights for Warehouse - Instance"
    "ECPU Per Hour" "Observability - Ops Insights" [payg 2688 4];
  usd_item "B111091" "OCI File Storage with Lustre Service - Storage"
    "Gigabyte Storage Capacity Per Month" "File Storage with Lustre Service" [payg 86 3];
  usd_item "B111092" "OCI File Storage with Lustre Service - Performance"
    "Performance Units Per Gigabyte Per Month" "File Storage with Lustre Service" [payg 5 4];
  usd_item "B111129" "OCI - Compute - Standard - E6 - OCPU"
    "OCPU Per Hour" "Compute - Virtual Machine" [payg 3 2];
  usd_item "B111130" "OCI - Compute - Standard - E6 - Memory"
    "Gigabyte Per Hour" "Compute - Virtual Machine" [payg 2 3];
  usd_item "B88290" "Oracle Database Cloud Service - Enterprise Edition - General Purpose"
    "OCPU Per Hour" "Oracle Public Cloud Services - CLOUDCM" [payg 4301 4];
  usd_item "B88291" "Oracle Database Cloud Service - Enterprise Edition Extreme Performance - General Purpose"
    "OCPU Per Hour" "Oracle Public Cloud Services - CLOUDCM" [payg 13441 4];
  usd_item "B88292" "Oracle Database Cloud Service - Enterprise Edition High Performance - General Purpose"
    "OCPU Per Hour" "Oracle Public Cloud Services - CLOUDCM" [payg 8871 4]].

Definition defaultPrice_14 : list Item := [
  usd_item "B88293" "Oracle Database Cloud Service - Standard Edition - General Purpose"
    "OCPU Per Hour" "Oracle Public Cloud Services - CLOUDCM" [payg 215 3];
  usd_item "B88299" "Oracle Data Integrator Cloud Service"
    "OCPU Per Hour" "Data Integrator" [payg 7742 4];
  usd_item "B88315" "Compute - Bare Metal Standard - X5"
    "OCPU Per Hour" "Compute - Bare Metal" [payg 638 4];
  usd_item "B88317" "Compute - Virtual Machine Standard - X5"
    "OCPU Per Hour" "Compute - Virtual Machine" [payg 638 4];
  usd_item "B88318" "Compute - Windows OS"
    "OCPU Per Hour" "Compute - OS Images" [payg 92 3];
  usd_item "B88325" "OCI - FastConnect 1 Gbps"
    "Port Hour" "Networking - FastConnect" [payg 2125 4];
  usd_item "B88326" "OCI - FastConnect 10 Gbps"
    "Port Hour" "Networking - FastConnect" [payg 1275 3];
  usd_item "B88327" "Outbound Data Transfer - Originating in North America, Europe, and UK"
    "Gigabyte Outbound Data Transfer Per Month" "Networking - Virtual Cloud Networks" [payg 0 0; payg 85 4]].

Definition defaultPrice_15 : list Item := [
  usd_item "B88402" "Oracle Database Cloud Service - Enterprise Edition Extreme Performance RAC - BYOL"
    "OCPU Per Hour" "Oracle Public Cloud Services - CLOUDCM" [payg 1935 4];
  usd_item "B88404" "Oracle Database Cloud Service - All Editions - BYOL"
    "OCPU Per Hour" "Oracle Public Cloud Services - CLOUDCM" [payg 1935 4];
  usd_item "B88406" "Oracle Data Integrator Cloud Service - BYOL"
    "OCPU Per Hour" "Data Integrator" [payg 1935 4];
  usd_item "B88513" "Compute - Bare Metal Standard - X7"
    "OCPU Per Hour" "Compute - Bare Metal" [payg 638 4];
  usd_item "B88514" "Compute - Virtual Machine Standard - X7"
    "OCPU Per Hour" "Compute - Virtual Machine" [payg 638 4];
  usd_item "B88515" "Compute - Bare Metal Dense I/O - X7"
    "OCPU Per Hour" "Compute - Bare Metal" [payg 1275 4];
  usd_item "B88516" "Compute - Virtual Machine Dense I/O - X7"
    "OCPU Per Hour" "Compute - Virtual Machine" [payg 1275 4];
  usd_item "B88517" "Compute - Bare Metal GPU Standard - X7"
    "GPU Per Hour" "Compute - GPU" [payg 1275 3]].

Definition defaultPrice_16 : list Item := [
  usd_item "B88518" "Compute - Virtual Machine GPU Standard - X7"
    "GPU Per Hour" "Compute - GPU" [payg 1275 3];
  usd_item "B88523" "OCI - Email Delivery"
    "1,000 Emails Sent" "Email Delivery" [payg 0 0; payg 85 3];
  usd_item "B88525" "Networking - DNS"
    "1,000,000 Queries" "Networking - DNS" [payg 85 2];
  usd_item "B88592" "Exadata Database OCPU - Dedicated Infrastructure"
    "OCPU Per Hour" "Exadata Database Service OCPUs" [payg 13441 4];
  usd_item "B88847" "Exadata Database OCPU - Dedicated Infrastructure - BYOL"
    "OCPU Per Hour" "Exadata Database Service OCPUs" [payg 3226 4];
  usd_item "B89057" "File Storage - Storage"
    "Gigabyte Storage Capacity Per Month" "Storage - File Storage" [payg 3 1];
  usd_item "B89630" "Oracle Analytics Cloud - Professional - OCPU"
    "OCPU Per Hour" "Analytics - Analytics Cloud" [payg 10753 4];
  usd_item "B89631" "Oracle Analytics Cloud - Enterprise - OCPU"
    "OCPU Per Hour" "Analytics - Analytics Cloud" [payg 21506 4]].

Definition defaultPrice_17 : list Item := [
  usd_item "B89636" "Oracle Analytics Cloud - Professional - BYOL - OCPU"
    "OCPU Per Hour" "Analytics - Analytics Cloud" [payg 3226 4];
  usd_item "B89637" "Oracle Analytics Cloud - Enterprise - BYOL - OCPU"
    "OCPU Per Hour" "Analytics - Analytics Cloud" [payg 3226 4];
  usd_item "B89639" "Oracle Integration Cloud Service - Standard"
    "5K Messages Per Hour" "Application Integration - OIC" [payg 6452 4];
  usd_item "B89640" "Oracle Integration Cloud Service - Enterprise"
    "5K Messages Per Hour" "Application Integration - OIC" [payg 12903 4];
  usd_item "B89643" "Oracle Integration Cloud Service - Standard - BYOL"
    "20K Messages Per Hour" "Application Integration - OIC" [payg 3226 4];
  usd_item "B89644" "Oracle Integration Cloud Service - Enterprise - BYOL"
    "20K Messages Per Hour" "Application Integration - OIC" [payg 3226 4];
  usd_item "B89646" "Oracle Visual Builder"
    "OCPU Per Hour" "Application Development - Developer Cloud Service" [payg 12365 4];
  usd_item "B89734" "Compute - GPU Standard - V2"
    "GPU Per Hour" "Compute - GPU" [payg 295 2]].

Definition defaultPrice_18 : list Item := [
  usd_item "B89737" "Oracle NoSQL Database Cloud - Write"
    "Write Unit Per Month" "Database - NoSQL" [payg 1254 4];
  usd_item "B89738" "Oracle NoSQL Database Cloud - Read"
    "Read Unit Per Month" "Database - NoSQL" [payg 64 4];
  usd_item "B89739" "Oracle NoSQL Database Cloud - Storage"
    "Gigabyte Storage Capacity Per Month" "Database - NoSQL" [payg 66 3];
  usd_item "B89980" "Oracle Database Exadata Cloud at Customer - Database OCPU"
    "OCPU Per Hour" "Database - Exadata Database - Cloud@Customer" [payg 13441 4];
  usd_item "B89981" "Oracle Database Exadata Cloud at Customer - Database OCPU - BYOL"
    "OCPU Per Hour" "Database - Exadata Database - Cloud@Customer" [payg 3226 4];
  usd_item "B89999" "Quarter Rack - X7"
    "Hosted Environment Per Hour" "Exadata Cloud Infrastructure X7" [payg 215054 4];
  usd_item "B90000" "Half Rack - X7"
    "Hosted Environment Per Hour" "Exadata Cloud Infrastructure X7" [payg 430107 4];
  usd_item "B90001" "Full Rack - X7"
    "Hosted Environment Per Hour" "Exadata Cloud Infrastructure X7" [payg 860215 4]].

Definition defaultPrice_19 : list Item := [
  usd_item "B90203" "Visual Builder Studio - Additional Storage"
    "Gigabyte Storage Capacity Per Month" "Application Development - Developer Cloud Service" [payg 16 1];
  usd_item "B90230" "Oracle Database Backup Cloud - Object Storage"
    "Gigabyte Storage Capacity Per Month" "Database - Backup" [payg 51 4];
  usd_item "B90231" "Oracle Database Backup Cloud - Archive Storage"
    "Gigabyte Storage Capacity Per Month" "Database - Backup" [payg 5 4];
  usd_item "B90260" "Oracle Digital Assistant Cloud Service"
    "Requests per Hour" "Oracle Digital Assistant" [payg 232 4];
  usd_item "B90304" "Oracle Mobile Hub Cloud Service"
    "Requests per Hour" "Mobile" [payg 28 4];
  usd_item "B90323" "OCI - Health Checks - Basic"
    "Endpoints Per Month" "Edge Services" [payg 3 1];
  usd_item "B90325" "OCI - Health Checks - Premium"
    "Endpoints Per Month" "Edge Services" [payg 13 1];
  usd_item "B90327" "Networking - DNS Traffic Management"
    "1,000,000 DNS Traffic Managment Queries" "Networking - DNS" [payg 4 0]].

Definition defaultPrice_20 : list Item := [
  usd_item "B90328" "OCI - Key Management - Private Vault"
    "Virtual Private Vault Per Hour" "Security - Key Management" [payg 3724 3];
  usd_item "B90398" "Compute - Bare Metal Standard - HPC - X7"
    "OCPU Per Hour" "Compute - Bare Metal" [payg 75 3];
  usd_item "B90425" "Compute - Standard - E2"
    "OCPU Per Hour" "Compute - Virtual Machine" [payg 3 2];
  usd_item "B90555" "Oracle Identity Cloud Service - Enterprise User"
    "User Per Month" "OCI IAM" [payg 32 1];
  usd_item "B90556" "Oracle Identity Cloud Service - Consumer User"
    "User Per Month" "OCI IAM" [payg 16 3];
  usd_item "B90557" "Oracle Identity Cloud Service - Enterprise User - BYOL"
    "User Per Month" "OCI IAM" [payg 8 1];
  usd_item "B90558" "Oracle Identity Cloud Service - Consumer User - BYOL"
    "User Per Month" "OCI IAM" [payg 4 3];
  usd_item "B90569" "Oracle Base Database Service - Standard"
    "OCPU Per Hour" "Database - Base Database Service - Virtual Machine" [payg 215 3]].

Definition defaultPrice_21 : list Item := [
  usd_item "B90570" "Oracle Base Database Service - Enterprise"
    "OCPU Per Hour" "Database - Base Database Service - Virtual Machine" [payg 4301 4];
  usd_item "B90571" "Oracle Base Database Service - High Performance"
    "OCPU Per Hour" "Database - Base Database Service - Virtual Machine" [payg 8871 4];
  usd_item "B90572" "Oracle Base Database Service - Extreme Performance"
    "OCPU Per Hour" "Database - Base Database Service - Virtual Machine" [payg 13441 4];
  usd_item "B90573" "Oracle Base Database Service - BYOL"
    "OCPU Per Hour" "Database - Base Database Service - Virtual Machine" [payg 1935 4];
  usd_item "B90617" "Oracle Functions - Execution Time"
    "10,000 GB Memory-Seconds" "Application Development - Serverless" [payg 0 0; payg 1417 4];
  usd_item "B90618" "Oracle Functions - Invocations"
    "1MIL Function Invocations" "Application Development - Serverless" [payg 0 0; payg 2 1];
  usd_item "B90777" "Exadata Database Cloud Service - Base System"
    "Hosted Environment Per Hour" "Exadata Cloud Infrastructure Base System" [payg 107527 4]].

Definition defaultPrice_22 : list Item := [
  usd_item "B90925" "Monitoring - Ingestion"
    "Million Datapoints" "Observability - Monitoring" [payg 0 0; payg 25 4];
  usd_item "B90926" "Monitoring - Retrieval"
    "Million Datapoints" "Observability - Monitoring" [payg 0 0; payg 15 4];
  usd_item "B90936" "Oracle Identity Foundation Cloud Service"
    "Each" "OCI IAM" [payg 0 0];
  usd_item "B90938" "Streaming - PUT or GET"
    "Gigabytes of Data Transferred" "OCI Streaming" [payg 25 3];
  usd_item "B90939" "Streaming - Storage"
    "Gigabyte Per Hour" "OCI Streaming" [payg 2 4];
  usd_item "B90940" "Notifications - HTTPS Delivery"
    "Million Delivery Operations" "Observability - Notifications" [payg 0 0; payg 6 1]].

Definition defaultPrice_23 : list Item := [
  usd_item "B90941" "Notifications - Email Delivery"
    "1,000 Emails Sent" "Observability - Notifications" [payg 0 0; payg 2 2];
  usd_item "B91119" "Compute - Bare Metal Standard - B1"
    "OCPU Per Hour" "Compute - Bare Metal" [payg 638 4];
  usd_item "B91120" "Compute - Virtual Machine Standard - B1"
    "OCPU Per Hour" "Compute - Virtual Machine" [payg 638 4];
  usd_item "B91121" "Oracle Cloud SQL - Compute Capacity"
    "OCPU Per Hour" "Data Management - Big Data Cloud Service" [payg 1075 4];
  usd_item "B91128" "Oracle Big Data Service - Compute - Standard"
    "OCPU Per Hour" "Data Management - Big Data Cloud Service" [payg 1344 4];
  usd_item "B91129" "Oracle Big Data Service - Compute - Dense I/O"
    "OCPU Per Hour" "Data Management - Big Data Cloud Service" [payg 214 3];
  usd_item "B91130" "Oracle Big Data Service - Compute - HPC"
    "OCPU Per Hour" "Data Management - Big Data Cloud Service" [payg 1536 4];
  usd_item "B91346" "WebLogic Server Enterprise Edition for OCI"
    "OCPU Per Hour" "Application Development - Java" [payg 2581 4]].

Definition defaultPrice_24 : list Item := [
  usd_item "B91347" "WebLogic Server Suite for OCI"
    "OCPU Per Hour" "Application Development - Java" [payg 4646 4];
  usd_item "B91363" "Gen 2 Exadata Cloud at Customer - Database OCPU"
    "OCPU Per Hour" "Database - Exadata Database - Cloud@Customer" [payg 13441 4];
  usd_item "B91364" "Gen 2 Exadata Cloud at Customer - Database OCPU - BYOL"
    "OCPU Per Hour" "Database - Exadata Database - Cloud@Customer" [payg 3226 4];
  usd_item "B91372" "Database - Marketplace Compute Image - Microsoft SQL Enterprise"
    "OCPU Per Hour" "Database - SQL Server" [payg 147 2];
  usd_item "B91373" "Database - Marketplace Compute Image - Microsoft SQL Standard"
    "OCPU Per Hour" "Database - SQL Server" [payg 37 2];
  usd_item "B91391" "Oracle Autonomous Data Warehouse - Free"
    "OCPU Per Hour" "Oracle Public Cloud Services - CLOUDCM" [payg 0 0];
  usd_item "B91392" "Oracle Autonomous Data Warehouse - Exadata Storage - Free"
    "Terabyte Storage Capacity Per Month" "Oracle Public Cloud Services - CLOUDCM" [payg 0 0];
  usd_item "B91393" "Oracle Autonomous Transaction Processing - Free"
    "OCPU Per Hour" "Oracle Public Cloud Services - CLOUDCM" [payg 0 0]].

Definition defaultPrice_25 : list Item := [
  usd_item "B91394" "Oracle Autonomous Transaction Processing - Exadata Storage - Free"
    "Terabyte Storage Capacity Per Month" "Oracle Public Cloud Services - CLOUDCM" [payg 0 0];
  usd_item "B91444" "Compute - Virtual Machine Standard - E2 Micro - Free"
    "OCPU Per Hour" "Compute - Virtual Machine" [payg 0 0];
  usd_item "B91445" "Storage - Block Volume - Free 200GB"
    "Gigabyte Storage Capacity Per Month" "Storage - Block Volumes" [payg 0 0];
  usd_item "B91535" "Quarter Rack - X8"
    "Hosted Environment Per Hour" "Exadata Cloud Infrastructure X8" [payg 145162 4];
  usd_item "B91536" "Half Rack - X8"
    "Hosted Environment Per Hour" "Exadata Cloud Infrastructure X8" [payg 290323 4];
  usd_item "B91537" "Full Rack - X8"
    "Hosted Environment Per Hour" "Exadata Cloud Infrastructure X8" [payg 580645 4];
  usd_item "B91627" "Object Storage - Requests"
    "10,000 Requests per Month (first 50,000 free)" "Storage - Object Storage" [payg 0 0; payg 34 4]].

Definition defaultPrice_26 : list Item := [
  usd_item "B91628" "Object Storage - Storage"
    "Gigabyte Storage Capacity Per Month" "Storage - Object Storage" [payg 0 0; payg 255 4];
  usd_item "B91631" "Data Safe for Database Cloud Service - Audit Record Collection Over 1 Million Records"
    "10,000 Audit Records Per Target Per Month" "Security - Data Safe" [payg 1 1];
  usd_item "B91632" "Data Safe for Database Cloud Service - Databases"
    "Each" "Security - Data Safe" [payg 0 0];
  usd_item "B91633" "Archive Storage - Storage"
    "Gigabyte Storage Capacity Per Month" "Storage - Object Storage" [payg 0 0; payg 26 4];
  usd_item "B91961" "Storage - Block Volume - Storage"
    "Gigabyte Storage Capacity Per Month" "Storage - Block Volumes" [payg 255 4];
  usd_item "B91962" "Storage - Block Volume - Performance Units"
    "Performance Units Per Gigabyte Per Month" "Storage - Block Volumes" [payg 17 4];
  usd_item "B92072" "API Gateway  - 1,000,000 API Calls"
    "1,000,000 API Calls Per Month" "Application Development - API Management" [payg 3 0]].

Definition defaultPrice_27 : list Item := [
  usd_item "B92092" "Key Management Service - Key Versions"
    "Key Version Per Month" "Security - Key Management" [payg 0 0; payg 5334 4];
  usd_item "B92302" "Blockchain Platform - Standard"
    "OCPU Per Hour" "Application Development - Blockchain" [payg 215 3];
  usd_item "B92303" "Blockchain Platform - Enterprise"
    "OCPU Per Hour" "Application Development - Blockchain" [payg 4301 4];
  usd_item "B92304" "Blockchain Platform - Storage"
    "Terabyte Storage Capacity Per Month" "Application Development - Blockchain" [payg 704 1];
  usd_item "B92305" "Blockchain Platform - Enterprise - BYOL"
    "OCPU Per Hour" "Application Development - Blockchain" [payg 3226 4];
  usd_item "B92306" "Compute - Standard - E3 - OCPU"
    "OCPU Per Hour" "Compute - Virtual Machine" [payg 25 3];
  usd_item "B92307" "Compute - Standard - E3 - Memory"
    "Gigabyte Per Hour" "Compute - Virtual Machine" [payg 15 4];
  usd_item "B92335" "Essbase for OCI"
    "OCPU Per Hour" "OCI Marketplace - Database - Essbase on OCI" [payg 13129 4]].

Definition defaultPrice_28 : list Item := [
  usd_item "B92380" "Exadata Database Cloud Service - Quarter Rack  - X8M"
    "Hosted Environment Per Hour" "Exadata Cloud Infrastructure X8M" [payg 145162 4];
  usd_item "B92381" "Exadata Database Cloud Service - Database Server - X8M"
    "Hosted Environment Per Hour" "Exadata Cloud Infrastructure X8M" [payg 29032 4];
  usd_item "B92382" "Exadata Database Cloud Service - Storage Server - X8M"
    "Hosted Environment Per Hour" "Exadata Cloud Infrastructure X8M" [payg 29032 4];
  usd_item "B92386" "Oracle Cloud Vmware Solution  - BM.DenseIO2.52 - 1 Month Commit"
    "OCPU Per Hour" "Compute - VMware" [payg 2031 4];
  usd_item "B92426" "MySQL Database - Storage"
    "Gigabyte Storage Capacity Per Month" "MySQL" [payg 4 2];
  usd_item "B92450" "Oracle SOA Suite for OCI"
    "OCPU Per Hour" "Application Integration - SOA" [payg 7231 4];
  usd_item "B92451" "Oracle SOA Suite for OCI - with B2B Adapter for EDI"
    "OCPU Per Hour" "Application Integration - SOA" [payg 12071 4];
  usd_item "B92483" "MySQL Database - Backup Storage"
    "Gigabyte Storage Capacity Per Month" "MySQL" [payg 4 2]].

Definition defaultPrice_29 : list Item := [
  usd_item "B92593" "OCI - Logging - Storage"
    "Gigabyte Log Storage Per Month" "Observability - Logging" [payg 0 0; payg 5 2];
  usd_item "B92598" "OCI Data Integration - Workspace Usage"
    "Workspace Usage Per Hour" "Data Integration - Workspace Usage" [payg 16 2];
  usd_item "B92599" "OCI Data Integration - Data Processed"
    "Gigabyte of Data Processed Per Hour" "Data Integration - Data Processed" [payg 4 2];
  usd_item "B92615" "Roving Edge Device - Compute Optimized - Ruggedized"
    "Resource Possession Per Day" "Roving Edge Infrastructure" [payg 160 0];
  usd_item "B92627" "Oracle NoSQL Database Cloud - Write - Free"
    "Write Unit Per Month" "Database - NoSQL" [payg 0 0];
  usd_item "B92628" "Oracle NoSQL Database Cloud - Read - Free"
    "Read Unit Per Month" "Database - NoSQL" [payg 0 0];
  usd_item "B92629" "Oracle NoSQL Database Cloud - Storage - Free"
    "Gigabyte Storage Capacity Per Month" "Database - NoSQL" [payg 0 0];
  usd_item "B92682" "Oracle Analytics Cloud - Professional - Users"
    "User Per Month" "Analytics - Analytics Cloud" [payg 16 0]].

Definition defaultPrice_30 : list Item := [
  usd_item "B92683" "Oracle Analytics Cloud - Enterprise - Users"
    "User Per Month" "Analytics - Analytics Cloud" [payg 80 0];
  usd_item "B92695" "Oracle Stream Analytics for OCI"
    "OCPU Per Hour" "GoldenGate" [payg 9498 4];
  usd_item "B92733" "Data Safe for On-Premises Databases          on Compute"
    "Target Database Per Month" "Security - Data Safe" [payg 200 0; payg 150 0; payg 100 0; payg 50 0];
  usd_item "B92734" "Data Safe for On-Premises Databases prompt on Compute"
    "10,000 Audit Records Per Target Per Month" "Security - Data Safe" [payg 1 1];
  usd_item "B92740" "Compute - GPU - E3"
    "GPU Per Hour" "Compute - GPU" [payg 305 2];
  usd_item "B92809" "Logging Analytics - Archival Storage"
    "Logging Analytics Storage Unit Per Hour" "Observability - Logging Analytics" [payg 2 2];
  usd_item "B92888" "OCI Ops Insights for Oracle Autonomous Databases - Basic"
    "OCPU Per Hour" "Observability - Ops Insights" [payg 0 0]].

Definition defaultPrice_31 : list Item := [
  usd_item "B92889" "OCI Ops Insights for Oracle Cloud Databases"
    "OCPU Per Hour" "Observability - Ops Insights" [payg 15 3];
  usd_item "B92890" "OCI Ops Insights for External Oracle Databases and Host"
    "Host CPU Core Per Hour" "Observability - Ops Insights" [payg 15 3];
  usd_item "B92913" "WebLogic Server Enterprise Edition for OCI Container Engine for Kubernetes"
    "OCPU Per Hour" "Application Development - Java" [payg 2581 4];
  usd_item "B92914" "WebLogic Server Suite for OCI Container Engine for Kubernetes"
    "OCPU Per Hour" "Application Development - Java" [payg 4646 4];
  usd_item "B92940" "Application Performance Monitoring Service - Tracing Data - Free"
    "1,000 Events Per Hour" "Observability - APM" [payg 0 0];
  usd_item "B92941" "Application Performance Monitoring Service - Tracing Data"
    "100,000 Events Per Hour" "Observability - APM" [payg 65 2];
  usd_item "B92942" "Application Performance Monitoring Service -  Synthetic Usage"
    "10 Monitor Runs Per Hour" "Observability - APM" [payg 2 2];
  usd_item "B92992" "OCI GoldenGate"
    "OCPU Per Hour" "GoldenGate" [payg 13441 4]].

Definition defaultPrice_32 : list Item := [
  usd_item "B92993" "OCI GoldenGate - BYOL"
    "OCPU Per Hour" "GoldenGate" [payg 3226 4];
  usd_item "B93000" "Infrequent Access Storage - Storage"
    "Gigabyte Storage Capacity Per Month" "Storage - Object Storage" [payg 0 0; payg 1 2];
  usd_item "B93001" "Infrequent Access Storage - Data Retrieval"
    "GB Storage Retrieved Per Month" "Storage - Object Storage" [payg 0 0; payg 1 2];
  usd_item "B93004" "Notifications - SMS Outbound to Country Zone 1"
    "Per SMS Message Sent" "Observability - Notifications" [payg 0 0; payg 15 3];
  usd_item "B93005" "Notifications - SMS Outbound to Country Zone 2"
    "Per SMS Message Sent" "Observability - Notifications" [payg 0 0; payg 45 3];
  usd_item "B93006" "Notifications - SMS Outbound to Country Zone 3"
    "Per SMS Message Sent" "Observability - Notifications" [payg 0 0; payg 86 3]].

Definition defaultPrice_33 : list Item := [
  usd_item "B93007" "Notifications - SMS Outbound to Country Zone 4"
    "Per SMS Message Sent" "Observability - Notifications" [payg 0 0; payg 12 2];
  usd_item "B93008" "Notifications - SMS Outbound to Country Zone 5"
    "Per SMS Message Sent" "Observability - Notifications" [payg 0 0; payg 24 2];
  usd_item "B93030" "Load Balancer Base"
    "Load Balancer" "Flexible Load Balancer" [payg 0 0; payg 113 4];
  usd_item "B93031" "Load Balancer Bandwidth"
    "Mbps Per Hour" "Flexible Load Balancer" [payg 0 0; payg 1 4];
  usd_item "B93039" "Roving Edge Device - Compute Optimized - Standard"
    "Resource Possession Per Day" "Roving Edge Infrastructure" [payg 160 0];
  usd_item "B93040" "Roving Edge Device - Compute Optimized - Unreturnable or Loss Fee"
    "Each" "Roving Edge Infrastructure" [payg 45000 0]].

Definition defaultPrice_34 : list Item := [
  usd_item "B93082" "Database Management - External DB BYOL"
    "Host CPU Core Per Hour" "Oracle Database" [payg 25 3];
  usd_item "B93083" "Database Management - External DB"
    "Host CPU Core Per Hour" "Oracle Database" [payg 5 2];
  usd_item "B93113" "Compute - Standard - E4 - OCPU"
    "OCPU Per Hour" "Compute - Virtual Machine" [payg 25 3];
  usd_item "B93114" "Compute - Standard - E4  - Memory"
    "Gigabyte Per Hour" "Compute - Virtual Machine" [payg 15 4];
  usd_item "B93121" "Compute - Dense I/O - E4 - OCPU"
    "OCPU Per Hour" "Compute - Virtual Machine" [payg 25 3];
  usd_item "B93122" "Compute - Dense I/O - E4 - Memory"
    "Gigabyte Per Hour" "Compute - Virtual Machine" [payg 15 4];
  usd_item "B93123" "Compute - Dense I/O - E4 - NVMe"
    "NVMe Terabyte Per Hour" "Compute - Virtual Machine" [payg 612 4];
  usd_item "B93126" "OCI - FastConnect 100 Gbps"
    "Port Hour" "Networking - FastConnect" [payg 1075 2]].

Definition defaultPrice_35 : list Item := [
  usd_item "B93199" "OCI Database Migration"
    "Migration Hour" "Database - Database Migration" [payg 2 1];
  usd_item "B93288" "Oracle Cloud VMware Solution - BM.DenseIO2.52 - Hourly Commit"
    "OCPU Per Hour" "Compute - VMware" [payg 2437 4];
  usd_item "B93289" "Oracle Cloud VMware Solution - BM.DenseIO2.52 - 1 Year Commit"
    "OCPU Per Hour" "Compute - VMware" [payg 1625 4];
  usd_item "B93290" "Oracle Cloud VMware Solution - BM.DenseIO2.52 - 3 Year Commit"
    "OCPU Per Hour" "Compute - VMware" [payg 132 3];
  usd_item "B93297" "Compute - Standard - A1 - OCPU"
    "OCPU Per Hour" "Compute - Virtual Machine" [payg 0 0; payg 1 2];
  usd_item "B93298" "Compute - Standard - A1 - Memory"
    "Gigabyte Per Hour" "Compute - Virtual Machine" [payg 0 0; payg 15 4];
  usd_item "B93306" "OCI Data Integration - Pipeline Operator Execution"
    "Execution Hour" "Data Integration - Pipeline Operator Execution" [payg 0 0; payg 3 1]].

Definition defaultPrice_36 : list Item := [
  usd_item "B93307" "Autonomous JSON Database - Free"
    "OCPU Per Hour" "Database - Autonomous JSON Database" [payg 0 0];
  usd_item "B93311" "Compute - Optimized - X9 - OCPU"
    "OCPU Per Hour" "Compute - Virtual Machine" [payg 54 3];
  usd_item "B93312" "Compute - Optimized - X9 - Memory"
    "Gigabyte Per Hour" "Compute - Virtual Machine" [payg 15 4];
  usd_item "B93320" "Oracle APEX Application Development - Free"
    "OCPU Per Hour" "APEX Application Development" [payg 0 0];
  usd_item "B93380" "Exadata Cloud Infrastructure - Quarter Rack - X9M"
    "Hosted Environment Per Hour" "Exadata Cloud Infrastructure X9M" [payg 145162 4];
  usd_item "B93381" "Exadata Cloud Infrastructure - Database Server - X9M"
    "Hosted Environment Per Hour" "Exadata Cloud Infrastructure X9M" [payg 29032 4];
  usd_item "B93382" "Exadata Cloud Infrastructure - Storage Server - X9M"
    "Hosted Environment Per Hour" "Exadata Cloud Infrastructure X9M" [payg 29032 4];
  usd_item "B93421" "Oracle Cloud VMware Solution - HCX Enterprise - Monthly"
    "OCPU Per Hour" "Compute - VMware" [payg 126 4]].

Definition defaultPrice_37 : list Item := [
  usd_item "B93423" "OCI - AI Services - Language - Pre-trained Inferencing"
    "1,000 Transactions" "OCI Language" [payg 0 0; payg 25 2];
  usd_item "B93426" "Database Management - Cloud Databases"
    "OCPU Per Hour" "Oracle Database" [payg 5 2];
  usd_item "B93455" "Outbound Data Transfer - Originating in APAC, Japan, and South America"
    "Gigabyte Outbound Data Transfer Per Month" "Networking - Virtual Cloud Networks" [payg 0 0; payg 25 3];
  usd_item "B93456" "Outbound Data Transfer - Originating in Middle East and Africa"
    "Gigabyte Outbound Data Transfer Per Month" "Networking - Virtual Cloud Networks" [payg 0 0; payg 5 2];
  usd_item "B93493" "Identity and Access Management - External User"
    "User Per Month" "OCI IAM" [payg 16 3];
  usd_item "B93494" "Identity and Access Management - Oracle Apps Premium"
    "User Per Month" "OCI IAM" [payg 25 2];
  usd_item "B93495" "Identity and Access Management - Premium"
    "User Per Month" "OCI IAM" [payg 32 1]].

Definition defaultPrice_38 : list Item := [
  usd_item "B93496" "Identity and Access Management - SMS"
    "1 SMS Message Sent" "OCI IAM" [payg 0 0; payg 3 2];
  usd_item "B93497" "Identity and Access Management - Token"
    "Token" "OCI IAM" [payg 4 3; payg 0 0];
  usd_item "B93498" "Identity and Access Management - Replication"
    "User Per Month" "OCI IAM" [payg 4 3];
  usd_item "B93555" "Oracle Big Data Service"
    "OCPU Per Hour" "Big Data Service" [payg 15 3];
  usd_item "B93705" "OCI Ops Insights for Warehouse - Extract"
    "Gigabyte Per Month" "Observability - Ops Insights" [payg 2 0];
  usd_item "B93706" "OCI Ops Insights for Warehouse - Instance"
    "OCPU Per Hour" "Observability - Ops Insights" [payg 5377 4];
  usd_item "B93709" "OCI Search with OpenSearch HA"
    "Node Per Hour" "Search Service with OpenSearch" [payg 25 2]].

Definition defaultPrice_39 : list Item := [
  usd_item "B93710" "Oracle NoSQL Database Cloud - Write - Auto"
    "Write Unit Per Month" "Database - NoSQL" [payg 3135 3];
  usd_item "B93711" "Oracle NoSQL Database Cloud - Read - Auto"
    "Read Unit Per Month" "Database - NoSQL" [payg 16 2];
  usd_item "B93712" "Oracle NoSQL Database Cloud - Hosted Environment"
    "Hosted Environment Per Month" "Database - NoSQL" [payg 28796 0];
  usd_item "B94173" "Oracle Threat Intelligence Service"
    "API Calls" "Security - Threat Intelligence" [payg 0 0];
  usd_item "B94176" "Compute - Standard - X9 - OCPU"
    "OCPU Per Hour" "Compute - Virtual Machine" [payg 4 2];
  usd_item "B94177" "Compute - Standard - X9 - Memory"
    "Gigabyte Per Hour" "Compute - Virtual Machine" [payg 15 4];
  usd_item "B94277" "Web Application Firewall - Requests"
    "1,000,000 Incoming Requests Per Month" "WAF" [payg 0 0; payg 6 1]].

Definition defaultPrice_40 : list Item := [
  usd_item "B94282" "Data Labeling"
    "Annotated Data Record" "OCI Data Labeling" [payg 0 0; payg 2 4];
  usd_item "B94568" "Oracle Analytics Server for OCI"
    "OCPU Per Hour" "Analytics" [payg 175 2];
  usd_item "B94579" "Web Application Firewall - Instance"
    "Instance Per Month" "WAF" [payg 0 0; payg 5 0];
  usd_item "B94896" "Speech"
    "Transcription Hour" "OCI Speech" [payg 0 0; payg 35 2];
  usd_item "B94973" "Vision - Image Analysis"
    "1,000 Transactions" "OCI Vision" [payg 0 0; payg 25 2];
  usd_item "B94974" "Vision - OCR"
    "1,000 Transactions" "OCI Vision" [payg 0 0; payg 1 0]].

Definition defaultPrice_41 : list Item := [
  usd_item "B94977" "Vision - Custom Training"
    "Training Hour" "OCI Vision" [payg 15 1; payg 0 0];
  usd_item "B95178" "Oracle Cloud VMware Solution - BM.DenseIO.E4.64 - Hourly Commit"
    "OCPU Per Hour" "Compute - VMware" [payg 2437 4];
  usd_item "B95179" "Oracle Cloud VMware Solution - BM.DenseIO.E4.64 - Monthly Commit"
    "OCPU Per Hour" "Compute - VMware" [payg 2031 4];
  usd_item "B95180" "Oracle Cloud VMware Solution - BM.DenseIO.E4.64 - 1 year Commit"
    "OCPU Per Hour" "Compute - VMware" [payg 1625 4];
  usd_item "B95181" "Oracle Cloud VMware Solution - BM.DenseIO.E4.64 - 3 year Commit"
    "OCPU Per Hour" "Compute - VMware" [payg 132 3];
  usd_item "B95228" "Roving Edge Ultra"
    "Resource Possession Per Day" "Roving Edge Infrastructure" [payg 45 0];
  usd_item "B95229" "Roving Edge Ultra Non-Return or Loss Fee"
    "Each" "Roving Edge Infrastructure" [payg 35000 0];
  usd_item "B95240" "Oracle Database Autonomous Recovery Service"
    "Virtualized GB Per Month" "Oracle Database Autonomous Recovery Service" [payg 306 4]].

Definition defaultPrice_42 : list Item := [
  usd_item "B95241" "Oracle Database Zero Data Loss Autonomous Recovery Service"
    "Virtualized GB Per Month" "Oracle Database Autonomous Recovery Service" [payg 4 2];
  usd_item "B95264" "OCI - Application Performance Monitoring Service - Stack Monitoring - Standard Edition"
    "10 Monitored Resources Per Hour" "Observability - APM" [payg 75 3];
  usd_item "B95279" "Media Services - Media Flow - Standard - H264 - SD - Below 30fps"
    "Minute of Output Media Content" "Media Services - Media Flow" [payg 1 3];
  usd_item "B95280" "Media Services - Media Flow - Standard - H264 - SD - Above 30fps and Below 60fps"
    "Minute of Output Media Content" "Media Services - Media Flow" [payg 2 3];
  usd_item "B95281" "Media Services - Media Flow - Standard - H264 - SD - Above 60fps and Below 120fps"
    "Minute of Output Media Content" "Media Services - Media Flow" [payg 3 3];
  usd_item "B95282" "Media Services - Media Flow - Standard - H264 - HD - Below 30fps"
    "Minute of Output Media Content" "Media Services - Media Flow" [payg 3 3];
  usd_item "B95283" "Media Services - Media Flow - Standard - H264 - HD - Above 30fps and Below 60fps"
    "Minute of Output Media Content" "Media Services - Media Flow" [payg 4 3];
  usd_item "B95284" "Media Services - Media Flow - Standard - H264 - HD - Above 60fps and Below 120fps"
    "Minute of Output Media Content" "Media Services - Media Flow" [payg 1 2]].

Definition defaultPrice_43 : list Item := [
  usd_item "B95285" "Media Services - Media Flow - Standard - H264 - 4k - Below 30fps"
    "Minute of Output Media Content" "Media Services - Media Flow" [payg 15 3];
  usd_item "B95286" "Media Services - Media Flow - Standard - H264 - 4k - Above 30fps and Below 60fps"
    "Minute of Output Media Content" "Media Services - Media Flow" [payg 18 3];
  usd_item "B95287" "Media Services - Media Flow - Standard - H264 - 4k - Above 60fps and Below 120fps"
    "Minute of Output Media Content" "Media Services - Media Flow" [payg 36 3];
  usd_item "B95288" "Media Services - Media Flow - Standard - VP8 - SD - Below 30fps"
    "Minute of Output Media Content" "Media Services - Media Flow" [payg 3 3];
  usd_item "B95289" "Media Services - Media Flow - Standard - VP8 - SD - Above 30fps and Below 60fps"
    "Minute of Output Media Content" "Media Services - Media Flow" [payg 4 3];
  usd_item "B95290" "Media Services - Media Flow - Standard - VP8 - SD - Above 60fps and Below 120fps"
    "Minute of Output Media Content" "Media Services - Media Flow" [payg 7 3];
  usd_item "B95291" "Media Services - Media Flow - Standard - VP8 - HD - Below 30fps"
    "Minute of Output Media Content" "Media Services - Media Flow" [payg 8 3];
  usd_item "B95292" "Media Services - Media Flow - Standard - VP8 - HD - Above 30fps and Below 60fps"
    "Minute of Output Media Content" "Media Services - Media Flow" [payg 1 2]].

Definition defaultPrice_44 : list Item := [
  usd_item "B95293" "Media Services - Media Flow - Standard - VP8 - HD - Above 60fps and Below 120fps"
    "Minute of Output Media Content" "Media Services - Media Flow" [payg 15 3];
  usd_item "B95294" "Media Services - Media Flow - Standard - VP8 - 4k - Below 30fps"
    "Minute of Output Media Content" "Media Services - Media Flow" [payg 36 3];
  usd_item "B95295" "Media Services - Media Flow - Standard - VP8 - 4k - Above 30fps and Below 60fps"
    "Minute of Output Media Content" "Media Services - Media Flow" [payg 4 2];
  usd_item "B95296" "Media Services - Media Flow - Standard - VP8 - 4k - Above 60fps and Below 120fps"
    "Minute of Output Media Content" "Media Services - Media Flow" [payg 5 2];
  usd_item "B95297" "Media Services - Media Flow - Standard - H265VP9 - SD - Below 30fps"
    "Minute of Output Media Content" "Media Services - Media Flow" [payg 5 3];
  usd_item "B95298" "Media Services - Media Flow - Standard - H265VP9 - SD - Above 30fps and Below 60fps"
    "Minute of Output Media Content" "Media Services - Media Flow" [payg 7 3];
  usd_item "B95299" "Media Services - Media Flow - Standard - H265VP9 - SD - Above 60fps and Below 120fps"
    "Minute of Output Media Content" "Media Services - Media Flow" [payg 12 3];
  usd_item "B95300" "Media Services - Media Flow - Standard - H265VP9 - HD - Below 30fps"
    "Minute of Output Media Content" "Media Services - Media Flow" [payg 1 2]].

Definition defaultPrice_45 : list Item := [
  usd_item "B95301" "Media Services - Media Flow - Standard - H265VP9 - HD - Above 30fps and Below 60fps"
    "Minute of Output Media Content" "Media Services - Media Flow" [payg 2 2];
  usd_item "B95302" "Media Services - Media Flow - Standard - H265VP9 - HD - Above 60fps and Below 120fps"
    "Minute of Output Media Content" "Media Services - Media Flow" [payg 3 2];
  usd_item "B95303" "Media Services - Media Flow - Standard - H265VP9 - 4k - Below 30fps"
    "Minute of Output Media Content" "Media Services - Media Flow" [payg 26 3];
  usd_item "B95304" "Media Services - Media Flow - Standard - H265VP9 - 4k - Above 30fps and Below 60fps"
    "Minute of Output Media Content" "Media Services - Media Flow" [payg 5 2];
  usd_item "B95305" "Media Services - Media Flow - Standard - H265VP9 - 4k - Above 60fps and Below 120fps"
    "Minute of Output Media Content" "Media Services - Media Flow" [payg 63 3];
  usd_item "B95306" "Media Services - Media Flow - Speed - H264 - SD - Below 30fps"
    "Minute of Output Media Content" "Media Services - Media Flow" [payg 2 3];
  usd_item "B95307" "Media Services - Media Flow - Speed - H264 - SD - Above 30fps and Below 60fps"
    "Minute of Output Media Content" "Media Services - Media Flow" [payg 3 3];
  usd_item "B95308" "Media Services - Media Flow - Speed - H264 - SD - Above 60fps and Below 120fps"
    "Minute of Output Media Content" "Media Services - Media Flow" [payg 4 3]].

Definition defaultPrice_46 : list Item := [
  usd_item "B95309" "Media Services - Media Flow - Speed - H264 - HD - Below 30fps"
    "Minute of Output Media Content" "Media Services - Media Flow" [payg 4 3];
  usd_item "B95310" "Media Services - Media Flow - Speed - H264 - HD - Above 30fps and Below 60fps"
    "Minute of Output Media Content" "Media Services - Media Flow" [payg 5 3];
  usd_item "B95311" "Media Services - Media Flow - Speed - H264 - HD - Above 60fps and Below 120fps"
    "Minute of Output Media Content" "Media Services - Media Flow" [payg 12 3];
  usd_item "B95312" "Media Services - Media Flow - Speed - H264 - 4k - Below 30fps"
    "Minute of Output Media Content" "Media Services - Media Flow" [payg 18 3];
  usd_item "B95313" "Media Services - Media Flow - Speed - H264 - 4k - Above 30fps and Below 60fps"
    "Minute of Output Media Content" "Media Services - Media Flow" [payg 2 2];
  usd_item "B95314" "Media Services - Media Flow - Speed - H264 - 4k - Above 60fps and Below 120fps"
    "Minute of Output Media Content" "Media Services - Media Flow" [payg 4 2];
  usd_item "B95315" "Media Services - Media Flow - Speed - VP8 - SD - Below 30fps"
    "Minute of Output Media Content" "Media Services - Media Flow" [payg 5 3];
  usd_item "B95316" "Media Services - Media Flow - Speed - VP8 - SD - Above 30fps and Below 60fps"
    "Minute of Output Media Content" "Media Services - Media Flow" [payg 6 3]].

Definition defaultPrice_47 : list Item := [
  usd_item "B95317" "Media Services - Media Flow - Speed - VP8 - SD - Above 60fps and Below 120fps"
    "Minute of Output Media Content" "Media Services - Media Flow" [payg 8 3];
  usd_item "B95318" "Media Services - Media Flow - Speed - VP8 - HD - Below 30fps"
    "Minute of Output Media Content" "Media Services - Media Flow" [payg 12 3];
  usd_item "B95319" "Media Services - Media Flow - Speed - VP8 - HD - Above 30fps and Below 60fps"
    "Minute of Output Media Content" "Media Services - Media Flow" [payg 15 3];
  usd_item "B95320" "Media Services - Media Flow - Speed - VP8 - HD - Above 60fps and Below 120fps"
    "Minute of Output Media Content" "Media Services - Media Flow" [payg 18 3];
  usd_item "B95321" "Media Services - Media Flow - Speed - VP8 - 4k - Below 30fps"
    "Minute of Output Media Content" "Media Services - Media Flow" [payg 48 3];
  usd_item "B95322" "Media Services - Media Flow - Speed - VP8 - 4k - Above 30fps and Below 60fps"
    "Minute of Output Media Content" "Media Services - Media Flow" [payg 5 2];
  usd_item "B95323" "Media Services - Media Flow - Speed - VP8 - 4k - Above 60fps and Below 120fps"
    "Minute of Output Media Content" "Media Services - Media Flow" [payg 6 2];
  usd_item "B95324" "Media Services - Media Flow - Speed - H265VP9 - SD - Below 30fps"
    "Minute of Output Media Content" "Media Services - Media Flow" [payg 6 3]].

Definition defaultPrice_48 : list Item := [
  usd_item "B95325" "Media Services - Media Flow - Speed - H265VP9 - SD - Above 30fps and Below 60fps"
    "Minute of Output Media Content" "Media Services - Media Flow" [payg 8 3];
  usd_item "B95326" "Media Services - Media Flow - Speed - H265VP9 - SD - Above 60fps and Below 120fps"
    "Minute of Output Media Content" "Media Services - Media Flow" [payg 15 3];
  usd_item "B95327" "Media Services - Media Flow - Speed - H265VP9 - HD - Below 30fps"
    "Minute of Output Media Content" "Media Services - Media Flow" [payg 12 3];
  usd_item "B95328" "Media Services - Media Flow - Speed - H265VP9 - HD - Above 30fps and Below 60fps"
    "Minute of Output Media Content" "Media Services - Media Flow" [payg 25 3];
  usd_item "B95329" "Media Services - Media Flow - Speed - H265VP9 - HD - Above 60fps and Below 120fps"
    "Minute of Output Media Content" "Media Services - Media Flow" [payg 36 3];
  usd_item "B95330" "Media Services - Media Flow - Speed - H265VP9 - 4k - Below 30fps"
    "Minute of Output Media Content" "Media Services - Media Flow" [payg 5 2];
  usd_item "B95331" "Media Services - Media Flow - Speed - H265VP9 - 4k - Above 30fps and Below 60fps"
    "Minute of Output Media Content" "Media Services - Media Flow" [payg 6 2];
  usd_item "B95332" "Media Services - Media Flow - Speed - H265VP9 - 4k - Above 60fps and Below 120fps"
    "Minute of Output Media Content" "Media Services - Media Flow" [payg 75 3]].

Definition defaultPrice_49 : list Item := [
  usd_item "B95333" "Media Services - Media Flow - Quality - H264 - SD - Below 30fps"
    "Minute of Output Media Content" "Media Services - Media Flow" [payg 3 3];
  usd_item "B95334" "Media Services - Media Flow - Quality - H264 - SD - Above 30fps and Below 60fps"
    "Minute of Output Media Content" "Media Services - Media Flow" [payg 4 3];
  usd_item "B95335" "Media Services - Media Flow - Quality - H264 - SD - Above 60fps and Below 120fps"
    "Minute of Output Media Content" "Media Services - Media Flow" [payg 5 3];
  usd_item "B95336" "Media Services - Media Flow - Quality - H264 - HD - Below 30fps"
    "Minute of Output Media Content" "Media Services - Media Flow" [payg 5 3];
  usd_item "B95337" "Media Services - Media Flow - Quality - H264 - HD - Above 30fps and Below 60fps"
    "Minute of Output Media Content" "Media Services - Media Flow" [payg 6 3];
  usd_item "B95338" "Media Services - Media Flow - Quality - H264 - HD - Above 60fps and Below 120fps"
    "Minute of Output Media Content" "Media Services - Media Flow" [payg 15 3];
  usd_item "B95339" "Media Services - Media Flow - Quality - H264 - 4k - Below 30fps"
    "Minute of Output Media Content" "Media Services - Media Flow" [payg 24 3];
  usd_item "B95340" "Media Services - Media Flow - Quality - H264 - 4k - Above 30fps and Below 60fps"
    "Minute of Output Media Content" "Media Services - Media Flow" [payg 3 2]].

Definition defaultPrice_50 : list Item := [
  usd_item "B95341" "Media Services - Media Flow - Quality - H264 - 4k - Above 60fps and Below 120fps"
    "Minute of Output Media Content" "Media Services - Media Flow" [payg 5 2];
  usd_item "B95342" "Media Services - Media Flow - Quality - VP8 - SD - Below 30fps"
    "Minute of Output Media Content" "Media Services - Media Flow" [payg 6 3];
  usd_item "B95343" "Media Services - Media Flow - Quality - VP8 - SD - Above 30fps and Below 60fps"
    "Minute of Output Media Content" "Media Services - Media Flow" [payg 8 3];
  usd_item "B95344" "Media Services - Media Flow - Quality - VP8 - SD - Above 60fps and Below 120fps"
    "Minute of Output Media Content" "Media Services - Media Flow" [payg 1 2];
  usd_item "B95345" "Media Services - Media Flow - Quality - VP8 - HD - Below 30fps"
    "Minute of Output Media Content" "Media Services - Media Flow" [payg 15 3];
  usd_item "B95346" "Media Services - Media Flow - Quality - VP8 - HD - Above 30fps and Below 60fps"
    "Minute of Output Media Content" "Media Services - Media Flow" [payg 18 3];
  usd_item "B95347" "Media Services - Media Flow - Quality - VP8 - HD - Above 60fps and Below 120fps"
    "Minute of Output Media Content" "Media Services - Media Flow" [payg 2 2];
  usd_item "B95348" "Media Services - Media Flow - Quality - VP8 - 4k - Below 30fps"
    "Minute of Output Media Content" "Media Services - Media Flow" [payg 54 3]].

Definition defaultPrice_51 : list Item := [
  usd_item "B95349" "Media Services - Media Flow - Quality - VP8 - 4k - Above 30fps and Below 60fps"
    "Minute of Output Media Content" "Media Services - Media Flow" [payg 6 2];
  usd_item "B95350" "Media Services - Media Flow - Quality - VP8 - 4k - Above 60fps and Below 120fps"
    "Minute of Output Media Content" "Media Services - Media Flow" [payg 7 2];
  usd_item "B95351" "Media Services - Media Flow - Quality - H265VP9 - SD - Below 30fps"
    "Minute of Output Media Content" "Media Services - Media Flow" [payg 3 2];
  usd_item "B95352" "Media Services - Media Flow - Quality - H265VP9 - SD - Above 30fps and Below 60fps"
    "Minute of Output Media Content" "Media Services - Media Flow" [payg 45 3];
  usd_item "B95353" "Media Services - Media Flow - Quality - H265VP9 - SD - Above 60fps and Below 120fps"
    "Minute of Output Media Content" "Media Services - Media Flow" [payg 6 2];
  usd_item "B95354" "Media Services - Media Flow - Quality - H265VP9 - HD - Below 30fps"
    "Minute of Output Media Content" "Media Services - Media Flow" [payg 6 2];
  usd_item "B95355" "Media Services - Media Flow - Quality - H265VP9 - HD - Above 30fps and Below 60fps"
    "Minute of Output Media Content" "Media Services - Media Flow" [payg 9 2];
  usd_item "B95356" "Media Services - Media Flow - Quality - H265VP9 - HD - Above 60fps and Below 120fps"
    "Minute of Output Media Content" "Media Services - Media Flow" [payg 12 2]].

Definition defaultPrice_52 : list Item := [
  usd_item "B95357" "Media Services - Media Flow - Quality - H265VP9 - 4k - Below 30fps"
    "Minute of Output Media Content" "Media Services - Media Flow" [payg 12 2];
  usd_item "B95358" "Media Services - Media Flow - Quality - H265VP9 - 4k - Above 30fps and Below 60fps"
    "Minute of Output Media Content" "Media Services - Media Flow" [payg 18 2];
  usd_item "B95359" "Media Services - Media Flow - Quality - H265VP9 - 4k - Above 60fps and Below 120fps"
    "Minute of Output Media Content" "Media Services - Media Flow" [payg 24 2];
  usd_item "B95375" "Media Services - Media Streams"
    "GB of packaged content" "Media Services - Media Streams" [payg 5 2];
  usd_item "B95403" "Network Firewall Instance"
    "Instance Per Hour" "Network Firewall" [payg 275 2];
  usd_item "B95404" "Network Firewall Data Processing"
    "Gigabyte (GB) of Data Processed" "Network Firewall" [payg 0 0; payg 1 2];
  usd_item "B95410" "Oracle ZFS Storage - High Availability"
    "Instance Per Hour" "ZFS Storage" [payg 185 2];
  usd_item "B95411" "Oracle Cloud VMware Solution - BM.DenseIO.E4.32 - Hourly Commit"
    "OCPU Per Hour" "Compute - VMware" [payg 3047 4]].

Definition defaultPrice_53 : list Item := [
  usd_item "B95412" "Oracle Cloud VMware Solution - BM.DenseIO.E4.32 - Monthly Commit"
    "OCPU Per Hour" "Compute - VMware" [payg 2539 4];
  usd_item "B95413" "Oracle Cloud VMware Solution - BM.DenseIO.E4.32 - 1 year Commit"
    "OCPU Per Hour" "Compute - VMware" [payg 2031 4];
  usd_item "B95414" "Oracle Cloud VMware Solution - BM.DenseIO.E4.32 - 3 year Commit"
    "OCPU Per Hour" "Compute - VMware" [payg 165 3];
  usd_item "B95415" "Oracle Cloud VMware Solution - BM.DenseIO.E4.128 - Hourly Commit"
    "OCPU Per Hour" "Compute - VMware" [payg 195 3];
  usd_item "B95416" "Oracle Cloud VMware Solution - BM.DenseIO.E4.128 - Monthly Commit"
    "OCPU Per Hour" "Compute - VMware" [payg 1625 4];
  usd_item "B95417" "Oracle Cloud VMware Solution - BM.DenseIO.E4.128 - 1 year Commit"
    "OCPU Per Hour" "Compute - VMware" [payg 13 2];
  usd_item "B95418" "Oracle Cloud VMware Solution - BM.DenseIO.E4.128 - 3 year Commit"
    "OCPU Per Hour" "Compute - VMware" [payg 1056 4];
  usd_item "B95427" "MySQL Database - AWS - Storage"
    "Gigabyte Storage Capacity Per Month" "Database - MySQL HeatWave on AWS" [payg 132 3]].

Definition defaultPrice_54 : list Item := [
  usd_item "B95428" "MySQL Database - AWS - Backup Storage"
    "Gigabyte Storage Capacity Per Month" "Database - MySQL HeatWave on AWS" [payg 476 4];
  usd_item "B95485" "OCI Full Stack Disaster Recovery Service"
    "OCPU Per Hour" "Full Stack Disaster Recovery" [payg 128 4];
  usd_item "B95518" "Secure Desktop"
    "Desktop Per Month" "Secure Desktops" [payg 20 0];
  usd_item "B95634" "Logging Analytics - Active Storage"
    "Logging Analytics Storage Unit Per Month" "Observability - Logging Analytics" [payg 372 0; payg 2604 1; payg 2232 1];
  usd_item "B95697" "OCI Queue"
    "1,000,000 Requests" "OCI Queue" [payg 0 0; payg 22 2];
  usd_item "B95701" "Oracle Autonomous Data Warehouse - ECPU"
    "ECPU Per Hour" "Database - Autonomous Database" [payg 336 3];
  usd_item "B95702" "Oracle Autonomous Transaction Processing - ECPU"
    "ECPU Per Hour" "Database - Autonomous Database" [payg 336 3]].

Definition defaultPrice_55 : list Item := [
  usd_item "B95703" "Oracle Autonomous Data Warehouse - ECPU - BYOL"
    "ECPU Per Hour" "Database - Autonomous Database" [payg 807 4];
  usd_item "B95704" "Oracle Autonomous Transaction Processing - ECPU - BYOL"
    "ECPU Per Hour" "Database - Autonomous Database" [payg 807 4];
  usd_item "B95706" "Oracle Autonomous Database Storage for Transaction Processing"
    "Gigabyte Storage Capacity Per Month" "Database - Autonomous Database" [payg 1156 4];
  usd_item "B95708" "Oracle Autonomous Data Warehouse - Exadata Cloud@Customer - ECPU"
    "ECPU Per Hour" "Database - Exadata Database - Cloud@Customer" [payg 336 3];
  usd_item "B95709" "Oracle Autonomous Transaction Processing - Exadata Cloud@Customer - ECPU - ECPU Per Hour"
    "ECPU Per Hour" "Database - Exadata Database - Cloud@Customer" [payg 336 3];
  usd_item "B95710" "Oracle Autonomous Data Warehouse - Exadata Cloud@Customer - ECPU - BYOL - ECPU Per Hour"
    "ECPU Per Hour" "Database - Exadata Database - Cloud@Customer" [payg 807 4];
  usd_item "B95711" "Oracle Autonomous Transaction Processing - Exadata Cloud@Customer - ECPU - BYOL - ECPU Per Hour"
    "ECPU Per Hour" "Database - Exadata Database - Cloud@Customer" [payg 807 4];
  usd_item "B95712" "Oracle Autonomous Data Warehouse - Dedicated - ECPU"
    "ECPU Per Hour" "Database - Autonomous Database" [payg 336 3]].

Definition defaultPrice_56 : list Item := [
  usd_item "B95713" "Oracle Autonomous Transaction Processing - Dedicated - ECPU"
    "ECPU Per Hour" "Database - Autonomous Database" [payg 336 3];
  usd_item "B95714" "Oracle Autonomous Data Warehouse - Dedicated - ECPU - BYOL"
    "ECPU Per Hour" "Database - Autonomous Database" [payg 807 4];
  usd_item "B95715" "Oracle Autonomous Transaction Processing - Dedicated - ECPU - BYOL"
    "ECPU Per Hour" "Database - Autonomous Database" [payg 807 4];
  usd_item "B95754" "Oracle Autonomous Database Storage"
    "Gigabyte Storage Capacity Per Month" "Database - Autonomous Database" [payg 244 4];
  usd_item "B95907" "Compute - GPU - A100 - v2"
    "GPU Per Hour" "Compute - GPU" [payg 4 0];
  usd_item "B95909" "Compute  - GPU - A10"
    "GPU Per Hour" "Compute - GPU" [payg 2 0];
  usd_item "B95917" "OCI - Language - Custom Inferencing"
    "1,000 Transactions" "OCI Language" [payg 35 1];
  usd_item "B95918" "OCI - Language - Custom Inferencing - Dedicated"
    "Inferencing Unit Hour" "OCI Language" [payg 0 0; payg 15 1]].

Definition defaultPrice_57 : list Item := [
  usd_item "B95919" "OCI - Language - Custom Training"
    "Training Hour" "OCI Language" [payg 0 0; payg 15 1];
  usd_item "B95920" "OCI - Language - Text Translation"
    "1,000 Transactions" "OCI Language" [payg 0 0; payg 10 0];
  usd_item "B96109" "OCI Kubernetes Engine - Virtual Node"
    "Virtual Node Per Hour" "Cloud Infrastructure Kubernetes Engine (OKE)" [payg 15 3];
  usd_item "B96110" "OCI - Document Understanding - OCR"
    "1,000 Transactions" "OCI Document Understanding" [payg 0 0; payg 1 0];
  usd_item "B96111" "OCI - Document Understanding - Document Properties"
    "1,000 Transactions" "OCI Document Understanding" [payg 0 0; payg 25 2];
  usd_item "B96112" "OCI - Document Understanding - Document Extraction"
    "1,000 Transactions" "OCI Document Understanding" [payg 0 0; payg 10 0]].

Definition defaultPrice_58 : list Item := [
  usd_item "B96113" "OCI - Document Understanding - Custom Training"
    "Training Hour" "OCI Document Understanding" [payg 0 0; payg 15 1];
  usd_item "B96157" "MySQL HeatWave - AWS"
    "HeatWave Capacity Per Hour" "HeatWave Cluster" [payg 49 3];
  usd_item "B96158" "MySQL Database - AWS - ECPU"
    "ECPU Per Hour" "Database - MySQL HeatWave on AWS" [payg 49 3];
  usd_item "B96159" "MySQL Database - AWS - Outbound Data Transfer - Inter AWS Region"
    "Gigabyte of Data Transferred" "Database - MySQL HeatWave on AWS" [payg 504 4];
  usd_item "B96160" "MySQL Database - AWS - Outbound Data Transfer - To Internet"
    "Gigabyte of Data Transferred" "Database - MySQL HeatWave on AWS" [payg 911 4];
  usd_item "B96199" "OCI Ops Insights for Oracle Autonomous Databases - Basic"
    "ECPU Per Hour" "Observability - Ops Insights" [payg 0 0];
  usd_item "B96200" "OCI Database Management for Oracle Cloud Databases"
    "ECPU Per Hour" "Oracle Database" [payg 25 3];
  usd_item "B96479" "Oracle Compute Cloud@Customer - Compute - Standard - E5"
    "OCPU Per Hour" "Compute Cloud@Customer" [payg 3 2]].

Definition defaultPrice_59 : list Item := [
  usd_item "B96480" "Oracle Compute Cloud@Customer - Compute - Standard - E5 - Memory"
    "Gibibyte Memory Per Hour" "Compute Cloud@Customer" [payg 2 3];
  usd_item "B96481" "Oracle Compute Cloud@Customer - Block Volume Storage - Balanced"
    "Gigabyte Storage Capacity Per Month" "Compute Cloud@Customer" [payg 425 4];
  usd_item "B96482" "Oracle Compute Cloud@Customer - Block Volume Storage - Performance"
    "Gigabyte Storage Capacity Per Month" "Compute Cloud@Customer" [payg 595 4];
  usd_item "B96483" "Oracle Compute Cloud@Customer - File Storage"
    "Gigabyte Storage Capacity Per Month" "Compute Cloud@Customer" [payg 3 1];
  usd_item "B96484" "Oracle Compute Cloud@Customer - Object Storage - Storage"
    "Gigabyte Storage Capacity Per Month" "Compute Cloud@Customer" [payg 255 4];
  usd_item "B96485" "Oracle Compute Cloud@Customer - Load Balancer"
    "Load Balancer Hour" "Compute Cloud@Customer" [payg 113 4];
  usd_item "B96531" "OCI - Compute - HPC - E5"
    "OCPU Per Hour" "Compute - Bare Metal" [payg 44 3];
  usd_item "B96545" "OCI Kubernetes Engine - Enhanced Cluster"
    "Cluster Per Hour" "Cloud Infrastructure Kubernetes Engine (OKE)" [payg 1 1]].

Definition defaultPrice_60 : list Item := [
  usd_item "B96582" "Oracle Tuxedo for OCI"
    "OCPU Per Hour" "Application Development - Tuxedo" [payg 5433 4];
  usd_item "B96583" "Oracle Tuxedo Enterprise Edition for OCI"
    "OCPU Per Hour" "Application Development - Tuxedo" [payg 8149 4];
  usd_item "B96584" "Oracle Tuxedo Mainframe Modernization Runtimes for OCI"
    "OCPU Per Hour" "Application Development - Tuxedo" [payg 10866 4];
  usd_item "B96625" "OCI - HeatWave - Storage"
    "Gigabyte Storage Capacity Per Month" "HeatWave Cluster" [payg 2 2];
  usd_item "B96626" "OCI - HeatWave"
    "HeatWave Capacity Per Hour" "HeatWave Cluster" [payg 11 3];
  usd_item "B96629" "OCI - Application Performance Monitoring Service - Synthetic Usage - Free"
    "10 Monitor Runs Per Hour" "Observability - APM" [payg 0 0];
  usd_item "B97102" "Oracle Cloud VMware Solution - Base - BM.Standard2.12 - Hourly Commit"
    "Node Per Hour" "Compute - VMware" [payg 4714 3];
  usd_item "B97103" "Oracle Cloud VMware Solution - Base - BM.Standard2.12 - 1 Year Commit"
    "Node Per Hour" "Compute - VMware" [payg 37144 4]].

Definition defaultPrice_61 : list Item := [
  usd_item "B97104" "Oracle Cloud VMware Solution - Base - BM.Standard2.12 - 3 Year Commit"
    "Node Per Hour" "Compute - VMware" [payg 2953 3];
  usd_item "B97105" "Oracle Cloud VMware Solution - Base - BM.Standard3.16 - Hourly Commit"
    "Node Per Hour" "Compute - VMware" [payg 5554 3];
  usd_item "B97106" "Oracle Cloud VMware Solution - Base - BM.Standard3.16 - 1 Year Commit"
    "Node Per Hour" "Compute - VMware" [payg 42943 4];
  usd_item "B97107" "Oracle Cloud VMware Solution - Base - BM.Standard3.16 - 3 Year Commit"
    "Node Per Hour" "Compute - VMware" [payg 33522 4];
  usd_item "B97108" "Oracle Cloud VMware Solution - Base - BM.Standard.E4.32 - Hourly Commit"
    "Node Per Hour" "Compute - VMware" [payg 92565 4];
  usd_item "B97109" "Oracle Cloud VMware Solution - Base - BM.Standard.E4.32 - 1 Year Commit"
    "Node Per Hour" "Compute - VMware" [payg 69223 4];
  usd_item "B97110" "Oracle Cloud VMware Solution - Base - BM.Standard.E4.32 - 3 Year Commit"
    "Node Per Hour" "Compute - VMware" [payg 52233 4];
  usd_item "B97111" "Oracle Cloud VMware Solution - Expansion - Hourly Commit"
    "OCPU Per Hour" "Compute - VMware" [payg 1605 4]].

Definition defaultPrice_62 : list Item := [
  usd_item "B97112" "Oracle Cloud VMware Solution - Expansion - 1 Year Commit"
    "OCPU Per Hour" "Compute - VMware" [payg 1092 4];
  usd_item "B97113" "Oracle Cloud VMware Solution - Expansion - 3 Year Commit"
    "OCPU Per Hour" "Compute - VMware" [payg 739 4];
  usd_item "B97140" "OCI Ops Insights for Oracle Cloud Databases"
    "ECPU Per Hour" "Observability - Ops Insights" [payg 75 4];
  usd_item "B97172" "Oracle Access Governance for OCI - Workforce User"
    "Workforce User Per Month" "Access Governance" [payg 1 1; payg 5 3];
  usd_item "B97173" "Oracle Access Governance for Oracle Workloads - Workforce User"
    "Workforce User Per Month" "Access Governance" [payg 2 0; payg 75 2; payg 1 1];
  usd_item "B97179" "Oracle Access Governance Premium - Consumer User"
    "Consumer User Per Month" "Access Governance" [payg 16 3];
  usd_item "B97180" "Oracle Access Governance for Oracle Workloads - Consumer User"
    "Consumer User Per Month" "Access Governance" [payg 16 3]].

Definition defaultPrice_63 : list Item := [
  usd_item "B97181" "Oracle Access Governance Premium - Workforce User"
    "Workforce User Per Month" "Access Governance" [payg 3 0; payg 113 2; payg 15 2];
  usd_item "B97191" "Oracle NoSQL Database Cloud - Regional Replicated Write"
    "Write Unit Per Month" "Database - NoSQL" [payg 36 2];
  usd_item "B97193" "OCI - Document Understanding - Custom Document Properties"
    "1,000 Transactions" "OCI Document Understanding" [payg 0 0; payg 15 1];
  usd_item "B97194" "OCI - Document Understanding - Custom Document Extraction"
    "1,000 Transactions" "OCI Document Understanding" [payg 0 0; payg 30 0];
  usd_item "B97197" "Oracle Base Database Service on Arm - Enterprise"
    "OCPU Per Hour" "Database - Base Database Service - Virtual Machine" [payg 2151 4];
  usd_item "B97198" "Oracle Base Database Service on Arm - High Performance"
    "OCPU Per Hour" "Database - Base Database Service - Virtual Machine" [payg 4436 4];
  usd_item "B97199" "Oracle Base Database Service on Arm - Extreme Performance"
    "OCPU Per Hour" "Database - Base Database Service - Virtual Machine" [payg 6721 4]].

Definition defaultPrice_64 : list Item := [
  usd_item "B97200" "Oracle Base Database Service on Arm - BYOL"
    "OCPU Per Hour" "Database - Base Database Service - Virtual Machine" [payg 968 4];
  usd_item "B97384" "Compute - Standard - E5 - OCPU"
    "OCPU Per Hour" "Compute - Virtual Machine" [payg 3 2];
  usd_item "B97385" "Compute - Standard - E5 - Memory"
    "Gigabyte Per Hour" "Compute - Virtual Machine" [payg 2 3];
  usd_item "B98100" "OCI - External Key Management"
    "Key Version Per Month" "Security - Key Management" [payg 3 0];
  usd_item "B98202" "Oracle Cloud Infrastructure - Compute - Dense I/O - E5 OCPU"
    "OCPU Per Hour" "Compute - Virtual Machine" [payg 3 2];
  usd_item "B98203" "Oracle Cloud Infrastructure - Compute - Dense I/O - E5 Memory"
    "Gigabyte Per Hour" "Compute - Virtual Machine" [payg 2 3];
  usd_item "B98204" "Oracle Cloud Infrastructure - Compute - Dense I/O - E5 NVMe"
    "NVMe Terabyte Per Hour" "Compute - Virtual Machine" [payg 612 4];
  usd_item "B98217" "Oracle Cloud Infrastructure Cache with Redis - Low Memory (up to 10 GB per node)"
    "Redis Memory Gigabyte per Hour" "Cache with Redis" [payg 194 4]].

Definition defaultPrice_65 : list Item := [
  usd_item "B98277" "Oracle Autonomous Transaction Processing - Exadata Cloud@Customer - Developer"
    "Instance Per Hour" "Database - Exadata Database - Cloud@Customer" [payg 0 0];
  usd_item "B98278" "Oracle Autonomous Data Warehouse - Exadata Cloud@Customer - Developer"
    "Instance Per Hour" "Database - Exadata Database - Cloud@Customer" [payg 0 0];
  usd_item "B98279" "Oracle Autonomous Transaction Processing - Dedicated - Developer"
    "Instance Per Hour" "Database - Autonomous Database" [payg 0 0];
  usd_item "B98280" "Oracle Autonomous Data Warehouse - Dedicated - Developer"
    "Instance Per Hour" "Database - Autonomous Database" [payg 0 0];
  usd_item "B98415" "Oracle Cloud Infrastructure - Compute - GPU - H100"
    "GPU Per Hour" "Compute - GPU" [payg 10 0];
  usd_item "B99060" "Database with PostgreSQL - X86"
    "OCPU Per Hour" "Database with PostgreSQL" [payg 98 3];
  usd_item "B99062" "Database Optimized Storage"
    "Gigabyte Storage Capacity Per Month" "Database with PostgreSQL" [payg 72 3];
  usd_item "B99259" "OCI - Application Performance Monitoring Service - Stack Monitoring - Enterprise Edition"
    "10 Monitored Resources Per Hour" "Observability - APM" [payg 38 2]].

Definition defaultPrice_66 : list Item := [
  usd_item "B99591" "Oracle Cloud Infrastructure Cache with Redis - High Memory (over 10 GB per node)"
    "Redis Memory Gigabyte per Hour" "Cache with Redis" [payg 136 4];
  usd_item "B99593" "Oracle Globally Distributed Autonomous Transaction Processing - Dedicated"
    "ECPU Per Hour" "Database - Autonomous Database" [payg 3864 4];
  usd_item "B99594" "Oracle Globally Distributed Autonomous Transaction Processing - Dedicated - BYOL"
    "ECPU Per Hour" "Database - Autonomous Database" [payg 928 4];
  usd_item "B99595" "Oracle Globally Distributed Autonomous Data Warehouse - Dedicated"
    "ECPU Per Hour" "Database - Autonomous Database" [payg 3864 4];
  usd_item "B99596" "Oracle Globally Distributed Autonomous Data Warehouse - Dedicated - BYOL"
    "ECPU Per Hour" "Database - Autonomous Database" [payg 928 4];
  usd_item "B99597" "OCI - Dedicated Key Management (Minimum 3 HSM Partitions)"
    "HSM Partition Per Hour" "Security - Key Management" [payg 175 2];
  usd_item "B99708" "Oracle Autonomous JSON Database - ECPU"
    "ECPU Per Hour" "Database - Autonomous JSON Database" [payg 807 4];
  usd_item "B99709" "Oracle APEX Application Development - ECPU"
    "ECPU Per Hour" "APEX Application Development" [payg 807 4]].

(** The whole list. *)
Definition defaultPrice : list Item :=
  defaultPrice_00 ++
  defaultPrice_01 ++
  defaultPrice_02 ++
  defaultPrice_03 ++
  defaultPrice_04 ++
  defaultPrice_05 ++
  defaultPrice_06 ++
  defaultPrice_07 ++
  defaultPrice_08 ++
  defaultPrice_09 ++
  defaultPrice_10 ++
  defaultPrice_11 ++
  defaultPrice_12 ++
  defaultPrice_13 ++
  defaultPrice_14 ++
  defaultPrice_15 ++
  defaultPrice_16 ++
  defaultPrice_17 ++
  defaultPrice_18 ++
  defaultPrice_19 ++
  defaultPrice_20 ++
  defaultPrice_21 ++
  defaultPrice_22 ++
  defaultPrice_23 ++
  defaultPrice_24 ++
  defaultPrice_25 ++
  defaultPrice_26 ++
  defaultPrice_27 ++
  defaultPrice_28 ++
  defaultPrice_29 ++
  defaultPrice_30 ++
  defaultPrice_31 ++
  defaultPrice_32 ++
  defaultPrice_33 ++
  defaultPrice_34 ++
  defaultPrice_35 ++
  defaultPrice_36 ++
  defaultPrice_37 ++
  defaultPrice_38 ++
  defaultPrice_39 ++
  defaultPrice_40 ++
  defaultPrice_41 ++
  defaultPrice_42 ++
  defaultPrice_43 ++
  defaultPrice_44 ++
  defaultPrice_45 ++
  defaultPrice_46 ++
  defaultPrice_47 ++
  defaultPrice_48 ++
  defaultPrice_49 ++
  defaultPrice_50 ++
  defaultPrice_51 ++
  defaultPrice_52 ++
  defaultPrice_53 ++
  defaultPrice_54 ++
  defaultPrice_55 ++
  defaultPrice_56 ++
  defaultPrice_57 ++
  defaultPrice_58 ++
  defaultPrice_59 ++
  defaultPrice_60 ++
  defaultPrice_61 ++
  defaultPrice_62 ++
  defaultPrice_63 ++
  defaultPrice_64 ++
  defaultPrice_65 ++
  defaultPrice_66.
