(* ===== verification/PriceList.v ===== *)
(** * The calculator on the embedded price list

    [Pricing]'s functions evaluated on [DefaultPrice.defaultPrice]: the tables
    of [price_test.go] and [calculator_test.go], the well-formedness of the
    list, and the shapes it prices badly. *)

From stdpp Require Import base list strings gmap.
From Stdlib Require Import ZArith QArith Lia SpecFloat.
From S2P Require Import Prelude GoStrings GoFloat Utils OciModel Pricing DefaultPrice.

Local Open Scope string_scope.

Definition default_catalog : PriceCatalog := {| Items := defaultPrice |}.

(** The shapes of [TestPriceListSyncer_Start], and whether items are found. *)
Definition price_test_shapes : list (string * bool) :=
  map (λ s, (s, true)) [
    "VM.Standard2.24"; "VM.Standard.E2.8"; "VM.Standard.E2.1.Micro"; "BM.DenseIO.E5.128";
    "BM.Standard3.64"; "BM.HPC2.36"; "BM.Standard.B1.44"; "VM.Standard2.8";
    "BM.Standard.E5.192"; "VM.Standard2.4"; "VM.Standard.B1.1"; "VM.GPU3.4";
    "VM.Standard1.4"; "VM.Standard1.16"; "VM.GPU.A10.1"; "BM.Standard2.52";
    "BM.DenseIO2.52"; "VM.Standard.E2.2"; "VM.DenseIO2.24"; "VM.Standard1.2";
    "BM.GPU.A10.4"; "VM.GPU3.2"; "BM.Standard.A1.,160"; "BM.Standard.A4.,48";
    "VM.Standard.B1.4"; "VM.Standard.B1.8"; "VM.GPU.A10.2"; "VM.GPU3.1";
    "BM.Standard.E6.256"; "BM.Optimized3.36"; "BM.DenseIO.E4.128"; "BM.Standard.E3.128";
    "VM.Standard2.16"; "BM.Standard.E2.64"; "BM.Standard1.36"; "VM.Standard2.1";
    "VM.Standard2.2"; "VM.Standard.E2.1"; "VM.Standard1.8"; "VM.GPU2.1";
    "VM.Standard.B1.16"; "BM.GPU3.8"; "BM.GPU2.2"; "BM.Standard.E4.128";
    "VM.Standard.E2.4"; "VM.DenseIO2.8"; "VM.Standard1.1"; "VM.Standard.B1.2"]
  ++ [("BM.GPU.B4.8", false)].

(** A shape of [TestPrice]: name, OCPUs, memory, GPUs, local disks. *)
Definition test_shape (name : string) (ocpus mem : Z) (gpus : option Z) (disk : option f32) : WrapShape := {|
  wShape := {|
    Shape_Shape := Some name; IsFlexible := None; Ocpus := None; MemoryInGBs := None;
    NetworkingBandwidthInGbps := None; MaxVnicAttachments := None; Gpus := gpus;
    GpuDescription := None; LocalDisksTotalSizeInGBs := disk; OcpuOptions := None;
    MemoryOptions := None; MaxVnicAttachmentOptions := None;
    NetworkingBandwidthOptions := None |};
  CalcCpu := ocpus * 2; CalMemInGBs := mem; AvailableDomains := [];
  CalMaxVnic := 0; CalMaxBandwidthInGbps := 0
|}.

(** The rows of [TestPrice] with the price in units of 10^-6. *)
Definition price_tests : list (WrapShape * Z) := [
  (test_shape "BM.GPU.A10.4" 0 0 (Some 4%Z) None, 8000000);
  (test_shape "VM.Standard.B1.16" 16 0 None None, 1020800);
  (test_shape "VM.Standard.B1.1" 1 0 None None, 63800);
  (test_shape "BM.DenseIO.E5.128" 128 1536 None (Some (f32_of_decimal 835584 1)), 11905920);
  (test_shape "VM.Standard.E2.1" 1 1 None None, 30000);
  (test_shape "VM.Standard.E4.Flex" 1 8 None None, 37000);
  (test_shape "VM.Standard.E6.Flex" 1 12 None None, 54000);
  (test_shape "VM.Standard.A1.Flex" 1 6 None None, 0);
  (test_shape "VM.Standard.A2.Flex" 1 6 None None, 26000);
  (test_shape "VM.Standard.A4.Flex" 1 6 None None, 30000);
  (test_shape "VM.Standard3.Flex" 1 8 None None, 347125);
  (test_shape "VM.DenseIO2.16" 16 240 None None, 3899200)]%Z.

Section DefaultCatalog.
Context (regexp_other : string → string → option bool).

(** The shapes for which the unit tests expect a price are found. *)
Theorem price_test_found :
  forallb (λ '(shape, found),
    Bool.eqb found (negb (length (FindPriceItems regexp_other default_catalog shape) =? 0)%nat))
    price_test_shapes = true.
Proof. vm_compute. reflexivity. Qed.

(** Calculate on the embedded price list gives the prices the unit tests of the repository
    expect, within 1e-6 of the 32-bit float result. *)
Theorem price_test_prices :
  forallb (λ '(shape, price),
    match Calculate regexp_other shape (Some default_catalog) with
    | Ok x => within (1 # 1000000) x (price # 1000000)
    | _ => false
    end) price_tests = true.
Proof. vm_compute. reflexivity. Qed.

(** A GPU shape with two matching items is charged per OCPU, once per item:
    one VM.GPU3.1 costs 6 * 1.275 twice, where the list asks 1.275 per GPU. *)
Lemma gpu3_priced_per_ocpu :
  match Calculate regexp_other (test_shape "VM.GPU3.1" 6 90 (Some 1%Z) None) (Some default_catalog) with
  | Ok x => within (1 # 100000) x (153 # 10)
  | _ => false
  end = true ∧
  map MetricName (FindPriceItems regexp_other default_catalog "VM.GPU3.1") = [GpuPerHour; GpuPerHour].
Proof. vm_compute. split; reflexivity. Qed.

(** VM.Optimized3.Flex has prices in the list ("Compute - Optimized - X9"),
    and the search does not find them. *)
Lemma optimized3_flex_not_priced shape :
  Shape_Shape (wShape shape) = Some "VM.Optimized3.Flex" →
  Calculate regexp_other shape (Some default_catalog) = Ok MaxFloat32.
Proof.
  intros Hs. unfold Calculate. rewrite Hs. cbn [deref mbind res_bind].
  assert (FindPriceItems regexp_other default_catalog "VM.Optimized3.Flex" = []) as ->
    by (vm_compute; reflexivity).
  done.
Qed.
End DefaultCatalog.

(** The embedded price list has 514 items with distinct part numbers, and every item has a
    price entry that Calculate can read without panic. *)
Theorem default_catalog_wf :
  NoDup (map PartNumber (Items default_catalog)) ∧
  length (Items default_catalog) = 514%nat ∧
  (∀ it, In it (Items default_catalog) → sane_item it = true).
Proof.
  split_and!.
  - refine (bool_decide_unpack _ _). vm_compute. exact I.
  - reflexivity.
  - apply List.forallb_forall. vm_compute. reflexivity.
Qed.

Definition a10_shape : WrapShape := test_shape "BM.GPU.A10.4" 64 1024 (Some 4%Z) (Some (f32_of_Z 7680)).

Lemma a10_sane : sane_shape a10_shape.
Proof.
  unfold sane_shape, a10_shape, test_shape, max_int64; cbn [CalcCpu CalMemInGBs wShape Gpus LocalDisksTotalSizeInGBs].
  split; [lia|]. split; [lia|]. split.
  - intros g [= <-]. lia.
  - intros d [= <-]. split; vm_compute; reflexivity.
Defined.

Lemma Calculate_nonneg_witness :
  (∃ price, Calculate (λ _ _, None) a10_shape (Some default_catalog) = Ok price ∧ nonneg price = true) ∨
  (Calculate (λ _ _, None) a10_shape (Some default_catalog) = Panic "nil pointer dereference" ∧
    (Gpus (wShape a10_shape) = None ∨ LocalDisksTotalSizeInGBs (wShape a10_shape) = None)).
Proof.
  apply (Calculate_nonneg (λ _ _, None) a10_shape "BM.GPU.A10.4" default_catalog).
  - reflexivity.
  - exact a10_sane.
  - apply List.forallb_forall. vm_compute. reflexivity.
Defined.

Lemma FindPriceItems_spec_witness :
  ∃ p, ParseShape "VM.Standard.E4.Flex" = Ok p ∧
  FindPriceItems (λ _ _, None) default_catalog "VM.Standard.E4.Flex" =
    List.filter (primary_match (λ _ _, None) p) (Items default_catalog).
Proof.
  eexists. split; [reflexivity|].
  refine (proj1 (FindPriceItems_spec (λ _ _, None) default_catalog "VM.Standard.E4.Flex" _ eq_refl) _).
  exists (usd_item "B93113" "Compute - Standard - E4 - OCPU" "OCPU Per Hour"
            "Compute - Virtual Machine" [payg 25 3]).
  split; [|reflexivity].
  assert (∃ n, Items default_catalog !! n =
    Some (usd_item "B93113" "Compute - Standard - E4 - OCPU" "OCPU Per Hour"
            "Compute - Virtual Machine" [payg 25 3])) as (n & Hn).
  { destruct (list_find (λ it, PartNumber it = "B93113") (Items default_catalog)) as [[n it]|] eqn:Hf.
    - exists n. vm_compute in Hf. injection Hf as <- <-. reflexivity.
    - exfalso. vm_compute in Hf. discriminate. }
  apply list_elem_of_In. by apply list_elem_of_lookup_2 with n.
Defined.
