(* ===== verification/Cache.v ===== *)
(** * The TTL cache the providers share

    [github.com/patrickmn/go-cache] is not part of the repository: [TTLCache]
    is its interface and [TTLCacheLaws] the documented behaviour the program
    relies on.  Times are [time.Duration]s and instants, in nanoseconds.
    [ttl_map] is a cache that satisfies the laws, for examples. *)

From stdpp Require Import base list strings gmap.
From Stdlib Require Import ZArith Lia.
From S2P Require Import Prelude.

Local Open Scope Z_scope.

Definition time_Second : Z := 1000000000.
Definition time_Minute : Z := 60 * time_Second.
Definition time_Hour : Z := 60 * time_Minute.

(** ** [pkg/cache/cache.go] *)

Definition DefaultTTL : Z := time_Minute.
Definition InstanceTypesAndZonesTTL : Z := 5 * time_Minute.
Definition UnavailableOfferingsTTL : Z := 3 * time_Minute.
Definition DefaultCleanupInterval : Z := time_Minute.
Definition UnavailableOfferingsCleanupInterval : Z := time_Second * 10.

(** ** The interface *)

(** [cache_new ttl]; [Get] and [SetDefault] at an instant; [Delete] with the
    number of [OnEvicted] calls it makes; [Flush]; and the janitor's pass
    [DeleteExpired], with its [OnEvicted] calls. *)
Class TTLCache (V C : Type) : Type := {
  cache_new : Z → C;
  cache_ttl : C → Z;
  cache_Get : Z → string → C → option V;
  cache_SetDefault : Z → string → V → C → C;
  cache_Delete : string → C → C * nat;
  cache_Flush : C → C;
  cache_DeleteExpired : Z → C → C * nat
}.

Class TTLCacheLaws (V C : Type) {cache : TTLCache V C} : Prop := {
  ttl_new ttl : cache_ttl (cache_new ttl) = ttl;
  ttl_Set now k v c : cache_ttl (cache_SetDefault now k v c) = cache_ttl c;
  ttl_Delete k c : cache_ttl (cache_Delete k c).1 = cache_ttl c;
  ttl_Flush c : cache_ttl (cache_Flush c) = cache_ttl c;
  ttl_DeleteExpired now c : cache_ttl (cache_DeleteExpired now c).1 = cache_ttl c;
  Get_new ttl t k : cache_Get t k (cache_new ttl) = None;
  (** an entry is served up to its expiration and not after *)
  Get_Set_eq now t k v c :
    cache_Get t k (cache_SetDefault now k v c) =
      if t <=? now + cache_ttl c then Some v else None;
  Get_Set_ne now t k k' v c :
    k ≠ k' → cache_Get t k' (cache_SetDefault now k v c) = cache_Get t k' c;
  Get_Delete_eq t k c : cache_Get t k (cache_Delete k c).1 = None;
  Get_Delete_ne t k k' c : k ≠ k' → cache_Get t k' (cache_Delete k c).1 = cache_Get t k' c;
  Get_Flush t k c : cache_Get t k (cache_Flush c) = None;
  (** the janitor only removes what can no longer be served *)
  Get_DeleteExpired now t k c :
    now <= t → cache_Get t k (cache_DeleteExpired now c).1 = cache_Get t k c;
  (** deleting what is served is an eviction *)
  Delete_evicts t k c : is_Some (cache_Get t k c) → (cache_Delete k c).2 = 1%nat
}.

(** ** A cache that satisfies the laws *)

Record ttl_map (V : Type) := { tm_ttl : Z; tm_entries : gmap string (V * Z) }.
Arguments tm_ttl {V} _.
Arguments tm_entries {V} _.

Section TtlMap.
Context {V : Type}.

Definition tm_live (now : Z) (e : V * Z) : bool := now <=? e.2.
Definition tm_set (es : gmap string (V * Z)) (c : ttl_map V) : ttl_map V :=
  {| tm_ttl := tm_ttl c; tm_entries := es |}.

#[export] Instance ttl_map_cache : TTLCache V (ttl_map V) := {
  cache_new ttl := {| tm_ttl := ttl; tm_entries := ∅ |};
  cache_ttl := tm_ttl;
  cache_Get now k c :=
    e ← tm_entries c !! k; if tm_live now e then Some e.1 else None;
  cache_SetDefault now k v c := tm_set (<[k := (v, now + tm_ttl c)]> (tm_entries c)) c;
  cache_Delete k c :=
    (tm_set (delete k (tm_entries c)) c,
     match tm_entries c !! k with Some _ => 1%nat | None => 0%nat end);
  cache_Flush c := tm_set ∅ c;
  cache_DeleteExpired now c :=
    (tm_set (filter (λ ke, tm_live now ke.2 = true) (tm_entries c)) c,
     size (filter (λ ke, tm_live now ke.2 = false) (tm_entries c)))
}.

#[export] Instance ttl_map_laws : TTLCacheLaws V (ttl_map V).
Proof.
  split; intros; simpl; try done.
  - by rewrite lookup_insert_eq.
  - by rewrite lookup_insert_ne.
  - by rewrite lookup_delete_eq.
  - by rewrite lookup_delete_ne.
  - rewrite map_lookup_filter.
    destruct (tm_entries c !! k) as [[v e]|]; simpl; [|done].
    unfold tm_live; simpl. case_guard as Hg; simpl; [done|].
    destruct (Z.leb_spec t e), (Z.leb_spec now e); first [done|lia].
  - match goal with Hs : is_Some _ |- _ => destruct Hs as [v Hv] end. simpl in Hv.
    by destruct (tm_entries c !! k).
Qed.
End TtlMap.
