(* ===== verification/UnavailableOfferings.v ===== *)
(** * [pkg/cache/unavailableofferings.go]: offerings that ran out of capacity *)

From stdpp Require Import base list strings gmap.
From Stdlib Require Import ZArith Lia Ascii.
From S2P Require Import Prelude GoStrings Cache.

Local Open Scope string_scope.

(** ** The component *)

(** [key]: the capacity type, the instance type and the zone. *)
Definition key (instanceType zone capacityType : string) : string :=
  capacityType +:+ ":" +:+ instanceType +:+ ":" +:+ zone.

Section Component.
Context {C : Type} `{TTLCache unit C}.

Record UnavailableOfferings := { cache : C; SeqNum : Z }.

(** [atomic.AddUint64(&SeqNum, n)] *)
Definition bump (n : nat) (s : Z) : Z := ((s + Z.of_nat n) mod 2 ^ 64)%Z.

Definition NewUnavailableOfferings : UnavailableOfferings :=
  {| cache := cache_new UnavailableOfferingsTTL; SeqNum := 0 |}.

Definition IsUnavailable (now : Z) (instanceType zone capacityType : string)
    (u : UnavailableOfferings) : bool :=
  match cache_Get now (key instanceType zone capacityType) (cache u) with
  | Some _ => true
  | None => false
  end.

Definition MarkUnavailable (now : Z) (instanceType zone capacityType : string)
    (u : UnavailableOfferings) : UnavailableOfferings :=
  {| cache := cache_SetDefault now (key instanceType zone capacityType) tt (cache u);
     SeqNum := bump 1 (SeqNum u) |}.

Definition MarkUnavailableForLaunchInstanceErr (now : Z)
    (capacityType instanceType zone : string) (u : UnavailableOfferings) : UnavailableOfferings :=
  MarkUnavailable now instanceType zone capacityType u.

Definition Delete (instanceType zone capacityType : string)
    (u : UnavailableOfferings) : UnavailableOfferings :=
  let '(c, evicted) := cache_Delete (key instanceType zone capacityType) (cache u) in
  {| cache := c; SeqNum := bump evicted (SeqNum u) |}.

Definition Flush (u : UnavailableOfferings) : UnavailableOfferings :=
  {| cache := cache_Flush (cache u); SeqNum := SeqNum u |}.

(** The cache's janitor, with the [OnEvicted] callback the constructor
    installs. *)
Definition cleanup (now : Z) (u : UnavailableOfferings) : UnavailableOfferings :=
  let '(c, evicted) := cache_DeleteExpired now (cache u) in
  {| cache := c; SeqNum := bump evicted (SeqNum u) |}.
End Component.
Arguments UnavailableOfferings : clear implicits.

(** ** What the component promises: a table of expiry times *)

Module Spec.
(** instance type, zone, capacity type *)
Definition offering : Type := string * string * string.
Notation table := (gmap offering Z).

Inductive op : Type :=
| OpMark (o : offering)
| OpDelete (o : offering)
| OpFlush
| OpCleanup.

Definition apply (now : Z) (o : op) (t : table) : table :=
  match o with
  | OpMark x => <[x := (now + UnavailableOfferingsTTL)%Z]> t
  | OpDelete x => delete x t
  | OpFlush => ∅
  | OpCleanup => t
  end.

Definition unavailable (now : Z) (x : offering) (t : table) : bool :=
  match t !! x with Some e => (now <=? e)%Z | None => false end.

(** Capacity and instance type names hold no colon, so keys do not clash. *)
Definition valid (x : offering) : bool :=
  negb (Contains x.1.1 ":") && negb (Contains x.2 ":").
End Spec.

Lemma app_char_inj c (a b x y : string) :
  Contains a (String c "") = false → Contains b (String c "") = false →
  a +:+ String c x = b +:+ String c y → a = b ∧ x = y.
Proof.
  revert b; induction a as [|d a IH]; intros [|e b]; rewrite ?Contains_char_cons;
    intros Ha Hb Heq; rewrite ?app_cons_str, ?app_nil_l_str in Heq;
    injection Heq; clear Heq; intros; subst.
  - done.
  - by rewrite Ascii.eqb_refl in Hb.
  - by rewrite Ascii.eqb_refl in Ha.
  - apply orb_false_iff in Ha as [_ Ha], Hb as [_ Hb].
    by destruct (IH b Ha Hb) as [-> ->].
Qed.

Lemma key_inj x y :
  Spec.valid x = true → Spec.valid y = true →
  key x.1.1 x.1.2 x.2 = key y.1.1 y.1.2 y.2 → x = y.
Proof.
  destruct x as [[it z] ct], y as [[it' z'] ct']. unfold Spec.valid, key; simpl.
  rewrite !andb_true_iff, !negb_true_iff. intros [? ?] [? ?] Heq.
  apply (app_char_inj ":"%char) in Heq as [-> Heq]; [|done..].
  by apply (app_char_inj ":"%char) in Heq as [-> ->].
Qed.

Section Refinement.
Context {C : Type} `{TTLCacheLaws unit C}.

Definition apply_op (now : Z) (o : Spec.op) (u : UnavailableOfferings C) : UnavailableOfferings C :=
  match o with
  | Spec.OpMark (it, z, ct) => MarkUnavailable now it z ct u
  | Spec.OpDelete (it, z, ct) => Delete it z ct u
  | Spec.OpFlush => Flush u
  | Spec.OpCleanup => cleanup now u
  end.

(** The cache answers as the table does, from now on. *)
Definition refines (now : Z) (u : UnavailableOfferings C) (t : Spec.table) : Prop :=
  cache_ttl (cache u) = UnavailableOfferingsTTL ∧
  ∀ t' x, (now <= t')%Z → Spec.valid x = true →
    IsUnavailable t' x.1.1 x.1.2 x.2 u = Spec.unavailable t' x t.

Definition op_valid (o : Spec.op) : bool :=
  match o with
  | Spec.OpMark x | Spec.OpDelete x => Spec.valid x
  | _ => true
  end.

Lemma cache_of_Delete it z ct u :
  cache (Delete it z ct u) = (cache_Delete (key it z ct) (cache u)).1.
Proof. unfold Delete. by destruct (cache_Delete _ _). Qed.
Lemma cache_of_cleanup now u :
  cache (cleanup now u) = (cache_DeleteExpired now (cache u)).1.
Proof. unfold cleanup. by destruct (cache_DeleteExpired _ _). Qed.

Lemma refines_step now o u t :
  op_valid o = true → refines now u t →
  refines now (apply_op now o u) (Spec.apply now o t).
Proof.
  intros Hv [Httl Hr]. destruct o as [[[it z] ct]|[[it z] ct]| |].
  - split; [simpl; by rewrite ttl_Set|]. intros t' x Ht Hx. specialize (Hr t' x Ht Hx).
    unfold IsUnavailable, Spec.unavailable in *. simpl.
    destruct (decide ((it, z, ct) = x)) as [<-|Hne].
    + rewrite lookup_insert_eq, Get_Set_eq, Httl. by destruct (_ <=? _)%Z.
    + rewrite lookup_insert_ne by done. rewrite Get_Set_ne; [done|].
      intros Hk. apply Hne, key_inj; done.
  - split; [simpl; by rewrite cache_of_Delete, ttl_Delete|].
    intros t' x Ht Hx. specialize (Hr t' x Ht Hx).
    unfold IsUnavailable, Spec.unavailable in *. simpl. rewrite cache_of_Delete.
    destruct (decide ((it, z, ct) = x)) as [<-|Hne].
    + by rewrite lookup_delete_eq, Get_Delete_eq.
    + rewrite lookup_delete_ne by done. rewrite Get_Delete_ne; [done|].
      intros Hk. apply Hne, key_inj; done.
  - split; [simpl; by rewrite ttl_Flush|]. intros t' x _ _.
    unfold IsUnavailable, Spec.unavailable. simpl. by rewrite Get_Flush, lookup_empty.
  - split; [simpl; by rewrite cache_of_cleanup, ttl_DeleteExpired|]. intros t' x Ht Hx.
    simpl. specialize (Hr t' x Ht Hx). etransitivity; [|exact Hr]. unfold IsUnavailable. simpl.
    by rewrite cache_of_cleanup, Get_DeleteExpired.
Qed.

Lemma refines_later now now' u t :
  (now <= now')%Z → refines now u t → refines now' u t.
Proof. intros Hle [? Hr]. split; [done|]. intros. apply Hr; [lia|done]. Qed.

(** A history of operations at non-decreasing instants. *)
Fixpoint run_ops (now : Z) (ops : list (Z * Spec.op)) (u : UnavailableOfferings C) (t : Spec.table)
  : Z * UnavailableOfferings C * Spec.table :=
  match ops with
  | [] => (now, u, t)
  | (d, o) :: rest => run_ops (now + d) rest (apply_op (now + d) o u) (Spec.apply (now + d) o t)
  end.

Lemma refines_run ops : ∀ now u t,
  Forall (λ '(d, o), (0 <= d)%Z ∧ op_valid o = true) ops → refines now u t →
  let '(now', u', t') := run_ops now ops u t in refines now' u' t'.
Proof.
  induction ops as [|[d o] ops IH]; intros now u t Hf Hr; [done|].
  apply Forall_cons in Hf as [[Hd Ho] Hf]. simpl. apply IH; [done|].
  apply refines_step; [done|]. apply refines_later with now; [lia|done].
Qed.

Lemma refines_new now : refines now NewUnavailableOfferings ∅.
Proof.
  split; [apply ttl_new|]. intros. unfold IsUnavailable, Spec.unavailable. simpl.
  by rewrite Get_new, lookup_empty.
Qed.

(** C12: Over any history of marks, deletions, flushes and janitor passes, IsUnavailable of an
    offering answers as an abstract table of expiry times (mark time plus the 3 minute TTL)
    does, for names whose instance type and capacity type hold no colon. *)
Theorem offerings_refine (now : Z) (ops : list (Z * Spec.op)) :
  Forall (λ '(d, o), (0 <= d)%Z ∧ op_valid o = true) ops →
  let '(now', u, t) := run_ops now ops NewUnavailableOfferings ∅ in
  ∀ later it z ct, (now' <= later)%Z → Spec.valid (it, z, ct) = true →
    IsUnavailable later it z ct u = Spec.unavailable later (it, z, ct) t.
Proof.
  intros Hf. pose proof (refines_run ops now _ _ Hf (refines_new now)) as Hr.
  destruct (run_ops _ _ _ _) as [[now' u] t]. destruct Hr as [_ Hr].
  intros later it z ct Hl Hv. by apply (Hr later (it, z, ct)).
Qed.

(** *** The sequence number *)

Lemma bump_0 s : (0 <= s < 2 ^ 64)%Z → bump 0 s = s.
Proof. intros. unfold bump. rewrite Z.add_0_r. by apply Z.mod_small. Qed.
Lemma bump_1 s : (0 <= s < 2 ^ 64)%Z → bump 1 s ≠ s.
Proof.
  intros Hs. unfold bump. change (Z.of_nat 1) with 1%Z.
  destruct (decide (s + 1 = 2 ^ 64)%Z) as [He|Hne].
  - rewrite He, Z.mod_same by lia. lia.
  - rewrite Z.mod_small by lia. lia.
Qed.

(** Every mark, deletion or janitor pass (all operations except Flush) that changes an
    answer of IsUnavailable at a later instant also changes SeqNum, so a cache keyed by SeqNum
    cannot serve the old answer. *)
Theorem SeqNum_tracks (now t : Z) (o : Spec.op) (u : UnavailableOfferings C) (it z ct : string) :
  o ≠ Spec.OpFlush → (0 <= SeqNum u < 2 ^ 64)%Z → (now <= t)%Z →
  IsUnavailable t it z ct (apply_op now o u) ≠ IsUnavailable t it z ct u →
  SeqNum (apply_op now o u) ≠ SeqNum u.
Proof.
  intros Ho Hs Ht Hne. destruct o as [[[i zo] c]|[[i zo] c]| |]; simpl in *.
  - by apply bump_1.
  - unfold IsUnavailable in Hne. rewrite cache_of_Delete in Hne.
    destruct (decide (key i zo c = key it z ct)) as [Hk|Hk];
      [|by rewrite Get_Delete_ne in Hne].
    rewrite <- Hk, Get_Delete_eq in Hne.
    pose proof (Delete_evicts t (key i zo c) (cache u)) as Hev. unfold Delete.
    destruct (cache_Delete _ _) as [c' n]; simpl in *.
    destruct (cache_Get t (key i zo c) (cache u)); [|done].
    rewrite Hev by eauto. by apply bump_1.
  - done.
  - unfold IsUnavailable in Hne. by rewrite cache_of_cleanup, Get_DeleteExpired in Hne.
Qed.
End Refinement.

Lemma offerings_refine_witness :
  let ops := [(0%Z, Spec.OpMark ("VM.Standard.E4.Flex", "US-ASHBURN-AD-1", "on-demand"));
              (time_Minute, Spec.OpMark ("VM.Standard.E4.Flex", "US-ASHBURN-AD-2", "on-demand"));
              (time_Minute, Spec.OpCleanup)] in
  let '(now', u, t) := run_ops (C := ttl_map unit) 0 ops NewUnavailableOfferings ∅ in
  ∀ later it z ct, (now' <= later)%Z → Spec.valid (it, z, ct) = true →
    IsUnavailable later it z ct u = Spec.unavailable later (it, z, ct) t.
Proof.
  apply (offerings_refine (C := ttl_map unit) 0).
  unfold time_Minute, time_Second. repeat constructor; simpl; try lia.
Defined.

Lemma SeqNum_tracks_witness :
  SeqNum (apply_op (C := ttl_map unit) 7 (Spec.OpMark ("VM.Standard.E4.Flex", "AD-1", "on-demand"))
            NewUnavailableOfferings) ≠ SeqNum (NewUnavailableOfferings (C := ttl_map unit)).
Proof.
  apply (SeqNum_tracks 7 8 _ _ "VM.Standard.E4.Flex" "AD-1" "on-demand");
    vm_compute; first [done | by split | idtac].
Defined.
