(* ===== verification/Api.v ===== *)
(** * [pkg/apis/v1alpha1]: labels and the [OciNodeClass] resource

    Go pointers are options; a Go map is a [gmap], and an [option] of one
    where the code tells nil from empty. *)

From stdpp Require Import base list strings gmap.
From Stdlib Require Import ZArith.
From S2P Require Import Prelude GoStrings.

Local Open Scope string_scope.

(** ** [labels.go] *)

(** [apis.Group] of the karpenter module, and its label keys the program uses. *)
Definition karpenter_Group : string := "karpenter.sh".
Definition NodePoolLabelKey : string := karpenter_Group +:+ "/nodepool".
Definition CapacityTypeLabelKey : string := karpenter_Group +:+ "/capacity-type".
Definition CapacityTypeOnDemand : string := "on-demand".

(** The labels of [k8s.io/api]. *)
Definition LabelInstanceTypeStable : string := "node.kubernetes.io/instance-type".
Definition LabelArchStable : string := "kubernetes.io/arch".
Definition LabelOSStable : string := "kubernetes.io/os".
Definition LabelTopologyZone : string := "topology.kubernetes.io/zone".
Definition LabelTopologyRegion : string := "topology.kubernetes.io/region".

Definition Group : string := "karpenter.k8s.oracle".

Definition RestrictedLabelDomains : list string := [Group].

Definition LabelNodeClass : string := Group +:+ "/ocinodeclass".
Definition LabelNodeClaim : string := karpenter_Group +:+ "/nodeclaim".

Definition LabelInstanceShapeName : string := Group +:+ "/instance-shape-name".
Definition LabelInstanceCPU : string := Group +:+ "/instance-cpu".
Definition LabelInstanceMemory : string := Group +:+ "/instance-memory".
Definition LabelInstanceGPU : string := Group +:+ "/instance-gpu".
Definition LabelInstanceGPUDescription : string := Group +:+ "/instance-gpu-description".
Definition LabelInstanceNetworkBandwidth : string := Group +:+ "/instance-network-bandwidth".
Definition LabelInstanceMaxVNICs : string := Group +:+ "/instance-max-vnics".
Definition LabelIsFlexible : string := Group +:+ "/is-flexible".

Definition AnnotationOciNodeClassHash : string := Group +:+ "/ocinodeclass-hash".
Definition AnnotationOciNodeClassHashVersion : string := Group +:+ "/ocinodeclass-hash-version".
Definition AnnotationInstanceTagged : string := Group +:+ "/tagged".

Definition ManagedByAnnotationKey : string := karpenter_Group +:+ "/managed-by".
Definition ResourceNVIDIAGPU : string := "nvidia.com/gpu".

Definition CapacityTypePreemptible : string := "preemptible".
Definition Ubuntu2204ImageFamily : string := "Ubuntu2204".
Definition OracleOKELinuxImageFamily : string := "OracleOKELinux".
Definition CustomImageFamily : string := "Custom".

(** What [init] adds to karpenter's well-known labels. *)
Definition oci_WellKnownLabels : list string :=
  [LabelInstanceShapeName; LabelInstanceCPU; LabelInstanceGPU; LabelInstanceGPUDescription;
   LabelInstanceMemory; LabelInstanceNetworkBandwidth; LabelInstanceMaxVNICs; LabelIsFlexible].

(** ** [ocinodeclass.go] *)

Definition ConditionTypeSubnetsReady : string := "SubnetsReady".
Definition ConditionTypeSecurityGroupsReady : string := "SecurityGroupsReady".
Definition ConditionTypeImageReady : string := "ImageReady".

(** [corev1.NodeSelectorRequirement] *)
Inductive NodeSelectorOperator : Type :=
| OpIn
| OpNotIn
| OpExists
| OpDoesNotExist
| OpGt
| OpLt.

#[export] Instance NodeSelectorOperator_eq_dec : EqDecision NodeSelectorOperator.
Proof. solve_decision. Defined.

Record NodeSelectorRequirement := {
  NSR_Key : string;
  NSR_Operator : NodeSelectorOperator;
  NSR_Values : list string
}.

#[export] Instance NodeSelectorRequirement_eq_dec : EqDecision NodeSelectorRequirement.
Proof. solve_decision. Defined.

Notation DefinedTagValue := (gmap string string) (only parsing).

Record VolumeAttributes := { SizeInGBs : Z; VpusPerGB : Z }.

Record CidrUtilizationSummary := {
  CUS_Cidr : string;
  CUS_Utilization : string;
  CUS_AddressType : string
}.

Record StatusSubnet := {
  SS_Id : string;
  SS_Name : string;
  CidrUtilization : list CidrUtilizationSummary
}.

Record StatusImage := {
  SI_Id : string;
  SI_Name : string;
  SI_CompartmentId : string;
  SI_Requirements : list NodeSelectorRequirement
}.

Record StatusSecurityGroup := { SSG_Id : string; SSG_Name : string }.

Record ImageSelectorTerm := { IST_Id : string; IST_Name : string; IST_CompartmentId : string }.
Record SubnetSelectorTerm := { SST_Id : string; SST_Name : string }.
Record SecurityGroupSelectorTerm := { SGT_Id : string; SGT_Name : string }.
Record BootConfig := { BootVolumeSizeInGBs : Z; BootVolumeVpusPerGB : Z }.

Record LaunchOptions := {
  BootVolumeType : option string;
  Firmware : option string;
  NetworkType : option string;
  RemoteDataVolumeType : option string;
  IsConsistentVolumeNamingEnabled : option bool
}.

(** [EvictionSoftGracePeriod] holds [metav1.Duration]s, in nanoseconds. *)
Record KubeletConfiguration := {
  ClusterDNS : list string;
  MaxPods : option Z;
  PodsPerCore : option Z;
  SystemReserved : option (gmap string string);
  KubeReserved : gmap string string;
  EvictionHard : option (gmap string string);
  EvictionSoft : gmap string string;
  EvictionSoftGracePeriod : gmap string Z;
  EvictionMaxPodGracePeriod : option Z;
  ImageGCHighThresholdPercent : option Z;
  ImageGCLowThresholdPercent : option Z;
  CPUCFSQuota : option bool
}.

(** [&v1alpha1.KubeletConfiguration{}] *)
Definition zero_kubelet : KubeletConfiguration := {|
  ClusterDNS := []; MaxPods := None; PodsPerCore := None; SystemReserved := None;
  KubeReserved := ∅; EvictionHard := None; EvictionSoft := ∅; EvictionSoftGracePeriod := ∅;
  EvictionMaxPodGracePeriod := None; ImageGCHighThresholdPercent := None;
  ImageGCLowThresholdPercent := None; CPUCFSQuota := None
|}.

Record OciNodeClassSpec := {
  VcnId : string;
  ImageSelector : list ImageSelectorTerm;
  SubnetSelector : list SubnetSelectorTerm;
  SecurityGroupSelector : list SecurityGroupSelectorTerm;
  UserData : option string;
  PreInstallScript : option string;
  MetaData : gmap string string;
  ImageFamily : string;
  Tags : gmap string string;
  DefinedTags : gmap string DefinedTagValue;
  FreeFormTags : gmap string string;
  Kubelet : option KubeletConfiguration;
  NodeClass_BootConfig : option BootConfig;
  NodeClass_LaunchOptions : option LaunchOptions;
  BlockDevices : list VolumeAttributes;
  AgentList : list string
}.

(** [status.Condition]: type, status, reason and message. *)
Inductive ConditionStatus : Type :=
| CondTrue
| CondFalse
| CondUnknown.

#[export] Instance ConditionStatus_eq_dec : EqDecision ConditionStatus.
Proof. solve_decision. Defined.

Record Condition := {
  Cond_Type : string;
  Cond_Status : ConditionStatus;
  Cond_Reason : string;
  Cond_Message : string
}.

Record OciNodeClassStatus := {
  Status_Subnets : list StatusSubnet;
  Status_Images : list StatusImage;
  Status_SecurityGroups : list StatusSecurityGroup;
  Status_Conditions : list Condition
}.

#[export] Instance CidrUtilizationSummary_eq_dec : EqDecision CidrUtilizationSummary.
Proof. solve_decision. Defined.
#[export] Instance StatusSubnet_eq_dec : EqDecision StatusSubnet.
Proof. solve_decision. Defined.
#[export] Instance StatusImage_eq_dec : EqDecision StatusImage.
Proof. solve_decision. Defined.
#[export] Instance StatusSecurityGroup_eq_dec : EqDecision StatusSecurityGroup.
Proof. solve_decision. Defined.
#[export] Instance Condition_eq_dec : EqDecision Condition.
Proof. solve_decision. Defined.
#[export] Instance OciNodeClassStatus_eq_dec : EqDecision OciNodeClassStatus.
Proof. solve_decision. Defined.

(** The object metadata the program reads or writes. *)
Record ObjectMeta := {
  Meta_Name : string;
  Labels : gmap string string;
  Annotations : gmap string string;
  Finalizers : list string;
  DeletionTimestamp : option Z
}.

Record OciNodeClass := {
  NC_Meta : ObjectMeta;
  Spec : OciNodeClassSpec;
  Status : OciNodeClassStatus
}.

Definition OciNodeClassHashVersion : string := "v1".

(** [Hash] prints the 64-bit hash that [hashstructure] (a parameter) computes
    of the spec; [lo.Must] panics on its error. *)
Definition Hash (hashstructure : OciNodeClassSpec → res Z) (nc : OciNodeClass) : res string :=
  match hashstructure (Spec nc) with
  | Ok h => Ok (Itoa h)
  | Err _ => Panic "lo.Must"
  | Panic w => Panic w
  end.

(** The label keys the program builds requirements of. *)
Definition program_labels : list string :=
  oci_WellKnownLabels ++ [CapacityTypeLabelKey; NodePoolLabelKey; LabelInstanceTypeStable; LabelArchStable;
   LabelOSStable; LabelTopologyZone; LabelTopologyRegion].

(** The label keys are pairwise different. *)
Lemma program_labels_NoDup : NoDup program_labels.
Proof. refine (bool_decide_unpack _ _). vm_compute. exact I. Qed.

(** Classes can be compared. *)
#[export] Instance ImageSelectorTerm_eq_dec : EqDecision ImageSelectorTerm.
Proof. solve_decision. Defined.
#[export] Instance SubnetSelectorTerm_eq_dec : EqDecision SubnetSelectorTerm.
Proof. solve_decision. Defined.
#[export] Instance SecurityGroupSelectorTerm_eq_dec : EqDecision SecurityGroupSelectorTerm.
Proof. solve_decision. Defined.
#[export] Instance KubeletConfiguration_eq_dec : EqDecision KubeletConfiguration.
Proof. solve_decision. Defined.
#[export] Instance BootConfig_eq_dec : EqDecision BootConfig.
Proof. solve_decision. Defined.
#[export] Instance LaunchOptions_eq_dec : EqDecision LaunchOptions.
Proof. solve_decision. Defined.
#[export] Instance VolumeAttributes_eq_dec : EqDecision VolumeAttributes.
Proof. solve_decision. Defined.
#[export] Instance OciNodeClassSpec_eq_dec : EqDecision OciNodeClassSpec.
Proof. solve_decision. Defined.
#[export] Instance ObjectMeta_eq_dec : EqDecision ObjectMeta.
Proof. solve_decision. Defined.
#[export] Instance OciNodeClass_eq_dec : EqDecision OciNodeClass.
Proof. solve_decision. Defined.
