(* ===== verification/DeepCopy.v ===== *)
(** * [pkg/apis/v1alpha1/zz_generated.deepcopy.go]: deep copies of node classes

    The controllers keep a copy of an object before they change it, and patch
    the difference ([stored := nodeClass.DeepCopy()]).  Here the structs are
    laid out on a heap with their pointers, slices and maps, and each generated
    function is a copy on it: an equal value that shares nothing with the
    original.  A function that writes [*out] is modelled by the struct it
    writes; an [out] cell is taken when its content is known, which only
    renames addresses. *)

From stdpp Require Import base list strings gmap.
From Stdlib Require Import ZArith Lia.
From S2P Require Import Prelude GoHeap Api.

Local Open Scope string_scope.

(** ** Layout *)

(** The structs that hold references; the others are values of [Api]. *)
Module Mem.
Record Image := { Id : string; Name : string; CompartmentId : string; Requirements : option loc }.
Record Subnet := { Subnet_Id : string; Subnet_Name : string; CidrUtilization : option loc }.

Record KubeletConfiguration := {
  ClusterDNS : option loc;
  MaxPods : option loc;
  PodsPerCore : option loc;
  SystemReserved : option loc;
  KubeReserved : option loc;
  EvictionHard : option loc;
  EvictionSoft : option loc;
  EvictionSoftGracePeriod : option loc;
  EvictionMaxPodGracePeriod : option loc;
  ImageGCHighThresholdPercent : option loc;
  ImageGCLowThresholdPercent : option loc;
  CPUCFSQuota : option loc
}.

Record LaunchOptions := {
  BootVolumeType : option loc;
  Firmware : option loc;
  NetworkType : option loc;
  RemoteDataVolumeType : option loc;
  IsConsistentVolumeNamingEnabled : option loc
}.

Record OciNodeClassSpec := {
  VcnId : string;
  ImageSelector : option loc;
  SubnetSelector : option loc;
  SecurityGroupSelector : option loc;
  UserData : option loc;
  PreInstallScript : option loc;
  MetaData : option loc;
  ImageFamily : string;
  Tags : option loc;
  DefinedTags : option loc;
  FreeFormTags : option loc;
  Kubelet : option loc;
  BootConfig : option loc;
  Launch_Options : option loc;
  BlockDevices : option loc;
  AgentList : option loc
}.

Record OciNodeClassStatus := {
  Subnets : option loc;
  Images : option loc;
  SecurityGroups : option loc;
  Conditions : option loc
}.

(** Over the layout of [metav1.ObjectMeta] and [metav1.TypeMeta]. *)
Record OciNodeClass (Mt : Type) := { TypeMeta : string * string; ObjectMeta : Mt; Spec : OciNodeClassSpec; Status : OciNodeClassStatus }.
#[global] Arguments TypeMeta {Mt} _. #[global] Arguments ObjectMeta {Mt} _.
#[global] Arguments Spec {Mt} _. #[global] Arguments Status {Mt} _.

(** Over the layout of [metav1.ListMeta]. *)
Record OciNodeClassList (Lt : Type) := { List_TypeMeta : string * string; ListMeta : Lt; Items : option loc }.
#[global] Arguments List_TypeMeta {Lt} _. #[global] Arguments ListMeta {Lt} _. #[global] Arguments Items {Lt} _.
End Mem.

(** What a cell holds, over the layouts of the structs of Kubernetes. *)
Inductive cell (Mt Lt Rt Ct : Type) : Type :=
| CString (s : string)
| CInt (z : Z)
| CBool (b : bool)
| CVolume (v : VolumeAttributes)
| CBoot (b : BootConfig)
| CGroup (g : StatusSecurityGroup)
| CImage (i : Mem.Image)
| CSubnet (s : Mem.Subnet)
| CKubelet (k : Mem.KubeletConfiguration)
| CLaunch (o : Mem.LaunchOptions)
| CClass (c : Mem.OciNodeClass Mt)
| CStrings (l : list string)
| CImageTerms (l : list ImageSelectorTerm)
| CSubnetTerms (l : list SubnetSelectorTerm)
| CGroupTerms (l : list SecurityGroupSelectorTerm)
| CSummaries (l : list CidrUtilizationSummary)
| CPointers (l : list (option loc))
| CRequirements (l : list Rt)
| CConditions (l : list Ct)
| CClasses (l : list (Mem.OciNodeClass Mt))
| CSummary (s : CidrUtilizationSummary)
| CImageTerm (t : ImageSelectorTerm)
| CSubnetTerm (t : SubnetSelectorTerm)
| CGroupTerm (t : SecurityGroupSelectorTerm)
| CSpec (s : Mem.OciNodeClassSpec)
| CStatus (s : Mem.OciNodeClassStatus)
| CList (l : Mem.OciNodeClassList Lt)
| CStringMap (m : gmap string string)
| CDurationMap (m : gmap string Z)
| CTagMap (m : gmap string (option loc)).

Arguments CString {Mt Lt Rt Ct} _.
Arguments CInt {Mt Lt Rt Ct} _.
Arguments CBool {Mt Lt Rt Ct} _.
Arguments CVolume {Mt Lt Rt Ct} _.
Arguments CBoot {Mt Lt Rt Ct} _.
Arguments CGroup {Mt Lt Rt Ct} _.
Arguments CImage {Mt Lt Rt Ct} _.
Arguments CSubnet {Mt Lt Rt Ct} _.
Arguments CKubelet {Mt Lt Rt Ct} _.
Arguments CLaunch {Mt Lt Rt Ct} _.
Arguments CClass {Mt Lt Rt Ct} _.
Arguments CStrings {Mt Lt Rt Ct} _.
Arguments CImageTerms {Mt Lt Rt Ct} _.
Arguments CSubnetTerms {Mt Lt Rt Ct} _.
Arguments CGroupTerms {Mt Lt Rt Ct} _.
Arguments CSummaries {Mt Lt Rt Ct} _.
Arguments CPointers {Mt Lt Rt Ct} _.
Arguments CRequirements {Mt Lt Rt Ct} _.
Arguments CConditions {Mt Lt Rt Ct} _.
Arguments CClasses {Mt Lt Rt Ct} _.
Arguments CSummary {Mt Lt Rt Ct} _.
Arguments CImageTerm {Mt Lt Rt Ct} _.
Arguments CSubnetTerm {Mt Lt Rt Ct} _.
Arguments CGroupTerm {Mt Lt Rt Ct} _.
Arguments CSpec {Mt Lt Rt Ct} _.
Arguments CStatus {Mt Lt Rt Ct} _.
Arguments CList {Mt Lt Rt Ct} _.
Arguments CStringMap {Mt Lt Rt Ct} _.
Arguments CDurationMap {Mt Lt Rt Ct} _.
Arguments CTagMap {Mt Lt Rt Ct} _.

Section Cells.
Context {Mt Lt Rt Ct : Type}.
#[export] Instance CString_cell : Cell (cell Mt Lt Rt Ct) (string) :=
  {| to_cell := CString; of_cell c := match c with CString x => Some x | _ => None end; of_to_cell _ := eq_refl |}.
#[export] Instance CInt_cell : Cell (cell Mt Lt Rt Ct) (Z) :=
  {| to_cell := CInt; of_cell c := match c with CInt x => Some x | _ => None end; of_to_cell _ := eq_refl |}.
#[export] Instance CBool_cell : Cell (cell Mt Lt Rt Ct) (bool) :=
  {| to_cell := CBool; of_cell c := match c with CBool x => Some x | _ => None end; of_to_cell _ := eq_refl |}.
#[export] Instance CVolume_cell : Cell (cell Mt Lt Rt Ct) (VolumeAttributes) :=
  {| to_cell := CVolume; of_cell c := match c with CVolume x => Some x | _ => None end; of_to_cell _ := eq_refl |}.
#[export] Instance CBoot_cell : Cell (cell Mt Lt Rt Ct) (BootConfig) :=
  {| to_cell := CBoot; of_cell c := match c with CBoot x => Some x | _ => None end; of_to_cell _ := eq_refl |}.
#[export] Instance CGroup_cell : Cell (cell Mt Lt Rt Ct) (StatusSecurityGroup) :=
  {| to_cell := CGroup; of_cell c := match c with CGroup x => Some x | _ => None end; of_to_cell _ := eq_refl |}.
#[export] Instance CImage_cell : Cell (cell Mt Lt Rt Ct) (Mem.Image) :=
  {| to_cell := CImage; of_cell c := match c with CImage x => Some x | _ => None end; of_to_cell _ := eq_refl |}.
#[export] Instance CSubnet_cell : Cell (cell Mt Lt Rt Ct) (Mem.Subnet) :=
  {| to_cell := CSubnet; of_cell c := match c with CSubnet x => Some x | _ => None end; of_to_cell _ := eq_refl |}.
#[export] Instance CKubelet_cell : Cell (cell Mt Lt Rt Ct) (Mem.KubeletConfiguration) :=
  {| to_cell := CKubelet; of_cell c := match c with CKubelet x => Some x | _ => None end; of_to_cell _ := eq_refl |}.
#[export] Instance CLaunch_cell : Cell (cell Mt Lt Rt Ct) (Mem.LaunchOptions) :=
  {| to_cell := CLaunch; of_cell c := match c with CLaunch x => Some x | _ => None end; of_to_cell _ := eq_refl |}.
#[export] Instance CClass_cell : Cell (cell Mt Lt Rt Ct) (Mem.OciNodeClass Mt) :=
  {| to_cell := CClass; of_cell c := match c with CClass x => Some x | _ => None end; of_to_cell _ := eq_refl |}.
#[export] Instance CStrings_cell : Cell (cell Mt Lt Rt Ct) (list string) :=
  {| to_cell := CStrings; of_cell c := match c with CStrings x => Some x | _ => None end; of_to_cell _ := eq_refl |}.
#[export] Instance CImageTerms_cell : Cell (cell Mt Lt Rt Ct) (list ImageSelectorTerm) :=
  {| to_cell := CImageTerms; of_cell c := match c with CImageTerms x => Some x | _ => None end; of_to_cell _ := eq_refl |}.
#[export] Instance CSubnetTerms_cell : Cell (cell Mt Lt Rt Ct) (list SubnetSelectorTerm) :=
  {| to_cell := CSubnetTerms; of_cell c := match c with CSubnetTerms x => Some x | _ => None end; of_to_cell _ := eq_refl |}.
#[export] Instance CGroupTerms_cell : Cell (cell Mt Lt Rt Ct) (list SecurityGroupSelectorTerm) :=
  {| to_cell := CGroupTerms; of_cell c := match c with CGroupTerms x => Some x | _ => None end; of_to_cell _ := eq_refl |}.
#[export] Instance CSummaries_cell : Cell (cell Mt Lt Rt Ct) (list CidrUtilizationSummary) :=
  {| to_cell := CSummaries; of_cell c := match c with CSummaries x => Some x | _ => None end; of_to_cell _ := eq_refl |}.
#[export] Instance CPointers_cell : Cell (cell Mt Lt Rt Ct) (list (option loc)) :=
  {| to_cell := CPointers; of_cell c := match c with CPointers x => Some x | _ => None end; of_to_cell _ := eq_refl |}.
#[export] Instance CRequirements_cell : Cell (cell Mt Lt Rt Ct) (list Rt) :=
  {| to_cell := CRequirements; of_cell c := match c with CRequirements x => Some x | _ => None end; of_to_cell _ := eq_refl |}.
#[export] Instance CConditions_cell : Cell (cell Mt Lt Rt Ct) (list Ct) :=
  {| to_cell := CConditions; of_cell c := match c with CConditions x => Some x | _ => None end; of_to_cell _ := eq_refl |}.
#[export] Instance CClasses_cell : Cell (cell Mt Lt Rt Ct) (list (Mem.OciNodeClass Mt)) :=
  {| to_cell := CClasses; of_cell c := match c with CClasses x => Some x | _ => None end; of_to_cell _ := eq_refl |}.
#[export] Instance CSummary_cell : Cell (cell Mt Lt Rt Ct) (CidrUtilizationSummary) :=
  {| to_cell := CSummary; of_cell c := match c with CSummary x => Some x | _ => None end; of_to_cell _ := eq_refl |}.
#[export] Instance CImageTerm_cell : Cell (cell Mt Lt Rt Ct) (ImageSelectorTerm) :=
  {| to_cell := CImageTerm; of_cell c := match c with CImageTerm x => Some x | _ => None end; of_to_cell _ := eq_refl |}.
#[export] Instance CSubnetTerm_cell : Cell (cell Mt Lt Rt Ct) (SubnetSelectorTerm) :=
  {| to_cell := CSubnetTerm; of_cell c := match c with CSubnetTerm x => Some x | _ => None end; of_to_cell _ := eq_refl |}.
#[export] Instance CGroupTerm_cell : Cell (cell Mt Lt Rt Ct) (SecurityGroupSelectorTerm) :=
  {| to_cell := CGroupTerm; of_cell c := match c with CGroupTerm x => Some x | _ => None end; of_to_cell _ := eq_refl |}.
#[export] Instance CSpec_cell : Cell (cell Mt Lt Rt Ct) (Mem.OciNodeClassSpec) :=
  {| to_cell := CSpec; of_cell c := match c with CSpec x => Some x | _ => None end; of_to_cell _ := eq_refl |}.
#[export] Instance CStatus_cell : Cell (cell Mt Lt Rt Ct) (Mem.OciNodeClassStatus) :=
  {| to_cell := CStatus; of_cell c := match c with CStatus x => Some x | _ => None end; of_to_cell _ := eq_refl |}.
#[export] Instance CList_cell : Cell (cell Mt Lt Rt Ct) (Mem.OciNodeClassList Lt) :=
  {| to_cell := CList; of_cell c := match c with CList x => Some x | _ => None end; of_to_cell _ := eq_refl |}.
#[export] Instance CStringMap_cell : Cell (cell Mt Lt Rt Ct) (gmap string string) :=
  {| to_cell := CStringMap; of_cell c := match c with CStringMap x => Some x | _ => None end; of_to_cell _ := eq_refl |}.
#[export] Instance CDurationMap_cell : Cell (cell Mt Lt Rt Ct) (gmap string Z) :=
  {| to_cell := CDurationMap; of_cell c := match c with CDurationMap x => Some x | _ => None end; of_to_cell _ := eq_refl |}.
#[export] Instance CTagMap_cell : Cell (cell Mt Lt Rt Ct) (gmap string (option loc)) :=
  {| to_cell := CTagMap; of_cell c := match c with CTagMap x => Some x | _ => None end; of_to_cell _ := eq_refl |}.
End Cells.

(** A struct of Kubernetes, with its own generated copy. *)
Class DeepCopier (C A V : Type) : Type := {
  struct_at : repr C A V;
  DeepCopyInto : A → run (heap C) A;
  struct_at_exact : exact struct_at;
  DeepCopyInto_copies : copies struct_at DeepCopyInto
}.
#[export] Hint Resolve DeepCopyInto_copies : copies.
#[export] Hint Resolve struct_at_exact : exact.

Section Copies.
Context {Mt Lt Rt Ct M_ : Type} {order : MapOrder}.
Notation C := (cell Mt Lt Rt Ct).
Context `{metas : DeepCopier C Mt ObjectMeta} `{lists : DeepCopier C Lt M_}
  `{requirements : DeepCopier C Rt NodeSelectorRequirement} `{conditions : DeepCopier C Ct Condition}.

(** ** The generated functions *)

Definition BootConfig_DeepCopyInto (x : BootConfig) : run (heap C) BootConfig := mret x.
Definition BootConfig_DeepCopy : option loc → run (heap C) (option loc) := copy_ptr BootConfig_DeepCopyInto.

Definition CidrUtilizationSummary_DeepCopyInto (x : CidrUtilizationSummary) : run (heap C) CidrUtilizationSummary := mret x.
Definition CidrUtilizationSummary_DeepCopy : option loc → run (heap C) (option loc) := copy_ptr CidrUtilizationSummary_DeepCopyInto.

Definition ImageSelectorTerm_DeepCopyInto (x : ImageSelectorTerm) : run (heap C) ImageSelectorTerm := mret x.
Definition ImageSelectorTerm_DeepCopy : option loc → run (heap C) (option loc) := copy_ptr ImageSelectorTerm_DeepCopyInto.

Definition VolumeAttributes_DeepCopyInto (x : VolumeAttributes) : run (heap C) VolumeAttributes := mret x.
Definition VolumeAttributes_DeepCopy : option loc → run (heap C) (option loc) := copy_ptr VolumeAttributes_DeepCopyInto.

Definition SecurityGroupSelectorTerm_DeepCopyInto (x : SecurityGroupSelectorTerm) : run (heap C) SecurityGroupSelectorTerm := mret x.
Definition SecurityGroupSelectorTerm_DeepCopy : option loc → run (heap C) (option loc) := copy_ptr SecurityGroupSelectorTerm_DeepCopyInto.

Definition SubnetSelectorTerm_DeepCopyInto (x : SubnetSelectorTerm) : run (heap C) SubnetSelectorTerm := mret x.
Definition SubnetSelectorTerm_DeepCopy : option loc → run (heap C) (option loc) := copy_ptr SubnetSelectorTerm_DeepCopyInto.

Definition SecurityGroup_DeepCopyInto (x : StatusSecurityGroup) : run (heap C) StatusSecurityGroup := mret x.
Definition SecurityGroup_DeepCopy : option loc → run (heap C) (option loc) := copy_ptr SecurityGroup_DeepCopyInto.

(** The receiver is a map: a nil one is copied to an empty one by [DeepCopyInto]. *)
Definition DefinedTagValue_DeepCopyInto (x : option loc) : run (heap C) (option loc) :=
  m ← match x with None => mret ∅ | Some _ => load x end;
  out ← copy_entries mret (m : gmap string string);
  new out.
Definition DefinedTagValue_DeepCopy (x : option loc) : run (heap C) (option loc) :=
  match x with None => mret None | Some _ => DefinedTagValue_DeepCopyInto x end.

Definition Image_DeepCopyInto (x : Mem.Image) : run (heap C) Mem.Image :=
  Requirements ← copy_slice (DeepCopyInto (A := Rt)) (Mem.Requirements x);
  mret {| Mem.Id := Mem.Id x; Mem.Name := Mem.Name x; Mem.CompartmentId := Mem.CompartmentId x;
          Mem.Requirements := Requirements |}.
Definition Image_DeepCopy : option loc → run (heap C) (option loc) := copy_ptr Image_DeepCopyInto.

Notation copy_string := (copy_ptr (A := string) mret).
Notation copy_int := (copy_ptr (A := Z) mret).
Notation copy_bool := (copy_ptr (A := bool) mret).
Notation copy_strings := (copy_slice (A := string) mret).
Notation copy_string_map := (copy_map (A := string) mret).

Definition KubeletConfiguration_DeepCopyInto (x : Mem.KubeletConfiguration) : run (heap C) Mem.KubeletConfiguration :=
  ClusterDNS ← copy_strings (Mem.ClusterDNS x);
  MaxPods ← copy_int (Mem.MaxPods x);
  PodsPerCore ← copy_int (Mem.PodsPerCore x);
  SystemReserved ← copy_string_map (Mem.SystemReserved x);
  KubeReserved ← copy_string_map (Mem.KubeReserved x);
  EvictionHard ← copy_string_map (Mem.EvictionHard x);
  EvictionSoft ← copy_string_map (Mem.EvictionSoft x);
  EvictionSoftGracePeriod ← copy_map (A := Z) mret (Mem.EvictionSoftGracePeriod x);
  EvictionMaxPodGracePeriod ← copy_int (Mem.EvictionMaxPodGracePeriod x);
  ImageGCHighThresholdPercent ← copy_int (Mem.ImageGCHighThresholdPercent x);
  ImageGCLowThresholdPercent ← copy_int (Mem.ImageGCLowThresholdPercent x);
  CPUCFSQuota ← copy_bool (Mem.CPUCFSQuota x);
  mret {|
    Mem.ClusterDNS := ClusterDNS; Mem.MaxPods := MaxPods; Mem.PodsPerCore := PodsPerCore;
    Mem.SystemReserved := SystemReserved; Mem.KubeReserved := KubeReserved; Mem.EvictionHard := EvictionHard;
    Mem.EvictionSoft := EvictionSoft; Mem.EvictionSoftGracePeriod := EvictionSoftGracePeriod;
    Mem.EvictionMaxPodGracePeriod := EvictionMaxPodGracePeriod;
    Mem.ImageGCHighThresholdPercent := ImageGCHighThresholdPercent;
    Mem.ImageGCLowThresholdPercent := ImageGCLowThresholdPercent; Mem.CPUCFSQuota := CPUCFSQuota
  |}.
Definition KubeletConfiguration_DeepCopy : option loc → run (heap C) (option loc) :=
  copy_ptr KubeletConfiguration_DeepCopyInto.

Definition LaunchOptions_DeepCopyInto (x : Mem.LaunchOptions) : run (heap C) Mem.LaunchOptions :=
  BootVolumeType ← copy_string (Mem.BootVolumeType x);
  Firmware ← copy_string (Mem.Firmware x);
  NetworkType ← copy_string (Mem.NetworkType x);
  RemoteDataVolumeType ← copy_string (Mem.RemoteDataVolumeType x);
  IsConsistentVolumeNamingEnabled ← copy_bool (Mem.IsConsistentVolumeNamingEnabled x);
  mret {|
    Mem.BootVolumeType := BootVolumeType; Mem.Firmware := Firmware; Mem.NetworkType := NetworkType;
    Mem.RemoteDataVolumeType := RemoteDataVolumeType;
    Mem.IsConsistentVolumeNamingEnabled := IsConsistentVolumeNamingEnabled
  |}.
Definition LaunchOptions_DeepCopy : option loc → run (heap C) (option loc) := copy_ptr LaunchOptions_DeepCopyInto.

Definition OciNodeClassSpec_DeepCopyInto (x : Mem.OciNodeClassSpec) : run (heap C) Mem.OciNodeClassSpec :=
  ImageSelector ← copy_slice (A := ImageSelectorTerm) mret (Mem.ImageSelector x);
  SubnetSelector ← copy_slice (A := SubnetSelectorTerm) mret (Mem.SubnetSelector x);
  SecurityGroupSelector ← copy_slice (A := SecurityGroupSelectorTerm) mret (Mem.SecurityGroupSelector x);
  UserData ← copy_string (Mem.UserData x);
  PreInstallScript ← copy_string (Mem.PreInstallScript x);
  MetaData ← copy_string_map (Mem.MetaData x);
  Tags ← copy_string_map (Mem.Tags x);
  DefinedTags ← copy_map (copy_string_map) (Mem.DefinedTags x);
  FreeFormTags ← copy_string_map (Mem.FreeFormTags x);
  Kubelet ← copy_ptr KubeletConfiguration_DeepCopyInto (Mem.Kubelet x);
  BootConfig ← copy_ptr (A := BootConfig) mret (Mem.BootConfig x);
  Launch_Options ← copy_ptr LaunchOptions_DeepCopyInto (Mem.Launch_Options x);
  BlockDevices ← copy_slice (copy_ptr (A := VolumeAttributes) mret) (Mem.BlockDevices x);
  AgentList ← copy_strings (Mem.AgentList x);
  mret {|
    Mem.VcnId := Mem.VcnId x; Mem.ImageSelector := ImageSelector; Mem.SubnetSelector := SubnetSelector;
    Mem.SecurityGroupSelector := SecurityGroupSelector; Mem.UserData := UserData;
    Mem.PreInstallScript := PreInstallScript; Mem.MetaData := MetaData; Mem.ImageFamily := Mem.ImageFamily x;
    Mem.Tags := Tags; Mem.DefinedTags := DefinedTags; Mem.FreeFormTags := FreeFormTags; Mem.Kubelet := Kubelet;
    Mem.BootConfig := BootConfig; Mem.Launch_Options := Launch_Options; Mem.BlockDevices := BlockDevices;
    Mem.AgentList := AgentList
  |}.
Definition OciNodeClassSpec_DeepCopy : option loc → run (heap C) (option loc) := copy_ptr OciNodeClassSpec_DeepCopyInto.

Definition Subnet_DeepCopyInto (x : Mem.Subnet) : run (heap C) Mem.Subnet :=
  CidrUtilization ← copy_slice (A := CidrUtilizationSummary) mret (Mem.CidrUtilization x);
  mret {| Mem.Subnet_Id := Mem.Subnet_Id x; Mem.Subnet_Name := Mem.Subnet_Name x; Mem.CidrUtilization := CidrUtilization |}.
Definition Subnet_DeepCopy : option loc → run (heap C) (option loc) := copy_ptr Subnet_DeepCopyInto.

Definition OciNodeClassStatus_DeepCopyInto (x : Mem.OciNodeClassStatus) : run (heap C) Mem.OciNodeClassStatus :=
  Subnets ← copy_slice (copy_ptr Subnet_DeepCopyInto) (Mem.Subnets x);
  Images ← copy_slice (copy_ptr Image_DeepCopyInto) (Mem.Images x);
  SecurityGroups ← copy_slice (copy_ptr (A := StatusSecurityGroup) mret) (Mem.SecurityGroups x);
  Conditions ← copy_slice (DeepCopyInto (A := Ct)) (Mem.Conditions x);
  mret {| Mem.Subnets := Subnets; Mem.Images := Images; Mem.SecurityGroups := SecurityGroups; Mem.Conditions := Conditions |}.
Definition OciNodeClassStatus_DeepCopy : option loc → run (heap C) (option loc) := copy_ptr OciNodeClassStatus_DeepCopyInto.

Definition OciNodeClass_DeepCopyInto (x : Mem.OciNodeClass Mt) : run (heap C) (Mem.OciNodeClass Mt) :=
  ObjectMeta ← DeepCopyInto (Mem.ObjectMeta x);
  Spec ← OciNodeClassSpec_DeepCopyInto (Mem.Spec x);
  Status ← OciNodeClassStatus_DeepCopyInto (Mem.Status x);
  mret {| Mem.TypeMeta := Mem.TypeMeta x; Mem.ObjectMeta := ObjectMeta; Mem.Spec := Spec; Mem.Status := Status |}.
Definition OciNodeClass_DeepCopy : option loc → run (heap C) (option loc) := copy_ptr OciNodeClass_DeepCopyInto.
(** A nil pointer is returned as a nil interface. *)
Definition OciNodeClass_DeepCopyObject (x : option loc) : run (heap C) (option loc) :=
  c ← OciNodeClass_DeepCopy x; mret c.

Definition OciNodeClassList_DeepCopyInto (x : Mem.OciNodeClassList Lt) : run (heap C) (Mem.OciNodeClassList Lt) :=
  ListMeta ← DeepCopyInto (Mem.ListMeta x);
  Items ← copy_slice OciNodeClass_DeepCopyInto (Mem.Items x);
  mret {| Mem.List_TypeMeta := Mem.List_TypeMeta x; Mem.ListMeta := ListMeta; Mem.Items := Items |}.
Definition OciNodeClassList_DeepCopy : option loc → run (heap C) (option loc) := copy_ptr OciNodeClassList_DeepCopyInto.
Definition OciNodeClassList_DeepCopyObject (x : option loc) : run (heap C) (option loc) :=
  c ← OciNodeClassList_DeepCopy x; mret c.

(** ** What the structs stand for *)

Definition Image_at : repr C Mem.Image StatusImage := struct_rep (λ x v,
  [AField val_rep (Mem.Id x) (SI_Id v); AField val_rep (Mem.Name x) (SI_Name v);
   AField val_rep (Mem.CompartmentId x) (SI_CompartmentId v);
   AField (slice_rep (struct_at (A := Rt))) (Mem.Requirements x) (SI_Requirements v)]).

Definition Subnet_at : repr C Mem.Subnet StatusSubnet := struct_rep (λ x v,
  [AField val_rep (Mem.Subnet_Id x) (SS_Id v); AField val_rep (Mem.Subnet_Name x) (SS_Name v);
   AField (slice_rep (val_rep (A := CidrUtilizationSummary))) (Mem.CidrUtilization x) (CidrUtilization v)]).

Notation string_at := (ptr_rep (val_rep (A := string))).
Notation int_at := (ptr_rep (val_rep (A := Z))).
Notation bool_at := (ptr_rep (val_rep (A := bool))).
Notation strings_at := (slice_rep (val_rep (A := string))).
Notation string_map_at := (go_map_rep (val_rep (A := string))).

(** The two maps of which the code tests whether they are nil. *)
Definition KubeletConfiguration_at : repr C Mem.KubeletConfiguration KubeletConfiguration := struct_rep (λ x v,
  [AField strings_at (Mem.ClusterDNS x) (ClusterDNS v);
   AField int_at (Mem.MaxPods x) (MaxPods v); AField int_at (Mem.PodsPerCore x) (PodsPerCore v);
   AField (nil_map_rep (val_rep (A := string))) (Mem.SystemReserved x) (SystemReserved v);
   AField string_map_at (Mem.KubeReserved x) (KubeReserved v);
   AField (nil_map_rep (val_rep (A := string))) (Mem.EvictionHard x) (EvictionHard v);
   AField string_map_at (Mem.EvictionSoft x) (EvictionSoft v);
   AField (go_map_rep (val_rep (A := Z))) (Mem.EvictionSoftGracePeriod x) (EvictionSoftGracePeriod v);
   AField int_at (Mem.EvictionMaxPodGracePeriod x) (EvictionMaxPodGracePeriod v);
   AField int_at (Mem.ImageGCHighThresholdPercent x) (ImageGCHighThresholdPercent v);
   AField int_at (Mem.ImageGCLowThresholdPercent x) (ImageGCLowThresholdPercent v);
   AField bool_at (Mem.CPUCFSQuota x) (CPUCFSQuota v)]).

Definition LaunchOptions_at : repr C Mem.LaunchOptions LaunchOptions := struct_rep (λ x v,
  [AField string_at (Mem.BootVolumeType x) (BootVolumeType v); AField string_at (Mem.Firmware x) (Firmware v);
   AField string_at (Mem.NetworkType x) (NetworkType v);
   AField string_at (Mem.RemoteDataVolumeType x) (RemoteDataVolumeType v);
   AField bool_at (Mem.IsConsistentVolumeNamingEnabled x) (IsConsistentVolumeNamingEnabled v)]).

Definition OciNodeClassSpec_at : repr C Mem.OciNodeClassSpec OciNodeClassSpec := struct_rep (λ x v,
  [AField val_rep (Mem.VcnId x) (VcnId v);
   AField (slice_rep (val_rep (A := ImageSelectorTerm))) (Mem.ImageSelector x) (ImageSelector v);
   AField (slice_rep (val_rep (A := SubnetSelectorTerm))) (Mem.SubnetSelector x) (SubnetSelector v);
   AField (slice_rep (val_rep (A := SecurityGroupSelectorTerm))) (Mem.SecurityGroupSelector x) (SecurityGroupSelector v);
   AField string_at (Mem.UserData x) (UserData v); AField string_at (Mem.PreInstallScript x) (PreInstallScript v);
   AField string_map_at (Mem.MetaData x) (MetaData v); AField val_rep (Mem.ImageFamily x) (ImageFamily v);
   AField string_map_at (Mem.Tags x) (Tags v);
   AField (go_map_rep string_map_at) (Mem.DefinedTags x) (DefinedTags v);
   AField string_map_at (Mem.FreeFormTags x) (FreeFormTags v);
   AField (ptr_rep KubeletConfiguration_at) (Mem.Kubelet x) (Kubelet v);
   AField (ptr_rep (val_rep (A := BootConfig))) (Mem.BootConfig x) (NodeClass_BootConfig v);
   AField (ptr_rep LaunchOptions_at) (Mem.Launch_Options x) (NodeClass_LaunchOptions v);
   AField (slice_rep (some_rep (val_rep (A := VolumeAttributes)))) (Mem.BlockDevices x) (BlockDevices v);
   AField strings_at (Mem.AgentList x) (AgentList v)]).

Definition OciNodeClassStatus_at : repr C Mem.OciNodeClassStatus OciNodeClassStatus := struct_rep (λ x v,
  [AField (slice_rep (some_rep Subnet_at)) (Mem.Subnets x) (Status_Subnets v);
   AField (slice_rep (some_rep Image_at)) (Mem.Images x) (Status_Images v);
   AField (slice_rep (some_rep (val_rep (A := StatusSecurityGroup)))) (Mem.SecurityGroups x) (Status_SecurityGroups v);
   AField (slice_rep (struct_at (A := Ct))) (Mem.Conditions x) (Status_Conditions v)]).

(** A node class, with its kind and version. *)
Definition OciNodeClass_at : repr C (Mem.OciNodeClass Mt) (string * string * OciNodeClass) := struct_rep (λ x v,
  [AField val_rep (Mem.TypeMeta x) v.1; AField struct_at (Mem.ObjectMeta x) (NC_Meta v.2);
   AField OciNodeClassSpec_at (Mem.Spec x) (Spec v.2); AField OciNodeClassStatus_at (Mem.Status x) (Status v.2)]).

Definition OciNodeClassList_at : repr C (Mem.OciNodeClassList Lt) (string * string * M_ * list (string * string * OciNodeClass)) :=
  struct_rep (λ x v,
    [AField val_rep (Mem.List_TypeMeta x) v.1.1; AField struct_at (Mem.ListMeta x) v.1.2;
     AField (slice_rep OciNodeClass_at) (Mem.Items x) v.2]).

(** ** Each function copies what its struct stands for *)

Lemma Image_copies : copies Image_at Image_DeepCopyInto.
Proof. copy_fields. Qed.
Lemma Subnet_copies : copies Subnet_at Subnet_DeepCopyInto.
Proof. copy_fields. Qed.
Lemma KubeletConfiguration_copies : copies KubeletConfiguration_at KubeletConfiguration_DeepCopyInto.
Proof. copy_fields. Qed.
Lemma LaunchOptions_copies : copies LaunchOptions_at LaunchOptions_DeepCopyInto.
Proof. copy_fields. Qed.
#[local] Hint Resolve Image_copies Subnet_copies KubeletConfiguration_copies LaunchOptions_copies : copies.

Lemma OciNodeClassSpec_copies : copies OciNodeClassSpec_at OciNodeClassSpec_DeepCopyInto.
Proof. copy_fields. Qed.
Lemma OciNodeClassStatus_copies : copies OciNodeClassStatus_at OciNodeClassStatus_DeepCopyInto.
Proof. copy_fields. Qed.
#[local] Hint Resolve OciNodeClassSpec_copies OciNodeClassStatus_copies : copies.

Lemma OciNodeClass_copies : copies OciNodeClass_at OciNodeClass_DeepCopyInto.
Proof. copy_fields. Qed.
#[local] Hint Resolve OciNodeClass_copies : copies.
Lemma OciNodeClassList_copies : copies OciNodeClassList_at OciNodeClassList_DeepCopyInto.
Proof. copy_fields. Qed.

(** ** ... and stands for one value *)

Lemma Image_exact : exact Image_at.
Proof. exact_fields. Qed.
Lemma Subnet_exact : exact Subnet_at.
Proof. exact_fields. Qed.
Lemma KubeletConfiguration_exact : exact KubeletConfiguration_at.
Proof. exact_fields. Qed.
Lemma LaunchOptions_exact : exact LaunchOptions_at.
Proof. exact_fields. Qed.
#[local] Hint Resolve Image_exact Subnet_exact KubeletConfiguration_exact LaunchOptions_exact : exact.
Lemma OciNodeClassSpec_exact : exact OciNodeClassSpec_at.
Proof. exact_fields. Qed.
Lemma OciNodeClassStatus_exact : exact OciNodeClassStatus_at.
Proof. exact_fields. Qed.
#[local] Hint Resolve OciNodeClassSpec_exact OciNodeClassStatus_exact : exact.
Lemma OciNodeClass_exact : exact OciNodeClass_at.
Proof. exact_fields. Qed.

(** ** Properties *)

(** C39: DeepCopy of a node class returns a pointer to new memory that holds the same class, and
    changes nothing that was in memory: whatever is written outside the memory of the copy
    later, the copy still holds that class and no other, and whatever is written into the copy,
    the original still does. *)
Theorem OciNodeClass_DeepCopy_isolated (h : heap C) (p : option loc) (kind : string * string) (nodeClass : OciNodeClass)
    (L : gset loc) :
  rep (ptr_rep OciNodeClass_at) h p (Some (kind, nodeClass)) L →
  ∃ stored h1 L1,
    OciNodeClass_DeepCopy p h = (Ok stored, h1) ∧ stored ≠ p ∧ L1 ## dom h ∧
    (** nothing that was in memory has changed *)
    (∀ l, l ∈ dom h → h1 !! l = h !! l) ∧
    (** changes elsewhere do not show in the copy, nor changes of the copy in the original *)
    (∀ h2 L2 v, (∀ l, l ∈ L1 → h2 !! l = h1 !! l) →
       rep (ptr_rep OciNodeClass_at) h2 stored (Some (kind, nodeClass)) L1 ∧
       (rep (ptr_rep OciNodeClass_at) h2 stored (Some v) L2 → v = (kind, nodeClass))) ∧
    (∀ h2, (∀ l, l ∉ L1 → h2 !! l = h1 !! l) →
       rep (ptr_rep OciNodeClass_at) h2 p (Some (kind, nodeClass)) L).
Proof.
  intros Hp. destruct (copies_ptr OciNodeClass_at _ OciNodeClass_copies h p _ L Hp)
    as (stored & h1 & L1 & He & Hsub & Hr & Hd).
  pose proof (rep_dom _ _ _ _ _ Hp) as Hdom.
  assert (∀ l, l ∈ dom h → h1 !! l = h !! l) as Hold.
  { intros l [c Hc]%elem_of_dom. rewrite Hc. by eapply lookup_weaken. }
  exists stored, h1, L1. split_and!; [done| |done|done|..].
  - intros ->. destruct p as [l|]; [|done]. destruct Hp as (a & L' & Hl & _ & ->), Hr as (a' & L2 & _ & _ & ->).
    apply elem_of_dom_2 in Hl. set_solver.
  - intros h2 L2 v Hsame. assert (rep (ptr_rep OciNodeClass_at) h2 stored (Some (kind, nodeClass)) L1) as Hr2
      by by eapply rep_same.
    split; [done|]. intros Hv. pose proof (exact_ptr _ OciNodeClass_exact _ _ _ _ _ _ Hv Hr2) as Heq. by injection Heq.
  - intros h2 Hsame. eapply rep_same; [done|]. intros l Hl. rewrite Hsame; [apply Hold|]; set_solver.
Qed.
End Copies.
