(* ===== verification/DeepCopyExamples.v ===== *)
(** * Examples for [DeepCopy]

    A node class with a shared tag map on a small heap. *)

From stdpp Require Import base list strings gmap.
From Stdlib Require Import ZArith Lia.
From S2P Require Import Prelude GoHeap Api DeepCopy.

Local Open Scope string_scope.

#[local] Existing Instance list_order.

(** The structs of Kubernetes as values. *)
Notation plain_cell := (cell ObjectMeta unit NodeSelectorRequirement Condition).
#[local] Instance plain {A} : DeepCopier plain_cell A A :=
  {| struct_at := val_rep; DeepCopyInto := mret; struct_at_exact := exact_val; DeepCopyInto_copies := copies_val |}.

Definition heap_spec : Mem.OciNodeClassSpec := {|
  Mem.VcnId := "vcn"; Mem.ImageSelector := None; Mem.SubnetSelector := None; Mem.SecurityGroupSelector := None;
  Mem.UserData := Some 3%positive; Mem.PreInstallScript := None; Mem.MetaData := None; Mem.ImageFamily := "Custom";
  Mem.Tags := Some 2%positive; Mem.DefinedTags := None; Mem.FreeFormTags := Some 2%positive; Mem.Kubelet := None;
  Mem.BootConfig := None; Mem.Launch_Options := None; Mem.BlockDevices := Some 4%positive; Mem.AgentList := None
|}.
Definition heap_meta : ObjectMeta :=
  {| Meta_Name := "default"; Labels := ∅; Annotations := ∅; Finalizers := []; DeletionTimestamp := None |}.
Definition heap_struct : Mem.OciNodeClass ObjectMeta := {|
  Mem.TypeMeta := ("OciNodeClass", "v1alpha1"); Mem.ObjectMeta := heap_meta; Mem.Spec := heap_spec;
  Mem.Status := {| Mem.Subnets := None; Mem.Images := None; Mem.SecurityGroups := None; Mem.Conditions := None |}
|}.

(** [Tags] and [FreeFormTags] are one map. *)
Definition small_heap : heap plain_cell := list_to_map [
  (1%positive, CClass heap_struct);
  (2%positive, CStringMap {["team" := "a"]});
  (3%positive, CString "echo");
  (4%positive, CPointers [Some 5%positive]);
  (5%positive, CVolume {| SizeInGBs := 50; VpusPerGB := 10 |})
].

Definition heap_class : OciNodeClass := {|
  NC_Meta := heap_meta;
  Spec := {| VcnId := "vcn"; ImageSelector := []; SubnetSelector := []; SecurityGroupSelector := [];
             UserData := Some "echo"; PreInstallScript := None; MetaData := ∅; ImageFamily := "Custom";
             Tags := {["team" := "a"]}; DefinedTags := ∅; FreeFormTags := {["team" := "a"]}; Kubelet := None;
             NodeClass_BootConfig := None; NodeClass_LaunchOptions := None;
             BlockDevices := [{| SizeInGBs := 50; VpusPerGB := 10 |}]; AgentList := [] |};
  Status := {| Status_Subnets := []; Status_Images := []; Status_SecurityGroups := []; Status_Conditions := [] |}
|}.

Lemma small_heap_class : ∃ L, rep (ptr_rep OciNodeClass_at) small_heap (Some 1%positive)
  (Some (("OciNodeClass", "v1alpha1"), heap_class)) L.
Proof.
  eexists. eapply (rep_ptr OciNodeClass_at _ _ heap_struct); [reflexivity|].
  repeat first
    [ apply rep_val | apply rep_nil | apply rep_slice_nil | apply rep_map_nil | apply rep_elements_nil | apply rep_fields_nil
    | eapply rep_map_val; reflexivity | eapply rep_ptr; [reflexivity|] | eapply rep_some; [reflexivity|]
    | eapply rep_slice; [reflexivity|] | eapply rep_elements_cons | eapply rep_fields_cons ].
Defined.

(** The shared map is emptied after the copy: the copy has its own two. *)
Lemma OciNodeClass_DeepCopy_isolated_witness :
  ∃ stored h1 L1, OciNodeClass_DeepCopy (Some 1%positive) small_heap = (Ok stored, h1) ∧
    rep (ptr_rep OciNodeClass_at) (<[2%positive := CStringMap ∅]> h1) stored
      (Some (("OciNodeClass", "v1alpha1"), heap_class)) L1.
Proof.
  destruct small_heap_class as [L HL].
  destruct (OciNodeClass_DeepCopy_isolated small_heap (Some 1%positive) ("OciNodeClass", "v1alpha1") heap_class L HL)
    as (stored & h1 & L1 & He & _ & Hd & _ & Hkeep & _).
  exists stored, h1, L1. split; [exact He|].
  apply (Hkeep (<[2%positive := CStringMap ∅]> h1) L1 (("", ""), heap_class)).
  intros l Hl. apply lookup_insert_ne. intros <-. apply (Hd 2%positive Hl).
  apply elem_of_dom_2 with (CStringMap {["team" := "a"]}). reflexivity.
Defined.
