(* ===== verification/Options.v ===== *)
(** * [pkg/operator/options]: the settings of the operator

    Values of the environment are parsed by karpenter's [env] package and the
    command line by [flag]: the class [EnvLib] and the argument [fs_Parse].
    [url.Parse] is an argument, through the two facts read of the URL. *)

From stdpp Require Import base list strings gmap.
From Stdlib Require Import ZArith SpecFloat Lia Ascii.
From S2P Require Import Prelude GoStrings GoFloat Utils.

Local Open Scope string_scope.

Record Options := {
  ClusterName : string;
  ClusterEndpoint : string;
  ClusterDns : string;
  ClusterCABundle : string;
  BootStrapToken : string;
  CompartmentId : string;
  TagNamespace : string;
  VMMemoryOverheadPercent : f64;
  FlexCpuMemRatios : string;
  FlexCpuConstrainList : string;
  AvailableDomains : list string;
  OciAuthMethods : string;
  PriceEndpoint : string;
  PriceSyncPeriod : Z;
  UseLocalPriceList : bool;
  PreemptibleShapes : string;
  PreemptibleExcludeShapes : string
}.

Definition defaultPreemptibleShapes : string :=
  "VM.Standard1,VM.Standard.B1,VM.Standard2,VM.Standard3.Flex,VM.Standard.E2,VM.Standard.E3.Flex,VM.Standard.E4.Flex,VM.Standard.E5.Flex,VM.Standard.E6.Flex,VM.Standard.A1.Flex,VM.Standard.A4.Flex,VM.DenseIO1,VM.DenseIO2,VM.GPU2,VM.GPU3,VM.Optimized3.Flex".
Definition defaultPreemptibleExcludeShapes : string := "VM.Standard.E2.1.Micro".

Definition generateDefaultFlexCpuConstrainList : string :=
  Join (map (λ i, Itoa (Z.of_nat i)) (seq 1 128)) ",".

(** [AddFlags]: the values an empty environment and command line give. *)
Definition default_options : Options := {|
  ClusterName := ""; ClusterEndpoint := ""; ClusterDns := ""; ClusterCABundle := "";
  BootStrapToken := ""; CompartmentId := ""; TagNamespace := "oke-karpenter-ns";
  VMMemoryOverheadPercent := S754_zero false; FlexCpuMemRatios := "4";
  FlexCpuConstrainList := generateDefaultFlexCpuConstrainList; AvailableDomains := [];
  OciAuthMethods := "OKE";
  PriceEndpoint := "https://apexapps.oracle.com/pls/apex/cetools/api/v1/products/";
  PriceSyncPeriod := 12; UseLocalPriceList := false;
  PreemptibleShapes := defaultPreemptibleShapes;
  PreemptibleExcludeShapes := defaultPreemptibleExcludeShapes
|}.

(** ** [AddFlags] *)

(** [env.WithDefaultString], [WithDefaultInt] and [WithDefaultBool], over the
    variables of the environment. *)
Class EnvLib : Type := {
  WithDefaultString : (string → option string) → string → string → string;
  WithDefaultInt : (string → option string) → string → Z → Z;
  WithDefaultBool : (string → option string) → string → bool → bool
}.

Class EnvLaws {lib : EnvLib} : Prop := {
  WithDefaultString_spec env key def : WithDefaultString env key def = default def (env key);
  WithDefaultInt_absent env key def : env key = None → WithDefaultInt env key def = def;
  WithDefaultBool_absent env key def : env key = None → WithDefaultBool env key def = def
}.

Section Flags.
Context {lib : EnvLib}.
Variable ParseFloat : string → option f64.

(** Each flag is set to its default when it is registered; the domains have
    no flag. *)
Definition AddFlags (env : string → option string) (o : Options) : Options := {|
  ClusterName := WithDefaultString env "CLUSTER_NAME" "";
  ClusterEndpoint := WithDefaultString env "CLUSTER_ENDPOINT" "";
  ClusterDns := WithDefaultString env "CLUSTER_DNS" "";
  ClusterCABundle := WithDefaultString env "CLUSTER_CA_BUNDLE" "";
  BootStrapToken := WithDefaultString env "CLUSTER_BOOTSTRAP_TOKEN" "";
  CompartmentId := WithDefaultString env "COMPARTMENT_ID" "";
  TagNamespace := WithDefaultString env "TAG_NAMESPACE" "oke-karpenter-ns";
  VMMemoryOverheadPercent := WithDefaultFloat64 env ParseFloat "VM_MEMORY_OVERHEAD_PERCENT" (f64_of_Z 0);
  FlexCpuMemRatios := WithDefaultString env "FLEX_CPU_MEM_RATIOS" "4";
  FlexCpuConstrainList := WithDefaultString env "FLEX_CPU_CONSTRAIN_LIST" generateDefaultFlexCpuConstrainList;
  AvailableDomains := AvailableDomains o;
  OciAuthMethods := WithDefaultString env "OCI_AUTH_METHODS" "OKE";
  PriceEndpoint := WithDefaultString env "PRICE_ENDPOINT" "https://apexapps.oracle.com/pls/apex/cetools/api/v1/products/";
  PriceSyncPeriod := WithDefaultInt env "PRICE_SYNC_PERIOD" 12;
  UseLocalPriceList := WithDefaultBool env "USE_LOCAL_PRICE_LIST" false;
  PreemptibleShapes := WithDefaultString env "PREEMPTIBLE_SHAPES" defaultPreemptibleShapes;
  PreemptibleExcludeShapes := WithDefaultString env "PREEMPTIBLE_EXCLUDE_SHAPES" defaultPreemptibleExcludeShapes
|}.

(** In an empty environment. *)
Lemma AddFlags_default `{!EnvLaws} (o : Options) :
  AvailableDomains o = [] → AddFlags (λ _, None) o = default_options.
Proof.
  intros Ho. unfold AddFlags, default_options.
  by rewrite !WithDefaultString_spec, WithDefaultInt_absent, WithDefaultBool_absent, Ho.
Qed.
End Flags.

(** ** [options_validation.go] *)

Section Validate.
(** [url.Parse], then [IsAbs] and [Hostname] of the URL; [None] is its error. *)
Variable url_Parse : string → option (bool * string).

Definition validateEndpoint (o : Options) : option gerror :=
  if String.eqb (ClusterEndpoint o) "" then None
  else
    match url_Parse (ClusterEndpoint o) with
    | Some (IsAbs, Hostname) =>
        if negb IsAbs || String.eqb Hostname ""
        then Some (EText "is not a valid cluster-endpoint URL") else None
    | None => Some (EText "is not a valid cluster-endpoint URL")
    end.

Definition validateVMMemoryOverheadPercent (o : Options) : option gerror :=
  if SFltb (VMMemoryOverheadPercent o) (f64_of_Z 0) ||
     SFltb (f64_of_Z 1) (VMMemoryOverheadPercent o)
  then Some (EText "vm-memory-overhead-percent cannot be negative or > 1") else None.

Definition validateRequiredFields (o : Options) : option gerror :=
  if String.eqb (ClusterName o) "" then Some (EText "missing field, cluster-name") else None.

(** [multierr.Combine]: nil, the one error, or all of them. *)
Definition multierr_Combine (errs : list (option gerror)) : option gerror :=
  match omap (λ e, e) errs with
  | [] => None
  | [e] => Some e
  | es => Some (EMulti es)
  end.

Definition Validate (o : Options) : option gerror :=
  multierr_Combine
    [validateEndpoint o; validateVMMemoryOverheadPercent o; validateRequiredFields o].

Lemma multierr_Combine_None errs :
  multierr_Combine errs = None ↔ Forall (λ e, e = None) errs.
Proof.
  assert (omap (λ e : option gerror, e) errs = [] ↔ Forall (λ e, e = None) errs) as <-.
  { induction errs as [|[e|] errs IH]; simpl.
    - split; [constructor|done].
    - split; [done|]. by intros [? _]%Forall_cons.
    - rewrite Forall_cons. naive_solver. }
  unfold multierr_Combine. by destruct (omap _ errs) as [|? []].
Qed.

(** The options [Validate] accepts. *)
Theorem Validate_spec (o : Options) :
  Validate o = None ↔
    ClusterName o ≠ "" ∧
    SFltb (VMMemoryOverheadPercent o) (f64_of_Z 0) = false ∧
    SFltb (f64_of_Z 1) (VMMemoryOverheadPercent o) = false ∧
    (ClusterEndpoint o = "" ∨
     ∃ host, url_Parse (ClusterEndpoint o) = Some (true, host) ∧ host ≠ "").
Proof.
  unfold Validate. rewrite multierr_Combine_None, !Forall_cons.
  unfold validateEndpoint, validateVMMemoryOverheadPercent, validateRequiredFields.
  destruct (String.eqb_spec (ClusterName o) "") as [Hn|Hn]; [naive_solver|].
  destruct (SFltb _ (f64_of_Z 0)), (SFltb (f64_of_Z 1) _); simpl; [naive_solver..|].
  destruct (String.eqb_spec (ClusterEndpoint o) "") as [He|He]; [naive_solver|].
  destruct (url_Parse _) as [[[] h]|]; simpl; [|naive_solver..].
  destruct (String.eqb_spec h ""); naive_solver.
Qed.

(** ** [Parse] *)

(** [fs.Parse] on the registered flags: an error, a request for help, or the
    options with the values of the arguments. *)
Inductive flag_outcome : Type :=
| FlagError (e : gerror)
| FlagHelp
| FlagParsed (o : Options).

(** [None] is the process's exit. *)
Definition Parse (outcome : flag_outcome) : option (res Options) :=
  match outcome with
  | FlagHelp => None
  | FlagError e => Some (Err (EWrap "parsing flags" e))
  | FlagParsed o =>
      match Validate o with
      | Some e => Some (Err (EWrap "validating options" e))
      | None => Some (Ok o)
      end
  end.
End Validate.

(** ** The default list of core counts *)

(** The list [splitFlexCpuMem] reads back is 1, ..., 128. *)
Lemma default_flex_cpus :
  map Atoi (Split generateDefaultFlexCpuConstrainList ",") =
  map (λ i, Some (Z.of_nat i)) (seq 1 128).
Proof. vm_compute. reflexivity. Qed.
