(* ===== verification/Sched.v ===== *)
(** * What the program uses of karpenter's and Kubernetes' libraries

    [sigs.k8s.io/karpenter/pkg/scheduling], [k8s.io/apimachinery/.../resource]
    and [karpenter/pkg/cloudprovider] are not part of the repository.  A class
    states the operations the program calls, another the documented behaviour
    it relies on; the instances at the end satisfy the laws and run the
    examples. *)

From stdpp Require Import base list strings gmap.
From Stdlib Require Import ZArith Lia Ascii DecimalString SpecFloat.
From S2P Require Import Prelude GoStrings GoFloat Api.

Local Open Scope string_scope.

(** ** [scheduling.Requirement] and [scheduling.Requirements] *)

Class Scheduling (Rq Rqs : Type) : Type := {
  NewRequirement : string → NodeSelectorOperator → list string → Rq;
  Req_Key : Rq → string;
  Req_Has : Rq → string → bool;
  (** [Values] and [Any] *)
  Req_Values : Rq → list string;
  Req_Any : Rq → string;
  Req_Insert : list string → Rq → Rq;
  NewRequirements : list Rq → Rqs;
  Reqs_Add : list Rq → Rqs → Rqs;
  (** [Get]: an [Exists] requirement for an absent key *)
  Reqs_Get : Rqs → string → Rq;
  (** [requirements[key].Insert(v)], a panic when the key is absent *)
  Reqs_InsertAt : string → string → Rqs → res Rqs;
  (** [Compatible(..., AllowUndefinedWellKnownLabels) == nil] *)
  Reqs_Compatible : Rqs → Rqs → bool;
  (** [NewNodeSelectorRequirements] and its [WithMinValues] variant *)
  NewNodeSelectorRequirements : list NodeSelectorRequirement → Rqs
}.

Class SchedulingLaws (Rq Rqs : Type) {sched : Scheduling Rq Rqs} : Prop := {
  (** the keys the program uses are not normalised to others *)
  Key_New k op vs : k ∈ program_labels → Req_Key (NewRequirement k op vs) = k;
  Has_In k vs v : Req_Has (NewRequirement k OpIn vs) v = bool_decide (v ∈ vs);
  Has_DoesNotExist k v : Req_Has (NewRequirement k OpDoesNotExist []) v = false;
  Has_Exists k v : Req_Has (NewRequirement k OpExists []) v = true;
  Values_In k vs : NoDup (Req_Values (NewRequirement k OpIn vs)) ∧
    ∀ v, v ∈ Req_Values (NewRequirement k OpIn vs) ↔ v ∈ vs;
  Values_DoesNotExist k : Req_Values (NewRequirement k OpDoesNotExist []) = [];
  Any_In k vs : vs ≠ [] → Req_Any (NewRequirement k OpIn vs) ∈ vs;
  (** inserting into [DoesNotExist] makes it [In] *)
  Insert_DoesNotExist k v : Req_Insert [v] (NewRequirement k OpDoesNotExist []) = NewRequirement k OpIn [v];
  (** distinct keys are kept apart *)
  Get_New rs r : NoDup (map Req_Key rs) → r ∈ rs → Reqs_Get (NewRequirements rs) (Req_Key r) = r;
  Get_absent rs k : k ∈ program_labels → k ∉ map Req_Key rs →
    Reqs_Get (NewRequirements rs) k = NewRequirement k OpExists [];
  Add_New rs rs' : NoDup (map Req_Key (rs ++ rs')) →
    Reqs_Add rs' (NewRequirements rs) = NewRequirements (rs ++ rs');
  InsertAt_New rs1 r rs2 v : NoDup (map Req_Key (rs1 ++ r :: rs2)) →
    Req_Key (Req_Insert [v] r) = Req_Key r →
    Reqs_InsertAt (Req_Key r) v (NewRequirements (rs1 ++ r :: rs2)) =
      Ok (NewRequirements (rs1 ++ Req_Insert [v] r :: rs2))
}.

(** ** [resource.Quantity] *)

Class Quantities (Q : Type) : Type := {
  (** [resource.MustParse], [resources.Quantity] *)
  MustParse : string → res Q;
  (** [resource.MustParse(fmt.Sprint(x))] of a float *)
  MustParseFloat : f64 → res Q;
  NewQuantity : Z → Q;
  NewMilliQuantity : Z → Q;
  Q_Sub : Q → Q → Q;
  Q_Value : Q → Z;
  AsApproximateFloat64 : Q → f64;
  (** [resources.MaxResources] of two lists *)
  MaxResources : gmap string Q → gmap string Q → gmap string Q;
  (** the exact amount, in nano units; only statements use it *)
  amount : Q → Z
}.

Definition nano : Z := 10 ^ 9.

Class QuantitiesLaws (Q : Type) {quantities : Quantities Q} : Prop := {
  (** [Value] rounds up *)
  Value_amount q : Q_Value q = (- ((- amount q) / nano))%Z;
  amount_New n : in_int64 n = true → amount (NewQuantity n) = (n * nano)%Z;
  amount_NewMilli n : in_int64 n = true → amount (NewMilliQuantity n) = (n * 10 ^ 6)%Z;
  amount_Sub a b : amount (Q_Sub a b) = (amount a - amount b)%Z;
  MustParse_int n : in_int64 n = true →
    ∃ q, MustParse (Itoa n) = Ok q ∧ amount q = (n * nano)%Z;
  MustParse_Gi n : in_int64 (n * 2 ^ 30) = true →
    ∃ q, MustParse (Itoa n +:+ "Gi") = Ok q ∧ amount q = (n * 2 ^ 30 * nano)%Z;
  MustParse_Mi n : in_int64 (n * 2 ^ 20) = true →
    ∃ q, MustParse (Itoa n +:+ "Mi") = Ok q ∧ amount q = (n * 2 ^ 20 * nano)%Z;
  (** an integral float prints to a text that reads back to its value *)
  MustParseFloat_int n : (0 <= n <= 2 ^ 53)%Z →
    ∃ q, MustParseFloat (f64_of_Z n) = Ok q ∧ amount q = (n * nano)%Z;
  MaxResources_empty (m : gmap string Q) : MaxResources ∅ m = m
}.

Lemma Value_whole `{QuantitiesLaws Q} (q : Q) n : amount q = (n * nano)%Z → Q_Value q = n.
Proof.
  intros Hq. rewrite Value_amount, Hq, <- Z.mul_opp_l.
  rewrite Z.div_mul by (unfold nano; lia). lia.
Qed.

(** ** [cloudprovider.InstanceType] and [cloudprovider.Offering] *)

Record Offering (Rqs : Type) := {
  Of_Requirements : Rqs;
  Of_Price : f64;
  Of_Available : bool
}.
Arguments Of_Requirements {Rqs} _.
Arguments Of_Price {Rqs} _.
Arguments Of_Available {Rqs} _.

(** [v1.ResourceList] *)
Notation ResourceList Q := (gmap string Q) (only parsing).

Record InstanceTypeOverhead (Q : Type) := {
  Ov_KubeReserved : ResourceList Q;
  Ov_SystemReserved : ResourceList Q;
  Ov_EvictionThreshold : ResourceList Q
}.
Arguments Ov_KubeReserved {Q} _.
Arguments Ov_SystemReserved {Q} _.
Arguments Ov_EvictionThreshold {Q} _.

Record InstanceType (Rqs Q : Type) := {
  IT_Name : string;
  IT_Requirements : Rqs;
  IT_Offerings : list (Offering Rqs);
  IT_Capacity : ResourceList Q;
  IT_Overhead : InstanceTypeOverhead Q
}.
Arguments IT_Name {Rqs Q} _.
Arguments IT_Requirements {Rqs Q} _.
Arguments IT_Offerings {Rqs Q} _.
Arguments IT_Capacity {Rqs Q} _.
Arguments IT_Overhead {Rqs Q} _.

Definition ResourceCPU : string := "cpu".
Definition ResourceMemory : string := "memory".
Definition ResourceEphemeralStorage : string := "ephemeral-storage".
Definition ResourcePods : string := "pods".

(** ** [cloudprovider.Offerings] and [cloudprovider.InstanceTypes] *)

Definition MaxFloat64 : f64 := SFmax_float 53 1024.

(** [Offerings.Available], [InstanceTypes.OrderByPrice] *)
Class OfferingLib (Rqs Q : Type) : Type := {
  Available : list (Offering Rqs) → list (Offering Rqs);
  OrderByPrice : Rqs → list (InstanceType Rqs Q) → list (InstanceType Rqs Q)
}.

(** An offering that can serve the requirements. *)
Definition serves `{Scheduling Rq Rqs} (reqs : Rqs) (o : Offering Rqs) : bool :=
  Of_Available o && Reqs_Compatible reqs (Of_Requirements o) && SFltb (Of_Price o) MaxFloat64.

Class OfferingLibLaws (Rq Rqs Q : Type) {sched : Scheduling Rq Rqs} {lib : OfferingLib Rqs Q} : Prop := {
  Available_spec (l : list (Offering Rqs)) : Available l = List.filter Of_Available l;
  OrderByPrice_perm reqs (l : list (InstanceType Rqs Q)) : OrderByPrice reqs l ≡ₚ l;
  (** the first has an offering at least as cheap as any that serves *)
  OrderByPrice_head reqs l it rest it' o' :
    OrderByPrice reqs l = it :: rest → it' ∈ l → o' ∈ IT_Offerings it' → serves reqs o' = true →
    ∃ o, o ∈ IT_Offerings it ∧ serves reqs o = true ∧ SFleb (Of_Price o) (Of_Price o') = true
}.

(** ** An instance of [Quantities] *)

(** Amounts in nano units; texts are integers with the suffix [Gi], [Mi] or none. *)
Definition scaled (n : Z) (text : string) : res Z :=
  match Atoi text with Some z => Ok (z * n * nano)%Z | None => Panic "MustParse" end.

Definition drop_last (k : nat) (s : string) : string :=
  String.substring 0 (String.length s - k) s.

#[export] Instance nano_quantities : Quantities Z := {
  MustParse s :=
    if HasSuffix s "Gi" then scaled (2 ^ 30) (drop_last 2 s)
    else if HasSuffix s "Mi" then scaled (2 ^ 20) (drop_last 2 s)
    else scaled 1 s;
  MustParseFloat x :=
    match sf_trunc x with Some n => Ok (n * nano)%Z | None => Panic "MustParse" end;
  NewQuantity n := (n * nano)%Z;
  NewMilliQuantity n := (n * 10 ^ 6)%Z;
  Q_Sub := Z.sub;
  Q_Value q := (- ((- q) / nano))%Z;
  AsApproximateFloat64 q := f64_div (f64_of_Z q) (f64_of_Z nano);
  MaxResources a b := union_with (λ x y, Some (Z.max x y)) a b;
  amount q := q
}.

Lemma drop_last_app s t : drop_last (String.length t) (s +:+ t) = s.
Proof.
  unfold drop_last. rewrite length_app_str, Nat.add_sub.
  induction s as [|c s IH]; [by destruct t|]. rewrite app_cons_str. simpl. by rewrite IH.
Qed.

Lemma scaled_Itoa n k : in_int64 (n * k) = true → (0 < k)%Z →
  scaled k (Itoa n) = Ok (n * k * nano)%Z.
Proof.
  intros Hn Hk. unfold scaled. rewrite Atoi_Itoa; [done|].
  unfold in_int64, min_int64, max_int64 in *. nia.
Qed.

#[export] Instance nano_quantities_laws : QuantitiesLaws Z.
Proof.
  assert (Hs : ∀ n t, string_forall is_number_char t = false → HasSuffix (Itoa n) t = false).
  { intros n t. apply HasSuffix_chars, Itoa_chars. }
  split; try done; simpl.
  - intros n Hn. rewrite !Hs by done. eexists. split; [apply scaled_Itoa; [by rewrite Z.mul_1_r|done]|].
    by rewrite Z.mul_1_r.
  - intros n Hn. assert (HasSuffix (Itoa n +:+ "Gi") "Gi" = true) as -> by (apply HasSuffix_spec; eauto).
    change (drop_last 2) with (drop_last (String.length "Gi")). rewrite drop_last_app. eexists. split; [by apply scaled_Itoa|done].
  - intros n Hn. assert (HasSuffix (Itoa n +:+ "Mi") "Mi" = true) as -> by (apply HasSuffix_spec; eauto).
    assert (HasSuffix (Itoa n +:+ "Mi") "Gi" = false) as ->.
    { apply (HasSuffix_chars (λ c, negb (Ascii.eqb c "G"%char))); [|done].
      rewrite string_forall_app. apply andb_true_iff. split; [|done].
      apply (string_forall_impl is_number_char); [|apply Itoa_chars].
      by intros [[] [] [] [] [] [] [] []]. }
    change (drop_last 2) with (drop_last (String.length "Mi")). rewrite drop_last_app. eexists. split; [by apply scaled_Itoa|done].
  - intros n Hn. rewrite f64_of_Z_trunc by lia. eauto.
  - intros m. by rewrite (left_id_L ∅ _).
Qed.

(** ** An instance of [Scheduling] *)

(** A set of allowed values, or the complement of one. *)
Record set_req := { sr_key : string; sr_complement : bool; sr_values : gset string }.

Definition set_New (k : string) (op : NodeSelectorOperator) (vs : list string) : set_req :=
  match op with
  | OpIn => {| sr_key := k; sr_complement := false; sr_values := list_to_set vs |}
  | OpNotIn => {| sr_key := k; sr_complement := true; sr_values := list_to_set vs |}
  | OpDoesNotExist => {| sr_key := k; sr_complement := false; sr_values := ∅ |}
  | OpExists | OpGt | OpLt => {| sr_key := k; sr_complement := true; sr_values := ∅ |}
  end.

Definition set_Has (r : set_req) (v : string) : bool :=
  xorb (sr_complement r) (bool_decide (v ∈ sr_values r)).

Definition set_inter (a b : set_req) : set_req := {|
  sr_key := sr_key a;
  sr_complement := sr_complement a && sr_complement b;
  sr_values :=
    match sr_complement a, sr_complement b with
    | false, false => sr_values a ∩ sr_values b
    | false, true => sr_values a ∖ sr_values b
    | true, false => sr_values b ∖ sr_values a
    | true, true => sr_values a ∪ sr_values b
    end
|}.

Definition set_Insert (vs : list string) (r : set_req) : set_req := {|
  sr_key := sr_key r; sr_complement := sr_complement r;
  sr_values := list_to_set vs ∪ sr_values r
|}.

Definition set_empty (r : set_req) : bool :=
  negb (sr_complement r) && bool_decide (sr_values r = ∅).

Definition reqs_add (m : gmap string set_req) (r : set_req) : gmap string set_req :=
  <[sr_key r := match m !! sr_key r with Some e => set_inter r e | None => r end]> m.

Definition reqs_get (m : gmap string set_req) (k : string) : set_req :=
  default (set_New k OpExists []) (m !! k).

(** Each key of [b] is well known, present in [a], or may be absent; and the
    requirements on a common key have a value in common. *)
Definition reqs_compatible (a b : gmap string set_req) : bool :=
  forallb (λ '(k, r),
    match a !! k with
    | Some r' => negb (set_empty (set_inter r' r)) || (set_empty r && set_empty r')
    | None => bool_decide (k ∈ program_labels) || set_empty r
    end) (map_to_list b).

#[export] Instance set_scheduling : Scheduling set_req (gmap string set_req) := {
  NewRequirement := set_New;
  Req_Key := sr_key;
  Req_Has := set_Has;
  Req_Values r := elements (sr_values r);
  Req_Any r := if sr_complement r then "" else default "" (head (elements (sr_values r)));
  Req_Insert := set_Insert;
  NewRequirements := foldl reqs_add ∅;
  Reqs_Add rs m := foldl reqs_add m rs;
  Reqs_Get := reqs_get;
  Reqs_InsertAt k v m :=
    match m !! k with
    | Some r => Ok (<[k := set_Insert [v] r]> m)
    | None => Panic "nil pointer dereference"
    end;
  Reqs_Compatible := reqs_compatible;
  NewNodeSelectorRequirements l :=
    foldl reqs_add ∅ (map (λ r, set_New (NSR_Key r) (NSR_Operator r) (NSR_Values r)) l)
}.

Lemma foldl_reqs_add rs m k :
  NoDup (map sr_key rs) → (∀ r, r ∈ rs → m !! sr_key r = None) →
  foldl reqs_add m rs !! k =
    match list_find (λ r, sr_key r = k) rs with Some (_, r) => Some r | None => m !! k end.
Proof.
  revert m; induction rs as [|r rs IH]; intros m Hnd Hm; [done|].
  simpl in *. apply NoDup_cons in Hnd as [Hr Hnd].
  assert (m !! sr_key r = None) as Hn by (apply Hm; by left).
  rewrite IH; [|done|].
  - unfold reqs_add. rewrite Hn. destruct (decide (sr_key r = k)) as [<-|Hk].
    + assert (list_find (λ r', sr_key r' = sr_key r) rs = None) as ->.
      { apply list_find_None, Forall_forall. intros r' Hr' Heq. apply Hr. rewrite <- Heq.
        by apply list_elem_of_fmap_2. }
      by rewrite lookup_insert_eq.
    + rewrite lookup_insert_ne by done. by destruct (list_find _ rs) as [[]|].
  - intros r' Hr'. unfold reqs_add. rewrite lookup_insert_ne; [apply Hm; by right|].
    intros Heq. apply Hr. rewrite Heq. by apply list_elem_of_fmap_2.
Qed.

Lemma find_key rs r :
  NoDup (map sr_key rs) → r ∈ rs → ∃ n, list_find (λ r', sr_key r' = sr_key r) rs = Some (n, r).
Proof.
  induction rs as [|r' rs IH]; simpl; intros Hnd Hr; [by apply elem_of_nil in Hr|].
  apply NoDup_cons in Hnd as [Hr' Hnd]. apply elem_of_cons in Hr as [->|Hr].
  - exists 0%nat. by rewrite decide_True.
  - rewrite decide_False.
    + destruct (IH Hnd Hr) as (n & ->). by exists (S n).
    + intros Heq. apply Hr'. rewrite Heq. by apply list_elem_of_fmap_2.
Qed.

Lemma foldl_reqs_elem rs r :
  NoDup (map sr_key rs) → r ∈ rs → foldl reqs_add ∅ rs !! sr_key r = Some r.
Proof.
  intros Hnd Hr. rewrite foldl_reqs_add; [|done|done].
  by destruct (find_key rs r Hnd Hr) as (n & ->).
Qed.

Lemma foldl_reqs_absent rs k : k ∉ map sr_key rs → foldl reqs_add ∅ rs !! k = None.
Proof.
  revert k. induction rs as [|r rs IH] using rev_ind; intros k Hk; [done|].
  rewrite foldl_app. simpl. rewrite map_app, elem_of_app in Hk. simpl in Hk.
  unfold reqs_add at 1. rewrite lookup_insert_ne; [apply IH; tauto|].
  intros <-. apply Hk. right. by apply list_elem_of_singleton.
Qed.

#[export] Instance set_scheduling_laws : SchedulingLaws set_req (gmap string set_req).
Proof.
  split; intros; simpl.
  - by destruct op.
  - unfold set_Has; simpl. apply bool_decide_ext. by rewrite elem_of_list_to_set.
  - unfold set_Has. simpl. by rewrite bool_decide_false by set_solver.
  - unfold set_Has. simpl. by rewrite bool_decide_false by set_solver.
  - split; [apply NoDup_elements|]. intros. by rewrite elem_of_elements, elem_of_list_to_set.
  - by rewrite elements_empty.
  - destruct (elements (list_to_set vs : gset string)) as [|v l] eqn:He; simpl.
    + destruct vs as [|v vs]; [done|]. exfalso.
      assert (v ∈ elements (list_to_set (v :: vs) : gset string)) as Hv by set_solver.
      rewrite He in Hv. by apply elem_of_nil in Hv.
    + rewrite <- (elem_of_list_to_set (C := gset string)), <- elem_of_elements, He. by left.
  - unfold set_Insert. simpl. f_equal. set_solver.
  - unfold reqs_get. by rewrite foldl_reqs_elem.
  - unfold reqs_get. by rewrite foldl_reqs_absent.
  - by rewrite foldl_app.
  - rewrite foldl_reqs_elem by set_solver. f_equal. apply map_eq. intros k.
    destruct (decide (sr_key r = k)) as [<-|Hk].
    + rewrite lookup_insert_eq.
      pose proof (foldl_reqs_elem (rs1 ++ set_Insert [v] r :: rs2) (set_Insert [v] r)) as Hl.
      simpl in Hl. rewrite Hl; [done| |set_solver].
      rewrite map_app in *. simpl in *. done.
    + rewrite lookup_insert_ne, !foldl_reqs_add by (rewrite ?map_app in *; done).
      clear -Hk. induction rs1 as [|r1 rs1 IH]; simpl.
      * by rewrite !decide_False by done.
      * case_decide; [done|]. by repeat destruct (list_find _ _) as [[? ?]|].
Qed.

(** ** An instance of [OfferingLib] *)

Section OfferingInstance.
Context {Rq Rqs Q : Type} `{Scheduling Rq Rqs}.

(** Some offering of [it] serves at a price no higher than any in [l]. *)
Definition is_cheapest (reqs : Rqs) (l : list (InstanceType Rqs Q)) (it : InstanceType Rqs Q) : bool :=
  existsb (λ o, serves reqs o &&
    forallb (λ o', negb (serves reqs o') || SFleb (Of_Price o) (Of_Price o'))
      (concat (map IT_Offerings l))) (IT_Offerings it).

Fixpoint cheapest_first (reqs : Rqs) (all before l : list (InstanceType Rqs Q))
  : list (InstanceType Rqs Q) :=
  match l with
  | [] => before
  | it :: l' => if is_cheapest reqs all it then it :: before ++ l'
                else cheapest_first reqs all (before ++ [it]) l'
  end.

#[export] Instance scan_offerings : OfferingLib Rqs Q := {
  Available := List.filter Of_Available;
  OrderByPrice reqs l := cheapest_first reqs l [] l
}.

Lemma serves_not_nan reqs o : serves reqs o = true → is_nan (Of_Price o) = false.
Proof. unfold serves. rewrite !andb_true_iff. intros [_ Hlt]. by destruct (Of_Price o). Qed.

(** Of the offerings that serve, one has the least price. *)
Lemma least_serving reqs (os : list (Offering Rqs)) o0 :
  o0 ∈ os → serves reqs o0 = true →
  ∃ o, o ∈ os ∧ serves reqs o = true ∧
    ∀ o', o' ∈ os → serves reqs o' = true → SFleb (Of_Price o) (Of_Price o') = true.
Proof.
  revert o0. induction os as [|a os IH]; intros o0 Ho Hs; [by apply elem_of_nil in Ho|].
  destruct (existsb (serves reqs) os) eqn:Hex.
  - apply existsb_exists in Hex as (o1 & Ho1%list_elem_of_In & Hs1).
    destruct (IH o1 Ho1 Hs1) as (o & Hin & Hso & Hmin).
    destruct (serves reqs a && SFleb (Of_Price a) (Of_Price o)) eqn:Ha.
    + apply andb_true_iff in Ha as [Hsa Hle]. exists a. split_and!; [by left|done|].
      intros o' [->|Ho']%elem_of_cons Hs'; [by apply SFleb_refl, (serves_not_nan reqs)|].
      by apply SFleb_trans with (Of_Price o); [|apply Hmin].
    + exists o. split_and!; [by right|done|]. intros o' [->|Ho']%elem_of_cons Hs'; [|by apply Hmin].
      rewrite Hs' in Ha. simpl in Ha.
      destruct (SFleb_total (Of_Price o) (Of_Price a)); [by apply (serves_not_nan reqs)..|done|congruence].
  - assert (∀ o, o ∈ os → serves reqs o = true → False) as Hno.
    { intros o Hin%list_elem_of_In Hso. apply not_true_iff_false in Hex. apply Hex, existsb_exists. eauto. }
    apply elem_of_cons in Ho as [->|Ho]; [|by destruct (Hno o0)].
    exists a. split_and!; [by left|done|].
    intros o' [->|Ho']%elem_of_cons Hs'; [by apply SFleb_refl, (serves_not_nan reqs)|by destruct (Hno o')].
Qed.

Lemma cheapest_first_perm reqs all before l : cheapest_first reqs all before l ≡ₚ before ++ l.
Proof.
  revert before; induction l as [|it l IH]; intros before; simpl; [by rewrite app_nil_r|].
  destruct (is_cheapest reqs all it); [by rewrite Permutation_middle|].
  by rewrite IH, <- app_assoc.
Qed.

Lemma cheapest_first_head reqs all before l :
  existsb (is_cheapest reqs all) l = true →
  ∃ it rest, cheapest_first reqs all before l = it :: rest ∧ is_cheapest reqs all it = true.
Proof.
  revert before; induction l as [|it l IH]; intros before; simpl; [done|].
  destruct (is_cheapest reqs all it) eqn:Hc; [eauto|]. apply IH.
Qed.

Lemma is_cheapest_exists reqs l o :
  o ∈ concat (map IT_Offerings l) → serves reqs o = true →
  existsb (is_cheapest reqs l) l = true.
Proof.
  intros Ho Hs. destruct (least_serving reqs _ o Ho Hs) as (o1 & Ho1 & Hs1 & Hmin).
  apply list_elem_of_In, in_concat in Ho1 as (os & (it & <- & Hit)%List.in_map_iff & Hin).
  apply existsb_exists. exists it. split; [done|]. apply existsb_exists. exists o1.
  split; [done|]. rewrite Hs1. apply forallb_forall. intros o' Ho'%list_elem_of_In.
  destruct (serves reqs o') eqn:Hs'; [|done]. by apply Hmin.
Qed.

#[export] Instance scan_offerings_laws : OfferingLibLaws Rq Rqs Q.
Proof.
  split; [done|intros; apply cheapest_first_perm|].
  intros reqs l it rest it' o' Hhd Hit' Ho' Hs'. simpl in Hhd.
  assert (o' ∈ concat (map IT_Offerings l)) as Hin.
  { apply list_elem_of_In, in_concat. exists (IT_Offerings it').
    split; [by apply in_map, list_elem_of_In|by apply list_elem_of_In]. }
  destruct (cheapest_first_head reqs l [] l (is_cheapest_exists reqs l o' Hin Hs'))
    as (it1 & rest1 & Heq & Hc). rewrite Hhd in Heq. injection Heq as <- <-.
  apply existsb_exists in Hc as (o & Ho & [Hs Hall]%andb_true_iff).
  exists o. split_and!; [by apply list_elem_of_In|done|].
  rewrite forallb_forall in Hall. apply list_elem_of_In in Hin.
  specialize (Hall o' Hin). by rewrite Hs' in Hall.
Qed.
End OfferingInstance.
