(* ===== verification/Paging.v ===== *)
(** * The pagination loop of the list calls

    [instancetype.Provider.ListInstanceType] and [instance.Provider.List] walk
    the pages of a listing with the same loop: the token ["0"] stands for the
    first page, whose request carries the empty token, and the loop ends at an
    empty or missing token.  [fetch] is the request for one page. *)

From stdpp Require Import base list strings gmap.
From Stdlib Require Import ZArith Lia.
From S2P Require Import Prelude GoStrings OciModel.

Local Open Scope string_scope.

(** The loop is given fuel; running out is not an outcome of the code, and
    [pages_chain] shows that a listing of [n] pages needs [n]. *)
Definition out_of_fuel : string := "out of fuel".

Section Paging.
Context {W A : Type} (fetch : string → run W (list A * option string)).

Fixpoint pages (fuel : nat) (nextPage : string) (acc : list A) : run W (list A) :=
  if String.eqb nextPage "" then mret acc
  else
    match fuel with
    | O => λ w, (Panic out_of_fuel, w)
    | S fuel' =>
        '(items, OpcNextPage) ← fetch (if String.eqb nextPage "0" then "" else nextPage);
        pages fuel' (from_ptr "" OpcNextPage) (acc ++ items)%list
    end.

(** The answers of a server that lists [chunks] from the page [token] on. *)
Inductive page_chain : W → string → list (list A) → W → Prop :=
| chain_last w token items next w' :
    fetch token w = (Ok (items, next), w') → from_ptr "" next = "" →
    page_chain w token [items] w'
| chain_more w token items next w1 chunks w' :
    fetch token w = (Ok (items, Some next), w1) → next ≠ "" → next ≠ "0" →
    page_chain w1 next chunks w' →
    page_chain w token (items :: chunks) w'.

(** ... and of one that fails on the way with [e]. *)
Inductive page_failure : W → string → gerror → W → Prop :=
| failure_now w token e w' :
    fetch token w = (Err e, w') → page_failure w token e w'
| failure_later w token items next w1 e w' :
    fetch token w = (Ok (items, Some next), w1) → next ≠ "" → next ≠ "0" →
    page_failure w1 next e w' →
    page_failure w token e w'.

Lemma pages_step fuel nextPage acc w :
  nextPage ≠ "" →
  pages (S fuel) nextPage acc w =
    ('(items, next) ← fetch (if String.eqb nextPage "0" then "" else nextPage);
     pages fuel (from_ptr "" next) (acc ++ items)%list) w.
Proof. intros Hn. simpl. by destruct (String.eqb_spec nextPage ""). Qed.

Lemma pages_chain_from w token chunks w' fuel nextPage acc :
  page_chain w token chunks w' →
  nextPage ≠ "" → (if String.eqb nextPage "0" then "" else nextPage) = token →
  (length chunks <= fuel)%nat →
  pages fuel nextPage acc w = (Ok (acc ++ concat chunks)%list, w').
Proof.
  intros Hc. revert fuel nextPage acc.
  induction Hc as [w token items next w' Hf Hn|w token items next w1 chunks w' Hf Hne Hn0 Hc IH];
    intros fuel nextPage acc Hp Ht Hfuel; destruct fuel as [|fuel]; simpl in Hfuel; try lia;
    rewrite pages_step, Ht by done; rewrite (run_bind_step _ _ _ _ _ Hf).
  - rewrite Hn. simpl. rewrite app_nil_r. by destruct fuel.
  - simpl. rewrite IH; [by rewrite <- app_assoc|done| |lia].
    by destruct (String.eqb_spec next "0").
Qed.

(** All items of all pages, in order, once. *)
Lemma pages_chain w chunks w' fuel :
  page_chain w "" chunks w' → (length chunks <= fuel)%nat →
  pages fuel "0" [] w = (Ok (concat chunks), w').
Proof. intros. by rewrite (pages_chain_from w "" chunks w'). Qed.

Lemma pages_failure_from w token e w' :
  page_failure w token e w' → ∃ n, ∀ fuel nextPage acc,
  (n <= fuel)%nat → nextPage ≠ "" → (if String.eqb nextPage "0" then "" else nextPage) = token →
  pages fuel nextPage acc w = (Err e, w').
Proof.
  induction 1 as [w token e w' Hf|w token items next w1 e w' Hf Hne Hn0 _ [n IH]].
  - exists 1%nat. intros [|fuel] nextPage acc Hn Hp Ht; [lia|].
    rewrite pages_step, Ht by done. by apply run_bind_stop.
  - exists (S n). intros [|fuel] nextPage acc Hn Hp Ht; [lia|].
    rewrite pages_step, Ht by done. rewrite (run_bind_step _ _ _ _ _ Hf).
    simpl. apply IH; [lia|done|]. by destruct (String.eqb_spec next "0").
Qed.

(** A page that fails makes the whole listing fail. *)
Lemma pages_failure w e w' :
  page_failure w "" e w' → ∃ n, ∀ fuel, (n <= fuel)%nat → pages fuel "0" [] w = (Err e, w').
Proof. intros Hf. destruct (pages_failure_from _ _ _ _ Hf) as [n Hn]. exists n. intros. by apply Hn. Qed.

(** A server whose page carries the token ["0"] is asked for its first page
    for ever. *)
Lemma pages_zero_token w items acc fuel :
  fetch "" w = (Ok (items, Some "0"), w) →
  pages fuel "0" acc w = (Panic out_of_fuel, w).
Proof.
  intros Hf. revert acc; induction fuel as [|fuel IH]; intros acc; [done|].
  rewrite pages_step by done. simpl. rewrite (run_bind_step _ _ _ _ _ Hf). apply IH.
Qed.
End Paging.
