(* ===== verification/InstanceType.v ===== *)
(** * [pkg/providers/instancetype]: from OCI shapes to karpenter instance types

    [types.go] (sizes, overheads and labels of an instance type) and
    [instancetype.go] (the listing of shapes, its cache, and offerings).
    The writes to the gauges are in [Metrics]; log lines are not modelled. *)

From stdpp Require Import base list strings gmap sorting.
From Stdlib Require Import QArith ZArith SpecFloat Lia Ascii.
From S2P Require Import Prelude GoStrings GoFloat Rounding Utils OciModel Api Options Cache.
From S2P Require Import UnavailableOfferings Sched Paging.

Local Open Scope string_scope.

(** ** [types.go]: tax brackets *)

Definition Gi : Z := 1024 * 1024 * 1024.
Definition MemoryAvailable : string := "memory.available".
Definition NodeFSAvailable : string := "nodefs.available".

Definition ArmShapes : list string :=
  ["BM.Standard.A1.160"; "VM.Standard.A1.Flex"; "VM.Standard.A2.Flex"; "BM.Standard.A4.48";
   "VM.Standard.A4.Flex"].

Record TaxBracket := {
  UpperBound : f64;
  LowerBound : f64;
  Recommended : f64;
  Rate : f64
}.
Notation TaxBrackets := (list TaxBracket).

(** A bracket of the tables: no upper bound; literals as [m * 10^-k]. *)
Definition bracket (lower : Z) (recommended rate : Z * Z) : TaxBracket := {|
  UpperBound := f64_of_Z 0;
  LowerBound := f64_of_Z lower;
  Recommended := f64_of_decimal recommended.1 recommended.2;
  Rate := f64_of_decimal rate.1 rate.2
|}.

Definition reservedMemoryTaxGi : TaxBrackets := [
  bracket 2 (1, 0)%Z (0, 0)%Z;
  bracket 4 (1, 0)%Z (0, 0)%Z;
  bracket 8 (1, 0)%Z (0, 0)%Z;
  bracket 16 (2, 0)%Z (0, 0)%Z;
  bracket 128 (9, 0)%Z (2, 2)%Z
].

Definition reservedCPUTaxVCPU : TaxBrackets := [
  bracket 1 (6, 2)%Z (0, 0)%Z;
  bracket 2 (7, 2)%Z (0, 0)%Z;
  bracket 3 (8, 2)%Z (0, 0)%Z;
  bracket 4 (85, 3)%Z (0, 0)%Z;
  bracket 5 (9, 2)%Z (25, 4)%Z
].

Fixpoint Calculate_from (tax amount : f64) (t : TaxBrackets) : f64 :=
  match t with
  | [] => tax
  | b :: t' =>
      if SFltb amount (LowerBound b) then tax
      else Calculate_from
             (f64_add (Recommended b) (f64_mul (Rate b) (f64_sub amount (LowerBound b)))) amount t'
  end.

Definition TaxBrackets_Calculate (t : TaxBrackets) (amount : f64) : f64 :=
  Calculate_from (f64_of_Z 0) amount t.

(** ** [types.go]: resources *)

(** Kilobyte texts: [fmt.Sprintf("%dGi", n)]. *)
Definition GiText (n : Z) : string := Itoa n +:+ "Gi".

Section Types.
Context {Rq Rqs Q : Type} `{Scheduling Rq Rqs} `{Quantities Q}.
(** [strconv.ParseFloat] of a text that is not plain decimal digits. *)
Variable ParseFloat_other : string → option f64.
Variable opts : Options.

Definition cpu (n : Z) : res Q := MustParse (Itoa n).

Definition memory (memoryInGBs : Z) : res Q :=
  mem ← MustParse (GiText memoryInGBs);
  (let overhead :=
     f64_div (f64_div (f64_mul (f64_of_Z (Q_Value mem)) (VMMemoryOverheadPercent opts))
                (f64_of_Z 1024)) (f64_of_Z 1024) in
   sub ← MustParse (Itoa (int64_of_float (f64_ceil overhead)) +:+ "Mi");
   Ok (Q_Sub mem sub)).

Definition ephemeralStorage (nodeclass : OciNodeClass) : res Q :=
  boot ← deref (NodeClass_BootConfig (Spec nodeclass));
  MustParse (GiText (BootVolumeSizeInGBs boot)).

Definition nvidiaGPUs (shape : Shape) : res Q :=
  MustParse (Itoa (from_ptr 0%Z (Gpus shape))).

(** The number of pods, before it is printed. *)
Definition pod_count (shape : WrapShape) (kc : KubeletConfiguration) : Z :=
  let count := match MaxPods kc with Some n => n | None => 110%Z end in
  let count :=
    match PodsPerCore kc with
    | Some n => Z.min (wrap64 (n * CalcCpu shape)) count
    | None => count
    end in
  Z.min count (wrap64 (wrap64 (CalMaxVnic shape - 1) * 31)).

Definition pods (shape : WrapShape) (kc : KubeletConfiguration) : res Q :=
  MustParse (Itoa (pod_count shape kc)).

Definition computeCapacity (shape : WrapShape) (kc : KubeletConfiguration)
    (nodeclass : OciNodeClass) : res (ResourceList Q) :=
  c ← cpu (CalcCpu shape);
  m ← memory (CalMemInGBs shape);
  e ← ephemeralStorage nodeclass;
  p ← pods shape kc;
  g ← nvidiaGPUs (wShape shape);
  Ok (list_to_map [(ResourceCPU, c); (ResourceMemory, m); (ResourceEphemeralStorage, e);
                   (ResourcePods, p); (ResourceNVIDIAGPU, g)]).

(** [lo.MapEntries(m, ... resource.MustParse(v))] *)
Definition parse_resources (m : gmap string string) : res (ResourceList Q) :=
  l ← map_res (λ '(k, v), q ← MustParse v; Ok (k, q)) (map_to_list m);
  Ok (list_to_map l).

Definition SystemReservedResources (kc : KubeletConfiguration) : res (ResourceList Q) :=
  match SystemReserved kc with
  | Some m => parse_resources m
  | None =>
      Ok (list_to_map [(ResourceCPU, NewMilliQuantity 100);
                       (ResourceMemory, NewQuantity (100 * 1024 * 1024))])
  end.

Definition reserved_memory_Mi (memGi : Z) : Z :=
  int64_of_float (f64_mul (f64_of_Z 1024) (TaxBrackets_Calculate reservedMemoryTaxGi (f64_of_Z memGi))).
Definition reserved_cpu_milli (cpus : Z) : Z :=
  int64_of_float (f64_mul (f64_of_Z 1000) (TaxBrackets_Calculate reservedCPUTaxVCPU (f64_of_Z cpus))).

Definition KubeReservedResources (kc : KubeletConfiguration) (cpu memory : Q) : res (ResourceList Q) :=
  if bool_decide (KubeReserved kc = ∅) then
    let reservedMemoryMi := reserved_memory_Mi (Z.quot (Q_Value memory) Gi) in
    let reservedCPUMilli := reserved_cpu_milli (Q_Value cpu) in
    es ← MustParse "1Gi";
    Ok (list_to_map [(ResourceCPU, NewMilliQuantity reservedCPUMilli);
                     (ResourceMemory, NewQuantity (wrap64 (wrap64 (reservedMemoryMi * 1024) * 1024)));
                     (ResourceEphemeralStorage, es)])
  else parse_resources (KubeReserved kc).

(** Decimal digits with an optional point: the value as [m * 10^-k]. *)
Fixpoint parse_decimal (seen_point : bool) (m k : Z) (digits : nat) (s : string) : option (Z * Z) :=
  match s with
  | EmptyString => if (digits =? 0)%nat then None else Some (m, k)
  | String c s' =>
      if is_digit c then
        parse_decimal seen_point (10 * m + (Z.of_nat (nat_of_ascii c) - 48))
          (if seen_point then k + 1 else k) (S digits) s'
      else if Ascii.eqb c "."%char && negb seen_point then parse_decimal true m k digits s'
      else None
  end.

Definition ParseFloat (s : string) : option f64 :=
  match parse_decimal false 0 0 0 s with
  | Some (m, k) => Some (f64_of_decimal m k)
  | None => ParseFloat_other s
  end.

Definition mustParsePercentage (v : string) : res f64 :=
  match ParseFloat (TrimChar "%"%char v) with
  | Some p => Ok (if SFeqb p (f64_of_Z 100) then f64_of_Z 0 else p)
  | None => Panic "expected percentage value to be a float"
  end.

Definition computeEvictionSignal (capacity : Q) (signalValue : string) : res Q :=
  if HasSuffix signalValue "%" then
    p ← mustParsePercentage signalValue;
    MustParseFloat (f64_ceil (f64_mul (f64_div (AsApproximateFloat64 capacity) (f64_of_Z 100)) p))
  else MustParse signalValue.

(** [temp[r] = computeEvictionSignal(...)] when the signal is set. *)
Definition eviction_override (m : gmap string string) (signal r : string) (capacity : Q)
    (temp : ResourceList Q) : res (ResourceList Q) :=
  match m !! signal with
  | Some v => q ← computeEvictionSignal capacity v; Ok (<[r := q]> temp)
  | None => Ok temp
  end.

Definition EvictionThreshold (memory storage : Q) (kc : KubeletConfiguration) : res (ResourceList Q) :=
  hundredMi ← MustParse "100Mi";
  tenth ← MustParseFloat
    (f64_ceil (f64_mul (f64_div (f64_of_Z (Q_Value storage)) (f64_of_Z 100)) (f64_of_Z 10)));
  (let overhead := list_to_map [(ResourceMemory, hundredMi); (ResourceEphemeralStorage, tenth)] in
   override ←
     match EvictionHard kc with
     | Some m =>
         temp ← eviction_override m MemoryAvailable ResourceMemory memory ∅;
         temp ← eviction_override m NodeFSAvailable ResourceEphemeralStorage storage temp;
         Ok (MaxResources ∅ temp)
     | None => Ok ∅
     end;
   Ok (override ∪ overhead)).

(** ** [types.go]: requirements *)

Definition bool_text (b : bool) : string := if b then "true" else "false".

(** The requirements before the optional values are inserted. *)
Definition base_requirements (region name : string) (shape : WrapShape) (capacityTypes zones : list string)
  : list Rq :=
  let arch := if bool_decide (name ∈ ArmShapes) then "arm64" else "amd64" in
  [NewRequirement LabelInstanceTypeStable OpIn [name];
   NewRequirement LabelArchStable OpIn [arch];
   NewRequirement LabelOSStable OpIn ["linux"];
   NewRequirement LabelTopologyZone OpIn zones;
   NewRequirement LabelTopologyRegion OpIn [region];
   NewRequirement CapacityTypeLabelKey OpIn capacityTypes;
   NewRequirement LabelInstanceShapeName OpIn [name];
   NewRequirement LabelInstanceCPU OpIn [Itoa (CalcCpu shape)];
   NewRequirement LabelIsFlexible OpIn [bool_text (from_ptr false (IsFlexible (wShape shape)))];
   NewRequirement LabelInstanceGPU OpDoesNotExist [];
   NewRequirement LabelInstanceGPUDescription OpDoesNotExist [];
   NewRequirement LabelInstanceMemory OpIn [Itoa (wrap64 (CalMemInGBs shape * 1024))];
   NewRequirement LabelInstanceNetworkBandwidth OpDoesNotExist [];
   NewRequirement LabelInstanceMaxVNICs OpDoesNotExist []].

Context `{OfferingLib Rqs Q}.

Definition computeRequirements (region : string) (shape : WrapShape) (offerings : list (Offering Rqs))
    (zones : list string) : res Rqs :=
  name ← deref (Shape_Shape (wShape shape));
  let capacityTypes :=
    map (λ o, Req_Any (Reqs_Get (Of_Requirements o) CapacityTypeLabelKey))
      (Available (Q := Q) offerings) in
  let requirements := NewRequirements (base_requirements region name shape capacityTypes zones) in
  requirements ←
    match NetworkingBandwidthInGbps (wShape shape) with
    | Some _ => Reqs_InsertAt LabelInstanceNetworkBandwidth
                  (Itoa (wrap64 (CalMaxBandwidthInGbps shape * 1024))) requirements
    | None => Ok requirements
    end;
  requirements ←
    match MaxVnicAttachments (wShape shape) with
    | Some _ => Reqs_InsertAt LabelInstanceMaxVNICs (Itoa (CalMaxVnic shape)) requirements
    | None => Ok requirements
    end;
  match Gpus (wShape shape) with
  | Some gpus =>
      if (gpus =? 0)%Z then Ok requirements
      else
        n ← nvidiaGPUs (wShape shape);
        requirements ← Reqs_InsertAt LabelInstanceGPU (Itoa (Q_Value n)) requirements;
        Reqs_InsertAt LabelInstanceGPUDescription
          (SanitizeLabelValue (from_ptr "" (GpuDescription (wShape shape)))) requirements
  | None => Ok requirements
  end.

Definition NewInstanceType (region : string) (shape : WrapShape) (nodeClass : OciNodeClass)
    (zones : list string) (offerings : list (Offering Rqs)) : res (InstanceType Rqs Q) :=
  let kc := default zero_kubelet (Kubelet (Spec nodeClass)) in
  name ← deref (Shape_Shape (wShape shape));
  requirements ← computeRequirements region shape offerings zones;
  capacity ← computeCapacity shape kc nodeClass;
  c ← cpu (CalcCpu shape);
  m ← MustParse (GiText (CalMemInGBs shape));
  kube ← KubeReservedResources kc c m;
  system ← SystemReservedResources kc;
  boot ← deref (NodeClass_BootConfig (Spec nodeClass));
  storage ← MustParse (GiText (BootVolumeSizeInGBs boot));
  eviction ← EvictionThreshold m storage kc;
  Ok {| IT_Name := name; IT_Requirements := requirements; IT_Offerings := offerings;
        IT_Capacity := capacity;
        IT_Overhead := {| Ov_KubeReserved := kube; Ov_SystemReserved := system;
                          Ov_EvictionThreshold := eviction |} |}.
End Types.

(** ** [instancetype.go]: flexible shapes *)

Definition InstanceTypesCacheKey : string := "types".
Definition supportInstanceTypes : list string := [CapacityTypeOnDemand; CapacityTypePreemptible].

Section Shapes.
Variable opts : Options.

Definition supportPreemptible (shapeName : string) : bool :=
  let preemptibleList := Split (PreemptibleShapes opts) "," in
  let excludeList := Split (PreemptibleExcludeShapes opts) "," in
  existsb (HasPrefix shapeName) preemptibleList &&
  negb (existsb (HasPrefix shapeName) excludeList).

(** [int64( *p)] of a pointer to a float32. *)
Definition int_of_ptr (p : option f32) : res Z := x ← deref p; Ok (int64_of_float x).

Definition flex_max_vnic (shape : Shape) (cpus : Z) : res Z :=
  match MaxVnicAttachmentOptions shape ≫= DefaultPerOcpu with
  | Some per =>
      Ok (Z.min 24 (if (cpus =? 1)%Z then 2 else wrap64 (int64_of_float per * cpus)))
  | None => deref (MaxVnicAttachments shape)
  end.

Definition flex_max_bandwidth (shape : Shape) (cpus : Z) : res Z :=
  match NetworkingBandwidthOptions shape with
  | Some o =>
      match DefaultPerOcpuInGbps o with
      | Some per =>
          least ← int_of_ptr (MinInGbps o);
          most ← int_of_ptr (MaxInGbps o);
          Ok (Z.max least (Z.min most (wrap64 (int64_of_float per * cpus))))
      | None => int_of_ptr (NetworkingBandwidthInGbps shape)
      end
  | None => int_of_ptr (NetworkingBandwidthInGbps shape)
  end.

(** One pass of the two loops: [None] for [continue]. *)
Definition flex_size (shape : Shape) (ratioFactor : Z) (ad constrainCpu ratio : string)
  : res (option WrapShape) :=
  match Atoi ratio, Atoi constrainCpu with
  | Some ratioInt, Some cpus =>
      let memInGBs := wrap64 (wrap64 (cpus * ratioFactor) * ratioInt) in
      ocpuOptions ← deref (OcpuOptions shape);
      minOcpu ← int_of_ptr (Ocpu_Min ocpuOptions);
      tooSmall ←
        (if (cpus <? minOcpu)%Z then Ok true
         else memoryOptions ← deref (MemoryOptions shape);
              minMem ← int_of_ptr (MinInGBs memoryOptions);
              Ok (memInGBs <? minMem)%Z);
      if (tooSmall : bool) then Ok None
      else
        maxOcpu ← int_of_ptr (Ocpu_Max ocpuOptions);
        tooLarge ←
          (if (maxOcpu <? cpus)%Z then Ok true
           else memoryOptions ← deref (MemoryOptions shape);
                maxMem ← int_of_ptr (MaxInGBs memoryOptions);
                Ok (maxMem <? memInGBs)%Z);
        if (tooLarge : bool) then Ok None
        else
          calMaxVnic ← flex_max_vnic shape cpus;
          calMaxBandwidth ← flex_max_bandwidth shape cpus;
          Ok (Some {| wShape := shape; CalcCpu := wrap64 (cpus * ratioFactor);
                      CalMemInGBs := memInGBs; OciModel.AvailableDomains := [ad];
                      CalMaxVnic := calMaxVnic; CalMaxBandwidthInGbps := calMaxBandwidth |})
  | _, _ => Ok None
  end.

Definition splitFlexCpuMem (shape : Shape) (ad : string) : res (list WrapShape) :=
  shapeName ← deref (Shape_Shape shape);
  let flexCpuMemRatios := Split (FlexCpuMemRatios opts) "," in
  let constrainCpus := Split (FlexCpuConstrainList opts) "," in
  let ratioFactor := if IsA1FlexShape shapeName then 1%Z else 2%Z in
  sizes ← map_res (λ '(c, r), flex_size shape ratioFactor ad c r)
    (list_prod constrainCpus flexCpuMemRatios);
  Ok (keep sizes).

Definition fixed_size (shape : Shape) (ad : string) : res WrapShape :=
  ocpus ← int_of_ptr (Ocpus shape);
  mem ← int_of_ptr (MemoryInGBs shape);
  vnics ← deref (MaxVnicAttachments shape);
  bandwidth ← int_of_ptr (NetworkingBandwidthInGbps shape);
  Ok {| wShape := shape; CalcCpu := wrap64 (ocpus * 2); CalMemInGBs := mem;
        OciModel.AvailableDomains := [ad]; CalMaxVnic := vnics;
        CalMaxBandwidthInGbps := bandwidth |}.

Definition toWrapShape (shapes : list Shape) (ad : string) : res (list WrapShape) :=
  ls ← map_res (λ shape,
    flexible ← deref (IsFlexible shape);
    if (flexible : bool) then splitFlexCpuMem shape ad
    else w ← fixed_size shape ad; Ok [w]) shapes;
  Ok (concat ls).
End Shapes.

(** ** [instancetype.go]: the listing *)

(** The key of the merged map: [fmt.Sprintf("%s-%d-%d", ...)]. *)
Definition size_key (name : string) (cpus mem : Z) : string :=
  name +:+ "-" +:+ Itoa cpus +:+ "-" +:+ Itoa mem.

Definition shape_key (w : WrapShape) : res string :=
  name ← deref (Shape_Shape (wShape w));
  Ok (size_key name (CalcCpu w) (CalMemInGBs w)).

Definition add_zone (ad : string) (w : WrapShape) : WrapShape := {|
  wShape := wShape w; CalcCpu := CalcCpu w; CalMemInGBs := CalMemInGBs w;
  OciModel.AvailableDomains := OciModel.AvailableDomains w ++ [ad];
  CalMaxVnic := CalMaxVnic w; CalMaxBandwidthInGbps := CalMaxBandwidthInGbps w
|}.

(** The body of the combining loop: a new key takes the shape, a known one
    gains the availability domain. *)
Definition combine_zone (wrapShapes : gmap string WrapShape) (entry : string * WrapShape)
  : res (gmap string WrapShape) :=
  let '(ad, shape) := entry in
  key ← shape_key shape;
  Ok (match wrapShapes !! key with
      | None => <[key := shape]> wrapShapes
      | Some wrapped => <[key := add_zone ad wrapped]> wrapShapes
      end).

Section Listing.
Context {W C UC : Type} `{ComputeClient W} `{Clock W} {order : MapOrder}
  `{TTLCache (gmap string WrapShape) C} `{TTLCache unit UC}.
Variable opts : Options.

(** The provider's cache, the shared table of offerings and the world. *)
Record State := { it_cache : C; it_offerings : UnavailableOfferings UC; it_world : W }.

Definition set_it_world (w : W) (s : State) : State :=
  {| it_cache := it_cache s; it_offerings := it_offerings s; it_world := w |}.
Definition set_it_cache (c : C) (s : State) : State :=
  {| it_cache := c; it_offerings := it_offerings s; it_world := it_world s |}.

Definition on_world {A} (m : run W A) : run State A := zoom it_world set_it_world m.

(** All shapes of an availability domain. *)
Definition list_shapes (fuel : nat) (availableDomain : string) : run W (list Shape) :=
  pages (λ page, client_ListShapes (CompartmentId opts) availableDomain page) fuel "0" [].

(** The loop over the configured domains; the map is keyed by the part of the
    name after the colon. *)
Definition collect_domain (fuel : nat) (m : gmap string (list WrapShape)) (availableDomain : string)
  : run State (gmap string (list WrapShape)) :=
  shapes ← on_world (list_shapes fuel availableDomain);
  ad ← lift (index (Split availableDomain ":") 1);
  ws ← lift (toWrapShape opts shapes ad);
  mret (match m !! ad with
        | Some old => <[ad := (old ++ ws)%list]> m
        | None => <[ad := ws]> m
        end).

(** The entries of [adShapesMap] in the order the loops visit them. *)
Definition flatten_domains (m : gmap string (list WrapShape)) : list (string * WrapShape) :=
  concat (map (λ '(ad, shapes), map (λ s, (ad, s)) shapes) (range_map "adShapesMap" m)).

(** What [ListInstanceType] does when the cache has no entry. *)
Definition refresh (fuel : nat) : run State (gmap string WrapShape) :=
  adShapesMap ← for_each (collect_domain fuel) (Options.AvailableDomains opts) ∅;
  wrapShapes ← lift (fold_res combine_zone ∅ (flatten_domains adShapesMap));
  s ← get_state;
  put_state (set_it_cache (cache_SetDefault (clock_now (it_world s)) InstanceTypesCacheKey
                             wrapShapes (it_cache s)) s);;
  mret wrapShapes.

Definition ListInstanceType (fuel : nat) : run State (gmap string WrapShape) :=
  s ← get_state;
  match cache_Get (clock_now (it_world s)) InstanceTypesCacheKey (it_cache s) with
  | Some cached => mret cached
  | None => refresh fuel
  end.

(** ** [instancetype.go]: offerings *)

Context {Rq Rqs Q : Type} `{Scheduling Rq Rqs} `{Quantities Q} `{OfferingLib Rqs Q}.
(** [pricing.Provider] *)
Variable Price : WrapShape → res f32.

Definition offering_requirements (shape : WrapShape) (zone capacityType : string) : Rqs :=
  let offerReq := NewRequirements
    [NewRequirement CapacityTypeLabelKey OpIn [capacityType];
     NewRequirement LabelTopologyZone OpIn [zone]] in
  if from_ptr false (IsFlexible (wShape shape)) then
    Reqs_Add [NewRequirement LabelInstanceCPU OpIn [Itoa (CalcCpu shape)];
              NewRequirement LabelInstanceMemory OpIn [Itoa (wrap64 (CalMemInGBs shape * 1024))]] offerReq
  else offerReq.

(** The offering at a price, given whether it is marked unavailable. *)
Definition make_offering (shape : WrapShape) (name zone capacityType : string) (isUnavailable : bool) (p : f32)
  : Offering Rqs :=
  let price := f64_of_f32 p in
  let '(price, isUnavailable) :=
    if String.eqb capacityType CapacityTypePreemptible then
      if supportPreemptible opts name then (f64_mul price (f64_of_decimal 5 1), isUnavailable)
      else (price, true)
    else (price, isUnavailable) in
  {| Of_Requirements := offering_requirements shape zone capacityType;
     Of_Price := price; Of_Available := negb isUnavailable |}.

Definition create_offering (now : Z) (uo : UnavailableOfferings UC) (shape : WrapShape)
    (zone capacityType : string) : res (Offering Rqs) :=
  name ← deref (Shape_Shape (wShape shape));
  let isUnavailable := IsUnavailable now name zone capacityType uo in
  p ← Price shape;
  Ok (make_offering shape name zone capacityType isUnavailable p).

(** [sets.New(zones...)] and the range over it *)
Definition zone_set (zones : list string) : gmap string unit :=
  list_to_map (map (λ z, (z, tt)) zones).
Definition range_zones (shape : WrapShape) (zones : gmap string unit) : list string := map fst (range_map shape zones).

Definition CreateOfferings (now : Z) (uo : UnavailableOfferings UC) (shape : WrapShape)
    (zones : gmap string unit) : res (list (Offering Rqs)) :=
  map_res (λ '(zone, capacityType), create_offering now uo shape zone capacityType)
    (list_prod (range_zones shape zones) supportInstanceTypes).

Variable ParseFloat_other : string → option f64.
Variable region : string.

Definition List (fuel : nat) (nodeClass : OciNodeClass) : run State (list (InstanceType Rqs Q)) :=
  wrapShapes ← ListInstanceType fuel;
  s ← get_state;
  lift (map_res (λ '(_, wrapped),
    offerings ← CreateOfferings (clock_now (it_world s)) (it_offerings s) wrapped
      (zone_set (OciModel.AvailableDomains wrapped));
    NewInstanceType ParseFloat_other opts region wrapped nodeClass
      (OciModel.AvailableDomains wrapped) offerings)
    (range_map "wrapShapes" wrapShapes)).
End Listing.

(** ** Lemmas: merging the availability domains *)

Definition add_zones (zones : list string) (w : WrapShape) : WrapShape :=
  foldl (λ w z, add_zone z w) w zones.

Lemma add_zones_spec zones w :
  OciModel.AvailableDomains (add_zones zones w) = (OciModel.AvailableDomains w ++ zones)%list ∧
  shape_key (add_zones zones w) = shape_key w.
Proof.
  unfold add_zones. revert w; induction zones as [|z zones IH]; intros w; simpl.
  - by rewrite app_nil_r.
  - destruct (IH (add_zone z w)) as [-> ->]. simpl. by rewrite <- (assoc_L app).
Qed.

(** The entries of the flattened list with the key [k]. *)
Definition with_key (k : string) (l : list (string * WrapShape)) : list (string * WrapShape) :=
  List.filter (λ e, match shape_key e.2 with Ok k' => String.eqb k' k | _ => false end) l.

Lemma with_key_app k l1 l2 : with_key k (l1 ++ l2) = (with_key k l1 ++ with_key k l2)%list.
Proof. apply List.filter_app. Qed.

Lemma with_key_elem k l e : e ∈ with_key k l ↔ e ∈ l ∧ shape_key e.2 = Ok k.
Proof.
  unfold with_key. rewrite !list_elem_of_In, List.filter_In.
  destruct (shape_key e.2) as [k'|?|?]; [|naive_solver..].
  rewrite String.eqb_eq. naive_solver.
Qed.

Lemma fold_res_app {A B} (f : B → A → res B) b l1 l2 :
  fold_res f b (l1 ++ l2) = b' ← fold_res f b l1; fold_res f b' l2.
Proof.
  revert b; induction l1 as [|x l1 IH]; intros b; [done|]. simpl.
  destruct (f b x); simpl; auto.
Qed.

(** What the combining loop leaves under a key: the first shape with it, in
    all the domains that have one. *)
Lemma combine_lookup l :
  Forall (λ e, is_Some (Shape_Shape (wShape e.2))) l →
  ∃ m, fold_res combine_zone ∅ l = Ok m ∧
    ∀ k, m !! k = match with_key k l with
                  | [] => None
                  | (_, s) :: rest => Some (add_zones rest.*1 s)
                  end.
Proof.
  induction l as [|[ad s] l IH] using rev_ind; intros Hn; [by exists ∅|].
  apply Forall_app in Hn as [Hn Hs]. destruct (IH Hn) as (m & Hm & Hk).
  rewrite Forall_singleton in Hs. destruct Hs as [name Hname]. simpl in Hname.
  set (key := size_key name (CalcCpu s) (CalMemInGBs s)).
  assert (shape_key s = Ok key) as Hkey by (unfold shape_key; by rewrite Hname).
  eexists. split; [rewrite fold_res_app, Hm; simpl; by rewrite Hkey|].
  intros k. rewrite with_key_app. unfold with_key at 2. simpl. rewrite Hkey.
  destruct (String.eqb_spec key k) as [<-|Hne].
  - rewrite (Hk key). destruct (with_key key l) as [|[ad1 s1] rest]; simpl;
      rewrite lookup_insert_eq; [done|].
    rewrite fmap_app. unfold add_zones. by rewrite foldl_app.
  - rewrite app_nil_r, <- Hk. by destruct (m !! key); rewrite lookup_insert_ne.
Qed.

(** ** Lemmas: shapes of one domain *)

Lemma keep_elem {A} (l : list (option A)) a : a ∈ keep l ↔ Some a ∈ l.
Proof. unfold keep. rewrite list_elem_of_omap. naive_solver. Qed.

(** A size that a flexible shape is offered in, with its limits. *)
Definition flex_limits (shape : Shape) (lo hi lom him : Z) : Prop :=
  ∃ o m, OcpuOptions shape = Some o ∧ MemoryOptions shape = Some m ∧
    int_of_ptr (Ocpu_Min o) = Ok lo ∧ int_of_ptr (Ocpu_Max o) = Ok hi ∧
    int_of_ptr (MinInGBs m) = Ok lom ∧ int_of_ptr (MaxInGBs m) = Ok him.

Lemma flex_size_inv shape f ad c r w :
  flex_size shape f ad c r = Ok (Some w) →
  ∃ cpus ratio lo hi lom him,
    Atoi c = Some cpus ∧ Atoi r = Some ratio ∧ flex_limits shape lo hi lom him ∧
    (lo <= cpus <= hi)%Z ∧ (lom <= CalMemInGBs w <= him)%Z ∧
    CalMemInGBs w = wrap64 (wrap64 (cpus * f) * ratio) ∧ CalcCpu w = wrap64 (cpus * f) ∧
    wShape w = shape ∧ OciModel.AvailableDomains w = [ad] ∧
    flex_max_vnic shape cpus = Ok (CalMaxVnic w) ∧
    flex_max_bandwidth shape cpus = Ok (CalMaxBandwidthInGbps w).
Proof.
  unfold flex_size. destruct (Atoi r) as [ratio|], (Atoi c) as [cpus|]; try done.
  intros Hw. ltb_inv; res_inv; try done. simplify_eq/=.
  eexists _, _, _, _, _, _. split_and!; try done; try lia. eexists _, _. by split_and!.
Qed.

Lemma splitFlexCpuMem_elem opts shape ad ws w :
  splitFlexCpuMem opts shape ad = Ok ws →
  w ∈ ws ↔ ∃ name c r, Shape_Shape shape = Some name ∧
    c ∈ Split (FlexCpuConstrainList opts) "," ∧ r ∈ Split (FlexCpuMemRatios opts) "," ∧
    flex_size shape (if IsA1FlexShape name then 1%Z else 2%Z) ad c r = Ok (Some w).
Proof.
  unfold splitFlexCpuMem. intros Hs. res_inv.
  match goal with H : map_res _ _ = Ok _ |- _ => apply map_res_Ok in H as Hm end.
  rewrite keep_elem. split.
  - intros Hw. apply list_elem_of_lookup in Hw as [i Hi].
    destruct (Forall2_lookup_r _ _ _ _ _ Hm Hi) as ([c r] & Hcr & Hsz).
    apply list_elem_of_lookup_2, list_elem_of_In, in_prod_iff in Hcr as [Hc Hr].
    exists x, c, r. by rewrite !list_elem_of_In.
  - intros (name & c & r & Hname & Hc & Hr & Hsz). simplify_eq.
    assert ((c, r) ∈ list_prod (Split (FlexCpuConstrainList opts) ",") (Split (FlexCpuMemRatios opts) ","))
      as Hcr by (rewrite list_elem_of_In, in_prod_iff, <- !list_elem_of_In; done).
    apply list_elem_of_lookup in Hcr as [i Hi].
    destruct (Forall2_lookup_l _ _ _ _ _ Hm Hi) as (o & Ho & Hsz'). simpl in Hsz'.
    rewrite Hsz in Hsz'. simplify_eq. by apply list_elem_of_lookup_2 with i.
Qed.

(** Every shape of a domain is listed for that domain only. *)
Lemma toWrapShape_domain opts shapes ad ws w :
  toWrapShape opts shapes ad = Ok ws → w ∈ ws → OciModel.AvailableDomains w = [ad].
Proof.
  unfold toWrapShape. intros Hws Hw. res_inv.
  match goal with H : map_res _ _ = Ok _ |- _ => apply map_res_Ok in H as Hm end.
  apply list_elem_of_In, in_concat in Hw as (l & Hl & Hw).
  apply list_elem_of_In, list_elem_of_lookup in Hl as [i Hi].
  destruct (Forall2_lookup_r _ _ _ _ _ Hm Hi) as (shape & _ & Hshape).
  res_inv. destruct x0.
  - match goal with H : splitFlexCpuMem _ _ _ = Ok _ |- _ => rewrite <- list_elem_of_In, (splitFlexCpuMem_elem _ _ _ _ _ H) in Hw end.
    destruct Hw as (? & ? & ? & _ & _ & _ & Hsz). apply flex_size_inv in Hsz. naive_solver.
  - unfold fixed_size in *. res_inv. by destruct Hw as [<-|[]].
Qed.

Lemma flex_size_in_limits shape f ad c r o cpus ratio lo hi lom him :
  Atoi c = Some cpus → Atoi r = Some ratio → flex_limits shape lo hi lom him →
  (lo <= cpus <= hi)%Z → (lom <= wrap64 (wrap64 (cpus * f) * ratio) <= him)%Z →
  flex_size shape f ad c r = Ok o → is_Some o.
Proof.
  intros Hc Hr (oo & mo & Ho & Hm & Hlo & Hhi & Hlom & Hhim) Hcpu Hmem.
  unfold flex_size. rewrite Hc, Hr. intros Hw.
  ltb_inv; simplify_eq; res_inv; try lia; eauto.
Qed.

(** *** The flexible shapes *)

Section FlexSpec.
Variable opts : Options.

Definition listed_cpus (cpus : Z) : Prop :=
  ∃ c, c ∈ Split (FlexCpuConstrainList opts) "," ∧ Atoi c = Some cpus.
Definition listed_ratio (ratio : Z) : Prop :=
  ∃ r, r ∈ Split (FlexCpuMemRatios opts) "," ∧ Atoi r = Some ratio.

(** The configured numbers are small enough that no product overflows. *)
Definition sane_lists : Prop :=
  (∀ z, listed_cpus z → (0 <= z < 2 ^ 20)%Z) ∧ (∀ z, listed_ratio z → (0 <= z < 2 ^ 20)%Z).

Lemma flex_products cpus ratio f :
  sane_lists → listed_cpus cpus → listed_ratio ratio → (1 <= f <= 2)%Z →
  wrap64 (cpus * f) = (cpus * f)%Z ∧ wrap64 (wrap64 (cpus * f) * ratio) = (cpus * f * ratio)%Z.
Proof.
  intros [Hs1 Hs2] Hc%Hs1 Hr%Hs2 Hf. set (p := (cpus * f)%Z).
  assert (0 <= p < 2 ^ 21)%Z as Hp by (unfold p; nia).
  assert (0 <= p * ratio < 2 ^ 41)%Z by nia.
  assert (wrap64 p = p) as -> by (apply wrap64_id; unfold in_int64, min_int64, max_int64; lia).
  split; [done|]. apply wrap64_id. unfold in_int64, min_int64, max_int64. lia.
Qed.

(** C14: When the configured core counts and memory ratios are at least 0 and below 2^20 (so
    that no product overflows), splitFlexCpuMem lists exactly the sizes of a flexible shape that
    they give within the limits of the shape, with 2 vCPUs per core (1 for A1) and memory a
    multiple of the vCPUs. A size of a shape with a number of VNICs per core has 2 for one core
    and the whole part of that number times the cores for more, at most 24; of any other shape,
    it has the VNICs of the shape, whatever that number is. *)
Theorem splitFlexCpuMem_spec (shape : Shape) (ad name : string) (lo hi lom him : Z) (ws : list WrapShape) :
  sane_lists → Shape_Shape shape = Some name → flex_limits shape lo hi lom him →
  splitFlexCpuMem opts shape ad = Ok ws →
  let vcpus := if IsA1FlexShape name then 1%Z else 2%Z in
  (∀ w, w ∈ ws → ∃ cpus ratio, listed_cpus cpus ∧ listed_ratio ratio ∧
     CalcCpu w = (cpus * vcpus)%Z ∧ CalMemInGBs w = (CalcCpu w * ratio)%Z ∧
     (lo <= cpus <= hi)%Z ∧ (lom <= CalMemInGBs w <= him)%Z ∧
     match MaxVnicAttachmentOptions shape ≫= DefaultPerOcpu with
     | Some per => CalMaxVnic w = Z.min 24 (if (cpus =? 1)%Z then 2 else wrap64 (int64_of_float per * cpus))
     | None => MaxVnicAttachments shape = Some (CalMaxVnic w)
     end ∧
     wShape w = shape ∧ OciModel.AvailableDomains w = [ad]) ∧
  (∀ cpus ratio, listed_cpus cpus → listed_ratio ratio →
     (lo <= cpus <= hi)%Z → (lom <= cpus * vcpus * ratio <= him)%Z →
     ∃ w, w ∈ ws ∧ CalcCpu w = (cpus * vcpus)%Z ∧ CalMemInGBs w = (cpus * vcpus * ratio)%Z).
Proof.
  intros Hsane Hname Hlim Hws vcpus.
  assert (1 <= vcpus <= 2)%Z as Hf by (unfold vcpus; destruct (IsA1FlexShape name); lia).
  split.
  - intros w Hw. rewrite (splitFlexCpuMem_elem _ _ _ _ _ Hws) in Hw.
    destruct Hw as (name' & c & r & Hn & Hc & Hr & Hsz). rewrite Hname in Hn. simplify_eq.
    apply flex_size_inv in Hsz as (cpus & ratio & lo' & hi' & lom' & him' & Hac & Har & Hl' & Hcpu & Hmem & Hm & Hp & Hwo & Had & Hv & _).
    assert (lo' = lo ∧ hi' = hi ∧ lom' = lom ∧ him' = him) as (-> & -> & -> & ->).
    { destruct Hl' as (? & ? & ? & ? & ? & ? & ? & ?), Hlim as (? & ? & ? & ? & ? & ? & ? & ?).
      simplify_eq. by split_and!; congruence. }
    assert (listed_cpus cpus) as Hlc by (by exists c).
    assert (listed_ratio ratio) as Hlr by (by exists r).
    destruct (flex_products cpus ratio vcpus Hsane Hlc Hlr Hf) as [He1 He2]. fold vcpus in Hm, Hp.
    exists cpus, ratio. rewrite He2 in Hm. rewrite He1 in Hp. split_and!; try done; try lia.
    unfold flex_max_vnic in Hv. destruct (_ ≫= DefaultPerOcpu); [by injection Hv as <-|].
    destruct (MaxVnicAttachments shape); [by injection Hv as ->|done].
  - intros cpus ratio Hlc Hlr Hcpu Hmem.
    destruct (flex_products cpus ratio vcpus Hsane Hlc Hlr Hf) as [He1 He2].
    destruct Hlc as (c & Hc & Hac), Hlr as (r & Hr & Har).
    assert (∃ o, flex_size shape vcpus ad c r = Ok o) as (o & Ho).
    { unfold splitFlexCpuMem in Hws. rewrite Hname in Hws. simpl in Hws. res_inv.
      match goal with H : map_res _ _ = Ok _ |- _ => apply map_res_Ok in H as Hall end.
      assert ((c, r) ∈ list_prod (Split (FlexCpuConstrainList opts) ",") (Split (FlexCpuMemRatios opts) ","))
        as [i Hi]%list_elem_of_lookup by (rewrite list_elem_of_In, in_prod_iff, <- !list_elem_of_In; done).
      destruct (Forall2_lookup_l _ _ _ _ _ Hall Hi) as (o & _ & Ho). by exists o. }
    destruct (flex_size_in_limits shape vcpus ad c r o cpus ratio lo hi lom him) as [w ->];
      [done|done|done|done|by rewrite He2|done|].
    exists w. split; [rewrite (splitFlexCpuMem_elem _ _ _ _ _ Hws); by exists name, c, r|].
    apply flex_size_inv in Ho as (cpus' & ratio' & ? & ? & ? & ? & Hac' & Har' & _ & _ & _ & Hm & Hp & _).
    assert (cpus' = cpus ∧ ratio' = ratio) as [-> ->] by (split; congruence).
    by rewrite Hm, He2, Hp, He1.
Qed.
End FlexSpec.

(** *** The listing *)

Section ListingSpec.
Context {W C UC : Type} `{ComputeClient W} `{Clock W} {order : MapOrder}
  `{TTLCacheLaws (gmap string WrapShape) C} `{TTLCache unit UC}.
Variable opts : Options.
Variable fuel : nat.

Notation State := (@State W C UC).

(** The server's answers for the domains [ds], from world [w] to [w']: for
    each, the zone and the shapes its pages convert to. *)
Inductive server_lists : W → list string → list (string * list WrapShape) → W → Prop :=
| server_done w : server_lists w [] [] w
| server_domain w d chunks w1 ad ws ds rest w' :
    page_chain (λ page, client_ListShapes (CompartmentId opts) d page) w "" chunks w1 →
    (length chunks <= fuel)%nat → Split d ":" !! 1%nat = Some ad →
    toWrapShape opts (concat chunks) ad = Ok ws →
    server_lists w1 ds rest w' →
    server_lists w (d :: ds) ((ad, ws) :: rest) w'.

Definition add_list (m : gmap string (list WrapShape)) (e : string * list WrapShape)
  : gmap string (list WrapShape) :=
  <[e.1 := (default [] (m !! e.1) ++ e.2)%list]> m.

Lemma collect_domains (s : State) w ds lists w' m :
  server_lists w ds lists w' →
  for_each (collect_domain opts fuel) ds m (set_it_world w s) =
    (Ok (foldl add_list m lists), set_it_world w' s).
Proof.
  intros Hl. revert m. induction Hl as [w|w d chunks w1 ad ws ds rest w' Hp Hf Had Hws Hl IH]; intros m; [done|].
  cbn [for_each foldl].
  assert (collect_domain opts fuel m d (set_it_world w s) = (Ok (add_list m (ad, ws)), set_it_world w1 s))
    as Hc.
  { unfold collect_domain, on_world, zoom, list_shapes, mbind, run_bind; simpl.
    rewrite (pages_chain _ _ chunks w1) by done. simpl. unfold lift, index. rewrite Had. simpl.
    rewrite Hws. unfold add_list; simpl. by destruct (m !! ad). }
  by rewrite (run_bind_step _ _ _ _ _ Hc).
Qed.

Lemma add_lists_elem m lists ad w :
  w ∈ default [] (foldl add_list m lists !! ad) ↔
  w ∈ default [] (m !! ad) ∨ ∃ ws, (ad, ws) ∈ lists ∧ w ∈ ws.
Proof.
  revert m; induction lists as [|[ad1 ws1] lists IH]; intros m; simpl.
  - split; [by left|]. intros [?|(? & []%elem_of_nil & _)]; done.
  - rewrite IH. unfold add_list; simpl. setoid_rewrite elem_of_cons.
    destruct (decide (ad1 = ad)) as [->|Hne].
    + rewrite lookup_insert_eq. simpl. rewrite elem_of_app. naive_solver.
    + rewrite lookup_insert_ne by done. naive_solver.
Qed.

Lemma flatten_elem m ad w :
  (ad, w) ∈ flatten_domains m ↔ w ∈ default [] (m !! ad).
Proof.
  assert (w ∈ default [] (m !! ad) ↔ ∃ l, m !! ad = Some l ∧ w ∈ l) as ->.
  { destruct (m !! ad); simpl; [naive_solver|]. split; [by intros []%elem_of_nil|naive_solver]. }
  unfold flatten_domains. rewrite list_elem_of_In, in_concat. split.
  - intros (l & ([ad' ws] & <- & Hin)%List.in_map_iff & Hw).
    apply List.in_map_iff in Hw as (w' & [= -> ->] & Hw).
    apply list_elem_of_In, range_map_lookup in Hin. exists ws. by rewrite list_elem_of_In.
  - intros (l & Hm & Hw). exists (map (λ s, (ad, s)) l). split.
    + apply List.in_map_iff. exists (ad, l). split; [done|].
      by apply list_elem_of_In, range_map_lookup.
    + apply in_map, list_elem_of_In. done.
Qed.

Lemma server_lists_domain w ds lists w' ad ws v :
  server_lists w ds lists w' → (ad, ws) ∈ lists → v ∈ ws → OciModel.AvailableDomains v = [ad].
Proof.
  intros Hl Hin Hv. induction Hl as [|w d chunks w1 ad1 ws1 ds rest w' _ _ _ Hws _ IH]; [by apply elem_of_nil in Hin|].
  apply elem_of_cons in Hin as [[= -> ->]|Hin]; [by eapply toWrapShape_domain|auto].
Qed.

(** C13: Given a server whose shape listing ends after as many pages as there is fuel for,
    ListInstanceType on an empty cache returns: a map with every size of every shape of every
    domain under its key, each with exactly the domains that list it, which the cache then
    serves until its TTL is over. *)
Theorem ListInstanceType_fresh (s : State) (lists : list (string * list WrapShape)) (w' : W) :
  cache_Get (clock_now (it_world s)) InstanceTypesCacheKey (it_cache s) = None →
  server_lists (it_world s) (Options.AvailableDomains opts) lists w' →
  (∀ ad ws v, (ad, ws) ∈ lists → v ∈ ws → is_Some (Shape_Shape (wShape v))) →
  ∃ m s', ListInstanceType opts fuel s = (Ok m, s') ∧
    it_world s' = w' ∧ it_offerings s' = it_offerings s ∧
    (∀ t, cache_Get t InstanceTypesCacheKey (it_cache s') =
       if (t <=? clock_now w' + cache_ttl (it_cache s))%Z then Some m else None) ∧
    (∀ ad ws v k, (ad, ws) ∈ lists → v ∈ ws → shape_key v = Ok k → is_Some (m !! k)) ∧
    (∀ k w, m !! k = Some w → shape_key w = Ok k ∧
       ∀ ad, ad ∈ OciModel.AvailableDomains w ↔
         ∃ ws v, (ad, ws) ∈ lists ∧ v ∈ ws ∧ shape_key v = Ok k).
Proof.
  intros Hmiss Hl Hnames.
  set (ads := foldl add_list ∅ lists).
  assert (∀ ad v, (ad, v) ∈ flatten_domains ads ↔ ∃ ws, (ad, ws) ∈ lists ∧ v ∈ ws) as Hflat.
  { intros ad v. rewrite flatten_elem. unfold ads. rewrite add_lists_elem, lookup_empty. simpl.
    split; [by intros [[]%elem_of_nil|]|by right]. }
  destruct (combine_lookup (flatten_domains ads)) as (m & Hm & Hk).
  { apply Forall_forall. intros [ad v] Hin. apply Hflat in Hin as (ws & ? & ?). simpl. eauto. }
  exists m. eexists. split.
  { unfold ListInstanceType, get_state. rewrite (run_bind_step _ _ _ s s); [|done]. rewrite Hmiss.
    unfold refresh. erewrite run_bind_step;
      [|rewrite <- (collect_domains s (it_world s) (Options.AvailableDomains opts) lists w' ∅ Hl); by destruct s].
    fold ads. erewrite run_bind_step by (unfold lift; by rewrite Hm).
    reflexivity. }
  simpl. split_and!; [done|done| | |].
  - intros t. apply Get_Set_eq.
  - intros ad ws v k Hin Hv Hkey. rewrite Hk.
    assert ((ad, v) ∈ with_key k (flatten_domains ads)) as Hw.
    { apply with_key_elem. split; [|done]. apply Hflat. eauto. }
    destruct (with_key k _) as [|[? ?] ?]; [by apply elem_of_nil in Hw|done].
  - intros k w. rewrite Hk. destruct (with_key k (flatten_domains ads)) as [|[ad1 v1] rest] eqn:Hw; [done|].
    intros [= <-]. destruct (add_zones_spec rest.*1 v1) as [Hz Hkey].
    assert (∀ e, e ∈ (ad1, v1) :: rest ↔ e ∈ flatten_domains ads ∧ shape_key e.2 = Ok k) as Hall
      by (intros e; rewrite <- Hw; apply with_key_elem).
    assert ((ad1, v1) ∈ flatten_domains ads ∧ shape_key v1 = Ok k) as [Hin1 Hk1]
      by (apply (Hall (ad1, v1)); by left).
    split; [by rewrite Hkey|]. intros ad. rewrite Hz.
    apply Hflat in Hin1 as (ws1 & Hin1 & Hv1).
    rewrite (server_lists_domain _ _ _ _ _ _ _ Hl Hin1 Hv1).
    assert (ad ∈ ([ad1] ++ rest.*1)%list ↔ ∃ v, (ad, v) ∈ (ad1, v1) :: rest) as ->.
    { change ([ad1] ++ rest.*1)%list with (((ad1, v1) :: rest).*1). rewrite list_elem_of_fmap.
      split; [intros ([? v] & -> & ?); eauto|intros (v & ?); by exists (ad, v)]. }
    split.
    + intros (v & [Hf%Hflat Hkv]%Hall). destruct Hf as (ws & ? & ?). eauto.
    + intros (ws & v & ? & ? & ?). exists v. apply Hall. split; [apply Hflat; eauto|done].
Qed.

(** Within the cache's time to live no request is made. *)
Lemma ListInstanceType_cached (s : State) m :
  cache_Get (clock_now (it_world s)) InstanceTypesCacheKey (it_cache s) = Some m →
  ListInstanceType opts fuel s = (Ok m, s).
Proof.
  intros Hc. unfold ListInstanceType, get_state. rewrite (run_bind_step _ _ _ s s) by done. by rewrite Hc.
Qed.
End ListingSpec.

(** *** Labels *)

Section LabelSpec.
Context {Rq Rqs Q : Type} `{SchedulingLaws Rq Rqs} `{QuantitiesLaws Q} `{!OfferingLib Rqs Q}.

(** A key the program builds requirements of. *)
Ltac label := apply (bool_decide_unpack _); vm_compute; exact I.

(** The requirement holds of one value. *)
Definition only (r : Rq) (v : string) : Prop := ∀ v', Req_Has r v' = bool_decide (v' = v).

Lemma In_only k v : only (NewRequirement k OpIn [v]) v.
Proof. intros v'. rewrite Has_In. apply bool_decide_ext. by rewrite list_elem_of_singleton. Qed.

Lemma Values_single k v : Req_Values (NewRequirement k OpIn [v]) = [v].
Proof.
  destruct (Values_In k [v]) as [Hnd Hv].
  apply Permutation_singleton_r, NoDup_Permutation; [done|apply NoDup_singleton|done].
Qed.

Lemma Any_single k v : Req_Any (NewRequirement k OpIn [v]) = v.
Proof. by apply list_elem_of_singleton, Any_In. Qed.

(** A label that is set to at most one value. *)
Definition optional (k : string) (v : option string) : Rq :=
  match v with
  | Some v => NewRequirement k OpIn [v]
  | None => NewRequirement k OpDoesNotExist []
  end.

Lemma Key_optional k v : k ∈ program_labels → Req_Key (optional k v) = k.
Proof. intros. by destruct v; apply Key_New. Qed.

(** The labels of an instance type, the last four optional. *)
Definition labels_with (region name : string) (shape : WrapShape) (capacityTypes zones : list string)
    (gpu description bandwidth vnics : option string) : list Rq :=
  [NewRequirement LabelInstanceTypeStable OpIn [name];
   NewRequirement LabelArchStable OpIn [if bool_decide (name ∈ ArmShapes) then "arm64" else "amd64"];
   NewRequirement LabelOSStable OpIn ["linux"];
   NewRequirement LabelTopologyZone OpIn zones;
   NewRequirement LabelTopologyRegion OpIn [region];
   NewRequirement CapacityTypeLabelKey OpIn capacityTypes;
   NewRequirement LabelInstanceShapeName OpIn [name];
   NewRequirement LabelInstanceCPU OpIn [Itoa (CalcCpu shape)];
   NewRequirement LabelIsFlexible OpIn [bool_text (from_ptr false (IsFlexible (wShape shape)))];
   optional LabelInstanceGPU gpu;
   optional LabelInstanceGPUDescription description;
   NewRequirement LabelInstanceMemory OpIn [Itoa (wrap64 (CalMemInGBs shape * 1024))];
   optional LabelInstanceNetworkBandwidth bandwidth;
   optional LabelInstanceMaxVNICs vnics].

Definition final_keys : list string :=
  [LabelInstanceTypeStable; LabelArchStable; LabelOSStable; LabelTopologyZone; LabelTopologyRegion;
   CapacityTypeLabelKey; LabelInstanceShapeName; LabelInstanceCPU; LabelIsFlexible;
   LabelInstanceGPU; LabelInstanceGPUDescription; LabelInstanceMemory;
   LabelInstanceNetworkBandwidth; LabelInstanceMaxVNICs].

Lemma labels_keys region name shape cts zones g d b v :
  map Req_Key (labels_with region name shape cts zones g d b v) = final_keys.
Proof. unfold labels_with. cbn [map]. by rewrite !Key_New, !Key_optional by label. Qed.

Lemma labels_NoDup region name shape cts zones g d b v :
  NoDup (map Req_Key (labels_with region name shape cts zones g d b v)).
Proof. rewrite labels_keys. label. Qed.

(** Filling one optional label of a list of requirements. *)
Lemma insert_label (rs1 rs2 : list Rq) k v :
  k ∈ program_labels → NoDup (map Req_Key (rs1 ++ optional k None :: rs2)) →
  Reqs_InsertAt k v (NewRequirements (rs1 ++ optional k None :: rs2)) =
    Ok (NewRequirements (rs1 ++ optional k (Some v) :: rs2)).
Proof.
  intros Hk Hnd. rewrite <- (Key_optional k None) at 1 by done.
  rewrite InsertAt_New; [by simpl; rewrite Insert_DoesNotExist|done|].
  simpl. by rewrite Insert_DoesNotExist, !Key_New.
Qed.

Section Labels.
Context (region name : string) (shape : WrapShape) (cts zones : list string).
Let L := labels_with region name shape cts zones.

Lemma insert_bandwidth g d v x :
  Reqs_InsertAt LabelInstanceNetworkBandwidth x (NewRequirements (L g d None v)) =
    Ok (NewRequirements (L g d (Some x) v)).
Proof. apply (insert_label (take 12 (L g d None v)) (drop 13 (L g d None v))); [label|apply labels_NoDup]. Qed.
Lemma insert_vnics g d b x :
  Reqs_InsertAt LabelInstanceMaxVNICs x (NewRequirements (L g d b None)) =
    Ok (NewRequirements (L g d b (Some x))).
Proof. apply (insert_label (take 13 (L g d b None)) []); [label|apply labels_NoDup]. Qed.
Lemma insert_gpu d b v x :
  Reqs_InsertAt LabelInstanceGPU x (NewRequirements (L None d b v)) =
    Ok (NewRequirements (L (Some x) d b v)).
Proof. apply (insert_label (take 9 (L None d b v)) (drop 10 (L None d b v))); [label|apply labels_NoDup]. Qed.
Lemma insert_description g b v x :
  Reqs_InsertAt LabelInstanceGPUDescription x (NewRequirements (L g None b v)) =
    Ok (NewRequirements (L g (Some x) b v)).
Proof. apply (insert_label (take 10 (L g None b v)) (drop 11 (L g None b v))); [label|apply labels_NoDup]. Qed.

Lemma labels_Get g d b v r :
  r ∈ L g d b v → Reqs_Get (NewRequirements (L g d b v)) (Req_Key r) = r.
Proof. apply Get_New, labels_NoDup. Qed.
End Labels.

Lemma nvidiaGPUs_value (s : Shape) :
  in_int64 (from_ptr 0%Z (Gpus s)) = true →
  ∃ q, nvidiaGPUs (Q := Q) s = Ok q ∧ Q_Value q = from_ptr 0%Z (Gpus s).
Proof.
  intros Hn. destruct (MustParse_int _ Hn) as (q & Hq & Ha). exists q.
  split; [done|]. by apply Value_whole.
Qed.

(** The GPU labels: present when the shape has a GPU. *)
Definition gpu_text (s : Shape) : option string :=
  if (from_ptr 0%Z (Gpus s) =? 0)%Z then None else Some (Itoa (from_ptr 0%Z (Gpus s))).
Definition gpu_description_text (s : Shape) : option string :=
  if (from_ptr 0%Z (Gpus s) =? 0)%Z then None
  else Some (SanitizeLabelValue (from_ptr "" (GpuDescription s))).
Definition bandwidth_text (w : WrapShape) : option string :=
  (λ _, Itoa (wrap64 (CalMaxBandwidthInGbps w * 1024))) <$> NetworkingBandwidthInGbps (wShape w).
Definition vnics_text (w : WrapShape) : option string :=
  (λ _, Itoa (CalMaxVnic w)) <$> MaxVnicAttachments (wShape w).

Lemma computeRequirements_labels region name (shape : WrapShape) offerings zones :
  Shape_Shape (wShape shape) = Some name →
  in_int64 (from_ptr 0%Z (Gpus (wShape shape))) = true →
  computeRequirements (Rq := Rq) (Q := Q) region shape offerings zones =
    Ok (NewRequirements (labels_with region name shape
      (map (λ o, Req_Any (Reqs_Get (Of_Requirements o) CapacityTypeLabelKey)) (Available (Q := Q) offerings))
      zones (gpu_text (wShape shape)) (gpu_description_text (wShape shape))
      (bandwidth_text shape) (vnics_text shape))).
Proof.
  intros Hname Hg. unfold computeRequirements. rewrite Hname. cbn [deref mbind res_bind].
  set (cts := map _ _).
  change (base_requirements region name shape cts zones)
    with (labels_with region name shape cts zones None None None None).
  unfold bandwidth_text, vnics_text, gpu_text, gpu_description_text.
  destruct (nvidiaGPUs_value _ Hg) as (q & Hq & Hv).
  destruct (NetworkingBandwidthInGbps _); rewrite ?insert_bandwidth; cbn [mbind res_bind fmap option_fmap option_map];
    destruct (MaxVnicAttachments _); rewrite ?insert_vnics; cbn [mbind res_bind fmap option_fmap option_map];
    (destruct (Gpus _) as [n|]; [|done]); unfold from_ptr in *; cbn [from_option] in *; unfold id in *;
    (destruct (n =? 0)%Z; [done|]); rewrite Hq; cbn [mbind res_bind];
    rewrite insert_gpu; cbn [mbind res_bind]; by rewrite insert_description, Hv.
Qed.
End LabelSpec.

(** *** Sizes *)

Section SizeSpec.
Context {Rq Rqs Q : Type} `{SchedulingLaws Rq Rqs} `{QuantitiesLaws Q} `{!OfferingLib Rqs Q}.
Variable ParseFloat_other : string → option f64.
Variable opts : Options.

(** A range checked by evaluation. *)
Lemma forallb_range (P : Z → bool) lo n z :
  forallb (λ i, P (lo + Z.of_nat i)%Z) (seq 0 n) = true →
  (lo <= z < lo + Z.of_nat n)%Z → P z = true.
Proof.
  intros Hf Hz. rewrite forallb_forall in Hf.
  specialize (Hf (Z.to_nat (z - lo))). rewrite <- list_elem_of_In, elem_of_seq in Hf.
  replace z with (lo + Z.of_nat (Z.to_nat (z - lo)))%Z by lia. apply Hf. lia.
Qed.

(** What the reservations leave: the kubelet's share plus 100Mi for the system
    and 100Mi for eviction is less than the three quarters of the memory that the
    largest overhead in question leaves, and the CPU reservations are less than the
    CPUs. *)
Lemma reserved_memory_bound m :
  (1 <= m <= 2048)%Z → (0 <= reserved_memory_Mi m ∧ reserved_memory_Mi m + 201 < 768 * m)%Z.
Proof.
  intros Hm. assert ((0 <=? reserved_memory_Mi m)%Z && (reserved_memory_Mi m + 201 <? 768 * m)%Z = true) as Hb.
  { apply (forallb_range (λ m, (0 <=? reserved_memory_Mi m)%Z && (reserved_memory_Mi m + 201 <? 768 * m)%Z) 1 2048);
      [vm_compute; reflexivity|lia]. }
  lia.
Qed.

Lemma gib_exact_all m : (1 <= m <= 2048)%Z → gib_exact m = true.
Proof. intros Hm. apply (forallb_range gib_exact 1 2048); [vm_compute; reflexivity|lia]. Qed.

Lemma reserved_cpu_bound c :
  (1 <= c <= 512)%Z → (0 < reserved_cpu_milli c ∧ reserved_cpu_milli c + 100 < 1000 * c)%Z.
Proof.
  intros Hm. assert ((0 <? reserved_cpu_milli c)%Z && (reserved_cpu_milli c + 100 <? 1000 * c)%Z = true) as Hb.
  { apply (forallb_range (λ c, (0 <? reserved_cpu_milli c)%Z && (reserved_cpu_milli c + 100 <? 1000 * c)%Z) 1 512);
      [vm_compute; reflexivity|lia]. }
  lia.
Qed.

(** A tenth of the boot volume, rounded up. *)
Definition tenth_of (n : Z) : f64 := f64_mul (f64_div (f64_of_Z n) (f64_of_Z 100)) (f64_of_Z 10).

Lemma tenth_bound b :
  (2 <= b <= 2048)%Z →
  ∃ z, f64_ceil (tenth_of (b * 2 ^ 30)) = f64_of_Z z ∧ (0 < z ∧ z + 2 ^ 30 < b * 2 ^ 30)%Z.
Proof.
  intros Hb. pose (P := λ b, match sf_ceil (tenth_of (b * 2 ^ 30)) with
    | Some z => (0 <? z)%Z && (z + 2 ^ 30 <? b * 2 ^ 30)%Z | None => false end).
  assert (P b = true) as HP by (apply (forallb_range P 2 2047); [vm_compute; reflexivity|lia]).
  unfold P in HP. unfold f64_ceil. destruct (sf_ceil _) as [z|]; [|done].
  exists z. split; [done|lia].
Qed.

(** No overhead is configured (the default). *)
Lemma no_overhead x n s :
  denotes x n → int64_of_float (f64_ceil (f64_div (f64_div (f64_mul x (S754_zero s))
    (f64_of_Z 1024)) (f64_of_Z 1024))) = 0%Z.
Proof. by destruct x as [[]|[]| |[] m e], s. Qed.

Lemma in_int64_small z : (Z.abs z < 2 ^ 62)%Z → in_int64 z = true.
Proof. unfold in_int64, min_int64, max_int64. lia. Qed.

Lemma GiText_Ok n : (0 <= n < 2 ^ 20)%Z →
  ∃ q, MustParse (Quantities := quantities) (GiText n) = Ok q ∧ amount q = (n * 2 ^ 30 * nano)%Z ∧
    Q_Value q = (n * 2 ^ 30)%Z.
Proof.
  intros Hn. destruct (MustParse_Gi n) as (q & Hq & Ha); [apply in_int64_small; lia|].
  exists q. split_and!; [done|done|by apply Value_whole].
Qed.

(** The overhead of [m] GiB, for a configured proportion [q]. *)
Definition overhead_of (m : Z) (q : QArith_base.Q) (ov : Z) : Prop := about_Mi m q ov ∧ (Qnum q = 0%Z → ov = 0%Z).

Lemma overhead_bounds m q ov :
  (1 <= m <= 2048)%Z → (0 <= q <= 1)%Q → overhead_of m q ov →
  (-1 <= ov <= 2 ^ 22)%Z ∧ ((q <= 1 # 4)%Q → (ov <= 256 * m + 1)%Z).
Proof.
  intros Hm [Hq0 Hq1] [[Hlow Hup] _]. destruct q as [a b]. revert Hlow Hup Hq0 Hq1.
  unfold Qle, Qlt, Qminus, Qplus, Qmult, Qopp, inject_Z. cbn [Qnum Qden]. rewrite !Pos2Z.inj_mul.
  assert (0 < Z.pos b)%Z as Hb by lia. set (c := Z.pos b) in *. change (Z.pos (2 ^ 27)) with (2 ^ 27)%Z.
  intros Hlow Hup Hq0 Hq1. assert (0 <= m * a)%Z by nia. assert (m * a <= m * c)%Z by nia.
  split; [|intros Hq; assert (4 * (m * a) <= m * c)%Z by nia].
  - assert (-1 * c <= ov * c)%Z by lia. assert (ov * c < (2048 * 1024 + 2) * c)%Z by nia. nia.
  - assert (ov * c < (256 * m + 2) * c)%Z by lia. nia.
Qed.

Lemma memory_Ok n q : (1 <= n <= 2048)%Z →
  valid_binary 53 1024 (VMMemoryOverheadPercent opts) = true →
  sf_to_Q (VMMemoryOverheadPercent opts) = Some q → (0 <= q <= 1)%Q →
  ∃ m ov, memory (Q := Q) opts n = Ok m ∧ overhead_of n q ov ∧ amount m = ((n * 2 ^ 30 - ov * 2 ^ 20) * nano)%Z.
Proof.
  intros Hn Hvalid Hq H01. destruct (GiText_Ok n) as (m & Hm & Ha & Hv); [lia|].
  set (ov := int64_of_float (ceil_Mi n (VMMemoryOverheadPercent opts))).
  assert (overhead_of n q ov) as Hov.
  { split; [by apply ceil_Mi_about; [apply gib_exact_all|..]|]. intros Hz. unfold ov, ceil_Mi.
    destruct (VMMemoryOverheadPercent opts) as [s| | |s p e]; simpl in Hq; try done.
    - apply (no_overhead _ (n * 2 ^ 30)), f64_of_Z_denotes. lia.
    - exfalso. destruct (0 <=? e)%Z eqn:He; injection Hq as <-; simpl in Hz; destruct s; simpl in Hz; nia. }
  destruct (overhead_bounds n q ov Hn H01 Hov) as [Hb _].
  unfold memory. rewrite Hm. cbn [mbind res_bind]. rewrite Hv. fold (ceil_Mi n (VMMemoryOverheadPercent opts)). fold ov.
  destruct (MustParse_Mi ov) as (q0 & Hq0 & Ha0); [apply in_int64_small; lia|]. rewrite Hq0. cbn [mbind res_bind].
  eexists _, ov. split; [done|]. split; [done|]. rewrite amount_Sub. lia.
Qed.

Ltac map_steps :=
  cbn [list_to_map foldr uncurry fst snd];
  repeat (rewrite lookup_insert_eq || rewrite lookup_insert_ne by done); rewrite ?lookup_empty;
  cbn [fmap option_fmap option_map default from_option]; unfold id.

(** What is set aside of a resource: by the kubelet, the system and for
    eviction. *)
Definition reserved (it : InstanceType Rqs Q) (r : string) : Z :=
  let part (m : gmap string Q) := default 0%Z (amount <$> m !! r) in
  (part (Ov_KubeReserved (IT_Overhead it)) + part (Ov_SystemReserved (IT_Overhead it)) +
   part (Ov_EvictionThreshold (IT_Overhead it)))%Z.

(** A node class that sets nothing for the kubelet. *)
Definition plain_node_class (nc : OciNodeClass) (boot : Z) : Prop :=
  Kubelet (Spec nc) = None ∧
  ∃ vpus, NodeClass_BootConfig (Spec nc) = Some {| BootVolumeSizeInGBs := boot; BootVolumeVpusPerGB := vpus |}.

Definition sane_sizes (w : WrapShape) : Prop :=
  (1 <= CalcCpu w <= 512)%Z ∧ (1 <= CalMemInGBs w <= 2048)%Z ∧ (Z.abs (CalMaxVnic w) < 2 ^ 40)%Z ∧
  in_int64 (from_ptr 0%Z (Gpus (wShape w))) = true.

Lemma KubeReserved_default (c m : Q) (cpus mem : Z) :
  amount c = (cpus * nano)%Z → amount m = (mem * 2 ^ 30 * nano)%Z → (1 <= mem <= 2048)%Z →
  ∃ es, amount es = (2 ^ 30 * nano)%Z ∧
  KubeReservedResources zero_kubelet c m =
    Ok (list_to_map [(ResourceCPU, NewMilliQuantity (reserved_cpu_milli cpus));
                     (ResourceMemory, NewQuantity (reserved_memory_Mi mem * 2 ^ 20));
                     (ResourceEphemeralStorage, es)]).
Proof.
  intros Hc Hm Hmem. unfold KubeReservedResources. rewrite bool_decide_true by done.
  rewrite (Value_whole c cpus), (Value_whole m (mem * 2 ^ 30)) by done.
  change Gi with (2 ^ 30)%Z. rewrite Z.quot_mul by lia.
  destruct (MustParse_Gi 1 eq_refl) as (es & Hes & Ha). change (Itoa 1 +:+ "Gi") with "1Gi" in Hes.
  rewrite Hes. exists es. split; [rewrite Ha; lia|]. simpl.
  pose proof (reserved_memory_bound mem Hmem) as Hb.
  rewrite (wrap64_id (reserved_memory_Mi mem * 1024)) by (apply in_int64_small; lia).
  rewrite wrap64_id by (apply in_int64_small; lia). by rewrite <- Z.mul_assoc.
Qed.

Lemma EvictionThreshold_default (m storage : Q) (b : Z) :
  amount storage = (b * 2 ^ 30 * nano)%Z → (2 <= b <= 2048)%Z →
  ∃ em es z, amount em = (100 * 2 ^ 20 * nano)%Z ∧ amount es = (z * nano)%Z ∧
    (0 < z ∧ z + 2 ^ 30 < b * 2 ^ 30)%Z ∧
    EvictionThreshold ParseFloat_other m storage zero_kubelet =
      Ok (list_to_map [(ResourceMemory, em); (ResourceEphemeralStorage, es)]).
Proof.
  intros Hs Hb. unfold EvictionThreshold. rewrite (Value_whole storage (b * 2 ^ 30)) by done.
  fold (tenth_of (b * 2 ^ 30)). destruct (tenth_bound b Hb) as (z & -> & Hz).
  destruct (MustParse_Mi 100 eq_refl) as (em & Hem & Ha). change (Itoa 100 +:+ "Mi") with "100Mi" in Hem.
  rewrite Hem. destruct (MustParseFloat_int z) as (es & -> & Hes); [lia|].
  exists em, es, z. split_and!; [done|done|lia|lia|]. simpl. by rewrite (left_id_L ∅ _).
Qed.

(** C15: For a class with no kubelet settings, a boot volume of 2 to 2048 GB, a shape with sane
    sizes and a memory overhead of a proportion from 0 to 1, NewInstanceType returns a type with
    the CPUs and storage of the shape, the memory of the shape less the overhead, which is its
    proportion of the memory in MiB rounded up (but for a float rounding of 2^-27 MiB, and none
    when the proportion is 0), and min(110, 31 per secondary VNIC) pods; what it reserves of CPU
    and storage is positive and less than the capacity, and so for memory with an overhead of up
    to a quarter. *)
Theorem NewInstanceType_allocatable (region name : string) (shape : WrapShape) (nodeClass : OciNodeClass)
    (zones : list string) (offerings : list (Offering Rqs)) (boot : Z) (q : QArith_base.Q) :
  Shape_Shape (wShape shape) = Some name → sane_sizes shape →
  plain_node_class nodeClass boot → (2 <= boot <= 2048)%Z →
  valid_binary 53 1024 (VMMemoryOverheadPercent opts) = true →
  sf_to_Q (VMMemoryOverheadPercent opts) = Some q → (0 <= q <= 1)%Q →
  ∃ it, NewInstanceType (Rq := Rq) ParseFloat_other opts region shape nodeClass zones offerings = Ok it ∧
    IT_Name it = name ∧ IT_Offerings it = offerings ∧
    (∃ c, IT_Capacity it !! ResourceCPU = Some c ∧ Q_Value c = CalcCpu shape ∧
       (0 < reserved it ResourceCPU < amount c)%Z) ∧
    (∃ m ov, IT_Capacity it !! ResourceMemory = Some m ∧ overhead_of (CalMemInGBs shape) q ov ∧
       Q_Value m = (CalMemInGBs shape * 2 ^ 30 - ov * 2 ^ 20)%Z ∧
       ((q <= 1 # 4)%Q → (0 < reserved it ResourceMemory < amount m)%Z)) ∧
    (∃ e, IT_Capacity it !! ResourceEphemeralStorage = Some e ∧ Q_Value e = (boot * 2 ^ 30)%Z ∧
       (0 < reserved it ResourceEphemeralStorage < amount e)%Z) ∧
    (∃ p, IT_Capacity it !! ResourcePods = Some p ∧
       Q_Value p = Z.min 110 ((CalMaxVnic shape - 1) * 31)).
Proof.
  intros Hname (Hcpu & Hmem & Hvnic & Hgpu) (Hkub & vpus & Hboot) Hb Hvalid Hover H01.
  unfold NewInstanceType. rewrite Hkub, Hname. cbn [default from_option deref mbind res_bind].
  rewrite (computeRequirements_labels _ name) by done. cbn [mbind res_bind].
  unfold computeCapacity, cpu, ephemeralStorage, pods. rewrite Hboot.
  destruct (MustParse_int (CalcCpu shape)) as (c & Hc & Hca); [apply in_int64_small; lia|].
  destruct (memory_Ok (CalMemInGBs shape) q Hmem Hvalid Hover H01) as (m & ov & Hm & Hov & Hma).
  destruct (overhead_bounds _ _ _ Hmem H01 Hov) as [_ Hhalf].
  destruct (GiText_Ok (CalMemInGBs shape)) as (m0 & Hm0 & Hm0a & Hm0v); [lia|].
  destruct (GiText_Ok boot) as (e & He & Hea & Hev); [lia|].
  assert (pod_count shape zero_kubelet = Z.min 110 ((CalMaxVnic shape - 1) * 31)) as Hpc.
  { unfold pod_count. simpl. rewrite (wrap64_id (CalMaxVnic shape - 1)) by (apply in_int64_small; lia).
    rewrite wrap64_id by (apply in_int64_small; lia). done. }
  destruct (MustParse_int (pod_count shape zero_kubelet)) as (p & Hp & Hpa);
    [rewrite Hpc; apply in_int64_small; lia|].
  destruct (nvidiaGPUs_value (Q := Q) _ Hgpu) as (g & Hg & _).
  destruct (KubeReserved_default c m0 _ _ Hca Hm0a Hmem) as (es & Hes & Hkube).
  destruct (EvictionThreshold_default m0 e boot Hea Hb) as (em & es' & z & Hem & Hes' & Hz & Hev').
  cbn [deref mbind res_bind]. rewrite Hc. cbn [mbind res_bind]. rewrite Hm. cbn [mbind res_bind BootVolumeSizeInGBs].
  rewrite He. cbn [mbind res_bind]. rewrite Hp. cbn [mbind res_bind]. rewrite Hg. cbn [mbind res_bind].
  rewrite Hm0. cbn [mbind res_bind]. rewrite Hkube. cbn [mbind res_bind SystemReservedResources SystemReserved zero_kubelet].
  rewrite Hev'. cbn [mbind res_bind].
  pose proof (reserved_cpu_bound _ Hcpu) as Hrc. pose proof (reserved_memory_bound _ Hmem) as Hrm.
  eexists. split; [done|]. split; [done|]. split; [done|].
  unfold reserved. cbn [IT_Capacity IT_Overhead Ov_KubeReserved Ov_SystemReserved Ov_EvictionThreshold].
  split_and!.
  - exists c. split; [reflexivity|]. split; [by apply Value_whole|]. map_steps.
    rewrite !amount_NewMilli, Hca by (apply in_int64_small; lia). unfold nano. lia.
  - exists m, ov. split; [reflexivity|]. split; [done|]. split; [by apply Value_whole|]. intros Hq%Hhalf. map_steps.
    rewrite !amount_New, Hma, Hem by (apply in_int64_small; lia). unfold nano. lia.
  - exists e. split; [reflexivity|]. split; [done|]. map_steps. rewrite Hes, Hes', Hea. unfold nano. lia.
  - exists p. split; [reflexivity|]. by rewrite (Value_whole p _ Hpa).
Qed.
End SizeSpec.

(** *** Requirements and offerings *)

Ltac label := apply (bool_decide_unpack _); vm_compute; exact I.
Ltac find_in := first [apply list_elem_of_here | apply list_elem_of_further; find_in].
(** The requirement under the key of the goal, from a lookup lemma [H]. *)
Ltac get_label H :=
  erewrite H; [|by apply Key_New; label|hnf; cbn [app]; find_in].

Section OfferingSpec.
Context {UC : Type} {order : MapOrder} `{TTLCache unit UC}.
Context {Rq Rqs Q : Type} `{SchedulingLaws Rq Rqs} `{QuantitiesLaws Q} `{!OfferingLib Rqs Q}
  `{!OfferingLibLaws Rq Rqs Q}.
Variable opts : Options.

(** computeRequirements returns requirements that allow, per label, exactly the values of
    the shape (name, architecture, vCPUs, memory in MiB, flexibility, GPUs), the zones given,
    and the capacity types of the available offerings. *)
Theorem computeRequirements_spec (region name : string) (shape : WrapShape)
    (offerings : list (Offering Rqs)) (zones : list string) :
  Shape_Shape (wShape shape) = Some name →
  in_int64 (from_ptr 0%Z (Gpus (wShape shape))) = true →
  ∃ reqs, computeRequirements (Rq := Rq) (Q := Q) region shape offerings zones = Ok reqs ∧
    only (Reqs_Get reqs LabelInstanceTypeStable) name ∧
    only (Reqs_Get reqs LabelInstanceShapeName) name ∧
    only (Reqs_Get reqs LabelArchStable) (if bool_decide (name ∈ ArmShapes) then "arm64" else "amd64") ∧
    only (Reqs_Get reqs LabelInstanceCPU) (Itoa (CalcCpu shape)) ∧
    only (Reqs_Get reqs LabelInstanceMemory) (Itoa (wrap64 (CalMemInGBs shape * 1024))) ∧
    only (Reqs_Get reqs LabelIsFlexible) (bool_text (from_ptr false (IsFlexible (wShape shape)))) ∧
    (∀ z, Req_Has (Reqs_Get reqs LabelTopologyZone) z = bool_decide (z ∈ zones)) ∧
    (∀ v, Req_Has (Reqs_Get reqs LabelInstanceGPU) v =
       bool_decide (from_ptr 0%Z (Gpus (wShape shape)) ≠ 0%Z ∧ v = Itoa (from_ptr 0%Z (Gpus (wShape shape))))) ∧
    (∀ ct, Req_Has (Reqs_Get reqs CapacityTypeLabelKey) ct = true ↔
       ∃ o, o ∈ offerings ∧ Of_Available o = true ∧
         Req_Any (Reqs_Get (Of_Requirements o) CapacityTypeLabelKey) = ct).
Proof.
  intros Hname Hg. eexists. split; [by apply (computeRequirements_labels region name)|].
  set (cts := map _ _). set (g := gpu_text _). set (d := gpu_description_text _).
  set (b := bandwidth_text _). set (v := vnics_text _).
  assert (∀ k r, Req_Key r = k → r ∈ labels_with region name shape cts zones g d b v →
    Reqs_Get (NewRequirements (labels_with region name shape cts zones g d b v)) k = r) as Hget.
  { intros k r <-. apply labels_Get. }
  split_and!.
  1-6: get_label Hget; apply In_only.
  - intros z. get_label Hget. apply Has_In.
  - intros x. erewrite (Hget LabelInstanceGPU); [|by apply Key_optional; label|unfold labels_with; find_in].
    unfold g, gpu_text. destruct (Z.eqb_spec (from_ptr 0%Z (Gpus (wShape shape))) 0) as [Hz|Hz]; simpl.
    + rewrite Has_DoesNotExist. symmetry. apply bool_decide_false. naive_solver.
    + rewrite In_only. apply bool_decide_ext. naive_solver.
  - intros ct. get_label Hget. rewrite Has_In, bool_decide_eq_true. unfold cts.
    rewrite Available_spec, list_elem_of_In, List.in_map_iff.
    setoid_rewrite List.filter_In. setoid_rewrite list_elem_of_In. naive_solver.
Qed.

(** The requirements of an offering, by key. *)
Definition offering_labels (shape : WrapShape) (zone capacityType : string) : list Rq :=
  [NewRequirement CapacityTypeLabelKey OpIn [capacityType];
   NewRequirement LabelTopologyZone OpIn [zone]] ++
  if from_ptr false (IsFlexible (wShape shape)) then
    [NewRequirement LabelInstanceCPU OpIn [Itoa (CalcCpu shape)];
     NewRequirement LabelInstanceMemory OpIn [Itoa (wrap64 (CalMemInGBs shape * 1024))]]
  else [].

Lemma offering_labels_NoDup shape zone ct : NoDup (map Req_Key (offering_labels shape zone ct)).
Proof.
  unfold offering_labels. destruct (from_ptr _ _); cbn [app map]; rewrite !Key_New by label; label.
Qed.

Lemma offering_requirements_labels shape zone ct :
  offering_requirements (Rq := Rq) shape zone ct = NewRequirements (offering_labels shape zone ct).
Proof.
  pose proof (offering_labels_NoDup shape zone ct) as Hnd.
  unfold offering_requirements, offering_labels in *.
  destruct (from_ptr _ _); [by rewrite Add_New|done].
Qed.

Lemma offering_Get shape zone ct k r :
  Req_Key r = k → r ∈ offering_labels shape zone ct →
  Reqs_Get (offering_requirements (Rq := Rq) shape zone ct) k = r.
Proof. intros <-. rewrite offering_requirements_labels. apply Get_New, offering_labels_NoDup. Qed.

(** The price of an offering, given the on-demand price. *)
Definition offering_price (name ct : string) (p : f32) : f64 :=
  if String.eqb ct CapacityTypePreemptible && supportPreemptible opts name
  then f64_mul (f64_of_f32 p) (f64_of_decimal 5 1) else f64_of_f32 p.

Definition is_offering (now : Z) (uo : UnavailableOfferings UC) (shape : WrapShape) (name : string)
    (p : f32) (zone ct : string) (o : Offering Rqs) : Prop :=
  only (Reqs_Get (Of_Requirements o) LabelTopologyZone) zone ∧
  only (Reqs_Get (Of_Requirements o) CapacityTypeLabelKey) ct ∧
  (from_ptr false (IsFlexible (wShape shape)) = true →
     only (Reqs_Get (Of_Requirements o) LabelInstanceCPU) (Itoa (CalcCpu shape)) ∧
     only (Reqs_Get (Of_Requirements o) LabelInstanceMemory) (Itoa (wrap64 (CalMemInGBs shape * 1024)))) ∧
  Of_Price o = offering_price name ct p ∧
  (Of_Available o = true ↔
     IsUnavailable now name zone ct uo = false ∧
     (ct = CapacityTypePreemptible → supportPreemptible opts name = true)).

Lemma create_offering_spec now uo shape name p zone ct :
  Shape_Shape (wShape shape) = Some name →
  ∃ o, create_offering (Rq := Rq) opts (λ _, Ok p) now uo shape zone ct = Ok o ∧
    is_offering now uo shape name p zone ct o.
Proof.
  intros Hname. unfold create_offering, make_offering. rewrite Hname. cbn [deref mbind res_bind].
  set (cond := String.eqb ct CapacityTypePreemptible).
  destruct (if cond then _ else _) as [price unavailable] eqn:Hp. eexists. split; [done|].
  unfold is_offering. cbn [Of_Requirements Of_Price Of_Available]. split_and!.
  - get_label offering_Get. apply In_only.
  - get_label offering_Get. apply In_only.
  - intros Hflex.
    split; (erewrite offering_Get;
      [|by apply Key_New; label|unfold offering_labels; rewrite Hflex; cbn [app]; find_in]); apply In_only.
  - unfold offering_price. fold cond. by destruct cond, (supportPreemptible opts name); simplify_eq.
  - unfold cond in Hp. destruct (String.eqb_spec ct CapacityTypePreemptible) as [->|Hne];
      destruct (supportPreemptible opts name); simplify_eq; rewrite negb_true_iff; naive_solver.
Qed.

Lemma zone_set_lookup zones z : is_Some (zone_set zones !! z) ↔ z ∈ zones.
Proof.
  unfold zone_set. induction zones as [|z' zones IH]; simpl.
  - rewrite lookup_empty, elem_of_nil. split; [by intros [? ?]|done].
  - rewrite elem_of_cons. destruct (decide (z' = z)) as [->|Hne].
    + rewrite lookup_insert_eq. split; [by left|eauto].
    + rewrite lookup_insert_ne, IH by done. naive_solver.
Qed.

Lemma range_zones_elem shape zones z : z ∈ range_zones shape (zone_set zones) ↔ z ∈ zones.
Proof.
  unfold range_zones. rewrite list_elem_of_fmap, <- zone_set_lookup. split.
  - intros ([z' []] & -> & Hz%range_map_lookup). simpl. eauto.
  - intros [[] Hz]. exists (z, tt). by rewrite range_map_lookup.
Qed.

Lemma range_zones_length shape zones :
  length (range_zones shape (zone_set zones)) = size (list_to_set zones : gset string).
Proof.
  unfold range_zones. rewrite length_fmap, range_map_perm, length_map_to_list.
  rewrite <- (size_dom (D := gset string)). f_equal. apply set_eq. intros z.
  by rewrite elem_of_dom, zone_set_lookup, elem_of_list_to_set.
Qed.

(** C16: CreateOfferings makes one offering per zone and capacity type: available unless marked
    unavailable or preemptible where the shape does not allow it, and priced at the price of the
    shape, or half of it when preemptible. *)
Theorem CreateOfferings_spec (now : Z) (uo : UnavailableOfferings UC) (shape : WrapShape)
    (name : string) (p : f32) (zones : list string) :
  Shape_Shape (wShape shape) = Some name →
  ∃ os, CreateOfferings (Rq := Rq) opts (λ _, Ok p) now uo shape (zone_set zones) = Ok os ∧
    length os = (2 * size (list_to_set zones : gset string))%nat ∧
    (∀ o, o ∈ os → ∃ z ct, z ∈ zones ∧ ct ∈ supportInstanceTypes ∧
       is_offering now uo shape name p z ct o) ∧
    (∀ z ct, z ∈ zones → ct ∈ supportInstanceTypes →
       ∃ o, o ∈ os ∧ is_offering now uo shape name p z ct o).
Proof.
  intros Hname. unfold CreateOfferings.
  set (pairs := list_prod (range_zones shape (zone_set zones)) supportInstanceTypes).
  destruct (map_res_total (λ '(z, ct), create_offering (Rq := Rq) opts (λ _, Ok p) now uo shape z ct)
    (λ '(z, ct) o, is_offering now uo shape name p z ct o) pairs) as (os & Hos & Hall).
  { intros [z ct] _. by apply create_offering_spec. }
  exists os. split; [done|].
  assert (∀ z ct, (z, ct) ∈ pairs ↔ z ∈ zones ∧ ct ∈ supportInstanceTypes) as Hpairs.
  { intros z ct. unfold pairs. rewrite list_elem_of_In, in_prod_iff, <- !list_elem_of_In.
    by rewrite range_zones_elem. }
  split_and!.
  - rewrite <- (Forall2_length _ _ _ Hall). unfold pairs. rewrite length_prod, range_zones_length. simpl. lia.
  - intros o [i Ho]%list_elem_of_lookup.
    destruct (Forall2_lookup_r _ _ _ _ _ Hall Ho) as ([z ct] & Hz%list_elem_of_lookup_2 & Hof).
    apply Hpairs in Hz. naive_solver.
  - intros z ct Hz Hct. assert ((z, ct) ∈ pairs) as [i Hi]%list_elem_of_lookup by by apply Hpairs.
    destruct (Forall2_lookup_l _ _ _ _ _ Hall Hi) as (o & Ho%list_elem_of_lookup_2 & Hof). eauto.
Qed.
End OfferingSpec.
