(* ===== verification/Metrics.v ===== *)
(** * [pkg/providers/instancetype/metrics.go]: the gauges of the listing

    The four gauges, and the writes [ListInstanceType] and [CreateOfferings]
    make to them.  Prometheus is a class of operations with the documented
    behaviour of [With] and [Set] as its laws.  The theorems say that the
    writes never panic and never change what the listing returns, and what the
    gauges hold afterwards. *)

From stdpp Require Import base list strings gmap.
From Stdlib Require Import ZArith SpecFloat Lia.
From S2P Require Import Prelude GoStrings GoFloat OciModel Api Options Cache.
From S2P Require Import UnavailableOfferings Sched InstanceType.

Local Open Scope string_scope.

(** ** Prometheus *)

(** [prometheus.GaugeOpts] and the label names of [NewGaugeVec] *)
Record GaugeVec := {
  Namespace : string;
  Subsystem : string;
  Gauge_Name : string;
  Help : string;
  LabelNames : list string
}.
#[export] Instance GaugeVec_eq_dec : EqDecision GaugeVec.
Proof. solve_decision. Defined.

(** Labels are [prometheus.Labels]; the registry with its gauges is [M]: [vec.With(labels).Set(v)], the value
    a scrape reports, [Registry.MustRegister], and [metrics.Namespace] of
    karpenter. *)
Class Prometheus (M : Type) : Type := {
  With_Set : GaugeVec → gmap string string → f64 → run M unit;
  gauge_value : GaugeVec → gmap string string → M → option f64;
  MustRegister : list GaugeVec → run M unit;
  metrics_Namespace : string
}.

(** [With] panics unless the labels are the declared ones; a gauge holds the
    value set last, and no other gauge changes. *)
Class PrometheusLaws (M : Type) {prom : Prometheus M} : Prop := {
  With_Set_ok vec labels v m : dom labels = (list_to_set (LabelNames vec) : gset string) →
    ∃ m', With_Set vec labels v m = (Ok tt, m') ∧ gauge_value vec labels m' = Some v ∧
      ∀ vec' labels', (vec', labels') ≠ (vec, labels) → gauge_value vec' labels' m' = gauge_value vec' labels' m;
  With_Set_panics vec labels v m : dom labels ≠ (list_to_set (LabelNames vec) : gset string) →
    ∃ why, With_Set vec labels v m = (Panic why, m)
}.

(** ** [metrics.go] *)

Definition cloudProviderSubsystem : string := "cloudprovider".
Definition instanceTypeLabel : string := "instance_type".
Definition capacityTypeLabel : string := "capacity_type".
Definition zoneLabel : string := "zone".

Section Gauges.
Context {M : Type} `{Prometheus M}.

Definition instanceTypeVCPU : GaugeVec := {|
  Namespace := metrics_Namespace; Subsystem := cloudProviderSubsystem;
  Gauge_Name := "instance_type_cpu_cores"; Help := "VCPUs cores for a given instance type.";
  LabelNames := [instanceTypeLabel]
|}.
Definition instanceTypeMemory : GaugeVec := {|
  Namespace := metrics_Namespace; Subsystem := cloudProviderSubsystem;
  Gauge_Name := "instance_type_memory_bytes"; Help := "Memory, in bytes, for a given instance type.";
  LabelNames := [instanceTypeLabel]
|}.
Definition instanceTypeOfferingAvailable : GaugeVec := {|
  Namespace := metrics_Namespace; Subsystem := cloudProviderSubsystem;
  Gauge_Name := "instance_type_offering_available";
  Help := "Instance type offering availability, based on instance type, capacity type, and zone";
  LabelNames := [instanceTypeLabel; capacityTypeLabel; zoneLabel]
|}.
Definition instanceTypeOfferingPriceEstimate : GaugeVec := {|
  Namespace := metrics_Namespace; Subsystem := cloudProviderSubsystem;
  Gauge_Name := "instance_type_offering_price_estimate";
  Help := "Instance type offering estimated hourly price used when making informed decisions on node cost calculation, based on instance type, capacity type, and zone.";
  LabelNames := [instanceTypeLabel; capacityTypeLabel; zoneLabel]
|}.

(** [init] *)
Definition init : run M unit :=
  MustRegister [instanceTypeVCPU; instanceTypeMemory; instanceTypeOfferingAvailable;
                instanceTypeOfferingPriceEstimate].

(** A write: the gauge, its labels and the value. *)
Definition write (e : GaugeVec * gmap string string * f64) : run M unit :=
  let '(vec, labels, v) := e in With_Set vec labels v.
Definition write_all (es : list (GaugeVec * gmap string string * f64)) : run M unit :=
  for_each (λ _ e, write e) es tt.

(** ** [instancetype.go]: the writes *)

Definition type_label (name : string) : gmap string string := {[ instanceTypeLabel := name ]}.
Definition offering_label (name capacityType zone : string) : gmap string string :=
  {[ instanceTypeLabel := name; capacityTypeLabel := capacityType; zoneLabel := zone ]}.

(** [float64(lo.FromPtr(shape.MemoryInGBs)) * 1024 * 1024 * 1024] *)
Definition memory_bytes (shape : WrapShape) : f64 :=
  let k := f64_of_Z 1024 in
  f64_mul (f64_mul (f64_mul (f64_of_f32 (from_ptr (f32_of_Z 0) (MemoryInGBs (wShape shape)))) k) k) k.

(** The two writes for a shape of the listing. *)
Definition shape_writes (shape : WrapShape) : res (list (GaugeVec * gmap string string * f64)) :=
  name ← deref (Shape_Shape (wShape shape));
  Ok [(instanceTypeVCPU, type_label name, f64_of_Z (CalcCpu shape));
      (instanceTypeMemory, type_label name, memory_bytes shape)].

(** [fmt.Sprintf("%s_%d_%d", *shape.Shape.Shape, shape.CalcCpu/2, shape.CalMemInGBs)] *)
Definition price_name (name : string) (shape : WrapShape) : string :=
  name +:+ "_" +:+ Itoa (Z.quot (CalcCpu shape) 2) +:+ "_" +:+ Itoa (CalMemInGBs shape).

(** The two writes for an offering. *)
Definition offering_writes {Rqs} (name zone capacityType : string) (shape : WrapShape) (o : Offering Rqs)
  : list (GaugeVec * gmap string string * f64) :=
  [(instanceTypeOfferingAvailable, offering_label name capacityType zone,
    f64_of_Z (if Of_Available o then 1 else 0));
   (instanceTypeOfferingPriceEstimate, offering_label (price_name name shape) capacityType zone, Of_Price o)].
End Gauges.

(** ** [instancetype.go]: the listing with its writes

    The loops as the code has them, over the state of the provider beside the
    registry. *)

(** [for ... { l = append(l, f(x)) }] *)
Fixpoint map_run {S A B} (f : A → run S B) (l : list A) : run S (list B) :=
  match l with
  | [] => mret []
  | x :: l' => y ← f x; ys ← map_run f l'; mret (y :: ys)
  end.

(** A part of the pair. *)
Definition on_fst {S M A} (m : run S A) : run (S * M) A := zoom fst (λ s p, (s, p.2)) m.
Definition on_snd {S M A} (m : run M A) : run (S * M) A := zoom snd (λ g p, (p.1, g)) m.

Section Metered.
Context {M : Type} `{Prometheus M}.

(** The body of the loop that combines the zones. *)
Definition metered_zone (wrapShapes : gmap string WrapShape) (entry : string * WrapShape)
  : run M (gmap string WrapShape) :=
  writes ← lift (shape_writes entry.2);
  write_all writes;;
  lift (combine_zone wrapShapes entry).

Section Listing.
Context {W C UC : Type} `{ComputeClient W} `{Clock W} {order : MapOrder}
  `{TTLCache (gmap string WrapShape) C} `{TTLCache unit UC}.
Variable opts : Options.

Definition metered_refresh (fuel : nat) : run (State (W := W) (C := C) (UC := UC) * M) (gmap string WrapShape) :=
  adShapesMap ← on_fst (for_each (collect_domain opts fuel) (Options.AvailableDomains opts) ∅);
  wrapShapes ← on_snd (for_each metered_zone (flatten_domains adShapesMap) ∅);
  s ← on_fst get_state;
  on_fst (put_state (set_it_cache (cache_SetDefault (clock_now (it_world s)) InstanceTypesCacheKey
                             wrapShapes (it_cache s)) s));;
  mret wrapShapes.

Definition metered_ListInstanceType (fuel : nat)
  : run (State (W := W) (C := C) (UC := UC) * M) (gmap string WrapShape) :=
  s ← on_fst get_state;
  match cache_Get (clock_now (it_world s)) InstanceTypesCacheKey (it_cache s) with
  | Some cached => mret cached
  | None => metered_refresh fuel
  end.

Context {Rq Rqs Q : Type} `{Scheduling Rq Rqs} `{Quantities Q} `{OfferingLib Rqs Q}.
Variable Price : WrapShape → res f32.

(** The body of the loops of [CreateOfferings]. *)
Definition metered_offering (now : Z) (uo : UnavailableOfferings UC) (shape : WrapShape)
    (zone capacityType : string) : run M (Offering Rqs) :=
  o ← lift (create_offering opts Price now uo shape zone capacityType);
  name ← lift (deref (Shape_Shape (wShape shape)));
  write_all (offering_writes name zone capacityType shape o);;
  mret o.

Definition metered_CreateOfferings (now : Z) (uo : UnavailableOfferings UC) (shape : WrapShape)
    (zones : gmap string unit) : run M (list (Offering Rqs)) :=
  map_run (λ '(zone, capacityType), metered_offering now uo shape zone capacityType)
    (list_prod (range_zones shape zones) supportInstanceTypes).

Variable ParseFloat_other : string → option f64.
Variable region : string.

Definition metered_List (fuel : nat) (nodeClass : OciNodeClass)
  : run (State (W := W) (C := C) (UC := UC) * M) (list (InstanceType Rqs Q)) :=
  wrapShapes ← metered_ListInstanceType fuel;
  s ← on_fst get_state;
  map_run (λ '(_, wrapped),
    offerings ← on_snd (metered_CreateOfferings (clock_now (it_world s)) (it_offerings s) wrapped
      (zone_set (OciModel.AvailableDomains wrapped)));
    lift (NewInstanceType ParseFloat_other opts region wrapped nodeClass
      (OciModel.AvailableDomains wrapped) offerings))
    (range_map "wrapShapes" wrapShapes).
End Listing.
End Metered.

(** ** Runs that differ from others only in the registry *)

(** [m] gives [r] whatever the gauges hold. *)
Definition yields {M A} (m : run M A) (r : res A) : Prop := ∀ g, ∃ g', m g = (r, g').

Lemma yields_lift {M A} (r : res A) : yields (M := M) (lift r) r.
Proof. intros g. by exists g. Qed.

Lemma yields_bind {M A B} (m : run M A) r (k : A → run M B) (k' : A → res B) :
  yields m r → (∀ a, r = Ok a → yields (k a) (k' a)) → yields (m ≫= k) (r ≫= k').
Proof.
  intros Hm Hk g. unfold mbind, run_bind, res_bind. destruct (Hm g) as [g' ->].
  destruct r as [a|e|why]; [by apply Hk|by exists g'..].
Qed.

Lemma yields_then {M A} (m : run M unit) (k : run M A) r : yields m (Ok tt) → yields k r → yields (m;; k) r.
Proof. intros Hm Hk. by apply (yields_bind m (Ok tt) (λ _, k) (λ _, r)). Qed.

Lemma yields_map {M A B} (f : A → run M B) g l :
  (∀ x, yields (f x) (g x)) → yields (map_run f l) (map_res g l).
Proof.
  intros Hf. induction l as [|x l IH]; simpl; [apply yields_lift|].
  apply yields_bind; [apply Hf|intros y _]. apply yields_bind; [apply IH|intros ys _]. apply yields_lift.
Qed.

Lemma yields_each {M A B} (f : B → A → run M B) g l b :
  (∀ b x, yields (f b x) (g b x)) → yields (for_each f l b) (fold_res g b l).
Proof.
  intros Hf. revert b. induction l as [|x l IH]; intros b; simpl; [apply yields_lift|].
  apply yields_bind; [apply Hf|intros b' _; apply IH].
Qed.

(** [m] does to the state what [r] does. *)
Definition erases {S M A} (m : run (S * M) A) (r : run S A) : Prop :=
  ∀ s g, ∃ g', m (s, g) = ((r s).1, ((r s).2, g')).

Lemma erases_lift {S M A} (r : res A) : erases (S := S) (M := M) (lift r) (lift r).
Proof. intros s g. by exists g. Qed.

Lemma erases_fst {S M A} (m : run S A) : erases (M := M) (on_fst m) m.
Proof. intros s g. exists g. unfold on_fst, zoom. simpl. by destruct (m s). Qed.

Lemma erases_snd {S M A} (m : run M A) r : yields m r → erases (S := S) (on_snd m) (lift r).
Proof. intros Hm s g. destruct (Hm g) as [g' Hg]. exists g'. unfold on_snd, zoom. simpl. by rewrite Hg. Qed.

Lemma erases_bind {S M A B} (m : run (S * M) A) r (k : A → run (S * M) B) k' :
  erases m r → (∀ a, erases (k a) (k' a)) → erases (m ≫= k) (r ≫= k').
Proof.
  intros Hm Hk s g. destruct (Hm s g) as [g1 Hg]. unfold mbind, run_bind. rewrite Hg.
  destruct (r s) as [[a|e|why] s1]; simpl; [apply Hk|by exists g1..].
Qed.

Lemma erases_bind_lift {S M A B} (m : run (S * M) A) r (k : A → run (S * M) B) (k' : A → res B) :
  erases m (lift r) → (∀ a, erases (k a) (lift (k' a))) → erases (m ≫= k) (lift (r ≫= k')).
Proof.
  intros Hm Hk s g. destruct (erases_bind m (lift r) k (λ a, lift (k' a)) Hm Hk s g) as [g' ->].
  exists g'. unfold mbind, run_bind, res_bind, lift. by destruct r.
Qed.

Lemma erases_map {S M A B} (f : A → run (S * M) B) g l :
  (∀ x, erases (f x) (lift (g x))) → erases (map_run f l) (lift (map_res g l)).
Proof.
  intros Hf. induction l as [|x l IH]; simpl; [apply erases_lift|].
  apply erases_bind_lift; [apply Hf|intros y]. apply erases_bind_lift; [apply IH|intros ys]. apply erases_lift.
Qed.

(** ** What the writes do *)

Section Properties.
Context {M : Type} `{PrometheusLaws M}.

(** A write names the labels its gauge declares. *)
Definition declared (e : GaugeVec * gmap string string * f64) : Prop :=
  dom e.1.2 = (list_to_set (LabelNames e.1.1) : gset string).

Lemma type_label_dom name : dom (type_label name) = (list_to_set [instanceTypeLabel] : gset string).
Proof. unfold type_label. rewrite dom_singleton_L. set_solver. Qed.

Lemma offering_label_dom name ct z :
  dom (offering_label name ct z) = (list_to_set [instanceTypeLabel; capacityTypeLabel; zoneLabel] : gset string).
Proof. unfold offering_label. rewrite !dom_insert_L, dom_singleton_L. set_solver. Qed.

Lemma offering_label_inj name ct z name' ct' z' :
  offering_label name ct z = offering_label name' ct' z' → name = name' ∧ ct = ct' ∧ z = z'.
Proof.
  intros Heq. assert (∀ k, offering_label name ct z !! k = offering_label name' ct' z' !! k) as Hk by by rewrite Heq.
  pose proof (Hk instanceTypeLabel) as H1. pose proof (Hk capacityTypeLabel) as H2. pose proof (Hk zoneLabel) as H3.
  vm_compute in H1, H2, H3. by simplify_eq.
Qed.

Lemma type_label_inj name name' : type_label name = type_label name' → name = name'.
Proof. intros Heq%(f_equal (λ m, m !! instanceTypeLabel)). vm_compute in Heq. by simplify_eq. Qed.

Lemma offering_writes_declared {Rqs} name z ct shape (o : Offering Rqs) :
  Forall declared (offering_writes name z ct shape o).
Proof. repeat constructor; apply offering_label_dom. Qed.

Lemma offering_writes_elem {Rqs} name z ct shape (o : Offering Rqs) vec labels v :
  (vec, labels, v) ∈ offering_writes name z ct shape o ↔
  (vec = instanceTypeOfferingAvailable ∧ labels = offering_label name ct z ∧
     v = f64_of_Z (if Of_Available o then 1 else 0)) ∨
  (vec = instanceTypeOfferingPriceEstimate ∧ labels = offering_label (price_name name shape) ct z ∧ v = Of_Price o).
Proof. unfold offering_writes. rewrite elem_of_cons, list_elem_of_singleton, !pair_eq. tauto. Qed.

Lemma shape_writes_declared shape es : shape_writes shape = Ok es → Forall declared es.
Proof. unfold shape_writes. intros Hs. res_inv. repeat constructor; apply type_label_dom. Qed.

#[local] Opaque offering_label type_label offering_writes.

(** After declared writes, a gauge holds the last value written to it, or what it held. *)
Lemma write_all_value es g : Forall declared es →
  ∃ g', write_all es g = (Ok tt, g') ∧
    ∀ vec labels, gauge_value vec labels g' =
      match last (filter (λ e, e.1 = (vec, labels)) es) with
      | Some (_, v) => Some v
      | None => gauge_value vec labels g
      end.
Proof.
  revert g. induction es as [|[[vec labels] v] es IH]; intros g Hes.
  - by exists g.
  - apply Forall_cons in Hes as [He Hes]. destruct (With_Set_ok vec labels v g He) as (g1 & H1 & Hv & Hother).
    destruct (IH g1 Hes) as (g' & Hg' & Hval). exists g'. split.
    + unfold write_all in *. simpl. unfold mbind, run_bind. unfold write. by rewrite H1.
    + intros vec' labels'. rewrite Hval, filter_cons. simpl.
      destruct (decide ((vec, labels) = (vec', labels'))) as [[= <- <-]|Hne].
      * rewrite last_cons. by destruct (last _) as [[]|].
      * rewrite Hother by done. done.
Qed.

Lemma write_all_yields es : Forall declared es → yields (M := M) (write_all es) (Ok tt).
Proof. intros Hes g. destruct (write_all_value es g Hes) as (g' & ? & _). by exists g'. Qed.

(** The value when every write to a gauge agrees. *)
Lemma write_all_agree es g vec labels v :
  Forall declared es → (vec, labels, v) ∈ es →
  (∀ v', (vec, labels, v') ∈ es → v' = v) →
  gauge_value vec labels (write_all es g).2 = Some v.
Proof.
  intros Hes Hin Hagree. destruct (write_all_value es g Hes) as (g' & -> & Hval). simpl. rewrite Hval.
  assert (Forall (λ e, e = (vec, labels, v)) (filter (λ e, e.1 = (vec, labels)) es)) as Hall.
  { apply Forall_forall. intros [k v'] [Hk Hin']%list_elem_of_filter. simpl in Hk. subst k. f_equal. by apply Hagree. }
  destruct (last (filter _ es)) as [e|] eqn:Hlast.
  - apply last_Some_elem_of in Hlast. rewrite Forall_forall in Hall. by rewrite (Hall _ Hlast).
  - apply last_None in Hlast. exfalso. eapply (filter_nil_not_elem_of _ _ (vec, labels, v)); done.
Qed.

Lemma metered_zone_yields m entry : yields (M := M) (metered_zone m entry) (combine_zone m entry).
Proof.
  destruct entry as [ad shape]. intros g. unfold metered_zone. simpl.
  destruct (shape_writes shape) as [es|e|why] eqn:Hes.
  - apply (yields_then (write_all es)); [by eapply write_all_yields, shape_writes_declared|apply yields_lift].
  - unfold shape_writes in Hes. destruct (Shape_Shape (wShape shape)); done.
  - unfold shape_writes, deref in Hes. destruct (Shape_Shape (wShape shape)) eqn:Hn; [done|].
    injection Hes as <-. exists g. unfold shape_key. by rewrite Hn.
Qed.

Section Listing.
Context {W C UC : Type} `{ComputeClient W} `{Clock W} {order : MapOrder}
  `{TTLCache (gmap string WrapShape) C} `{TTLCache unit UC}.
Context {Rq Rqs Q : Type} `{Scheduling Rq Rqs} `{Quantities Q} `{OfferingLib Rqs Q}.
Variables (opts : Options) (Price : WrapShape → res f32).

Lemma metered_offering_yields now (uo : UnavailableOfferings UC) shape zone ct :
  yields (M := M) (metered_offering (Rqs := Rqs) opts Price now uo shape zone ct)
    (create_offering opts Price now uo shape zone ct).
Proof.
  unfold metered_offering, create_offering. destruct (Shape_Shape (wShape shape)) as [name|] eqn:Hn.
  - cbn [deref mbind res_bind]. destruct (Price shape) as [p|e|why]; cbn [res_bind].
    + intros g. unfold mbind at 1, run_bind at 1, lift at 1. unfold mbind at 1, run_bind at 1, lift at 1.
      apply (yields_then (write_all _)); [apply write_all_yields, offering_writes_declared|].
      intros g'. by exists g'.
    + intros g. by exists g.
    + intros g. by exists g.
  - intros g. by exists g.
Qed.

Lemma metered_CreateOfferings_yields now (uo : UnavailableOfferings UC) shape zones :
  yields (M := M) (metered_CreateOfferings (Rqs := Rqs) opts Price now uo shape zones)
    (CreateOfferings opts Price now uo shape zones).
Proof. apply yields_map. intros [zone ct]. apply metered_offering_yields. Qed.

Lemma metered_ListInstanceType_erases fuel :
  erases (metered_ListInstanceType (M := M) opts fuel)
    (ListInstanceType (W := W) (C := C) (UC := UC) opts fuel).
Proof.
  apply erases_bind; [apply erases_fst|intros s].
  destruct (cache_Get _ _ _) as [cached|]; [apply (erases_lift (Ok cached))|].
  apply erases_bind; [apply erases_fst|intros m].
  apply erases_bind; [|intros ws].
  { apply erases_snd, yields_each. intros b e. apply metered_zone_yields. }
  apply erases_bind; [apply erases_fst|intros s'].
  apply erases_bind; [apply erases_fst|intros _]. apply (erases_lift (Ok ws)).
Qed.

(** The metrics are write-only: with them, the listing of instance types returns what it returns
    without them and leaves the same caches, table and world, and no write panics. *)
Theorem metered_List_erases ParseFloat_other region fuel nodeClass :
  erases
    (metered_List (M := M) (C := C) (UC := UC) (Rqs := Rqs) opts Price ParseFloat_other region fuel nodeClass)
    (List (W := W) opts Price ParseFloat_other region fuel nodeClass).
Proof.
  apply erases_bind; [apply metered_ListInstanceType_erases|intros ws].
  apply erases_bind; [apply erases_fst|intros s].
  apply erases_map. intros [k w].
  apply erases_bind_lift; [apply erases_snd, metered_CreateOfferings_yields|].
  intros os. apply erases_lift.
Qed.
End Listing.

(** ** What the gauges hold *)

Lemma write_all_app es1 es2 g : Forall declared es1 →
  write_all (M := M) (es1 ++ es2) g = write_all es2 (write_all es1 g).2.
Proof.
  intros Hes. revert g. induction es1 as [|e es1 IH]; intros g; [done|].
  apply Forall_cons in Hes as [He Hes]. destruct e as [[vec labels] v].
  destruct (With_Set_ok vec labels v g He) as (g1 & H1 & _).
  unfold write_all in *. simpl. unfold mbind, run_bind, write in *. rewrite H1. by apply IH.
Qed.

Section Offerings.
Context {UC : Type} {order : MapOrder} `{TTLCache unit UC}.
Context {Rq Rqs Q : Type} `{Scheduling Rq Rqs} `{Quantities Q} `{OfferingLib Rqs Q}.
Variables (opts : Options) (Price : WrapShape → res f32) (now : Z) (uo : UnavailableOfferings UC).
Variables (shape : WrapShape) (name : string) (p : f32).

(** The offering of a zone and a capacity type, and its writes. *)
Definition offered (pair : string * string) : Offering Rqs :=
  make_offering opts shape name pair.1 pair.2 (IsUnavailable now name pair.1 pair.2 uo) p.
Definition offered_writes (pair : string * string) : list (GaugeVec * gmap string string * f64) :=
  offering_writes name pair.1 pair.2 shape (offered pair).

Hypotheses (Hname : Shape_Shape (wShape shape) = Some name) (Hprice : Price shape = Ok p).

Lemma metered_offerings pairs g :
  map_run (λ '(zone, ct), metered_offering (Rqs := Rqs) opts Price now uo shape zone ct) pairs g =
    (Ok (map offered pairs), (write_all (concat (map offered_writes pairs)) g).2).
Proof.
  revert g. induction pairs as [|[z ct] pairs IH]; intros g; [done|].
  assert (metered_offering opts Price now uo shape z ct g =
    (Ok (offered (z, ct)), (write_all (M := M) (offered_writes (z, ct)) g).2)) as Hone.
  { unfold metered_offering, create_offering. rewrite Hname. cbn [deref mbind res_bind]. rewrite Hprice.
    unfold mbind, run_bind, lift. cbn [res_bind].
    change (offering_writes name z ct shape _) with (offered_writes (z, ct)).
    destruct (write_all_yields (offered_writes (z, ct)) (offering_writes_declared _ _ _ _ _) g) as [g' Hg].
    by rewrite Hg. }
  cbn [map_run map concat]. rewrite write_all_app by apply offering_writes_declared.
  rewrite (run_bind_step _ _ _ _ _ Hone), (run_bind_step _ _ _ _ _ (IH _)). done.
Qed.

Lemma offered_writes_elem pairs e :
  e ∈ concat (map offered_writes pairs) ↔ ∃ pair, pair ∈ pairs ∧ e ∈ offered_writes pair.
Proof.
  rewrite list_elem_of_In, in_concat. setoid_rewrite List.in_map_iff. setoid_rewrite list_elem_of_In. naive_solver.
Qed.

(** After CreateOfferings the gauge of availability of every zone and capacity type is 1 or 0 as
    its offering is available, and the gauge of the price, whose instance type carries the size,
    is the price of the offering. *)
Theorem CreateOfferings_gauges (zones : list string) g :
  ∃ os g', metered_CreateOfferings (Rqs := Rqs) opts Price now uo shape (zone_set zones) g = (Ok os, g') ∧
    ∀ z ct, z ∈ zones → ct ∈ supportInstanceTypes →
      offered (z, ct) ∈ os ∧
      gauge_value instanceTypeOfferingAvailable (offering_label name ct z) g' =
        Some (f64_of_Z (if Of_Available (offered (z, ct)) then 1 else 0)) ∧
      gauge_value instanceTypeOfferingPriceEstimate (offering_label (price_name name shape) ct z) g' =
        Some (Of_Price (offered (z, ct))).
Proof.
  set (pairs := list_prod (range_zones shape (zone_set zones)) supportInstanceTypes).
  exists (map offered pairs), (write_all (concat (map offered_writes pairs)) g).2.
  split; [apply metered_offerings|]. intros z ct Hz Hct.
  assert ((z, ct) ∈ pairs) as Hin.
  { unfold pairs. rewrite list_elem_of_In, in_prod_iff, <- !list_elem_of_In. by rewrite range_zones_elem. }
  assert (Forall declared (concat (map offered_writes pairs))) as Hdecl.
  { apply Forall_forall. intros e (pair & _ & He)%offered_writes_elem.
    pose proof (offering_writes_declared name pair.1 pair.2 shape (offered pair)) as Hall.
    rewrite Forall_forall in Hall. by apply Hall. }
  split; [by apply list_elem_of_fmap_2|].
  split; apply write_all_agree; [done| |intros v|done| |intros v];
    rewrite offered_writes_elem.
  1, 3: exists (z, ct); split; [done|]; apply offering_writes_elem; tauto.
  all: intros ([z' ct'] & _ & [(Hv & Hl & ->)|(Hv & Hl & ->)]%offering_writes_elem); [try discriminate Hv..];
    by apply offering_label_inj in Hl as (_ & -> & ->).
Qed.
End Offerings.

(** One step of the combining loop sets the two gauges of the shape's name, and no other. *)
Lemma metered_zone_gauges m ad shape m' g g' :
  metered_zone m (ad, shape) g = (Ok m', g') →
  ∃ name, Shape_Shape (wShape shape) = Some name ∧
    gauge_value instanceTypeVCPU (type_label name) g' = Some (f64_of_Z (CalcCpu shape)) ∧
    gauge_value instanceTypeMemory (type_label name) g' = Some (memory_bytes shape) ∧
    ∀ vec name', name' ≠ name → gauge_value vec (type_label name') g' = gauge_value vec (type_label name') g.
Proof.
  unfold metered_zone, shape_writes. simpl. destruct (Shape_Shape (wShape shape)) as [name|]; [|done].
  cbn [deref mbind res_bind]. set (es := [_; _]). assert (Forall declared es) as Hes by (repeat constructor; apply type_label_dom).
  destruct (write_all_value es g Hes) as (g1 & Hg1 & Hval).
  unfold mbind, run_bind, lift. rewrite Hg1. intros [= _ <-].
  assert (∀ vec name', name' ≠ name → filter (λ e, e.1 = (vec, type_label name')) es = []) as Hnone.
  { intros vec name' Hne. assert (∀ vec', (vec', type_label name) ≠ (vec, type_label name')) as Hk.
    { intros vec' [_ Hl%type_label_inj]%pair_eq. by subst. }
    unfold es. rewrite !filter_cons. simpl. rewrite !decide_False by apply Hk. done. }
  exists name. split; [done|]. rewrite !Hval. unfold es. rewrite !filter_cons. simpl.
  assert (instanceTypeVCPU ≠ instanceTypeMemory) as Hne by done.
  split_and!; [by repeat case_decide; simpl; try congruence..|]. intros vec name' Hother. by rewrite Hval, Hnone.
Qed.

(** After the loop, the gauges of a name hold the size visited last, also when the name, as that
    of a flexible shape, has many sizes. *)
Theorem listing_gauges l1 ad shape l2 name m m' g g' :
  for_each metered_zone (l1 ++ (ad, shape) :: l2) m g = (Ok m', g') →
  Shape_Shape (wShape shape) = Some name →
  (∀ e, e ∈ l2 → Shape_Shape (wShape e.2) ≠ Some name) →
  gauge_value instanceTypeVCPU (type_label name) g' = Some (f64_of_Z (CalcCpu shape)) ∧
  gauge_value instanceTypeMemory (type_label name) g' = Some (memory_bytes shape).
Proof.
  intros Hl Hname Hlast. revert m g Hl. induction l1 as [|e l1 IH]; intros m g Hl; simpl in Hl.
  - apply run_bind_Ok in Hl as (m1 & g1 & Hone & Hrest).
    apply metered_zone_gauges in Hone as (name1 & Hn & Hcpu & Hmem & _). simplify_eq.
    rewrite <- Hcpu, <- Hmem. clear Hcpu Hmem. revert m1 g1 Hrest.
    induction l2 as [|[ad2 w2] l2 IH]; intros m1 g1 Hrest; simpl in Hrest; [by injection Hrest as _ <-|].
    apply run_bind_Ok in Hrest as (m2 & g2 & Hone & Hrest).
    apply metered_zone_gauges in Hone as (name2 & Hn2 & _ & _ & Hkeep).
    assert (name ≠ name2) as Hne. { intros ->. by apply (Hlast (ad2, w2)); [left|]. }
    rewrite <- !Hkeep by done. apply (IH (λ e He, Hlast e (list_elem_of_further _ _ _ He)) m2 g2 Hrest).
  - apply run_bind_Ok in Hl as (m1 & g1 & _ & Hrest). by apply (IH m1 g1).
Qed.
End Properties.

(** ** A registry that satisfies the laws: the writes made, the last one first *)

Definition registry : Type := list (GaugeVec * gmap string string * f64).

#[export] Instance registry_prometheus : Prometheus registry := {
  With_Set vec labels v := λ m,
    if decide (dom labels = (list_to_set (LabelNames vec) : gset string)) then (Ok tt, (vec, labels, v) :: m)
    else (Panic "inconsistent label cardinality", m);
  gauge_value vec labels m := snd <$> head (filter (λ e, e.1 = (vec, labels)) (m : list (GaugeVec * gmap string string * f64)));
  MustRegister _ := mret tt;
  metrics_Namespace := "karpenter"
}.

#[export] Instance registry_laws : PrometheusLaws registry.
Proof.
  split; intros vec labels v m Hd; cbn [With_Set gauge_value registry_prometheus].
  - rewrite decide_True by done. eexists. split; [done|]. split.
    + by rewrite filter_cons, decide_True.
    + intros vec' labels' Hne. rewrite filter_cons, decide_False; [done|]. simpl. congruence.
  - rewrite decide_False by done. eauto.
Qed.
