(* ===== verification/Selector.v ===== *)
(** * Listing by selectors, with a cache

    [subnet.Provider.List], [securitygroup.Provider.List] and
    [imagefamily.Provider.List] share one shape: a cache entry under a key made
    of the selectors' hash; on a miss, one request per selector, the answers
    kept in a map by OCI id, and the map's values cached and returned: two
    reads of the map, each in an order of its own.  [ask] is the request a
    selector makes, [id] the identifier of an answer. *)

From stdpp Require Import base list strings gmap.
From Stdlib Require Import ZArith Lia.
From S2P Require Import Prelude GoStrings OciModel Cache.

Local Open Scope string_scope.

(** A provider's cache and the world its client talks to. *)
Record Cached (C W : Type) := { c_cache : C; c_world : W }.
Arguments c_cache {C W} _.
Arguments c_world {C W} _.
Arguments Build_Cached {C W} _ _.

Definition set_c_world {C W} (w : W) (s : Cached C W) : Cached C W :=
  {| c_cache := c_cache s; c_world := w |}.
Definition set_c_cache {C W} (c : C) (s : Cached C W) : Cached C W :=
  {| c_cache := c; c_world := c_world s |}.
Definition on_client {C W A} (m : run W A) : run (Cached C W) A := zoom c_world set_c_world m.

Section Selector.
Context {W A Sel C : Type} `{Clock W} {order : MapOrder} `{cache : TTLCache (list A) C}.
Context (ask : Sel → run W (list A)) (id : A → string).

(** [m[id(a)] = a] for each answer *)
Definition collect (m : gmap string A) (items : list A) : gmap string A :=
  foldl (λ m a, <[id a := a]> m) m items.

Definition gather (sels : list Sel) : run W (gmap string A) :=
  for_each (λ m sel, items ← ask sel; mret (collect m items)) sels ∅.

Definition cached_list (key : string) (sels : list Sel) : run (Cached C W) (list A) :=
  s ← get_state;
  match cache_Get (clock_now (c_world s)) key (c_cache s) with
  | Some l => mret l
  | None =>
      m ← on_client (gather sels);
      s' ← get_state;
      put_state (set_c_cache (cache_SetDefault (clock_now (c_world s')) key (map_values "cached" m) (c_cache s')) s');;
      mret (map_values "returned" m)
  end.

(** The answers to the selectors [sels], from world [w] to [w']. *)
Inductive answers : W → list Sel → list A → W → Prop :=
| answers_nil w : answers w [] [] w
| answers_cons w sel items w1 sels rest w' :
    ask sel w = (Ok items, w1) → answers w1 sels rest w' →
    answers w (sel :: sels) (items ++ rest) w'.

Lemma collect_app m l1 l2 : collect m (l1 ++ l2) = collect (collect m l1) l2.
Proof. apply foldl_app. Qed.

(** Under an id, the last answer that has it. *)
Lemma collect_lookup items k :
  match collect ∅ items !! k with
  | Some a => a ∈ items ∧ id a = k
  | None => ∀ a, a ∈ items → id a ≠ k
  end.
Proof.
  induction items as [|a items IH] using rev_ind; simpl.
  - rewrite lookup_empty. intros a []%elem_of_nil.
  - rewrite collect_app. simpl. destruct (decide (id a = k)) as [<-|Hne].
    + rewrite lookup_insert_eq. split; [|done]. apply elem_of_app. right. by left.
    + rewrite lookup_insert_ne by done. destruct (collect ∅ items !! k) as [b|].
      * destruct IH. split; [|done]. apply elem_of_app. by left.
      * intros b [Hb|Hb]%elem_of_app; [by apply IH|].
        apply list_elem_of_singleton in Hb as ->. done.
Qed.

Lemma gather_answers w sels items w' m :
  answers w sels items w' →
  for_each (λ m sel, items ← ask sel; mret (collect m items)) sels m w = (Ok (collect m items), w').
Proof.
  intros Ha. revert m. induction Ha as [w|w sel items w1 sels rest w' Hs Ha IH]; intros m; [done|].
  cbn [for_each]. rewrite (run_bind_step _ _ _ (collect m items) w1);
    [|by rewrite (run_bind_step _ _ _ _ _ Hs)].
  by rewrite IH, collect_app.
Qed.

(** A listing without duplicates: each id once, with one of its answers. *)
Definition lists_answers (l items : list A) : Prop :=
  NoDup (map id l) ∧ (∀ a, a ∈ l → a ∈ items) ∧ (∀ a, a ∈ items → ∃ a', a' ∈ l ∧ id a' = id a).

Lemma map_values_collect {M} (moment : M) items : lists_answers (map_values moment (collect ∅ items)) items.
Proof.
  set (m := collect ∅ items).
  assert (∀ k a, m !! k = Some a → a ∈ items ∧ id a = k) as Hm.
  { intros k a Hk. pose proof (collect_lookup items k) as Hl. fold m in Hl. by rewrite Hk in Hl. }
  split_and!.
  - assert (map id (map_values moment m) = (range_map moment m).*1) as ->; [|apply range_map_NoDup].
    unfold map_values. rewrite map_map. apply map_ext_in. intros [k a] Hin. simpl.
    apply list_elem_of_In, range_map_lookup in Hin. by destruct (Hm k a Hin).
  - intros a [k Hk]%map_values_elem. by destruct (Hm k a Hk).
  - intros a Ha. pose proof (collect_lookup items (id a)) as Hl. fold m in Hl.
    destruct (m !! id a) as [b|] eqn:Hb; [|by destruct (Hl a Ha)].
    exists b. split; [apply map_values_elem; eauto|by destruct Hl].
Qed.

Lemma cached_list_hit key sels (s : Cached C W) l :
  cache_Get (clock_now (c_world s)) key (c_cache s) = Some l →
  cached_list key sels s = (Ok l, s).
Proof.
  intros Hc. unfold cached_list, get_state. rewrite (run_bind_step _ _ _ s s) by done. by rewrite Hc.
Qed.

Lemma cached_list_miss `{!TTLCacheLaws (list A) C} key sels (s : Cached C W) items w' :
  cache_Get (clock_now (c_world s)) key (c_cache s) = None →
  answers (c_world s) sels items w' →
  ∃ l cached s', cached_list key sels s = (Ok l, s') ∧ c_world s' = w' ∧ lists_answers l items ∧ cached ≡ₚ l ∧
    (∀ t, cache_Get t key (c_cache s') =
       if (t <=? clock_now w' + cache_ttl (c_cache s))%Z then Some cached else None) ∧
    (∀ t k, k ≠ key → cache_Get t k (c_cache s') = cache_Get t k (c_cache s)).
Proof.
  intros Hc Ha. exists (map_values "returned" (collect ∅ items)), (map_values "cached" (collect ∅ items)). eexists. split.
  { unfold cached_list, get_state. rewrite (run_bind_step _ _ _ s s) by done. rewrite Hc.
    erewrite run_bind_step; [reflexivity|]. unfold on_client, zoom, gather.
    by rewrite (gather_answers _ _ _ _ _ Ha). }
  simpl. split_and!; [done|apply map_values_collect|apply map_values_perm| |].
  - intros t. apply Get_Set_eq.
  - intros t k Hk. by rewrite Get_Set_ne.
Qed.

(** A request that fails makes the listing fail, and nothing is cached. *)
Lemma cached_list_error key sels sel rest items (s : Cached C W) w1 e w2 :
  cache_Get (clock_now (c_world s)) key (c_cache s) = None →
  answers (c_world s) sels items w1 → ask sel w1 = (Err e, w2) →
  cached_list key (sels ++ sel :: rest) s = (Err e, set_c_world w2 s).
Proof.
  intros Hc Ha He. unfold cached_list, get_state. rewrite (run_bind_step _ _ _ s s) by done. rewrite Hc.
  apply run_bind_stop. unfold on_client, zoom, gather. rewrite for_each_app.
  erewrite run_bind_step by (by apply gather_answers). cbn [for_each].
  erewrite run_bind_stop; [done|]. by apply run_bind_stop.
Qed.
End Selector.
