(* ===== verification/Subnet.v ===== *)
(** * [pkg/providers/subnet]: subnets of a node class and their free addresses *)

From stdpp Require Import base list strings gmap.
From Stdlib Require Import ZArith SpecFloat Lia Ascii.
From S2P Require Import Prelude GoStrings GoFloat OciModel Api Options Cache Selector.

Local Open Scope string_scope.

(** ** [net.ParseCIDR]

    An address is IPv4 when a dot comes before any colon or percent sign.
    IPv6 addresses are recognised by a function that is a parameter. *)

Fixpoint first_separator (s : string) : option ascii :=
  match s with
  | EmptyString => None
  | String c s' =>
      if Ascii.eqb c "."%char || Ascii.eqb c ":"%char || Ascii.eqb c "%"%char then Some c
      else first_separator s'
  end.

(** A decimal octet: one to three digits, no leading zero, at most 255. *)
Definition octet (s : string) : bool :=
  string_forall is_digit s &&
  match s with
  | EmptyString => false
  | String "0" (String _ _) => false
  | _ => match Atoi s with Some n => (n <=? 255)%Z | None => false end
  end.

Definition is_ipv4 (addr : string) : bool :=
  let fields := Split addr "." in (length fields =? 4)%nat && forallb octet fields.

(** [dtoi]: decimal digits, below 0xFFFFFF. *)
Definition mask_length (mask : string) : option Z :=
  if string_forall is_digit mask && negb (String.eqb mask "") then
    n ← Atoi mask; if (n <? 16777215)%Z then Some n else None
  else None.

Section Cidr.
Variable is_ipv6 : string → bool.

(** The mask and the address lengths. *)
Definition ParseCIDR (cidr : string) : res (Z * Z) :=
  let bad := Err (EText "invalid CIDR address") in
  match Split cidr "/" with
  | addr :: ((_ :: _) as rest) =>
      let maxLen :=
        match first_separator addr with
        | Some "."%char => if is_ipv4 addr then Some 32%Z else None
        | Some ":"%char => if is_ipv6 addr then Some 128%Z else None
        | _ => None
        end in
      match maxLen, mask_length (Join rest "/") with
      | Some maxLen, Some n => if (n <=? maxLen)%Z then Ok (n, maxLen) else bad
      | _, _ => bad
      end
  | _ => bad
  end.

(** ** [calculateTotalIps]: [1 << (maxLen - maskLen)] in an int *)
Definition calculateTotalIps (cidr : string) : res Z :=
  '(maskLen, maxLen) ← ParseCIDR cidr;
  Ok (wrap64 (2 ^ (maxLen - maskLen))).
End Cidr.

(** ** The provider *)

Section Provider.
Context {W C : Type} `{VirtualNetworkClient W} `{Clock W} {order : MapOrder}
  `{cache : TTLCache (list Subnet) C}.
Variable is_ipv6 : string → bool.
Variable opts : Options.
(** [hashstructure.Hash] of the selectors, slices as sets. *)
Variable hash : list SubnetSelectorTerm → res Z.

Definition GetSubnetUtilization (subnet : Subnet) : run W (list IpInventoryCidrUtilizationSummary) :=
  client_GetSubnetCidrUtilization (Subnet_Id subnet).

(** The addresses in use by the utilization [u], in percent, of [total]. *)
Definition used_ips (total : Z) (u : f32) : Z :=
  int64_of_float (f32_div (f32_mul (f32_of_Z total) u) (f32_of_Z 100)).

(** The loop over the summaries, left at the first that is of the block; it
    reads the utilization of [first], the head of the whole list. *)
Fixpoint subtract_used (block : string) (first : option f32) (total : Z)
    (summaries : list IpInventoryCidrUtilizationSummary) : res Z :=
  match summaries with
  | [] => Ok total
  | smy :: rest =>
      match Smy_Cidr smy with
      | Some cidr =>
          if String.eqb cidr block then u ← deref first; Ok (wrap64 (total - used_ips total u))
          else subtract_used block first total rest
      | None => subtract_used block first total rest
      end
  end.

Definition GetSubnetAvailableIPv4Count (subnet : Subnet) : run W Z :=
  match CidrBlock subnet with
  | None => mret 0%Z
  | Some block =>
      total ← lift (calculateTotalIps is_ipv6 block);
      summaries ← client_GetSubnetCidrUtilization (Subnet_Id subnet);
      available ← lift (subtract_used block (head summaries ≫= Smy_Utilization) total summaries);
      mret (Z.max 0 available)
  end.

(** The request of one selector: by id, else by name, else none. *)
Definition ask_subnets (vcnId : string) (selector : SubnetSelectorTerm) : run W (list Subnet) :=
  if negb (String.eqb (SST_Id selector) "") then
    subnet ← client_GetSubnet (Some (SST_Id selector)); mret [subnet]
  else if negb (String.eqb (SST_Name selector) "") then
    client_ListSubnets (CompartmentId opts) vcnId (SST_Name selector)
  else mret [].

Definition subnet_id (s : Subnet) : string := from_ptr "" (Subnet_Id s).

Definition subnet_key (vcnId : string) (h : Z) : string := vcnId +:+ ":" +:+ Itoa h.

Definition List (nodeClass : OciNodeClass) : run (Cached C W) (list Subnet) :=
  h ← lift (hash (SubnetSelector (Spec nodeClass)));
  cached_list (ask_subnets (VcnId (Spec nodeClass))) subnet_id
    (subnet_key (VcnId (Spec nodeClass)) h) (SubnetSelector (Spec nodeClass)).

(** [lo.UniqBy] on the dereferenced id: the first of each. *)
Fixpoint uniq_by_id (seen : list string) (l : list Subnet) : res (list Subnet) :=
  match l with
  | [] => Ok []
  | s :: l' =>
      id ← deref (Subnet_Id s);
      if bool_decide (id ∈ seen) then uniq_by_id seen l'
      else rest ← uniq_by_id (id :: seen) l'; Ok (s :: rest)
  end.

(** The loop over the attachments: [skipped] is [ifOnlyPrimary != nil]. *)
Fixpoint attached_subnets (onlyPrimary skipped : bool) (vnics : list VnicAttachment) : run W (list Subnet) :=
  match vnics with
  | [] => mret []
  | vnic :: rest =>
      secondary ←
        (if onlyPrimary then
           v ← client_GetVnic (VA_VnicId vnic); mret (negb (from_ptr false (Vnic_IsPrimary v)))
         else mret false);
      if (secondary : bool) then attached_subnets onlyPrimary true rest
      else
        subnet ← client_GetSubnet (VA_SubnetId vnic);
        if (skipped : bool) then mret [subnet]
        else others ← attached_subnets onlyPrimary skipped rest; mret (subnet :: others)
  end.

Definition GetSubnets (vnics : list VnicAttachment) (onlyPrimary : bool) : run W (list Subnet) :=
  subnets ← attached_subnets onlyPrimary false vnics;
  lift (uniq_by_id [] subnets).
End Provider.

(** ** Properties *)

Section ParseSpec.
Variable is_ipv6 : string → bool.

Definition dotted (a b c d : Z) : string := Join [Itoa a; Itoa b; Itoa c; Itoa d] ".".

Definition byte (z : Z) : Prop := (0 <= z <= 255)%Z.

Lemma octet_Itoa z : byte z → octet (Itoa z) = true.
Proof.
  intros Hz. assert ((λ z, octet (Itoa z)) z = true) as Hb; [|done].
  assert (forallb (λ i, octet (Itoa (Z.of_nat i))) (seq 0 256) = true) as Hf by (vm_compute; reflexivity).
  rewrite forallb_forall in Hf. specialize (Hf (Z.to_nat z)). unfold byte in Hz.
  rewrite Z2Nat.id in Hf by lia. apply Hf, in_seq. lia.
Qed.

Lemma first_separator_dot s t : string_forall is_digit s = true → first_separator (s +:+ String "." t) = Some "."%char.
Proof.
  induction s as [|c s IH]; [done|]. rewrite app_cons_str. simpl. rewrite andb_true_iff. intros [Hc Hs].
  destruct (Ascii.eqb_spec c "."%char) as [->|]; [done|].
  destruct (Ascii.eqb_spec c ":"%char) as [->|]; [done|].
  destruct (Ascii.eqb_spec c "%"%char) as [->|]; [done|]. by apply IH.
Qed.

Lemma digits_no_char s (c : ascii) : is_digit c = false → string_forall is_digit s = true → Contains s (String c "") = false.
Proof. intros Hc Hs. apply (Contains_chars is_digit); [done|]. simpl. by rewrite Hc. Qed.

Lemma dotted_Split a b c d :
  byte a → byte b → byte c → byte d →
  Split (dotted a b c d) "." = [Itoa a; Itoa b; Itoa c; Itoa d].
Proof.
  unfold byte. intros. apply (Split_Join_char "."%char); [done|].
  repeat constructor; apply digits_no_char, Itoa_digits; try done; lia.
Qed.

Lemma dotted_chars a b c d :
  byte a → byte b → byte c → byte d → string_forall (λ x, is_digit x || Ascii.eqb x "."%char) (dotted a b c d) = true.
Proof.
  unfold byte. intros. assert (∀ z, (0 <= z <= 255)%Z →
    string_forall (λ x, is_digit x || Ascii.eqb x "."%char) (Itoa z) = true) as Hd.
  { intros z Hz. apply (string_forall_impl is_digit); [intros x ->; done|]. apply Itoa_digits. lia. }
  unfold dotted. cbn [Join]. rewrite !string_forall_app, !Hd by done. done.
Qed.

Lemma mask_length_Itoa n : (0 <= n <= 128)%Z → mask_length (Itoa n) = Some n.
Proof.
  intros Hn. unfold mask_length. rewrite Itoa_digits by lia.
  destruct (String.eqb_spec (Itoa n) "") as [He|_].
  - pose proof (Atoi_Itoa n) as Ha. rewrite He in Ha. discriminate Ha.
    unfold in_int64, min_int64, max_int64. lia.
  - simpl. rewrite Atoi_Itoa by (unfold in_int64, min_int64, max_int64; lia). simpl.
    by replace (n <? 16777215)%Z with true by lia.
Qed.

(** A block with [n] bits of network has [2 ^ (32 - n)] addresses. *)
Theorem calculateTotalIps_ipv4 (a b c d n : Z) :
  byte a → byte b → byte c → byte d → (0 <= n <= 32)%Z →
  calculateTotalIps is_ipv6 (dotted a b c d +:+ "/" +:+ Itoa n) = Ok (2 ^ (32 - n))%Z.
Proof.
  intros Ha Hb Hc Hd Hn. unfold calculateTotalIps, ParseCIDR.
  assert (Split (dotted a b c d +:+ "/" +:+ Itoa n) "/" = [dotted a b c d; Itoa n]) as ->.
  { change ("/" +:+ Itoa n) with (String "/" (Itoa n)). rewrite Split_app_char, Split_no_sep; [done|done| |].
    - apply digits_no_char; [done|]. apply Itoa_digits. lia.
    - apply (Contains_chars (λ x, is_digit x || Ascii.eqb x "."%char)); [by apply dotted_chars|done]. }
  assert (first_separator (dotted a b c d) = Some "."%char) as ->.
  { unfold dotted. apply (first_separator_dot (Itoa a)), Itoa_digits. unfold byte in Ha. lia. }
  assert (is_ipv4 (dotted a b c d) = true) as ->.
  { unfold is_ipv4. rewrite dotted_Split by done. cbn [length forallb]. by rewrite !octet_Itoa. }
  cbn [Join]. rewrite mask_length_Itoa by lia. replace (n <=? 32)%Z with true by lia. simpl.
  f_equal. apply wrap64_id. unfold in_int64, min_int64, max_int64.
  pose proof (Z.pow_le_mono_r 2 (32 - n) 32). pose proof (Z.pow_pos_nonneg 2 (32 - n)). lia.
Qed.
End ParseSpec.

Section CountSpec.
Context {W : Type} `{VirtualNetworkClient W}.
Variable is_ipv6 : string → bool.

(** Whole percentages of a block use between none and all of its addresses. *)
Lemma used_ips_percent k u :
  (0 <= k <= 32)%Z → (0 <= u <= 100)%Z →
  (0 <= used_ips (2 ^ k) (f32_of_Z u) <= 2 ^ k)%Z.
Proof.
  intros Hk Hu.
  assert (forallb (λ '(i, j),
    let used := used_ips (2 ^ Z.of_nat i) (f32_of_Z (Z.of_nat j)) in
    (0 <=? used)%Z && (used <=? 2 ^ Z.of_nat i)%Z) (list_prod (seq 0 33) (seq 0 101)) = true) as Hf
    by (vm_compute; reflexivity).
  rewrite forallb_forall in Hf. specialize (Hf (Z.to_nat k, Z.to_nat u)).
  rewrite in_prod_iff, !in_seq in Hf. simpl in Hf. rewrite !Z2Nat.id in Hf by lia.
  assert (_ && _ = true) as Hb by (apply Hf; lia). lia.
Qed.

(** The utilization the loop subtracts: that of the first summary, if any
    summary is of the block. *)
Definition block_used (block : string) (summaries : list IpInventoryCidrUtilizationSummary) : bool :=
  existsb (λ smy, match Smy_Cidr smy with Some c => String.eqb c block | None => false end) summaries.

Lemma subtract_used_spec block first total summaries :
  subtract_used block first total summaries =
    if block_used block summaries then u ← deref first; Ok (wrap64 (total - used_ips total u))
    else Ok total.
Proof.
  unfold block_used. induction summaries as [|smy rest IH]; simpl; [done|].
  destruct (Smy_Cidr smy) as [cidr|]; simpl; [|done]. by destruct (String.eqb cidr block).
Qed.

(** C32: For an IPv4 block and a whole percentage of use, the count of available addresses is
    the size of the block less the used share, between 0 and the size; the share is that of the
    first summary, whichever summary is of the block. *)
Theorem GetSubnetAvailableIPv4Count_spec (subnet : Subnet) (w w' : W) (a b c d n u : Z)
    (smy : IpInventoryCidrUtilizationSummary) (rest : list IpInventoryCidrUtilizationSummary) :
  byte a → byte b → byte c → byte d → (0 <= n <= 32)%Z → (0 <= u <= 100)%Z →
  let block := dotted a b c d +:+ "/" +:+ Itoa n in
  CidrBlock subnet = Some block →
  client_GetSubnetCidrUtilization (Subnet_Id subnet) w = (Ok (smy :: rest), w') →
  Smy_Utilization smy = Some (f32_of_Z u) →
  ∃ count, GetSubnetAvailableIPv4Count is_ipv6 subnet w = (Ok count, w') ∧
    (0 <= count <= 2 ^ (32 - n))%Z ∧
    count = (2 ^ (32 - n) -
      if block_used block (smy :: rest) then used_ips (2 ^ (32 - n)) (f32_of_Z u) else 0)%Z.
Proof.
  intros Ha Hb Hc Hd Hn Hu block Hblock Hclient Hutil. subst block.
  pose proof (used_ips_percent (32 - n) u ltac:(lia) Hu) as Hused.
  assert (2 ^ (32 - n) <= 2 ^ 32)%Z by (apply Z.pow_le_mono_r; lia).
  unfold GetSubnetAvailableIPv4Count. rewrite Hblock.
  rewrite (run_bind_step _ _ _ (2 ^ (32 - n))%Z w) by (unfold lift; by rewrite calculateTotalIps_ipv4).
  rewrite (run_bind_step _ _ _ _ _ Hclient). cbn [head mbind option_bind]. rewrite Hutil.
  unfold mbind, run_bind, lift. rewrite subtract_used_spec. destruct (block_used _ _); cbn [deref mbind res_bind].
  - rewrite wrap64_id by (unfold in_int64, min_int64, max_int64; lia).
    eexists. split; [done|]. lia.
  - eexists. split; [done|]. lia.
Qed.

(** A subnet without an IPv4 block has no addresses. *)
Lemma count_without_block (subnet : Subnet) (w : W) :
  CidrBlock subnet = None → GetSubnetAvailableIPv4Count is_ipv6 subnet w = (Ok 0%Z, w).
Proof. intros Hb. unfold GetSubnetAvailableIPv4Count. by rewrite Hb. Qed.

(** The second summary is the block's and says it is empty; the first, of
    another block, says full: the block counts as full. *)
Lemma count_of_other_block (w : W) :
  let summary cidr u := {| Smy_Cidr := Some cidr; Smy_Utilization := Some (f32_of_Z u); Smy_AddressType := "" |} in
  subtract_used "10.0.1.0/24" (Some (f32_of_Z 100)) 256 [summary "10.0.0.0/24" 100%Z; summary "10.0.1.0/24" 0%Z]
    = Ok 0%Z.
Proof. vm_compute. reflexivity. Qed.
End CountSpec.

Section ListSpec.
Context {W C : Type} `{VirtualNetworkClient W} `{Clock W} {order : MapOrder} `{TTLCacheLaws (list Subnet) C}.
Variable opts : Options.
Variable hash : list SubnetSelectorTerm → res Z.

(** List of subnets on a cache miss returns each subnet the selectors answer once, and
    serves the same subnets, in another order, until the TTL is over. *)
Theorem List_spec (nodeClass : OciNodeClass) (s : Cached C W) (h : Z) (items : list Subnet) (w' : W) :
  let selectors := SubnetSelector (Spec nodeClass) in
  let k := subnet_key (VcnId (Spec nodeClass)) h in
  hash selectors = Ok h →
  cache_Get (clock_now (c_world s)) k (c_cache s) = None →
  answers (ask_subnets opts (VcnId (Spec nodeClass))) (c_world s) selectors items w' →
  ∃ l cached s', List opts hash nodeClass s = (Ok l, s') ∧ c_world s' = w' ∧ cached ≡ₚ l ∧
    NoDup (map subnet_id l) ∧ (∀ x, x ∈ l → x ∈ items) ∧
    (∀ x, x ∈ items → ∃ x', x' ∈ l ∧ subnet_id x' = subnet_id x) ∧
    (∀ now, (clock_now w' <= now <= clock_now w' + cache_ttl (c_cache s))%Z →
       ∀ s2, c_cache s2 = c_cache s' → clock_now (c_world s2) = now →
       List opts hash nodeClass s2 = (Ok cached, s2)).
Proof.
  intros selectors k Hh Hmiss Ha.
  destruct (cached_list_miss (ask_subnets opts (VcnId (Spec nodeClass))) subnet_id k selectors s items w' Hmiss Ha)
    as (l & cached & s' & Hl & Hw & (Hnd & Hin & Hall) & Hperm & Hc & _).
  assert (∀ s, List opts hash nodeClass s =
    cached_list (ask_subnets opts (VcnId (Spec nodeClass))) subnet_id k selectors s) as Heq.
  { intros s0. unfold List. rewrite (run_bind_step _ _ _ h s0); [done|]. unfold lift. by f_equal. }
  exists l, cached, s'. rewrite Heq. split_and!; [done..|].
  intros now Hnow s2 Hs2 Hclock. rewrite Heq. apply cached_list_hit.
  rewrite Hs2, Hclock, Hc. by replace (now <=? _)%Z with true by lia.
Qed.
End ListSpec.

Section AttachedSpec.
Context {W : Type} `{VirtualNetworkClient W}.

Lemma uniq_by_id_spec seen l l' :
  uniq_by_id seen l = Ok l' →
  NoDup (map Subnet_Id l') ∧
  ∀ id, Some id ∈ map Subnet_Id l' ↔ Some id ∈ map Subnet_Id l ∧ id ∉ seen.
Proof.
  revert seen l'; induction l as [|s l IH]; intros seen l'; simpl.
  - intros [= <-]. split; [constructor|]. intros id. split; [by intros []%elem_of_nil|by intros [[]%elem_of_nil _]].
  - intros Hu. res_inv. destruct (bool_decide (x ∈ seen)) eqn:Hx.
    + apply bool_decide_eq_true in Hx. destruct (IH _ _ H1) as [? Hid]. split; [done|].
      intros id. rewrite Hid, elem_of_cons, H0. split; [tauto|]. intros [[[= ->]|?] ?]; [done|tauto].
    + apply bool_decide_eq_false in Hx. res_inv. destruct (IH _ _ H1) as [Hnd Hid].
      simpl. split.
      * constructor; [|done]. rewrite H0, Hid, elem_of_cons. naive_solver.
      * intros id. rewrite H0, !elem_of_cons, Hid, not_elem_of_cons.
        destruct (decide (id = x)) as [->|]; naive_solver.
Qed.

Section Primary.
Variable (isPrimary : VnicAttachment → bool) (subnetOf : option string → Subnet) (w : W).
Hypothesis vnic_answers : ∀ v, ∃ vnic, client_GetVnic (VA_VnicId v) w = (Ok vnic, w) ∧
  Vnic_IsPrimary vnic = Some (isPrimary v).
Hypothesis subnet_answers : ∀ id, client_GetSubnet id w = (Ok (subnetOf id), w).

Lemma attached_step skipped v rest :
  attached_subnets true skipped (v :: rest) w =
    if isPrimary v then
      if (skipped : bool) then (Ok [subnetOf (VA_SubnetId v)], w)
      else (others ← attached_subnets true skipped rest; mret (subnetOf (VA_SubnetId v) :: others)) w
    else attached_subnets true true rest w.
Proof.
  destruct (vnic_answers v) as (vnic & Hv & Hp). simpl.
  rewrite (run_bind_step _ _ _ (negb (isPrimary v)) w)
    by (rewrite (run_bind_step _ _ _ _ _ Hv), Hp; done).
  destruct (isPrimary v); simpl; [|done].
  rewrite (run_bind_step _ _ _ _ _ (subnet_answers _)). by destruct skipped.
Qed.

Lemma attached_none skipped vnics :
  List.filter isPrimary vnics = [] → attached_subnets true skipped vnics w = (Ok [], w).
Proof.
  revert skipped; induction vnics as [|v vnics IH]; intros skipped Hf; [done|].
  simpl in Hf. rewrite attached_step. destruct (isPrimary v); [done|auto].
Qed.

Lemma attached_one skipped vnics v :
  List.filter isPrimary vnics = [v] →
  attached_subnets true skipped vnics w = (Ok [subnetOf (VA_SubnetId v)], w).
Proof.
  revert skipped; induction vnics as [|v' vnics IH]; intros skipped Hf; [done|].
  simpl in Hf. rewrite attached_step. destruct (isPrimary v'); [|auto].
  injection Hf as -> Hf. destruct skipped; [done|].
  by rewrite (run_bind_step _ _ _ _ _ (attached_none false vnics Hf)).
Qed.

(** With one primary VNIC, its subnet is the answer. *)
Theorem GetSubnets_primary (vnics : list VnicAttachment) (v : VnicAttachment) :
  List.filter isPrimary vnics = [v] → is_Some (Subnet_Id (subnetOf (VA_SubnetId v))) →
  GetSubnets vnics true w = (Ok [subnetOf (VA_SubnetId v)], w).
Proof.
  intros Hf [id Hid]. unfold GetSubnets.
  rewrite (run_bind_step _ _ _ _ _ (attached_one false vnics v Hf)).
  unfold lift. simpl. by rewrite Hid.
Qed.
End Primary.
End AttachedSpec.
