(* ===== verification/SecurityGroup.v ===== *)
(** * [pkg/providers/securitygroup]: network security groups of a node class *)

From stdpp Require Import base list strings gmap.
From Stdlib Require Import ZArith Lia.
From S2P Require Import Prelude GoStrings OciModel Api Options Cache Selector.

Local Open Scope string_scope.

Section Provider.
Context {W C : Type} `{VirtualNetworkClient W} `{Clock W} {order : MapOrder}
  `{cache : TTLCache (list NetworkSecurityGroup) C}.
Variable opts : Options.
(** [hashstructure.Hash] of the selectors, slices as sets. *)
Variable hash : list SecurityGroupSelectorTerm → res Z.

Definition ask_groups (vcnId : string) (selector : SecurityGroupSelectorTerm)
  : run W (list NetworkSecurityGroup) :=
  if negb (String.eqb (SGT_Id selector) "") then
    group ← client_GetNetworkSecurityGroup (SGT_Id selector); mret [group]
  else if negb (String.eqb (SGT_Name selector) "") then
    client_ListNetworkSecurityGroups (CompartmentId opts) vcnId (SGT_Name selector)
  else mret [].

Definition group_id (g : NetworkSecurityGroup) : string := from_ptr "" (NSG_Id g).
Definition group_key (vcnId : string) (h : Z) : string := vcnId +:+ ":" +:+ Itoa h.

Definition List (nodeClass : OciNodeClass) : run (Cached C W) (list NetworkSecurityGroup) :=
  match SecurityGroupSelector (Spec nodeClass) with
  | [] => mret []
  | selectors =>
      h ← lift (hash selectors);
      cached_list (ask_groups (VcnId (Spec nodeClass))) group_id
        (group_key (VcnId (Spec nodeClass)) h) selectors
  end.

(** The groups of one attachment. *)
Definition vnic_groups (onlyPrimaryVnic : bool) (vnic : VnicAttachment) : run W (list NetworkSecurityGroup) :=
  v ← client_GetVnic (VA_VnicId vnic);
  if onlyPrimaryVnic && negb (from_ptr false (Vnic_IsPrimary v)) then mret []
  else
    for_each (λ groups nsgId, g ← client_GetNetworkSecurityGroup nsgId; mret (groups ++ [g])%list)
      (Vnic_NsgIds v) [].

Definition GetSecurityGroups (vnics : list VnicAttachment) (onlyPrimaryVnic : bool)
  : run W (list NetworkSecurityGroup) :=
  for_each (λ sgs vnic, gs ← vnic_groups onlyPrimaryVnic vnic; mret (sgs ++ gs)%list) vnics [].
End Provider.

(** ** Properties *)

Section GroupSpec.
Context {W C : Type} `{VirtualNetworkClient W} `{Clock W} {order : MapOrder}
  `{TTLCacheLaws (list NetworkSecurityGroup) C}.
Variable opts : Options.
Variable hash : list SecurityGroupSelectorTerm → res Z.

(** Without selectors nothing is asked and nothing is found. *)
Lemma List_no_selector (nodeClass : OciNodeClass) (s : Cached C W) :
  SecurityGroupSelector (Spec nodeClass) = [] → List opts hash nodeClass s = (Ok [], s).
Proof. intros Hs. unfold List. by rewrite Hs. Qed.

(** A lookup that fails is not cached: the next call asks again. *)
Lemma List_error (nodeClass : OciNodeClass) (s : Cached C W) h sel rest items before w1 e w2 :
  SecurityGroupSelector (Spec nodeClass) = (before ++ sel :: rest)%list →
  hash (before ++ sel :: rest)%list = Ok h →
  cache_Get (clock_now (c_world s)) (group_key (VcnId (Spec nodeClass)) h) (c_cache s) = None →
  answers (ask_groups opts (VcnId (Spec nodeClass))) (c_world s) before items w1 →
  ask_groups opts (VcnId (Spec nodeClass)) sel w1 = (Err e, w2) →
  List opts hash nodeClass s = (Err e, set_c_world w2 s).
Proof.
  intros Hsel Hh Hmiss Ha He. unfold List. rewrite Hsel.
  destruct (before ++ sel :: rest)%list eqn:Hd; [by destruct before|]. rewrite <- Hd in *.
  rewrite (run_bind_step _ _ _ h s) by (unfold lift; by rewrite Hh).
  by eapply cached_list_error.
Qed.

(** A world whose answers do not change it. *)
Variable (vnicOf : VnicAttachment → Vnic) (groupOf : string → NetworkSecurityGroup) (w : W).
Hypothesis vnic_answers : ∀ v, client_GetVnic (VA_VnicId v) w = (Ok (vnicOf v), w).
Hypothesis group_answers : ∀ id, client_GetNetworkSecurityGroup id w = (Ok (groupOf id), w).

Lemma for_each_appends {A B} (f : A → run W (list B)) (g : A → list B) l acc :
  (∀ x, f x w = (Ok (g x), w)) →
  for_each (λ acc x, ys ← f x; mret (acc ++ ys)%list) l acc w = (Ok (acc ++ concat (map g l))%list, w).
Proof.
  intros Hf. revert acc; induction l as [|x l IH]; intros acc; simpl; [by rewrite app_nil_r|].
  rewrite (run_bind_step _ _ _ (acc ++ g x)%list w) by (by rewrite (run_bind_step _ _ _ _ _ (Hf x))).
  by rewrite IH, <- app_assoc.
Qed.

Definition considered (onlyPrimary : bool) (v : VnicAttachment) : bool :=
  negb onlyPrimary || from_ptr false (Vnic_IsPrimary (vnicOf v)).

(** GetSecurityGroups returns the groups of the VNICs it considers (all, or the primary
    ones), in the order of the attachments. *)
Theorem GetSecurityGroups_spec (vnics : list VnicAttachment) (onlyPrimary : bool) :
  GetSecurityGroups vnics onlyPrimary w =
    (Ok (map groupOf (concat (map (λ v, Vnic_NsgIds (vnicOf v)) (List.filter (considered onlyPrimary) vnics)))), w).
Proof.
  unfold GetSecurityGroups.
  rewrite (for_each_appends _ (λ v, if considered onlyPrimary v then map groupOf (Vnic_NsgIds (vnicOf v)) else [])).
  - simpl. do 2 f_equal. induction vnics as [|v vnics IH]; [done|]. simpl. rewrite IH.
    destruct (considered onlyPrimary v); simpl; [by rewrite map_app|done].
  - intros v. unfold vnic_groups, considered. rewrite (run_bind_step _ _ _ _ _ (vnic_answers v)).
    rewrite <- (negb_involutive (negb onlyPrimary || _)), negb_orb, negb_involutive.
    destruct (onlyPrimary && _); simpl; [done|].
    pose proof (for_each_appends (λ id, g ← client_GetNetworkSecurityGroup id; mret [g])
      (λ id, [groupOf id]) (Vnic_NsgIds (vnicOf v)) []) as Hg.
    assert (∀ l acc, for_each (λ groups nsgId, g ← client_GetNetworkSecurityGroup nsgId; mret (groups ++ [g])%list) l acc w
      = (Ok (acc ++ map groupOf l)%list, w)) as Hl; [|by rewrite Hl].
    clear Hg. induction l as [|id l IH]; intros acc; simpl; [by rewrite app_nil_r|].
    rewrite (run_bind_step _ _ _ (acc ++ [groupOf id])%list w)
      by (by rewrite (run_bind_step _ _ _ _ _ (group_answers id))).
    by rewrite IH, <- app_assoc.
Qed.
End GroupSpec.
