(* ===== verification/Bootstrap.v ===== *)
(** * [pkg/providers/imagefamily/bootstrap]: the start-up script of a node

    The kubelet's arguments, the scripts of the three image families and their
    base64 encoding.  [url.Parse(...).Hostname()], the reading of MIME messages
    and [Taint.ToString] are parameters; the writing of MIME messages is
    modelled. *)

From stdpp Require Import base list strings gmap sorting.
From Stdlib Require Import ZArith NArith Lia Ascii.
From S2P Require Import Prelude GoStrings Api.

Local Open Scope string_scope.

Definition newline : string := String (ascii_of_nat 10) "".
Definition crlf : string := String (ascii_of_nat 13) newline.

(** The text between double quotes. *)
Definition dquote : string := String (ascii_of_nat 34) "".

(** ** The verb [%q] and durations *)

Definition hex_digit (n : nat) : ascii :=
  ascii_of_nat (if (n <? 10)%nat then 48 + n else 87 + n).

(** [strconv.Quote] of an ASCII character. *)
Definition quote_char (c : ascii) : string :=
  match nat_of_ascii c with
  | 34%nat => "\" +:+ dquote
  | 92%nat => "\\"
  | 7%nat => "\a" | 8%nat => "\b" | 9%nat => "\t" | 10%nat => "\n"
  | 11%nat => "\v" | 12%nat => "\f" | 13%nat => "\r"
  | n => if (n <? 32)%nat || (n =? 127)%nat
         then "\x" +:+ String (hex_digit (n / 16)) (String (hex_digit (n mod 16)) "")
         else String c ""
  end.

Fixpoint quote_body (s : string) : string :=
  match s with EmptyString => "" | String c s' => quote_char c +:+ quote_body s' end.

Definition is_ascii (c : ascii) : bool := (nat_of_ascii c <? 128)%nat.

(** [fmtFrac]: the digits of [v] below [10^prec], without trailing zeros. *)
Fixpoint frac_digits (prec : nat) (v : Z) (print : bool) : string :=
  match prec with
  | O => ""
  | S prec' =>
      let digit := (v mod 10)%Z in
      let print := print || negb (digit =? 0)%Z in
      frac_digits prec' (v / 10) print +:+ (if print then Itoa digit else "")
  end.
Definition frac_text (prec : nat) (v : Z) : string :=
  let d := frac_digits prec v false in if String.eqb d "" then "" else "." +:+ d.

(** The micro sign, in UTF-8. *)
Definition micro : string := String (ascii_of_nat 194) (String (ascii_of_nat 181) "").

(** [time.Duration.String] *)
Definition Duration_String (d : Z) : string :=
  let u := Z.abs d in
  let sign := if (d <? 0)%Z then "-" else "" in
  if (u =? 0)%Z then "0s"
  else if (u <? 1000)%Z then sign +:+ Itoa u +:+ "ns"
  else if (u <? 1000000)%Z then sign +:+ Itoa (u / 1000) +:+ frac_text 3 u +:+ micro +:+ "s"
  else if (u <? 1000000000)%Z then sign +:+ Itoa (u / 1000000) +:+ frac_text 6 u +:+ "ms"
  else
    let secs := (u / 1000000000)%Z in
    let mins := (secs / 60)%Z in
    let hours := (mins / 60)%Z in
    sign +:+ (if (0 <? hours)%Z then Itoa hours +:+ "h" else "") +:+
    (if (0 <? mins)%Z then Itoa (mins mod 60) +:+ "m" else "") +:+
    Itoa (secs mod 60) +:+ frac_text 9 u +:+ "s".

(** ** [bootstrap.go] *)

(** [core.Taint] *)
Record Taint := { Taint_Key : string; Taint_Value : string; Taint_Effect : string }.

Record Options := {
  ClusterName : string;
  ClusterEndpoint : string;
  ClusterDns : string;
  KubeletConfig : option KubeletConfiguration;
  Taints : list Taint;
  NodeLabels : gmap string string;
  CABundle : option string;
  BootstrapToken : string;
  CustomUserData : option string;
  PreInstallScript : option string
}.

Section Args.
Context {order : MapOrder}.
Variable taint_ToString : Taint → string.
(** [strconv.Quote] of a text with bytes above 127. *)
Variable quote_other : string → string.

Definition Quote (s : string) : string :=
  if string_forall is_ascii s then dquote +:+ quote_body s +:+ dquote else quote_other s.

Definition nodeTaintArg (o : Options) : string :=
  match Taints o with
  | [] => ""
  | taints => "--register-with-taints=" +:+ Quote (Join (map taint_ToString taints) ",")
  end.

(** [sort.Strings] *)
Definition sort_strings (l : list string) : list string :=
  merge_sort String.le l.

Definition nodeLabelArg (o : Options) : string :=
  if bool_decide (NodeLabels o = ∅) then ""
  else
    let keys := sort_strings (map fst (range_map "labels" (NodeLabels o))) in
    let labelStrings := map (λ key, key +:+ "=" +:+ from_ptr "" (NodeLabels o !! key)) keys in
    "--node-labels=" +:+ Quote (Join labelStrings ",").

Definition joinParameterArgs (name : string) (m : gmap string string) (separator : string) : string :=
  match range_map name m with
  | [] => ""
  | entries => name +:+ "=" +:+ Quote (Join (map (λ '(k, v), k +:+ separator +:+ v) entries) ",")
  end.

(** [append(args, ...)] when the field is set *)
Definition int_arg (name : string) (p : option Z) : list string :=
  match p with Some n => [name +:+ "=" +:+ Itoa n] | None => [] end.

Definition kubeletExtraArgs (o : Options) : list string :=
  let args := [nodeLabelArg o; nodeTaintArg o] in
  match KubeletConfig o with
  | None => Compact args
  | Some kc =>
      Compact (args ++
        int_arg "--max-pods" (MaxPods kc) ++
        int_arg "--pods-per-core" (PodsPerCore kc) ++
        [joinParameterArgs "--system-reserved" (from_ptr ∅ (SystemReserved kc)) "=";
         joinParameterArgs "--kube-reserved" (KubeReserved kc) "=";
         joinParameterArgs "--eviction-hard" (from_ptr ∅ (EvictionHard kc)) "<";
         joinParameterArgs "--eviction-soft" (EvictionSoft kc) "<";
         joinParameterArgs "--eviction-soft-grace-period" (Duration_String <$> EvictionSoftGracePeriod kc) "="] ++
        int_arg "--eviction-max-pod-grace-period" (EvictionMaxPodGracePeriod kc) ++
        int_arg "--image-gc-high-threshold" (ImageGCHighThresholdPercent kc) ++
        int_arg "--image-gc-low-threshold" (ImageGCLowThresholdPercent kc) ++
        match CPUCFSQuota kc with
        | Some b => ["--cpu-cfs-quota=" +:+ (if (b : bool) then "true" else "false")]
        | None => []
        end)%list
  end.
End Args.

(** ** [base64.StdEncoding] *)

Definition base64_alphabet : string :=
  "ABCDEFGHIJKLMNOPQRSTUVWXYZabcdefghijklmnopqrstuvwxyz0123456789+/".

Definition base64_char (n : N) : ascii :=
  default zero (String.get (N.to_nat n) base64_alphabet).

(** Three bytes as four characters; a short last group is padded. *)
Definition sextets (n : N) : list ascii :=
  map base64_char [N.shiftr n 18; N.land (N.shiftr n 12) 63; N.land (N.shiftr n 6) 63; N.land n 63]%N.

Fixpoint base64_encode (l : list ascii) : list ascii :=
  match l with
  | [] => []
  | [a] => take 2 (sextets (N_of_ascii a * 65536)) ++ ["="; "="]%char
  | [a; b] => take 3 (sextets (N_of_ascii a * 65536 + N_of_ascii b * 256)) ++ ["="%char]
  | a :: b :: c :: l' =>
      sextets (N_of_ascii a * 65536 + N_of_ascii b * 256 + N_of_ascii c) ++ base64_encode l'
  end.

Definition EncodeToString (s : string) : string :=
  Stdlib.Strings.String.string_of_list_ascii (base64_encode (Stdlib.Strings.String.list_ascii_of_string s)).

(** ** [custom_bootstrap.go] *)

Definition Custom_Script (o : Options) : res string :=
  Ok (EncodeToString (from_ptr "" (CustomUserData o))).

(** ** [oke_bootstrap.go] *)

Definition Boundary : string := "//".
Definition MIMEVersionHeader : string := "MIME-Version: 1.0".
Definition MIMEContentTypeHeader (boundary : string) : string :=
  "Content-Type: multipart/mixed; boundary=" +:+ dquote +:+ boundary +:+ dquote.

(** A part of a MIME message: its headers, sorted by key, and its body. *)
Record Part := { Part_Header : list (string * string); Part_Body : string }.

(** [multipart.Writer]: [CreatePart] and the write of the body, for the first
    part and the others; and [Close]. *)
Definition part_header (h : list (string * string)) : string :=
  Join (map (λ '(k, v), k +:+ ": " +:+ v +:+ crlf) h) "" +:+ crlf.
Definition write_part (boundary : string) (is_first : bool) (p : Part) : string :=
  (if is_first then "" else crlf) +:+ "--" +:+ boundary +:+ crlf +:+
  part_header (Part_Header p) +:+ Part_Body p.
Definition write_close (boundary : string) : string := crlf +:+ "--" +:+ boundary +:+ "--" +:+ crlf.

(** ** [ubuntu_bootstrap.go]

    [staticNodeBootstrapVars] is one record shared by all scripts: its state is
    threaded, and [applyOptions] writes it through the pointer. *)

Record NodeBootstrapVariables := {
  NeedsCgroupV2 : bool;
  nbv_ClusterEndpoint : string;
  nbv_CABundle : string;
  nbv_BootstrapToken : string;
  nbv_UserData : option string;
  nbv_PreInstallScript : option string;
  KubeletConfigFile : string;
  BootstrapKubeconfigFile : string;
  ContainerRuntimeEndpoint : string;
  KubeConfigFile : string;
  LogLevel : string
}.

Definition staticNodeBootstrapVars : NodeBootstrapVariables := {|
  NeedsCgroupV2 := true; nbv_ClusterEndpoint := ""; nbv_CABundle := ""; nbv_BootstrapToken := "";
  nbv_UserData := None; nbv_PreInstallScript := None;
  KubeletConfigFile := "/etc/kubernetes/kubelet-config.json";
  BootstrapKubeconfigFile := "/etc/kubernetes/bootstrap-kubelet.conf";
  ContainerRuntimeEndpoint := "unix:///run/containerd/containerd.sock";
  KubeConfigFile := "/etc/kubernetes/kubelet.conf"; LogLevel := "2"
|}.

(** ** The templates, [*.gtpl]

    A line's text, with a backquote where the file has a double quote. *)

Fixpoint quotes (s : string) : string :=
  match s with
  | EmptyString => ""
  | String c s' => (if Ascii.eqb c "`"%char then dquote else String c "") +:+ quotes s'
  end.

Definition text (lines : list string) : string := Join lines newline.

Definition kubeletConfigTextTemplate (_ : NodeBootstrapVariables) : string :=
  text (map quotes ["{";
    "  `apiVersion`: `kubelet.config.k8s.io/v1beta1`,";
    "  `authentication`: {";
    "    `anonymous`: {";
    "      `enabled`: false";
    "    },";
    "    `x509`: {";
    "      `clientCAFile`: `/etc/kubernetes/ca.crt`";
    "    }";
    "  },";
    "  `systemReservedCgroup`: `/system.slice`,";
    "  `kubeReservedCgroup`: `/system.slice/kubelet.service`,";
    "  `cgroupDriver`: `systemd`,";
    "  `clusterDomain`: `cluster.local`,";
    "  `containerLogMaxFiles`: 10,";
    "  `containerLogMaxSize`: `20Mi`,";
    "  `enableControllerAttachDetach`: true,";
    "  `eventRecordQPS`: 50,";
    "  `evictionPressureTransitionPeriod`: `5m`,";
    "  `kind`: `KubeletConfiguration`,";
    "  `protectKernelDefaults`: false,";
    "  `readOnlyPort`: 0,";
    "  `rotateCertificates`: true,";
    "  `runtimeRequestTimeout`: `2m`,";
    "  `serializeImagePulls`: false";
    "}"; ""]).

Definition kubeletServiceTextTemplate (nbv : NodeBootstrapVariables) : string :=
  text ["[Unit]";
    "Description=Kubernetes Kubelet";
    "After=containerd.service";
    "Requires=containerd.service";
    "";
    "[Service]";
    "ExecStart=/usr/bin/kubelet \";
    "--config " +:+ KubeletConfigFile nbv +:+ " \";
    "--bootstrap-kubeconfig " +:+ BootstrapKubeconfigFile nbv +:+ " \";
    "--container-runtime-endpoint " +:+ ContainerRuntimeEndpoint nbv +:+ " \";
    "--kubeconfig " +:+ KubeConfigFile nbv +:+ " \";
    "--v " +:+ LogLevel nbv +:+ " \";
    "$KUBELET_DEFAULT_ARGS $KUBELET_EXTRA_ARGS";
    "";
    "";
    "Restart=always";
    "# Configures the time to sleep before restarting a service. Restarts are rate-limited";
    "# by default to 5 tries in 10s (see DefaultStartLimitInterval=10s and DefaultStartLimitBurst=5";
    "# in /etc/systemd/system.conf.";
    "RestartSec=10";
    "";
    "[Install]";
    "WantedBy=multi-user.target"; ""].

Definition bootstrapKubeletTemplate (nbv : NodeBootstrapVariables) : string :=
  text ["apiVersion: v1";
    "clusters:";
    "- cluster:";
    "    certificate-authority-data: " +:+ nbv_CABundle nbv;
    "    server: " +:+ nbv_ClusterEndpoint nbv;
    "  name: bootstrap";
    "contexts:";
    "- context:";
    "    cluster: bootstrap";
    "    user: bootstrap";
    "  name: bootstrap";
    "current-context: bootstrap";
    "kind: Config";
    "preferences: {}";
    "users:";
    "- name: bootstrap";
    "  user:";
    "    token: " +:+ nbv_BootstrapToken nbv; ""].

Definition containerdConfigTemplate (nbv : NodeBootstrapVariables) : string :=
  text (map quotes ((["version = 2";
    "root = `/var/lib/containerd`";
    "state = `/run/containerd`";
    "oom_score = 0";
    "";
    "[grpc]";
    "  max_recv_message_size = 16777216";
    "  max_send_message_size = 16777216";
    "";
    "[debug]";
    "  level = `info`";
    "";
    "[metrics]";
    "  address = `127.0.0.1:1338`";
    "  grpc_histogram = true";
    "";
    "";
    "[plugins.`io.containerd.grpc.v1.cri`]";
    "  sandbox_image = `registry.k8s.io/pause:3.9`";
    "  max_container_log_line_size = -1";
    "  enable_unprivileged_ports = false";
    "  enable_unprivileged_icmp = false";
    "  [plugins.`io.containerd.grpc.v1.cri`.containerd]";
    "    default_runtime_name = `runc`";
    "    snapshotter = `overlayfs`";
    "    [plugins.`io.containerd.grpc.v1.cri`.containerd.runtimes.runc]";
    "      runtime_type = `io.containerd.runc.v2`";
    "    [plugins.`io.containerd.grpc.v1.cri`.containerd.runtimes.runc.options]";
    "      BinaryName = `/usr/bin/runc`"] ++
    (if NeedsCgroupV2 nbv then ["      SystemdCgroup = true"] else []) ++
    ["  [plugins.`io.containerd.grpc.v1.cri`.registry]";
    "    [plugins.`io.containerd.grpc.v1.cri`.registry.mirrors]";
    "      [plugins.`io.containerd.grpc.v1.cri`.registry.mirrors.`docker.io`]";
    "        endpoint = [`https://registry-1.docker.io`]"; ""])%list)).

Section Scripts.
Context {order : MapOrder}.
Variable taint_ToString : Taint → string.
Variable quote_other : string → string.
(** [url.Parse] and [Hostname]; [None] is a parse error. *)
Variable url_Hostname : string → option string.
(** The boundary [multipart.NewWriter] draws. *)
Variable random_boundary : string.
(** The parts [mail.ReadMessage] and [multipart.Reader] find in a message. *)
Variable read_parts : string → res (list Part).

(** The URL of a text that does not parse is nil, and its [Hostname] panics. *)
Definition Hostname (endpoint : string) : res string :=
  match url_Hostname endpoint with Some h => Ok h | None => Panic "nil pointer dereference" end.

(** [ --cluster-dns '...'] *)
Definition cluster_dns_arg (o : Options) : string :=
  let arg dns := " \" +:+ newline +:+ "--cluster-dns '" +:+ dns +:+ "'" in
  match KubeletConfig o ≫= (λ kc, head (ClusterDNS kc)) with
  | Some dns => arg dns
  | None => if String.eqb (ClusterDns o) "" then "" else arg (ClusterDns o)
  end.

Definition extra_args_arg (o : Options) : string :=
  match kubeletExtraArgs taint_ToString quote_other o with
  | [] => ""
  | args => " \" +:+ newline +:+ "--kubelet-extra-args '" +:+ Join args " " +:+ "'"
  end.

Definition ca_bundle_arg (o : Options) : string :=
  match CABundle o with Some ca => "--kubelet-ca-cert '" +:+ ca +:+ "'" | None => "" end.

Definition okeBootstrapScript (o : Options) : res string :=
  host ← Hostname (ClusterEndpoint o);
  Ok ("#!/bin/bash -xe" +:+ newline +:+
      "bash /etc/oke/oke-install.sh --apiserver-endpoint '" +:+ host +:+ "' " +:+ ca_bundle_arg o +:+
      extra_args_arg o +:+ cluster_dns_arg o).

Definition shellscript (body : string) : Part := {|
  Part_Header := [("Content-Type", "text/x-shellscript; charset=" +:+ dquote +:+ "us-ascii" +:+ dquote)];
  Part_Body := body
|}.

Definition mimeify (customUserData : string) : string :=
  let trimmed := TrimSpace customUserData in
  if HasPrefix trimmed "MIME-Version:" || HasPrefix trimmed "Content-Type:" then customUserData
  else
    MIMEVersionHeader +:+ newline +:+ MIMEContentTypeHeader random_boundary +:+ newline +:+ newline +:+
    write_part random_boundary true (shellscript customUserData) +:+ write_close random_boundary.

(** The parts of one user data, appended to those written so far. *)
Definition copyCustomUserDataParts (parts : list Part) (customUserData : string) : res (list Part) :=
  if String.eqb customUserData "" then Ok parts
  else
    match read_parts customUserData with
    | Ok ps => Ok (parts ++ ps)%list
    | Err e => Err (EWrap "parsing custom user data input" e)
    | Panic w => Panic w
    end.

Fixpoint write_parts (is_first : bool) (ps : list Part) : string :=
  match ps with
  | [] => ""
  | p :: ps' => write_part Boundary is_first p +:+ write_parts false ps'
  end.

Definition mergeCustomUserData (userDatas : list string) : res string :=
  parts ← fold_res (λ parts userData, copyCustomUserDataParts parts (mimeify userData)) [] userDatas;
  Ok (MIMEVersionHeader +:+ newline +:+ MIMEContentTypeHeader Boundary +:+ newline +:+ newline +:+
      write_parts true parts +:+ write_close Boundary).

Definition carriage_return : string := String (ascii_of_nat 13) "".

Definition OKE_Script (o : Options) : res string :=
  script ← okeBootstrapScript o;
  userData ← mergeCustomUserData (Compact [from_ptr "" (CustomUserData o); script]);
  Ok (EncodeToString (ReplaceAll userData carriage_return "")).

(** [nbv.ClusterEndpoint] is written before [*c.CABundle] is dereferenced. *)
Definition applyOptions (o : Options) : run NodeBootstrapVariables unit := λ nbv,
  let nbv1 := {|
    NeedsCgroupV2 := NeedsCgroupV2 nbv; nbv_ClusterEndpoint := ClusterEndpoint o;
    nbv_CABundle := nbv_CABundle nbv; nbv_BootstrapToken := nbv_BootstrapToken nbv;
    nbv_UserData := nbv_UserData nbv; nbv_PreInstallScript := nbv_PreInstallScript nbv;
    KubeletConfigFile := KubeletConfigFile nbv; BootstrapKubeconfigFile := BootstrapKubeconfigFile nbv;
    ContainerRuntimeEndpoint := ContainerRuntimeEndpoint nbv; KubeConfigFile := KubeConfigFile nbv;
    LogLevel := LogLevel nbv |} in
  match CABundle o with
  | None => (Panic "nil pointer dereference", nbv1)
  | Some ca => (Ok tt, {|
      NeedsCgroupV2 := NeedsCgroupV2 nbv; nbv_ClusterEndpoint := ClusterEndpoint o;
      nbv_CABundle := ca; nbv_BootstrapToken := BootstrapToken o;
      nbv_UserData := CustomUserData o; nbv_PreInstallScript := PreInstallScript o;
      KubeletConfigFile := KubeletConfigFile nbv; BootstrapKubeconfigFile := BootstrapKubeconfigFile nbv;
      ContainerRuntimeEndpoint := ContainerRuntimeEndpoint nbv; KubeConfigFile := KubeConfigFile nbv;
      LogLevel := LogLevel nbv |})
  end.

(** [cat << 'EOF' > path], a body and the end mark. *)
Definition here_document (path body : string) : string :=
  "cat << 'EOF' > " +:+ path +:+ newline +:+ body +:+ newline +:+ "EOF" +:+ newline.

Definition createKubeletInstall (nbv : NodeBootstrapVariables) : res string :=
  script ← deref (nbv_PreInstallScript nbv);
  Ok (here_document "/etc/self-k8s/kubelet-install.sh" script +:+
      "bash /etc/self-k8s/kubelet-install.sh > /etc/self-k8s/kubelet-install.log" +:+ newline).

Definition createBootstrapScript (nbv : NodeBootstrapVariables) : res string :=
  script ← deref (nbv_UserData nbv);
  Ok (here_document "/etc/self-k8s/k8s-install.sh" script).

(** [if err := template.Execute(&buffer, *nbv); err != nil]: every field a
    template names exists, and [Execute] into a buffer returns no error. *)
Definition execute (template : NodeBootstrapVariables → string) (path : string)
    (nbv : NodeBootstrapVariables) : res string :=
  Ok (here_document path (template nbv)).

Definition createKubeletConfig : NodeBootstrapVariables → res string :=
  execute kubeletConfigTextTemplate "/etc/kubernetes/kubelet-config.json".
Definition createKubeletService : NodeBootstrapVariables → res string :=
  execute kubeletServiceTextTemplate "/etc/systemd/system/kubelet.service".
Definition createKubeletBootstrapConfig : NodeBootstrapVariables → res string :=
  execute bootstrapKubeletTemplate "/etc/kubernetes/bootstrap-kubelet.conf".
Definition createContainerdConfig : NodeBootstrapVariables → res string :=
  execute containerdConfigTemplate "/etc/containerd/config.toml".

(** The script of its parts, in order. *)
Definition ubuntu_text (o : Options) (install boot config kubeconfig service containerd host : string) : string :=
  "#!/bin/bash" +:+ newline +:+
  "mkdir -p " +:+ dquote +:+ "/etc/self-k8s" +:+ dquote +:+ newline +:+
  "mkdir -p " +:+ dquote +:+ "/etc/kubernetes" +:+ dquote +:+ newline +:+
  install +:+ boot +:+ config +:+ kubeconfig +:+ service +:+ containerd +:+
  "bash /etc/self-k8s/k8s-install.sh --apiserver-endpoint '" +:+ host +:+ "' " +:+ ca_bundle_arg o +:+
  extra_args_arg o +:+ cluster_dns_arg o +:+
  " \" +:+ newline +:+ "> /etc/self-k8s/k8s-install.log" +:+ newline.

(** The part a script before installation makes. *)
Definition ubuntu_install (o : Options) (nbv : NodeBootstrapVariables) : res string :=
  match PreInstallScript o with Some _ => createKubeletInstall nbv | None => Ok "" end.

(** The script's text once the variables are set. *)
Definition ubuntu_script (o : Options) (nbv : NodeBootstrapVariables) : res string :=
  install ← ubuntu_install o nbv;
  boot ← createBootstrapScript nbv;
  config ← createKubeletConfig nbv;
  kubeconfig ← createKubeletBootstrapConfig nbv;
  service ← createKubeletService nbv;
  containerd ← createContainerdConfig nbv;
  host ← Hostname (ClusterEndpoint o);
  Ok (ubuntu_text o install boot config kubeconfig service containerd host).

Definition customBootstrapScript (o : Options) : run NodeBootstrapVariables string :=
  applyOptions o;;
  nbv ← get_state;
  lift (ubuntu_script o nbv).

Definition Ubuntu_Script (o : Options) : run NodeBootstrapVariables string :=
  cbs ← customBootstrapScript o;
  mret (EncodeToString cbs).
End Scripts.

(** ** Properties: base64 *)

(** The position of a character in the alphabet. *)
Fixpoint index_of (c : ascii) (i : N) (s : string) : option N :=
  match s with
  | EmptyString => None
  | String d s' => if Ascii.eqb c d then Some i else index_of c (N.succ i) s'
  end.
Definition base64_value (c : ascii) : option N := index_of c 0 base64_alphabet.

Definition byte_of (n : N) : ascii := ascii_of_N (n mod 256)%N.

(** The decoder of RFC 4648, on texts whose length is a multiple of four. *)
Fixpoint base64_decode (l : list ascii) : option (list ascii) :=
  match l with
  | [] => Some []
  | c1 :: c2 :: c3 :: c4 :: l' =>
      v1 ← base64_value c1; v2 ← base64_value c2;
      if Ascii.eqb c3 "="%char then
        match l' with [] => Some [byte_of (v1 * 4 + v2 / 16)%N] | _ => None end
      else
        v3 ← base64_value c3;
        if Ascii.eqb c4 "="%char then
          match l' with
          | [] => Some [byte_of (v1 * 4 + v2 / 16)%N; byte_of (v2 * 16 + v3 / 4)%N]
          | _ => None
          end
        else
          v4 ← base64_value c4; rest ← base64_decode l';
          Some (byte_of (v1 * 4 + v2 / 16)%N :: byte_of (v2 * 16 + v3 / 4)%N ::
                byte_of (v3 * 64 + v4)%N :: rest)
  | _ => None
  end.

Definition DecodeString (s : string) : option string :=
  Stdlib.Strings.String.string_of_list_ascii <$> base64_decode (Stdlib.Strings.String.list_ascii_of_string s).

Lemma base64_char_value n :
  (n < 64)%N → base64_value (base64_char n) = Some n ∧ Ascii.eqb (base64_char n) "="%char = false.
Proof.
  intros Hn.
  assert (forallb (λ i, bool_decide (base64_value (base64_char (N.of_nat i)) = Some (N.of_nat i)) &&
    negb (Ascii.eqb (base64_char (N.of_nat i)) "="%char)) (seq 0 64) = true) as Hf by (vm_compute; reflexivity).
  rewrite forallb_forall in Hf. specialize (Hf (N.to_nat n)).
  rewrite N2Nat.id, in_seq, andb_true_iff, negb_true_iff, bool_decide_eq_true in Hf. apply Hf. lia.
Qed.

Lemma sextets_eq n : (n < 2 ^ 24)%N →
  sextets n = map base64_char [n / 2 ^ 18; (n / 2 ^ 12) mod 64; (n / 2 ^ 6) mod 64; n mod 64]%N.
Proof.
  intros Hn. unfold sextets. rewrite !N.shiftr_div_pow2.
  change 63%N with (N.ones 6). by rewrite !N.land_ones.
Qed.

Lemma byte_of_ascii c n : (n mod 256 = N_of_ascii c)%N → byte_of n = c.
Proof. intros Hn. unfold byte_of. by rewrite Hn, ascii_N_embedding. Qed.

Section Sextets.
Local Ltac Zify.zify_post_hook ::= Z.to_euclidean_division_equations.

(** The four sextets of three bytes ... *)
Lemma sextet_parts a b c : (a < 256 → b < 256 → c < 256 →
  sextets (a * 65536 + b * 256 + c) =
  map base64_char [a / 4; (a mod 4) * 16 + b / 16; (b mod 16) * 4 + c / 64; c mod 64])%N.
Proof.
  intros. rewrite sextets_eq by lia.
  change (2^18)%N with 262144%N. change (2^12)%N with 4096%N. change (2^6)%N with 64%N.
  do 2 f_equal; [lia|]. repeat (f_equal; try lia).
Qed.

Lemma sextet_bounds a b c : (a < 256 → b < 256 → c < 256 →
  a / 4 < 64 ∧ (a mod 4) * 16 + b / 16 < 64 ∧ (b mod 16) * 4 + c / 64 < 64 ∧ c mod 64 < 64)%N.
Proof. lia. Qed.

(** ... and the three bytes of the four sextets. *)
Lemma bytes_of_parts a b c : (a < 256 → b < 256 → c < 256 →
  (a / 4 * 4 + ((a mod 4) * 16 + b / 16) / 16) mod 256 = a ∧
  (((a mod 4) * 16 + b / 16) * 16 + ((b mod 16) * 4 + c / 64) / 4) mod 256 = b ∧
  (((b mod 16) * 4 + c / 64) * 64 + c mod 64) mod 256 = c)%N.
Proof. intros. repeat split; lia. Qed.
End Sextets.

Lemma byte_of_parts (x y z : ascii) : let a := N_of_ascii x in let b := N_of_ascii y in let c := N_of_ascii z in
  byte_of (a / 4 * 4 + ((a mod 4) * 16 + b / 16) / 16) = x ∧
  byte_of (((a mod 4) * 16 + b / 16) * 16 + ((b mod 16) * 4 + c / 64) / 4) = y ∧
  byte_of (((b mod 16) * 4 + c / 64) * 64 + c mod 64) = z.
Proof.
  cbv zeta. destruct (bytes_of_parts (N_of_ascii x) (N_of_ascii y) (N_of_ascii z)) as (?&?&?);
    [apply N_ascii_bounded..|]. split_and!; by apply byte_of_ascii.
Qed.

(** The characters of the group of bytes [a], [b], [c]. *)
Ltac sextet_chars a b c :=
  let H := fresh in
  pose proof (sextet_bounds a b c) as H; destruct H as (?&?&?&?); [try apply N_ascii_bounded; lia..|];
  rewrite sextet_parts by (try apply N_ascii_bounded; lia);
  cbn [map take app base64_decode];
  repeat match goal with Hx : (?n < 64)%N |- _ =>
    let H1 := fresh in let H2 := fresh in
    destruct (base64_char_value n Hx) as [H1 H2]; clear Hx; rewrite ?H1, ?H2 end;
  cbn [mbind option_bind].

Lemma base64_decode_encode l : base64_decode (base64_encode l) = Some l.
Proof.
  revert l. fix IH 1. intros [|x [|y [|z l]]]; [done|..]; cbn [base64_encode].
  - replace (N_of_ascii x * 65536)%N with (N_of_ascii x * 65536 + 0 * 256 + 0)%N by lia.
    sextet_chars (N_of_ascii x) 0%N 0%N.
    destruct (byte_of_parts x "000"%char "000"%char) as (Hx & _).
    change (N_of_ascii "000") with 0%N in Hx. by rewrite Hx.
  - replace (N_of_ascii x * 65536 + N_of_ascii y * 256)%N
      with (N_of_ascii x * 65536 + N_of_ascii y * 256 + 0)%N by lia.
    sextet_chars (N_of_ascii x) (N_of_ascii y) 0%N.
    destruct (byte_of_parts x y "000"%char) as (Hx & Hy & _).
    change (N_of_ascii "000") with 0%N in Hy. by rewrite Hx, Hy.
  - sextet_chars (N_of_ascii x) (N_of_ascii y) (N_of_ascii z).
    destruct (byte_of_parts x y z) as (-> & -> & ->). by rewrite IH.
Qed.

Lemma DecodeString_EncodeToString s : DecodeString (EncodeToString s) = Some s.
Proof.
  unfold DecodeString, EncodeToString.
  rewrite Stdlib.Strings.String.list_ascii_of_string_of_list_ascii, base64_decode_encode. simpl.
  by rewrite Stdlib.Strings.String.string_of_list_ascii_of_string.
Qed.

(** ** Properties: the kubelet's arguments *)

(** Sorting makes the keys' text independent of the map's iteration order. *)
Lemma sort_strings_Permutation l1 l2 : l1 ≡ₚ l2 → sort_strings l1 = sort_strings l2.
Proof.
  intros Hp. unfold sort_strings. apply (Sorted_unique String.le).
  - apply (Sorted_merge_sort String.le).
  - apply (Sorted_merge_sort String.le).
  - by rewrite !merge_sort_Permutation.
Qed.

Lemma range_keys (order1 order2 : MapOrder) {M A} (moment : M) (m : gmap string A) :
  map fst (range_map (MapOrder := order1) moment m) ≡ₚ map fst (range_map (MapOrder := order2) moment m).
Proof. apply Permutation_map. by rewrite !range_map_perm. Qed.

(** A list sorted by key, of the map's entries. *)
Lemma sorted_keys_elem `{order : MapOrder} {M A} (moment : M) (m : gmap string A) k :
  k ∈ sort_strings (map fst (range_map moment m)) ↔ is_Some (m !! k).
Proof.
  unfold sort_strings. rewrite merge_sort_Permutation.
  rewrite list_elem_of_fmap. split.
  - intros ([k' a] & -> & Ha%range_map_lookup). eauto.
  - intros [a Ha]. exists (k, a). by rewrite range_map_lookup.
Qed.

(** The label argument does not depend on the order in which the map is read:
    it lists the labels by key. *)
Theorem nodeLabelArg_spec (order : MapOrder) (quote_other : string → string) (o : Options) :
  (∀ order', nodeLabelArg (order := order') quote_other o = nodeLabelArg (order := order) quote_other o) ∧
  (nodeLabelArg quote_other o = "" ↔ NodeLabels o = ∅) ∧
  (NodeLabels o ≠ ∅ → ∃ keys, Sorted String.le keys ∧ NoDup keys ∧
     (∀ k, k ∈ keys ↔ is_Some (NodeLabels o !! k)) ∧
     nodeLabelArg quote_other o =
       "--node-labels=" +:+ Quote quote_other
          (Join (map (λ k, k +:+ "=" +:+ from_ptr "" (NodeLabels o !! k)) keys) ",")).
Proof.
  unfold nodeLabelArg. case_bool_decide as Hm; split_and!; try done.
  - intros order'. by rewrite (sort_strings_Permutation _ _ (range_keys order' order "labels" (NodeLabels o))).
  - intros _. eexists. split_and!; [apply (Sorted_merge_sort String.le)| | |reflexivity].
    + unfold sort_strings. rewrite merge_sort_Permutation. apply range_map_NoDup.
    + apply sorted_keys_elem.
Qed.

(** ** Properties: the scripts *)

Section ScriptProperties.
Context {order : MapOrder}.
Variable taint_ToString : Taint → string.
Variable quote_other : string → string.
Variable url_Hostname : string → option string.
Variable random_boundary : string.
Variable read_parts : string → res (list Part).

(** The script of the node, once the endpoint's host is known. *)
Definition oke_text (host : string) (o : Options) : string :=
  "#!/bin/bash -xe" +:+ newline +:+
  "bash /etc/oke/oke-install.sh --apiserver-endpoint '" +:+ host +:+ "' " +:+ ca_bundle_arg o +:+
  extra_args_arg taint_ToString quote_other o +:+ cluster_dns_arg o.

Notation mime := (mimeify random_boundary).

Lemma mimeify_nonempty u : u ≠ "" → mime u ≠ "".
Proof. unfold mimeify. by destruct (_ || _). Qed.

Lemma copyCustomUserDataParts_read parts u :
  u ≠ "" → copyCustomUserDataParts read_parts parts (mime u) =
    match read_parts (mime u) with
    | Ok ps => Ok (parts ++ ps)%list
    | Err e => Err (EWrap "parsing custom user data input" e)
    | Panic w => Panic w
    end.
Proof.
  intros Hu%mimeify_nonempty%String.eqb_neq. unfold copyCustomUserDataParts. by rewrite Hu.
Qed.

(** C33: Making the user data of an OKE node panics when the endpoint cannot be parsed.
    Otherwise, if the reader of MIME parts reads the installation script back, it fails exactly
    when the reader fails on the custom user data, with its error wrapped, and what it makes
    decodes from base64 to one MIME message with the parts of the custom user data followed by
    the installation script, from which every carriage return, those of the parts too, is
    removed. *)
Theorem OKE_Script_spec (o : Options) :
  (∀ host, url_Hostname (ClusterEndpoint o) = Some host →
     read_parts (mime (oke_text host o)) = Ok [shellscript (oke_text host o)]) →
  let user_parts := if String.eqb (from_ptr "" (CustomUserData o)) "" then Ok []
                    else read_parts (mime (from_ptr "" (CustomUserData o))) in
  match url_Hostname (ClusterEndpoint o), OKE_Script taint_ToString quote_other url_Hostname random_boundary read_parts o with
  | None, r => r = Panic "nil pointer dereference"
  | Some host, Ok out => ∃ ps, user_parts = Ok ps ∧
      DecodeString out = Some (ReplaceAll
        (MIMEVersionHeader +:+ newline +:+ MIMEContentTypeHeader Boundary +:+ newline +:+ newline +:+
         write_parts true (ps ++ [shellscript (oke_text host o)]) +:+ write_close Boundary) carriage_return "")
  | Some _, Err e => ∃ e', user_parts = Err e' ∧ e = EWrap "parsing custom user data input" e'
  | Some _, Panic why => user_parts = Panic why
  end.
Proof.
  intros Hr user_parts. unfold OKE_Script, okeBootstrapScript, Hostname.
  destruct (url_Hostname (ClusterEndpoint o)) as [host|]; [|done]. specialize (Hr host eq_refl).
  cbn [mbind res_bind]. fold (oke_text host o). unfold mergeCustomUserData, Compact.
  assert (String.eqb (oke_text host o) "" = false) as Hne by done.
  cbn [List.filter]. rewrite Hne. subst user_parts.
  destruct (String.eqb_spec (from_ptr "" (CustomUserData o)) "") as [|Hu];
    cbn [negb List.filter fold_res].
  - rewrite copyCustomUserDataParts_read, Hr by done. cbn [mbind res_bind app].
    eexists. split; [reflexivity|]. by rewrite DecodeString_EncodeToString.
  - rewrite copyCustomUserDataParts_read by done.
    destruct (read_parts (mime (from_ptr "" (CustomUserData o)))) as [ps|e|why];
      cbn [mbind res_bind]; [|eauto|done].
    rewrite copyCustomUserDataParts_read, Hr by done. cbn [mbind res_bind app].
    eexists. split; [reflexivity|]. by rewrite DecodeString_EncodeToString.
Qed.

End ScriptProperties.

Section UbuntuProperties.
Context {order : MapOrder}.
Variable taint_ToString : Taint → string.
Variable quote_other : string → string.
Variable url_Hostname : string → option string.

(** The static part of the shared variables. *)
Definition same_static (a b : NodeBootstrapVariables) : Prop :=
  NeedsCgroupV2 a = NeedsCgroupV2 b ∧ KubeletConfigFile a = KubeletConfigFile b ∧
  BootstrapKubeconfigFile a = BootstrapKubeconfigFile b ∧
  ContainerRuntimeEndpoint a = ContainerRuntimeEndpoint b ∧
  KubeConfigFile a = KubeConfigFile b ∧ LogLevel a = LogLevel b.

Notation Script := (Ubuntu_Script taint_ToString quote_other url_Hostname).

Notation script_of := (ubuntu_script taint_ToString quote_other url_Hostname).

(** The texts are built unless a pointer the code dereferences is nil. *)
Lemma ubuntu_script_Ok o nbv :
  nbv_PreInstallScript nbv = PreInstallScript o →
  match script_of o nbv with
  | Ok _ => is_Some (nbv_UserData nbv) ∧ is_Some (url_Hostname (ClusterEndpoint o))
  | Err _ => False
  | Panic _ => ¬ (is_Some (nbv_UserData nbv) ∧ is_Some (url_Hostname (ClusterEndpoint o)))
  end.
Proof.
  intros Hp. unfold ubuntu_script, ubuntu_install, createBootstrapScript, createKubeletInstall, Hostname.
  rewrite Hp. destruct (PreInstallScript o), (nbv_UserData nbv), (url_Hostname (ClusterEndpoint o)); simpl;
    (split; eauto) || (intros [[? ?] [? ?]]; discriminate).
Qed.

(** The script of a Ubuntu node does not depend on the scripts made before it with the same
    shared variables, and it panics exactly when the CA bundle or the user data is nil or the
    endpoint cannot be parsed. *)
Theorem Ubuntu_Script_independent (o : Options) (nbv : NodeBootstrapVariables) :
  same_static nbv staticNodeBootstrapVars →
  (Script o nbv).1 = (Script o staticNodeBootstrapVars).1 ∧
  same_static (Script o nbv).2 staticNodeBootstrapVars ∧
  match (Script o nbv).1 with
  | Ok _ => is_Some (CABundle o) ∧ is_Some (CustomUserData o) ∧ is_Some (url_Hostname (ClusterEndpoint o))
  | Err _ => False
  | Panic _ => ¬ (is_Some (CABundle o) ∧ is_Some (CustomUserData o) ∧ is_Some (url_Hostname (ClusterEndpoint o)))
  end.
Proof.
  intros (H1 & H2 & H3 & H4 & H5 & H6).
  unfold Ubuntu_Script, customBootstrapScript, mbind, run_bind, applyOptions, get_state, lift.
  rewrite H1, H2, H3, H4, H5, H6. destruct (CABundle o) as [ca|]; cbn -[ubuntu_script].
  - match goal with |- context [ubuntu_script _ _ _ _ ?v] => set (nbv1 := v) end.
    pose proof (ubuntu_script_Ok o nbv1 eq_refl) as He.
    destruct (script_of o nbv1); simpl; split_and!; try done; naive_solver.
  - split_and!; [done..|]. by intros [[? ?] _].
Qed.

(** The installation script in a text is the user data the variables hold. *)
Definition installs (text userData : string) : Prop :=
  ∃ before after, text = before +:+ here_document "/etc/self-k8s/k8s-install.sh" userData +:+ after.

Lemma installs_here u after : installs (here_document "/etc/self-k8s/k8s-install.sh" u +:+ after) u.
Proof. by exists "", after. Qed.

Lemma installs_after s t u : installs t u → installs (s +:+ t) u.
Proof. intros (b & a & ->). exists (s +:+ b), a. by rewrite app_assoc_str. Qed.

Lemma ubuntu_script_installs o nbv text :
  script_of o nbv = Ok text → ∃ u, nbv_UserData nbv = Some u ∧ installs text u.
Proof.
  unfold ubuntu_script, createBootstrapScript, ubuntu_text. intros H. res_inv.
  match goal with Hu : nbv_UserData nbv = Some ?u |- _ => exists u; split; [done|] end.
  repeat first [apply installs_here | apply installs_after].
Qed.

(** With whatever the variables hold: the text is built when what it reads is
    there, and a script before installation that is not there is a nil
    dereference. *)
Lemma ubuntu_script_built o nbv :
  is_Some (nbv_UserData nbv) → is_Some (url_Hostname (ClusterEndpoint o)) →
  PreInstallScript o = None ∨ is_Some (nbv_PreInstallScript nbv) → ∃ text, script_of o nbv = Ok text.
Proof.
  intros [u Hu] [host Hhost] Hp.
  unfold ubuntu_script, ubuntu_install, createBootstrapScript, createKubeletInstall, Hostname.
  rewrite Hu, Hhost. destruct (PreInstallScript o); [|by eexists]. destruct Hp as [|[pre ->]]; [done|by eexists].
Qed.

Lemma ubuntu_script_nil o nbv :
  is_Some (PreInstallScript o) → nbv_PreInstallScript nbv = None → ∃ why, script_of o nbv = Panic why.
Proof.
  intros [pre Hp] Hnil. unfold ubuntu_script, ubuntu_install, createKubeletInstall. rewrite Hp, Hnil. by eexists.
Qed.

(** A script made on its own installs the user data of its node. *)
Lemma Ubuntu_Script_installs (o : Options) (nbv : NodeBootstrapVariables) out :
  (Script o nbv).1 = Ok out → ∃ text u,
    CustomUserData o = Some u ∧ DecodeString out = Some text ∧ installs text u.
Proof.
  unfold Ubuntu_Script, customBootstrapScript, mbind, run_bind, applyOptions, get_state, lift.
  destruct (CABundle o) as [ca'|]; cbn -[ubuntu_script]; [|done].
  destruct (script_of o _) as [text|e|w] eqn:He; [|done..]. simpl. intros [= <-].
  apply ubuntu_script_installs in He as (u & Hu & Hi). exists text, u.
  by rewrite DecodeString_EncodeToString.
Qed.

(** ... and when another node sets the shared variables in between, that of the
    other node. *)
Theorem Ubuntu_Script_user_data (o other : Options) (nbv : NodeBootstrapVariables) (ca : string) :
  CABundle other = Some ca →
  (∀ out, (Script o nbv).1 = Ok out → ∃ text u,
     CustomUserData o = Some u ∧ DecodeString out = Some text ∧ installs text u) ∧
  (∀ text, ((applyOptions o;; applyOptions other;; nbv' ← get_state; lift (script_of o nbv')) nbv).1 = Ok text →
     ∃ u, CustomUserData other = Some u ∧ installs text u).
Proof.
  intros Hca. split; [apply Ubuntu_Script_installs|]. unfold mbind, run_bind, applyOptions, get_state, lift.
  rewrite Hca. destruct (CABundle o) as [ca'|]; cbn -[ubuntu_script]; [|done].
  intros text He. apply ubuntu_script_installs in He as (u & Hu & Hi). eauto.
Qed.
End UbuntuProperties.
