(* ===== verification/KubeModel.v ===== *)
(** * The Kubernetes objects and the API server

    [karpv1.NodeClaim], [karpv1.NodePool] and [corev1.Node] hold the fields the
    program reads or writes; [KubeClient] is what it calls of
    [sigs.k8s.io/controller-runtime/pkg/client] and of karpenter's event
    recorder. *)

From stdpp Require Import base list strings gmap.
From Stdlib Require Import ZArith Lia.
From S2P Require Import Prelude GoStrings Api Sched.
From S2P Require Bootstrap.

Local Open Scope string_scope.

Notation Taint := Bootstrap.Taint (only parsing).

(** [karpv1.NodeClaim]; the minimal values of a requirement are not read. *)
Record NodeClaim (Q : Type) := {
  Claim_Meta : ObjectMeta;
  Claim_CreationTimestamp : Z;
  Claim_Requirements : list NodeSelectorRequirement;
  Claim_Taints : list Bootstrap.Taint;
  Claim_StartupTaints : list Bootstrap.Taint;
  Claim_Requests : ResourceList Q;
  Claim_NodeClassRef : option string;
  Claim_ProviderID : string;
  Claim_ImageID : string;
  Claim_NodeName : string;
  Claim_Capacity : ResourceList Q;
  Claim_Allocatable : ResourceList Q;
  Claim_Conditions : list Condition
}.
Arguments Claim_Meta {Q} _.
Arguments Claim_CreationTimestamp {Q} _.
Arguments Claim_Requirements {Q} _.
Arguments Claim_Taints {Q} _.
Arguments Claim_StartupTaints {Q} _.
Arguments Claim_Requests {Q} _.
Arguments Claim_NodeClassRef {Q} _.
Arguments Claim_ProviderID {Q} _.
Arguments Claim_ImageID {Q} _.
Arguments Claim_NodeName {Q} _.
Arguments Claim_Capacity {Q} _.
Arguments Claim_Allocatable {Q} _.
Arguments Claim_Conditions {Q} _.

Definition set_annotations (a : gmap string string) (m : ObjectMeta) : ObjectMeta := {|
  Meta_Name := Meta_Name m; Labels := Labels m; Annotations := a; Finalizers := Finalizers m;
  DeletionTimestamp := DeletionTimestamp m
|}.
Definition set_finalizers (f : list string) (m : ObjectMeta) : ObjectMeta := {|
  Meta_Name := Meta_Name m; Labels := Labels m; Annotations := Annotations m; Finalizers := f;
  DeletionTimestamp := DeletionTimestamp m
|}.

Definition set_claim_meta {Q} (m : ObjectMeta) (c : NodeClaim Q) : NodeClaim Q := {|
  Claim_Meta := m; Claim_CreationTimestamp := Claim_CreationTimestamp c;
  Claim_Requirements := Claim_Requirements c; Claim_Taints := Claim_Taints c;
  Claim_StartupTaints := Claim_StartupTaints c; Claim_Requests := Claim_Requests c;
  Claim_NodeClassRef := Claim_NodeClassRef c; Claim_ProviderID := Claim_ProviderID c;
  Claim_ImageID := Claim_ImageID c; Claim_NodeName := Claim_NodeName c;
  Claim_Capacity := Claim_Capacity c; Claim_Allocatable := Claim_Allocatable c;
  Claim_Conditions := Claim_Conditions c
|}.

Definition claim_annotation {Q} (c : NodeClaim Q) (k : string) : string :=
  from_ptr "" (Annotations (Claim_Meta c) !! k).
Definition claim_label {Q} (c : NodeClaim Q) (k : string) : string :=
  from_ptr "" (Labels (Claim_Meta c) !! k).

(** [karpv1.NodePool] and [corev1.Node] *)
Record NodePool := { Pool_Name : string; Pool_NodeClassRef : option string }.
Record Node := { Node_Name : string; Node_ProviderID : string; Node_Taints : list Bootstrap.Taint }.

(** [karpv1.TerminationFinalizer] and [corev1.TaintNodeUnreachable] *)
Definition TerminationFinalizer : string := karpenter_Group +:+ "/termination".
Definition TaintNodeUnreachable : string := "node.kubernetes.io/unreachable".

(** Events: the object they are about and their message. *)
Record Event := { Ev_Object : string; Ev_Reason : string; Ev_Message : string }.

(** A patch is sent with the object it was computed from; [lock] is the
    optimistic lock. *)
Class KubeClient (Q W : Type) : Type := {
  kube_GetNodeClass : string → run W OciNodeClass;
  kube_GetNodePool : string → run W NodePool;
  (** all node claims, or those of a node class *)
  kube_ListNodeClaims : option string → run W (list (NodeClaim Q));
  kube_ListNodes : run W (list Node);
  kube_DeleteNode : Node → run W unit;
  kube_PatchNodeClaim : NodeClaim Q → NodeClaim Q → run W unit;
  kube_PatchNodeClass : bool → OciNodeClass → OciNodeClass → run W unit;
  kube_PatchNodeClassStatus : OciNodeClass → OciNodeClass → run W unit;
  recorder_Publish : Event → run W unit
}.

(** [errors.As] follows wrapped errors; whether it also sees the error inside
    one of karpenter's typed errors is not decided here. *)
Class ErrorLib : Type := typed_Unwrap : bool.

Section Errors.
Context {errlib : ErrorLib}.

(** Some error of the chain satisfies [p]. *)
Fixpoint errors_As (p : gerror → bool) (e : gerror) : bool :=
  p e ||
  match e with
  | EWrap _ e' => errors_As p e'
  | EInsufficientCapacity e' | ENodeClassNotReady e' => typed_Unwrap && errors_As p e'
  | ENodeClaimNotFound (Some e') => typed_Unwrap && errors_As p e'
  | _ => false
  end.

(** [errors.IsNotFound], [errors.IsConflict] and
    [cloudprovider.IsNodeClaimNotFoundError] *)
Definition IsNotFound : gerror → bool :=
  errors_As (λ e, match e with EK8sNotFound => true | _ => false end).
Definition IsConflict : gerror → bool :=
  errors_As (λ e, match e with EK8sConflict => true | _ => false end).
Definition IsNodeClaimNotFoundError : gerror → bool :=
  errors_As (λ e, match e with ENodeClaimNotFound _ => true | _ => false end).

(** [client.IgnoreNotFound], [cloudprovider.IgnoreNodeClaimNotFoundError] *)
Definition IgnoreNotFound (e : gerror) : option gerror := if IsNotFound e then None else Some e.
Definition IgnoreNodeClaimNotFoundError (e : gerror) : option gerror :=
  if IsNodeClaimNotFoundError e then None else Some e.

(** [return zero, ignore(err)] *)
Definition ignoring {A} (zero : A) (ignored : option gerror) : res A :=
  match ignored with Some e => Err e | None => Ok zero end.
End Errors.

(** [ResourceList.Pods]: zero when absent. *)
Definition Pods_Value `{Quantities Q} (m : gmap string Q) : Z :=
  match m !! ResourcePods with Some q => Q_Value q | None => 0 end.

(** ** What the cloud provider uses of karpenter's library *)

Class CloudLib (Rq Rqs Q : Type) : Type := {
  (** [Requirements] is a map; [Requirement.Len] *)
  Reqs_map : Rqs → gmap string Rq;
  Req_Len : Rq → Z;
  (** [Offerings.Compatible], [InstanceType.Allocatable] *)
  Offerings_Compatible : Rqs → list (Offering Rqs) → list (Offering Rqs);
  Allocatable : InstanceType Rqs Q → gmap string Q;
  (** [resources.IsZero], [resources.Fits] *)
  Q_IsZero : Q → bool;
  Fits : gmap string Q → gmap string Q → bool
}.

Class CloudLibLaws (Rq Rqs Q : Type) {sched : Scheduling Rq Rqs} {lib : CloudLib Rq Rqs Q} : Prop := {
  map_New rs r : NoDup (map Req_Key rs) → r ∈ rs → Reqs_map (NewRequirements rs) !! Req_Key r = Some r;
  map_absent rs k : NoDup (map Req_Key rs) → k ∉ map Req_Key rs → Reqs_map (NewRequirements rs) !! k = None;
  Len_In k vs : Req_Len (NewRequirement k OpIn vs) = Z.of_nat (length (Req_Values (NewRequirement k OpIn vs)));
  Len_DoesNotExist k : Req_Len (NewRequirement k OpDoesNotExist []) = 0%Z;
  Offerings_Compatible_spec reqs l :
    Offerings_Compatible reqs l = List.filter (λ o, Reqs_Compatible reqs (Of_Requirements o)) l
}.

(** [status.ConditionSet] of operatorpkg: the root condition [Ready], and the
    setters of the others. *)
Class ConditionLib : Type := {
  cond_Ready : list Condition → ConditionStatus * string;
  cond_SetTrue : string → list Condition → list Condition;
  cond_SetFalse : string → string → string → list Condition → list Condition;
  cond_Status : string → list Condition → option ConditionStatus
}.

Class ConditionLaws {conds : ConditionLib} : Prop := {
  Status_SetTrue t l : cond_Status t (cond_SetTrue t l) = Some CondTrue;
  Status_SetFalse t r m l : cond_Status t (cond_SetFalse t r m l) = Some CondFalse;
  Status_SetTrue_ne t t' l : t ≠ t' → cond_Status t' (cond_SetTrue t l) = cond_Status t' l;
  Status_SetFalse_ne t t' r m l : t ≠ t' → cond_Status t' (cond_SetFalse t r m l) = cond_Status t' l
}.
