(* ===== verification/ImageFamily.v ===== *)
(** * [pkg/providers/imagefamily] and [pkg/providers/launchtemplate]

    The images of a node class, the image that suits an instance type, and the
    launch template with the boot-strapper of its family. *)

From stdpp Require Import base list strings gmap.
From Stdlib Require Import ZArith Lia.
From S2P Require Import Prelude GoStrings OciModel Api Options Cache Selector Sched KubeModel.
From S2P Require Bootstrap.

Local Open Scope string_scope.

(** ** [imagefamily.go] *)

(** [internalmodel.WrapImage] *)
Record WrapImage (Rqs : Type) := { wImage : Image; wRequirements : Rqs }.
Arguments wImage {Rqs} _.
Arguments wRequirements {Rqs} _.

Definition ArchitectureAmd64 : string := "amd64".
Definition ArchitectureArm64 : string := "arm64".

Section Images.
Context {Rq Rqs : Type} `{Scheduling Rq Rqs}.

Definition image_arch (name : string) : string :=
  if Contains (ToLower name) "aarch64" then ArchitectureArm64 else ArchitectureAmd64.

Definition requirementsForImage (imageFamily : string) (image : Image) : Rqs :=
  if negb (String.eqb imageFamily OracleOKELinuxImageFamily) then NewRequirements []
  else
    let name := from_ptr "" (Image_DisplayName image) in
    let requires := NewRequirements [NewRequirement LabelArchStable OpIn [image_arch name]] in
    if Contains (ToLower name) "gpu"
    then Reqs_Add [NewRequirement LabelInstanceGPU OpExists []] requires
    else requires.

Definition wrap_image (imageFamily : string) (image : Image) : WrapImage Rqs :=
  {| wImage := image; wRequirements := requirementsForImage imageFamily image |}.

Context {W C : Type} `{ComputeClient W} `{Clock W} {order : MapOrder}
  `{cache : TTLCache (list (WrapImage Rqs)) C}.
(** [hashstructure.Hash] of the selectors, slices as sets. *)
Variable hash : list ImageSelectorTerm → res Z.

(** The request of one selector. *)
Definition ask_images (imageFamily : string) (selector : ImageSelectorTerm) : run W (list (WrapImage Rqs)) :=
  if String.eqb (IST_Id selector) "" then
    items ← client_ListImages (IST_CompartmentId selector) (IST_Name selector);
    mret (map (wrap_image imageFamily) items)
  else
    image ← client_GetImage (IST_Id selector);
    mret [wrap_image imageFamily image].

Definition image_id (i : WrapImage Rqs) : string := from_ptr "" (Image_Id (wImage i)).

Definition List (nodeclass : OciNodeClass) : run (Cached C W) (list (WrapImage Rqs)) :=
  h ← lift (hash (ImageSelector (Spec nodeclass)));
  cached_list (ask_images (ImageFamily (Spec nodeclass))) image_id (Itoa h) (ImageSelector (Spec nodeclass)).
End Images.

(** ** [resolver.go] *)

(** [imagefamily.Options] *)
Record FamilyOptions := {
  Family_ClusterName : string;
  Family_ClusterEndpoint : string;
  Family_ClusterDns : string;
  Family_CABundle : option string;
  Family_BootstrapToken : string;
  Family_Labels : gmap string string;
  NodeClassName : string
}.

(** The implementations of [ImageFamily] and of [bootstrap.Bootstrapper]. *)
Inductive Family : Type :=
| UbuntuLinux (o : FamilyOptions)
| OracleOKELinux (o : FamilyOptions)
| Custom (o : FamilyOptions).

Inductive Bootstrapper : Type :=
| BootUbuntu (o : Bootstrap.Options)
| BootOKE (o : Bootstrap.Options)
| BootCustom (o : Bootstrap.Options).

Record LaunchTemplate := {
  LT_Options : FamilyOptions;
  LT_UserData : Bootstrapper;
  LT_ImageId : string
}.

(** The options of the two families that write scripts. *)
Definition script_options (a : FamilyOptions) (kubeletConfig : KubeletConfiguration)
    (taints : list Bootstrap.Taint) (labels : gmap string string)
    (customUserData preInstallScript : option string) : Bootstrap.Options := {|
  Bootstrap.ClusterName := Family_ClusterName a;
  Bootstrap.ClusterEndpoint := Family_ClusterEndpoint a;
  Bootstrap.ClusterDns := Family_ClusterDns a;
  Bootstrap.CABundle := Family_CABundle a;
  Bootstrap.BootstrapToken := Family_BootstrapToken a;
  Bootstrap.KubeletConfig := Some kubeletConfig;
  Bootstrap.Taints := taints;
  Bootstrap.NodeLabels := labels;
  Bootstrap.CustomUserData := customUserData;
  Bootstrap.PreInstallScript := preInstallScript
|}.

Definition custom_options (customUserData : option string) : Bootstrap.Options := {|
  Bootstrap.ClusterName := ""; Bootstrap.ClusterEndpoint := ""; Bootstrap.ClusterDns := "";
  Bootstrap.CABundle := None; Bootstrap.BootstrapToken := ""; Bootstrap.KubeletConfig := None;
  Bootstrap.Taints := []; Bootstrap.NodeLabels := ∅;
  Bootstrap.CustomUserData := customUserData; Bootstrap.PreInstallScript := None
|}.

(** [ImageFamily.UserData] *)
Definition Family_UserData (f : Family) (kubeletConfig : KubeletConfiguration)
    (taints : list Bootstrap.Taint) (labels : gmap string string)
    (customUserData preInstallScript : option string) : Bootstrapper :=
  match f with
  | UbuntuLinux a => BootUbuntu (script_options a kubeletConfig taints labels customUserData preInstallScript)
  | OracleOKELinux a => BootOKE (script_options a kubeletConfig taints labels customUserData preInstallScript)
  | Custom _ => BootCustom (custom_options customUserData)
  end.

Definition GetImageFamily (imageFamily : string) (options : FamilyOptions) : Family :=
  if String.eqb imageFamily Ubuntu2204ImageFamily then UbuntuLinux options
  else if String.eqb imageFamily OracleOKELinuxImageFamily then OracleOKELinux options
  else if String.eqb imageFamily CustomImageFamily then Custom options
  else OracleOKELinux options.

Definition set_max_pods (n : Z) (k : KubeletConfiguration) : KubeletConfiguration := {|
  ClusterDNS := ClusterDNS k; MaxPods := Some n; PodsPerCore := PodsPerCore k;
  SystemReserved := SystemReserved k; KubeReserved := KubeReserved k; EvictionHard := EvictionHard k;
  EvictionSoft := EvictionSoft k; EvictionSoftGracePeriod := EvictionSoftGracePeriod k;
  EvictionMaxPodGracePeriod := EvictionMaxPodGracePeriod k;
  ImageGCHighThresholdPercent := ImageGCHighThresholdPercent k;
  ImageGCLowThresholdPercent := ImageGCLowThresholdPercent k; CPUCFSQuota := CPUCFSQuota k
|}.

Section Resolve.
Context {Rq Rqs Q : Type} `{Scheduling Rq Rqs} `{Quantities Q} {order : MapOrder}.

(** The image suits the instance type. *)
Definition image_fits (instanceType : InstanceType Rqs Q) (image : StatusImage) : bool :=
  Reqs_Compatible (IT_Requirements instanceType) (NewNodeSelectorRequirements (SI_Requirements image)).

(** The loop stops at the first image that fits. *)
Fixpoint map_images (instanceType : InstanceType Rqs Q) (imageId : gmap string (list (InstanceType Rqs Q)))
    (images : list StatusImage) : gmap string (list (InstanceType Rqs Q)) :=
  match images with
  | [] => imageId
  | image :: rest =>
      if image_fits instanceType image
      then <[SI_Id image := (from_ptr [] (imageId !! SI_Id image) ++ [instanceType])%list]> imageId
      else map_images instanceType imageId rest
  end.

Definition MapToInstanceTypes (instanceType : InstanceType Rqs Q) (images : list StatusImage)
  : gmap string (list (InstanceType Rqs Q)) := map_images instanceType ∅ images.

Definition resolveLaunchTemplate (nodeClass : OciNodeClass) (nodeClaim : NodeClaim Q)
    (instanceType : InstanceType Rqs Q) (imageFamily : Family) (imageId : string) (options : FamilyOptions)
  : LaunchTemplate :=
  let kubeletConfig := default zero_kubelet (Kubelet (Spec nodeClass)) in
  let kubeletConfig :=
    match MaxPods kubeletConfig with
    | None => set_max_pods (wrap32 (Pods_Value (IT_Capacity instanceType))) kubeletConfig
    | Some _ => kubeletConfig
    end in
  {| LT_Options := options;
     LT_UserData := Family_UserData imageFamily kubeletConfig
       (Claim_Taints nodeClaim ++ Claim_StartupTaints nodeClaim) (Family_Labels options)
       (UserData (Spec nodeClass)) (PreInstallScript (Spec nodeClass));
     LT_ImageId := imageId |}.

Definition Resolve (nodeClass : OciNodeClass) (nodeClaim : NodeClaim Q)
    (instanceType : InstanceType Rqs Q) (options : FamilyOptions) : res (list LaunchTemplate) :=
  match Status_Images (Status nodeClass) with
  | [] => Err (EText "no amis exist given constraints")
  | images =>
      let mappedImages := MapToInstanceTypes instanceType images in
      if bool_decide (mappedImages = ∅) then Err (EText "no instance types satisfy requirements of images")
      else
        let imageFamily := GetImageFamily (ImageFamily (Spec nodeClass)) options in
        Ok (map (λ '(imageId, _), resolveLaunchTemplate nodeClass nodeClaim instanceType imageFamily imageId options)
              (range_map "mappedImages" mappedImages))
  end.

(** ** [launchtemplate.go] *)

(** [launchtemplate.DefaultProvider] *)
Record TemplateProvider := {
  TP_CABundle : option string;
  TP_ClusterEndpoint : string;
  TP_BootstrapToken : string
}.

Variable opts : Options.

Definition createImageOptions (p : TemplateProvider) (nodeClass : OciNodeClass) (labels : gmap string string)
  : FamilyOptions := {|
  Family_ClusterName := ClusterName opts;
  Family_ClusterDns := ClusterDns opts;
  Family_ClusterEndpoint := TP_ClusterEndpoint p;
  Family_CABundle := TP_CABundle p;
  Family_BootstrapToken := TP_BootstrapToken p;
  Family_Labels := labels;
  NodeClassName := Meta_Name (NC_Meta nodeClass)
|}.

Definition CreateLaunchTemplate (p : TemplateProvider) (nodeClass : OciNodeClass) (nodeClaim : NodeClaim Q)
    (instanceType : InstanceType Rqs Q) : res (list LaunchTemplate) :=
  Resolve nodeClass nodeClaim instanceType (createImageOptions p nodeClass (Labels (Claim_Meta nodeClaim))).
End Resolve.

(** ** Properties *)

Section ImageProperties.
Context {Rq Rqs : Type} `{SchedulingLaws Rq Rqs}.

(** The requirements an image's name gives. *)
Lemma requirementsForImage_oke (image : Image) :
  let name := from_ptr "" (Image_DisplayName image) in
  requirementsForImage OracleOKELinuxImageFamily image =
  NewRequirements (NewRequirement LabelArchStable OpIn [image_arch name] ::
    if Contains (ToLower name) "gpu" then [NewRequirement LabelInstanceGPU OpExists []] else []).
Proof.
  intros name. unfold requirementsForImage. fold name. cbn [String.eqb negb].
  replace (String.eqb OracleOKELinuxImageFamily OracleOKELinuxImageFamily) with true by done.
  cbn [negb]. destruct (Contains (ToLower name) "gpu"); [|done].
  rewrite Add_New; [done|]. simpl. rewrite !Key_New by (refine (bool_decide_unpack _ _); vm_compute; exact I).
  refine (bool_decide_unpack _ _). vm_compute. exact I.
Qed.

Context {W C : Type} `{ComputeClient W} `{Clock W} {order : MapOrder}
  `{!TTLCache (list (WrapImage Rqs)) C} `{!TTLCacheLaws (list (WrapImage Rqs)) C}.
Variable hash : list ImageSelectorTerm → res Z.

(** Every answer carries the requirements of the family it was asked for. *)
Lemma answers_family family w sels items w' i :
  answers (ask_images (Rqs := Rqs) family) w sels items w' → i ∈ items →
  wRequirements i = requirementsForImage family (wImage i).
Proof.
  intros Ha. revert i. induction Ha as [w|w sel items w1 sels rest w' Hs Ha IH]; intros i Hi;
    [by apply elem_of_nil in Hi|].
  apply elem_of_app in Hi as [Hi|Hi]; [|by apply IH]. unfold ask_images in Hs.
  destruct (String.eqb (IST_Id sel) ""); run_inv.
  - apply list_elem_of_fmap in Hi as (img & -> & _). done.
  - by apply list_elem_of_singleton in Hi as ->.
Qed.

(** C31: List of images on a cache miss returns each image the selectors answer once, with the
    requirements of the family of the class, and caches the same images, in an order drawn anew,
    under the hash of the selectors alone: until the TTL is over, a class of any family with the
    same selectors is served what was cached, without a question to the client. *)
Theorem ImageList_spec (nodeClass : OciNodeClass) (s : Cached C W) (h : Z)
    (items : list (WrapImage Rqs)) (w' : W) :
  let selectors := ImageSelector (Spec nodeClass) in
  hash selectors = Ok h →
  cache_Get (clock_now (c_world s)) (Itoa h) (c_cache s) = None →
  answers (ask_images (ImageFamily (Spec nodeClass))) (c_world s) selectors items w' →
  ∃ l cached s', List hash nodeClass s = (Ok l, s') ∧ c_world s' = w' ∧
    lists_answers image_id l items ∧ cached ≡ₚ l ∧
    (∀ i, i ∈ l → wRequirements i = requirementsForImage (ImageFamily (Spec nodeClass)) (wImage i)) ∧
    (∀ (drawn : MapOrder) other s2, ImageSelector (Spec other) = selectors → c_cache s2 = c_cache s' →
       (clock_now (c_world s2) <= clock_now w' + cache_ttl (c_cache s))%Z →
       List (order := drawn) hash other s2 = (Ok cached, s2)).
Proof.
  intros selectors Hh Hmiss Ha.
  destruct (cached_list_miss (ask_images (ImageFamily (Spec nodeClass))) image_id (Itoa h) selectors s items w' Hmiss Ha)
    as (l & cached & s' & Hl & Hw & Hans & Hperm & Hc & _).
  exists l, cached, s'. split_and!; [|done|done|done|..].
  - unfold List. rewrite (run_bind_step _ _ _ h s) by (unfold lift; by f_equal). exact Hl.
  - intros i Hi. eapply answers_family; [done|]. by apply Hans.
  - intros drawn other s2 Hsel Hs2 Ht. unfold List.
    rewrite (run_bind_step _ _ _ h s2) by (unfold lift; rewrite Hsel; by f_equal). rewrite Hsel.
    apply cached_list_hit. rewrite Hs2, Hc. by replace (_ <=? _)%Z with true by lia.
Qed.
End ImageProperties.

Section ResolveProperties.
Context {Rq Rqs Q : Type} `{Scheduling Rq Rqs} `{Quantities Q} {order : MapOrder}.

Lemma MapToInstanceTypes_first (it : InstanceType Rqs Q) images :
  MapToInstanceTypes it images =
    match List.find (image_fits it) images with Some image => {[SI_Id image := [it]]} | None => ∅ end.
Proof.
  unfold MapToInstanceTypes. induction images as [|image images IH]; simpl; [done|].
  by destruct (image_fits it image).
Qed.

Lemma range_map_singleton {M A} (moment : M) k (a : A) : range_map moment {[k := a]} = [(k, a)].
Proof.
  pose proof (range_map_perm moment ({[k := a]} : gmap string A)) as Hp.
  rewrite map_to_list_singleton in Hp. by apply Permutation_singleton_r in Hp.
Qed.

(** The boot-strapper of a node: its family, and the kubelet's settings with
    the number of pods of the instance type where the class sets none. *)
Definition node_kubelet (nodeClass : OciNodeClass) (it : InstanceType Rqs Q) : KubeletConfiguration :=
  let k := default zero_kubelet (Kubelet (Spec nodeClass)) in
  set_max_pods (default (wrap32 (Pods_Value (IT_Capacity it))) (MaxPods k)) k.

Lemma Resolve_spec (nodeClass : OciNodeClass) (nodeClaim : NodeClaim Q) (it : InstanceType Rqs Q)
    (options : FamilyOptions) :
  match List.find (image_fits it) (Status_Images (Status nodeClass)) with
  | None => ∃ msg, Resolve nodeClass nodeClaim it options = Err (EText msg)
  | Some image => Resolve nodeClass nodeClaim it options =
      Ok [resolveLaunchTemplate nodeClass nodeClaim it
            (GetImageFamily (ImageFamily (Spec nodeClass)) options) (SI_Id image) options]
  end.
Proof.
  unfold Resolve. pose proof (MapToInstanceTypes_first it (Status_Images (Status nodeClass))) as Hm.
  destruct (Status_Images (Status nodeClass)) as [|i l]; [by eexists|]. rewrite Hm.
  destruct (List.find (image_fits it) (i :: l)) as [image|].
  - rewrite bool_decide_eq_false_2 by (apply map_non_empty_singleton). by rewrite range_map_singleton.
  - rewrite bool_decide_eq_true_2 by done. by eexists.
Qed.

(** C30: CreateLaunchTemplate returns one template, for the first image of the class that fits
    the instance type, with the boot-strapper of the image family, the taints and labels of the
    claim and a pod limit from the class or else from the type, and fails exactly when no image
    fits. *)
Theorem CreateLaunchTemplate_spec (opts : Options) (p : TemplateProvider) (nodeClass : OciNodeClass)
    (nodeClaim : NodeClaim Q) (it : InstanceType Rqs Q) :
  let images := Status_Images (Status nodeClass) in
  let options := createImageOptions opts p nodeClass (Labels (Claim_Meta nodeClaim)) in
  match List.find (image_fits it) images with
  | None => ∃ msg, CreateLaunchTemplate opts p nodeClass nodeClaim it = Err (EText msg)
  | Some image =>
      CreateLaunchTemplate opts p nodeClass nodeClaim it =
        Ok [{| LT_Options := options;
               LT_UserData := Family_UserData (GetImageFamily (ImageFamily (Spec nodeClass)) options)
                 (node_kubelet nodeClass it) (Claim_Taints nodeClaim ++ Claim_StartupTaints nodeClaim)
                 (Labels (Claim_Meta nodeClaim)) (UserData (Spec nodeClass)) (PreInstallScript (Spec nodeClass));
               LT_ImageId := SI_Id image |}]
  end.
Proof.
  intros images options.
  pose proof (Resolve_spec nodeClass nodeClaim it options) as Hr. fold images in Hr.
  unfold CreateLaunchTemplate. fold options. destruct (List.find (image_fits it) images) as [image|]; [|done].
  rewrite Hr. do 2 f_equal. unfold resolveLaunchTemplate, node_kubelet. f_equal. f_equal.
  destruct (MaxPods (default zero_kubelet (Kubelet (Spec nodeClass)))) eqn:Hp; [|done].
  destruct (default zero_kubelet _); simpl in *. by subst.
Qed.
End ResolveProperties.
