(* ===== verification/Instance.v ===== *)
(** * [pkg/providers/instance]: launching, listing, tagging and terminating

    [instance.go], with [ConvertLaunchOptions] of [pkg/utils/oci.go]. *)

From stdpp Require Import base list strings gmap.
From Stdlib Require Import ZArith SpecFloat Lia Ascii.
From S2P Require Import Prelude GoStrings GoFloat Utils OciModel Api Options Cache.
From S2P Require Import UnavailableOfferings Sched Paging Selector KubeModel ImageFamily.
From S2P Require Subnet SecurityGroup Bootstrap InstanceType.

Local Open Scope string_scope.

(** ** [utils.ConvertLaunchOptions]

    The SDK's mappings from a name to an enum value, [""] when unknown, are
    parameters. *)
Record EnumMappings := {
  GetMappingLaunchOptionsBootVolumeTypeEnum : string → string;
  GetMappingLaunchOptionsFirmwareEnum : string → string;
  GetMappingLaunchOptionsNetworkTypeEnum : string → string;
  GetMappingLaunchOptionsRemoteDataVolumeTypeEnum : string → string
}.

Definition ConvertLaunchOptions (sdk : EnumMappings) (m : LaunchOptions) : res SdkLaunchOptions :=
  let mapped (get : string → string) (p : option string) :=
    match p with Some v => get v | None => "" end in
  Ok {| LO_BootVolumeType := mapped (GetMappingLaunchOptionsBootVolumeTypeEnum sdk) (BootVolumeType m);
        LO_Firmware := mapped (GetMappingLaunchOptionsFirmwareEnum sdk) (Firmware m);
        LO_NetworkType := mapped (GetMappingLaunchOptionsNetworkTypeEnum sdk) (NetworkType m);
        LO_RemoteDataVolumeType :=
          mapped (GetMappingLaunchOptionsRemoteDataVolumeTypeEnum sdk) (RemoteDataVolumeType m);
        LO_IsConsistentVolumeNamingEnabled := IsConsistentVolumeNamingEnabled m |}.

(** ** Randomness

    [mutable.Shuffle] leaves some permutation of the slice. *)
Class Shuffler : Type := {
  Shuffle : list string → list string;
  Shuffle_perm : ∀ l, Shuffle l ≡ₚ l
}.

(** [strconv.Atoi] without its error: 0 for a text that is no number, the
    nearest bound for a number out of range. *)
Definition Atoi_value (s : string) : Z :=
  match parse_int s with Some z => Z.max min_int64 (Z.min max_int64 z) | None => 0 end.

(** ** Tags *)

Section Excluding.
Context {order : MapOrder}.

(** [removeExcludingChars]: the loop returns once [sizeLimit] keys are set. *)
Fixpoint add_tags (sizeLimit : Z) (result : gmap string tag_value) (tagPair : list (string * string))
  : gmap string tag_value * bool :=
  match tagPair with
  | [] => (result, false)
  | (key, val) :: rest =>
      let result := <[SafeTagKey key := TagString val]> result in
      if (sizeLimit <=? Z.of_nat (size result))%Z then (result, true)
      else add_tags sizeLimit result rest
  end.

Fixpoint remove_from (sizeLimit : Z) (result : gmap string tag_value) (tags : list (gmap string string))
  : gmap string tag_value :=
  match tags with
  | [] => result
  | tagPair :: rest =>
      let '(result, full) := add_tags sizeLimit result (range_map (length rest) tagPair) in
      if (full : bool) then result else remove_from sizeLimit result rest
  end.

Definition removeExcludingChars (sizeLimit : Z) (tags : list (gmap string string)) : gmap string tag_value :=
  remove_from sizeLimit ∅ tags.
End Excluding.

Section Tags.
Context {order : MapOrder}.
Variable opts : Options.

Definition static_tags {Q} (nodeClass : OciNodeClass) (nodeClaim : NodeClaim Q) : gmap string string :=
  list_to_map [(NodePoolLabelKey, claim_label nodeClaim NodePoolLabelKey);
               (ManagedByAnnotationKey, ClusterName opts);
               (LabelNodeClass, Meta_Name (NC_Meta nodeClass));
               (LabelNodeClaim, Meta_Name (Claim_Meta nodeClaim))].

(** [tags[ns] = lo.Assign(tags[ns], ...)]: the new values win. *)
Definition assign_tags (tags : defined_tags) (entry : string * gmap string string) : defined_tags :=
  let '(ns, kvs) := entry in
  <[ns := removeExcludingChars (order := during ns) 48 [kvs] ∪ from_ptr ∅ (tags !! ns)]> tags.

Definition getTags {Q} (nodeClass : OciNodeClass) (nodeClaim : NodeClaim Q) : defined_tags :=
  foldl assign_tags {[TagNamespace opts := removeExcludingChars 48 [static_tags nodeClass nodeClaim]]}
    (range_map "DefinedTags" (DefinedTags (Spec nodeClass))).

(** A tag of an instance in the program's namespace. *)
Definition karpenter_tag (i : Instance) (key : string) : option tag_value :=
  from_ptr ∅ (Inst_DefinedTags i !! TagNamespace opts) !! SafeTagKey key.
End Tags.

(** ** The provider *)

Section Provider.
Context {Rq Rqs Q W SC UC : Type} `{Scheduling Rq Rqs} `{Quantities Q} `{OfferingLib Rqs Q}
  `{ComputeClient W} `{VirtualNetworkClient W} `{Clock W} {order : MapOrder} {shuffler : Shuffler}
  `{subnetCache : TTLCache (list Subnet) SC} `{TTLCache unit UC}.
Variable opts : Options.
Variable sdk : EnumMappings.
Variable is_ipv6 : string → bool.
Variable subnet_hash : list SubnetSelectorTerm → res Z.
(** The parameters of the scripts: see [Bootstrap]. *)
Variable taint_ToString : Bootstrap.Taint → string.
Variable quote_other : string → string.
Variable url_Hostname : string → option string.
Variable random_boundary : string.
Variable read_parts : string → res (list Bootstrap.Part).
(** The launch template provider's fields. *)
Variable templates : TemplateProvider.

(** The subnet provider's cache, the shared table of offerings, the shared
    variables of the Ubuntu scripts, and the world. *)
Record State := {
  ip_subnets : SC;
  ip_offerings : UnavailableOfferings UC;
  ip_bootstrap : Bootstrap.NodeBootstrapVariables;
  ip_world : W
}.

Definition set_ip_world (w : W) (s : State) : State := {|
  ip_subnets := ip_subnets s; ip_offerings := ip_offerings s; ip_bootstrap := ip_bootstrap s; ip_world := w
|}.
Definition set_ip_bootstrap (b : Bootstrap.NodeBootstrapVariables) (s : State) : State := {|
  ip_subnets := ip_subnets s; ip_offerings := ip_offerings s; ip_bootstrap := b; ip_world := ip_world s
|}.
Definition set_ip_offerings (u : UnavailableOfferings UC) (s : State) : State := {|
  ip_subnets := ip_subnets s; ip_offerings := u; ip_bootstrap := ip_bootstrap s; ip_world := ip_world s
|}.
Definition subnet_state (s : State) : Cached SC W := {| c_cache := ip_subnets s; c_world := ip_world s |}.
Definition set_subnet_state (c : Cached SC W) (s : State) : State := {|
  ip_subnets := c_cache c; ip_offerings := ip_offerings s; ip_bootstrap := ip_bootstrap s; ip_world := c_world c
|}.

Definition on_world {A} (m : run W A) : run State A := zoom ip_world set_ip_world m.
Definition on_subnets {A} (m : run (Cached SC W) A) : run State A := zoom subnet_state set_subnet_state m.
Definition on_bootstrap {A} (m : run Bootstrap.NodeBootstrapVariables A) : run State A :=
  zoom ip_bootstrap set_ip_bootstrap m.

(** ** [FindLeastUtilizedSubnet] *)

(** The loop's body: a strictly larger count replaces the choice. *)
Definition better_subnet (best : Subnet * Z) (subnet : Subnet) : run State (Subnet * Z) :=
  r ← attempt (on_world (Subnet.GetSubnetAvailableIPv4Count is_ipv6 subnet));
  match r with
  | inl _ =>
      lift (deref (Subnet_Id subnet));;
      fail (EText "GetSubnetAvailableIPv4Count failed.")
  | inr count => mret (if (best.2 <? count)%Z then (subnet, count) else best)
  end.

Definition FindLeastUtilizedSubnet (nodeClass : OciNodeClass) : run State (Subnet * Z) :=
  subnets ← on_subnets (Subnet.List opts subnet_hash nodeClass);
  match subnets with
  | [] => fail (EText "no subnets found for vcn")
  | first :: _ => for_each better_subnet subnets (first, 0%Z)
  end.

(** ** [pickBestInstanceType] *)

Definition offering_zone (o : Offering Rqs) : string :=
  Req_Any (Reqs_Get (Of_Requirements o) LabelTopologyZone).

Definition pickBestInstanceType (nodeClaim : NodeClaim Q) (instanceTypes : list (InstanceType Rqs Q))
  : option (InstanceType Rqs Q) * string :=
  let reqs := NewNodeSelectorRequirements (Claim_Requirements nodeClaim) in
  match OrderByPrice reqs instanceTypes with
  | [] => (None, "")
  | instanceType :: _ =>
      let requestedZones := Reqs_Get reqs LabelTopologyZone in
      let priorityOfferings :=
        List.filter (λ o, Req_Has requestedZones (offering_zone o))
          (Available (Q := Q) (IT_Offerings instanceType)) in
      match Shuffle (map offering_zone priorityOfferings) with
      | [] => (None, "")
      | zone :: _ => (Some instanceType, zone)
      end
  end.

Definition getIntValFromRequirements (key : string) (requirements : Rqs) : res Z :=
  match Req_Values (Reqs_Get requirements key) with
  | [] => Err (EText "can't found key in requirements")
  | v :: _ => Ok (Atoi_value v)
  end.

(** ** [Create] *)

(** [Bootstrapper.Script] *)
Definition Script (b : Bootstrapper) : run Bootstrap.NodeBootstrapVariables string :=
  match b with
  | BootUbuntu o => Bootstrap.Ubuntu_Script taint_ToString quote_other url_Hostname o
  | BootOKE o => lift (Bootstrap.OKE_Script taint_ToString quote_other url_Hostname random_boundary read_parts o)
  | BootCustom o => lift (Bootstrap.Custom_Script o)
  end.

(** The metadata of the launch, before the user data. *)
Definition launch_metadata (nodeClass : OciNodeClass) (instanceType : InstanceType Rqs Q) (subnet : Subnet)
  : gmap string string :=
  let metadata := MetaData (Spec nodeClass) in
  if String.eqb (from_ptr "" (metadata !! "oke-native-pod-networking")) "true" then
    <["pod-subnets" := ToString (Subnet_Id subnet)]>
      (<["oke-max-pods" := Itoa (Pods_Value (IT_Capacity instanceType))]> metadata)
  else metadata.

Definition launch_capacity_type (nodeClaim : NodeClaim Q) : string :=
  let nodeReqs := NewNodeSelectorRequirements (Claim_Requirements nodeClaim) : Rqs in
  if Req_Has (Reqs_Get nodeReqs CapacityTypeLabelKey) CapacityTypePreemptible
  then CapacityTypePreemptible else CapacityTypeOnDemand.

(** The size of a flexible instance. *)
Definition shape_config (instanceType : InstanceType Rqs Q) : res (option LaunchInstanceShapeConfigDetails) :=
  if Req_Has (Reqs_Get (IT_Requirements instanceType) LabelIsFlexible) "true" then
    match getIntValFromRequirements LabelInstanceCPU (IT_Requirements instanceType),
          getIntValFromRequirements LabelInstanceMemory (IT_Requirements instanceType) with
    | Ok vcpu, Ok memoryInMi =>
        let ocpus := f32_of_Z vcpu in
        let ocpus := if negb (IsA1FlexShape (IT_Name instanceType)) then f32_div ocpus (f32_of_Z 2) else ocpus in
        Ok (Some {| SC_Ocpus := ocpus; SC_MemoryInGBs := f32_of_Z (Z.quot memoryInMi 1024) |})
    | Ok _, _ => Err (EText "failed to calculate memory for flex instance when creating instance")
    | _, _ => Err (EText "failed to calculate cpu flex instance when creating instance")
    end
  else Ok None.

(** The request, once the subnet, the instance type, the domain, the template
    and the user data are chosen. *)
Definition launch_request (nodeClass : OciNodeClass) (nodeClaim : NodeClaim Q) (subnet : Subnet)
    (instanceType : InstanceType Rqs Q) (ad userdata : string) (template : LaunchTemplate)
  : res LaunchInstanceDetails :=
  boot ← deref (NodeClass_BootConfig (Spec nodeClass));
  config ← shape_config instanceType;
  launchOpts ← match NodeClass_LaunchOptions (Spec nodeClass) with
               | Some o => opts ← ConvertLaunchOptions sdk o; Ok (Some opts)
               | None => Ok None
               end;
  Ok {| Launch_SubnetId := Subnet_Id subnet;
        Launch_NsgIds := map SSG_Id (Status_SecurityGroups (Status nodeClass));
        Launch_VolumeAttachments := map (λ v, (VpusPerGB v, SizeInGBs v)) (BlockDevices (Spec nodeClass));
        Launch_ImageId := LT_ImageId template;
        Launch_BootVolumeVpusPerGB := BootVolumeVpusPerGB boot;
        Launch_BootVolumeSizeInGBs := BootVolumeSizeInGBs boot;
        Launch_DefinedTags := getTags opts nodeClass nodeClaim;
        Launch_CompartmentId := CompartmentId opts;
        Launch_DisplayName := Meta_Name (Claim_Meta nodeClaim);
        Launch_AvailabilityDomain := ad;
        Launch_Shape := IT_Name instanceType;
        Launch_Metadata := <["user_data" := userdata]> (launch_metadata nodeClass instanceType subnet);
        Launch_Preemptible := String.eqb (launch_capacity_type nodeClaim) CapacityTypePreemptible;
        Launch_ShapeConfig := config;
        Launch_LaunchOptions := launchOpts;
        Launch_AgentPlugins := AgentList (Spec nodeClass) |}.

(** The two service errors that mean there is no capacity. *)
Definition out_of_capacity (e : gerror) : option string :=
  match e with
  | EService status _ msg =>
      if ((status =? 500)%Z && Contains msg "Out of host capacity") ||
         ((status =? 400)%Z && Contains msg "service limits were exceeded")
      then Some msg else None
  | _ => None
  end.

(** The launch and the treatment of its error: the offering is marked. *)
Definition launch (req : LaunchInstanceDetails) (zone : string) : run State Instance :=
  r ← attempt (on_world (client_LaunchInstance req));
  match r with
  | inr i => mret i
  | inl e =>
      match out_of_capacity e with
      | Some msg =>
          s ← get_state;
          put_state (set_ip_offerings
            (MarkUnavailableForLaunchInstanceErr (clock_now (ip_world s)) CapacityTypeOnDemand
               (Launch_Shape req) zone (ip_offerings s)) s);;
          fail (EInsufficientCapacity (EText ("InsufficientCapacityError: " +:+ msg)))
      | None => fail e
      end
  end.

Definition Create (nodeClass : OciNodeClass) (nodeClaim : NodeClaim Q)
    (instanceTypes : list (InstanceType Rqs Q)) : run State Instance :=
  '(subnet, count) ← FindLeastUtilizedSubnet nodeClass;
  if (count <? Pods_Value (Claim_Requests nodeClaim))%Z
  then fail (EText "not enough IPs are available on all subnets")
  else
    let '(instanceType, zone) := pickBestInstanceType nodeClaim instanceTypes in
    match List.find (λ item, Contains item zone) (Options.AvailableDomains opts) with
    | None => fail (EText "failed to find a zone")
    | Some ad =>
        match instanceType with
        | None => fail (EInsufficientCapacity (EText "no instance types available"))
        | Some instanceType =>
            template ← lift (CreateLaunchTemplate opts templates nodeClass nodeClaim instanceType);
            first ← lift (index template 0);
            userdata ← on_bootstrap (Script (LT_UserData first));
            req ← lift (launch_request nodeClass nodeClaim subnet instanceType ad userdata first);
            launch req zone
        end
    end.

(** ** [Delete], [Get], [List], [GetVnicAttachments], [CreateTags] *)

Definition StatusNotFound : Z := 404.
Definition StatusNoContent : Z := 204.

(** The response exists and its status says there is no instance. *)
Definition gone (status : option Z) : bool :=
  match status with
  | Some code => (code =? StatusNotFound)%Z || (code =? StatusNoContent)%Z
  | None => false
  end.

Definition Delete (id : string) : run W unit :=
  '(status, err) ← client_TerminateInstance id;
  if gone status then fail (ENodeClaimNotFound (Some (EText "instance already terminated")))
  else match err with Some e => fail e | None => mret tt end.

Definition Get (id : string) : run W Instance :=
  r ← attempt (client_GetInstance id);
  match r with
  | inl e => fail (EWrap "failed to get instances" e)
  | inr (out, status) =>
      if match status with Some code => (code =? StatusNotFound)%Z | None => false end
      then fail (ENodeClaimNotFound None)
      else if bool_decide (Inst_LifecycleState out = Lifecycle_Terminated)
      then fail (ENodeClaimNotFound None)
      else mret out
  end.

(** The instances of this cluster, by the tag [Create] sets. *)
Definition managed (i : Instance) : bool :=
  bool_decide (karpenter_tag opts i ManagedByAnnotationKey = Some (TagString (ClusterName opts))).

(** One page, filtered; an error is wrapped. *)
Definition list_page (page : string) : run W (list Instance * option string) :=
  map_err (EWrap "list instances error")
    ('(items, OpcNextPage) ← client_ListInstances (CompartmentId opts) page;
     mret (List.filter managed items, OpcNextPage)).

Definition List (fuel : nat) : run W (list Instance) := pages list_page fuel "0" [].

Definition GetVnicAttachments (instance : Instance) : run W (list VnicAttachment) :=
  id ← lift (deref (Inst_Id instance));
  client_ListVnicAttachments (CompartmentId opts) id.

Definition GetSubnets (vnics : list VnicAttachment) (onlyPrimaryNic : bool) : run W (list Subnet) :=
  Subnet.GetSubnets vnics onlyPrimaryNic.

Definition GetSecurityGroups (vnics : list VnicAttachment) (onlyPrimaryNic : bool)
  : run W (list NetworkSecurityGroup) := SecurityGroup.GetSecurityGroups vnics onlyPrimaryNic.

(** An error wrapped around nil is [fmt.Errorf("tagging instance, %w", nil)]. *)
Definition CreateTags (id : string) (tags : gmap string string) : run W unit :=
  '(status, err) ← client_UpdateInstance id tags;
  let wrapped := match err with
                 | Some e => EWrap "tagging instance" e
                 | None => EText "tagging instance"
                 end in
  if gone status then fail (ENodeClaimNotFound (Some wrapped))
  else match err with Some _ => fail wrapped | None => mret tt end.
End Provider.
Arguments State : clear implicits.

(** ** Properties: tags *)

Section ExcludingProperties.
Context {order : MapOrder}.

Definition set_tag (m : gmap string tag_value) (kv : string * string) : gmap string tag_value :=
  <[SafeTagKey kv.1 := TagString kv.2]> m.

(** Below the limit every pair is kept. *)
Lemma add_tags_all limit r l :
  (Z.of_nat (size r) + Z.of_nat (length l) < limit)%Z → add_tags limit r l = (foldl set_tag r l, false).
Proof.
  revert r; induction l as [|[k v] l IH]; intros r Hl; [done|]. simpl in Hl. cbn [add_tags foldl].
  pose proof (map_size_insert (SafeTagKey k) (TagString v) r) as Hs.
  assert (size (<[SafeTagKey k := TagString v]> r) ≤ S (size r))%nat as Hle.
  { rewrite Hs. destruct (r !! SafeTagKey k); simpl; lia. }
  replace (limit <=? _)%Z with false by lia. rewrite IH by lia. done.
Qed.

(** Never more than the limit. *)
Lemma add_tags_size limit r l :
  (Z.of_nat (size r) < limit)%Z → (Z.of_nat (size (add_tags limit r l).1) <= limit)%Z.
Proof.
  revert r; induction l as [|[k v] l IH]; intros r Hr; simpl; [lia|].
  assert (size (<[SafeTagKey k := TagString v]> r) ≤ S (size r))%nat as Hle.
  { rewrite map_size_insert. destruct (r !! SafeTagKey k); simpl; lia. }
  destruct (Z.leb_spec limit (Z.of_nat (size (<[SafeTagKey k := TagString v]> r)))); [simpl; lia|].
  apply IH. lia.
Qed.

Lemma removeExcludingChars_size limit kvs :
  (0 < limit)%Z → (Z.of_nat (size (removeExcludingChars limit [kvs])) <= limit)%Z.
Proof.
  intros Hl. unfold removeExcludingChars. simpl.
  pose proof (add_tags_size limit ∅ (range_map 0%nat kvs)) as Hs. rewrite map_size_empty in Hs.
  destruct (add_tags limit ∅ (range_map 0%nat kvs)) as [r []]; simpl in *; lia.
Qed.

Lemma foldl_set_tag l r k :
  k ∉ map (λ kv, SafeTagKey kv.1) l → foldl set_tag r l !! k = r !! k.
Proof.
  revert r; induction l as [|[k' v] l IH]; intros r Hk; [done|]. simpl in *.
  apply not_elem_of_cons in Hk as [Hne Hk]. rewrite IH by done. unfold set_tag. by rewrite lookup_insert_ne.
Qed.

Lemma foldl_set_tag_elem l r k v :
  NoDup (map (λ kv, SafeTagKey kv.1) l) → (k, v) ∈ l →
  foldl set_tag r l !! SafeTagKey k = Some (TagString v).
Proof.
  revert r; induction l as [|[k' v'] l IH]; intros r Hnd Hin; [by apply elem_of_nil in Hin|].
  simpl in *. apply NoDup_cons in Hnd as [Hk Hnd].
  apply elem_of_cons in Hin as [[= -> ->]|Hin]; [|by apply IH].
  rewrite foldl_set_tag by done. unfold set_tag. by rewrite lookup_insert_eq.
Qed.

(** A small map whose keys stay apart is kept whole. *)
Lemma removeExcludingChars_small limit kvs k v :
  (Z.of_nat (size kvs) < limit)%Z → NoDup (map (λ kv, SafeTagKey kv.1) (map_to_list kvs)) →
  kvs !! k = Some v → removeExcludingChars limit [kvs] !! SafeTagKey k = Some (TagString v).
Proof.
  intros Hl Hnd Hk. unfold removeExcludingChars. cbn [remove_from length].
  assert (length (range_map 0%nat kvs) = size kvs) as Hlen.
  { rewrite range_map_perm. apply length_map_to_list. }
  rewrite add_tags_all by (rewrite map_size_empty, Hlen; lia).
  apply foldl_set_tag_elem; [by rewrite range_map_perm|by apply range_map_lookup].
Qed.

End ExcludingProperties.

Section TagProperties.
Context {order : MapOrder}.

Lemma foldl_assign_other l tags ns :
  ns ∉ l.*1 → foldl assign_tags tags l !! ns = tags !! ns.
Proof.
  revert tags; induction l as [|[ns' kvs] l IH]; intros tags Hns; [done|]. simpl in *.
  apply not_elem_of_cons in Hns as [Hne Hns]. rewrite IH by done. unfold assign_tags.
  by rewrite lookup_insert_ne.
Qed.

Lemma foldl_assign_elem l tags ns kvs :
  NoDup l.*1 → (ns, kvs) ∈ l →
  foldl assign_tags tags l !! ns = Some (removeExcludingChars (order := during ns) 48 [kvs] ∪ from_ptr ∅ (tags !! ns)).
Proof.
  revert tags; induction l as [|[ns' kvs'] l IH]; intros tags Hnd Hin; [by apply elem_of_nil in Hin|].
  simpl in *. apply NoDup_cons in Hnd as [Hk Hnd].
  apply elem_of_cons in Hin as [[= -> ->]|Hin].
  - rewrite foldl_assign_other by done. unfold assign_tags. by rewrite lookup_insert_eq.
  - rewrite (IH _ Hnd Hin). unfold assign_tags. rewrite lookup_insert_ne; [done|].
    intros ->. apply Hk. apply list_elem_of_fmap. by exists (ns, kvs).
Qed.

Variable opts : Options.

(** The four tags of every instance. *)
Definition own_tags {Q} (nodeClass : OciNodeClass) (nodeClaim : NodeClaim Q) : list (string * string) :=
  [(NodePoolLabelKey, claim_label nodeClaim NodePoolLabelKey); (ManagedByAnnotationKey, ClusterName opts);
   (LabelNodeClass, Meta_Name (NC_Meta nodeClass)); (LabelNodeClaim, Meta_Name (Claim_Meta nodeClaim))].

Lemma static_tags_kept {Q} (nodeClass : OciNodeClass) (nodeClaim : NodeClaim Q) k v :
  (k, v) ∈ own_tags nodeClass nodeClaim →
  removeExcludingChars 48 [static_tags opts nodeClass nodeClaim] !! SafeTagKey k = Some (TagString v).
Proof.
  intros Hin.
  assert (NoDup (own_tags nodeClass nodeClaim).*1) as Hnd
    by (unfold own_tags; simpl; refine (bool_decide_unpack _ _); vm_compute; exact I).
  assert (static_tags opts nodeClass nodeClaim = list_to_map (own_tags nodeClass nodeClaim)) as Hst by done.
  apply removeExcludingChars_small.
  - rewrite <- length_map_to_list, Hst, map_to_list_to_map by done. simpl. lia.
  - rewrite Hst, map_to_list_to_map by done. unfold own_tags; simpl.
    refine (bool_decide_unpack _ _); vm_compute; exact I.
  - rewrite Hst. by apply elem_of_list_to_map_1.
Qed.

(** C22: getTags gives every launch the four tags of the program in its namespace, unless the
    class defines tags there, and copies every other namespace of the class with at most 48
    tags, all of them when there are fewer and their keys stay apart. *)
Theorem getTags_spec {Q} (nodeClass : OciNodeClass) (nodeClaim : NodeClaim Q) :
  (DefinedTags (Spec nodeClass) !! TagNamespace opts = None →
   ∀ k v, (k, v) ∈ own_tags nodeClass nodeClaim →
     from_ptr ∅ (getTags opts nodeClass nodeClaim !! TagNamespace opts) !! SafeTagKey k = Some (TagString v)) ∧
  (∀ ns, ns ≠ TagNamespace opts →
     match DefinedTags (Spec nodeClass) !! ns with
     | None => getTags opts nodeClass nodeClaim !! ns = None
     | Some kvs => ∃ tags, getTags opts nodeClass nodeClaim !! ns = Some tags ∧ (size tags <= 48)%nat ∧
         ((size kvs < 48)%nat → NoDup (map (λ kv, SafeTagKey kv.1) (map_to_list kvs)) →
          ∀ k v, kvs !! k = Some v → tags !! SafeTagKey k = Some (TagString v))
     end).
Proof.
  unfold getTags. split.
  - intros Hnone k v Hin. rewrite foldl_assign_other.
    + rewrite lookup_singleton_eq. by apply static_tags_kept.
    + intros ([ns kvs] & Heq & Hns%range_map_lookup)%list_elem_of_fmap. simpl in *. congruence.
  - intros ns Hne. destruct (DefinedTags (Spec nodeClass) !! ns) as [kvs|] eqn:Hns.
    + rewrite (foldl_assign_elem _ _ ns kvs); [|apply range_map_NoDup|by apply range_map_lookup].
      rewrite lookup_singleton_ne by done. simpl. rewrite (right_id_L ∅ _). eexists. split; [done|].
      pose proof (removeExcludingChars_size (order := during ns) 48 kvs ltac:(lia)). split; [lia|].
      intros Hs Hnd k v Hk. apply removeExcludingChars_small; [lia|done|done].
    + rewrite foldl_assign_other; [by rewrite lookup_singleton_ne|].
      intros ([ns' kvs] & Heq & Hin%range_map_lookup)%list_elem_of_fmap. simpl in *. congruence.
Qed.
End TagProperties.

(** ** Properties: choosing the subnet *)

Section SubnetChoice.
Context {W SC UC : Type} `{VirtualNetworkClient W} `{Clock W} {order : MapOrder}
  `{subnetCache : TTLCache (list Subnet) SC} `{TTLCache unit UC}.
Variable opts : Options.
Variable is_ipv6 : string → bool.
Variable subnet_hash : list SubnetSelectorTerm → res Z.

Notation State := (State W SC UC).

(** The counts of the subnets, asked for one after the other from [w] to [w']. *)
Inductive measured : W → list (Subnet * Z) → W → Prop :=
| measured_none w : measured w [] w
| measured_next x count l w w1 w' :
    Subnet.GetSubnetAvailableIPv4Count is_ipv6 x w = (Ok count, w1) →
    measured w1 l w' → measured w ((x, count) :: l) w'.

Definition larger (best p : Subnet * Z) : Subnet * Z := if (best.2 <? p.2)%Z then p else best.

Lemma better_subnets l best (s : State) w' :
  measured (ip_world s) l w' →
  for_each (better_subnet is_ipv6) l.*1 best s = (Ok (foldl larger best l), set_ip_world w' s).
Proof.
  remember (ip_world s) as w eqn:Hw. intros Hm. revert s Hw best.
  induction Hm as [w|x count l w w1 w' Hx _ IH]; intros s -> best; [by destruct s|].
  cbn [fmap list_fmap for_each fst foldl]. change (set_ip_world w' s) with (set_ip_world w' (set_ip_world w1 s)).
  rewrite (run_bind_step _ _ _ (larger best (x, count)) (set_ip_world w1 s)); [by apply IH|].
  unfold better_subnet. rewrite (run_bind_step _ _ _ (inr count) (set_ip_world w1 s)); [done|].
  unfold attempt, on_world, zoom. by rewrite Hx.
Qed.

(** [best] is the first of the largest of [l]. *)
Definition first_largest (best : Subnet * Z) (l : list (Subnet * Z)) : Prop :=
  ∃ before after, l = (before ++ best :: after)%list ∧
    (∀ p, p ∈ before → (p.2 < best.2)%Z) ∧ (∀ p, p ∈ after → (p.2 <= best.2)%Z).

Lemma larger_first l best :
  foldl larger best l = best ∧ (∀ p, p ∈ l → (p.2 <= best.2)%Z) ∨
  first_largest (foldl larger best l) l ∧ (best.2 < (foldl larger best l).2)%Z.
Proof.
  revert best; induction l as [|p l IH]; intros best; cbn [foldl].
  { left. split; [done|]. intros p []%elem_of_nil. }
  assert ((best.2 < p.2)%Z ∧ larger best p = p ∨ (p.2 <= best.2)%Z ∧ larger best p = best) as [[Hlt ->]|[Hge ->]]
    by (unfold larger; destruct (Z.ltb_spec best.2 p.2); auto).
  - right. destruct (IH p) as [[-> Hall]|[(l1 & l2 & Hl & Hbe & Haf) Hp]]; (split; [|lia]).
    + exists [], l. split_and!; [done|intros ? []%elem_of_nil|done].
    + exists (p :: l1), l2. split_and!; [by rewrite Hl at 1|by intros ? [->|?]%elem_of_cons; auto|done].
  - destruct (IH best) as [[-> Hall]|[(l1 & l2 & Hl & Hbe & Haf) Hp]]; [left; split; [done|]|right; split; [|done]].
    + by intros ? [->|?]%elem_of_cons; auto.
    + exists (p :: l1), l2. split_and!; [by rewrite Hl at 1|by intros ? [->|?]%elem_of_cons; auto; lia|done].
Qed.

(** C5: FindLeastUtilizedSubnet asks for the number of free addresses of the listed subnets one
    after the other and returns the first of those with the largest number, and that number,
    when no number is negative; it fails when there is no subnet, and at the first subnet whose
    number cannot be had, provided it has an id, without asking for the next. *)
Theorem FindLeastUtilizedSubnet_spec (nodeClass : OciNodeClass) (s s1 : State) (subnets : list Subnet) :
  on_subnets (Subnet.List opts subnet_hash nodeClass) s = (Ok subnets, s1) →
  (subnets = [] →
     FindLeastUtilizedSubnet opts is_ipv6 subnet_hash nodeClass s = (Err (EText "no subnets found for vcn"), s1)) ∧
  (∀ l w', subnets = l.*1 → l ≠ [] → measured (ip_world s1) l w' → (∀ p, p ∈ l → (0 <= p.2)%Z) →
     ∃ best, first_largest best l ∧
       FindLeastUtilizedSubnet opts is_ipv6 subnet_hash nodeClass s = (Ok best, set_ip_world w' s1)) ∧
  (∀ l x rest w0 e w1, subnets = (l.*1 ++ x :: rest)%list → measured (ip_world s1) l w0 →
     Subnet.GetSubnetAvailableIPv4Count is_ipv6 x w0 = (Err e, w1) → is_Some (Subnet_Id x) →
     FindLeastUtilizedSubnet opts is_ipv6 subnet_hash nodeClass s =
       (Err (EText "GetSubnetAvailableIPv4Count failed."), set_ip_world w1 s1)).
Proof.
  intros Hl. unfold FindLeastUtilizedSubnet. rewrite (run_bind_step _ _ _ _ _ Hl). split_and!.
  - by intros ->.
  - intros [|[x c] l] w' -> Hne Hm Hpos; [done|]. cbn [fmap list_fmap fst].
    change (x :: l.*1) with (((x, c) :: l).*1). rewrite (better_subnets _ _ _ _ Hm). eexists. split; [|reflexivity].
    destruct (larger_first ((x, c) :: l) (x, 0%Z)) as [[-> Hall]|[Hb _]]; [|done].
    assert (c = 0%Z) as -> by (pose proof (Hpos (x, c) ltac:(by left)); pose proof (Hall (x, c) ltac:(by left)); simpl in *; lia).
    exists [], l. split_and!; [done|intros ? []%elem_of_nil|]. intros p Hp. apply Hall. by right.
  - intros l x rest w0 e w1 -> Hm Hx [id Hid].
    destruct (l.*1 ++ x :: rest)%list as [|first others] eqn:Hs; [by destruct l|]. rewrite <- Hs, for_each_app.
    rewrite (run_bind_step _ _ _ _ _ (better_subnets _ _ _ _ Hm)). cbn [for_each].
    unfold mbind, run_bind at 1, better_subnet, attempt, on_world, zoom. 
    unfold mbind, run_bind at 1. change (ip_world (set_ip_world w0 s1)) with w0. rewrite Hx, Hid. done.
Qed.
End SubnetChoice.

(** ** Properties: the launch and its failure *)

Section LaunchProperties.
Context {W SC UC : Type} `{ComputeClient W} `{Clock W} `{TTLCacheLaws unit UC}.

Notation State := (State W SC UC).

(** C21: A launch error that means no capacity becomes an insufficient capacity error and marks
    the on-demand offering of the shape and zone unavailable for the TTL, and no other; any
    other launch error is returned as it is and marks nothing. *)
Theorem launch_failure_spec (req : LaunchInstanceDetails) (zone : string) (s : State) (e : gerror) (w' : W) :
  client_LaunchInstance req (ip_world s) = (Err e, w') →
  match out_of_capacity e with
  | None => launch req zone s = (Err e, set_ip_world w' s)
  | Some msg => ∃ s', launch req zone s =
        (Err (EInsufficientCapacity (EText ("InsufficientCapacityError: " +:+ msg))), s') ∧
      ip_world s' = w' ∧ ip_subnets s' = ip_subnets s ∧ ip_bootstrap s' = ip_bootstrap s ∧
      (∀ now, (now <= clock_now w' + cache_ttl (cache (ip_offerings s)))%Z →
         IsUnavailable now (Launch_Shape req) zone CapacityTypeOnDemand (ip_offerings s') = true) ∧
      (∀ now it z ct, key it z ct ≠ key (Launch_Shape req) zone CapacityTypeOnDemand →
         IsUnavailable now it z ct (ip_offerings s') = IsUnavailable now it z ct (ip_offerings s))
  end.
Proof.
  intros Hl. unfold launch.
  rewrite (run_bind_step _ _ _ (inl e) (set_ip_world w' s)) by (unfold attempt, on_world, zoom; by rewrite Hl).
  destruct (out_of_capacity e) as [msg|]; [|done]. eexists. split; [reflexivity|].
  split_and!; [done..| |]; unfold IsUnavailable; simpl.
  - intros now Hnow. rewrite Get_Set_eq. by replace (now <=? _)%Z with true by lia.
  - intros now it z ct Hne. by rewrite Get_Set_ne.
Qed.
End LaunchProperties.

(** ** Properties: choosing the instance type *)

Section PickProperties.
Context {Rq Rqs Q : Type} `{sched : Scheduling Rq Rqs} `{lib : OfferingLib Rqs Q} {shuffler : Shuffler}
  `{laws : !OfferingLibLaws Rq Rqs Q}.

(** The claim's requirements, and the offerings of a type it may be put in. *)
Definition claim_reqs (nodeClaim : NodeClaim Q) : Rqs := NewNodeSelectorRequirements (Claim_Requirements nodeClaim).
Definition allowed_offering (nodeClaim : NodeClaim Q) (o : Offering Rqs) : bool :=
  Of_Available o && Req_Has (Reqs_Get (claim_reqs nodeClaim) LabelTopologyZone) (offering_zone o).

(** As cheap as any offering of [its] that serves the claim. *)
Definition cheapest (nodeClaim : NodeClaim Q) (its : list (InstanceType Rqs Q)) (it : InstanceType Rqs Q) : Prop :=
  ∀ it' o', it' ∈ its → o' ∈ IT_Offerings it' → serves (claim_reqs nodeClaim) o' = true →
  ∃ o, o ∈ IT_Offerings it ∧ serves (claim_reqs nodeClaim) o = true ∧ SFleb (Of_Price o) (Of_Price o') = true.

Lemma allowed_offerings (nodeClaim : NodeClaim Q) (it : InstanceType Rqs Q) o :
  o ∈ List.filter (λ o, Req_Has (Reqs_Get (claim_reqs nodeClaim) LabelTopologyZone) (offering_zone o))
        (Available (Q := Q) (IT_Offerings it)) ↔
  o ∈ IT_Offerings it ∧ allowed_offering nodeClaim o = true.
Proof.
  unfold allowed_offering. rewrite Available_spec, !list_elem_of_In, !List.filter_In, andb_true_iff. tauto.
Qed.

(** C20: pickBestInstanceType chooses a type as cheap as any offering that serves the claim and
    a zone of one of its available offerings that the claim allows; it chooses nothing only if
    there are no types, or the cheapest type has no such offering. *)
Theorem pickBestInstanceType_spec (nodeClaim : NodeClaim Q) (its : list (InstanceType Rqs Q)) :
  match pickBestInstanceType nodeClaim its with
  | (Some it, zone) => it ∈ its ∧ cheapest nodeClaim its it ∧
      ∃ o, o ∈ IT_Offerings it ∧ allowed_offering nodeClaim o = true ∧ offering_zone o = zone
  | (None, zone) => zone = "" ∧ (its = [] ∨ ∃ it, it ∈ its ∧ cheapest nodeClaim its it ∧
      ∀ o, o ∈ IT_Offerings it → allowed_offering nodeClaim o = false)
  end.
Proof.
  unfold pickBestInstanceType. fold (claim_reqs nodeClaim).
  pose proof (OrderByPrice_perm (Rq := Rq) (claim_reqs nodeClaim) its) as Hp.
  destruct (OrderByPrice (claim_reqs nodeClaim) its) as [|it rest] eqn:Ho.
  { split; [done|]. left. by apply Permutation_nil_l in Hp. }
  assert (it ∈ its) as Hin by (rewrite <- Hp; by left).
  assert (cheapest nodeClaim its it) as Hch.
  { intros it' o' Hit' Ho' Hs. by eapply OrderByPrice_head. }
  pose proof (allowed_offerings nodeClaim it) as Hall.
  pose proof (Shuffle_perm (map offering_zone (List.filter (λ o, Req_Has (Reqs_Get (claim_reqs nodeClaim) LabelTopologyZone)
    (offering_zone o)) (Available (Q := Q) (IT_Offerings it))))) as Hs.
  destruct (Shuffle _) as [|zone zones].
  - split; [done|]. right. exists it. split_and!; [done..|]. intros o Ho'.
    apply Permutation_nil_l in Hs. symmetry in Hs. apply map_eq_nil in Hs.
    apply not_true_iff_false. intros Ha. specialize (Hall o). rewrite Hs in Hall.
    eapply (not_elem_of_nil o), Hall. by split.
  - split_and!; [done..|]. assert (zone ∈ zone :: zones) as Hz by by left.
    rewrite Hs in Hz. apply list_elem_of_In, in_map_iff in Hz as (o & <- & Ho'%list_elem_of_In).
    apply Hall in Ho' as [? ?]. by exists o.
Qed.
End PickProperties.

(** ** Properties: what [Create] launches *)

Section CreateProperties.
Context {Rq Rqs Q W SC UC : Type} `{Scheduling Rq Rqs} `{Quantities Q} `{OfferingLib Rqs Q}
  `{ComputeClient W} `{VirtualNetworkClient W} `{Clock W} {order : MapOrder} {shuffler : Shuffler}
  `{subnetCache : TTLCache (list Subnet) SC} `{TTLCache unit UC}.
Variable opts : Options.
Variable sdk : EnumMappings.
Variable is_ipv6 : string → bool.
Variable subnet_hash : list SubnetSelectorTerm → res Z.
Variable taint_ToString : Bootstrap.Taint → string.
Variable quote_other : string → string.
Variable url_Hostname : string → option string.
Variable random_boundary : string.
Variable read_parts : string → res (list Bootstrap.Part).
Variable templates : TemplateProvider.

Notation State := (State W SC UC).
Notation create := (Create opts sdk is_ipv6 subnet_hash taint_ToString quote_other url_Hostname
  random_boundary read_parts templates).

(** The parts of a request that come from the choices made for it; which tags
    are left out of a full namespace depends on the order its loop draws. *)
Definition request_for (req : LaunchInstanceDetails) (nodeClass : OciNodeClass) (nodeClaim : NodeClaim Q)
    (subnet : Subnet) (it : InstanceType Rqs Q) (image : StatusImage) (ad : string) : Prop :=
  Launch_CompartmentId req = CompartmentId opts ∧
  Launch_SubnetId req = Subnet_Id subnet ∧ Launch_Shape req = IT_Name it ∧
  Launch_ImageId req = SI_Id image ∧ Launch_AvailabilityDomain req = ad ∧
  Launch_NsgIds req = map SSG_Id (Status_SecurityGroups (Status nodeClass)) ∧
  Launch_DisplayName req = Meta_Name (Claim_Meta nodeClaim) ∧
  (∃ drawn : MapOrder, Launch_DefinedTags req = getTags (order := drawn) opts nodeClass nodeClaim) ∧
  shape_config it = Ok (Launch_ShapeConfig req) ∧
  Launch_Preemptible req = Req_Has (Reqs_Get (claim_reqs nodeClaim) CapacityTypeLabelKey) CapacityTypePreemptible.

Lemma launch_request_for nodeClass nodeClaim subnet it ad userdata t image req :
  launch_request opts sdk nodeClass nodeClaim subnet it ad userdata t = Ok req →
  LT_ImageId t = SI_Id image → request_for req nodeClass nodeClaim subnet it image ad.
Proof.
  unfold launch_request. intros Hr Ht. res_inv. unfold request_for, launch_capacity_type. simpl.
  split_and!; try done; [by exists order|by destruct (Req_Has _ _)].
Qed.

Lemma launch_Ok req zone (s s' : State) i :
  launch req zone s = (Ok i, s') →
  client_LaunchInstance req (ip_world s) = (Ok i, ip_world s') ∧
  ip_subnets s' = ip_subnets s ∧ ip_offerings s' = ip_offerings s ∧ ip_bootstrap s' = ip_bootstrap s.
Proof.
  unfold launch. intros (r & s1 & Hr & Hl)%run_bind_Ok. unfold attempt, on_world, zoom in Hr.
  destruct (client_LaunchInstance req (ip_world s)) as [[a|e|w] w'] eqn:Hc; [| |done];
    injection Hr as <- <-.
  - by injection Hl as <- <-.
  - destruct (out_of_capacity e); [|done]. by apply run_bind_Ok in Hl as (? & ? & _ & ?).
Qed.

(** The template of a launch: of the first image of the class that fits. *)
Lemma template_image nodeClass nodeClaim (it : InstanceType Rqs Q) ts t :
  CreateLaunchTemplate opts templates nodeClass nodeClaim it = Ok ts → index ts 0 = Ok t →
  ∃ image, List.find (image_fits it) (Status_Images (Status nodeClass)) = Some image ∧ LT_ImageId t = SI_Id image.
Proof.
  pose proof (Resolve_spec nodeClass nodeClaim it (createImageOptions opts templates nodeClass (Labels (Claim_Meta nodeClaim)))) as Hr.
  fold (CreateLaunchTemplate opts templates nodeClass nodeClaim it) in Hr. intros Hts Ht.
  destruct (List.find (image_fits it) (Status_Images (Status nodeClass))) as [image|].
  - rewrite Hr in Hts. injection Hts as <-. injection Ht as <-. by exists image.
  - destruct Hr as [msg Hr]. congruence.
Qed.

(** The script is made beside the world. *)
Lemma on_bootstrap_world {A} (m : run Bootstrap.NodeBootstrapVariables A) (s s' : State) r :
  on_bootstrap m s = (r, s') → ip_world s' = ip_world s ∧ ip_offerings s' = ip_offerings s.
Proof. unfold on_bootstrap, zoom. destruct (m _). by intros [= _ <-]. Qed.

(** C3: When Create of the instance provider returns an instance, it has found the least
    utilized subnet, with at least as many free addresses as the claim asks pods for, and made
    one more call: a launch whose answer is the instance. The request was for that subnet, the
    instance type and zone pickBestInstanceType chose, the first availability domain that
    contains the zone and the first image of the class that fits the type, with the tags,
    security groups, size and capacity type of the class and the claim; no offering was marked.
    *)
Theorem Create_safe (nodeClass : OciNodeClass) (nodeClaim : NodeClaim Q) (its : list (InstanceType Rqs Q))
    (s s' : State) (i : Instance) :
  create nodeClass nodeClaim its s = (Ok i, s') →
  ∃ subnet count s1 it zone ad image req,
    FindLeastUtilizedSubnet opts is_ipv6 subnet_hash nodeClass s = (Ok (subnet, count), s1) ∧
    (Pods_Value (Claim_Requests nodeClaim) <= count)%Z ∧
    pickBestInstanceType nodeClaim its = (Some it, zone) ∧
    List.find (λ item, Contains item zone) (Options.AvailableDomains opts) = Some ad ∧
    List.find (image_fits it) (Status_Images (Status nodeClass)) = Some image ∧
    request_for req nodeClass nodeClaim subnet it image ad ∧
    client_LaunchInstance req (ip_world s1) = (Ok i, ip_world s') ∧
    ip_offerings s' = ip_offerings s1.
Proof.
  unfold Create. intros ([subnet count] & s1 & Hfind & Hc)%run_bind_Ok.
  destruct (Z.ltb_spec count (Pods_Value (Claim_Requests nodeClaim))); [done|].
  destruct (pickBestInstanceType nodeClaim its) as [oit zone] eqn:Hpick.
  destruct (List.find (λ item, Contains item zone) (Options.AvailableDomains opts)) as [ad|] eqn:Had; [|done].
  destruct oit as [it|]; [|done].
  apply run_bind_Ok in Hc as (ts & s2 & [Hts ->]%lift_Ok & Hc).
  apply run_bind_Ok in Hc as (t & s2 & [Ht ->]%lift_Ok & Hc).
  apply run_bind_Ok in Hc as (userdata & s2 & Hu%on_bootstrap_world & Hc).
  apply run_bind_Ok in Hc as (req & s3 & [Hreq ->]%lift_Ok & Hc).
  destruct (template_image _ _ _ _ _ Hts Ht) as (image & Himg & Hid). destruct Hu as [Hw Ho].
  apply launch_Ok in Hc as (Hc & _ & Ho' & _). rewrite Hw in Hc.
  exists subnet, count, s1, it, zone, ad, image, req. split_and!; try done; [|congruence].
  by eapply launch_request_for.
Qed.
End CreateProperties.

(** ** Properties: listing, and recognising what was launched *)

Section ListProperties.
Context {W : Type} `{ComputeClient W} {order : MapOrder}.
Variable opts : Options.

Lemma list_page_chain w token chunks w' :
  page_chain (client_ListInstances (CompartmentId opts)) w token chunks w' →
  page_chain (list_page opts) w token (map (List.filter (managed opts)) chunks) w'.
Proof.
  assert (∀ w token items next w',
    client_ListInstances (CompartmentId opts) token w = (Ok (items, next), w') →
    list_page opts token w = (Ok (List.filter (managed opts) items, next), w')) as Hstep.
  { intros ? ? ? ? ? Hp. unfold list_page, map_err. by rewrite (run_bind_step _ _ _ _ _ Hp). }
  induction 1; [by eapply chain_last; eauto|eapply chain_more; eauto].
Qed.

Lemma list_page_failure w token e w' :
  page_failure (client_ListInstances (CompartmentId opts)) w token e w' →
  page_failure (list_page opts) w token (EWrap "list instances error" e) w'.
Proof.
  induction 1 as [w token e w' Hf|w token items next w1 e w' Hf Hne Hn0 _ IH].
  - apply failure_now. unfold list_page, map_err. by rewrite (run_bind_stop _ _ _ _ _ Hf).
  - eapply failure_later; [|done|done|exact IH]. unfold list_page, map_err.
    by rewrite (run_bind_step _ _ _ _ _ Hf).
Qed.

Lemma filter_concat {A} (p : A → bool) l : concat (map (List.filter p) l) = List.filter p (concat l).
Proof. induction l as [|x l IH]; simpl; [done|]. by rewrite List.filter_app, IH. Qed.

(** The instances of this cluster, of all pages and in order. *)
Lemma List_pages fuel w w' chunks :
  page_chain (client_ListInstances (CompartmentId opts)) w "" chunks w' → (length chunks <= fuel)%nat →
  List opts fuel w = (Ok (List.filter (managed opts) (concat chunks)), w').
Proof.
  intros Hc Hf. rewrite <- filter_concat. apply pages_chain; [by apply list_page_chain|].
  by rewrite length_map.
Qed.

(** C19: List is the instances of this cluster among all instances of all pages, in order, for
    any fuel of at least the number of pages, and fails with the error of the first page that
    fails. *)
Theorem InstanceList_spec (w w' : W) :
  (∀ chunks fuel, page_chain (client_ListInstances (CompartmentId opts)) w "" chunks w' →
     (length chunks <= fuel)%nat → List opts fuel w = (Ok (List.filter (managed opts) (concat chunks)), w')) ∧
  (∀ e, page_failure (client_ListInstances (CompartmentId opts)) w "" e w' →
     ∃ n, ∀ fuel, (n <= fuel)%nat → List opts fuel w = (Err (EWrap "list instances error" e), w')).
Proof.
  split.
  - intros chunks fuel. apply List_pages.
  - intros e He. by apply pages_failure, list_page_failure.
Qed.


End ListProperties.

(** ** Properties: the size of a flexible instance *)

Section FlexProperties.
Context {Rq Rqs Q : Type} `{SchedulingLaws Rq Rqs} `{QuantitiesLaws Q} `{!OfferingLib Rqs Q}.
Variable ParseFloat_other : string → option f64.
Variable opts : Options.

Lemma Atoi_value_Itoa z : in_int64 z = true → Atoi_value (Itoa z) = z.
Proof.
  intros Hz. pose proof (Atoi_Itoa z Hz) as Ha. unfold Atoi in Ha. unfold Atoi_value.
  destruct (parse_int (Itoa z)) as [z'|]; [|discriminate Ha]. simpl in Ha.
  destruct (in_int64 z') eqn:Hz'; [|discriminate Ha]. injection Ha as ->.
  unfold in_int64 in Hz'. lia.
Qed.


(** The labels that carry a type's size. *)
Lemma NewInstanceType_size region name (w : WrapShape) nodeClass zones offerings (it : InstanceType Rqs Q) :
  InstanceType.NewInstanceType ParseFloat_other opts region w nodeClass zones offerings = Ok it →
  Shape_Shape (wShape w) = Some name → in_int64 (from_ptr 0%Z (Gpus (wShape w))) = true →
  IT_Name it = name ∧
  Reqs_Get (IT_Requirements it) LabelIsFlexible =
    NewRequirement LabelIsFlexible OpIn [InstanceType.bool_text (from_ptr false (IsFlexible (wShape w)))] ∧
  Reqs_Get (IT_Requirements it) LabelInstanceCPU = NewRequirement LabelInstanceCPU OpIn [Itoa (CalcCpu w)] ∧
  Reqs_Get (IT_Requirements it) LabelInstanceMemory =
    NewRequirement LabelInstanceMemory OpIn [Itoa (wrap64 (CalMemInGBs w * 1024))].
Proof.
  intros Hit Hname Hg. unfold InstanceType.NewInstanceType in Hit.
  rewrite (InstanceType.computeRequirements_labels region name) in Hit by done. rewrite Hname in Hit.
  res_inv. simplify_eq. cbn [IT_Name IT_Requirements]. split; [done|].
  match goal with |- context [NewRequirements ?l] => set (L := l) end.
  assert (∀ k r, Req_Key r = k → r ∈ L → Reqs_Get (NewRequirements L) k = r) as Hget.
  { intros k r <-. apply InstanceType.labels_Get. }
  subst L. split_and!.
  all: InstanceType.get_label Hget; reflexivity.
Qed.

#[local] Instance spec_float_eq_dec : EqDecision spec_float.
Proof. solve_decision. Defined.

Definition same_float (a b : spec_float) : bool := bool_decide (a = b).

(** Half of twice a number of cores. *)
Lemma half_of_twice cpus :
  (1 <= cpus <= 1024)%Z → f32_div (f32_of_Z (cpus * 2)) (f32_of_Z 2) = f32_of_Z cpus.
Proof.
  intros Hc. apply (bool_decide_eq_true_1 _).
  apply (InstanceType.forallb_range (λ c, same_float (f32_div (f32_of_Z (c * 2)) (f32_of_Z 2)) (f32_of_Z c)) 1 1024);
    [vm_compute; reflexivity|lia].
Qed.

(** C17: The size a flexible instance is launched with, read back from the labels
    NewInstanceType wrote, is the core count and the memory in GB the shape was expanded to. *)
Theorem flex_size_roundtrip (region name : string) (w : WrapShape) (nodeClass : OciNodeClass)
    (zones : list string) (offerings : list (Offering Rqs)) (it : InstanceType Rqs Q) (cpus : Z) :
  InstanceType.NewInstanceType ParseFloat_other opts region w nodeClass zones offerings = Ok it →
  Shape_Shape (wShape w) = Some name → in_int64 (from_ptr 0%Z (Gpus (wShape w))) = true →
  IsFlexible (wShape w) = Some true →
  CalcCpu w = (cpus * if IsA1FlexShape name then 1 else 2)%Z → (1 <= cpus <= 1024)%Z →
  (0 <= CalMemInGBs w <= 2 ^ 40)%Z →
  IT_Name it = name ∧
  shape_config it = Ok (Some {| SC_Ocpus := f32_of_Z cpus; SC_MemoryInGBs := f32_of_Z (CalMemInGBs w) |}).
Proof.
  intros Hit Hname Hg Hflex Hcpu Hc Hm.
  destruct (NewInstanceType_size region name w nodeClass zones offerings it Hit Hname Hg) as (Hn & Hf & Hv & Hmem).
  split; [done|]. unfold shape_config, getIntValFromRequirements. rewrite Hf, Hv, Hmem, Hn, Hflex.
  rewrite Has_In. cbn [from_ptr default InstanceType.bool_text]. rewrite bool_decide_eq_true_2 by by left.
  rewrite !InstanceType.Values_single.
  rewrite wrap64_id by (unfold in_int64, min_int64, max_int64; lia).
  rewrite !Atoi_value_Itoa by (rewrite ?Hcpu; unfold in_int64, min_int64, max_int64; destruct (IsA1FlexShape name); lia).
  rewrite Z.quot_mul, Hcpu by lia.
  destruct (IsA1FlexShape name); simpl; [by rewrite Z.mul_1_r|]. by rewrite half_of_twice.
Qed.
End FlexProperties.
