(* ===== verification/CloudProvider.v ===== *)
(** * [pkg/cloudprovider]: karpenter's cloud provider over OCI

    [cloudprovider.go] and [drift.go]: node claims from and to instances, and
    the drift of a node from its class. *)

From stdpp Require Import base list strings gmap.
From Stdlib Require Import ZArith SpecFloat Lia.
From S2P Require Import Prelude GoStrings GoFloat Utils OciModel Api Options Cache.
From S2P Require Import UnavailableOfferings Sched KubeModel ImageFamily.
From S2P Require Bootstrap InstanceType Instance Selector.

Local Open Scope string_scope.

Notation time_Minute := Cache.time_Minute.

(** [cloudprovider.RepairPolicy] *)
Record RepairPolicy := {
  RP_ConditionType : string;
  RP_ConditionStatus : ConditionStatus;
  RP_TolerationDuration : Z
}.

Definition RepairPolicies : list RepairPolicy :=
  [{| RP_ConditionType := "Ready"; RP_ConditionStatus := CondFalse; RP_TolerationDuration := 30 * time_Minute |};
   {| RP_ConditionType := "Ready"; RP_ConditionStatus := CondUnknown; RP_TolerationDuration := 30 * time_Minute |}].

(** [events.go] *)
Definition NodePoolFailedToResolveNodeClass (p : NodePool) : Event :=
  {| Ev_Object := Pool_Name p; Ev_Reason := ""; Ev_Message := "Failed resolving OciNodeClass" |}.
Definition NodeClaimFailedToResolveNodeClass {Q} (c : NodeClaim Q) : Event :=
  {| Ev_Object := Meta_Name (Claim_Meta c); Ev_Reason := ""; Ev_Message := "Failed resolving OciNodeClass" |}.

(** [&v1alpha1.OciNodeClass{}] *)
Definition zero_node_class : OciNodeClass := {|
  NC_Meta := {| Meta_Name := ""; Labels := ∅; Annotations := ∅; Finalizers := []; DeletionTimestamp := None |};
  Spec := {| VcnId := ""; ImageSelector := []; SubnetSelector := []; SecurityGroupSelector := [];
             UserData := None; PreInstallScript := None; MetaData := ∅; ImageFamily := ""; Tags := ∅;
             DefinedTags := ∅; FreeFormTags := ∅; Kubelet := None; NodeClass_BootConfig := None;
             NodeClass_LaunchOptions := None; BlockDevices := []; AgentList := [] |};
  Status := {| Status_Subnets := []; Status_Images := []; Status_SecurityGroups := []; Status_Conditions := [] |}
|}.

(** ** From an instance to a node claim *)

Section Claims.
Context {Rq Rqs Q : Type} `{Scheduling Rq Rqs} `{CloudLib Rq Rqs Q}.
Variable opts : Options.

(** The requirements that leave one value, as labels. *)
Definition single_labels (reqs : Rqs) : gmap string string :=
  omap (λ r, if (Req_Len r =? 1)%Z then head (Req_Values r) else None) (Reqs_map reqs).

(** The availability domain without its prefix. *)
Definition zone_of (availabilityDomain : string) : string :=
  match Split availabilityDomain ":" with
  | [_; ad] => ad
  | ad :: _ => ad
  | [] => ""
  end.

(** [m[key] = v.( string)] when the tag is there. *)
Definition copy_tag (i : Instance) (key : string) (m : gmap string string) : res (gmap string string) :=
  match Instance.karpenter_tag opts i key with
  | Some (TagString v) => Ok (<[key := v]> m)
  | Some TagOther => Panic "interface conversion"
  | None => Ok m
  end.

Definition resourceFilter (_ : string) (v : Q) : bool := negb (Q_IsZero v).

Definition instanceToNodeClaim (now : Z) (i : Instance) (instanceType : option (InstanceType Rqs Q))
  : res (NodeClaim Q) :=
  let labels := match instanceType with Some it => single_labels (IT_Requirements it) | None => ∅ end in
  let capacity := match instanceType with Some it => FilterMap (IT_Capacity it) resourceFilter | None => ∅ end in
  let allocatable := match instanceType with Some it => FilterMap (Allocatable it) resourceFilter | None => ∅ end in
  let labels := <[LabelTopologyZone := zone_of (from_ptr "" (Inst_AvailabilityDomain i))]> labels in
  let labels := <[CapacityTypeLabelKey :=
    if Inst_Preemptible i then CapacityTypePreemptible else CapacityTypeOnDemand]> labels in
  labels ← copy_tag i NodePoolLabelKey labels;
  annotations ← copy_tag i ManagedByAnnotationKey ∅;
  created ← deref (Inst_TimeCreated i);
  id ← deref (Inst_Id i);
  source ← match Inst_SourceDetails i with
           | SourceViaImage image => Ok image
           | SourceOther => Panic "interface conversion"
           end;
  image ← deref source;
  Ok {| Claim_Meta := {| Meta_Name := ""; Labels := labels; Annotations := annotations; Finalizers := [];
          DeletionTimestamp := if bool_decide (Inst_LifecycleState i = Lifecycle_Terminating ∨
                                               Inst_LifecycleState i = Lifecycle_Terminated)
                               then Some now else None |};
        Claim_CreationTimestamp := created; Claim_Requirements := []; Claim_Taints := [];
        Claim_StartupTaints := []; Claim_Requests := ∅; Claim_NodeClassRef := None;
        Claim_ProviderID := id; Claim_ImageID := image; Claim_NodeName := "";
        Claim_Capacity := capacity; Claim_Allocatable := allocatable; Claim_Conditions := [] |}.

(** [lo.Find(instanceTypes, i.Name == name)] *)
Definition find_by_name (name : string) (its : list (InstanceType Rqs Q)) : option (InstanceType Rqs Q) :=
  List.find (λ it, String.eqb (IT_Name it) name) its.
(** ... where the name is behind a pointer that is read for each element. *)
Definition find_by_shape (shape : option string) (its : list (InstanceType Rqs Q))
  : res (option (InstanceType Rqs Q)) :=
  match its with
  | [] => Ok None
  | _ => name ← deref shape; Ok (find_by_name name its)
  end.
End Claims.

(** ** [drift.go]: the comparisons *)

Definition ImageDrift : string := "ImageDrift".
Definition SubnetDrift : string := "SubnetDrift".
Definition SecurityGroupDrift : string := "SecurityGroupDrift".
Definition NodeClassDrift : string := "NodeClassDrift".

Fixpoint subnet_drift (known : list string) (subnets : list Subnet) : res string :=
  match subnets with
  | [] => Ok ""
  | sub :: rest =>
      id ← deref (Subnet_Id sub);
      if bool_decide (id ∈ known) then subnet_drift known rest else Ok SubnetDrift
  end.

Definition isSubnetDrifted (subnets : list Subnet) (nodeClass : OciNodeClass) : res string :=
  match Status_Subnets (Status nodeClass) with
  | [] => Err (EText "no subnets are discovered")
  | known => subnet_drift (map SS_Id known) subnets
  end.

Definition areSecurityGroupsDrifted (sgs : list NetworkSecurityGroup) (nodeClass : OciNodeClass) : res string :=
  let securityGroupIds : gset string := list_to_set (map SSG_Id (Status_SecurityGroups (Status nodeClass))) in
  if bool_decide (securityGroupIds = ∅) then Err (EText "no security groups are present in the status")
  else
    ids ← map_res (λ sg, deref (NSG_Id sg)) sgs;
    if bool_decide (securityGroupIds = list_to_set ids) then Ok "" else Ok SecurityGroupDrift.

(** The first reason that is not empty. *)
Definition first_reason (reasons : list string) : string :=
  match List.find (λ r, negb (String.eqb r "")) reasons with Some r => r | None => "" end.

(** ** The cloud provider *)

Section Provider.
Context {Rq Rqs Q W TC SC UC : Type} `{Scheduling Rq Rqs} `{Quantities Q} `{OfferingLib Rqs Q}
  `{CloudLib Rq Rqs Q} {conds : ConditionLib} {errlib : ErrorLib}
  `{ComputeClient W} `{VirtualNetworkClient W} `{KubeClient Q W} `{Clock W} {order : MapOrder} {shuffler : Instance.Shuffler}
  `{shapeCache : TTLCache (gmap string WrapShape) TC} `{subnetCache : TTLCache (list Subnet) SC} `{TTLCache unit UC}.
Variable opts : Options.
Variable sdk : Instance.EnumMappings.
Variable is_ipv6 : string → bool.
Variable subnet_hash : list SubnetSelectorTerm → res Z.
Variable class_hash : OciNodeClassSpec → res Z.
Variable taint_ToString : Bootstrap.Taint → string.
Variable quote_other : string → string.
Variable url_Hostname : string → option string.
Variable random_boundary : string.
Variable read_parts : string → res (list Bootstrap.Part).
Variable templates : TemplateProvider.
Variable Price : WrapShape → res f32.
Variable ParseFloat_other : string → option f64.
Variable region : string.
(** The fuel of the two pagination loops. *)
Variable fuel : nat.

(** The caches of the providers, the shared table of offerings, the shared
    variables of the Ubuntu scripts, and the world. *)
Record State := {
  cp_shapes : TC;
  cp_subnets : SC;
  cp_offerings : UnavailableOfferings UC;
  cp_bootstrap : Bootstrap.NodeBootstrapVariables;
  cp_world : W
}.

Definition set_cp_world (w : W) (s : State) : State := {|
  cp_shapes := cp_shapes s; cp_subnets := cp_subnets s; cp_offerings := cp_offerings s;
  cp_bootstrap := cp_bootstrap s; cp_world := w
|}.

(** The state of the instance type provider and of the instance provider. *)
Definition types_state (s : State) : InstanceType.State := {|
  InstanceType.it_cache := cp_shapes s; InstanceType.it_offerings := cp_offerings s;
  InstanceType.it_world := cp_world s
|}.
Definition set_types_state (t : InstanceType.State) (s : State) : State := {|
  cp_shapes := InstanceType.it_cache t; cp_subnets := cp_subnets s;
  cp_offerings := InstanceType.it_offerings t; cp_bootstrap := cp_bootstrap s;
  cp_world := InstanceType.it_world t
|}.
Definition instances_state (s : State) : Instance.State W SC UC := {|
  Instance.ip_subnets := cp_subnets s; Instance.ip_offerings := cp_offerings s;
  Instance.ip_bootstrap := cp_bootstrap s; Instance.ip_world := cp_world s
|}.
Definition set_instances_state (t : Instance.State W SC UC) (s : State) : State := {|
  cp_shapes := cp_shapes s; cp_subnets := Instance.ip_subnets t;
  cp_offerings := Instance.ip_offerings t; cp_bootstrap := Instance.ip_bootstrap t;
  cp_world := Instance.ip_world t
|}.

Definition on_world {A} (m : run W A) : run State A := zoom cp_world set_cp_world m.

(** [c.instanceTypeProvider.List] and [c.instanceProvider.Create] *)
Definition list_instance_types (nodeClass : OciNodeClass) : run State (list (InstanceType Rqs Q)) :=
  zoom types_state set_types_state (InstanceType.List opts Price ParseFloat_other region fuel nodeClass).
Definition create_instance (nodeClass : OciNodeClass) (nodeClaim : NodeClaim Q)
    (its : list (InstanceType Rqs Q)) : run State OciModel.Instance :=
  zoom instances_state set_instances_state
    (Instance.Create opts sdk is_ipv6 subnet_hash taint_ToString quote_other url_Hostname random_boundary
       read_parts templates nodeClass nodeClaim its).

(** ** Resolving node classes *)

Definition resolve_node_class (ref : option string) : run W OciNodeClass :=
  name ← lift (deref ref);
  nodeClass ← kube_GetNodeClass name;
  match DeletionTimestamp (NC_Meta nodeClass) with
  | Some _ => fail EK8sNotFound
  | None => mret nodeClass
  end.

Definition resolveNodeClassFromNodeClaim (nodeClaim : NodeClaim Q) : run W OciNodeClass :=
  resolve_node_class (Claim_NodeClassRef nodeClaim).
Definition resolveNodeClassFromNodePool (nodePool : NodePool) : run W OciNodeClass :=
  resolve_node_class (Pool_NodeClassRef nodePool).

(** [if errors.IsNotFound(err) { c.recorder.Publish(event) }] *)
Definition publish_not_found (e : gerror) (ev : Event) : run W unit :=
  if IsNotFound e then recorder_Publish ev else mret tt.

(** ** Instance types *)

Definition unresolved (e : gerror) : gerror := EInsufficientCapacity (EWrap "resolving node class" e).
Definition none_available : gerror :=
  EInsufficientCapacity (EText "all requested instance types were unavailable during launch").

Definition GetInstanceTypes (nodePool : option NodePool) : run State (list (InstanceType Rqs Q)) :=
  match nodePool with
  | None => list_instance_types zero_node_class
  | Some nodePool =>
      r ← attempt (on_world (resolveNodeClassFromNodePool nodePool));
      match r with
      | inl e =>
          on_world (publish_not_found e (NodePoolFailedToResolveNodeClass nodePool));;
          fail (unresolved e)
      | inr nodeClass =>
          instanceTypes ← list_instance_types nodeClass;
          match instanceTypes with [] => fail none_available | _ => mret instanceTypes end
      end
  end.

Definition suits (nodeClaim : NodeClaim Q) (it : InstanceType Rqs Q) : bool :=
  let reqs := NewNodeSelectorRequirements (Claim_Requirements nodeClaim) in
  Reqs_Compatible reqs (IT_Requirements it) &&
  negb (bool_decide (length (Available (Q := Q) (Offerings_Compatible reqs (IT_Offerings it))) = 0%nat)) &&
  Fits (Claim_Requests nodeClaim) (Allocatable it).

Definition resolveInstanceTypes (nodeClaim : NodeClaim Q) (nodeClass : OciNodeClass)
  : run State (list (InstanceType Rqs Q)) :=
  instanceTypes ← map_err (EWrap "getting instance types") (list_instance_types nodeClass);
  mret (List.filter (suits nodeClaim) instanceTypes).

Definition resolveNodePoolFromInstance (i : OciModel.Instance) : run W NodePool :=
  match Instance.karpenter_tag opts i NodePoolLabelKey with
  | Some (TagString name) => kube_GetNodePool name
  | Some TagOther => lift (Panic "interface conversion")
  | None => fail EK8sNotFound
  end.

(** [nil] when the pool, or its class, is not found. *)
Definition resolveInstanceTypeFromInstance (i : OciModel.Instance) : run State (option (InstanceType Rqs Q)) :=
  r ← attempt (on_world (resolveNodePoolFromInstance i));
  match r with
  | inl e => lift (ignoring None (IgnoreNotFound (EWrap "resolving nodepool" e)))
  | inr nodePool =>
      r ← attempt (GetInstanceTypes (Some nodePool));
      match r with
      | inl e => lift (ignoring None (IgnoreNotFound (EWrap "resolving nodeclass" e)))
      | inr instanceTypes => lift (find_by_shape (Inst_Shape i) instanceTypes)
      end
  end.

(** ** [Create], [Get], [Delete] *)

Definition now : run State Z := s ← get_state; mret (clock_now (cp_world s)).

(** The annotations of a new claim. *)
Definition hash_annotations (nodeClass : OciNodeClass) : res (gmap string string) :=
  h ← Hash class_hash nodeClass;
  Ok (<[AnnotationOciNodeClassHash := h]>
        (<[AnnotationOciNodeClassHashVersion := OciNodeClassHashVersion]> (Annotations (NC_Meta nodeClass)))).

(** The launch and the claim of the new instance. *)
Definition launch_claim (nodeClaim : NodeClaim Q) (nodeClass : OciNodeClass)
    (instanceTypes : list (InstanceType Rqs Q)) : run State (NodeClaim Q) :=
  newInstance ← create_instance nodeClass nodeClaim instanceTypes;
  instanceType ← lift (find_by_shape (Inst_Shape newInstance) instanceTypes);
  t ← now;
  nc ← lift (instanceToNodeClaim opts t newInstance instanceType);
  annotations ← lift (hash_annotations nodeClass);
  mret (set_claim_meta (set_annotations annotations (Claim_Meta nc)) nc).

Definition Create (nodeClaim : NodeClaim Q) : run State (NodeClaim Q) :=
  r ← attempt (on_world (resolveNodeClassFromNodeClaim nodeClaim));
  match r with
  | inl e =>
      on_world (publish_not_found e (NodeClaimFailedToResolveNodeClass nodeClaim));;
      fail (unresolved e)
  | inr nodeClass =>
      match cond_Ready (Status_Conditions (Status nodeClass)) with
      | (CondFalse, msg) => fail (ENodeClassNotReady (EText msg))
      | (CondUnknown, _) => fail (EText "resolving NodeClass readiness, NodeClass is in Ready=Unknown")
      | (CondTrue, _) =>
          instanceTypes ← map_err (EWrap "resolving instance types") (resolveInstanceTypes nodeClaim nodeClass);
          match instanceTypes with
          | [] => fail none_available
          | _ => launch_claim nodeClaim nodeClass instanceTypes
          end
      end
  end.

(** The claim of a running instance. *)
Definition claim_of_instance (i : OciModel.Instance) : run State (NodeClaim Q) :=
  instanceType ← map_err (EWrap "resolving instance type") (resolveInstanceTypeFromInstance i);
  t ← now;
  lift (instanceToNodeClaim opts t i instanceType).

Definition Get (providerID : string) : run State (NodeClaim Q) :=
  i ← map_err (EWrap "getting instance") (on_world (Instance.Get providerID));
  claim_of_instance i.

Definition Delete (nodeClaim : NodeClaim Q) : run W unit := Instance.Delete (Claim_ProviderID nodeClaim).

(** ** [IsDrifted] *)

Definition isImageDrifted (nodeClaim : NodeClaim Q) (nodePool : NodePool) (i : OciModel.Instance)
    (nodeClass : OciNodeClass) : run State string :=
  instanceTypes ← map_err (EWrap "getting instanceTypes") (GetInstanceTypes (Some nodePool));
  match find_by_name (claim_label nodeClaim LabelInstanceTypeStable) instanceTypes with
  | None => fail (EText "finding node instance type")
  | Some nodeInstanceType =>
      match Status_Images (Status nodeClass) with
      | [] => fail (EText "no image exist given constraints")
      | images =>
          image ← lift (deref (Inst_ImageId i));
          mret (match MapToInstanceTypes nodeInstanceType images !! image with
                | Some _ => ""
                | None => ImageDrift
                end)
      end
  end.

Definition isNodeClassDrifted (nodeClaim : NodeClaim Q) (nodePool : NodePool) (nodeClass : OciNodeClass)
  : run State string :=
  i ← on_world (Instance.Get (Claim_ProviderID nodeClaim));
  imageDrifted ← map_err (EWrap "calculating image drift") (isImageDrifted nodeClaim nodePool i nodeClass);
  vnics ← map_err (EWrap "calculating securitygroup drift") (on_world (Instance.GetVnicAttachments opts i));
  sgs ← map_err (EWrap "calculating securitygroup drift") (on_world (Instance.GetSecurityGroups vnics true));
  securitygroupDrifted ← map_err (EWrap "calculating securitygroup drift") (lift (areSecurityGroupsDrifted sgs nodeClass));
  subnets ← map_err (EWrap "calculating subnet drift") (on_world (Instance.GetSubnets vnics true));
  subnetDrifted ← map_err (EWrap "calculating subnet drift") (lift (isSubnetDrifted subnets nodeClass));
  mret (first_reason [imageDrifted; securitygroupDrifted; subnetDrifted]).

Definition IsDrifted (nodeClaim : NodeClaim Q) : run State string :=
  match Labels (Claim_Meta nodeClaim) !! NodePoolLabelKey with
  | None => mret ""
  | Some nodePoolName =>
      r ← attempt (on_world (kube_GetNodePool nodePoolName));
      match r with
      | inl e => lift (ignoring "" (IgnoreNotFound e))
      | inr nodePool =>
          match Pool_NodeClassRef nodePool with
          | None => mret ""
          | Some _ =>
              r ← attempt (on_world (resolveNodeClassFromNodePool nodePool));
              match r with
              | inl e =>
                  on_world (publish_not_found e (NodePoolFailedToResolveNodeClass nodePool));;
                  lift (ignoring "" (IgnoreNotFound (EWrap "resolving node class" e)))
              | inr nodeClass => isNodeClassDrifted nodeClaim nodePool nodeClass
              end
          end
      end
  end.
End Provider.
Arguments State : clear implicits.

(** ** [List]

    The instance types are listed once for each instance, in orders of their own. *)
Section Listing.
Context {Rq Rqs Q W TC SC UC : Type} `{Scheduling Rq Rqs} `{Quantities Q} `{OfferingLib Rqs Q}
  `{CloudLib Rq Rqs Q} {errlib : ErrorLib}
  `{ComputeClient W} `{KubeClient Q W} `{Clock W} {order : MapOrder}
  `{shapeCache : TTLCache (gmap string WrapShape) TC} `{TTLCache unit UC}.
Variable opts : Options.
Variable Price : WrapShape → res f32.
Variable ParseFloat_other : string → option f64.
Variable region : string.
Variable fuel : nat.

Definition List : run (State W TC SC UC) (list (NodeClaim Q)) :=
  instances ← map_err (EWrap "listing instances") (on_world (Instance.List opts fuel));
  for_each (λ nodeClaims i,
    nc ← claim_of_instance (order := during i) opts Price ParseFloat_other region fuel i;
    mret (nodeClaims ++ [nc])%list) instances [].
End Listing.

(** ** Properties: the claim of an instance *)

Section ClaimProperties.
Context {Rq Rqs Q : Type} `{Scheduling Rq Rqs} `{CloudLib Rq Rqs Q}.
Variable opts : Options.

(** The labels that do not come from the instance type. *)
Definition own_labels : list string := [LabelTopologyZone; CapacityTypeLabelKey; NodePoolLabelKey].

Lemma own_labels_distinct :
  LabelTopologyZone ≠ CapacityTypeLabelKey ∧ LabelTopologyZone ≠ NodePoolLabelKey ∧
  CapacityTypeLabelKey ≠ NodePoolLabelKey.
Proof. by vm_compute. Qed.

Definition terminating (i : Instance) : Prop :=
  Inst_LifecycleState i = Lifecycle_Terminating ∨ Inst_LifecycleState i = Lifecycle_Terminated.

Lemma copy_tag_lookup i key m m' k :
  copy_tag opts i key m = Ok m' →
  m' !! k = if bool_decide (k = key) then
              match Instance.karpenter_tag opts i key with Some (TagString v) => Some v | _ => m !! k end
            else m !! k.
Proof.
  unfold copy_tag. destruct (Instance.karpenter_tag opts i key) as [[v|]|]; intros [= <-].
  - case_bool_decide as Hk; [subst; by rewrite lookup_insert_eq|by rewrite lookup_insert_ne].
  - by case_bool_decide.
Qed.

(** What a collector reads of the claim of an instance. *)
Lemma instanceToNodeClaim_identity (t : Z) (i : Instance) (it : option (InstanceType Rqs Q)) (nc : NodeClaim Q) :
  instanceToNodeClaim opts t i it = Ok nc →
  Inst_Id i = Some (Claim_ProviderID nc) ∧ Inst_TimeCreated i = Some (Claim_CreationTimestamp nc) ∧
  (∀ v, Instance.karpenter_tag opts i ManagedByAnnotationKey = Some (TagString v) →
     claim_annotation nc ManagedByAnnotationKey = v) ∧
  (is_Some (DeletionTimestamp (Claim_Meta nc)) ↔ terminating i).
Proof.
  intros Hnc. unfold instanceToNodeClaim in Hnc.
  apply bind_Ok in Hnc as (labels & _ & Hnc). apply bind_Ok in Hnc as (annotations & Hann & Hnc).
  pose proof (λ k, copy_tag_lookup _ _ _ _ k Hann) as Ha.
  destruct (Inst_SourceDetails i) as [image|]; res_inv. split_and!; [done|done|..].
  - intros v Hv. unfold claim_annotation. simpl. by rewrite Ha, bool_decide_eq_true_2, Hv.
  - unfold terminating. simpl. case_bool_decide; split; intros Ht; (done || by destruct Ht || by eexists).
Qed.

(** The claim of an instance has its id, creation time and image, its zone without the
    prefix, its capacity type and node pool as labels, the single-valued requirements of the
    instance type as the other labels, a managed-by annotation only from the tag, and a deletion
    time exactly when the instance is terminating or terminated. *)
Theorem instanceToNodeClaim_spec (t : Z) (i : Instance) (it : option (InstanceType Rqs Q)) (nc : NodeClaim Q) :
  instanceToNodeClaim opts t i it = Ok nc →
  let labels := Labels (Claim_Meta nc) in
  Inst_Id i = Some (Claim_ProviderID nc) ∧ Inst_TimeCreated i = Some (Claim_CreationTimestamp nc) ∧
  Inst_SourceDetails i = SourceViaImage (Some (Claim_ImageID nc)) ∧
  labels !! LabelTopologyZone = Some (zone_of (from_ptr "" (Inst_AvailabilityDomain i))) ∧
  labels !! CapacityTypeLabelKey =
    Some (if Inst_Preemptible i then CapacityTypePreemptible else CapacityTypeOnDemand) ∧
  (∀ v, Instance.karpenter_tag opts i NodePoolLabelKey = Some (TagString v) → labels !! NodePoolLabelKey = Some v) ∧
  (∀ k, k ∉ own_labels → labels !! k = it ≫= λ it, single_labels (IT_Requirements it) !! k) ∧
  (∀ v, claim_annotation nc ManagedByAnnotationKey = v → v ≠ "" →
     Instance.karpenter_tag opts i ManagedByAnnotationKey = Some (TagString v)) ∧
  (is_Some (DeletionTimestamp (Claim_Meta nc)) ↔ terminating i).
Proof.
  intros Hnc. unfold instanceToNodeClaim in Hnc.
  apply bind_Ok in Hnc as (labels & Hlabels & Hnc). apply bind_Ok in Hnc as (annotations & Hann & Hnc).
  destruct (Inst_SourceDetails i) as [image|]; res_inv. simpl.
  destruct own_labels_distinct as (Hzc & Hzp & Hcp).
  pose proof (λ k, copy_tag_lookup _ _ _ _ k Hlabels) as Hl. pose proof (λ k, copy_tag_lookup _ _ _ _ k Hann) as Ha.
  split_and!; try congruence.
  - rewrite Hl, bool_decide_eq_false_2, lookup_insert_ne, lookup_insert_eq by done. done.
  - rewrite Hl, bool_decide_eq_false_2, lookup_insert_eq by done. done.
  - intros v Hv. by rewrite Hl, bool_decide_eq_true_2, Hv.
  - intros k Hk. unfold own_labels in Hk. rewrite !not_elem_of_cons in Hk. destruct Hk as (? & ? & ? & _).
    rewrite Hl, bool_decide_eq_false_2, !lookup_insert_ne by done. by destruct it.
  - intros v <-. unfold claim_annotation. simpl. rewrite Ha, bool_decide_eq_true_2 by done.
    destruct (Instance.karpenter_tag opts i ManagedByAnnotationKey) as [[v|]|]; [done|..]; by rewrite lookup_empty.
  - unfold terminating. case_bool_decide; simpl; split; intros Ht; (done || by destruct Ht || by eexists).
Qed.
End ClaimProperties.

(** ** Properties: creating and listing *)

Section CreateProperties.
Context {Rq Rqs Q W TC SC UC : Type} `{Scheduling Rq Rqs} `{Quantities Q} `{OfferingLib Rqs Q}
  `{CloudLib Rq Rqs Q} {conds : ConditionLib} {errlib : ErrorLib}
  `{ComputeClient W} `{VirtualNetworkClient W} `{KubeClient Q W} `{Clock W} {order : MapOrder} {shuffler : Instance.Shuffler}
  `{shapeCache : TTLCache (gmap string WrapShape) TC} `{subnetCache : TTLCache (list Subnet) SC} `{TTLCache unit UC}.
Variable opts : Options.
Variable sdk : Instance.EnumMappings.
Variable is_ipv6 : string → bool.
Variable subnet_hash : list SubnetSelectorTerm → res Z.
Variable class_hash : OciNodeClassSpec → res Z.
Variable taint_ToString : Bootstrap.Taint → string.
Variable quote_other : string → string.
Variable url_Hostname : string → option string.
Variable random_boundary : string.
Variable read_parts : string → res (list Bootstrap.Part).
Variable templates : TemplateProvider.
Variable Price : WrapShape → res f32.
Variable ParseFloat_other : string → option f64.
Variable region : string.
Variable fuel : nat.

Notation State := (State W TC SC UC).
Notation create := (Create opts sdk is_ipv6 subnet_hash class_hash taint_ToString quote_other url_Hostname
  random_boundary read_parts templates Price ParseFloat_other region fuel).
Notation launched := (create_instance opts sdk is_ipv6 subnet_hash taint_ToString quote_other url_Hostname
  random_boundary read_parts templates).
Notation suitable := (resolveInstanceTypes opts Price ParseFloat_other region fuel).
Notation list_claims := (List opts Price ParseFloat_other region fuel).

(** The resources a claim gets from its instance type. *)
Definition claim_resources (nc : NodeClaim Q) (it : option (InstanceType Rqs Q)) : Prop :=
  match it with
  | Some it => Claim_Capacity nc = FilterMap (IT_Capacity it) resourceFilter ∧
               Claim_Allocatable nc = FilterMap (Allocatable it) resourceFilter
  | None => Claim_Capacity nc = ∅ ∧ Claim_Allocatable nc = ∅
  end.

Lemma instanceToNodeClaim_resources t i it (nc : NodeClaim Q) :
  instanceToNodeClaim opts t i it = Ok nc →
  claim_resources nc it ∧ Inst_Id i = Some (Claim_ProviderID nc).
Proof.
  unfold instanceToNodeClaim. intros Hnc.
  apply bind_Ok in Hnc as (labels & _ & Hnc). apply bind_Ok in Hnc as (annotations & _ & Hnc).
  res_inv. simpl. by destruct it.
Qed.

Lemma launch_claim_Ok claim class its (s s' : State) nc :
  launch_claim opts sdk is_ipv6 subnet_hash class_hash taint_ToString quote_other url_Hostname
    random_boundary read_parts templates claim class its s = (Ok nc, s') →
  ∃ i it h, launched class claim its s = (Ok i, s') ∧ find_by_shape (Inst_Shape i) its = Ok it ∧
    claim_resources nc it ∧ Inst_Id i = Some (Claim_ProviderID nc) ∧
    Hash class_hash class = Ok h ∧ claim_annotation nc AnnotationOciNodeClassHash = h.
Proof.
  unfold launch_claim. intros (i & s1 & Hi & Hc)%run_bind_Ok.
  apply run_bind_Ok in Hc as (it & s2 & (Hit & ->)%lift_Ok & Hc).
  apply run_bind_Ok in Hc as (t & s3 & Ht & Hc). unfold now, get_state in Ht. run_inv.
  repeat match goal with Hx : lift _ _ = (Ok _, _) |- _ => apply lift_Ok in Hx as [? ->] end.
  match goal with Hx : instanceToNodeClaim _ _ _ _ = Ok _ |- _ => apply instanceToNodeClaim_resources in Hx as [Hr Hid] end.
  match goal with Hx : hash_annotations _ _ = Ok _ |- _ => unfold hash_annotations in Hx end. res_inv.
  eexists i, it, _. split_and!; [done|done| |done|done|].
  - by destruct it.
  - unfold claim_annotation. simpl. by rewrite lookup_insert_eq.
Qed.

(** When Create of the cloud provider returns a claim, the class of the claim was resolved
    and ready, every instance type it offered to the launch is compatible with the claim, has an
    available offering and room for the requests, and the claim returned has the id of the
    launched instance, the hash of the class, and the resources of the first offered type with
    the name of the shape. *)
Theorem Create_spec (claim nc : NodeClaim Q) (s s' : State) :
  create claim s = (Ok nc, s') →
  ∃ class w1 its s1 i h,
    resolveNodeClassFromNodeClaim claim (cp_world s) = (Ok class, w1) ∧
    (cond_Ready (Status_Conditions (Status class))).1 = CondTrue ∧
    suitable claim class (set_cp_world w1 s) = (Ok its, s1) ∧
    (∀ it, it ∈ its → suits claim it = true) ∧
    launched class claim its s1 = (Ok i, s') ∧ Inst_Id i = Some (Claim_ProviderID nc) ∧
    Hash class_hash class = Ok h ∧ claim_annotation nc AnnotationOciNodeClassHash = h ∧
    (∀ name, Inst_Shape i = Some name → claim_resources nc (find_by_name name its)).
Proof.
  unfold Create. intros (r & s0 & Hr%attempt_Ok & Hc)%run_bind_Ok.
  destruct r as [e|class]; [by apply run_bind_Ok in Hc as (? & ? & _ & ?)|].
  destruct (cond_Ready _) as [[] msg] eqn:Hready; [|done|done].
  apply run_bind_Ok in Hc as (its & s1 & Hits%map_err_Ok & Hc).
  unfold on_world, zoom in Hr. destruct (resolveNodeClassFromNodeClaim claim (cp_world s)) as [r w1] eqn:Hres.
  injection Hr as -> <-. destruct its as [|it its]; [done|].
  apply launch_claim_Ok in Hc as (i & oit & h & Hi & Hoit & Hres' & Hid & Hh & Ha).
  exists class, w1, (it :: its), s1, i, h. split_and!; try done.
  - by rewrite Hready.
  - intros x Hx. unfold resolveInstanceTypes in Hits.
    apply run_bind_Ok in Hits as (all & s2 & _ & Hf). injection Hf as Hf _. rewrite <- Hf in Hx.
    by apply list_elem_of_In, List.filter_In in Hx as [_ ?].
  - intros name Hname. unfold find_by_shape in Hoit. rewrite Hname in Hoit. by injection Hoit as <-.
Qed.

(** When several sizes of a flexible shape are offered under one name, the claim of the new
    instance has the capacity of the first of them, whichever size was launched. *)
Theorem Create_first_size (claim nc : NodeClaim Q) (s s1 s' : State) (class : OciNodeClass)
    (first chosen : InstanceType Rqs Q) (rest : list (InstanceType Rqs Q)) (i : Instance) :
  chosen ∈ first :: rest → IT_Name chosen = IT_Name first →
  launched class claim (first :: rest) s = (Ok i, s1) → Inst_Shape i = Some (IT_Name chosen) →
  launch_claim opts sdk is_ipv6 subnet_hash class_hash taint_ToString quote_other url_Hostname
    random_boundary read_parts templates claim class (first :: rest) s = (Ok nc, s') →
  Claim_Capacity nc = FilterMap (IT_Capacity first) resourceFilter ∧
  Claim_Allocatable nc = FilterMap (Allocatable first) resourceFilter.
Proof.
  intros _ Hn Hl Hshape Hc. apply launch_claim_Ok in Hc as (i' & it & h & Hi & Hit & Hres & _).
  assert (i' = i) as -> by congruence. unfold find_by_shape in Hit. rewrite Hshape, Hn in Hit.
  cbn [deref mbind res_bind find_by_name List.find] in Hit. rewrite String.eqb_refl in Hit.
  injection Hit as <-. exact Hres.
Qed.

(** The claims are those of the listed instances, in order. *)
Lemma List_claims (s s' : State) (claims : list (NodeClaim Q)) :
  list_claims s = (Ok claims, s') →
  ∃ instances w1, Instance.List opts fuel (cp_world s) = (Ok instances, w1) ∧
    Forall2 (λ i nc, ∃ t it, instanceToNodeClaim opts t i it = Ok nc) instances claims.
Proof.
  set (of_instance := λ (i : Instance) (nc : NodeClaim Q), ∃ t it, instanceToNodeClaim opts t i it = Ok nc).
  unfold List. intros (instances & s1 & Hl%map_err_Ok & Hc)%run_bind_Ok.
  unfold on_world, zoom in Hl. destruct (Instance.List opts fuel (cp_world s)) as [r w1].
  injection Hl as -> <-. exists instances, w1. split; [done|].
  assert (∀ acc s0 l past, Forall2 of_instance past acc →
    for_each (λ nodeClaims i, nc ← claim_of_instance (order := during i) opts Price ParseFloat_other region fuel i;
      mret (nodeClaims ++ [nc])%list) l acc s0 = (Ok claims, s') →
    Forall2 of_instance (past ++ l) claims) as Hall.
  { intros acc s0 l. revert acc s0. induction l as [|i l IH]; intros acc s0 past Hpast Hf.
    - injection Hf as <- _. by rewrite app_nil_r.
    - apply run_bind_Ok in Hf as (acc' & s2 & Hb & Hf). apply run_bind_Ok in Hb as (nc & s3 & Hnc & Hb).
      injection Hb as <- <-. rewrite cons_middle, app_assoc. eapply IH; [|exact Hf].
      apply Forall2_app; [done|]. constructor; [|constructor].
      unfold claim_of_instance in Hnc. apply run_bind_Ok in Hnc as (it & s4 & _ & Hnc).
      apply run_bind_Ok in Hnc as (t & s5 & _ & (Hnc & _)%lift_Ok). by exists t, it. }
  by apply (Hall [] (set_cp_world w1 s) instances []).
Qed.
End CreateProperties.

(** ** Properties: drift *)

Lemma subnet_drift_spec known subnets ids :
  map Subnet_Id subnets = map Some ids →
  subnet_drift known subnets = Ok (if forallb (λ id, bool_decide (id ∈ known)) ids then "" else SubnetDrift).
Proof.
  revert ids; induction subnets as [|sub rest IH]; intros [|id ids]; try done. simpl.
  intros [= Hid Hrest]. rewrite Hid. simpl. destruct (bool_decide (id ∈ known)); simpl; [by apply IH|done].
Qed.

Lemma map_res_deref {A B} (f : A → option B) l ids :
  map f l = map Some ids → map_res (λ x, deref (f x)) l = Ok ids.
Proof.
  revert ids; induction l as [|x l IH]; intros [|id ids]; try done. simpl. intros [= Hx Hl].
  rewrite Hx. simpl. by rewrite (IH ids).
Qed.

Lemma map_deref_Ok {A B} (f : A → option B) l ids :
  map_res (λ x, deref (f x)) l = Ok ids → map f l = map Some ids.
Proof.
  intros Hall%map_res_Ok. induction Hall as [|x id l ids Hid%deref_Ok _ IH]; [done|]. simpl. by rewrite Hid, IH.
Qed.

(** C25: isSubnetDrifted reports drift exactly when some subnet of the node is not in the
    status, areSecurityGroupsDrifted exactly when the two sets of groups differ, and both fail
    exactly when the status is empty. *)
Theorem drift_comparisons (nodeClass : OciNodeClass) (subnets : list Subnet) (sgs : list NetworkSecurityGroup)
    (subnet_ids sg_ids : list string) :
  map Subnet_Id subnets = map Some subnet_ids → map NSG_Id sgs = map Some sg_ids →
  let known_subnets := map SS_Id (Status_Subnets (Status nodeClass)) in
  let known_sgs := map SSG_Id (Status_SecurityGroups (Status nodeClass)) in
  match isSubnetDrifted subnets nodeClass with
  | Ok reason => known_subnets ≠ [] ∧ (reason = "" ∧ (∀ id, id ∈ subnet_ids → id ∈ known_subnets) ∨
                   reason = SubnetDrift ∧ ∃ id, id ∈ subnet_ids ∧ id ∉ known_subnets)
  | Err _ => known_subnets = []
  | Panic _ => False
  end ∧
  match areSecurityGroupsDrifted sgs nodeClass with
  | Ok reason => known_sgs ≠ [] ∧ (reason = "" ∧ (∀ id, id ∈ sg_ids ↔ id ∈ known_sgs) ∨
                   reason = SecurityGroupDrift ∧ ¬ (∀ id, id ∈ sg_ids ↔ id ∈ known_sgs))
  | Err _ => known_sgs = []
  | Panic _ => False
  end.
Proof.
  intros Hsub Hsg known_subnets known_sgs. split.
  - unfold isSubnetDrifted. subst known_subnets.
    destruct (Status_Subnets (Status nodeClass)) as [|k ks]; [done|].
    rewrite (subnet_drift_spec _ _ _ Hsub). split; [done|].
    destruct (forallb _ subnet_ids) eqn:Hf.
    + left. split; [done|]. intros id Hid. rewrite forallb_forall in Hf.
      apply list_elem_of_In in Hid. by apply Hf, bool_decide_eq_true in Hid.
    + right. split; [done|]. apply not_true_iff_false in Hf. rewrite forallb_forall in Hf.
      destruct (decide (Exists (λ id, id ∉ map SS_Id (k :: ks)) subnet_ids)) as [He|He].
      * by apply Exists_exists in He.
      * destruct Hf. intros id Hid%list_elem_of_In. apply bool_decide_eq_true.
        destruct (decide (id ∈ map SS_Id (k :: ks))); [done|]. destruct He. apply Exists_exists. eauto.
  - unfold areSecurityGroupsDrifted. fold known_sgs. rewrite (map_res_deref NSG_Id sgs sg_ids Hsg).
    case_bool_decide as He.
    + destruct known_sgs as [|k ks]; [done|]. exfalso. set_solver.
    + simpl. assert (known_sgs ≠ []) as Hne by (intros Hn; apply He; by rewrite Hn).
      case_bool_decide as Heq; (split; [done|]).
      * left. split; [done|]. set_solver.
      * right. split; [done|]. intros Hall. apply Heq. set_solver.
Qed.

(** A call of a client, and the state after it. *)
Lemma world_call_Ok {W TC SC UC A} (m : run W A) (s s' : State W TC SC UC) a :
  on_world m s = (Ok a, s') → ∃ w, m (cp_world s) = (Ok a, w) ∧ s' = set_cp_world w s.
Proof. unfold on_world, zoom. destruct (m (cp_world s)) as [r w]. intros [= -> <-]. eauto. Qed.

Section DriftProperties.
Context {Rq Rqs Q W TC SC UC : Type} `{Scheduling Rq Rqs} `{Quantities Q} `{OfferingLib Rqs Q}
  {errlib : ErrorLib} `{ComputeClient W} `{VirtualNetworkClient W} `{KubeClient Q W} `{Clock W} {order : MapOrder}
  `{shapeCache : TTLCache (gmap string WrapShape) TC} `{TTLCache unit UC}.
Variable opts : Options.
Variable Price : WrapShape → res f32.
Variable ParseFloat_other : string → option f64.
Variable region : string.
Variable fuel : nat.

Notation State := (State W TC SC UC).
Notation image_drift := (isImageDrifted opts Price ParseFloat_other region fuel).
Notation class_drift := (isNodeClassDrifted opts Price ParseFloat_other region fuel).

(** What the status of the class says of a node: of its image ... *)
Definition image_current (class : OciNodeClass) (it : InstanceType Rqs Q) (image : string) : Prop :=
  ∃ best, List.find (image_fits it) (Status_Images (Status class)) = Some best ∧ SI_Id best = image.
(** ... of its groups, all and no others ... *)
Definition groups_current (class : OciNodeClass) (sgs : list NetworkSecurityGroup) : Prop :=
  ∃ ids, map NSG_Id sgs = map Some ids ∧ ∀ id, id ∈ ids ↔ id ∈ map SSG_Id (Status_SecurityGroups (Status class)).
(** ... and of its subnets. *)
Definition subnets_current (class : OciNodeClass) (subnets : list Subnet) : Prop :=
  ∀ sub, sub ∈ subnets → ∃ id, Subnet_Id sub = Some id ∧ id ∈ map SS_Id (Status_Subnets (Status class)).

Lemma isImageDrifted_Ok claim pool i class (s s' : State) r :
  image_drift claim pool i class s = (Ok r, s') →
  ∃ its (it : InstanceType Rqs Q) image,
    GetInstanceTypes opts Price ParseFloat_other region fuel (Some pool) s = (Ok its, s') ∧
    find_by_name (claim_label claim LabelInstanceTypeStable) its = Some it ∧ Inst_ImageId i = Some image ∧
    (r = "" ∧ image_current class it image ∨ r = ImageDrift ∧ ¬ image_current class it image).
Proof.
  unfold isImageDrifted. intros (its & s1 & Hits%map_err_Ok & Hc)%run_bind_Ok.
  destruct (find_by_name _ its) as [it|] eqn:Hit; [|done]. unfold image_current.
  destruct (Status_Images (Status class)) as [|img imgs]; [done|].
  apply run_bind_Ok in Hc as (image & s2 & (Himg%deref_Ok & ->)%lift_Ok & Hr). injection Hr as <- <-.
  exists its, it, image. split_and!; [done..|]. rewrite MapToInstanceTypes_first.
  destruct (List.find (image_fits it) (img :: imgs)) as [best|]; [|rewrite lookup_empty; right; split; [done|]; by intros (best & ? & _)].
  destruct (String.eqb_spec (SI_Id best) image) as [Heq|Hne].
  - rewrite Heq, lookup_singleton_eq. left. split; [done|]. by exists best.
  - rewrite lookup_singleton_ne by done. right. split; [done|]. intros (best0 & [= <-] & Hid). by apply Hne.
Qed.

Lemma areSecurityGroupsDrifted_Ok sgs class r :
  areSecurityGroupsDrifted sgs class = Ok r →
  r = "" ∧ groups_current class sgs ∨ r = SecurityGroupDrift ∧ ¬ groups_current class sgs.
Proof.
  unfold areSecurityGroupsDrifted, groups_current. case_bool_decide; [done|]. intros Hr. res_inv.
  match goal with H : map_res _ _ = Ok ?ids |- _ => apply map_deref_Ok in H as Heq; rename ids into sg_ids end.
  case_bool_decide as Hset; res_inv; [left|right]; (split; [done|]).
  - exists sg_ids. split; [done|]. set_solver.
  - intros (ids & Hids' & Hall). apply Hset. rewrite Heq in Hids'. apply (inj (fmap Some)) in Hids' as <-. set_solver.
Qed.

Lemma isSubnetDrifted_Ok subnets class r :
  isSubnetDrifted subnets class = Ok r →
  r = "" ∧ subnets_current class subnets ∨ r = SubnetDrift ∧ ¬ subnets_current class subnets.
Proof.
  unfold isSubnetDrifted, subnets_current. destruct (Status_Subnets (Status class)) as [|k ks]; [done|].
  induction subnets as [|sub subs IH]; simpl.
  - intros [= <-]. left. split; [done|]. intros sub Hsub. by apply elem_of_nil in Hsub.
  - intros Hr. apply bind_Ok in Hr as (id & Hid%deref_Ok & Hr). case_bool_decide as Hin.
    + destruct (IH Hr) as [[-> Hall]|[-> Hnot]]; [left|right]; (split; [done|]).
      * intros sub' [->|Hsub]%elem_of_cons; [eauto|by apply Hall].
      * intros Hall. apply Hnot. intros sub' Hsub. apply Hall. by right.
    + injection Hr as <-. right. split; [done|]. intros Hall. destruct (Hall sub) as (id' & Hid' & Hin'); [by left|].
      congruence.
Qed.

(** C24: A drift check that returns has looked, in this order, at the instance of the claim's
    provider id, the instance types of the pool, for the one with the name in the claim's label,
    the attachments of that instance, and the groups and subnets of its primary one. It reports
    ImageDrift when the image of the instance is not the first image of the class that fits the
    type; otherwise SecurityGroupDrift when the groups are not those of the status; otherwise
    SubnetDrift when a subnet is not in the status; and otherwise nothing. NodeClassDrift is
    never reported. *)
Theorem isNodeClassDrifted_spec (claim : NodeClaim Q) (pool : NodePool) (class : OciNodeClass)
    (s s' : State) (reason : string) :
  class_drift claim pool class s = (Ok reason, s') →
  ∃ i w1 its s2 (it : InstanceType Rqs Q) image vnics w3 sgs w4 subnets w5,
    Instance.Get (Claim_ProviderID claim) (cp_world s) = (Ok i, w1) ∧
    GetInstanceTypes opts Price ParseFloat_other region fuel (Some pool) (set_cp_world w1 s) = (Ok its, s2) ∧
    find_by_name (claim_label claim LabelInstanceTypeStable) its = Some it ∧ Inst_ImageId i = Some image ∧
    Instance.GetVnicAttachments opts i (cp_world s2) = (Ok vnics, w3) ∧
    Instance.GetSecurityGroups vnics true w3 = (Ok sgs, w4) ∧
    Instance.GetSubnets vnics true w4 = (Ok subnets, w5) ∧ s' = set_cp_world w5 s2 ∧
    (reason = ImageDrift ∧ ¬ image_current class it image ∨
     image_current class it image ∧
       (reason = SecurityGroupDrift ∧ ¬ groups_current class sgs ∨
        groups_current class sgs ∧
          (reason = SubnetDrift ∧ ¬ subnets_current class subnets ∨
           subnets_current class subnets ∧ reason = ""))) ∧
    reason ≠ NodeClassDrift.
Proof.
  unfold isNodeClassDrifted. intros Hd.
  apply run_bind_Ok in Hd as (i & s1 & (w1 & Hi & ->)%world_call_Ok & Hd).
  apply run_bind_Ok in Hd as (ri & s2 & Hri%map_err_Ok & Hd).
  apply run_bind_Ok in Hd as (vnics & s3 & (w3 & Hv & ->)%map_err_Ok%world_call_Ok & Hd).
  apply run_bind_Ok in Hd as (sgs & s4 & (w4 & Hsg & ->)%map_err_Ok%world_call_Ok & Hd).
  apply run_bind_Ok in Hd as (rg & s5 & (Hrg & ->)%map_err_Ok%lift_Ok & Hd).
  apply run_bind_Ok in Hd as (subnets & s6 & (w5 & Hsub & ->)%map_err_Ok%world_call_Ok & Hd).
  apply run_bind_Ok in Hd as (rs & s7 & (Hrs & ->)%map_err_Ok%lift_Ok & Hd). injection Hd as <- <-.
  apply isImageDrifted_Ok in Hri as (its & it & image & Hits & Hit & Himg & Hri).
  apply areSecurityGroupsDrifted_Ok in Hrg. apply isSubnetDrifted_Ok in Hrs.
  exists i, w1, its, s2, it, image, vnics, w3, sgs, w4, subnets, w5. do 8 (split; [done|]).
  destruct Hri as [[-> ?]|[-> ?]], Hrg as [[-> ?]|[-> ?]], Hrs as [[-> ?]|[-> ?]];
    (split; [unfold first_reason; simpl; tauto|by vm_compute]).
Qed.
End DriftProperties.
