(* ===== verification/Capacity.v ===== *)
(** * Running out of capacity, across the components

    A launch that the cloud refuses for lack of capacity marks an offering
    ([Instance.launch]); the listing of instance types reads the marks
    ([InstanceType.create_offering]); the choice of a type reads the listing
    ([Instance.pickBestInstanceType]).  In between, other launches and the
    janitor of the cache work on the shared table: [goes_on]. *)

From stdpp Require Import base list strings gmap.
From Stdlib Require Import ZArith Lia.
From S2P Require Import Prelude GoStrings GoFloat OciModel Api Options Cache.
From S2P Require Import UnavailableOfferings Sched Paging KubeModel ImageFamily.
From S2P Require Subnet Bootstrap InstanceType Instance CloudProvider.

Local Open Scope string_scope.

(** ** The table between a mark and a listing *)

Section Marks.
Context {UC : Type} `{TTLCacheLaws unit UC}.

(** From one instant to a later one, by marks and passes of the janitor. *)
Inductive goes_on : Z → UnavailableOfferings UC → Z → UnavailableOfferings UC → Prop :=
| goes_stay t u t' : (t <= t')%Z → goes_on t u t' u
| goes_mark t now it z ct u t' u' :
    (t <= now)%Z → goes_on now (MarkUnavailable now it z ct u) t' u' → goes_on t u t' u'
| goes_clean t now u t' u' :
    (t <= now)%Z → goes_on now (cleanup now u) t' u' → goes_on t u t' u'.

Lemma goes_on_later t u t' u' : goes_on t u t' u' → (t <= t')%Z.
Proof. induction 1; lia. Qed.

Lemma goes_on_trans t u t1 u1 t2 u2 : goes_on t u t1 u1 → goes_on t1 u1 t2 u2 → goes_on t u t2 u2.
Proof.
  intros Hgo. revert t2 u2. induction Hgo as [t u t' Ht|t now it z ct u t' u' Ht _ IH|t now u t' u' Ht _ IH];
    intros t2 u2 Hgo2.
  - destruct Hgo2 as [t1 u t2 ?|t1 now it z ct u t2 u2 ? ?|t1 now u t2 u2 ? ?].
    + constructor; lia.
    + by apply (goes_mark _ now it z ct); [lia|].
    + by apply (goes_clean _ now); [lia|].
  - by apply (goes_mark _ now it z ct), IH.
  - by apply (goes_clean _ now), IH.
Qed.

(** A mark lasts as long as its time to live. *)
Lemma marked_stays t u t' u' it z ct limit :
  goes_on t u t' u' → (limit <= t + cache_ttl (cache u))%Z →
  (∀ now, (t <= now <= limit)%Z → IsUnavailable now it z ct u = true) →
  ∀ now, (t' <= now <= limit)%Z → IsUnavailable now it z ct u' = true.
Proof.
  intros Hgo. induction Hgo as [t u t' Ht|t t1 it1 z1 ct1 u t' u' Ht Hgo IH|t t1 u t' u' Ht Hgo IH];
    intros Hlim Hu; [intros now ?; apply Hu; lia|..]; apply IH.
  - simpl. rewrite ttl_Set. lia.
  - intros now Hnow. unfold IsUnavailable; simpl.
    destruct (decide (key it1 z1 ct1 = key it z ct)) as [->|Hne].
    + rewrite Get_Set_eq. by replace (now <=? _)%Z with true by lia.
    + rewrite Get_Set_ne by done. apply Hu. lia.
  - rewrite cache_of_cleanup, ttl_DeleteExpired. lia.
  - intros now Hnow. unfold IsUnavailable. rewrite cache_of_cleanup, Get_DeleteExpired by lia. apply Hu. lia.
Qed.
End Marks.

(** ** What a listing says of the marks *)

Section Listing.
Context {Rq Rqs Q W C UC : Type} `{SchedulingLaws Rq Rqs} `{Quantities Q} `{OfferingLib Rqs Q}
  `{ComputeClient W} `{Clock W} {order : MapOrder}
  `{TTLCache (gmap string WrapShape) C} `{TTLCache unit UC}.
Variable opts : Options.
Variable Price : WrapShape → res f32.

Notation State := (@InstanceType.State W C UC).

(** Listing shapes does not touch the table of offerings. *)
Lemma domains_offerings fuel ds m (s s' : State) m' :
  for_each (InstanceType.collect_domain opts fuel) ds m s = (Ok m', s') →
  InstanceType.it_offerings s' = InstanceType.it_offerings s.
Proof.
  apply (for_each_inv _ (λ _ s1, InstanceType.it_offerings s1 = InstanceType.it_offerings s)); [done|].
  intros d b s1 b' s2 _ <- Hc. unfold InstanceType.collect_domain in Hc. run_inv.
  unfold InstanceType.on_world, zoom, lift in *. destruct (InstanceType.list_shapes _ _ _ _). by simplify_eq/=.
Qed.

Lemma ListInstanceType_offerings fuel (s s' : State) m :
  InstanceType.ListInstanceType opts fuel s = (Ok m, s') →
  InstanceType.it_offerings s' = InstanceType.it_offerings s.
Proof.
  unfold InstanceType.ListInstanceType. intros Hl. run_inv. unfold get_state in *. simplify_eq.
  destruct (cache_Get _ _ _); [by run_inv|]. unfold InstanceType.refresh in *. run_inv.
  match goal with Hf : for_each _ _ _ _ = _ |- _ => apply domains_offerings in Hf as <- end.
  unfold lift, get_state, put_state in *. by simplify_eq/=.
Qed.

(** The offering of a zone and a capacity type, at any price. *)
Lemma create_offering_marks now (uo : UnavailableOfferings UC) shape name zone ct (o : Offering Rqs) :
  Shape_Shape (wShape shape) = Some name →
  InstanceType.create_offering opts Price now uo shape zone ct = Ok o →
  Reqs_Get (Of_Requirements o) LabelTopologyZone = NewRequirement LabelTopologyZone OpIn [zone] ∧
  Reqs_Get (Of_Requirements o) CapacityTypeLabelKey = NewRequirement CapacityTypeLabelKey OpIn [ct] ∧
  (Of_Available o = true → IsUnavailable now name zone ct uo = false ∧
     (ct = CapacityTypePreemptible → InstanceType.supportPreemptible opts name = true)).
Proof.
  unfold InstanceType.create_offering. intros Hname Ho. rewrite Hname in Ho. cbn [deref mbind res_bind] in Ho.
  apply bind_Ok in Ho as (p & _ & Ho). unfold InstanceType.make_offering in Ho.
  set (cond := String.eqb ct CapacityTypePreemptible) in Ho.
  destruct (if cond then _ else _) as [price unavailable] eqn:Hp. injection Ho as <-.
  cbn [Of_Requirements Of_Available]. split_and!.
  - InstanceType.get_label InstanceType.offering_Get. done.
  - InstanceType.get_label InstanceType.offering_Get. done.
  - unfold cond in Hp. destruct (String.eqb_spec ct CapacityTypePreemptible) as [->|Hne];
      destruct (InstanceType.supportPreemptible opts name); simplify_eq; rewrite negb_true_iff; naive_solver.
Qed.

Variable ParseFloat_other : string → option f64.
Variable region : string.

(** Where the types of a listing come from. *)
Lemma List_offerings fuel nodeClass (s s' : State) (its : list (InstanceType Rqs Q)) it o :
  InstanceType.List opts Price ParseFloat_other region fuel nodeClass s = (Ok its, s') →
  it ∈ its → o ∈ IT_Offerings it →
  ∃ shape zone ct, Shape_Shape (wShape shape) = Some (IT_Name it) ∧
    ct ∈ InstanceType.supportInstanceTypes ∧
    InstanceType.create_offering opts Price (clock_now (InstanceType.it_world s')) (InstanceType.it_offerings s)
      shape zone ct = Ok o.
Proof.
  unfold InstanceType.List. intros Hl Hit Ho. run_inv. unfold get_state in *. simplify_eq.
  match goal with Hm : InstanceType.ListInstanceType _ _ _ = _ |- _ => apply ListInstanceType_offerings in Hm as <- end.
  match goal with Hm : lift _ _ = _ |- _ => apply lift_Ok in Hm as [Hm ->]; apply map_res_Ok in Hm; rename Hm into Hall end.
  apply list_elem_of_lookup in Hit as [i Hi].
  destruct (Forall2_lookup_r _ _ _ _ _ Hall Hi) as ([k shape] & _ & Hn). apply bind_Ok in Hn as (os & Hos & Hn).
  assert (Shape_Shape (wShape shape) = Some (IT_Name it) ∧ IT_Offerings it = os) as [Hname <-].
  { unfold InstanceType.NewInstanceType in Hn. by res_inv. }
  apply map_res_Ok in Hos. apply list_elem_of_lookup in Ho as [j Hj].
  destruct (Forall2_lookup_r _ _ _ _ _ Hos Hj) as ([zone ct] & Hp & Hc).
  exists shape, zone, ct. split_and!; [done| |done].
  apply list_elem_of_lookup_2, list_elem_of_In, in_prod_iff in Hp as [_ Hct]. by apply list_elem_of_In.
Qed.
End Listing.

(** ** The next listing after a launch without capacity *)

Section Avoided.
Context {Rq Rqs Q W TC SC UC : Type} `{sched : Scheduling Rq Rqs} {slaws : SchedulingLaws Rq Rqs} `{Quantities Q}
  `{lib : OfferingLib Rqs Q} {olaws : OfferingLibLaws Rq Rqs Q}
  `{ComputeClient W} `{VirtualNetworkClient W} `{Clock W} {order : MapOrder} {shuffler : Instance.Shuffler}
  `{shapeCache : TTLCache (gmap string WrapShape) TC} `{subnetCache : TTLCache (list Subnet) SC}
  `{TTLCacheLaws unit UC}.
Variable opts : Options.
Variable Price : WrapShape → res f32.
Variable ParseFloat_other : string → option f64.
Variable region : string.
Variable fuel : nat.

(** The mark of a launch without capacity. *)
Lemma launch_marks (req : LaunchInstanceDetails) (zone msg : string) (e : gerror) (t : Instance.State W SC UC) (w' : W) :
  client_LaunchInstance req (Instance.ip_world t) = (Err e, w') → Instance.out_of_capacity e = Some msg →
  Instance.launch req zone t =
    (Err (EInsufficientCapacity (EText ("InsufficientCapacityError: " +:+ msg))),
     Instance.set_ip_offerings (MarkUnavailable (clock_now w') (Launch_Shape req) zone CapacityTypeOnDemand
       (Instance.ip_offerings t)) (Instance.set_ip_world w' t)).
Proof.
  intros Hl He. unfold Instance.launch.
  rewrite (run_bind_step _ _ _ (inl e) (Instance.set_ip_world w' t))
    by (unfold attempt, Instance.on_world, zoom; by rewrite Hl).
  by rewrite He.
Qed.

(** The choice of a type is one of its available offerings. *)
Lemma pick_offering (claim : NodeClaim Q) (its : list (InstanceType Rqs Q)) it zone :
  Instance.pickBestInstanceType claim its = (Some it, zone) →
  it ∈ its ∧ ∃ o, o ∈ IT_Offerings it ∧ Of_Available o = true ∧ Instance.offering_zone o = zone.
Proof.
  unfold Instance.pickBestInstanceType. intros Hp.
  pose proof (OrderByPrice_perm (Rq := Rq) (Instance.claim_reqs claim) its) as Hperm.
  unfold Instance.claim_reqs in *.
  destruct (OrderByPrice _ its) as [|it' rest]; [done|].
  match type of Hp with context [Instance.Shuffle ?l] => pose proof (Instance.Shuffle_perm l) as Hs end.
  destruct (Instance.Shuffle _) as [|z zones]; simplify_eq.
  split; [rewrite <- Hperm; by left|].
  assert (zone ∈ zone :: zones) as Hz by by left. rewrite Hs in Hz.
  apply list_elem_of_In, in_map_iff in Hz as (o & <- & Ho). apply filter_In in Ho as [Ho _].
  rewrite Available_spec in Ho. apply filter_In in Ho as [Ho Ha]. exists o. by rewrite list_elem_of_In.
Qed.

Notation State := (CloudProvider.State W TC SC UC).
Notation list_types := (CloudProvider.list_instance_types opts Price ParseFloat_other region fuel).

(** What a listing leaves of a marked offering. *)
Lemma listing_avoids (nodeClass : OciNodeClass) (s s' : State) (its : list (InstanceType Rqs Q)) name zone :
  list_types nodeClass s = (Ok its, s') →
  IsUnavailable (clock_now (CloudProvider.cp_world s')) name zone CapacityTypeOnDemand (CloudProvider.cp_offerings s) = true →
  ∀ it o, it ∈ its → IT_Name it = name → o ∈ IT_Offerings it → Instance.offering_zone o = zone → Of_Available o = true →
    InstanceType.only (Reqs_Get (Of_Requirements o) CapacityTypeLabelKey) CapacityTypePreemptible ∧
    InstanceType.supportPreemptible opts name = true.
Proof.
  intros Hlist Hmark it o Hit Hname Ho Hz Ha. unfold CloudProvider.list_instance_types, zoom in Hlist.
  destruct (InstanceType.List _ _ _ _ _ _ _) as [r1 s1] eqn:Hrun. injection Hlist as -> <-.
  destruct (List_offerings _ _ _ _ _ _ _ _ _ _ _ Hrun Hit Ho) as (shape & z & ct & Hshape & Hct & Hc).
  rewrite Hname in Hshape. edestruct create_offering_marks as (Hzone & Hcap & Hav); [exact Hshape|exact Hc|].
  destruct (Hav Ha) as [Hun Hpre]. unfold Instance.offering_zone in Hz.
  rewrite Hzone, InstanceType.Any_single in Hz. subst z. rewrite Hcap. unfold InstanceType.supportInstanceTypes in Hct.
  rewrite !elem_of_cons, elem_of_nil in Hct. destruct Hct as [->|[->|[]]].
  - simpl in Hun, Hmark. by rewrite Hmark in Hun.
  - split; [apply InstanceType.In_only|by apply Hpre].
Qed.

(** C7: After a launch that the cloud refuses for lack of capacity, and for the TTL of the table
    of unavailable offerings (three minutes as NewUnavailableOfferings makes it), whatever else
    is marked or cleaned up meanwhile, the listed instance types of that shape offer nothing on
    demand in that zone: what is left there is preemptible, and when the shape has no
    preemptible offerings the pair of shape and zone is not chosen for any claim. *)
Theorem capacity_error_avoided (req : LaunchInstanceDetails) (zone msg : string) (e : gerror)
    (t t' : Instance.State W SC UC) (w' : W) (r : res OciModel.Instance)
    (later : Z) (nodeClass : OciNodeClass) (s s' : State) (its : list (InstanceType Rqs Q)) :
  client_LaunchInstance req (Instance.ip_world t) = (Err e, w') → Instance.out_of_capacity e = Some msg →
  Instance.launch req zone t = (r, t') →
  goes_on (clock_now w') (Instance.ip_offerings t') later (CloudProvider.cp_offerings s) →
  list_types nodeClass s = (Ok its, s') →
  (later <= clock_now (CloudProvider.cp_world s') <= clock_now w' + cache_ttl (cache (Instance.ip_offerings t)))%Z →
  (∀ it o, it ∈ its → IT_Name it = Launch_Shape req → o ∈ IT_Offerings it →
     Instance.offering_zone o = zone → Of_Available o = true →
     InstanceType.only (Reqs_Get (Of_Requirements o) CapacityTypeLabelKey) CapacityTypePreemptible ∧
     InstanceType.supportPreemptible opts (Launch_Shape req) = true) ∧
  (InstanceType.supportPreemptible opts (Launch_Shape req) = false →
   ∀ (claim : NodeClaim Q) some it z, (∀ x, x ∈ some → x ∈ its) →
     Instance.pickBestInstanceType claim some = (Some it, z) →
     ¬ (IT_Name it = Launch_Shape req ∧ z = zone)).
Proof.
  intros Hl He Hr Hgo Hlist Hlater.
  assert (∀ now, (later <= now <= clock_now w' + cache_ttl (cache (Instance.ip_offerings t)))%Z →
    IsUnavailable now (Launch_Shape req) zone CapacityTypeOnDemand (CloudProvider.cp_offerings s) = true) as Hmark.
  { apply (marked_stays _ _ _ _ _ _ _ _ Hgo).
    all: rewrite (launch_marks req zone msg e t w' Hl He) in Hr; simplify_eq/=.
    - rewrite ttl_Set. lia.
    - intros now Hnow. unfold IsUnavailable; simpl. rewrite Get_Set_eq. by replace (now <=? _)%Z with true by lia. }
  pose proof (listing_avoids nodeClass s s' its (Launch_Shape req) zone Hlist (Hmark _ Hlater)) as Hleft.
  split; [done|]. intros Hno claim some it z Hsub Hpick [Hname ->].
  destruct (pick_offering _ _ _ _ Hpick) as (Hin & o & Ho & Ha & Hz).
  destruct (Hleft it o) as [_ Hp]; [by apply Hsub|done..|]. congruence.
Qed.
End Avoided.
