(* ===== verification/ClaimLabels.v ===== *)
(** * The labels of a node claim, across the components

    The requirements [InstanceType.NewInstanceType] writes for a shape, read
    back by [CloudProvider.instanceToNodeClaim] as the labels of the claim of
    an instance of that type. *)

From stdpp Require Import base list strings gmap.
From Stdlib Require Import ZArith Lia.
From S2P Require Import Prelude GoStrings GoFloat OciModel Api Options.
From S2P Require Import Sched KubeModel.
From S2P Require InstanceType Instance CloudProvider.

Local Open Scope string_scope.

(** A key of the instance type, not one of the instance. *)
Ltac other_key :=
  rewrite (bool_decide_eq_false_2 (_ = NodePoolLabelKey)) by InstanceType.label;
  rewrite (bool_decide_eq_false_2 (_ = CapacityTypeLabelKey)) by InstanceType.label;
  rewrite (bool_decide_eq_false_2 (_ = LabelTopologyZone)) by InstanceType.label.

(** The comparison of two keys, by evaluation. *)
Ltac closed_keys :=
  repeat match goal with
  | |- context [bool_decide (?a = ?b)] =>
      first [rewrite (bool_decide_eq_true_2 (a = b)) by InstanceType.label
            |rewrite (bool_decide_eq_false_2 (a = b)) by InstanceType.label]
  end; try done.

Section ClaimLabels.
Context {Rq Rqs Q : Type} `{sched : Scheduling Rq Rqs} {slaws : SchedulingLaws Rq Rqs} `{QuantitiesLaws Q}
  `{!OfferingLib Rqs Q} `{lib : CloudLib Rq Rqs Q} {claws : CloudLibLaws Rq Rqs Q}.
Variable ParseFloat_other : string → option f64.
Variable opts : Options.

(** The label a requirement leaves, if any. *)
Definition label_of (r : Rq) : option string := if (Req_Len r =? 1)%Z then head (Req_Values r) else None.

Lemma label_of_In k v : label_of (NewRequirement k OpIn [v]) = Some v.
Proof. unfold label_of. by rewrite Len_In, InstanceType.Values_single. Qed.

Lemma label_of_optional k v : label_of (InstanceType.optional k v) = v.
Proof. destruct v; [apply label_of_In|]. unfold label_of. simpl. by rewrite Len_DoesNotExist. Qed.

Lemma single_labels_elem (rs : list Rq) k r :
  NoDup (map Req_Key rs) → Req_Key r = k → r ∈ rs →
  CloudProvider.single_labels (NewRequirements rs) !! k = label_of r.
Proof.
  intros Hnd <- Hr. unfold CloudProvider.single_labels. by rewrite lookup_omap, map_New.
Qed.

Lemma single_labels_absent (rs : list Rq) k :
  NoDup (map Req_Key rs) → k ∉ map Req_Key rs → CloudProvider.single_labels (NewRequirements rs) !! k = None.
Proof. intros Hnd Hk. unfold CloudProvider.single_labels. by rewrite lookup_omap, map_absent. Qed.

(** The labels of an instance of a shape: one or none per key. *)
Definition label_table (region name : string) (w : WrapShape) (i : Instance) : list (string * option string) :=
  [(LabelInstanceTypeStable, Some name);
   (LabelArchStable, Some (if bool_decide (name ∈ InstanceType.ArmShapes) then "arm64" else "amd64"));
   (LabelOSStable, Some "linux");
   (LabelTopologyRegion, Some region);
   (LabelInstanceShapeName, Some name);
   (LabelInstanceCPU, Some (Itoa (CalcCpu w)));
   (LabelIsFlexible, Some (InstanceType.bool_text (from_ptr false (IsFlexible (wShape w)))));
   (LabelInstanceGPU, InstanceType.gpu_text (wShape w));
   (LabelInstanceGPUDescription, InstanceType.gpu_description_text (wShape w));
   (LabelInstanceMemory, Some (Itoa (wrap64 (CalMemInGBs w * 1024))));
   (LabelInstanceNetworkBandwidth, InstanceType.bandwidth_text w);
   (LabelInstanceMaxVNICs, InstanceType.vnics_text w);
   (LabelTopologyZone, Some (CloudProvider.zone_of (from_ptr "" (Inst_AvailabilityDomain i))));
   (CapacityTypeLabelKey, Some (if Inst_Preemptible i then CapacityTypePreemptible else CapacityTypeOnDemand));
   (NodePoolLabelKey, match Instance.karpenter_tag opts i NodePoolLabelKey with
                      | Some (TagString pool) => Some pool
                      | _ => None
                      end)].

(** The labels of a claim, before the requirements are known. *)
Lemma claim_labels (t : Z) (i : Instance) (it : InstanceType Rqs Q) (nc : NodeClaim Q) k :
  CloudProvider.instanceToNodeClaim opts t i (Some it) = Ok nc →
  Labels (Claim_Meta nc) !! k =
    if bool_decide (k = NodePoolLabelKey) then
      match Instance.karpenter_tag opts i NodePoolLabelKey with
      | Some (TagString pool) => Some pool
      | _ => CloudProvider.single_labels (IT_Requirements it) !! k
      end
    else if bool_decide (k = CapacityTypeLabelKey) then
      Some (if Inst_Preemptible i then CapacityTypePreemptible else CapacityTypeOnDemand)
    else if bool_decide (k = LabelTopologyZone) then
      Some (CloudProvider.zone_of (from_ptr "" (Inst_AvailabilityDomain i)))
    else CloudProvider.single_labels (IT_Requirements it) !! k.
Proof.
  unfold CloudProvider.instanceToNodeClaim. intros Hnc.
  apply bind_Ok in Hnc as (labels & Hl & Hnc). apply bind_Ok in Hnc as (annotations & _ & Hnc).
  assert (Labels (Claim_Meta nc) = labels) as -> by (destruct (Inst_SourceDetails i); by res_inv).
  rewrite (CloudProvider.copy_tag_lookup _ _ _ _ _ k Hl).
  destruct CloudProvider.own_labels_distinct as (Hzc & Hzp & Hcp).
  assert (∀ m : gmap string string, <[CapacityTypeLabelKey := if Inst_Preemptible i then CapacityTypePreemptible else CapacityTypeOnDemand]>
    (<[LabelTopologyZone := CloudProvider.zone_of (from_ptr "" (Inst_AvailabilityDomain i))]> m) !! k =
    if bool_decide (k = CapacityTypeLabelKey) then
      Some (if Inst_Preemptible i then CapacityTypePreemptible else CapacityTypeOnDemand)
    else if bool_decide (k = LabelTopologyZone) then
      Some (CloudProvider.zone_of (from_ptr "" (Inst_AvailabilityDomain i)))
    else m !! k) as Hins.
  { intros m. destruct (bool_decide_reflect (k = CapacityTypeLabelKey)) as [->|]; [by rewrite lookup_insert_eq|].
    rewrite lookup_insert_ne by done.
    destruct (bool_decide_reflect (k = LabelTopologyZone)) as [->|]; [by rewrite lookup_insert_eq|by rewrite lookup_insert_ne]. }
  rewrite Hins. destruct (bool_decide_reflect (k = NodePoolLabelKey)) as [->|]; [|done].
  by rewrite (bool_decide_eq_false_2 (NodePoolLabelKey = CapacityTypeLabelKey)),
    (bool_decide_eq_false_2 (NodePoolLabelKey = LabelTopologyZone)) by congruence.
Qed.

(** C23: The claim of an instance of a listed type has exactly these labels: name, architecture,
    operating system, region, vCPUs, memory in MiB and flexibility of the shape, its GPUs,
    bandwidth and VNICs where it has them, and the zone, the capacity type and the node pool of
    the instance. *)
Theorem claim_labels_spec (region name : string) (w : WrapShape) (nodeClass : OciNodeClass) (zones : list string)
    (offerings : list (Offering Rqs)) (it : InstanceType Rqs Q) (t : Z) (i : Instance) (nc : NodeClaim Q) :
  InstanceType.NewInstanceType ParseFloat_other opts region w nodeClass zones offerings = Ok it →
  Shape_Shape (wShape w) = Some name → in_int64 (from_ptr 0%Z (Gpus (wShape w))) = true →
  CloudProvider.instanceToNodeClaim opts t i (Some it) = Ok nc →
  (∀ k v, (k, v) ∈ label_table region name w i → Labels (Claim_Meta nc) !! k = v) ∧
  (∀ k, k ∉ map fst (label_table region name w i) → Labels (Claim_Meta nc) !! k = None).
Proof.
  intros Hit Hname Hg Hnc. unfold InstanceType.NewInstanceType in Hit.
  rewrite (InstanceType.computeRequirements_labels region name) in Hit by done. rewrite Hname in Hit. res_inv.
  match type of Hnc with context [NewRequirements ?l] => set (L := l) in Hnc end.
  pose proof (λ k, claim_labels t i _ nc k Hnc) as Hl. cbn [IT_Requirements] in Hl.
  assert (NoDup (map Req_Key L)) as Hnd by apply InstanceType.labels_NoDup.
  assert (∀ k r, Req_Key r = k → r ∈ L → CloudProvider.single_labels (NewRequirements L) !! k = label_of r) as Hget
    by (intros; by apply single_labels_elem).
  assert (∀ k, k ∉ InstanceType.final_keys → CloudProvider.single_labels (NewRequirements L) !! k = None) as Hno.
  { intros k Hk. apply single_labels_absent; [done|]. unfold L. by rewrite InstanceType.labels_keys. }
  split.
  - intros k v Hin. rewrite Hl. unfold label_table in Hin.
    repeat (apply elem_of_cons in Hin as [[= -> ->]|Hin]; [|]); [..|by apply elem_of_nil in Hin].
    1-12: other_key; (erewrite Hget; [first [apply label_of_In|apply label_of_optional]|..]);
      [first [apply Key_New; InstanceType.label|apply InstanceType.Key_optional; InstanceType.label]|unfold L; InstanceType.find_in].
    all: closed_keys.
    destruct (Instance.karpenter_tag _ _ _) as [[]|]; [done|..]; apply Hno; InstanceType.label.
  - intros k Hk. cbn [label_table map fst] in Hk. rewrite !not_elem_of_cons in Hk. destruct_and! Hk.
    rewrite Hl, !bool_decide_eq_false_2 by done. apply Hno. unfold InstanceType.final_keys.
    rewrite !not_elem_of_cons. by split_and!; [..|apply not_elem_of_nil].
Qed.
End ClaimLabels.
