(* ===== verification/OciConfig.v ===== *)
(** * [pkg/operator/oci]: credentials, instance metadata, retries

    The configuration file of the API key method ([config/config.go] and
    [config_validate.go]), the metadata service of the host
    ([instance/instance_metadata.go]) and the retry policy of the SDK's clients
    ([sdk/retrypolicy]).  HTTP, files, YAML and JSON are the standard library's
    and other packages': arguments of the definitions. *)

From stdpp Require Import base list strings gmap.
From Stdlib Require Import ZArith Lia.
From S2P Require Import Prelude GoStrings GoFloat Cache.

Local Open Scope string_scope.

(** ** [instance_metadata.go] *)

Definition baseURL : string := "http://169.254.169.254".
Definition metadataEndpoint : string := "/opc/v2/instance/".
Definition defaultHTTPTimeout : Z := 5 * time_Second.
Definition StatusOK : Z := 200.

Record InstanceMetadata := { MD_CompartmentID : string; MD_Region : string; MD_CanonicalRegionName : string }.

(** [http.Request] and [http.Response], what the code sets and reads of them. *)
Record Request := { Req_Method : string; Req_URL : string; Req_Header : list (string * string) }.
Record Response := { Resp_StatusCode : Z; Resp_Body : string }.

(** [http.NewRequest] for a method and a URL; [http.Client.Do], with the
    client's timeout; [json.Decoder.Decode] into an [InstanceMetadata]. *)
Class HttpClient (W : Type) : Type := {
  http_NewRequest : string → string → res Request;
  http_Do : Z → Request → run W (option Response);
  json_Decode : string → res InstanceMetadata
}.

Record metadataGetter := { mg_baseURL : string; mg_timeout : Z }.

Section Metadata.
Context {W : Type} `{HttpClient W}.

Definition Header_Add (k v : string) (r : Request) : Request :=
  {| Req_Method := Req_Method r; Req_URL := Req_URL r; Req_Header := (Req_Header r ++ [(k, v)])%list |}.

Definition executeRequest (m : metadataGetter) (req : Request) : run W InstanceMetadata :=
  let req := Header_Add "Authorization" "Bearer Oracle" req in
  resp ← map_err (EWrap "Failed to get instance metadata with v2 endpoint") (http_Do (mg_timeout m) req);
  match resp with
  | Some resp =>
      if negb (Resp_StatusCode resp =? StatusOK)%Z
      then fail (EText "metadata endpoint v2 returned status; expected 200 OK")
      else map_err (EWrap "decoding instance metadata response") (lift (json_Decode (Resp_Body resp)))
  | None => lift (Panic "nil pointer dereference")
  end.

Definition Get (m : metadataGetter) : run W InstanceMetadata :=
  req ← map_err (EWrap "WithStack") (lift (http_NewRequest "GET" (mg_baseURL m +:+ metadataEndpoint)));
  executeRequest m req.

(** [metadata.New] *)
Definition New : metadataGetter := {| mg_baseURL := baseURL; mg_timeout := defaultHTTPTimeout |}.
End Metadata.

(** ** [config.go] *)

(** The service behind [metadata.Interface]: nil until [ReadConfig] sets it. *)
Notation metadata_Interface W := (option (run W InstanceMetadata)).

Record AuthConfig (W : Type) := {
  Region : string;
  TenancyID : string;
  UserID : string;
  PrivateKey : string;
  Fingerprint : string;
  Passphrase : string;
  Auth_RegionKey : string;
  Auth_UseInstancePrincipals : bool;
  Auth_CompartmentID : string;
  PrivateKeyPassphrase : string;
  Auth_metadataSvc : metadata_Interface W
}.
Arguments Region {W} _. Arguments TenancyID {W} _. Arguments UserID {W} _. Arguments PrivateKey {W} _.
Arguments Fingerprint {W} _. Arguments Passphrase {W} _. Arguments Auth_RegionKey {W} _.
Arguments Auth_UseInstancePrincipals {W} _. Arguments Auth_CompartmentID {W} _.
Arguments PrivateKeyPassphrase {W} _. Arguments Auth_metadataSvc {W} _.

Record RateLimiterConfig := {
  RateLimitQPSRead : f32;
  RateLimitBucketRead : Z;
  RateLimitQPSWrite : f32;
  RateLimitBucketWrite : Z;
  DisableRateLimiter : bool
}.

Record Config (W : Type) := {
  Auth : AuthConfig W;
  RateLimiter : option RateLimiterConfig;
  RegionKey : string;
  UseInstancePrincipals : bool;
  CompartmentID : string;
  metadataSvc : metadata_Interface W
}.
Arguments Auth {W} _. Arguments RateLimiter {W} _. Arguments RegionKey {W} _.
Arguments UseInstancePrincipals {W} _. Arguments CompartmentID {W} _. Arguments metadataSvc {W} _.

(** [os.LookupEnv], [os.Open] with the text read from the file, and
    [yaml.Decoder.Decode] into a pointer to a [Config], which [null] sets to
    nil. *)
Class Process (W : Type) : Type := {
  os_LookupEnv : string → W → option string;
  os_Open : string → run W string;
  yaml_Decode : string → res (option (Config W))
}.

(** What the SDK makes of credentials ([common.ConfigurationProvider]). *)
Class OciSdk (CP W : Type) : Type := {
  InstancePrincipalConfigurationProvider : run W CP;
  (** tenancy, user, region, fingerprint, key and passphrase *)
  NewRawConfigurationProvider : string → string → string → string → string → string → CP;
  DefaultConfigProvider : CP
}.

Section Complete.
Context {W : Type}.

(** Assignments to fields of the configuration. *)
Definition set_Passphrase (v : string) (c : AuthConfig W) : AuthConfig W := {|
  Region := Region c; TenancyID := TenancyID c; UserID := UserID c; PrivateKey := PrivateKey c;
  Fingerprint := Fingerprint c; Passphrase := v; Auth_RegionKey := Auth_RegionKey c;
  Auth_UseInstancePrincipals := Auth_UseInstancePrincipals c; Auth_CompartmentID := Auth_CompartmentID c;
  PrivateKeyPassphrase := PrivateKeyPassphrase c; Auth_metadataSvc := Auth_metadataSvc c
|}.
Definition set_location (region compartment : string) (c : AuthConfig W) : AuthConfig W := {|
  Region := region; TenancyID := TenancyID c; UserID := UserID c; PrivateKey := PrivateKey c;
  Fingerprint := Fingerprint c; Passphrase := Passphrase c; Auth_RegionKey := Auth_RegionKey c;
  Auth_UseInstancePrincipals := Auth_UseInstancePrincipals c; Auth_CompartmentID := compartment;
  PrivateKeyPassphrase := PrivateKeyPassphrase c; Auth_metadataSvc := Auth_metadataSvc c
|}.
Definition set_Auth_service (svc : metadata_Interface W) (c : AuthConfig W) : AuthConfig W := {|
  Region := Region c; TenancyID := TenancyID c; UserID := UserID c; PrivateKey := PrivateKey c;
  Fingerprint := Fingerprint c; Passphrase := Passphrase c; Auth_RegionKey := Auth_RegionKey c;
  Auth_UseInstancePrincipals := Auth_UseInstancePrincipals c; Auth_CompartmentID := Auth_CompartmentID c;
  PrivateKeyPassphrase := PrivateKeyPassphrase c; Auth_metadataSvc := svc
|}.
Definition set_Auth (a : AuthConfig W) (c : Config W) : Config W := {|
  Auth := a; RateLimiter := RateLimiter c; RegionKey := RegionKey c;
  UseInstancePrincipals := UseInstancePrincipals c; CompartmentID := CompartmentID c; metadataSvc := metadataSvc c
|}.
Definition set_CompartmentID (v : string) (c : Config W) : Config W := {|
  Auth := Auth c; RateLimiter := RateLimiter c; RegionKey := RegionKey c;
  UseInstancePrincipals := UseInstancePrincipals c; CompartmentID := v; metadataSvc := metadataSvc c
|}.
Definition set_UseInstancePrincipals (v : bool) (c : Config W) : Config W := {|
  Auth := Auth c; RateLimiter := RateLimiter c; RegionKey := RegionKey c;
  UseInstancePrincipals := v; CompartmentID := CompartmentID c; metadataSvc := metadataSvc c
|}.
Definition set_RegionKey (v : string) (c : Config W) : Config W := {|
  Auth := Auth c; RateLimiter := RateLimiter c; RegionKey := v;
  UseInstancePrincipals := UseInstancePrincipals c; CompartmentID := CompartmentID c; metadataSvc := metadataSvc c
|}.
Definition set_service (svc : metadata_Interface W) (c : Config W) : Config W := {|
  Auth := Auth c; RateLimiter := RateLimiter c; RegionKey := RegionKey c;
  UseInstancePrincipals := UseInstancePrincipals c; CompartmentID := CompartmentID c; metadataSvc := svc
|}.

Definition empty (s : string) : bool := String.eqb s "".

(** [metadataSvc.Get()] through the interface, its error kept. *)
Definition ask (svc : metadata_Interface W) : run W (gerror + InstanceMetadata) :=
  get ← lift (deref svc);
  attempt get.

(** [AuthConfig.Complete] *)
Definition Auth_Complete (c : AuthConfig W) : run W (AuthConfig W) :=
  let c := if empty (Passphrase c) && negb (empty (PrivateKeyPassphrase c))
           then set_Passphrase (PrivateKeyPassphrase c) c else c in
  if empty (Region c) || empty (Auth_CompartmentID c) then
    r ← ask (Auth_metadataSvc c);
    match r with
    | inl _ => mret c
    | inr meta =>
        mret (set_location
          (if empty (Region c) then MD_CanonicalRegionName meta else Region c)
          (if empty (Auth_CompartmentID c) then MD_CompartmentID meta else Auth_CompartmentID c) c)
    end
  else mret c.

(** [Config.Complete] *)
Definition Complete (c : Config W) : run W (Config W) :=
  auth ← Auth_Complete (Auth c);
  let c := set_Auth auth c in
  let c := if empty (CompartmentID c) && negb (empty (Auth_CompartmentID (Auth c)))
           then set_CompartmentID (Auth_CompartmentID (Auth c)) c else c in
  let c := if Auth_UseInstancePrincipals (Auth c) then set_UseInstancePrincipals true c else c in
  if empty (RegionKey c) then
    if negb (empty (Auth_RegionKey (Auth c))) then mret (set_RegionKey (Auth_RegionKey (Auth c)) c)
    else
      r ← ask (metadataSvc c);
      match r with
      | inl _ => mret c
      | inr meta => mret (set_RegionKey (MD_Region meta) c)
      end
  else mret c.

Context `{HttpClient W} `{Process W}.

(** [ReadConfig]: of the text behind the reader, nil or not *)
Definition ReadConfig (r : option string) : run W (Config W) :=
  match r with
  | None => fail (EText "no cloud-provider config file given")
  | Some text =>
      decoded ← map_err (EWrap "unmarshalling cloud-provider config") (lift (yaml_Decode text));
      cfg ← lift (deref decoded);
      let svc := Some (Get New) in
      Complete (set_Auth (set_Auth_service svc (Auth cfg)) (set_service svc cfg))
  end.

Definition FromFile (path : string) : run W (Config W) :=
  f ← os_Open path;
  ReadConfig (Some f).
End Complete.

(** ** [config_validate.go] *)

(** [field.Error]: its path and whether it is [Required] or an
    [InternalError]. *)
Inductive FieldError : Type :=
| FieldRequired (path : string)
| FieldInternalError (path : string).

Section Validate.
Context {W : Type} {order : MapOrder}.
(** [field.ErrorList.ToAggregate] *)
Variable ToAggregate : list FieldError → option gerror.

Definition checkFields (c : AuthConfig W) : gmap string string :=
  list_to_map [("region", Region c); ("tenancy", TenancyID c); ("user", UserID c);
               ("key", PrivateKey c); ("fingerprint", Fingerprint c)].

(** The loop's body: what a field adds to the errors. *)
Definition check_field (fldPath : string) (field : string * string) : list FieldError :=
  if empty field.2 then
    if String.eqb field.1 "region" then [FieldInternalError (fldPath +:+ "." +:+ field.1)]
    else [FieldRequired (fldPath +:+ "." +:+ field.1)]
  else [].

Definition validateAuthConfig (c : option (AuthConfig W)) (fldPath : string) : list FieldError :=
  match c with
  | None => [FieldRequired fldPath]
  | Some c => concat (map (check_field fldPath) (range_map fldPath (checkFields c)))
  end.

Definition ValidateConfig (c : Config W) : list FieldError :=
  ((if empty (CompartmentID c) then [FieldInternalError "compartment"] else []) ++
   (if negb (UseInstancePrincipals c) then validateAuthConfig (Some (Auth c)) "auth" else []))%list.

(** [Config.Validate] *)
Definition Config_Validate (c : Config W) : option gerror := ToAggregate (ValidateConfig c).

End Validate.

(** ** [NewConfigurationProvider] *)

Section Client.
Context {W : Type} {order : MapOrder}.
Variable ToAggregate : list FieldError → option gerror.
Context {CP : Type} `{OciSdk CP W}.

Definition NewConfigurationProvider (cfg : option (Config W)) : run W CP :=
  match cfg with
  | None => mret DefaultConfigProvider
  | Some cfg =>
      match Config_Validate (order := during "client") ToAggregate cfg with
      | Some err => fail (EWrap "invalid client config" err)
      | None =>
          if UseInstancePrincipals cfg then
            map_err (EWrap "failed to instantiate InstancePrincipalConfigurationProvider")
              InstancePrincipalConfigurationProvider
          else
            mret (NewRawConfigurationProvider (TenancyID (Auth cfg)) (UserID (Auth cfg)) (Region (Auth cfg))
                    (Fingerprint (Auth cfg)) (PrivateKey (Auth cfg)) (PrivateKeyPassphrase (Auth cfg)))
      end
  end.
End Client.

(** ** [sdk/retrypolicy/retrypolicy.go] *)

Record RetryPolicy := {
  MaximumNumberAttempts : Z;
  MaxSleepBetween : Z;
  ExponentialBackoffBase : Z;
  ShouldRetryOperation : option gerror → bool
}.

Section Retry.
(** [common.IsNetworkError]; [common.IsServiceError] holds of service errors. *)
Variable IsNetworkError : gerror → bool.

(** The predicate over the error of a response, nil or not. *)
Definition should_retry (err : option gerror) : bool :=
  match err with
  | None => false
  | Some (EService status code _) =>
      if (status =? 429)%Z then true
      else if (status =? 409)%Z then String.eqb code "IncorrectState"
      else false
  | Some e => IsNetworkError e
  end.

(** The options applied to the SDK's default, whose other fields stay. *)
Definition defaultPolicy : RetryPolicy := {|
  MaximumNumberAttempts := 8; MaxSleepBetween := 30 * time_Second; ExponentialBackoffBase := 2;
  ShouldRetryOperation := should_retry
|}.

(** [SetGlobal]: the SDK's [common.GlobalRetry] *)
Definition SetGlobal (GlobalRetry : option RetryPolicy) : option RetryPolicy := Some defaultPolicy.
End Retry.

(** ** Properties: completing a configuration *)

(** A field is set or not. *)
Ltac field_cases e := destruct (String.eqb_spec e "") as [?Hf|?Hf]; [rewrite ?Hf|].

Section CompleteProperties.
Context {W : Type} `{HttpClient W} `{Process W}.

(** The value of a field that is set, or else another. *)
Definition or_else (a b : string) : string := if empty a then b else a.

(** What the metadata service has for a field. *)
Definition asked (answer : gerror + InstanceMetadata) (f : InstanceMetadata → string) : string :=
  match answer with inl _ => "" | inr meta => f meta end.

(** A service that answers alike each time. *)
Definition steady (svc : metadata_Interface W) (answer : gerror + InstanceMetadata) : Prop :=
  ∃ get, svc = Some get ∧
    ∀ w, get w = (match answer with inl e => Err e | inr meta => Ok meta end, w).

Lemma ask_steady svc answer w : steady svc answer → ask svc w = (Ok answer, w).
Proof.
  intros (get & -> & Hg). unfold ask, mbind, run_bind, lift, attempt. simpl. rewrite Hg. by destruct answer.
Qed.

Lemma empty_spec s : empty s = true ↔ s = "".
Proof. apply String.eqb_eq. Qed.

(** The credentials after completion. *)
Definition completed_auth (answer : gerror + InstanceMetadata) (c c' : AuthConfig W) : Prop :=
  Region c' = or_else (Region c) (asked answer MD_CanonicalRegionName) ∧
  Auth_CompartmentID c' = or_else (Auth_CompartmentID c) (asked answer MD_CompartmentID) ∧
  Passphrase c' = or_else (Passphrase c) (PrivateKeyPassphrase c) ∧
  TenancyID c' = TenancyID c ∧ UserID c' = UserID c ∧ PrivateKey c' = PrivateKey c ∧
  Fingerprint c' = Fingerprint c ∧ Auth_RegionKey c' = Auth_RegionKey c ∧
  Auth_UseInstancePrincipals c' = Auth_UseInstancePrincipals c ∧
  PrivateKeyPassphrase c' = PrivateKeyPassphrase c ∧ Auth_metadataSvc c' = Auth_metadataSvc c.

Lemma Auth_Complete_spec answer (c : AuthConfig W) w :
  steady (Auth_metadataSvc c) answer →
  ∃ c', Auth_Complete c w = (Ok c', w) ∧ completed_auth answer c c'.
Proof.
  intros Hs. unfold Auth_Complete. set (c1 := if _ && _ then _ else c).
  assert (c1 = set_Passphrase (or_else (Passphrase c) (PrivateKeyPassphrase c)) c) as ->.
  { unfold c1, or_else, empty. field_cases (Passphrase c); [field_cases (PrivateKeyPassphrase c)|]; by destruct c; simplify_eq/=. }
  cbn [set_Passphrase Region Auth_CompartmentID Auth_metadataSvc].
  assert (ask (Auth_metadataSvc c) w = (Ok answer, w)) as Hask by by apply ask_steady.
  destruct (empty (Region c) || empty (Auth_CompartmentID c)) eqn:He.
  - rewrite (run_bind_step _ _ _ _ _ Hask). unfold completed_auth, or_else.
    destruct answer as [e|meta]; eexists; (split; [done|]); simpl; split_and!; try done.
    + destruct (empty (Region c)) eqn:E; [by apply empty_spec|done].
    + destruct (empty (Auth_CompartmentID c)) eqn:E; [by apply empty_spec|done].
  - apply orb_false_iff in He as [E1 E2]. eexists. split; [done|].
    unfold completed_auth, or_else. by rewrite E1, E2.
Qed.

(** The whole configuration after completion. *)
Definition completed (answer : gerror + InstanceMetadata) (c c' : Config W) : Prop :=
  completed_auth answer (Auth c) (Auth c') ∧
  CompartmentID c' = or_else (CompartmentID c) (Auth_CompartmentID (Auth c')) ∧
  UseInstancePrincipals c' = (UseInstancePrincipals c || Auth_UseInstancePrincipals (Auth c)) ∧
  RegionKey c' = or_else (RegionKey c) (or_else (Auth_RegionKey (Auth c)) (asked answer MD_Region)) ∧
  RateLimiter c' = RateLimiter c ∧ metadataSvc c' = metadataSvc c.

Lemma Complete_completed answer (c : Config W) w :
  steady (Auth_metadataSvc (Auth c)) answer → steady (metadataSvc c) answer →
  ∃ c', Complete c w = (Ok c', w) ∧ completed answer c c'.
Proof.
  intros Ha Hs. destruct (Auth_Complete_spec answer (Auth c) w Ha) as (a & Hc & Hauth).
  unfold Complete. rewrite (run_bind_step _ _ _ _ _ Hc). clear Hc.
  pose proof Hauth as (_ & _ & _ & _ & _ & _ & _ & Hk & Hu & _ & _).
  set (c1 := if empty (CompartmentID (set_Auth a c)) && _ then _ else _). cbv zeta.
  assert (c1 = set_CompartmentID (or_else (CompartmentID c) (Auth_CompartmentID a)) (set_Auth a c)) as ->.
  { unfold c1, or_else, empty. simpl. clear. destruct c as [? ? ? ? k ?]. simpl. field_cases k; [|done].
    field_cases (Auth_CompartmentID a); unfold set_Auth, set_CompartmentID; simpl; congruence. }
  set (c2 := if Auth_UseInstancePrincipals _ then _ else _).
  assert (c2 = set_UseInstancePrincipals (UseInstancePrincipals c || Auth_UseInstancePrincipals (Auth c))
    (set_CompartmentID (or_else (CompartmentID c) (Auth_CompartmentID a)) (set_Auth a c))) as ->.
  { unfold c2. simpl. rewrite Hu. destruct (Auth_UseInstancePrincipals (Auth c)); [by rewrite orb_true_r|by rewrite orb_false_r]. }
  simpl. rewrite Hk.
  assert (ask (metadataSvc c) w = (Ok answer, w)) as Hask by by apply ask_steady.
  unfold completed, or_else. destruct (empty (RegionKey c)) eqn:E1; [|by eexists; split; [done|]; split_and!].
  destruct (empty (Auth_RegionKey (Auth c))) eqn:E2; simpl.
  - rewrite (run_bind_step _ _ _ _ _ Hask). destruct answer as [e|meta]; eexists; (split; [done|]); simpl; split_and!; try done.
    by apply empty_spec.
  - eexists. split; [done|]. by split_and!.
Qed.

Lemma or_else_twice a b : or_else (or_else a b) b = or_else a b.
Proof. unfold or_else. destruct (empty a) eqn:Ha; [by destruct (empty b)|by rewrite Ha]. Qed.

(** Completing twice is completing once. *)
Lemma completed_twice answer (c c' c'' : Config W) :
  completed answer c c' → completed answer c' c'' → c'' = c'.
Proof.
  unfold completed, completed_auth. intros (Ha & Hc & Hu & Hk & _) (Ha' & Hc' & Hu' & Hk' & Hr' & Hm').
  destruct_and!. destruct c' as [a' ? ? ? ? ?], c'' as [a'' ? ? ? ? ?], a', a''. simpl in *. subst.
  rewrite !or_else_twice. f_equal; [..|by rewrite <- orb_assoc, orb_diag]; done.
Qed.

(** The configuration that [ReadConfig] completes. *)
Definition with_service (svc : metadata_Interface W) (c : Config W) : Config W :=
  set_Auth (set_Auth_service svc (Auth c)) (set_service svc c).

Lemma ReadConfig_completes answer text (read : Config W) w :
  yaml_Decode text = Ok (Some read) → steady (Some (Get New)) answer →
  ∃ c, ReadConfig (Some text) w = (Ok c, w) ∧ completed answer (with_service (Some (Get New)) read) c.
Proof.
  intros Hd Hs. unfold ReadConfig. rewrite Hd.
  destruct (Complete_completed answer (with_service (Some (Get New)) read) w) as (c & Hc & Hcomp); [done..|].
  by exists c.
Qed.

(** A configuration file that decodes is read whatever the metadata service answers: each
    field that is set stays, the deprecated fields and then the metadata fill the ones that are
    not, the instance principal flag is the disjunction of its two places, and completing again
    changes nothing. *)
Theorem ReadConfig_spec (answer : gerror + InstanceMetadata) (text : string) (read : Config W) (w : W) :
  yaml_Decode text = Ok (Some read) → steady (Some (Get New)) answer →
  ∃ c, ReadConfig (Some text) w = (Ok c, w) ∧
    Region (Auth c) = or_else (Region (Auth read)) (asked answer MD_CanonicalRegionName) ∧
    CompartmentID c =
      or_else (CompartmentID read) (or_else (Auth_CompartmentID (Auth read)) (asked answer MD_CompartmentID)) ∧
    RegionKey c = or_else (RegionKey read) (or_else (Auth_RegionKey (Auth read)) (asked answer MD_Region)) ∧
    UseInstancePrincipals c = (UseInstancePrincipals read || Auth_UseInstancePrincipals (Auth read)) ∧
    Passphrase (Auth c) = or_else (Passphrase (Auth read)) (PrivateKeyPassphrase (Auth read)) ∧
    PrivateKeyPassphrase (Auth c) = PrivateKeyPassphrase (Auth read) ∧
    (TenancyID (Auth c), UserID (Auth c), PrivateKey (Auth c), Fingerprint (Auth c)) =
      (TenancyID (Auth read), UserID (Auth read), PrivateKey (Auth read), Fingerprint (Auth read)) ∧
    Complete c w = (Ok c, w).
Proof.
  intros Hd Hs. destruct (ReadConfig_completes answer text read w Hd Hs) as (c & Hc & Hcomp).
  exists c. pose proof Hcomp as (Ha & Hcid & Hu & Hk & _ & Hm). unfold completed_auth in Ha. simpl in *.
  destruct_and!. split_and!; try congruence.
  destruct (Complete_completed answer c w) as (c' & Hc' & Hcomp'); [congruence..|].
  by rewrite <- (completed_twice answer _ c c' Hcomp Hcomp') at 2.
Qed.
End CompleteProperties.

(** ** Properties: validation and the provider of credentials *)

Section ValidationProperties.
Context {W CP : Type} {order : MapOrder} `{OciSdk CP W}.
Variable ToAggregate : list FieldError → option gerror.
(** An aggregate is nil for an empty list only. *)
Hypothesis ToAggregate_nil : ∀ l, ToAggregate l = None ↔ l = [].

(** The fields a client cannot do without. *)
Definition required_fields (c : AuthConfig W) : list (string * string) :=
  [("region", Region c); ("tenancy", TenancyID c); ("user", UserID c);
   ("key", PrivateKey c); ("fingerprint", Fingerprint c)].

Definition missing_fields (c : Config W) : list FieldError :=
  ((if empty (CompartmentID c) then [FieldInternalError "compartment"] else []) ++
   (if UseInstancePrincipals c then [] else concat (map (check_field "auth") (required_fields (Auth c)))))%list.

Lemma ValidateConfig_perm (c : Config W) : ValidateConfig c ≡ₚ missing_fields c.
Proof.
  unfold ValidateConfig, missing_fields. destruct (UseInstancePrincipals c); [done|]. cbn [negb].
  f_equiv. unfold validateAuthConfig, checkFields. rewrite <- !flat_map_concat_map.
  apply Permutation_flat_map.
  rewrite range_map_perm, map_to_list_to_map; [done|]. apply (bool_decide_unpack _). vm_compute. exact I.
Qed.

(** A configuration a client can be made of. *)
Definition usable (c : Config W) : Prop :=
  CompartmentID c ≠ "" ∧ (UseInstancePrincipals c = true ∨ Forall (λ f, f.2 ≠ "") (required_fields (Auth c))).

Lemma missing_fields_nil (c : Config W) : missing_fields c = [] ↔ usable c.
Proof.
  unfold missing_fields, usable, required_fields, check_field, empty.
  field_cases (CompartmentID c); simpl; [naive_solver|].
  destruct (UseInstancePrincipals c); simpl; [naive_solver|].
  rewrite !Forall_cons, Forall_nil. simpl.
  field_cases (Region (Auth c)); simpl; [naive_solver|]. field_cases (TenancyID (Auth c)); simpl; [naive_solver|].
  field_cases (UserID (Auth c)); simpl; [naive_solver|]. field_cases (PrivateKey (Auth c)); simpl; [naive_solver|].
  field_cases (Fingerprint (Auth c)); simpl; naive_solver.
Qed.

Lemma Config_Validate_spec (c : Config W) : Config_Validate ToAggregate c = None ↔ usable c.
Proof.
  unfold Config_Validate. rewrite ToAggregate_nil, <- missing_fields_nil. pose proof (ValidateConfig_perm c) as Hp.
  split; intros He; rewrite He in Hp; [by apply Permutation_nil_l in Hp|by apply Permutation_nil_r in Hp].
Qed.

End ValidationProperties.

Section ProviderProperties.
Context {W CP : Type} {order : MapOrder} `{OciSdk CP W}.
Variable ToAggregate : list FieldError → option gerror.
Hypothesis ToAggregate_nil : ∀ l, ToAggregate l = None ↔ l = [].

(** NewConfigurationProvider makes a provider exactly of a configuration with a compartment
    and either instance principals or all five credentials, and otherwise reports the missing
    fields, in some order; the passphrase it hands to the SDK is the deprecated field, so that
    the passphrase itself has no effect. *)
Theorem NewConfigurationProvider_spec (c : Config W) (w : W) :
  (usable c →
   NewConfigurationProvider ToAggregate (Some c) w =
     if UseInstancePrincipals c then
       map_err (EWrap "failed to instantiate InstancePrincipalConfigurationProvider")
         InstancePrincipalConfigurationProvider w
     else (Ok (NewRawConfigurationProvider (TenancyID (Auth c)) (UserID (Auth c)) (Region (Auth c))
                 (Fingerprint (Auth c)) (PrivateKey (Auth c)) (PrivateKeyPassphrase (Auth c))), w)) ∧
  (¬ usable c →
   ∃ errs e, errs ≡ₚ missing_fields c ∧ ToAggregate errs = Some e ∧
     NewConfigurationProvider (CP := CP) ToAggregate (Some c) w = (Err (EWrap "invalid client config" e), w)) ∧
  (∀ p, NewConfigurationProvider (CP := CP) ToAggregate (Some (set_Auth (set_Passphrase p (Auth c)) c)) w =
        NewConfigurationProvider ToAggregate (Some c) w).
Proof.
  split_and!; [..|done]; intros Hu; unfold NewConfigurationProvider.
  - rewrite (proj2 (Config_Validate_spec (order := during "client") ToAggregate ToAggregate_nil c) Hu).
    by destruct (UseInstancePrincipals c).
  - destruct (Config_Validate (order := during "client") ToAggregate c) as [e|] eqn:He;
      [|by apply Config_Validate_spec in He].
    exists (ValidateConfig (order := during "client") c), e.
    split_and!; [apply ValidateConfig_perm|done|done].
Qed.
End ProviderProperties.

(** A launch refused for lack of capacity is answered with status 500 or 400:
    the SDK does not repeat it. *)
Lemma should_retry_spec (IsNetworkError : gerror → bool) status code msg :
  should_retry IsNetworkError (Some (EService status code msg)) = true ↔
    status = 429%Z ∨ (status = 409%Z ∧ code = "IncorrectState").
Proof.
  unfold should_retry. destruct (Z.eqb_spec status 429); [naive_solver|].
  destruct (Z.eqb_spec status 409); [rewrite String.eqb_eq|]; naive_solver.
Qed.
