(* ===== verification/Operator.v ===== *)
(** * [pkg/operator/operator.go]: the operator at start-up

    The choice of credentials, the configuration of the API key method, the
    certificate bundle of the nodes, and the operator itself: its providers
    over the caches and the table they share.  The SDK's constructors, the
    identity service and the REST client's configuration are other packages':
    the class [OperatorSdk]. *)

From stdpp Require Import base list strings gmap.
From Stdlib Require Import ZArith Lia.
From S2P Require Import Prelude GoStrings Utils OciModel Api Options Cache.
From S2P Require Import UnavailableOfferings ImageFamily OciConfig.
From S2P Require Pricing Bootstrap CloudProvider SecurityGroup.

Local Open Scope string_scope.

Definition authByApiKey : string := "API_KEY".
Definition authByOke : string := "OKE".
Definition authBySession : string := "SESSION".
Definition authByInstancePrincipal : string := "INSTANCE_PRINCIPAL".
Definition configFilePath : string := "/etc/oci/config.yaml".

(** [os/user.Current] and its home directory; the SDK's other providers of
    credentials; the clients it makes of one; the domains of a compartment;
    and the transport configuration of the REST client. *)
Class OperatorSdk (CP RC TC W : Type) : Type := {
  user_HomeDir : run W string;
  CustomProfileSessionTokenConfigProvider : string → string → CP;
  OkeWorkloadIdentityConfigurationProvider : run W CP;
  NewIdentityClient : CP → res unit;
  NewComputeClient : CP → res unit;
  NewVirtualNetworkClient : CP → res unit;
  ListAvailabilityDomains : string → run W (list (option string));
  CP_Region : CP → res string;
  TransportConfig : RC → res TC;
  (** [transport.TLSConfigFor] fills in the certificate data *)
  TLSConfigFor : TC → res TC;
  TLS_CAData : TC → string
}.

Section Start.
Context {CP RC TC W : Type} `{OperatorSdk CP RC TC W} `{HttpClient W} `{Process W} `{OciSdk CP W} {order : MapOrder}.
Variable ToAggregate : list FieldError → option gerror.

(** [lo.Must]: an error is a panic. *)
Definition Must {A} (m : run W A) : run W A := λ w,
  match m w with
  | (Err _, w') => (Panic "lo.Must", w')
  | r => r
  end.

(** The path of the configuration file. *)
Definition config_path (w : W) : string := default configFilePath (os_LookupEnv "CONFIG_YAML_FILENAME" w).

(** ** [NewOCIProvisioner] *)

Definition NewOCIProvisioner : run W CP :=
  w ← get_state;
  cfg ← map_err (EWrap "failed to load configuration file at path") (FromFile (config_path w));
  match Config_Validate (order := during "file") ToAggregate cfg with
  | Some err => fail (EWrap "invalid configuration" err)
  | None =>
      metadata ← attempt (Get New);
      cfg ← (if empty (CompartmentID cfg) then
               match metadata with
               | inl mdErr => fail (EWrap "unable to get compartment OCID" mdErr)
               | inr meta => mret (set_CompartmentID (MD_CompartmentID meta) cfg)
               end
             else mret cfg);
      map_err (EWrap "unable to create volume provisioner client.")
        (NewConfigurationProvider ToAggregate (Some cfg))
  end.

(** ** [GetCABundle] *)

Definition GetCABundle (opts : Options) (restConfig : option RC) : res (option string) :=
  if negb (empty (ClusterCABundle opts)) then Ok (Some (ClusterCABundle opts))
  else
    match restConfig with
    | None => Ok None
    | Some restConfig =>
        match TransportConfig restConfig with
        | Err err => Err (EWrap "discovering caBundle, loading transport config" err)
        | Panic why => Panic why
        | Ok transportConfig =>
            match TLSConfigFor transportConfig with
            | Err err => Err (EWrap "discovering caBundle, loading TLS config" err)
            | Panic why => Panic why
            | Ok filled => Ok (Some (Bootstrap.EncodeToString (TLS_CAData filled)))
            end
        end
    end.

(** ** [NewOperator] *)

(** The switch over the configured method. *)
Definition config_provider (authMethod : string) : run W CP :=
  if String.eqb authMethod authByApiKey then Must NewOCIProvisioner
  else if String.eqb authMethod authBySession then
    home ← Must user_HomeDir;
    mret (CustomProfileSessionTokenConfigProvider (home +:+ "/.oci/config") "SESSION")
  else if String.eqb authMethod authByInstancePrincipal then Must InstancePrincipalConfigurationProvider
  else if String.eqb authMethod authByOke then Must OkeWorkloadIdentityConfigurationProvider
  else Must OkeWorkloadIdentityConfigurationProvider.

(** The options in the context are shared: the domains are written to them. *)
Definition set_AvailableDomains (ads : list string) (o : Options) : Options := {|
  ClusterName := ClusterName o; ClusterEndpoint := ClusterEndpoint o; ClusterDns := ClusterDns o;
  ClusterCABundle := ClusterCABundle o; BootStrapToken := BootStrapToken o; CompartmentId := CompartmentId o;
  TagNamespace := TagNamespace o; VMMemoryOverheadPercent := VMMemoryOverheadPercent o;
  FlexCpuMemRatios := FlexCpuMemRatios o; FlexCpuConstrainList := FlexCpuConstrainList o;
  AvailableDomains := ads; OciAuthMethods := OciAuthMethods o; PriceEndpoint := PriceEndpoint o;
  PriceSyncPeriod := PriceSyncPeriod o; UseLocalPriceList := UseLocalPriceList o;
  PreemptibleShapes := PreemptibleShapes o; PreemptibleExcludeShapes := PreemptibleExcludeShapes o
|}.

(** The caches of the providers, by what they hold. *)
Context {IC SC GC SH UC : Type} {Rqs : Type}
  `{imageCache : TTLCache (list (WrapImage Rqs)) IC} `{subnetCache : TTLCache (list Subnet) SC}
  `{groupCache : TTLCache (list NetworkSecurityGroup) GC} `{shapeCache : TTLCache (gmap string WrapShape) SH}
  `{offeringCache : TTLCache unit UC}.
(** The embedded price list. *)
Variable embedded : option Pricing.PriceCatalog.

(** The operator: the options as they are now, the state of the cloud provider
    and of the other providers, and what they are built with. *)
Record Operator := {
  Op_Options : Options;
  Op_Region : string;
  Op_Templates : TemplateProvider;
  Op_Cloud : CloudProvider.State W SH SC UC;
  Op_Images : IC;
  Op_SecurityGroups : GC;
  Op_Pricing : Pricing.DefaultProvider
}.

Definition NewOperator (opts : Options) (restConfig : option RC) : run W Operator :=
  configProvider ← config_provider (OciAuthMethods opts);
  Must (lift (NewIdentityClient configProvider));;
  items ← Must (ListAvailabilityDomains (CompartmentId opts));
  let opts := set_AvailableDomains (map ToString items) opts in
  region ← Must (lift (CP_Region configProvider));
  Must (lift (NewComputeClient configProvider));;
  Must (lift (NewVirtualNetworkClient configProvider));;
  caBundle ← Must (lift (GetCABundle opts restConfig));
  w ← get_state;
  mret {|
    Op_Options := opts;
    Op_Region := region;
    Op_Templates := {| TP_CABundle := caBundle; TP_ClusterEndpoint := ClusterEndpoint opts;
                       TP_BootstrapToken := BootStrapToken opts |};
    Op_Cloud := {|
      CloudProvider.cp_shapes := cache_new InstanceTypesAndZonesTTL;
      CloudProvider.cp_subnets := cache_new DefaultTTL;
      CloudProvider.cp_offerings := NewUnavailableOfferings;
      CloudProvider.cp_bootstrap := Bootstrap.staticNodeBootstrapVars;
      CloudProvider.cp_world := w
    |};
    Op_Images := cache_new DefaultTTL;
    Op_SecurityGroups := cache_new DefaultTTL;
    Op_Pricing := Pricing.NewDefaultProvider embedded (PriceEndpoint opts)
  |}.
End Start.

(** ** Properties *)

Lemma Must_Ok {W A} (m : run W A) w a w' : Must m w = (Ok a, w') ↔ m w = (Ok a, w').
Proof. unfold Must. destruct (m w) as [[]]; naive_solver. Qed.

(** A run that has no error to return, only panics. *)
Definition no_error {S A} (m : run S A) : Prop := ∀ s e, (m s).1 ≠ Err e.

Lemma Must_no_error {W A} (m : run W A) : no_error (Must m).
Proof. intros s e. unfold Must. by destruct (m s) as [[]]. Qed.
Lemma bind_no_error {S A B} (m : run S A) (f : A → run S B) :
  no_error m → (∀ a, no_error (f a)) → no_error (m ≫= f).
Proof.
  intros Hm Hf s e. unfold mbind, run_bind. specialize (Hm s). destruct (m s) as [[a|e'|why] s'].
  - apply Hf.
  - by destruct (Hm e').
  - done.
Qed.
Lemma ret_no_error {S A} (a : A) : no_error (mret a : run S A).
Proof. done. Qed.
Lemma state_no_error {S} : no_error (get_state : run S S).
Proof. done. Qed.

(** Every step of a start-up is one of these. *)
Create HintDb no_error.
#[export] Hint Resolve Must_no_error ret_no_error state_no_error : no_error.
Ltac no_errors :=
  repeat match goal with |- no_error (mbind _ _) => apply bind_no_error; [solve [auto with no_error]|intros ?] end;
  auto with no_error.

Section Provisioner.
Context {CP W : Type} `{HttpClient W} `{Process W} `{OciSdk CP W} {order : MapOrder}.
Variable ToAggregate : list FieldError → option gerror.
Hypothesis ToAggregate_nil : ∀ l, ToAggregate l = None ↔ l = [].

(** What the file of the configuration says, completed: its own compartment, or the one of its
    credentials, or else the metadata's; its own region or else the metadata's. *)
Definition given_compartment (answer : gerror + InstanceMetadata) (read : Config W) : string :=
  or_else (CompartmentID read) (or_else (Auth_CompartmentID (Auth read)) (asked answer MD_CompartmentID)).
Definition given_region (answer : gerror + InstanceMetadata) (read : Config W) : string :=
  or_else (Region (Auth read)) (asked answer MD_CanonicalRegionName).
Definition given_principals (read : Config W) : bool :=
  UseInstancePrincipals read || Auth_UseInstancePrincipals (Auth read).

(** The files a provider is made of. *)
Definition accepted (answer : gerror + InstanceMetadata) (read : Config W) : Prop :=
  given_compartment answer read ≠ "" ∧
  (given_principals read = true ∨
   Forall (λ v, v ≠ "") [given_region answer read; TenancyID (Auth read); UserID (Auth read);
                         PrivateKey (Auth read); Fingerprint (Auth read)]).

Lemma or_else_assoc a b c : or_else (or_else a b) c = or_else a (or_else b c).
Proof. unfold or_else. by destruct (empty a) eqn:Ha; [|rewrite Ha]. Qed.

Lemma completed_usable answer (read c : Config W) :
  completed answer (with_service (Some (Get New)) read) c → usable c ↔ accepted answer read.
Proof.
  intros (Ha & Hc & Hu & _). unfold completed_auth in Ha. simpl in *. destruct_and!.
  unfold usable, accepted, given_compartment, given_region, given_principals, required_fields.
  rewrite !Forall_cons, !Forall_nil. simpl. by repeat match goal with E : _ = _ |- _ => rewrite E; clear E end.
Qed.

(** Of a file that is read and decodes. *)
Lemma FromFile_completes answer (text : string) (read : Config W) (w w1 : W) :
  os_Open (config_path w) w = (Ok text, w1) → yaml_Decode text = Ok (Some read) → steady (Some (Get New)) answer →
  ∃ c, FromFile (config_path w) w = (Ok c, w1) ∧ completed answer (with_service (Some (Get New)) read) c.
Proof.
  intros Ho Hd Hs. destruct (ReadConfig_completes answer text read w1 Hd Hs) as (c & Hc & Hcomp).
  exists c. split; [|done]. unfold FromFile. by rewrite (run_bind_step _ _ _ _ _ Ho).
Qed.

(** The provisioner of a completed configuration. *)
Lemma NewOCIProvisioner_completed answer (c : Config W) (w w1 : W) :
  FromFile (config_path w) w = (Ok c, w1) → attempt (Get New) w1 = (Ok answer, w1) →
  (usable c →
   NewOCIProvisioner (CP := CP) ToAggregate w =
     map_err (EWrap "unable to create volume provisioner client.") (NewConfigurationProvider ToAggregate (Some c)) w1) ∧
  (¬ usable c →
   ∃ errs e, errs ≡ₚ missing_fields c ∧ ToAggregate errs = Some e ∧
     NewOCIProvisioner (CP := CP) ToAggregate w = (Err (EWrap "invalid configuration" e), w1)).
Proof.
  intros Hf Hg. set (o := during "file" : MapOrder).
  pose proof (Config_Validate_spec (order := o) ToAggregate ToAggregate_nil c) as Hv.
  unfold NewOCIProvisioner. rewrite (run_bind_step _ _ w w w) by done.
  rewrite (run_bind_step _ _ _ c w1) by by apply map_err_Ok. fold o. split; intros Hu.
  - rewrite (proj2 Hv Hu). rewrite (run_bind_step _ _ _ _ _ Hg).
    destruct Hu as [Hc _]. apply String.eqb_neq in Hc. unfold empty. by rewrite Hc.
  - destruct (Config_Validate (order := o) ToAggregate c) as [e|] eqn:He; [|by destruct Hu; apply Hv].
    exists (ValidateConfig (order := o) c), e. split_and!; [apply ValidateConfig_perm|done|done].
Qed.

(** C38: With the API key method and a metadata service that gives the same answer, or the same
    error, whenever it is asked: a configuration file that can be read and decodes is completed
    with what that service has before it is validated. It gives a provider exactly when there is
    a compartment, in the file or in the metadata, and either instance principals are asked for
    or the region, of the file or of the metadata, and the other credentials are set. The
    provider is made of those, with the deprecated passphrase; every other file is refused as an
    invalid configuration. *)
Theorem NewOCIProvisioner_spec (answer : gerror + InstanceMetadata) (text : string) (read : Config W) (w w1 : W) :
  os_Open (config_path w) w = (Ok text, w1) → yaml_Decode text = Ok (Some read) → steady (Some (Get New)) answer →
  (accepted answer read →
   NewOCIProvisioner ToAggregate w =
     if given_principals read then
       map_err (λ e, EWrap "unable to create volume provisioner client."
                       (EWrap "failed to instantiate InstancePrincipalConfigurationProvider" e))
         InstancePrincipalConfigurationProvider w1
     else (Ok (NewRawConfigurationProvider (TenancyID (Auth read)) (UserID (Auth read)) (given_region answer read)
                 (Fingerprint (Auth read)) (PrivateKey (Auth read)) (PrivateKeyPassphrase (Auth read))), w1)) ∧
  (¬ accepted answer read →
   ∃ e, NewOCIProvisioner (CP := CP) ToAggregate w = (Err (EWrap "invalid configuration" e), w1)).
Proof.
  intros Ho Hd Hs. destruct (FromFile_completes answer text read w w1 Ho Hd Hs) as (c & Hc & Hcomp).
  assert (attempt (Get New) w1 = (Ok answer, w1)) as Hg.
  { destruct Hs as (get & [= <-] & Hg). unfold attempt. rewrite Hg. by destruct answer. }
  destruct (NewOCIProvisioner_completed answer c w w1 Hc Hg) as [Hok Hbad].
  rewrite <- (completed_usable _ _ _ Hcomp). split; intros Hu.
  - rewrite (Hok Hu). unfold map_err at 1.
    rewrite (proj1 (NewConfigurationProvider_spec (CP := CP) ToAggregate ToAggregate_nil c w1) Hu).
    destruct Hcomp as (Ha & _ & Hpr & _). unfold completed_auth in Ha. simpl in *. destruct_and!.
    unfold given_principals, given_region.
    repeat match goal with E : _ = _ |- _ => rewrite E; clear E end.
    destruct (_ || _); [|done]. unfold map_err. by destruct (InstancePrincipalConfigurationProvider w1) as [[]].
  - destruct (Hbad Hu) as (errs & e & _ & _ & ->). by exists e.
Qed.
End Provisioner.

Section StartUp.
Context {CP RC TC W : Type} `{OperatorSdk CP RC TC W} `{HttpClient W} `{Process W} `{OciSdk CP W} {order : MapOrder}.
Variable ToAggregate : list FieldError → option gerror.
Context {IC SC GC SH UC : Type} {Rqs : Type}
  `{imageLaws : TTLCacheLaws (list (WrapImage Rqs)) IC} `{subnetLaws : TTLCacheLaws (list Subnet) SC}
  `{groupLaws : TTLCacheLaws (list NetworkSecurityGroup) GC} `{shapeLaws : TTLCacheLaws (gmap string WrapShape) SH}
  `{offeringLaws : TTLCacheLaws unit UC}.
Variable embedded : option Pricing.PriceCatalog.

(** Nothing is cached, no offering is marked, and the prices are the
    embedded ones. *)
Definition fresh (op : Operator (W := W) (IC := IC) (SC := SC) (GC := GC) (SH := SH) (UC := UC)) : Prop :=
  (∀ t k, cache_Get t k (CloudProvider.cp_shapes (Op_Cloud op)) = None) ∧
  (∀ t k, cache_Get t k (CloudProvider.cp_subnets (Op_Cloud op)) = None) ∧
  (∀ t k, cache_Get t k (Op_Images op) = None) ∧
  (∀ t k, cache_Get t k (Op_SecurityGroups op) = None) ∧
  (∀ t, refines t (CloudProvider.cp_offerings (Op_Cloud op)) ∅) ∧
  Pricing.priceCatalog (Op_Pricing op) = embedded.

Lemma new_offerings_refine t : refines t (NewUnavailableOfferings : UnavailableOfferings UC) ∅.
Proof.
  split; [apply ttl_new|]. intros t' x _ _. unfold IsUnavailable, NewUnavailableOfferings, Spec.unavailable. simpl.
  by rewrite Get_new, lookup_empty.
Qed.

Lemma config_provider_no_error m : no_error (config_provider (CP := CP) (W := W) ToAggregate m).
Proof.
  unfold config_provider.
  repeat (destruct (String.eqb _ _); [no_errors|]); no_errors.
Qed.

(** What a start-up that ends in an operator has done. *)
Lemma NewOperator_Ok (opts : Options) (rc : option RC) (w w' : W) op :
  NewOperator (Rqs := Rqs) (IC := IC) (SC := SC) (GC := GC) (SH := SH) (UC := UC)
    ToAggregate embedded opts rc w = (Ok op, w') →
  ∃ (cp : CP) items w1,
    config_provider ToAggregate (OciAuthMethods opts) w = (Ok cp, w1) ∧
    ListAvailabilityDomains (CompartmentId opts) w1 = (Ok items, w') ∧
    Op_Options op = set_AvailableDomains (map ToString items) opts ∧
    CP_Region cp = Ok (Op_Region op) ∧
    GetCABundle opts rc = Ok (TP_CABundle (Op_Templates op)) ∧
    CloudProvider.cp_world (Op_Cloud op) = w'.
Proof.
  unfold NewOperator. intros Hn. run_inv.
  repeat match goal with
  | H : Must _ _ = (Ok _, _) |- _ => apply (proj1 (Must_Ok _ _ _ _)) in H
  | H : lift _ _ = (Ok _, _) |- _ => apply (proj1 (lift_Ok _ _ _ _)) in H as [? ->]
  | H : get_state _ = (Ok _, _) |- _ => unfold get_state in H; injection H as <- <-
  end.
  by do 3 eexists.
Qed.

Lemma NewOperator_fresh (opts : Options) (rc : option RC) (w w' : W) op :
  NewOperator (Rqs := Rqs) (IC := IC) (SC := SC) (GC := GC) (SH := SH) (UC := UC)
    ToAggregate embedded opts rc w = (Ok op, w') → fresh op.
Proof.
  unfold NewOperator. intros Hn. run_inv. unfold fresh.
  split_and!; intros; simpl; try apply Get_new; [apply new_offerings_refine|].
  unfold Pricing.NewDefaultProvider, Pricing.Reset. by destruct embedded.
Qed.

(** C37: NewOperator never returns an error: start-up panics or gives an operator whose options
    name the availability domains of the compartment, whose caches and table of unavailable
    offerings are empty and whose certificate bundle is the configured one if there is one; an
    authentication method that is not known is treated as OKE. *)
Theorem NewOperator_spec (opts : Options) (rc : option RC) (w w' : W) r :
  NewOperator (Rqs := Rqs) (IC := IC) (SC := SC) (GC := GC) (SH := SH) (UC := UC)
    ToAggregate embedded opts rc w = (r, w') →
  match r with
  | Ok op => ∃ (cp : CP) items w1,
      config_provider ToAggregate (OciAuthMethods opts) w = (Ok cp, w1) ∧
      ListAvailabilityDomains (CompartmentId opts) w1 = (Ok items, w') ∧
      Op_Options op = set_AvailableDomains (map ToString items) opts ∧
      CP_Region cp = Ok (Op_Region op) ∧
      GetCABundle opts rc = Ok (TP_CABundle (Op_Templates op)) ∧
      (ClusterCABundle opts ≠ "" → TP_CABundle (Op_Templates op) = Some (ClusterCABundle opts)) ∧
      fresh op ∧ CloudProvider.cp_world (Op_Cloud op) = w'
  | Err _ => False
  | Panic _ => True
  end ∧
  (∀ m, m ∉ [authByApiKey; authBySession; authByInstancePrincipal] →
     config_provider (CP := CP) ToAggregate m = Must OkeWorkloadIdentityConfigurationProvider).
Proof.
  intros Hn. split.
  - destruct r as [op|e|why]; [|exfalso|done].
    + destruct (NewOperator_Ok _ _ _ _ _ Hn) as (cp & items & w1 & Hcp & Hads & Ho & Hr & Hca & Hw).
      pose proof (NewOperator_fresh _ _ _ _ _ Hn).
      exists cp, items, w1. split_and!; try done. intros Hne. revert Hca. unfold GetCABundle, empty.
      destruct (String.eqb_spec (ClusterCABundle opts) ""); [done|]. simpl. congruence.
    + revert Hn. match goal with |- ?m w = _ → _ => assert (no_error m) as Hne end.
      { unfold NewOperator. apply bind_no_error; [apply config_provider_no_error|]. intros cp. no_errors. }
      intros Hn. apply (Hne w e). by rewrite Hn.
  - intros m Hm. rewrite !not_elem_of_cons in Hm. destruct Hm as (Hm1 & Hm2 & Hm3 & _).
    unfold config_provider. rewrite (proj2 (String.eqb_neq _ _) Hm1), (proj2 (String.eqb_neq _ _) Hm2),
      (proj2 (String.eqb_neq _ _) Hm3). by destruct (String.eqb m authByOke).
Qed.
End StartUp.
