(* ===== verification/Reconcile.v ===== *)
(** * What the controllers share: results, combined errors, the cloud's interface

    The controllers of [pkg/controllers] are run by controller-runtime; a pass
    returns a [reconcile.Result] or an error.  [Cloud] is what the controllers
    use of karpenter's [cloudprovider.CloudProvider]; [CloudProvider] is its
    implementation. *)

From stdpp Require Import base list strings gmap.
From Stdlib Require Import ZArith Lia.
From S2P Require Import Prelude Frame GoStrings OciModel Api Options Cache Sched KubeModel.
From S2P Require CloudProvider Pricing.

Local Open Scope string_scope.

(** [reconcile.Result] *)
Record Result := { Requeue : bool; RequeueAfter : Z }.
Definition no_requeue : Result := {| Requeue := false; RequeueAfter := 0 |}.
Definition requeue_after (d : Z) : Result := {| Requeue := false; RequeueAfter := d |}.
Definition requeue_now : Result := {| Requeue := true; RequeueAfter := 0 |}.

(** [multierr.Combine] of the errors that are not nil. *)
Definition Combine (errs : list gerror) : option gerror :=
  match errs with
  | [] => None
  | [e] => Some e
  | _ => Some (EMulti errs)
  end.

(** Every item is tried; the errors are collected. *)
Fixpoint try_all {S A} (body : A → run S unit) (l : list A) : run S (list gerror) :=
  match l with
  | [] => mret []
  | x :: l' =>
      r ← attempt (body x);
      errs ← try_all body l';
      mret (match r with inl e => e :: errs | inr _ => errs end)
  end.

(** [cloudprovider.CloudProvider], as far as the controllers use it. *)
Class Cloud (Q S : Type) : Type := {
  cloud_List : run S (list (NodeClaim Q));
  cloud_Delete : NodeClaim Q → run S unit
}.

(** ** [controllers/providers/pricing] *)

Section PricingController.
Context {S : Type}.
Variable opts : Options.
(** [pricing.Provider.UpdateOnDemandPricing] *)
Variable UpdateOnDemandPricing : run S unit.

Definition Pricing_Reconcile : run S Result :=
  errs ← try_all (λ f : run S unit, f) [UpdateOnDemandPricing];
  match Combine errs with
  | Some err => fail (EWrap "updating pricing" err)
  | None => mret (requeue_after (wrap64 (PriceSyncPeriod opts * time_Hour)))
  end.

Lemma Pricing_Reconcile_spec s :
  Pricing_Reconcile s =
    match UpdateOnDemandPricing s with
    | (Ok _, s') => (Ok (requeue_after (wrap64 (PriceSyncPeriod opts * time_Hour))), s')
    | (Err e, s') => (Err (EWrap "updating pricing" e), s')
    | (Panic w, s') => (Panic w, s')
    end.
Proof.
  unfold Pricing_Reconcile, try_all, mbind, run_bind, attempt, mret, run_ret.
  by destruct (UpdateOnDemandPricing s) as [[[]|e|w] s'].
Qed.
End PricingController.

(** ** Loops that try every item *)

(** An invariant of the bodies, whatever they return. *)
Lemma try_all_inv {S A} (body : A → run S unit) (P : S → Prop) l s :
  (∀ x s, x ∈ l → P s → P (body x s).2) → P s → P (try_all body l s).2.
Proof.
  revert s; induction l as [|x l IH]; intros s Hb HP; [done|]. cbn [try_all].
  pose proof (Hb x s ltac:(by left) HP) as H1.
  assert (P (try_all body l (body x s).2).2) as H2 by (apply IH; [intros; apply Hb; [by right|done]|done]).
  unfold mbind, run_bind, attempt.
  destruct (body x s) as [[a|e|w] s1]; simpl in *; [| |done];
    by destruct (try_all body l s1) as [[errs|e'|w'] s2].
Qed.

(** Without errors, what every body establishes and the others keep holds at
    the end, under an invariant of the bodies. *)
Lemma try_all_each {S A} (body : A → run S unit) (P : S → Prop) (D : A → S → Prop) l s s' :
  (∀ x s s', x ∈ l → P s → body x s = (Ok tt, s') → P s' ∧ D x s') →
  (∀ x y s s', x ∈ l → D y s → body x s = (Ok tt, s') → D y s') →
  P s → try_all body l s = (Ok [], s') →
  P s' ∧ (∀ x, x ∈ l → D x s') ∧ ∀ y, D y s → D y s'.
Proof.
  intros Hdo Hkeep. revert s; induction l as [|x l IH]; intros s HP Ht.
  { injection Ht as <-. split_and!; [done| |done]. by intros x Hx%elem_of_nil. }
  cbn [try_all] in Ht. apply run_bind_Ok in Ht as (r & s1 & Hr%attempt_Ok & Ht).
  apply run_bind_Ok in Ht as (errs & s2 & He & Ht). destruct r as [e|[]]; [done|].
  injection Ht as -> ->. destruct (Hdo x s s1 ltac:(by left) HP Hr) as [HP1 HD].
  destruct (IH) with (s := s1) as (HP' & Hall & Hold); [..|done|done|].
  - intros y t t' Hy. apply Hdo. by right.
  - intros y z t t' Hy. apply Hkeep. by right.
  - split_and!; [done| |].
    + intros y [->|Hy]%elem_of_cons; [by apply Hold|by apply Hall].
    + intros y Hy. eapply Hold, Hkeep; [by left|exact Hy|exact Hr].
Qed.

Lemma keeps_try_all {S A} (P : S → Prop) (body : A → run S unit) l :
  (∀ x, keeps P (body x)) → keeps P (try_all body l).
Proof. intros Hb. induction l as [|x l IH]; simpl; keeping. Qed.
#[export] Hint Resolve keeps_try_all : keeps.
