(* ===== verification/Garbage.v ===== *)
(** * [controllers/nodeclaim/garbagecollection]: instances without a node claim *)

From stdpp Require Import base list strings gmap.
From Stdlib Require Import ZArith Lia.
From S2P Require Import Prelude GoStrings OciModel Api Options Cache Sched KubeModel Reconcile.
From S2P Require Bootstrap.

Local Open Scope string_scope.

(** [workqueue.ParallelizeUntil] runs its pieces on ten workers: in some order. *)
Class WorkOrder : Type := {
  schedule : ∀ {A : Type}, list A → list A;
  schedule_perm : ∀ {A : Type} (l : list A), schedule l ≡ₚ l
}.

Section Controller.
Context {Q W : Type} {errlib : ErrorLib} `{Clock W} `{Cloud Q W} `{KubeClient Q W} {work : WorkOrder}.

(** The controller's counter and the world. *)
Record State := { successfulCount : Z; gc_world : W }.
Definition set_gc_world (w : W) (s : State) : State := {| successfulCount := successfulCount s; gc_world := w |}.
Definition on_world {A} (m : run W A) : run State A := zoom gc_world set_gc_world m.

Definition managed (nc : NodeClaim Q) : bool := negb (String.eqb (claim_annotation nc ManagedByAnnotationKey) "").
Definition deleting (nc : NodeClaim Q) : bool :=
  match DeletionTimestamp (Claim_Meta nc) with Some _ => true | None => false end.

Definition managedRetrieved (retrieved : list (NodeClaim Q)) : list (NodeClaim Q) :=
  List.filter (λ nc, managed nc && negb (deleting nc)) retrieved.
Definition terminated (retrieved : list (NodeClaim Q)) : list (NodeClaim Q) :=
  List.filter (λ nc, managed nc && deleting nc) retrieved.

Definition resolvedProviderIDs (claims : list (NodeClaim Q)) : gset string :=
  list_to_set (List.filter (λ id, negb (String.eqb id "")) (map Claim_ProviderID claims)).

Definition find_node (nodes : list Node) (nc : NodeClaim Q) : option Node :=
  List.find (λ n, String.eqb (Node_ProviderID n) (Claim_ProviderID nc)) nodes.

(** [if err := kubeClient.Delete(...); err != nil { return IgnoreNotFound(err) }] *)
Definition delete_node (n : Node) : run W unit :=
  r ← attempt (kube_DeleteNode n);
  lift (match r with inl e => ignoring tt (IgnoreNotFound e) | inr _ => Ok tt end).

Definition garbageCollect (nodes : list Node) (nc : NodeClaim Q) : run W unit :=
  r ← attempt (cloud_Delete nc);
  match match r with inl e => IgnoreNodeClaimNotFoundError e | inr _ => None end with
  | Some e => fail e
  | None => match find_node nodes nc with Some n => delete_node n | None => mret tt end
  end.

Definition unreachable (n : Node) : bool :=
  existsb (λ t, String.eqb (Bootstrap.Taint_Key t) TaintNodeUnreachable) (Node_Taints n).

Definition garbageNode (nodes : list Node) (nc : NodeClaim Q) : run W unit :=
  match find_node nodes nc with
  | Some n => if unreachable n then delete_node n else mret tt
  | None => mret tt
  end.

(** No claim of the cluster has the instance, and it is older than [age]. *)
Definition orphan (resolved : gset string) (age now : Z) (nc : NodeClaim Q) : bool :=
  negb (bool_decide (Claim_ProviderID nc ∈ resolved)) && (age <? now - Claim_CreationTimestamp nc)%Z.

(** A piece of work: the check, at the instant it runs, and the collection. *)
Definition when_orphan (resolved : gset string) (age : Z) (collect : NodeClaim Q → run W unit)
    (nc : NodeClaim Q) : run W unit :=
  w ← get_state;
  if orphan resolved age (clock_now w) nc then collect nc else mret tt.

(** The two passes over what the cloud listed. *)
Definition sweep (retrieved claims : list (NodeClaim Q)) (nodes : list Node) : run W (list gerror) :=
  let resolved := resolvedProviderIDs claims in
  errs ← try_all (when_orphan resolved (time_Second * 30) (garbageCollect nodes))
           (schedule (managedRetrieved retrieved));
  errs2 ← try_all (when_orphan resolved (time_Minute * 5) (garbageNode nodes))
            (schedule (terminated retrieved));
  mret (errs ++ errs2)%list.

(** [c.successfulCount++] of a uint64 *)
Definition increment (n : Z) : Z := ((n + 1) mod 2 ^ 64)%Z.

Definition Reconcile : run State Result :=
  retrieved ← map_err (EWrap "listing cloudprovider machines") (on_world cloud_List);
  claims ← on_world (kube_ListNodeClaims None);
  nodes ← on_world (kube_ListNodes (Q := Q));
  errs ← on_world (sweep retrieved claims nodes);
  match Combine errs with
  | Some err => fail err
  | None =>
      s ← get_state;
      let count := increment (successfulCount s) in
      put_state {| successfulCount := count; gc_world := gc_world s |};;
      mret (requeue_after (if (count <=? 20)%Z then time_Second * 10 else time_Minute * 2)%Z)
  end.
End Controller.
Arguments State : clear implicits.

(** ** Properties *)

Section Properties.
Context {Q W : Type} {errlib : ErrorLib} `{Clock W} `{Cloud Q W} `{KubeClient Q W} {work : WorkOrder}.

(** The instances a pass may terminate, and the nodes it may delete. *)
Definition collectable (retrieved claims : list (NodeClaim Q)) (nc : NodeClaim Q) : Prop :=
  nc ∈ retrieved ∧ managed nc = true ∧ deleting nc = false ∧
  (Claim_ProviderID nc = "" ∨ ∀ c, c ∈ claims → Claim_ProviderID c ≠ Claim_ProviderID nc).

Definition orphan_node (claims : list (NodeClaim Q)) (nodes : list Node) (n : Node) : Prop :=
  n ∈ nodes ∧ (Node_ProviderID n = "" ∨ ∀ c, c ∈ claims → Claim_ProviderID c ≠ Node_ProviderID n).

Lemma not_resolved claims id :
  id ∉ resolvedProviderIDs (Q := Q) claims → id = "" ∨ ∀ c, c ∈ claims → Claim_ProviderID c ≠ id.
Proof.
  intros Hid. destruct (decide (id = "")) as [|Hne]; [by left|]. right. intros c Hc Heq. apply Hid.
  unfold resolvedProviderIDs. apply elem_of_list_to_set, list_elem_of_In, List.filter_In.
  rewrite negb_true_iff, String.eqb_neq. split; [|done].
  apply List.in_map_iff. exists c. by rewrite <- list_elem_of_In.
Qed.

Lemma orphan_spec resolved age t (nc : NodeClaim Q) :
  orphan resolved age t nc = true ↔ Claim_ProviderID nc ∉ resolved ∧ (age < t - Claim_CreationTimestamp nc)%Z.
Proof. unfold orphan. rewrite andb_true_iff, negb_true_iff, bool_decide_eq_false, Z.ltb_lt. done. Qed.

Lemma managedRetrieved_elem retrieved (nc : NodeClaim Q) :
  nc ∈ managedRetrieved retrieved ↔ nc ∈ retrieved ∧ managed nc = true ∧ deleting nc = false.
Proof.
  unfold managedRetrieved. rewrite !list_elem_of_In, List.filter_In, andb_true_iff, negb_true_iff. tauto.
Qed.

Lemma find_node_spec nodes (nc : NodeClaim Q) n :
  find_node nodes nc = Some n → n ∈ nodes ∧ Node_ProviderID n = Claim_ProviderID nc.
Proof.
  unfold find_node. intros [Hin Heq]%List.find_some. apply String.eqb_eq in Heq. by rewrite list_elem_of_In.
Qed.

Section Invariant.
Variable P : W → Prop.
Variables (retrieved claims : list (NodeClaim Q)) (nodes : list Node).
Hypothesis delete_keeps : ∀ nc w, collectable retrieved claims nc →
  (time_Second * 30 < clock_now w - Claim_CreationTimestamp nc)%Z → P w → P (cloud_Delete nc w).2.
Hypothesis delete_node_keeps : ∀ n w, orphan_node claims nodes n → P w → P (kube_DeleteNode n w).2.

Lemma delete_node_inv n w : orphan_node claims nodes n → P w → P (delete_node n w).2.
Proof.
  intros Hn Hw. pose proof (delete_node_keeps n w Hn Hw). unfold delete_node, mbind, run_bind, attempt, lift.
  by destruct (kube_DeleteNode n w) as [[]].
Qed.

Lemma garbageCollect_inv nc w :
  nc ∈ managedRetrieved retrieved →
  orphan (resolvedProviderIDs claims) (time_Second * 30) (clock_now w) nc = true →
  P w → P (garbageCollect nodes nc w).2.
Proof.
  intros (Hin & Hm & Hd)%managedRetrieved_elem [Hres Hage]%orphan_spec Hw.
  pose proof (not_resolved _ _ Hres) as Hnr.
  pose proof (delete_keeps nc w ltac:(by split_and!) Hage Hw) as Hdel.
  unfold garbageCollect, mbind, run_bind, attempt.
  assert (∀ w', P w' → P (match find_node nodes nc with Some n => delete_node n | None => mret tt end w').2) as Hclean.
  { intros w' Hw'. destruct (find_node nodes nc) as [n|] eqn:Hn; [|done].
    apply find_node_spec in Hn as [? Hid]. apply delete_node_inv; [|done]. split; [done|]. by rewrite Hid. }
  destruct (cloud_Delete nc w) as [[a|e|why] w1]; simpl in *; [by apply Hclean| |done].
  destruct (IgnoreNodeClaimNotFoundError e); [done|by apply Hclean].
Qed.

Lemma garbageNode_inv nc w :
  Claim_ProviderID nc ∉ resolvedProviderIDs claims → P w → P (garbageNode nodes nc w).2.
Proof.
  intros Hres Hw. unfold garbageNode. destruct (find_node nodes nc) as [n|] eqn:Hn; [|done].
  apply find_node_spec in Hn as [? Hid]. destruct (unreachable n); [|done].
  apply delete_node_inv; [|done]. split; [done|]. rewrite Hid. by apply not_resolved.
Qed.

(** A pass whose collections keep the invariant. *)
Lemma pass_inv age (collect : NodeClaim Q → run W unit) l w :
  (∀ nc w, nc ∈ l → orphan (resolvedProviderIDs claims) age (clock_now w) nc = true → P w → P (collect nc w).2) →
  P w → P (try_all (when_orphan (resolvedProviderIDs claims) age collect) (schedule l) w).2.
Proof.
  intros Hc. apply try_all_inv. intros x s Hx Hs. rewrite schedule_perm in Hx.
  unfold when_orphan, mbind, run_bind, get_state. destruct (orphan _ _ _ x) eqn:Ho; [by apply Hc|done].
Qed.

Lemma sweep_inv w : P w → P (sweep retrieved claims nodes w).2.
Proof.
  intros Hw. unfold sweep, mbind, run_bind.
  pose proof (pass_inv (time_Second * 30) (garbageCollect nodes) (managedRetrieved retrieved) w
    garbageCollect_inv Hw) as Hw1.
  destruct (try_all _ (schedule (managedRetrieved retrieved)) w) as [[errs|e|why] w1]; simpl in *; [|done..].
  assert (P (try_all (when_orphan (resolvedProviderIDs claims) (time_Minute * 5) (garbageNode nodes))
    (schedule (terminated retrieved)) w1).2) as Hw2.
  { apply pass_inv; [|done]. intros nc w2 _ [Ho _]%orphan_spec. by apply garbageNode_inv. }
  by destruct (try_all _ (schedule (terminated retrieved)) w1) as [[]].
Qed.
End Invariant.

(** Whatever a pass of the collector returns, it only terminates listed, managed instances
    that are not terminating, are older than 30 seconds and have no claim, and only deletes
    nodes without a claim: an invariant of the world that these calls keep holds after the pass.
    *)
Theorem Garbage_safe (P : W → Prop) (s s' : State W) (retrieved claims : list (NodeClaim Q)) (nodes : list Node)
    (w1 w2 w3 : W) (r : res Result) :
  cloud_List (gc_world s) = (Ok retrieved, w1) → kube_ListNodeClaims None w1 = (Ok claims, w2) →
  kube_ListNodes (Q := Q) w2 = (Ok nodes, w3) →
  (∀ nc w, collectable retrieved claims nc →
     (time_Second * 30 < clock_now w - Claim_CreationTimestamp nc)%Z → P w → P (cloud_Delete nc w).2) →
  (∀ n w, orphan_node claims nodes n → P w → P (kube_DeleteNode n w).2) →
  P w3 → Reconcile s = (r, s') → P (gc_world s').
Proof.
  intros Hl Hc Hn Hdel Hnode HP Hr.
  pose proof (sweep_inv P retrieved claims nodes Hdel Hnode w3 HP) as Hs.
  unfold Reconcile, map_err, on_world, zoom, mbind, run_bind in Hr. rewrite Hl in Hr. simpl in Hr.
  rewrite Hc in Hr. simpl in Hr. rewrite Hn in Hr. simpl in Hr.
  destruct (sweep retrieved claims nodes w3) as [[errs|e|why] w4]; simpl in *; [|by injection Hr as _ <-..].
  by destruct (Combine errs); injection Hr as _ <-.
Qed.

(** A pass in which nothing panics. *)
Lemma sweep_Ok retrieved claims nodes (w w' : W) errs :
  sweep (Q := Q) retrieved claims nodes w = (Ok errs, w') →
  ∃ e1 w1 e2, try_all (when_orphan (resolvedProviderIDs claims) (time_Second * 30) (garbageCollect nodes))
      (schedule (managedRetrieved retrieved)) w = (Ok e1, w1) ∧
    try_all (when_orphan (resolvedProviderIDs claims) (time_Minute * 5) (garbageNode nodes))
      (schedule (terminated retrieved)) w1 = (Ok e2, w') ∧ errs = (e1 ++ e2)%list.
Proof.
  unfold sweep. intros (e1 & w1 & H1' & Hr)%run_bind_Ok. apply run_bind_Ok in Hr as (e2 & w2 & H2' & Hr).
  injection Hr as <- <-. by exists e1, w1, e2.
Qed.

(** The counter, and the delay before the next pass. *)
Theorem Garbage_requeue (s s' : State W) (result : Result) :
  Reconcile (Q := Q) s = (Ok result, s') →
  successfulCount s' = increment (successfulCount s) ∧ Requeue result = false ∧
  RequeueAfter result =
    (if (successfulCount s' <=? 20)%Z then 10 * 10 ^ 9 else 120 * 10 ^ 9)%Z.
Proof.
  unfold Reconcile. intros (l & s1 & Hl%map_err_Ok & Hr)%run_bind_Ok.
  apply run_bind_Ok in Hr as (c & s2 & Hc & Hr). apply run_bind_Ok in Hr as (n & s3 & Hn & Hr).
  apply run_bind_Ok in Hr as (errs & s4 & He & Hr).
  assert (∀ A (m : run W A) s a s', on_world m s = (Ok a, s') → successfulCount s' = successfulCount s) as Hkeep.
  { intros A m t a t' Hm. unfold on_world, zoom in Hm. destruct (m (gc_world t)). by injection Hm as _ <-. }
  apply Hkeep in Hl, Hc, Hn, He. destruct (Combine errs); [done|].
  injection Hr as <- <-. simpl. rewrite <- Hl, <- Hc, <- Hn, <- He. split_and!; [done..|].
  by destruct (_ <=? 20)%Z.
Qed.

Lemma Combine_None errs : Combine errs = None → errs = [].
Proof. by destruct errs as [|e [|e' errs]]. Qed.

Section Collects.
(** [Terminated] is what a termination achieves; nothing undoes it, and time
    does not go back. *)
Variable Terminated : NodeClaim Q → W → Prop.
Definition onwards (w w' : W) : Prop :=
  (clock_now w <= clock_now w')%Z ∧ ∀ y, Terminated y w → Terminated y w'.

Hypothesis delete_spec : ∀ nc w r w', cloud_Delete nc w = (r, w') → onwards w w' ∧
  match r with
  | Ok _ => Terminated nc w'
  | Err e => IsNodeClaimNotFoundError e = true → Terminated nc w'
  | Panic _ => True
  end.
Hypothesis delete_node_spec : ∀ n w r w', kube_DeleteNode (Q := Q) n w = (r, w') → onwards w w'.

Lemma onwards_trans w1 w2 w3 : onwards w1 w2 → onwards w2 w3 → onwards w1 w3.
Proof. intros [? ?] [? ?]. split; [lia|auto]. Qed.
Lemma onwards_refl w : onwards w w.
Proof. split; [lia|done]. Qed.

Lemma clean_onwards nodes (nc : NodeClaim Q) (unr : Node → bool) w w' :
  match find_node nodes nc with
  | Some n => if unr n then delete_node (Q := Q) n else mret tt
  | None => mret tt
  end w = (Ok tt, w') → onwards w w'.
Proof.
  destruct (find_node nodes nc) as [n|]; [destruct (unr n)|]; try (intros [= <-]; apply onwards_refl).
  unfold delete_node, mbind, run_bind, attempt, lift. destruct (kube_DeleteNode n w) as [a w''] eqn:Hk.
  pose proof (delete_node_spec n w a w'' Hk). destruct a; intros Heq; apply (f_equal snd) in Heq; simpl in Heq; by subst.
Qed.

Lemma garbageCollect_Ok nodes nc w w' :
  garbageCollect nodes nc w = (Ok tt, w') → onwards w w' ∧ Terminated nc w'.
Proof.
  unfold garbageCollect. intros (r & w1 & Hr%attempt_Ok & Hx)%run_bind_Ok.
  pose proof (clean_onwards nodes nc (λ _, true) w1 w') as Hclean. cbn beta iota in Hclean.
  destruct r as [e|[]]; destruct (delete_spec _ _ _ _ Hr) as [Ho Ht].
  - unfold IgnoreNodeClaimNotFoundError in Hx. destruct (IsNodeClaimNotFoundError e); [|done].
    specialize (Hclean Hx). split; [by eapply onwards_trans|]. by apply Hclean, Ht.
  - specialize (Hclean Hx). split; [by eapply onwards_trans|]. by apply Hclean, Ht.
Qed.

(** A pass that ends well has terminated every orphan old enough. *)
Theorem Garbage_collects (s s' : State W) (retrieved claims : list (NodeClaim Q)) (nodes : list Node)
    (w1 w2 w3 : W) (result : Result) (nc : NodeClaim Q) :
  cloud_List (gc_world s) = (Ok retrieved, w1) → kube_ListNodeClaims None w1 = (Ok claims, w2) →
  kube_ListNodes (Q := Q) w2 = (Ok nodes, w3) → Reconcile s = (Ok result, s') →
  nc ∈ retrieved → managed nc = true → deleting nc = false →
  Claim_ProviderID nc ∉ resolvedProviderIDs claims →
  (time_Second * 30 < clock_now w3 - Claim_CreationTimestamp nc)%Z → Terminated nc (gc_world s').
Proof.
  intros Hl Hc Hn Hr Hin Hm Hd Hres Hage.
  unfold Reconcile, map_err, on_world, zoom, mbind, run_bind in Hr. rewrite Hl in Hr. simpl in Hr.
  rewrite Hc in Hr. simpl in Hr. rewrite Hn in Hr. simpl in Hr.
  destruct (sweep retrieved claims nodes w3) as [[errs|e|why] w4] eqn:Hsweep; simpl in *; [|done..].
  destruct (Combine errs) eqn:Herrs; [done|]. apply Combine_None in Herrs as ->. injection Hr as _ <-. simpl.
  apply sweep_Ok in Hsweep as (e1 & w5 & e2 & Hs1 & Hs2 & Hnil).
  symmetry in Hnil. apply app_eq_nil in Hnil as [-> ->].
  apply (try_all_each _ (λ w, clock_now w3 <= clock_now w)%Z (λ x w, x = nc → Terminated x w)) in Hs1 as (Hle & Hall & _);
    [| | |lia].
  - apply (try_all_each _ (λ _, True) (λ x w, x = nc → Terminated x w)) in Hs2 as (_ & _ & Hkeep); [| | |done].
    + apply Hkeep; [|done]. apply Hall. rewrite schedule_perm. by apply managedRetrieved_elem.
    + intros x t t' Hx _ Hb. split; [done|]. intros ->. rewrite schedule_perm in Hx.
      unfold terminated in Hx. apply list_elem_of_In, List.filter_In in Hx as [_ Hx]. rewrite Hd, andb_false_r in Hx. done.
    + intros x y t t' Hx Hy Hb ->. unfold when_orphan in Hb. apply run_bind_Ok in Hb as (wa & wb & Hg & Hb).
      injection Hg as <- <-. destruct (orphan _ _ _ x); [|injection Hb as <-; auto].
      apply (clean_onwards nodes x unreachable) in Hb as [_ Hk]. auto.
  - intros x t t' Hx Hle Hb. unfold when_orphan in Hb. apply run_bind_Ok in Hb as (wa & wb & Hg & Hb).
    injection Hg as <- <-. destruct (orphan _ _ _ x) eqn:Ho.
    + apply garbageCollect_Ok in Hb as [[? ?] ?]. split; [lia|done].
    + injection Hb as <-. split; [done|]. intros ->. exfalso. apply not_true_iff_false in Ho.
      apply Ho, orphan_spec. split; [done|lia].
  - intros x y t t' Hx Hy Hb ->. unfold when_orphan in Hb. apply run_bind_Ok in Hb as (wa & wb & Hg & Hb).
    injection Hg as <- <-. destruct (orphan _ _ _ x); [|injection Hb as <-; auto].
    apply garbageCollect_Ok in Hb as [[_ Hk] _]. auto.
Qed.
End Collects.
End Properties.
