(* ===== verification/Workers.v ===== *)
(** * The workers of the collector

    [workqueue.ParallelizeUntil] runs the checks and terminations of a pass on
    ten workers.  Here each piece of work is a goroutine cut at its calls
    ([Threads]), and a pass ([Reconciling]) has every outcome that some order
    of the calls gives, of the workers' among themselves and of whatever else
    the program and the world do meanwhile; fewer than all at once is one of
    these orders.  [Garbage] is the same pass with whole pieces one after the
    other. *)

From stdpp Require Import base list strings gmap relations.
From Stdlib Require Import ZArith Lia.
From S2P Require Import Prelude Frame Threads Rely GoStrings OciModel Api Options Cache Sched KubeModel Reconcile.
From S2P Require Import Garbage.

Local Open Scope string_scope.

Section Workers.
Context {Q W : Type} {errlib : ErrorLib} `{Clock W} `{Cloud Q W} `{KubeClient Q W}.

(** ** The pieces of work *)

Notation worker := (thread Empty_set W unit).

Definition deleting_node (n : Node) : worker :=
  r ← attempting (act (kube_DeleteNode n));
  pure (match r with inl e => ignoring tt (IgnoreNotFound e) | inr _ => Ok tt end).

Definition garbageCollecting (nodes : list Node) (nc : NodeClaim Q) : worker :=
  r ← attempting (act (cloud_Delete nc));
  match match r with inl e => IgnoreNodeClaimNotFoundError e | inr _ => None end with
  | Some e => throw e
  | None => match find_node nodes nc with Some n => deleting_node n | None => mret tt end
  end.

Definition garbageNoding (nodes : list Node) (nc : NodeClaim Q) : worker :=
  match find_node nodes nc with
  | Some n => if unreachable n then deleting_node n else mret tt
  | None => mret tt
  end.

(** The check, at the instant it runs, and then the collection. *)
Definition checking (resolved : gset string) (age : Z) (collect : NodeClaim Q → worker) (nc : NodeClaim Q) : worker :=
  old ← reading (λ w, Ok (orphan resolved age (clock_now w) nc));
  if old : bool then collect nc else mret tt.

(** ** A pass *)

(** What else happens meanwhile. *)
Variable other : W → W → Prop.

(** The two loops over what the cloud listed. *)
Definition sweeping (retrieved claims : list (NodeClaim Q)) (nodes : list Node) : rel W (list gerror) :=
  let resolved := resolvedProviderIDs claims in
  errs ← all_of other (map (checking resolved (time_Second * 30) (garbageCollecting nodes)) (managedRetrieved retrieved));
  errs2 ← all_of other (map (checking resolved (time_Minute * 5) (garbageNoding nodes)) (terminated retrieved));
  mret (errs ++ errs2)%list.

(** A call of the world, beside the counter. *)
Definition over_world {A} (m : rel W A) : rel (State W) A := λ s r s',
  ∃ w', m (gc_world s) r w' ∧ s' = set_gc_world w' s.

(** The end of a pass without errors: the counter and the next pass. *)
Definition counted : rel (State W) Result := λ s r s',
  let count := increment (successfulCount s) in
  r = Ok (requeue_after (if (count <=? 20)%Z then time_Second * 10 else time_Minute * 2)%Z) ∧
  s' = {| successfulCount := count; gc_world := gc_world s |}.

Definition Reconciling : rel (State W) Result :=
  retrieved ← over_world (calls other (map_err (EWrap "listing cloudprovider machines") cloud_List));
  claims ← over_world (calls other (kube_ListNodeClaims None));
  nodes ← over_world (calls other (kube_ListNodes (Q := Q)));
  errs ← over_world (sweeping retrieved claims nodes);
  match Combine errs with
  | Some err => rel_fail err
  | None => counted
  end.

(** ** Alone, a piece is what [Garbage] has it *)

Lemma deleting_node_alone n : implements (deleting_node n) (delete_node n).
Proof. unfold deleting_node, delete_node. implementing. Qed.

Lemma garbageCollecting_alone nodes nc : implements (garbageCollecting nodes nc) (garbageCollect nodes nc).
Proof. pose proof deleting_node_alone. unfold garbageCollecting, garbageCollect. implementing. Qed.

Lemma garbageNoding_alone nodes nc : implements (garbageNoding nodes nc) (garbageNode nodes nc).
Proof. pose proof deleting_node_alone. unfold garbageNoding, garbageNode. implementing. Qed.

Lemma checking_alone resolved age collect collect' nc :
  implements (collect nc) (collect' nc) →
  implements (checking resolved age collect nc) (when_orphan resolved age collect' nc).
Proof.
  intros Hc s. unfold checking, when_orphan, mbind, thread_bind, run_bind, get_state, reading, act. simpl.
  by destruct (orphan _ _ _ nc).
Qed.

(** ** One piece after the other is one of the orders *)

Lemma try_all_moves {X} (t : X → worker) (body : X → run W unit) l (ds : list worker) w errs w' :
  (∀ x, plain (t x)) → (∀ x, implements (t x) (body x)) → try_all body l w = (Ok errs, w') →
  ∃ rs, rtc move {| threads := (ds ++ map t l)%list; held := ∅ : gmap Empty_set nat; shared := w |}
      {| threads := (ds ++ map Done rs)%list; held := ∅; shared := w' |} ∧
    gathered (map Done rs : list worker) = Some errs ∧ omap crash (map Done rs : list worker) = [].
Proof.
  intros Hplain Himpl. revert ds w errs. induction l as [|x l IH]; intros ds w errs.
  { intros [= <- <-]. exists []. split_and!; [apply rtc_refl|done..]. }
  cbn [try_all]. intros (r & w1 & Hr%attempt_Ok & Ht)%run_bind_Ok. apply run_bind_Ok in Ht as (errs1 & w2 & Ht & He).
  injection He as <- <-.
  assert (∃ a, body x w = (a, w1) ∧ match r with inl e => a = Err e | inr u => a = Ok u end) as (a & Hbody & Ha).
  { destruct r; eauto. }
  destruct (IH (ds ++ [Done a])%list w1 errs1 Ht) as (rs & Hmoves & Hg & Hc). exists (a :: rs).
  split_and!.
  - eapply rtc_trans; [eapply (moves_alone (t x) (Hplain x) (length ds)); simpl; by rewrite list_lookup_middle|].
    simpl. rewrite (Himpl x), Hbody. rewrite insert_app_r_alt, Nat.sub_diag by done. simpl.
    by rewrite <- !app_assoc in Hmoves.
  - destruct r as [e|[]]; subst a; simpl; by rewrite Hg.
  - destruct r as [e|[]]; subst a; exact Hc.
Qed.

Lemma try_all_all_of {X} (t : X → worker) (body : X → run W unit) l w errs w' :
  (∀ x, plain (t x)) → (∀ x, implements (t x) (body x)) → try_all body l w = (Ok errs, w') →
  all_of other (map t l) w (Ok errs) w'.
Proof.
  intros Hplain Himpl Ht. destruct (try_all_moves t body l [] w errs w' Hplain Himpl Ht) as (rs & Hmoves & Hg & Hc).
  eexists. split; [by apply moves_steps|]. split; [|done]. unfold outcome. simpl. by rewrite Hc, Hg.
Qed.

Lemma deleting_node_plain n : plain (deleting_node n).
Proof. unfold deleting_node. apply plain_bind; [apply plain_attempt, plain_act|]. intros r. apply plain_pure. Qed.

Lemma garbageCollecting_plain nodes nc : plain (garbageCollecting nodes nc).
Proof.
  unfold garbageCollecting. apply plain_bind; [apply plain_attempt, plain_act|]. intros r.
  destruct (match r with inl _ => _ | inr _ => _ end); [apply plain_throw|].
  destruct (find_node nodes nc); [apply deleting_node_plain|apply plain_ret].
Qed.

Lemma garbageNoding_plain nodes nc : plain (garbageNoding nodes nc).
Proof.
  unfold garbageNoding. destruct (find_node nodes nc) as [n|]; [|apply plain_ret].
  destruct (unreachable n); [apply deleting_node_plain|apply plain_ret].
Qed.

Lemma checking_plain resolved age collect (nc : NodeClaim Q) :
  plain (collect nc) → plain (checking resolved age collect nc).
Proof. intros Hc. unfold checking. apply plain_bind; [apply plain_reading|]. intros []; [done|apply plain_ret]. Qed.

Lemma on_world_Ok {A} (m : run W A) s a s' :
  on_world m s = (Ok a, s') → ∃ w', m (gc_world s) = (Ok a, w') ∧ s' = set_gc_world w' s.
Proof. unfold on_world, zoom. destruct (m (gc_world s)) as [r w']. intros [= -> <-]. by exists w'. Qed.

(** A successful pass of [Garbage], with the pieces in their order, is one of the passes. *)
Theorem Reconcile_is_pass `{!WorkOrder} (s s' : State W) (result : Result) :
  (∀ (l : list (NodeClaim Q)), schedule l = l) →
  Reconcile (Q := Q) s = (Ok result, s') → Reconciling s (Ok result) s'.
Proof.
  intros Horder Hr. unfold Reconcile in Hr.
  apply run_bind_Ok in Hr as (retrieved & s1 & (w1 & Hc1 & ->)%map_err_Ok%on_world_Ok & Hr).
  apply run_bind_Ok in Hr as (claims & s2 & (w2 & Hc2 & ->)%on_world_Ok & Hr).
  apply run_bind_Ok in Hr as (nodes & s3 & (w3 & Hc3 & ->)%on_world_Ok & Hr).
  apply run_bind_Ok in Hr as (errs & s4 & (w4 & Hs & ->)%on_world_Ok & Hr). simpl in *.
  assert (∀ A (m : run W A) w r w', m w = (r, w') → calls other m w r w') as Hcall.
  { intros A m w r w' Hm. exists w. split; [apply rtc_refl|done]. }
  assert (sweeping retrieved claims nodes w3 (Ok errs) w4) as Hsweep.
  { apply sweep_Ok in Hs as (e1 & w5 & e2 & H1' & H2' & ->). rewrite Horder in H1', H2'.
    exists (Ok e1), w5. split.
    - eapply try_all_all_of; [|intros nc; apply checking_alone, garbageCollecting_alone|exact H1'].
      intros nc. apply checking_plain, garbageCollecting_plain.
    - exists (Ok e2), w4. split; [|done].
      eapply try_all_all_of; [|intros nc; apply checking_alone, garbageNoding_alone|exact H2'].
      intros nc. apply checking_plain, garbageNoding_plain. }
  unfold Reconciling.
  exists (Ok retrieved), (set_gc_world w1 s). split; [by exists w1; split; [by apply Hcall, map_err_Ok|]|].
  exists (Ok claims), (set_gc_world w2 s). split; [by exists w2; split; [by apply Hcall|]|].
  exists (Ok nodes), (set_gc_world w3 s). split; [by exists w3; split; [by apply Hcall|]|].
  exists (Ok errs), (set_gc_world w4 s). split; [by exists w4|].
  destruct (Combine errs); [done|]. injection Hr as <- <-. split; done.
Qed.

(** ** What a pass does, whatever the order of the calls *)

Section Spec.
(** [Terminated] is what a termination achieves; nothing undoes it, and time
    does not go back. *)
Variable Terminated : NodeClaim Q → W → Prop.
(** An invariant of the world, given what a pass listed. *)
Variable P : list (NodeClaim Q) → list (NodeClaim Q) → list Node → W → Prop.

Notation onwards := (onwards Terminated).
Hypothesis delete_spec : ∀ nc w r w', cloud_Delete nc w = (r, w') → onwards w w' ∧
  match r with
  | Ok _ => Terminated nc w'
  | Err e => IsNodeClaimNotFoundError e = true → Terminated nc w'
  | Panic _ => True
  end.
Hypothesis delete_node_spec : ∀ n w r w', kube_DeleteNode (Q := Q) n w = (r, w') → onwards w w'.
Hypothesis other_spec : ∀ w w', other w w' → onwards w w'.
(** The invariant is kept by others, by the termination of an old orphan, and
    by the deletion of the node of an orphan. *)
Hypothesis other_keeps : ∀ l c n w w', other w w' → P l c n w → P l c n w'.
Hypothesis delete_keeps : ∀ l c n nc w, collectable l c nc →
  (time_Second * 30 < clock_now w - Claim_CreationTimestamp nc)%Z → P l c n w → P l c n (cloud_Delete nc w).2.
Hypothesis delete_node_keeps : ∀ l c ns n w, orphan_node c ns n → P l c ns w → P l c ns (kube_DeleteNode (Q := Q) n w).2.

Section Sweep.
Variables (retrieved claims : list (NodeClaim Q)) (nodes : list Node) (w0 : W).
Notation resolved := (resolvedProviderIDs claims).

(** What every step of everyone does. *)
Definition sweeps (w w' : W) : Prop :=
  onwards w w' ∧ (P retrieved claims nodes w → P retrieved claims nodes w').

Lemma sweeps_refl w : sweeps w w.
Proof. split; [apply onwards_refl|done]. Qed.
Lemma sweeps_trans w w' : rtc sweeps w w' → sweeps w w'.
Proof.
  induction 1 as [w|w w1 w' [? ?] _ [? ?]]; [apply sweeps_refl|]. split; [by eapply onwards_trans|auto].
Qed.
Lemma other_sweeps w w' : other w w' → sweeps w w'.
Proof. intros Ho. split; [by apply other_spec|by apply other_keeps]. Qed.

Lemma stable_Terminated nc : stable sweeps (Terminated nc).
Proof. intros w w' [[_ Ht] _]. apply Ht. Qed.
Lemma stable_orphan age (nc : NodeClaim Q) : stable sweeps (λ w, orphan resolved age (clock_now w) nc = true).
Proof.
  intros w w' [[Hc _] _] [Hres Hage]%orphan_spec. apply orphan_spec. split; [done|]. simpl in Hc. lia.
Qed.
Lemma stable_const (p : Prop) : stable sweeps (λ _, p).
Proof. by intros w w' _. Qed.

Lemma delete_node_sweeps n w : orphan_node claims nodes n → sweeps w (kube_DeleteNode (Q := Q) n w).2.
Proof.
  intros Hn. destruct (kube_DeleteNode n w) as [r w'] eqn:Hd. split; [by eapply delete_node_spec|].
  pose proof (delete_node_keeps retrieved claims nodes n w Hn) as Hk. by rewrite Hd in Hk.
Qed.

(** The deletion of a node keeps what was achieved. *)
Lemma deleting_node_does (p : W → Prop) n :
  orphan_node claims nodes n → stable sweeps p → does sweeps p (deleting_node n) (λ _, p).
Proof.
  intros Hn Hp. apply (does_bind _ _ _ (λ _, p)); [|by intros [e|[]] s Hs|done].
  apply does_attempt, does_act; [|done]. intros s Hs. pose proof (delete_node_sweeps n s Hn) as Hg.
  split; [done|by eapply Hp].
Qed.

Lemma cleaning_does (p : W → Prop) (nc : NodeClaim Q) :
  Claim_ProviderID nc ∉ resolved → stable sweeps p →
  does sweeps p (match find_node nodes nc with Some n => deleting_node n | None => mret tt end) (λ _, p).
Proof.
  intros Hres Hp. destruct (find_node nodes nc) as [n|] eqn:Hn; [|by apply does_ret].
  apply find_node_spec in Hn as [? Hid]. apply deleting_node_does; [|done]. split; [done|]. rewrite Hid.
  by apply not_resolved.
Qed.

(** A piece of the first loop: without an error, its instance is terminated. *)
Lemma garbageCollecting_does nc :
  nc ∈ managedRetrieved retrieved →
  does sweeps (λ w, orphan resolved (time_Second * 30) (clock_now w) nc = true) (garbageCollecting nodes nc)
    (λ r w, r = Ok tt → Terminated nc w).
Proof.
  intros Hin. destruct (decide (Claim_ProviderID nc ∈ resolved)) as [Hyes|Hres].
  { apply does_False. intros w [Hno _]%orphan_spec. by apply Hno. }
  set (done_ := λ r : res unit, λ w, match r with
    | Ok _ => Terminated nc w
    | Err e => IsNodeClaimNotFoundError e = true → Terminated nc w
    | Panic _ => True end).
  assert (∀ r, stable sweeps (done_ r)) as Hst.
  { intros [u|e|why] w w' Hs; simpl; [by apply stable_Terminated| |done]. intros Hd He.
    eapply stable_Terminated; [exact Hs|by apply Hd]. }
  apply (does_bind _ _ _ (λ r w, match r with
    | Ok (inr a) => done_ (Ok a) w | Ok (inl e) => done_ (Err e) w | Err _ => False | Panic _ => True end)).
  - apply does_attempt, does_act.
    + intros w Ho. destruct (cloud_Delete nc w) as [r w'] eqn:Hd. destruct (delete_spec nc w r w' Hd) as [? ?].
      apply managedRetrieved_elem in Hin as (? & ? & ?). apply orphan_spec in Ho as [? Hage]. split.
      * split; [done|]. pose proof (delete_keeps retrieved claims nodes nc w) as Hk. rewrite Hd in Hk.
        apply Hk; [|done]. split_and!; try done. by apply not_resolved.
      * by destruct r.
    + intros [u|e|why]; apply (Hst (Ok u)) || apply (Hst (Err e)) || apply stable_const.
  - intros [e|u]; simpl; unfold IgnoreNodeClaimNotFoundError.
    + destruct (IsNodeClaimNotFoundError e); [|by intros w _].
      eapply does_weaken; [|eapply does_post; [apply (cleaning_does (Terminated nc) nc Hres), stable_Terminated|]];
        [by auto|by auto].
    + eapply does_post; [apply (cleaning_does (Terminated nc) nc Hres), stable_Terminated|by auto].
  - by intros [?|?|?] r' s Hr Hs; simplify_eq/=.
Qed.

(** An orphan that is old enough before its check is terminated by its piece. *)
Lemma checking_does nc :
  nc ∈ managedRetrieved retrieved →
  does sweeps (λ w, clock_now w0 <= clock_now w)%Z
    (checking resolved (time_Second * 30) (garbageCollecting nodes) nc)
    (λ r w, r = Ok tt → orphan resolved (time_Second * 30) (clock_now w0) nc = true → Terminated nc w).
Proof.
  intros Hin. set (old := λ w, orphan resolved (time_Second * 30) (clock_now w) nc).
  apply (does_bind _ _ _ (λ r w, match r with Ok true => old w = true | Ok false => old w0 = false | _ => False end)).
  - apply does_act.
    + intros w Hw. simpl. split; [apply sweeps_refl|]. fold (old w). destruct (old w) eqn:Ho; [done|].
      apply not_true_iff_false. intros [? Hage]%orphan_spec. apply not_true_iff_false in Ho. apply Ho, orphan_spec.
      split; [done|lia].
    + intros [[]|e|why]; [apply stable_orphan|apply stable_const..].
  - intros []; [|by intros w Ho _; unfold old in Ho; rewrite Ho].
    eapply does_post; [by apply garbageCollecting_does|]. by auto.
  - by intros [?|?|?] r' w Hr Hs; simplify_eq/=.
Qed.

Lemma noding_does (nc : NodeClaim Q) :
  does sweeps (λ _, True) (checking resolved (time_Minute * 5) (garbageNoding nodes) nc) (λ _ _, True).
Proof.
  destruct (decide (Claim_ProviderID nc ∈ resolved)) as [Hyes|Hres].
  - apply (does_bind _ _ _ (λ r _, r ≠ Ok true)); [|intros []; [by apply does_False; intros w []|done]|done].
    apply does_act; [|intros r; apply stable_const]. intros w _. simpl. split; [apply sweeps_refl|].
    intros [= [Hno _]%orphan_spec]. by apply Hno.
  - apply (does_bind _ _ _ (λ _ _, True)); [|intros []|done].
    + apply does_act; [|intros r; apply stable_const]. intros w _. simpl. split; [apply sweeps_refl|done].
    + unfold garbageNoding. destruct (find_node nodes nc) as [n|] eqn:Hn; [|done]. destruct (unreachable n); [|done].
      apply find_node_spec in Hn as [? Hid]. apply deleting_node_does; [|apply stable_const].
      split; [done|]. rewrite Hid. by apply not_resolved.
    + done.
Qed.

(** Both loops: the invariant, and without an error every old orphan is terminated. *)
Lemma sweeping_does r w' :
  sweeping retrieved claims nodes w0 r w' →
  sweeps w0 w' ∧ (r = Ok [] → ∀ nc, nc ∈ managedRetrieved retrieved →
    orphan resolved (time_Second * 30) (clock_now w0) nc = true → Terminated nc w').
Proof.
  intros (r1 & w1 & Hfirst & Hr).
  apply (all_of_does other sweeps _ (λ i r w, ∀ nc, managedRetrieved retrieved !! i = Some nc → r = Ok tt →
    orphan resolved (time_Second * 30) (clock_now w0) nc = true → Terminated nc w)) in Hfirst as [HG1 Hdone];
    [|apply other_sweeps|].
  2: { intros i t Ht. rewrite list_lookup_fmap in Ht. destruct (managedRetrieved retrieved !! i) as [nc|] eqn:Hi; [|done].
       injection Ht as <-. exists (λ w, clock_now w0 <= clock_now w)%Z. split_and!; [|lia|].
       - intros w w2 [[? _] _]. simpl. lia.
       - eapply does_post; [by eapply checking_does, list_elem_of_lookup_2|]. intros r2 w2 Hp nc2 [= <-]. done. }
  apply sweeps_trans in HG1.
  destruct r1 as [errs|e|why]; [|by destruct Hr as [-> ->]..]. destruct Hr as (r2 & w2 & Hsecond & Hr).
  apply (all_of_does other sweeps _ (λ _ _ _, True)) in Hsecond as [HG2 _]; [|apply other_sweeps|].
  2: { intros i t Ht. rewrite list_lookup_fmap in Ht. destruct (terminated retrieved !! i) as [nc|]; [|done].
       injection Ht as <-. exists (λ _, True). split_and!; [apply stable_const|done|apply noding_does]. }
  apply sweeps_trans in HG2.
  assert (sweeps w0 w2) as HG by (apply sweeps_trans; eapply rtc_l; [exact HG1|by apply rtc_once]).
  destruct r2 as [errs2|e|why]; [|by destruct Hr as [-> ->]..]. destruct Hr as [-> ->]. split; [done|].
  intros [= [-> ->]%app_eq_nil] nc [i Hi]%list_elem_of_lookup_1 Ho.
  apply (stable_Terminated nc w1); [done|]. eapply Hdone; [done| |exact Hi|done|done].
  rewrite length_fmap. by eapply lookup_lt_Some.
Qed.
End Sweep.

(** ** The pass *)

Lemma sweeping_returns retrieved claims nodes w : ∃ r w', sweeping retrieved claims nodes w r w'.
Proof.
  destruct (all_of_returns other (map (checking (resolvedProviderIDs claims) (time_Second * 30) (garbageCollecting nodes))
    (managedRetrieved retrieved)) w) as (r1 & w1 & Hfirst).
  { apply Forall_fmap, Forall_true. intros nc. apply checking_plain, garbageCollecting_plain. }
  destruct r1 as [errs|e|why]; [|by eexists _, _, _, _; split; [exact Hfirst|]..].
  destruct (all_of_returns other (map (checking (resolvedProviderIDs claims) (time_Minute * 5) (garbageNoding nodes))
    (terminated retrieved)) w1) as (r2 & w2 & Hsecond).
  { apply Forall_fmap, Forall_true. intros nc. apply checking_plain, garbageNoding_plain. }
  destruct r2 as [errs2|e|why]; eexists _, w2, _, w1; (split; [exact Hfirst|]);
    eexists _, w2; (split; [exact Hsecond|done]).
Qed.

(** What the three listings of a pass gave, and the world after them. *)
Definition listed (w : W) (retrieved claims : list (NodeClaim Q)) (nodes : list Node) (w3 : W) : Prop :=
  ∃ w1 w2, calls other (map_err (EWrap "listing cloudprovider machines") cloud_List) w (Ok retrieved) w1 ∧
    calls other (kube_ListNodeClaims None) w1 (Ok claims) w2 ∧
    calls other (kube_ListNodes (Q := Q)) w2 (Ok nodes) w3.

(** Only listings, beside what others do. *)
Definition only_lists : relation W := rtc (λ w w',
  other w w' ∨ w' = (cloud_List (Q := Q) w).2 ∨ w' = (kube_ListNodeClaims (Q := Q) None w).2 ∨
  w' = (kube_ListNodes (Q := Q) w).2).

Lemma calls_only {A} (m : run W A) w r w' :
  (∀ w, (m w).2 = (cloud_List (Q := Q) w).2 ∨ (m w).2 = (kube_ListNodeClaims (Q := Q) None w).2 ∨
    (m w).2 = (kube_ListNodes (Q := Q) w).2) →
  calls other m w r w' → only_lists w w'.
Proof.
  intros Hm (w1 & Ho & Hr). unfold only_lists. transitivity w1.
  - eapply rtc_subrel; [|exact Ho]. intros x y Hxy. by left.
  - apply rtc_once. right. specialize (Hm w1). by rewrite Hr in Hm.
Qed.

Lemma over_world_bind {A B} (m : rel W A) (f : A → rel (State W) B) s r s' :
  (over_world m ≫= f) s r s' ↔ ∃ r1 w1, m (gc_world s) r1 w1 ∧
    match r1 with
    | Ok a => f a (set_gc_world w1 s) r s'
    | Err e => r = Err e ∧ s' = set_gc_world w1 s
    | Panic w => r = Panic w ∧ s' = set_gc_world w1 s
    end.
Proof.
  split.
  - intros (r1 & s1 & (w1 & Hm & ->) & Hr). by exists r1, w1.
  - intros (r1 & w1 & Hm & Hr). exists r1, (set_gc_world w1 s). split; [by exists w1|done].
Qed.

Lemma map_err_state {A} f (m : run W A) w : (map_err f m w).2 = (m w).2.
Proof. unfold map_err. by destruct (m w) as [[]]. Qed.

(** A pass only lists, or sweeps after the listings; its result tells whether the sweep met errors. *)
Lemma Reconciling_inv s r s' :
  Reconciling s r s' →
  (only_lists (gc_world s) (gc_world s') ∧ ∀ result, r ≠ Ok result) ∨
  ∃ retrieved claims nodes w3 errs, listed (gc_world s) retrieved claims nodes w3 ∧
    sweeping retrieved claims nodes w3 errs (gc_world s') ∧ ∀ result, r = Ok result → errs = Ok [].
Proof.
  unfold Reconciling. intros (r1 & w1 & Hc1 & Hr)%over_world_bind.
  assert (only_lists (gc_world s) w1) as Ho1.
  { eapply calls_only; [|exact Hc1]. intros w. rewrite map_err_state. by left. }
  destruct r1 as [retrieved|e|why]; [|by destruct Hr as [-> ->]; left..].
  apply over_world_bind in Hr as (r2 & w2 & Hc2 & Hr).
  assert (only_lists (gc_world s) w2) as Ho2.
  { transitivity w1; [exact Ho1|]. eapply calls_only; [|exact Hc2]. intros w. by right; left. }
  destruct r2 as [claims|e|why]; [|by destruct Hr as [-> ->]; left..].
  apply over_world_bind in Hr as (r3 & w3 & Hc3 & Hr).
  assert (only_lists (gc_world s) w3) as Ho3.
  { transitivity w2; [exact Ho2|]. eapply calls_only; [|exact Hc3]. intros w. by right; right. }
  destruct r3 as [nodes|e|why]; [|by destruct Hr as [-> ->]; left..].
  apply over_world_bind in Hr as (r4 & w4 & Hsweep & Hr). right.
  exists retrieved, claims, nodes, w3, r4. split; [by exists w1, w2|].
  destruct r4 as [errs|e|why]; [|by destruct Hr as [-> ->]..].
  destruct (Combine errs) as [err|] eqn:Hcomb.
  - by destruct Hr as [-> ->].
  - destruct Hr as [-> ->]. split; [done|]. intros _ _. by rewrite (Combine_None _ Hcomb).
Qed.

(** A sweep without errors ends a pass. *)
Lemma Reconciling_Ok s retrieved claims nodes w3 w' :
  listed (gc_world s) retrieved claims nodes w3 → sweeping retrieved claims nodes w3 (Ok []) w' →
  let count := increment (successfulCount s) in
  Reconciling s (Ok (requeue_after (if (count <=? 20)%Z then time_Second * 10 else time_Minute * 2)%Z))
    {| successfulCount := count; gc_world := w' |}.
Proof.
  intros (w1 & w2 & Hc1 & Hc2 & Hc3) Hs. unfold Reconciling.
  apply over_world_bind. exists (Ok retrieved), w1. split; [exact Hc1|].
  apply over_world_bind. exists (Ok claims), w2. split; [exact Hc2|].
  apply over_world_bind. exists (Ok nodes), w3. split; [exact Hc3|].
  apply over_world_bind. exists (Ok []), w'. by split; [exact Hs|].
Qed.

Lemma calls_now {A} (m : run W A) w : calls other m w (m w).1 (m w).2.
Proof. exists w. split; [apply rtc_refl|by destruct (m w)]. Qed.

Lemma Reconciling_returns s : ∃ r s', Reconciling s r s'.
Proof.
  unfold Reconciling. setoid_rewrite over_world_bind.
  set (m1 := map_err (EWrap "listing cloudprovider machines") cloud_List). set (w1 := (m1 (gc_world s)).2).
  destruct (m1 (gc_world s)).1 as [retrieved|e|why] eqn:E1; pose proof (calls_now m1 (gc_world s)) as Hc1; rewrite E1 in Hc1;
    [|by eexists _, _, _, _; split; [exact Hc1|]..].
  set (m2 := kube_ListNodeClaims None). set (w2 := (m2 w1).2).
  destruct (m2 w1).1 as [claims|e|why] eqn:E2; pose proof (calls_now m2 w1) as Hc2; rewrite E2 in Hc2.
  2, 3: eexists _, _, _, w1; (split; [exact Hc1|]); apply over_world_bind; eexists _, _; (split; [exact Hc2|done]).
  set (m3 := kube_ListNodes (Q := Q)). set (w3 := (m3 w2).2).
  destruct (m3 w2).1 as [nodes|e|why] eqn:E3; pose proof (calls_now m3 w2) as Hc3; rewrite E3 in Hc3.
  2, 3: eexists _, _, _, w1; (split; [exact Hc1|]); apply over_world_bind; eexists _, _; (split; [exact Hc2|]);
    apply over_world_bind; eexists _, _; (split; [exact Hc3|done]).
  destruct (sweeping_returns retrieved claims nodes w3) as (r4 & w4 & Hs).
  assert (∃ r s', match r4 with
    | Ok errs => match Combine errs with Some err => rel_fail err | None => counted end (set_gc_world w4 s) r s'
    | Err e => r = Err e ∧ s' = set_gc_world w4 s
    | Panic w => r = Panic w ∧ s' = set_gc_world w4 s end) as (r & s' & Hr).
  { destruct r4 as [errs|e|why]; [|by eexists _, _..]. destruct (Combine errs); by eexists _, _. }
  exists r, s', (Ok retrieved), w1. split; [exact Hc1|]. apply over_world_bind. exists (Ok claims), w2.
  split; [exact Hc2|]. apply over_world_bind. exists (Ok nodes), w3. split; [exact Hc3|].
  apply over_world_bind. by exists r4, w4.
Qed.

(** C9: A pass of the collector whose context is not cancelled can always end, and whatever the
    order of the calls of its workers, and whatever else happens between them that keeps the
    invariant, it either only lists and reports no success, or terminates nothing but listed,
    managed instances that are not terminating, are older than 30 seconds and have no claim, and
    deletes only nodes without a claim (an invariant that these calls keep holds after the
    pass); and when it reports no error, every instance that is such when the listings are done
    is terminated. *)
Theorem Reconciling_spec (s : State W) :
  (∀ retrieved claims nodes w, listed (gc_world s) retrieved claims nodes w → P retrieved claims nodes w) →
  (∃ r s', Reconciling s r s') ∧
  ∀ r s', Reconciling s r s' →
    (only_lists (gc_world s) (gc_world s') ∧ ∀ result, r ≠ Ok result) ∨
    ∃ retrieved claims nodes w, listed (gc_world s) retrieved claims nodes w ∧ P retrieved claims nodes (gc_world s') ∧
      ∀ result nc, r = Ok result → nc ∈ retrieved → managed nc = true → deleting nc = false →
        orphan (resolvedProviderIDs claims) (time_Second * 30) (clock_now w) nc = true → Terminated nc (gc_world s').
Proof.
  intros HP. split; [apply Reconciling_returns|].
  intros r s' [Hnone|(retrieved & claims & nodes & w & errs & Hl & Hs & Herrs)]%Reconciling_inv; [by left|right].
  apply sweeping_does in Hs as [[_ Hkeep] Hdone]. exists retrieved, claims, nodes, w. split_and!; [done|by apply Hkeep, HP|].
  intros result nc Hr Hin Hm Hd Ho. eapply Hdone; [by eapply Herrs|by apply managedRetrieved_elem|done].
Qed.
End Spec.

(** ** Instances whose claim is late

    The age is read when a worker checks an instance, after the claims were
    listed: what was true at the listing may be over by then. *)

Section Spared.
(** An instance, when it was launched, and the longest time its claim may take
    to get its id. *)
Variables (id : string) (created d : Z).
Hypothesis id_nonempty : id ≠ "".
(** What is to be kept of the instance. *)
Variable Safe : W → Prop.

Hypothesis delete_safe : ∀ nc w, Claim_ProviderID nc ≠ id → Safe w → Safe (cloud_Delete (Q := Q) nc w).2.
Hypothesis delete_node_safe : ∀ n, keeps Safe (kube_DeleteNode (Q := Q) n).
Hypothesis lists_safe :
  keeps Safe (cloud_List (Q := Q)) ∧ keeps Safe (kube_ListNodeClaims (Q := Q) None) ∧ keeps Safe (kube_ListNodes (Q := Q)).
Hypothesis other_safe : ∀ w w', other w w' → Safe w → Safe w'.

(** Time does not go back. *)
Notation later m := (∀ t, keeps (λ w, t <= clock_now w)%Z m).
Hypothesis delete_later : ∀ nc, later (cloud_Delete (Q := Q) nc).
Hypothesis delete_node_later : ∀ n, later (kube_DeleteNode (Q := Q) n).
Hypothesis lists_later :
  later (cloud_List (Q := Q)) ∧ later (kube_ListNodeClaims (Q := Q) None) ∧ later (kube_ListNodes (Q := Q)).
Hypothesis other_later : ∀ w w', other w w' → (clock_now w <= clock_now w')%Z.

(** The cloud tells when the instance was launched, and from [d] later on its claim is listed. *)
Hypothesis created_known : ∀ w retrieved w' nc, cloud_List w = (Ok retrieved, w') → nc ∈ retrieved →
  Claim_ProviderID nc = id → Claim_CreationTimestamp nc = created.
Hypothesis owned : ∀ w claims w', kube_ListNodeClaims None w = (Ok claims, w') →
  (created + d <= clock_now w)%Z → ∃ c : NodeClaim Q, c ∈ claims ∧ Claim_ProviderID c = id.

Lemma others_keep w w' : rtc other w w' → (clock_now w <= clock_now w')%Z ∧ (Safe w → Safe w').
Proof.
  induction 1 as [w|w w1 w' Ho _ [? ?]]; [done|]. apply other_later in Ho as ?. split; [lia|eauto].
Qed.

Lemma calls_keep {A} (m : run W A) w r w' :
  keeps Safe m → (∀ t, keeps (λ w, t <= clock_now w)%Z m) → calls other m w r w' →
  (clock_now w <= clock_now w')%Z ∧ (Safe w → Safe w').
Proof.
  intros Hs Hl (w1 & [? ?]%others_keep & Hm). pose proof (Hl (clock_now w1) w1 (Z.le_refl _)) as Hlater.
  pose proof (Hs w1) as Hsafe. rewrite Hm in Hlater, Hsafe. simpl in *. split; [lia|auto].
Qed.

(** C10: An instance whose claim is listed with its id from some delay after the launch on is
    not terminated by a pass of the collector, whatever the order of its calls and those of
    others, when that delay and the time the whole pass takes are together at most 30 seconds:
    the age is read when a worker checks the instance, after the claims were listed. *)
Theorem owned_instance_spared (s s' : State W) (r : res Result) (e : Z) :
  Reconciling s r s' →
  (clock_now (gc_world s') <= clock_now (gc_world s) + e)%Z → (d + e <= time_Second * 30)%Z →
  Safe (gc_world s) → Safe (gc_world s').
Proof.
  destruct lists_safe as (Hsafe1 & Hsafe2 & Hsafe3). destruct lists_later as (Hlater1 & Hlater2 & Hlater3).
  intros [[Hlists _]|(l & c & n & w3 & errs & (w1 & w2 & Hc1 & Hc2 & Hc3) & Hs & _)]%Reconciling_inv Hend Hde Hw.
  - clear Hend. induction Hlists as [|w w1 w' Hstep _ IH]; [done|]. apply IH.
    destruct Hstep as [Ho|[->|[->| ->]]]; [by eapply other_safe|by apply Hsafe1|by apply Hsafe2|by apply Hsafe3].
  - pose proof Hc1 as (v1 & [Hv1 _]%others_keep & Hl1%map_err_Ok).
    pose proof Hc2 as (v2 & [Hv2 _]%others_keep & Hl2).
    apply calls_keep in Hc1 as [H1' Hs1]; [|by apply keeps_map_err|intros t; by apply keeps_map_err].
    apply calls_keep in Hc2 as [H2' Hs2]; [|done..]. apply calls_keep in Hc3 as [H3' Hs3]; [|done..].
    apply (sweeping_does (λ _ _, True) (λ l c _ w,
      (∀ nc, nc ∈ l → Claim_ProviderID nc = id → Claim_CreationTimestamp nc = created) →
      ((created + d <= clock_now (gc_world s))%Z → ∃ x, x ∈ c ∧ Claim_ProviderID x = id) →
      (clock_now w <= clock_now (gc_world s) + e)%Z → Safe w)) in Hs as [[_ Hkeep] _].
    + apply Hkeep; [by auto| | |done].
      * intros nc Hin Hid. by eapply created_known.
      * intros Hage. eapply owned; [exact Hl2|lia].
    + intros nc w r1 w' Hd. split; [split; [|done]|by destruct r1].
      pose proof (delete_later nc _ w (Z.le_refl _)) as Hdl. by rewrite Hd in Hdl.
    + intros x w r1 w' Hd. split; [|done]. pose proof (delete_node_later x _ w (Z.le_refl _)) as Hdl.
      by rewrite Hd in Hdl.
    + intros w w' Ho. split; [by apply other_later|done].
    + intros l' c' n' w w' Ho HP Hcr Hown Ht. apply other_later in Ho as ?. eapply other_safe; [done|]. apply HP; [done..|lia].
    + intros l' c' n' nc w (Hin & _ & _ & Hfree) Hage HP Hcr Hown Ht.
      pose proof (delete_later nc _ w (Z.le_refl _)) as Hdl. simpl in Hdl.
      apply delete_safe; [|apply HP; [done..|lia]]. intros Hid. rewrite (Hcr nc Hin Hid) in Hage.
      destruct Hfree as [Hempty|Hfree]; [by rewrite Hid in Hempty|].
      destruct Hown as (x & Hx & Hxid); [lia|]. apply (Hfree x Hx). by rewrite Hid.
    + intros l' c' ns x w _ HP Hcr Hown Ht. pose proof (delete_node_later x _ w (Z.le_refl _)) as Hdl. simpl in Hdl.
      apply delete_node_safe, HP; [done..|lia].
Qed.
End Spared.
End Workers.
