(* ===== verification/Collector.v ===== *)
(** * The garbage collector over the cloud provider

    [CloudProvider] implements the interface [Cloud] the controllers are
    written against; the API server and the clock are those of its world.  The
    collector's theorem, at that implementation, speaks of the instances of the
    OCI client. *)

From stdpp Require Import base list strings gmap relations.
From Stdlib Require Import ZArith Lia.
From S2P Require Import Prelude Rely GoStrings GoFloat OciModel Api Options Cache.
From S2P Require Import UnavailableOfferings Sched KubeModel Reconcile Paging.
From S2P Require Instance CloudProvider Garbage Workers.

Local Open Scope string_scope.

Section Collector.
Context {Rq Rqs Q W TC SC UC : Type} `{Scheduling Rq Rqs} `{Quantities Q} `{OfferingLib Rqs Q}
  `{CloudLib Rq Rqs Q} {errlib : ErrorLib}
  `{ComputeClient W} `{kube : KubeClient Q W} `{clock : Clock W} {order : MapOrder} {work : Garbage.WorkOrder}
  `{shapeCache : TTLCache (gmap string WrapShape) TC} `{TTLCache unit UC}.
Variable opts : Options.
Variable Price : WrapShape → res f32.
Variable ParseFloat_other : string → option f64.
Variable region : string.
Variable fuel : nat.

Notation State := (CloudProvider.State W TC SC UC).

(** ** The implementations *)

#[local] Instance provider_cloud : Cloud Q State := {
  cloud_List := CloudProvider.List opts Price ParseFloat_other region fuel;
  cloud_Delete nc := CloudProvider.on_world (CloudProvider.Delete nc)
}.

#[local] Instance provider_kube : KubeClient Q State := {
  kube_GetNodeClass name := CloudProvider.on_world (kube_GetNodeClass (Q := Q) name);
  kube_GetNodePool name := CloudProvider.on_world (kube_GetNodePool (Q := Q) name);
  kube_ListNodeClaims ref := CloudProvider.on_world (kube_ListNodeClaims ref);
  kube_ListNodes := CloudProvider.on_world (kube_ListNodes (Q := Q));
  kube_DeleteNode n := CloudProvider.on_world (kube_DeleteNode (Q := Q) n);
  kube_PatchNodeClaim old new := CloudProvider.on_world (kube_PatchNodeClaim old new);
  kube_PatchNodeClass lock old new := CloudProvider.on_world (kube_PatchNodeClass (Q := Q) lock old new);
  kube_PatchNodeClassStatus old new := CloudProvider.on_world (kube_PatchNodeClassStatus (Q := Q) old new);
  recorder_Publish ev := CloudProvider.on_world (recorder_Publish (Q := Q) ev)
}.

#[local] Instance provider_clock : Clock State := λ s, clock_now (CloudProvider.cp_world s).

Definition pass : run (Garbage.State State) Result := Garbage.Reconcile (Q := Q).

(** ** Properties *)

(** [Gone] is what an accepted termination achieves at the cloud; nothing
    undoes it, and time does not go back. *)
Variable Gone : string → W → Prop.

Definition moves_on (w w' : W) : Prop :=
  (clock_now w <= clock_now w')%Z ∧ ∀ id, Gone id w → Gone id w'.

Hypothesis terminate_spec : ∀ id w r w', client_TerminateInstance id w = (r, w') →
  moves_on w w' ∧
  (** the call returns a response and an error, and the SDK's errors are none of karpenter's *)
  ∃ status err, r = Ok (status, err) ∧ (err = None ∨ Instance.gone status = true → Gone id w') ∧
    ∀ e, err = Some e → IsNodeClaimNotFoundError e = false.
Hypothesis delete_node_spec : ∀ n w r w', kube_DeleteNode (Q := Q) n w = (r, w') → moves_on w w'.

Lemma provider_delete (nc : NodeClaim Q) (s : State) r s' :
  cloud_Delete nc s = (r, s') →
  moves_on (CloudProvider.cp_world s) (CloudProvider.cp_world s') ∧
  match r with
  | Ok _ => Gone (Claim_ProviderID nc) (CloudProvider.cp_world s')
  | Err e => IsNodeClaimNotFoundError e = true → Gone (Claim_ProviderID nc) (CloudProvider.cp_world s')
  | Panic _ => True
  end.
Proof.
  simpl. unfold CloudProvider.on_world, zoom, CloudProvider.Delete, Instance.Delete, mbind, run_bind.
  destruct (client_TerminateInstance (Claim_ProviderID nc) (CloudProvider.cp_world s)) as [r1 w'] eqn:Ht.
  apply terminate_spec in Ht as (Hmove & status & err & -> & Hgone & Herr).
  destruct (Instance.gone status); [|destruct err as [e|]]; intros [= <- <-]; split; simpl; auto.
  intros He. by rewrite Herr in He.
Qed.

(** An instance of this cluster that runs. *)
Definition running (i : Instance) : Prop := Instance.managed opts i = true ∧ ¬ CloudProvider.terminating i.

(** A running instance of the cluster is among the claims of the listing. *)
Lemma List_running (s w1 : State) (retrieved : list (NodeClaim Q)) chunks w' i id created :
  ClusterName opts ≠ "" →
  page_chain (client_ListInstances (CompartmentId opts)) (CloudProvider.cp_world s) "" chunks w' →
  (length chunks <= fuel)%nat → cloud_List s = (Ok retrieved, w1) →
  i ∈ concat chunks → running i → Inst_Id i = Some id → Inst_TimeCreated i = Some created →
  ∃ nc, nc ∈ retrieved ∧ Claim_ProviderID nc = id ∧ Claim_CreationTimestamp nc = created ∧
    Garbage.managed nc = true ∧ Garbage.deleting nc = false.
Proof.
  intros Hname Hchunks Hfuel Hl Hi [Hm Hterm] Hid Hcreated.
  pose proof Hl as (instances & w4 & Hlist & Hall)%CloudProvider.List_claims.
  rewrite (Instance.List_pages opts fuel _ _ chunks Hchunks Hfuel) in Hlist. injection Hlist as <- _.
  assert (i ∈ List.filter (Instance.managed opts) (concat chunks)) as Hin.
  { apply list_elem_of_In, List.filter_In. by rewrite <- list_elem_of_In. }
  apply list_elem_of_lookup in Hin as [n Hin].
  destruct (Forall2_lookup_l _ _ _ _ _ Hall Hin) as (nc & Hnc & t & it & Hclaim).
  apply CloudProvider.instanceToNodeClaim_identity in Hclaim as (Hpid & Hpcreated & Htag & Hdel).
  exists nc. split_and!; [by eapply list_elem_of_lookup_2|congruence|congruence| |].
  - unfold Garbage.managed. unfold Instance.managed in Hm. apply bool_decide_eq_true in Hm.
    rewrite (Htag _ Hm). by apply negb_true_iff, String.eqb_neq.
  - unfold Garbage.deleting. destruct (DeletionTimestamp (Claim_Meta nc)); [|done].
    destruct Hterm. apply Hdel. by eexists.
Qed.

(** What the collector relies on, of the cloud provider over the world. *)
Notation Collected := (λ (c : NodeClaim Q) (s : State), Gone (Claim_ProviderID c) (CloudProvider.cp_world s)).

Lemma provider_onwards (s s' : State) :
  moves_on (CloudProvider.cp_world s) (CloudProvider.cp_world s') → Garbage.onwards Collected s s'.
Proof. intros [Hclock Hkeep]. split; [done|]. intros y. apply Hkeep. Qed.

Lemma provider_delete_node n (s : State) r s' : kube_DeleteNode (Q := Q) n s = (r, s') → Garbage.onwards Collected s s'.
Proof.
  simpl. unfold CloudProvider.on_world, zoom.
  destruct (kube_DeleteNode n (CloudProvider.cp_world s)) as [r1 w5] eqn:Hk. intros [= <- <-].
  by eapply provider_onwards, delete_node_spec.
Qed.

Lemma unowned (claims : list (NodeClaim Q)) id :
  (∀ c, c ∈ claims → Claim_ProviderID c ≠ id) → id ∉ Garbage.resolvedProviderIDs claims.
Proof.
  intros Hfree Hres%elem_of_list_to_set%list_elem_of_In. apply List.filter_In in Hres as [Hres _].
  apply List.in_map_iff in Hres as (c & Heq & Hcin%list_elem_of_In). by apply (Hfree c).
Qed.

(** The pass with one piece of work after the other: after a pass that reports no error, every
    running instance of this cluster that the OCI client listed, that is older than 30 seconds
    and whose id no node claim has, has been terminated. *)
Theorem leaked_instance_terminated (s s' : Garbage.State State) (result : Result) (w1 w2 w3 : State)
    (retrieved claims : list (NodeClaim Q)) (nodes : list Node) (chunks : list (list Instance))
    (w' : W) (i : Instance) (id : string) (created : Z) :
  pass s = (Ok result, s') → ClusterName opts ≠ "" →
  page_chain (client_ListInstances (CompartmentId opts)) (CloudProvider.cp_world (Garbage.gc_world s)) "" chunks w' →
  (length chunks <= fuel)%nat →
  cloud_List (Garbage.gc_world s) = (Ok retrieved, w1) → kube_ListNodeClaims None w1 = (Ok claims, w2) →
  kube_ListNodes (Q := Q) w2 = (Ok nodes, w3) →
  i ∈ concat chunks → running i → Inst_Id i = Some id → Inst_TimeCreated i = Some created →
  (∀ c, c ∈ claims → Claim_ProviderID c ≠ id) →
  (created + time_Second * 30 < clock_now (CloudProvider.cp_world w3))%Z →
  Gone id (CloudProvider.cp_world (Garbage.gc_world s')).
Proof.
  intros Hpass Hname Hchunks Hfuel Hl Hc Hn Hi Hrun Hid Hcreated Hfree Hage.
  destruct (List_running _ _ _ _ _ _ _ _ Hname Hchunks Hfuel Hl Hi Hrun Hid Hcreated)
    as (nc & Hnc & <- & <- & Hmanaged & Hdeleting).
  apply (Garbage.Garbage_collects Collected)
    with (s := s) (retrieved := retrieved) (claims := claims) (nodes := nodes) (w1 := w1) (w2 := w2) (w3 := w3)
         (result := result) (nc := nc); try done.
  - intros c st r st' [Hmove Hd]%provider_delete. split; [by apply provider_onwards|done].
  - apply provider_delete_node.
  - by apply unowned.
  - unfold clock_now at 1, provider_clock. lia.
Qed.

(** ** Beside the rest of the program *)

Section Beside.
(** What else happens to the program and the world during a pass. *)
Variable other : State → State → Prop.
Hypothesis other_moves : ∀ s s', other s s' → moves_on (CloudProvider.cp_world s) (CloudProvider.cp_world s').

(** The pass with its workers. *)
Definition pass_beside : rel (Garbage.State State) Result := Workers.Reconciling (Q := Q) other.

(** C6: With the collector running over the cloud provider, its workers beside one another and
    beside whatever else happens that does not undo a termination: after a pass that reports no
    error and whose context is not cancelled, every running instance of this cluster that the
    OCI client listed, that is older than 30 seconds when the listings are done and whose id no
    listed node claim has, has been terminated. *)
Theorem leaked_instance_collected (s s' : Garbage.State State) (result : Result) :
  pass_beside s (Ok result) s' → ClusterName opts ≠ "" →
  ∃ (s0 w1 w2 w3 : State) (retrieved claims : list (NodeClaim Q)) (nodes : list Node),
    rtc other (Garbage.gc_world s) s0 ∧ cloud_List s0 = (Ok retrieved, w1) ∧
    calls other (kube_ListNodeClaims None) w1 (Ok claims) w2 ∧ calls other (kube_ListNodes (Q := Q)) w2 (Ok nodes) w3 ∧
    ∀ (chunks : list (list Instance)) (w' : W) (i : Instance) (id : string) (created : Z),
      page_chain (client_ListInstances (CompartmentId opts)) (CloudProvider.cp_world s0) "" chunks w' →
      (length chunks <= fuel)%nat →
      i ∈ concat chunks → running i → Inst_Id i = Some id → Inst_TimeCreated i = Some created →
      (∀ c, c ∈ claims → Claim_ProviderID c ≠ id) →
      (created + time_Second * 30 < clock_now (CloudProvider.cp_world w3))%Z →
      Gone id (CloudProvider.cp_world (Garbage.gc_world s')).
Proof.
  intros [[_ Hno]|(retrieved & claims & nodes & w3 & errs & (w1 & w2 & Hc1 & Hc2 & Hc3) & Hs & Herrs)]%Workers.Reconciling_inv
    Hname; [by destruct (Hno result)|].
  destruct Hc1 as (s0 & Hothers & Hl%map_err_Ok).
  exists s0, w1, w2, w3, retrieved, claims, nodes. split_and!; [done..|].
  intros chunks w' i id created Hchunks Hfuel Hi Hrun Hid Hcreated Hfree Hage.
  destruct (List_running _ _ _ _ _ _ _ _ Hname Hchunks Hfuel Hl Hi Hrun Hid Hcreated)
    as (nc & Hnc & <- & <- & Hmanaged & Hdeleting).
  apply (Workers.sweeping_does other Collected (λ _ _ _ _, True)) in Hs as [_ Hdone]; [|try done..].
  - apply (Hdone (Herrs _ eq_refl)); [by apply Garbage.managedRetrieved_elem|].
    apply Garbage.orphan_spec. split; [by apply unowned|]. unfold clock_now at 1, provider_clock. lia.
  - intros c st r st' [Hmove Hd]%provider_delete. split; [by apply provider_onwards|done].
  - apply provider_delete_node.
  - intros a b Hab. by apply provider_onwards, other_moves.
Qed.
End Beside.
End Collector.
