(* ===== verification/Tagging.v ===== *)
(** * [controllers/nodeclaim/tagging]: freeform tags of launched instances *)

From stdpp Require Import base list strings gmap.
From Stdlib Require Import ZArith Lia.
From S2P Require Import Prelude GoStrings OciModel Api Options Cache Sched KubeModel Reconcile.
From S2P Require Instance.

Local Open Scope string_scope.

Section Controller.
Context {Q W : Type} {errlib : ErrorLib} `{ComputeClient W} `{KubeClient Q W}.
(** [time.Sleep]: only the time of the world passes. *)
Variable Sleep : Z → W → W.

Definition isTaggable (nc : NodeClaim Q) : bool :=
  negb (String.eqb (claim_annotation nc AnnotationInstanceTagged) "true") &&
  negb (String.eqb (Claim_NodeName nc) "") &&
  match DeletionTimestamp (Claim_Meta nc) with Some _ => false | None => true end.

(** [lo.OmitByKeys(tags, lo.Keys(existing))] *)
Definition missing_tags (tags existing : gmap string string) : gmap string string := tags ∖ existing.

(** [defer time.Sleep(time.Second)]: after the call, whatever it returns. *)
Definition deferring_sleep {A} (m : run W A) : run W A := λ w,
  let '(r, w') := m w in (r, Sleep time_Second w').

Definition tagInstance (nc : NodeClaim Q) (id : string) : run W unit :=
  ref ← lift (deref (Claim_NodeClassRef nc));
  nodeclass ← kube_GetNodeClass (Q := Q) ref;
  getIns ← map_err (EWrap "tagging nodeclaim") (Instance.Get id);
  let tags := missing_tags (FreeFormTags (Spec nodeclass)) (Inst_FreeformTags getIns) in
  if bool_decide (tags = ∅) then mret tt
  else deferring_sleep (map_err (EWrap "tagging nodeclaim") (Instance.CreateTags id tags)).

(** The claim with the annotation. *)
Definition tagged (nc : NodeClaim Q) : NodeClaim Q :=
  set_claim_meta (set_annotations
    (<[AnnotationInstanceTagged := "true"]> (Annotations (Claim_Meta nc))) (Claim_Meta nc)) nc.

(** Only the annotations changed since [stored]: they decide the patch. *)
Definition Reconcile (nodeClaim : NodeClaim Q) : run W Result :=
  if negb (isTaggable nodeClaim) then mret no_requeue
  else
    r ← attempt (tagInstance nodeClaim (Claim_ProviderID nodeClaim));
    match r with
    | inl e => lift (ignoring no_requeue (IgnoreNodeClaimNotFoundError e))
    | inr _ =>
        let nc := tagged nodeClaim in
        if bool_decide (Annotations (Claim_Meta nc) = Annotations (Claim_Meta nodeClaim)) then mret no_requeue
        else
          r ← attempt (kube_PatchNodeClaim nodeClaim nc);
          lift (match r with inl e => ignoring no_requeue (IgnoreNotFound e) | inr _ => Ok no_requeue end)
    end.
End Controller.

(** ** Properties *)

Section Properties.
Context {Q W : Type} {errlib : ErrorLib} `{ComputeClient W} `{KubeClient Q W}.
Variable Sleep : Z → W → W.

Lemma missing_tags_spec tags existing k :
  missing_tags tags existing !! k = match existing !! k with Some _ => None | None => tags !! k end.
Proof.
  unfold missing_tags. rewrite lookup_difference. by destruct (existing !! k), (tags !! k).
Qed.

Lemma tagged_not_taggable (nc : NodeClaim Q) : isTaggable (tagged nc) = false.
Proof. unfold isTaggable, claim_annotation. simpl. by rewrite lookup_insert_eq. Qed.

Lemma tagged_changes (nc : NodeClaim Q) :
  isTaggable nc = true → Annotations (Claim_Meta (tagged nc)) ≠ Annotations (Claim_Meta nc).
Proof.
  unfold isTaggable, claim_annotation. intros Ht Heq. simpl in Heq. rewrite <- Heq, lookup_insert_eq in Ht. done.
Qed.

(** C29: A pass of the tagging controller over a taggable claim sends the freeform tags of the
    class that the instance does not have, sleeps, and patches the claim with the annotation
    that makes it no longer taggable; errors of the update stop it before the patch, and only a
    claim that is not found is forgiven. *)
Theorem Tagging_spec (nc : NodeClaim Q) (class : OciNodeClass) (i : Instance) (ref : string) (w w1 w2 : W) :
  isTaggable nc = true → Claim_NodeClassRef nc = Some ref →
  kube_GetNodeClass (Q := Q) ref w = (Ok class, w1) →
  Instance.Get (Claim_ProviderID nc) w1 = (Ok i, w2) →
  let tags := missing_tags (FreeFormTags (Spec class)) (Inst_FreeformTags i) in
  (∀ k, tags !! k = match Inst_FreeformTags i !! k with Some _ => None | None => FreeFormTags (Spec class) !! k end) ∧
  isTaggable (tagged nc) = false ∧
  Reconcile Sleep nc w =
    let patch w := match kube_PatchNodeClaim nc (tagged nc) w with
      | (Ok _, w') => (Ok no_requeue, w')
      | (Err e, w') => (ignoring no_requeue (IgnoreNotFound e), w')
      | (Panic why, w') => (Panic why, w')
      end in
    if bool_decide (tags = ∅) then patch w2
    else match Instance.CreateTags (Claim_ProviderID nc) tags w2 with
         | (Ok _, w3) => patch (Sleep time_Second w3)
         | (Err e, w3) => (ignoring no_requeue (IgnoreNodeClaimNotFoundError (EWrap "tagging nodeclaim" e)), Sleep time_Second w3)
         | (Panic why, w3) => (Panic why, Sleep time_Second w3)
         end.
Proof.
  intros Ht Href Hclass Hi tags. split_and!; [apply missing_tags_spec|apply tagged_not_taggable|].
  unfold Reconcile. rewrite Ht. cbn [negb]. unfold tagInstance. rewrite Href.
  rewrite (bool_decide_eq_false_2 (Annotations (Claim_Meta (tagged nc)) = _)) by by apply tagged_changes.
  unfold mbind, run_bind, attempt, lift, map_err, deferring_sleep. cbn [deref]. rewrite Hclass, Hi. fold tags.
  cbv beta iota zeta. case_bool_decide as He.
  - cbn. by destruct (kube_PatchNodeClaim nc (tagged nc) w2) as [[]].
  - destruct (Instance.CreateTags (Claim_ProviderID nc) tags w2) as [[[]|e|why] w3]; cbn; [|done..].
    by destruct (kube_PatchNodeClaim nc (tagged nc) _) as [[]].
Qed.

(** A claim that is not taggable is left alone, and a failed lookup changes
    nothing at the cloud. *)
Lemma Tagging_skips (nc : NodeClaim Q) (w : W) :
  isTaggable nc = false → Reconcile Sleep nc w = (Ok no_requeue, w).
Proof. intros Ht. unfold Reconcile. by rewrite Ht. Qed.
End Properties.
