(* ===== verification/NodeClassHash.v ===== *)
(** * [controllers/nodeclass/hash] and [controllers/nodeclass/termination]

    The hash annotations of a class and of its claims, and the finalizer that
    keeps a class while claims use it. *)

From stdpp Require Import base list strings gmap.
From Stdlib Require Import ZArith Lia.
From S2P Require Import Prelude GoStrings OciModel Api Options Cache Sched KubeModel Reconcile.
From S2P Require Utils.

Local Open Scope string_scope.

Definition set_class_meta (m : ObjectMeta) (c : OciNodeClass) : OciNodeClass :=
  {| NC_Meta := m; Spec := Spec c; Status := Status c |}.

Definition class_annotation (c : OciNodeClass) (k : string) : string :=
  from_ptr "" (Annotations (NC_Meta c) !! k).

(** [karpv1.ConditionTypeDrifted] *)
Definition ConditionTypeDrifted : string := "Drifted".

(** ** The hash controller *)

Section Hash.
Context {Q W : Type} {conds : ConditionLib} {errlib : ErrorLib} `{KubeClient Q W}.
(** [hashstructure.Hash] of the class's specification. *)
Variable class_hash : OciNodeClassSpec → res Z.

Definition stale (annotation : string) : bool := negb (String.eqb annotation OciNodeClassHashVersion).

(** The claim with the new version, and the new hash unless it has drifted. *)
Definition rehash (nodeClass : OciNodeClass) (nc : NodeClaim Q) : res (NodeClaim Q) :=
  let annotations := <[AnnotationOciNodeClassHashVersion := OciNodeClassHashVersion]> (Annotations (Claim_Meta nc)) in
  annotations ←
    match cond_Status ConditionTypeDrifted (Claim_Conditions nc) with
    | None => h ← Hash class_hash nodeClass; Ok (<[AnnotationOciNodeClassHash := h]> annotations)
    | Some _ => Ok annotations
    end;
  Ok (set_claim_meta (set_annotations annotations (Claim_Meta nc)) nc).

(** The body of the loop over the claims; the version was different, so there
    is something to patch. *)
Definition update_claim (nodeClass : OciNodeClass) (nc : NodeClaim Q) : run W unit :=
  if stale (claim_annotation nc AnnotationOciNodeClassHashVersion) then
    new ← lift (rehash nodeClass nc);
    r ← attempt (kube_PatchNodeClaim nc new);
    lift (match r with inl e => ignoring tt (IgnoreNotFound e) | inr _ => Ok tt end)
  else mret tt.

Definition updateNodeClaimHash (nodeClass : OciNodeClass) : run W unit :=
  claims ← kube_ListNodeClaims (Some (Meta_Name (NC_Meta nodeClass)));
  errs ← try_all (update_claim nodeClass) claims;
  match Combine errs with Some e => fail e | None => mret tt end.

(** The class with its own annotations. *)
Definition hashed (nodeClass : OciNodeClass) : res OciNodeClass :=
  h ← Hash class_hash nodeClass;
  Ok (set_class_meta (set_annotations
    (<[AnnotationOciNodeClassHash := h]>
       (<[AnnotationOciNodeClassHashVersion := OciNodeClassHashVersion]> (Annotations (NC_Meta nodeClass))))
    (NC_Meta nodeClass)) nodeClass).

Definition Hash_Reconcile (nodeClass : OciNodeClass) : run W Result :=
  (if stale (class_annotation nodeClass AnnotationOciNodeClassHashVersion)
   then updateNodeClaimHash nodeClass else mret tt);;
  new ← lift (hashed nodeClass);
  if bool_decide (Annotations (NC_Meta new) = Annotations (NC_Meta nodeClass)) then mret no_requeue
  else kube_PatchNodeClass (Q := Q) false nodeClass new;; mret no_requeue.
End Hash.

(** ** The termination controller *)

Section Termination.
Context {Q W : Type} {errlib : ErrorLib} `{KubeClient Q W}.

Definition WaitingOnNodeClaimTerminationEvent (nodeClass : OciNodeClass) (names : list string) : Event := {|
  Ev_Object := Meta_Name (NC_Meta nodeClass); Ev_Reason := "WaitingOnNodeClaimTermination";
  Ev_Message := "Waiting on NodeClaim termination for " +:+ Utils.PrettySlice names 5
|}.

(** [controllerutil.RemoveFinalizer] *)
Definition remove_finalizer (c : OciNodeClass) : OciNodeClass :=
  set_class_meta (set_finalizers
    (List.filter (λ f, negb (String.eqb f TerminationFinalizer)) (Finalizers (NC_Meta c))) (NC_Meta c)) c.

Definition has_finalizer (c : OciNodeClass) : bool :=
  bool_decide (TerminationFinalizer ∈ Finalizers (NC_Meta c)).

Definition finalize (nodeClass : OciNodeClass) : run W Result :=
  if negb (has_finalizer nodeClass) then mret no_requeue
  else
    claims ← map_err (EWrap "listing nodeclaims that are using nodeclass")
               (kube_ListNodeClaims (Q := Q) (Some (Meta_Name (NC_Meta nodeClass))));
    match claims with
    | _ :: _ =>
        recorder_Publish (Q := Q) (WaitingOnNodeClaimTerminationEvent nodeClass (map (λ c, Meta_Name (Claim_Meta c)) claims));;
        mret (requeue_after (time_Minute * 10))
    | [] =>
        r ← attempt (kube_PatchNodeClass (Q := Q) true nodeClass (remove_finalizer nodeClass));
        lift (match r with
              | inr _ => Ok no_requeue
              | inl e => if IsConflict e then Ok requeue_now
                         else ignoring no_requeue (IgnoreNotFound (EWrap "removing termination finalizer" e))
              end)
    end.

Definition Termination_Reconcile (nodeClass : OciNodeClass) : run W Result :=
  match DeletionTimestamp (NC_Meta nodeClass) with
  | Some _ => finalize nodeClass
  | None => mret no_requeue
  end.
End Termination.

(** ** Properties *)

Section HashProperties.
Context {Q W : Type} {conds : ConditionLib} {errlib : ErrorLib} `{KubeClient Q W}.
Variable class_hash : OciNodeClassSpec → res Z.

Lemma hash_keys_distinct : AnnotationOciNodeClassHash ≠ AnnotationOciNodeClassHashVersion.
Proof. by vm_compute. Qed.

(** A claim gets the version, and the hash unless it has drifted. *)
Theorem rehash_spec (nodeClass : OciNodeClass) (nc nc' : NodeClaim Q) :
  rehash class_hash nodeClass nc = Ok nc' →
  claim_annotation nc' AnnotationOciNodeClassHashVersion = OciNodeClassHashVersion ∧
  match cond_Status ConditionTypeDrifted (Claim_Conditions nc) with
  | None => Hash class_hash nodeClass = Ok (claim_annotation nc' AnnotationOciNodeClassHash)
  | Some _ => claim_annotation nc' AnnotationOciNodeClassHash = claim_annotation nc AnnotationOciNodeClassHash
  end ∧
  (∀ k, k ≠ AnnotationOciNodeClassHash → k ≠ AnnotationOciNodeClassHashVersion →
     claim_annotation nc' k = claim_annotation nc k).
Proof.
  pose proof hash_keys_distinct as Hd. unfold rehash, claim_annotation.
  destruct (cond_Status _ _); intros Hr; res_inv; simpl.
  - split_and!; [by rewrite lookup_insert_eq|by rewrite lookup_insert_ne|].
    intros k ? ?. by rewrite lookup_insert_ne.
  - split_and!; [by rewrite lookup_insert_ne, lookup_insert_eq|by rewrite lookup_insert_eq|].
    intros k ? ?. by rewrite !lookup_insert_ne.
Qed.

Lemma set_twice (x v : string) (m : gmap string string) :
  let set m := <[AnnotationOciNodeClassHash := x]> (<[AnnotationOciNodeClassHashVersion := v]> m) in
  set (set m) = set m.
Proof.
  pose proof hash_keys_distinct as Hd. intros set. unfold set.
  rewrite (insert_insert_ne _ AnnotationOciNodeClassHashVersion), !insert_insert_eq by done. done.
Qed.

(** [new] has the hash [h] and the current version, and is otherwise as the
    class was. *)
Definition carries_hash (nodeClass new : OciNodeClass) (h : string) : Prop :=
  Annotations (NC_Meta new) !! AnnotationOciNodeClassHash = Some h ∧
  Annotations (NC_Meta new) !! AnnotationOciNodeClassHashVersion = Some OciNodeClassHashVersion ∧
  (∀ k, k ≠ AnnotationOciNodeClassHash → k ≠ AnnotationOciNodeClassHashVersion →
     Annotations (NC_Meta new) !! k = Annotations (NC_Meta nodeClass) !! k) ∧
  Meta_Name (NC_Meta new) = Meta_Name (NC_Meta nodeClass) ∧ Labels (NC_Meta new) = Labels (NC_Meta nodeClass) ∧
  Finalizers (NC_Meta new) = Finalizers (NC_Meta nodeClass) ∧
  DeletionTimestamp (NC_Meta new) = DeletionTimestamp (NC_Meta nodeClass) ∧
  Spec new = Spec nodeClass ∧ Status new = Status nodeClass.

(** The class has both annotations. *)
Definition up_to_date (nodeClass : OciNodeClass) (h : string) : Prop :=
  Annotations (NC_Meta nodeClass) !! AnnotationOciNodeClassHash = Some h ∧
  Annotations (NC_Meta nodeClass) !! AnnotationOciNodeClassHashVersion = Some OciNodeClassHashVersion.
#[export] Instance up_to_date_dec nodeClass h : Decision (up_to_date nodeClass h).
Proof. unfold up_to_date. apply _. Defined.

(** [new] has the current version and, unless it has drifted, the hash [h],
    and is otherwise as the claim was. *)
Definition claim_rehashed (h : string) (nc new : NodeClaim Q) : Prop :=
  Annotations (Claim_Meta new) !! AnnotationOciNodeClassHashVersion = Some OciNodeClassHashVersion ∧
  Annotations (Claim_Meta new) !! AnnotationOciNodeClassHash =
    match cond_Status ConditionTypeDrifted (Claim_Conditions nc) with
    | None => Some h
    | Some _ => Annotations (Claim_Meta nc) !! AnnotationOciNodeClassHash
    end ∧
  (∀ k, k ≠ AnnotationOciNodeClassHash → k ≠ AnnotationOciNodeClassHashVersion →
     Annotations (Claim_Meta new) !! k = Annotations (Claim_Meta nc) !! k) ∧
  new = set_claim_meta (set_annotations (Annotations (Claim_Meta new)) (Claim_Meta nc)) nc.

(** The claims of another version are patched one after the other, whatever
    the API server answers, from [w] to [w']; it may say that one is gone. *)
Inductive claims_updated (h : string) : list (NodeClaim Q) → W → list gerror → W → Prop :=
| updated_none w : claims_updated h [] w [] w
| updated_current nc l w errs w' :
    claim_annotation nc AnnotationOciNodeClassHashVersion = OciNodeClassHashVersion →
    claims_updated h l w errs w' → claims_updated h (nc :: l) w errs w'
| updated_patched nc new l w w1 errs w' :
    claim_annotation nc AnnotationOciNodeClassHashVersion ≠ OciNodeClassHashVersion → claim_rehashed h nc new →
    kube_PatchNodeClaim nc new w = (Ok tt, w1) →
    claims_updated h l w1 errs w' → claims_updated h (nc :: l) w errs w'
| updated_refused nc new l w e w1 errs w' :
    claim_annotation nc AnnotationOciNodeClassHashVersion ≠ OciNodeClassHashVersion → claim_rehashed h nc new →
    kube_PatchNodeClaim nc new w = (Err e, w1) →
    claims_updated h l w1 errs w' →
    claims_updated h (nc :: l) w (match IgnoreNotFound e with Some e' => e' :: errs | None => errs end) w'.

Lemma hashed_carries nodeClass h :
  Hash class_hash nodeClass = Ok h →
  ∃ new, hashed class_hash nodeClass = Ok new ∧ carries_hash nodeClass new h ∧ hashed class_hash new = Ok new.
Proof.
  intros Hh. pose proof hash_keys_distinct as Hd. unfold hashed. rewrite Hh. eexists. split; [done|].
  unfold carries_hash. simpl. split_and!; try done.
  - by rewrite lookup_insert_eq.
  - by rewrite lookup_insert_ne, lookup_insert_eq.
  - intros k ? ?. by rewrite !lookup_insert_ne.
  - change (Hash class_hash (set_class_meta ?m nodeClass)) with (Hash class_hash nodeClass). rewrite Hh. simpl.
    unfold set_class_meta, set_annotations. simpl. by rewrite set_twice.
Qed.

Lemma carries_changed nodeClass new h :
  carries_hash nodeClass new h → Annotations (NC_Meta new) = Annotations (NC_Meta nodeClass) ↔ up_to_date nodeClass h.
Proof.
  intros (Hh & Hv & Hk & _). unfold up_to_date. split; [by intros <-|]. intros [Hh' Hv']. apply map_eq. intros k.
  destruct (decide (k = AnnotationOciNodeClassHash)) as [->|]; [congruence|].
  destruct (decide (k = AnnotationOciNodeClassHashVersion)) as [->|]; [congruence|]. by apply Hk.
Qed.

Lemma rehash_rehashed nodeClass h (nc new : NodeClaim Q) :
  Hash class_hash nodeClass = Ok h → claim_rehashed h nc new → rehash class_hash nodeClass nc = Ok new.
Proof.
  pose proof hash_keys_distinct as Hd. intros Hh (Hv & Hhash & Hk & Hnew). rewrite Hnew. unfold rehash. rewrite Hh.
  assert (∀ m, m !! AnnotationOciNodeClassHashVersion = Some OciNodeClassHashVersion →
    m !! AnnotationOciNodeClassHash = Annotations (Claim_Meta new) !! AnnotationOciNodeClassHash →
    (∀ k, k ≠ AnnotationOciNodeClassHash → k ≠ AnnotationOciNodeClassHashVersion → m !! k = Annotations (Claim_Meta nc) !! k) →
    m = Annotations (Claim_Meta new)) as Heq.
  { intros m Hm1 Hm2 Hm3. apply map_eq. intros k.
    destruct (decide (k = AnnotationOciNodeClassHash)) as [->|]; [congruence|].
    destruct (decide (k = AnnotationOciNodeClassHashVersion)) as [->|]; [congruence|]. by rewrite Hk, Hm3. }
  destruct (cond_Status _ _); simpl; do 3 f_equal; apply Heq; rewrite ?Hhash.
  - by rewrite lookup_insert_eq.
  - by rewrite lookup_insert_ne.
  - intros k ? ?. by rewrite lookup_insert_ne.
  - by rewrite lookup_insert_ne, lookup_insert_eq.
  - by rewrite lookup_insert_eq.
  - intros k ? ?. by rewrite !lookup_insert_ne.
Qed.

Lemma try_update nodeClass h claims w errs w' :
  Hash class_hash nodeClass = Ok h → claims_updated h claims w errs w' →
  try_all (update_claim class_hash nodeClass) claims w = (Ok errs, w').
Proof.
  intros Hh. induction 1 as [w|nc l w errs w' Hv _ IH|nc new l w w1 errs w' Hv Hre Hp _ IH|nc new l w e w1 errs w' Hv Hre Hp _ IH];
    [done|..]; cbn [try_all].
  - rewrite (run_bind_step _ _ w (inr tt) w); [by rewrite (run_bind_step _ _ _ _ _ IH)|].
    unfold attempt, update_claim, stale. by rewrite Hv.
  - rewrite (run_bind_step _ _ w (inr tt) w1); [by rewrite (run_bind_step _ _ _ _ _ IH)|].
    unfold attempt at 1, update_claim, stale. apply String.eqb_neq in Hv as ->. cbn [negb].
    unfold mbind, run_bind, lift, attempt. by rewrite (rehash_rehashed nodeClass h nc new), Hp.
  - apply String.eqb_neq in Hv. pose proof (rehash_rehashed nodeClass h nc new Hh Hre) as Hr.
    assert (update_claim class_hash nodeClass nc w = (ignoring tt (IgnoreNotFound e), w1)) as Hu.
    { unfold update_claim, stale. rewrite Hv. cbn [negb]. unfold mbind, run_bind, lift, attempt. by rewrite Hr, Hp. }
    destruct (IgnoreNotFound e) as [e'|].
    + rewrite (run_bind_step _ _ w (inl e') w1) by (unfold attempt; by rewrite Hu). by rewrite (run_bind_step _ _ _ _ _ IH).
    + rewrite (run_bind_step _ _ w (inr tt) w1) by (unfold attempt; by rewrite Hu). by rewrite (run_bind_step _ _ _ _ _ IH).
Qed.

(** The end of a pass: the class is patched unless it is up to date. *)
Definition patched (nodeClass new : OciNodeClass) (h : string) (w : W) : res Result * W :=
  if decide (up_to_date nodeClass h) then (Ok no_requeue, w)
  else match kube_PatchNodeClass (Q := Q) false nodeClass new w with
       | (Ok _, w') => (Ok no_requeue, w')
       | (Err e, w') => (Err e, w')
       | (Panic why, w') => (Panic why, w')
       end.

Lemma Hash_Reconcile_end nodeClass new h w :
  hashed class_hash nodeClass = Ok new → carries_hash nodeClass new h →
  (new ← lift (hashed class_hash nodeClass);
   if bool_decide (Annotations (NC_Meta new) = Annotations (NC_Meta nodeClass)) then mret no_requeue
   else kube_PatchNodeClass (Q := Q) false nodeClass new;; mret no_requeue) w = patched nodeClass new h w.
Proof.
  intros Hn Hc. unfold patched, lift, mbind, run_bind, mret, run_ret. rewrite Hn.
  rewrite (bool_decide_ext _ _ (carries_changed nodeClass new h Hc)).
  case_decide; [by rewrite bool_decide_eq_true_2|rewrite bool_decide_eq_false_2 by done].
  by destruct (kube_PatchNodeClass false nodeClass new w) as [[]].
Qed.

(** C28: A pass of the hash controller over a class whose hash version is current patches the
    class with the hash of its specification and the version, and nothing else, unless it has
    both. When the version is another, it first patches each claim of the class whose version is
    another with the version and, unless the claim has drifted, the hash; when the listing or a
    patch fails (a claim that is gone apart), it returns the errors and does not patch the
    class. A pass over the patched class does nothing. *)
Theorem Hash_Reconcile_converges (nodeClass : OciNodeClass) (h : string) (w : W) :
  Hash class_hash nodeClass = Ok h →
  ∃ new, carries_hash nodeClass new h ∧
    (class_annotation nodeClass AnnotationOciNodeClassHashVersion = OciNodeClassHashVersion →
       Hash_Reconcile class_hash nodeClass w = patched nodeClass new h w) ∧
    (class_annotation nodeClass AnnotationOciNodeClassHashVersion ≠ OciNodeClassHashVersion →
       (∀ e w0, kube_ListNodeClaims (Q := Q) (Some (Meta_Name (NC_Meta nodeClass))) w = (Err e, w0) →
          Hash_Reconcile class_hash nodeClass w = (Err e, w0)) ∧
       (∀ claims w0 errs w1, kube_ListNodeClaims (Some (Meta_Name (NC_Meta nodeClass))) w = (Ok claims, w0) →
          claims_updated h claims w0 errs w1 →
          Hash_Reconcile class_hash nodeClass w =
            match Combine errs with Some e => (Err e, w1) | None => patched nodeClass new h w1 end)) ∧
    (∀ w', Hash_Reconcile class_hash new w' = (Ok no_requeue, w')).
Proof.
  intros Hh. destruct (hashed_carries nodeClass h Hh) as (new & Hn & Hc & Hn'). exists new. split; [done|].
  unfold Hash_Reconcile, stale. split_and!.
  - intros ->. replace (String.eqb _ _) with true by done. cbn [negb].
    rewrite (run_bind_step _ _ w tt w) by done. by apply Hash_Reconcile_end.
  - intros Hv%String.eqb_neq. rewrite Hv. cbn [negb]. split.
    + intros e w0 Hl. unfold mbind at 1, run_bind at 1. unfold updateNodeClaimHash, mbind at 1, run_bind at 1. by rewrite Hl.
    + intros claims w0 errs w1 Hl Hu. apply (try_update nodeClass h) in Hu; [|done].
      assert (updateNodeClaimHash class_hash nodeClass w =
        (match Combine errs with Some e => Err e | None => Ok tt end, w1)) as Hup.
      { unfold updateNodeClaimHash. rewrite (run_bind_step _ _ _ _ _ Hl), (run_bind_step _ _ _ _ _ Hu). by destruct (Combine errs). }
      destruct (Combine errs) as [e|].
      * unfold mbind at 1, run_bind at 1. by rewrite Hup.
      * rewrite (run_bind_step _ _ _ _ _ Hup). by apply Hash_Reconcile_end.
  - intros w'. destruct Hc as (_ & Hv & _).
    assert (class_annotation new AnnotationOciNodeClassHashVersion = OciNodeClassHashVersion) as ->
      by (unfold class_annotation; by rewrite Hv).
    replace (String.eqb _ _) with true by done. cbn [negb]. rewrite (run_bind_step _ _ w' tt w') by done.
    unfold lift, mbind, run_bind, mret, run_ret. rewrite Hn'. by rewrite bool_decide_eq_true_2.
Qed.
End HashProperties.

Section TerminationProperties.
Context {Q W : Type} {errlib : ErrorLib} `{KubeClient Q W}.

(** C27: A pass of the termination controller removes the finalizer only of a class that is
    being deleted and right after a listing that found no claim that uses it: an invariant of
    the world that such a patch, listings and events keep holds after the pass. *)
Theorem Termination_safe (P : W → Prop) (nodeClass : OciNodeClass) (w : W) :
  P w →
  (∀ ref w, P w → P (kube_ListNodeClaims (Q := Q) ref w).2) →
  (∀ ev w, P w → P (recorder_Publish (Q := Q) ev w).2) →
  (∀ w0 w1, DeletionTimestamp (NC_Meta nodeClass) ≠ None →
     kube_ListNodeClaims (Q := Q) (Some (Meta_Name (NC_Meta nodeClass))) w0 = (Ok [], w1) → P w1 →
     P (kube_PatchNodeClass (Q := Q) true nodeClass (remove_finalizer nodeClass) w1).2) →
  P (Termination_Reconcile (Q := Q) nodeClass w).2.
Proof.
  intros HP Hl Hpub Hpatch. unfold Termination_Reconcile.
  destruct (DeletionTimestamp (NC_Meta nodeClass)) eqn:Hd; [|done]. unfold finalize.
  destruct (has_finalizer nodeClass); [|done]. cbn [negb].
  pose proof (Hl (Some (Meta_Name (NC_Meta nodeClass))) w HP) as H1.
  unfold mbind, run_bind, map_err, attempt, lift.
  destruct (kube_ListNodeClaims (Some (Meta_Name (NC_Meta nodeClass))) w) as [[claims|e|why] w1] eqn:Hlist; simpl in *; [|done..].
  destruct claims as [|c cs].
  - assert (P (kube_PatchNodeClass true nodeClass (remove_finalizer nodeClass) w1).2) as Hp by by eapply Hpatch.
    by destruct (kube_PatchNodeClass _ _ _ w1) as [[]].
  - pose proof (Hpub (WaitingOnNodeClaimTerminationEvent nodeClass (map (λ c, Meta_Name (Claim_Meta c)) (c :: cs))) w1 H1) as Hp.
    by destruct (recorder_Publish _ w1) as [[]].
Qed.
End TerminationProperties.
