(* ===== verification/NodeClassStatus.v ===== *)
(** * [controllers/nodeclass/status]: what a node class resolves to

    The three reconcilers fill the class's images, subnets and security groups
    and set a condition each; the controller runs all three, keeps the errors,
    and patches what changed. *)

From stdpp Require Import base list strings gmap sorting.
From Stdlib Require Import ZArith Lia.
From S2P Require Import Prelude GoStrings GoFloat Utils OciModel Api Options Cache Selector Sched KubeModel ImageFamily Reconcile.
From S2P Require Subnet SecurityGroup NodeClassHash.

Local Open Scope string_scope.

(** ** Sorting *)

(** [len(a.Key) < len(b.Key)], then the keys. *)
Definition key_le (a b : NodeSelectorRequirement) : Prop :=
  (String.length (NSR_Key a) < String.length (NSR_Key b))%nat ∨
  String.length (NSR_Key a) = String.length (NSR_Key b) ∧ String.le (NSR_Key a) (NSR_Key b).
#[export] Instance key_le_dec : RelDecision key_le.
Proof. intros a b. unfold key_le. apply _. Defined.

Definition by_id {A} (id : A → string) (a b : A) : Prop := String.le (id a) (id b).
#[export] Instance by_id_dec {A} (id : A → string) : RelDecision (by_id id).
Proof. intros a b. unfold by_id. apply _. Defined.
#[export] Instance by_id_total {A} (id : A → string) : Total (by_id id).
Proof. intros a b. apply String.le_total. Qed.

(** [sort.Slice(l, *l[i].Id < *l[j].Id)]: two elements or more are compared. *)
Definition sort_by_ptr {A} (id : A → option string) (l : list A) : res (list A) :=
  match l with
  | [] | [_] => Ok l
  | _ => ids ← map_res (λ a, deref (id a)) l; Ok (merge_sort (by_id (λ a, from_ptr "" (id a))) l)
  end.

(** ** Status updates *)

Definition set_status (st : OciNodeClassStatus) (c : OciNodeClass) : OciNodeClass :=
  {| NC_Meta := NC_Meta c; Spec := Spec c; Status := st |}.

Definition set_images (l : list StatusImage) (st : OciNodeClassStatus) : OciNodeClassStatus := {|
  Status_Subnets := Status_Subnets st; Status_Images := l;
  Status_SecurityGroups := Status_SecurityGroups st; Status_Conditions := Status_Conditions st |}.
Definition set_subnets (l : list StatusSubnet) (st : OciNodeClassStatus) : OciNodeClassStatus := {|
  Status_Subnets := l; Status_Images := Status_Images st;
  Status_SecurityGroups := Status_SecurityGroups st; Status_Conditions := Status_Conditions st |}.
Definition set_groups (l : list StatusSecurityGroup) (st : OciNodeClassStatus) : OciNodeClassStatus := {|
  Status_Subnets := Status_Subnets st; Status_Images := Status_Images st;
  Status_SecurityGroups := l; Status_Conditions := Status_Conditions st |}.
Definition set_conditions (f : list Condition → list Condition) (st : OciNodeClassStatus) : OciNodeClassStatus := {|
  Status_Subnets := Status_Subnets st; Status_Images := Status_Images st;
  Status_SecurityGroups := Status_SecurityGroups st; Status_Conditions := f (Status_Conditions st) |}.

(** [Requirements.NodeSelectorRequirements] *)
Class RequirementsText (Rqs : Type) : Type := NodeSelectorRequirements : Rqs → list NodeSelectorRequirement.

Section Controller.
Context {Rq Rqs Q W IC SC GC : Type} `{Scheduling Rq Rqs} `{RequirementsText Rqs} {conds : ConditionLib} {errlib : ErrorLib}
  `{ComputeClient W} `{VirtualNetworkClient W} `{KubeClient Q W} `{Clock W} {order : MapOrder}
  `{imageCache : TTLCache (list (WrapImage Rqs)) IC} `{subnetCache : TTLCache (list Subnet) SC}
  `{groupCache : TTLCache (list NetworkSecurityGroup) GC}.
Variable opts : Options.
Variable image_hash : list ImageSelectorTerm → res Z.
Variable subnet_hash : list SubnetSelectorTerm → res Z.
Variable group_hash : list SecurityGroupSelectorTerm → res Z.
(** [strconv.FormatFloat(float64(x), 'f', -1, 32)] *)
Variable FormatFloat : f32 → string.
(** [result.Min] of karpenter's utilities. *)
Variable result_Min : list Result → Result.

(** The caches of the three providers and the world. *)
Record State := { ns_images : IC; ns_subnets : SC; ns_groups : GC; ns_world : W }.

Definition on_images {A} (m : run (Cached IC W) A) : run State A :=
  zoom (λ s, Build_Cached (ns_images s) (ns_world s))
    (λ c s, {| ns_images := c_cache c; ns_subnets := ns_subnets s; ns_groups := ns_groups s; ns_world := c_world c |}) m.
Definition on_subnets {A} (m : run (Cached SC W) A) : run State A :=
  zoom (λ s, Build_Cached (ns_subnets s) (ns_world s))
    (λ c s, {| ns_images := ns_images s; ns_subnets := c_cache c; ns_groups := ns_groups s; ns_world := c_world c |}) m.
Definition on_groups {A} (m : run (Cached GC W) A) : run State A :=
  zoom (λ s, Build_Cached (ns_groups s) (ns_world s))
    (λ c s, {| ns_images := ns_images s; ns_subnets := ns_subnets s; ns_groups := c_cache c; ns_world := c_world c |}) m.
Definition on_world {A} (m : run W A) : run State A :=
  zoom ns_world (λ w s, {| ns_images := ns_images s; ns_subnets := ns_subnets s; ns_groups := ns_groups s; ns_world := w |}) m.

(** ** [image.go] *)

Definition status_image (image : WrapImage Rqs) : StatusImage := {|
  SI_Id := ToString (Image_Id (wImage image));
  SI_Name := ToString (Image_DisplayName (wImage image));
  SI_CompartmentId := ToString (Image_CompartmentId (wImage image));
  SI_Requirements := merge_sort key_le (NodeSelectorRequirements (wRequirements image))
|}.

Definition Image_Reconcile (nodeClass : OciNodeClass) : run State (OciNodeClass * Result) :=
  images ← map_err (EWrap "getting amis") (on_images (ImageFamily.List image_hash nodeClass));
  let update f := set_status (f (Status nodeClass)) nodeClass in
  match images with
  | [] =>
      mret (update (λ st, set_conditions (cond_SetFalse ConditionTypeImageReady "ImageNotFound"
              "Image spec did not match any images") (set_images [] st)), no_requeue)
  | _ =>
      let sortImages := merge_sort (by_id SI_Id) (map status_image images) in
      mret (update (λ st, set_conditions (cond_SetTrue ConditionTypeImageReady) (set_images sortImages st)),
            requeue_after (5 * time_Minute))
  end.

(** ** [subnet.go] *)

Definition cidr_summary (s : IpInventoryCidrUtilizationSummary) : CidrUtilizationSummary := {|
  CUS_Cidr := ToString (Smy_Cidr s);
  CUS_Utilization := FormatFloat (from_ptr (f32_of_Z 0) (Smy_Utilization s));
  CUS_AddressType := Smy_AddressType s
|}.

(** A failed lookup of the utilization is logged; the subnet stays. *)
Definition status_subnet (s : Subnet) : run W StatusSubnet :=
  r ← attempt (Subnet.GetSubnetUtilization s);
  mret {| SS_Id := ToString (Subnet_Id s); SS_Name := ToString (Subnet_DisplayName s);
          CidrUtilization := match r with inl _ => [] | inr summaries => map cidr_summary summaries end |}.

Definition Subnet_Reconcile (nodeClass : OciNodeClass) : run State (OciNodeClass * Result) :=
  subnets ← map_err (EWrap "getting subnets") (on_subnets (Subnet.List opts subnet_hash nodeClass));
  let update f := set_status (f (Status nodeClass)) nodeClass in
  match subnets with
  | [] =>
      mret (update (λ st, set_conditions (cond_SetFalse ConditionTypeSubnetsReady "SubnetsNotFound"
              "SubnetSelector did not match any Subnets") (set_subnets [] st)), no_requeue)
  | _ =>
      sorted ← lift (sort_by_ptr Subnet_Id subnets);
      statuses ← on_world (for_each (λ acc s, x ← status_subnet s; mret (acc ++ [x])%list) sorted []);
      mret (update (λ st, set_conditions (cond_SetTrue ConditionTypeSubnetsReady) (set_subnets statuses st)),
            requeue_after time_Minute)
  end.

(** ** [securitygroup.go] *)

Definition status_group (g : NetworkSecurityGroup) : res StatusSecurityGroup :=
  id ← deref (NSG_Id g); name ← deref (NSG_DisplayName g); Ok {| SSG_Id := id; SSG_Name := name |}.

Definition SecurityGroup_Reconcile (nodeClass : OciNodeClass) : run State (OciNodeClass * Result) :=
  groups ← map_err (EWrap "getting security groups") (on_groups (SecurityGroup.List opts group_hash nodeClass));
  let update f := set_status (f (Status nodeClass)) nodeClass in
  match groups, SecurityGroupSelector (Spec nodeClass) with
  | [], _ :: _ =>
      mret (update (λ st, set_conditions (cond_SetFalse ConditionTypeSecurityGroupsReady "SecurityGroupsNotFound"
              "SecurityGroupSelector did not match any SecurityGroups") (set_groups [] st)), no_requeue)
  | _, _ =>
      sorted ← lift (sort_by_ptr NSG_Id groups);
      statuses ← lift (map_res status_group sorted);
      mret (update (λ st, set_conditions (cond_SetTrue ConditionTypeSecurityGroupsReady) (set_groups statuses st)),
            requeue_after (5 * time_Minute))
  end.

(** ** [controller.go] *)

(** The loop over the reconcilers: one that fails leaves the class as it was. *)
Fixpoint reconcile_all (reconcilers : list (OciNodeClass → run State (OciNodeClass * Result)))
    (nodeClass : OciNodeClass) : run State (OciNodeClass * list Result * list gerror) :=
  match reconcilers with
  | [] => mret (nodeClass, [], [])
  | reconciler :: rest =>
      r ← attempt (reconciler nodeClass);
      let '(nodeClass, result, err) :=
        match r with
        | inl e => (nodeClass, no_requeue, [e])
        | inr (nodeClass', result) => (nodeClass', result, [])
        end in
      '(nodeClass, results, errs) ← reconcile_all rest nodeClass;
      mret (nodeClass, result :: results, (err ++ errs)%list)
  end.

Definition add_finalizer (c : OciNodeClass) : OciNodeClass :=
  NodeClassHash.set_class_meta (set_finalizers (Finalizers (NC_Meta c) ++ [TerminationFinalizer]) (NC_Meta c)) c.

(** The second half: the three reconcilers and the patch of the status. *)
Definition reconcile_status (nodeClass : OciNodeClass) : run State Result :=
  '(new, results, errs) ← reconcile_all [Image_Reconcile; Subnet_Reconcile; SecurityGroup_Reconcile] nodeClass;
  let finish (errs : list gerror) : run State Result :=
    match Combine errs with Some e => fail e | None => mret (result_Min results) end in
  if bool_decide (Status new = Status nodeClass) then finish errs
  else
    r ← attempt (on_world (kube_PatchNodeClassStatus (Q := Q) nodeClass new));
    match r with
    | inr _ => finish errs
    | inl e =>
        if IsConflict e then mret requeue_now
        else finish (errs ++ match IgnoreNotFound e with Some e => [e] | None => [] end)%list
    end.

Definition Status_Reconcile (nodeClass : OciNodeClass) : run State Result :=
  if NodeClassHash.has_finalizer nodeClass then reconcile_status nodeClass
  else
    r ← attempt (on_world (kube_PatchNodeClass (Q := Q) true nodeClass (add_finalizer nodeClass)));
    match r with
    | inl e => if IsConflict e then mret requeue_now else fail e
    | inr _ => reconcile_status (add_finalizer nodeClass)
    end.
End Controller.
Arguments State : clear implicits.

(** ** Properties *)

Section Properties.
Context {Rq Rqs Q W IC SC GC : Type} `{Scheduling Rq Rqs} `{RequirementsText Rqs}
  `{condLaws : ConditionLaws} {errlib : ErrorLib}
  `{ComputeClient W} `{VirtualNetworkClient W} `{KubeClient Q W} `{Clock W} {order : MapOrder}
  `{imageCache : TTLCache (list (WrapImage Rqs)) IC} `{subnetCache : TTLCache (list Subnet) SC}
  `{groupCache : TTLCache (list NetworkSecurityGroup) GC}.
Variable opts : Options.
Variable image_hash : list ImageSelectorTerm → res Z.
Variable subnet_hash : list SubnetSelectorTerm → res Z.
Variable group_hash : list SecurityGroupSelectorTerm → res Z.
Variable FormatFloat : f32 → string.

Notation State := (State W IC SC GC).
Notation image_reconciler := (Image_Reconcile (GC := GC) (SC := SC) (IC := IC) image_hash).
Notation subnet_reconciler := (Subnet_Reconcile (GC := GC) (SC := SC) (IC := IC) opts subnet_hash FormatFloat).
Notation group_reconciler := (SecurityGroup_Reconcile (GC := GC) (SC := SC) (IC := IC) opts group_hash).
Notation reconcilers := [image_reconciler; subnet_reconciler; group_reconciler].

Definition class_condition (t : string) (c : OciNodeClass) : option ConditionStatus :=
  cond_Status t (Status_Conditions (Status c)).

(** A condition that holds is about a list that is not empty. *)
Definition images_ok (c : OciNodeClass) : Prop :=
  class_condition ConditionTypeImageReady c = Some CondTrue → Status_Images (Status c) ≠ [].
Definition subnets_ok (c : OciNodeClass) : Prop :=
  class_condition ConditionTypeSubnetsReady c = Some CondTrue → Status_Subnets (Status c) ≠ [].
Definition groups_ok (c : OciNodeClass) : Prop :=
  class_condition ConditionTypeSecurityGroupsReady c = Some CondTrue →
  SecurityGroupSelector (Spec c) ≠ [] → Status_SecurityGroups (Status c) ≠ [].

(** The condition has been decided. *)
Definition decided (t : string) (c : OciNodeClass) : Prop :=
  class_condition t c = Some CondTrue ∨ class_condition t c = Some CondFalse.

Lemma condition_types_distinct :
  ConditionTypeImageReady ≠ ConditionTypeSubnetsReady ∧
  ConditionTypeImageReady ≠ ConditionTypeSecurityGroupsReady ∧
  ConditionTypeSubnetsReady ≠ ConditionTypeSecurityGroupsReady.
Proof. by vm_compute. Qed.

(** What a reconciler does to the class, apart from its own list. *)
Definition touches_only (t : string) (c new : OciNodeClass) : Prop :=
  NC_Meta new = NC_Meta c ∧ Spec new = Spec c ∧ ∀ t', t' ≠ t → class_condition t' new = class_condition t' c.

Lemma touches_set (t : string) (c : OciNodeClass) (st : OciNodeClassStatus) f :
  Status_Conditions st = Status_Conditions (Status c) →
  (∀ t' l, t' ≠ t → cond_Status t' (f l) = cond_Status t' l) →
  touches_only t c (set_status (set_conditions f st) c).
Proof.
  intros Hst Hf. split_and!; [done..|]. intros t' Ht. unfold class_condition. simpl. by rewrite Hf, Hst.
Qed.

Lemma Image_Reconcile_Ok (c new : OciNodeClass) (s s' : State) result :
  image_reconciler c s = (Ok (new, result), s') →
  touches_only ConditionTypeImageReady c new ∧ images_ok new ∧ decided ConditionTypeImageReady new ∧
  Status_Subnets (Status new) = Status_Subnets (Status c) ∧
  Status_SecurityGroups (Status new) = Status_SecurityGroups (Status c) ∧
  Sorted (by_id SI_Id) (Status_Images (Status new)).
Proof.
  unfold Image_Reconcile. intros (images & s1 & _ & Hr)%run_bind_Ok.
  destruct images as [|i l]; injection Hr as <- _ _; unfold images_ok, decided, class_condition.
  - split; [apply touches_set; [done|]; intros; by apply Status_SetFalse_ne|]. simpl. rewrite Status_SetFalse.
    split_and!; [done|by right|done|done|constructor].
  - split; [apply touches_set; [done|]; intros; by apply Status_SetTrue_ne|]. simpl. rewrite Status_SetTrue.
    split_and!; [intros _|by left|done|done|].
    + intros Hn. pose proof (merge_sort_Permutation (by_id SI_Id) (status_image i :: map status_image l)) as Hp.
      rewrite Hn in Hp. by apply Permutation_nil_l in Hp.
    + apply (Sorted_merge_sort (by_id SI_Id)).
Qed.

Lemma for_each_append_length {S A B} (f : A → run S B) l acc (s s' : S) r :
  for_each (λ acc x, y ← f x; mret (acc ++ [y])%list) l acc s = (Ok r, s') →
  length r = (length acc + length l)%nat.
Proof.
  revert acc s; induction l as [|x l IH]; intros acc s Hf; [injection Hf as <- _; simpl; lia|].
  apply run_bind_Ok in Hf as (acc' & s1 & Hb & Hf). apply run_bind_Ok in Hb as (y & s2 & _ & Hb).
  injection Hb as <- _. rewrite (IH _ _ Hf), length_app. simpl. lia.
Qed.

Lemma sort_by_ptr_length {A} (id : A → option string) l l' : sort_by_ptr id l = Ok l' → length l' = length l.
Proof.
  unfold sort_by_ptr. destruct l as [|a [|b l]]; [by intros [= <-]..|]. intros Hs. res_inv.
  by rewrite merge_sort_Permutation.
Qed.

Lemma Subnet_Reconcile_Ok (c new : OciNodeClass) (s s' : State) result :
  subnet_reconciler c s = (Ok (new, result), s') →
  touches_only ConditionTypeSubnetsReady c new ∧ subnets_ok new ∧ decided ConditionTypeSubnetsReady new ∧
  Status_Images (Status new) = Status_Images (Status c) ∧
  Status_SecurityGroups (Status new) = Status_SecurityGroups (Status c).
Proof.
  unfold Subnet_Reconcile. intros (subnets & s1 & _ & Hr)%run_bind_Ok.
  unfold subnets_ok, decided. destruct subnets as [|x l].
  - injection Hr as <- _ _. unfold class_condition. split; [apply touches_set; [done|]; intros; by apply Status_SetFalse_ne|].
    simpl. rewrite Status_SetFalse. split_and!; [done|by right|done|done].
  - apply run_bind_Ok in Hr as (sorted & s2 & [Hs ->]%lift_Ok & Hr). apply run_bind_Ok in Hr as (st & s3 & Hst & Hr).
    injection Hr as <- _ _. unfold class_condition. split; [apply touches_set; [done|]; intros; by apply Status_SetTrue_ne|].
    simpl. rewrite Status_SetTrue. split_and!; [intros _ Hn|by left|done|done].
    unfold on_world, zoom in Hst. destruct (for_each _ _ _ _) as [r w'] eqn:Hf. injection Hst as -> _.
    apply for_each_append_length in Hf. apply sort_by_ptr_length in Hs. rewrite Hs, Hn in Hf. done.
Qed.

Lemma SecurityGroup_Reconcile_Ok (c new : OciNodeClass) (s s' : State) result :
  group_reconciler c s = (Ok (new, result), s') →
  touches_only ConditionTypeSecurityGroupsReady c new ∧ groups_ok new ∧ decided ConditionTypeSecurityGroupsReady new ∧
  Status_Images (Status new) = Status_Images (Status c) ∧
  Status_Subnets (Status new) = Status_Subnets (Status c).
Proof.
  unfold SecurityGroup_Reconcile. intros (groups & s1 & _ & Hr)%run_bind_Ok. unfold groups_ok, decided.
  destruct groups as [|g l], (SecurityGroupSelector (Spec c)) as [|sel sels] eqn:Hsel.
  2: { injection Hr as <- _ _. unfold class_condition. split; [apply touches_set; [done|]; intros; by apply Status_SetFalse_ne|].
       simpl. rewrite Status_SetFalse. split_and!; [done|by right|done|done]. }
  all: apply run_bind_Ok in Hr as (sorted & s2 & [Hs ->]%lift_Ok & Hr);
    apply run_bind_Ok in Hr as (st & s3 & [Hst ->]%lift_Ok & Hr); injection Hr as <- _ _; unfold class_condition;
    (split; [apply touches_set; [done|]; intros; by apply Status_SetTrue_ne|]); simpl; rewrite Status_SetTrue;
    split_and!; try done; try by left.
  - intros _ _ Hn. subst st. apply map_res_Ok, Forall2_length in Hst. apply sort_by_ptr_length in Hs. by rewrite Hs in Hst.
Qed.

(** The three lists agree with their conditions. *)
Definition class_ok (c : OciNodeClass) : Prop := images_ok c ∧ subnets_ok c ∧ groups_ok c.

(** One pass of the loop, whether the reconciler fails or not. *)
Lemma reconcile_all_cons r rs (c : OciNodeClass) (s s' : State) new results errs :
  reconcile_all (r :: rs) c s = (Ok (new, results, errs), s') →
  ∃ c1 s1 errs', reconcile_all rs c1 s1 = (Ok (new, tail results, errs'), s') ∧
    ((∃ e, r c s = (Err e, s1) ∧ c1 = c ∧ errs = e :: errs') ∨
     (∃ result, r c s = (Ok (c1, result), s1) ∧ errs = errs')).
Proof.
  cbn [reconcile_all]. intros (o & s1 & Ho%attempt_Ok & Hr)%run_bind_Ok. destruct o as [e|[c1 result]].
  - apply run_bind_Ok in Hr as ([[c2 rs2] es] & s2 & Hall & Hr). injection Hr as <- <- <- <-.
    exists c, s1, es. split; [done|]. left. eauto.
  - apply run_bind_Ok in Hr as ([[c2 rs2] es] & s2 & Hall & Hr). injection Hr as <- <- <- <-.
    exists c1, s1, es. split; [done|]. right. eauto.
Qed.

Lemma images_ok_kept t (c new : OciNodeClass) :
  touches_only t c new → t ≠ ConditionTypeImageReady → Status_Images (Status new) = Status_Images (Status c) →
  (images_ok c → images_ok new) ∧ (decided ConditionTypeImageReady c → decided ConditionTypeImageReady new).
Proof. intros (_ & _ & Ht) Hne Hl. unfold images_ok, decided. by rewrite Ht, Hl. Qed.
Lemma subnets_ok_kept t (c new : OciNodeClass) :
  touches_only t c new → t ≠ ConditionTypeSubnetsReady → Status_Subnets (Status new) = Status_Subnets (Status c) →
  (subnets_ok c → subnets_ok new) ∧ (decided ConditionTypeSubnetsReady c → decided ConditionTypeSubnetsReady new).
Proof. intros (_ & _ & Ht) Hne Hl. unfold subnets_ok, decided. by rewrite Ht, Hl. Qed.
Lemma groups_ok_kept t (c new : OciNodeClass) :
  touches_only t c new → t ≠ ConditionTypeSecurityGroupsReady →
  Status_SecurityGroups (Status new) = Status_SecurityGroups (Status c) → groups_ok c → groups_ok new.
Proof. intros (_ & Hs & Ht) Hne Hl. unfold groups_ok. by rewrite Ht, Hl, Hs. Qed.

(** C26: The three status reconcilers keep the invariant that an image or subnet condition that
    holds is about a list that is not empty, and so is the security group condition of a class
    that has group selectors (of one without, it may hold with no groups), whether some of them
    fail or not; they change neither metadata nor specification, and after a pass without errors
    all three conditions are decided and the images are sorted by id. *)
Theorem Status_invariant (c new : OciNodeClass) (s s' : State) results errs :
  class_ok c → reconcile_all reconcilers c s = (Ok (new, results, errs), s') →
  class_ok new ∧ NC_Meta new = NC_Meta c ∧ Spec new = Spec c ∧
  (errs = [] → decided ConditionTypeImageReady new ∧ decided ConditionTypeSubnetsReady new ∧
               decided ConditionTypeSecurityGroupsReady new ∧
               Sorted (by_id SI_Id) (Status_Images (Status new))).
Proof.
  destruct condition_types_distinct as (H12 & H13 & H23). intros (Hi & Hsub & Hg) Hr.
  apply reconcile_all_cons in Hr as (c1 & s1 & es1 & Hr & H1').
  apply reconcile_all_cons in Hr as (c2 & s2 & es2 & Hr & H2').
  apply reconcile_all_cons in Hr as (c3 & s3 & es3 & Hr & H3'). injection Hr as -> _ <- _.
  assert (class_ok c1 ∧ NC_Meta c1 = NC_Meta c ∧ Spec c1 = Spec c ∧
    (errs = es1 → decided ConditionTypeImageReady c1 ∧ Sorted (by_id SI_Id) (Status_Images (Status c1)))) as
    ((Hi1 & Hs1 & Hg1) & Hm1 & Hsp1 & Hd1).
  { destruct H1' as [(e & _ & -> & ->)|(r & Hx%Image_Reconcile_Ok & ->)].
    { split_and!; try done; by intros ?%(f_equal length)%Nat.neq_succ_diag_l. }
    destruct Hx as (Ht & ? & ? & ? & ? & ?). pose proof Ht as (? & ? & _). split_and!; try done.
    split_and!; [done| |]; [eapply subnets_ok_kept|eapply groups_ok_kept]; done. }
  assert (class_ok c2 ∧ NC_Meta c2 = NC_Meta c ∧ Spec c2 = Spec c ∧
    (es1 = es2 → decided ConditionTypeSubnetsReady c2) ∧ Status_Images (Status c2) = Status_Images (Status c1) ∧
    (decided ConditionTypeImageReady c1 → decided ConditionTypeImageReady c2)) as
    ((Hi2 & Hs2 & Hg2) & Hm2 & Hsp2 & Hd2 & Him2 & Hdi2).
  { destruct H2' as [(e & _ & -> & ->)|(r & Hx%Subnet_Reconcile_Ok & ->)].
    { split_and!; try done; by intros ?%(f_equal length)%Nat.neq_succ_diag_l. }
    destruct Hx as (Ht & ? & ? & ? & ?). pose proof Ht as (Hm & Hsp & _).
    destruct (images_ok_kept _ _ _ Ht) as [? ?]; [done..|].
    split_and!; try congruence; try done. split_and!; [auto|done|]. by eapply groups_ok_kept. }
  destruct H3' as [(e & _ & -> & ->)|(r & Hx%SecurityGroup_Reconcile_Ok & ->)].
  { split_and!; [done..|]. intros Hn. exfalso. subst errs. destruct H1' as [(? & _ & _ & ?)|(? & _ & <-)]; [done|].
    by destruct H2' as [(? & _ & _ & ?)|(? & _ & ?)]. }
  destruct Hx as (Ht & ? & ? & Himg & ?). pose proof Ht as (Hm & Hsp & _).
  destruct (images_ok_kept _ _ _ Ht) as [Hio Hido]; [done..|]. destruct (subnets_ok_kept _ _ _ Ht) as [Hso Hsdo]; [done..|].
  split_and!; [split_and!; auto|congruence|congruence|]. intros Hn.
  assert (errs = es1 ∧ es1 = []) as [He1 He2].
  { subst errs. destruct H1' as [(? & _ & _ & ?)|(? & _ & <-)]; [done|].
    split; [done|]. by destruct H2' as [(? & _ & _ & ?)|(? & _ & ?)]. }
  destruct (Hd1 He1) as [? Hsorted]. split_and!; [auto|auto|done|]. by rewrite Himg, Him2.
Qed.
End Properties.
