(* ===== verification/Registration.v ===== *)
(** * How the controllers are registered, and what that guarantees

    [controllers.go] and the [Register] methods: what each controller watches,
    which events pass its predicates and which requests they become.
    controller-runtime, which delivers the events and keeps the requests, is a
    class of operations with its documented behaviour as laws.  The section
    [Waiting] shows, of any controller, that an object that needs a pass has a
    request that is handed out within the longest back-off; its two instances
    are the finalizer of a deleted class and the hash annotations. *)

From stdpp Require Import base list strings gmap relations.
From Stdlib Require Import ZArith Lia.
From S2P Require Import Prelude Frame GoStrings OciModel Api Options Cache Sched KubeModel Reconcile.
From S2P Require Instance Tagging NodeClassHash.

Local Open Scope string_scope.

(** ** Events and registrations *)

Inductive kind : Type := KindNodeClass | KindNodeClaim.
#[export] Instance kind_eq_dec : EqDecision kind.
Proof. solve_decision. Defined.

(** [client.Object], of the two kinds the controllers watch. *)
Inductive object (Q : Type) : Type :=
| ObjNodeClass (c : OciNodeClass)
| ObjNodeClaim (c : NodeClaim Q).
Arguments ObjNodeClass {Q} c.
Arguments ObjNodeClaim {Q} c.

Definition object_kind {Q} (o : object Q) : kind :=
  match o with ObjNodeClass _ => KindNodeClass | ObjNodeClaim _ => KindNodeClaim end.
Definition object_name {Q} (o : object Q) : string :=
  match o with ObjNodeClass c => Meta_Name (NC_Meta c) | ObjNodeClaim c => Meta_Name (Claim_Meta c) end.

(** [o.( *karpv1.NodeClaim)], which panics on another kind. *)
Definition as_claim {Q} (o : object Q) : res (NodeClaim Q) :=
  match o with ObjNodeClaim c => Ok c | ObjNodeClass _ => Panic "interface conversion" end.

(** [event.CreateEvent], [event.UpdateEvent] with the new object,
    [event.DeleteEvent] with the last one seen. *)
Inductive change : Type := Created | Updated | Deleted.
Record watch_event (Q : Type) := { Ev_Change : change; Ev_Of : object Q }.
Arguments Ev_Change {Q} _.
Arguments Ev_Of {Q} _.

(** [predicate.Predicate]; a predicate may panic, as its conversions do. *)
Definition Predicate (Q : Type) : Type := watch_event Q → res bool.
Definition always {Q} : Predicate Q := λ _, Ok true.
(** [predicate.NewPredicateFuncs] *)
Definition NewPredicateFuncs {Q} (f : object Q → res bool) : Predicate Q := λ e, f (Ev_Of e).

(** [For], [Watches] with [handler.EnqueueRequestsFromMapFunc], and
    [WatchesRawSource(singleton.Source())]. *)
Inductive Source (Q : Type) : Type :=
| For_ (k : kind) (pred : Predicate Q)
| Watches (k : kind) (requests : object Q → res (list string)) (pred : Predicate Q)
| SingletonSource.
Arguments For_ {Q} k pred.
Arguments Watches {Q} k requests pred.
Arguments SingletonSource {Q}.

Record Registration (Q : Type) := {
  Named : string;
  Sources : list (Source Q);
  EventFilter : Predicate Q;
  (** 1 by default *)
  MaxConcurrentReconciles : Z;
  (** [RateLimiter: reasonable.RateLimiter()] is set *)
  Reasonable : bool
}.
Arguments Named {Q} _.
Arguments Sources {Q} _.
Arguments EventFilter {Q} _.
Arguments MaxConcurrentReconciles {Q} _.
Arguments Reasonable {Q} _.

(** The requests an event of a source's kind becomes: both the filter of the
    builder and the predicate of the source must let it pass. *)
Definition source_wakes {Q} (filter : Predicate Q) (e : watch_event Q) (s : Source Q) : res (list string) :=
  let through k pred (requests : object Q → res (list string)) :=
    if decide (object_kind (Ev_Of e) = k) then
      passes ← filter e;
      if passes : bool then
        passes ← pred e;
        if passes : bool then requests (Ev_Of e) else Ok []
      else Ok []
    else Ok [] in
  match s with
  | For_ k pred => through k pred (λ o, Ok [object_name o])
  | Watches k requests pred => through k pred requests
  | SingletonSource => Ok []
  end.

Definition wakes {Q} (r : Registration Q) (e : watch_event Q) : res (list string) :=
  ls ← map_res (source_wakes (EventFilter r) e) (Sources r);
  Ok (concat ls).

(** ** The registrations of the program *)

(** [CloudProvider.GetSupportedNodeClasses] *)
Definition GetSupportedNodeClasses : list kind := [KindNodeClass].

Section Registrations.
Context {Q : Type}.
(** [nodeclaimutils.IsManaged]: the class of the claim is of a kind the cloud
    provider supports. *)
Variable IsManaged : list kind → NodeClaim Q → bool.

Definition IsManagedPredicateFuncs : Predicate Q :=
  NewPredicateFuncs (λ o, nc ← as_claim o; Ok (IsManaged GetSupportedNodeClasses nc)).

(** [hash.Controller.Register] *)
Definition hash_Register : Registration Q := {|
  Named := "nodeclass.hash"; Sources := [For_ KindNodeClass always]; EventFilter := always;
  MaxConcurrentReconciles := 10; Reasonable := true
|}.

(** [status.Controller.Register] *)
Definition status_Register : Registration Q := {|
  Named := "nodeclass.status"; Sources := [For_ KindNodeClass always]; EventFilter := always;
  MaxConcurrentReconciles := 10; Reasonable := true
|}.

(** The map function of [termination.Controller.Register]: the class of the claim. *)
Definition class_of_claim (o : object Q) : res (list string) :=
  nc ← as_claim o;
  Ok (match Claim_NodeClassRef nc with None => [] | Some name => [name] end).

(** Its predicate lets deletions pass. *)
Definition only_deletions : Predicate Q := λ e,
  Ok (match Ev_Change e with Created => false | Updated => false | Deleted => true end).

(** [termination.Controller.Register] *)
Definition termination_Register : Registration Q := {|
  Named := "nodeclass.termination";
  Sources := [For_ KindNodeClass always; Watches KindNodeClaim class_of_claim only_deletions];
  EventFilter := always;
  MaxConcurrentReconciles := 10; Reasonable := true
|}.

(** [garbagecollection.Controller.Register] *)
Definition garbagecollection_Register : Registration Q := {|
  Named := "instance.garbagecollection"; Sources := [SingletonSource]; EventFilter := always;
  MaxConcurrentReconciles := 1; Reasonable := false
|}.

(** [pricing.Controller.Register] *)
Definition pricing_Register : Registration Q := {|
  Named := "providers.pricing"; Sources := [SingletonSource]; EventFilter := always;
  MaxConcurrentReconciles := 1; Reasonable := false
|}.

(** [tagging.Controller.Register] *)
Definition tagging_Register : Registration Q := {|
  Named := "nodeclaim.tagging";
  Sources := [For_ KindNodeClaim IsManagedPredicateFuncs];
  EventFilter := NewPredicateFuncs (λ o, nc ← as_claim o; Ok (Tagging.isTaggable nc));
  MaxConcurrentReconciles := 1; Reasonable := true
|}.

(** [NewControllers] *)
Definition NewControllers : list (Registration Q) :=
  [hash_Register; status_Register; termination_Register; garbagecollection_Register; pricing_Register;
   tagging_Register].

(** ** What wakes whom *)

(** The controllers of one class: every event of a class, by its name. *)
Lemma class_wakes r ch c :
  r ∈ [hash_Register; status_Register; termination_Register] →
  wakes r {| Ev_Change := ch; Ev_Of := ObjNodeClass c |} = Ok [Meta_Name (NC_Meta c)].
Proof.
  intros Hr. repeat (apply elem_of_cons in Hr as [->|Hr]; [done|]). by apply elem_of_nil in Hr.
Qed.

(** The termination controller: also the deletion of a claim, by its class. *)
Lemma deletion_wakes nc :
  wakes termination_Register {| Ev_Change := Deleted; Ev_Of := ObjNodeClaim nc |} =
    Ok (match Claim_NodeClassRef nc with None => [] | Some name => [name] end).
Proof. unfold wakes. simpl. by destruct (Claim_NodeClassRef nc). Qed.

(** The tagging controller: the claims of the provider that are not tagged yet. *)
Lemma tagging_wakes ch nc :
  wakes tagging_Register {| Ev_Change := ch; Ev_Of := ObjNodeClaim nc |} =
    Ok (if Tagging.isTaggable nc && IsManaged GetSupportedNodeClasses nc then [Meta_Name (Claim_Meta nc)] else []).
Proof. unfold wakes. simpl. by destruct (Tagging.isTaggable nc), (IsManaged _ nc). Qed.

(** No event makes a conversion panic: the predicates see only their kind. *)
Theorem wakes_total r e : r ∈ NewControllers → ∃ names, wakes r e = Ok names.
Proof.
  destruct e as [ch [c|nc]]; intros Hr; unfold NewControllers in Hr;
    repeat (apply elem_of_cons in Hr as [->|Hr]; [|]); try by apply elem_of_nil in Hr.
  all: try (rewrite class_wakes by set_solver; eauto).
  all: try (rewrite tagging_wakes; eauto).
  all: try (eexists; reflexivity).
  destruct ch; [eexists; reflexivity..|]. rewrite deletion_wakes. eauto.
Qed.
End Registrations.

(** ** controller-runtime

    A controller keeps its requests in a queue [Qu]; [pending] is the instant
    from which a request may be handed out. *)
Class Runtime (Q Qu : Type) : Type := {
  pending : Qu → string → option Z;
  (** the watches deliver requests *)
  receive : list string → Z → Qu → Qu;
  (** a worker takes a request *)
  take : string → Qu → Qu;
  (** a worker is done with it: what the pass returned, and when *)
  finish : string → res Result → Z → Qu → Qu;
  (** the longest delay of the rate limiter *)
  max_backoff : Z
}.

(** An error (a recovered panic is one) and [Requeue] go through the rate
    limiter; [RequeueAfter] comes first when there is no error. *)
Definition prompt (r : res Result) : bool :=
  match r with
  | Ok result => (RequeueAfter result <=? 0)%Z && Requeue result
  | Err _ | Panic _ => true
  end.

(** [p] is due by [t]. *)
Definition due_by (t : Z) (p : option Z) : Prop := ∃ d, p = Some d ∧ (d <= t)%Z.

Class RuntimeLaws (Q Qu : Type) {runtime : Runtime Q Qu} : Prop := {
  max_backoff_nonneg : (0 <= max_backoff)%Z;
  receive_due xs now q x : x ∈ xs → due_by now (pending (receive xs now q) x);
  receive_keeps xs now q x t : due_by t (pending q x) → due_by t (pending (receive xs now q) x);
  take_other x y q : x ≠ y → pending (take x q) y = pending q y;
  finish_other x y r now q : x ≠ y → pending (finish x r now q) y = pending q y;
  finish_keeps x r now q t : due_by t (pending q x) → due_by t (pending (finish x r now q) x);
  finish_prompt x r now q : prompt r = true → due_by (now + max_backoff) (pending (finish x r now q) x)
}.

Lemma due_by_le t t' p : due_by t p → (t <= t')%Z → due_by t' p.
Proof. intros (d & ? & ?) ?. exists d. split; [done|lia]. Qed.

Section Waiting.
Context {Q W Qu : Type} `{Clock W} `{RuntimeLaws Q Qu}.
Variable reg : Registration Q.
(** The pass of a request: [reconcile.AsReconciler] reads the object and calls
    the controller, or does nothing when there is none. *)
Variable Pass : string → run W Result.
(** The events the watches report when the world moves, and its other moves. *)
Variable observed : W → W → list (watch_event Q).
Variable env : W → W → Prop.

Definition woken (es : list (watch_event Q)) : list string :=
  concat (map (λ e, match wakes reg e with Ok names => names | _ => [] end) es).

(** A worker runs the pass of a request that is due, or the world moves. *)
Inductive manage : W * Qu → W * Qu → Prop :=
| manage_pass x t w r w' q :
    pending q x = Some t → (t <= clock_now w)%Z → Pass x w = (r, w') →
    manage (w, q) (w', finish x r (clock_now w')
                         (receive (woken (observed w w')) (clock_now w') (take x q)))
| manage_world w w' q : env w w' →
    manage (w, q) (w', receive (woken (observed w w')) (clock_now w') q).

(** The objects that need a pass. *)
Variable needs : W → string → Prop.
Hypothesis env_later : ∀ w w', env w w' → (clock_now w <= clock_now w')%Z.
Hypothesis pass_later : ∀ x w, (clock_now w <= clock_now (Pass x w).2)%Z.
(** What comes to need a pass is reported. *)
Hypothesis needs_woken : ∀ w w' x, needs w' x → needs w x ∨ x ∈ woken (observed w w').
(** A pass that leaves its object in need is repeated. *)
Hypothesis pass_prompt : ∀ x w r w', Pass x w = (r, w') → needs w' x →
  prompt r = true ∨ x ∈ woken (observed w w').

(** Every object in need has a request that is due within the longest back-off. *)
Definition waiting (s : W * Qu) : Prop :=
  ∀ x, needs s.1 x → due_by (clock_now s.1 + max_backoff) (pending s.2 x).

Lemma waiting_step s s' : manage s s' → waiting s → waiting s'.
Proof.
  pose proof max_backoff_nonneg as Hpos.
  intros Hstep Hs y Hneed. destruct Hstep as [x t w r w' q Ht Hdue Hpass|w w' q Henv]; simpl in *.
  - pose proof (pass_later x w) as Hlater. rewrite Hpass in Hlater. simpl in Hlater.
    assert (∀ q', y ∈ woken (observed w w') →
      due_by (clock_now w' + max_backoff) (pending (receive (woken (observed w w')) (clock_now w') q') y)) as Hrecv.
    { intros q' Hy. eapply due_by_le; [by apply receive_due|lia]. }
    destruct (decide (x = y)) as [<-|Hne].
    + destruct (pass_prompt x w r w' Hpass Hneed) as [Hp|Hy]; [by apply finish_prompt|].
      by apply finish_keeps, Hrecv.
    + rewrite finish_other by done. destruct (needs_woken w w' y Hneed) as [Hold|Hy]; [|by apply Hrecv].
      apply receive_keeps. rewrite take_other by done. eapply due_by_le; [by apply Hs|simpl; lia].
  - specialize (env_later _ _ Henv). destruct (needs_woken w w' y Hneed) as [Hold|Hy].
    + apply receive_keeps. eapply due_by_le; [by apply Hs|simpl; lia].
    + eapply due_by_le; [by apply receive_due|lia].
Qed.

Lemma waiting_always s s' : rtc manage s s' → waiting s → waiting s'.
Proof. induction 1; eauto using waiting_step. Qed.
End Waiting.

(** ** The API server, as its watches show it *)

Section Classes.
Context {Q W Qu : Type} `{Clock W} `{KubeClient Q W} `{RuntimeLaws Q Qu} {conds : ConditionLib} {errlib : ErrorLib}.

(** The class of a name, and whether some claim refers to it. *)
Variable class_at : W → string → option OciNodeClass.
Variable used : W → string → bool.
(** The events the watches report when the world moves, and for what is there
    when they start. *)
Variable observed : W → W → list (watch_event Q).
Variable existing : W → list (watch_event Q).

(** [reconcile.AsReconciler] of a controller of classes *)
Definition pass_of (Reconcile : OciNodeClass → run W Result) (name : string) : run W Result :=
  r ← attempt (kube_GetNodeClass (Q := Q) name);
  match r with
  | inl e => lift (ignoring no_requeue (IgnoreNotFound e))
  | inr c => Reconcile c
  end.

(** What the server and its watches promise. *)
Record server_laws : Prop := {
  (** a read gives the class there is, or says that there is none *)
  law_get name w r w' : kube_GetNodeClass (Q := Q) name w = (r, w') →
    w' = w ∧ match r with
             | Ok c => class_at w name = Some c
             | Err e => IsNotFound e = true → class_at w name = None
             | Panic _ => True
             end;
  law_name w name c : class_at w name = Some c → Meta_Name (NC_Meta c) = name;
  (** the listing by class is empty when no claim refers to it *)
  law_list name w r w' : kube_ListNodeClaims (Q := Q) (Some name) w = (r, w') →
    w' = w ∧ ∀ cs, r = Ok cs → (cs = [] ↔ used w name = false);
  (** a patch sets the annotations it changes, and the list of finalizers *)
  law_patch lock old new w w' c : kube_PatchNodeClass (Q := Q) lock old new w = (Ok tt, w') →
    Meta_Name (NC_Meta old) = Meta_Name (NC_Meta new) →
    class_at w' (Meta_Name (NC_Meta new)) = Some c →
    (∀ k, Annotations (NC_Meta old) !! k ≠ Annotations (NC_Meta new) !! k →
       Annotations (NC_Meta c) !! k = Annotations (NC_Meta new) !! k) ∧
    (Finalizers (NC_Meta old) ≠ Finalizers (NC_Meta new) → Finalizers (NC_Meta c) = Finalizers (NC_Meta new));
  law_patch_missing lock old new w w' e : kube_PatchNodeClass (Q := Q) lock old new w = (Err e, w') →
    IsNotFound e = true → class_at w' (Meta_Name (NC_Meta new)) = None;
  (** a class that is new or changed is reported, and so is the deletion of a claim of a class
      that no claim refers to any more *)
  law_class w w' name c : class_at w' name = Some c → class_at w name = Some c ∨
    ∃ ch, {| Ev_Change := ch; Ev_Of := ObjNodeClass c |} ∈ observed w w';
  law_unused w w' name : used w name = true → used w' name = false →
    ∃ nc, {| Ev_Change := Deleted; Ev_Of := ObjNodeClaim nc |} ∈ observed w w' ∧ Claim_NodeClassRef nc = Some name;
  law_existing w name c : class_at w name = Some c →
    {| Ev_Change := Created; Ev_Of := ObjNodeClass c |} ∈ existing w;
  (** time does not go back during a call *)
  law_patch_later t lock old new : keeps (λ w, t <= clock_now w)%Z (kube_PatchNodeClass (Q := Q) lock old new);
  law_patch_claim_later t old new : keeps (λ w, t <= clock_now w)%Z (kube_PatchNodeClaim (Q := Q) old new);
  law_publish_later t ev : keeps (λ w, t <= clock_now w)%Z (recorder_Publish (Q := Q) ev)
}.
Hypothesis laws : server_laws.

Lemma woken_elem (reg : Registration Q) e es x names :
  e ∈ es → wakes reg e = Ok names → x ∈ names → x ∈ woken reg es.
Proof.
  intros He Hw Hx. unfold woken. apply list_elem_of_In, in_concat. exists names. split; [|by apply list_elem_of_In].
  apply List.in_map_iff. exists e. rewrite Hw. split; [done|by apply list_elem_of_In].
Qed.

(** A change of a class wakes the three controllers of classes. *)
Lemma class_change_woken reg w w' name c :
  reg ∈ [hash_Register; status_Register; termination_Register] →
  class_at w' name = Some c → class_at w name = Some c ∨ name ∈ woken reg (observed w w').
Proof.
  intros Hreg Hc. destruct (law_class laws w w' name c Hc) as [?|[ch He]]; [by left|right].
  eapply woken_elem; [exact He|by apply class_wakes|]. rewrite (law_name laws _ _ _ Hc). by left.
Qed.

Lemma pass_of_later Reconcile name w :
  (∀ c t, keeps (λ w, t <= clock_now w)%Z (Reconcile c)) → (clock_now w <= clock_now (pass_of Reconcile name w).2)%Z.
Proof.
  intros Hr. unfold pass_of, mbind, run_bind, attempt.
  destruct (kube_GetNodeClass name w) as [r w'] eqn:Hget. destruct (law_get laws _ _ _ _ Hget) as [-> _].
  destruct r as [c|e|why]; simpl; [by apply Hr|lia..].
Qed.

(** ** The finalizer of a deleted class *)

(** A class that is being deleted, has the finalizer, and that no claim uses. *)
Definition to_release (w : W) (name : string) : Prop :=
  ∃ c, class_at w name = Some c ∧ DeletionTimestamp (NC_Meta c) ≠ None ∧
    NodeClassHash.has_finalizer c = true ∧ used w name = false.

Notation termination_pass := (pass_of (NodeClassHash.Termination_Reconcile (Q := Q))).

Lemma has_no_finalizer c : NodeClassHash.has_finalizer (NodeClassHash.remove_finalizer c) = false.
Proof.
  unfold NodeClassHash.has_finalizer, NodeClassHash.remove_finalizer. simpl. apply bool_decide_false.
  rewrite list_elem_of_In, List.filter_In. intros [_ Hneg]. by rewrite String.eqb_refl in Hneg.
Qed.

Lemma keeps_List (P : W → Prop) name : keeps P (kube_ListNodeClaims (Q := Q) (Some name)).
Proof.
  intros w Hw. destruct (kube_ListNodeClaims (Some name) w) as [r w'] eqn:Hl.
  by destruct (law_list laws _ _ _ _ Hl) as [-> _].
Qed.

Lemma Termination_later c t : keeps (λ w, t <= clock_now w)%Z (NodeClassHash.Termination_Reconcile (Q := Q) c).
Proof.
  destruct laws. unfold NodeClassHash.Termination_Reconcile, NodeClassHash.finalize. keeping.
  all: first [apply keeps_List|auto].
Qed.

Lemma release_woken w w' name :
  to_release w' name → to_release w name ∨ name ∈ woken termination_Register (observed w w').
Proof.
  intros (c & Hc & Hdel & Hfin & Hun).
  destruct (class_change_woken termination_Register w w' name c) as [Hc0|]; [set_solver|done| |by right].
  destruct (used w name) eqn:Hused; [right|left; by exists c].
  destruct (law_unused laws w w' name Hused Hun) as (nc & He & Href).
  eapply woken_elem; [exact He|apply deletion_wakes|]. rewrite Href. by left.
Qed.

Lemma IsNotFound_wrap m e : IsNotFound (EWrap m e) = IsNotFound e.
Proof. done. Qed.

(** How a pass ends: an error or a conflict, to be repeated; the class without its finalizer; some
    claim uses the class; or there was nothing to do. *)
Lemma termination_outcome name w r w' :
  termination_pass name w = (r, w') →
  prompt r = true ∨ (∀ c, class_at w' name = Some c → NodeClassHash.has_finalizer c = false) ∨
  used w name = true ∨
  (w' = w ∧ ∀ c, class_at w name = Some c →
     DeletionTimestamp (NC_Meta c) = None ∨ NodeClassHash.has_finalizer c = false).
Proof.
  unfold pass_of. unfold mbind at 1, run_bind at 1, attempt at 1.
  destruct (kube_GetNodeClass name w) as [r0 w0] eqn:Hget. destruct (law_get laws _ _ _ _ Hget) as [-> Hc].
  destruct r0 as [c|e|why]; [| |intros [= <- <-]; by left].
  2: { unfold lift, ignoring, IgnoreNotFound. destruct (IsNotFound e); intros [= <- <-]; [|by left].
       right; left. by rewrite Hc. }
  unfold NodeClassHash.Termination_Reconcile.
  destruct (DeletionTimestamp (NC_Meta c)) eqn:Hdel.
  2: { intros [= <- <-]. right; right; right. split; [done|]. intros c' Hc'. left. congruence. }
  unfold NodeClassHash.finalize. destruct (NodeClassHash.has_finalizer c) eqn:Hfin; simpl.
  2: { intros [= <- <-]. right; right; right. split; [done|]. intros c' Hc'. right. congruence. }
  unfold mbind at 1, run_bind at 1, map_err.
  rewrite (law_name laws _ _ _ Hc).
  destruct (kube_ListNodeClaims (Some name) w) as [r1 w1] eqn:Hl. destruct (law_list laws _ _ _ _ Hl) as [-> Hcs].
  destruct r1 as [[|nc cs]|e|why]; [| |intros [= <- <-]; by left..].
  2: { intros _. right; right; left. destruct (used w name); [done|]. discriminate (proj2 (Hcs _ eq_refl) eq_refl). }
  unfold mbind, run_bind, attempt, lift.
  destruct (kube_PatchNodeClass _ _ _ w) as [r2 w2] eqn:Hp.
  destruct r2 as [[]|e|why]; simpl; intros [= <- <-]; [|destruct (IsConflict e); [by left|]|by left].
  - right; left. intros c' Hc'. rewrite <- (law_name laws _ _ _ Hc) in Hc'.
    destruct (law_patch laws _ _ _ _ _ _ Hp eq_refl Hc') as [_ Hf]. unfold NodeClassHash.has_finalizer at 1.
    pose proof (has_no_finalizer c) as Hnone. unfold NodeClassHash.has_finalizer in Hnone, Hfin.
    rewrite Hf; [done|]. intros Heq. by rewrite <- Heq, Hfin in Hnone.
  - unfold ignoring, IgnoreNotFound. rewrite IsNotFound_wrap. destruct (IsNotFound e) eqn:He; [|by left].
    right; left. intros c'. pose proof (law_patch_missing laws _ _ _ _ _ _ Hp He) as Hnone. simpl in Hnone.
    rewrite (law_name laws _ _ _ Hc) in Hnone. by rewrite Hnone.
Qed.

Lemma release_prompt name w r w' :
  termination_pass name w = (r, w') → to_release w' name →
  prompt r = true ∨ name ∈ woken termination_Register (observed w w').
Proof.
  intros Hpass (c & Hc & Hdel & Hfin & Hun).
  destruct (termination_outcome _ _ _ _ Hpass) as [?|[Hout|[Hused|[-> Hout]]]]; [by left| | |].
  - by rewrite (Hout _ Hc) in Hfin.
  - right. destruct (law_unused laws w w' name Hused Hun) as (nc & He & Href).
    eapply woken_elem; [exact He|apply deletion_wakes|]. rewrite Href. by left.
  - destruct (Hout _ Hc); congruence.
Qed.

(** C11: A class that is being deleted, has the finalizer and is used by no claim has, in every
    state that the events of the watches, the passes and the moves of the world reach, a request
    of the termination controller that is due within the longest back-off, not after the ten
    minutes it is put off while claims use it; and a pass that does not report an error or a
    conflict leaves it without the finalizer. *)
Theorem deleted_class_released (env : W → W → Prop) (w0 : W) (q0 : Qu) (w : W) (q : Qu) (name : string) :
  (∀ w w', env w w' → (clock_now w <= clock_now w')%Z) →
  rtc (manage termination_Register termination_pass observed env)
    (w0, receive (woken termination_Register (existing w0)) (clock_now w0) q0) (w, q) →
  to_release w name →
  due_by (clock_now w + max_backoff) (pending q name) ∧
  ∀ r w', termination_pass name w = (r, w') → prompt r = false →
    ∀ c, class_at w' name = Some c → NodeClassHash.has_finalizer c = false.
Proof.
  intros Henv Hreach Hneed. pose proof max_backoff_nonneg. split.
  - eapply (waiting_always termination_Register termination_pass observed env to_release) in Hreach.
    + by apply Hreach.
    + exact Henv.
    + intros x u. apply pass_of_later. intros c t. by apply Termination_later.
    + intros ???. apply release_woken.
    + intros ????. apply release_prompt.
    + intros x (c & Hc & _). eapply due_by_le; [apply receive_due|simpl; lia].
      eapply woken_elem; [exact (law_existing laws _ _ _ Hc)|apply class_wakes; set_solver|].
      rewrite (law_name laws _ _ _ Hc). by left.
  - intros r w' Hpass Hr c Hc. destruct Hneed as (c0 & Hc0 & Hdel & Hfin & Hun).
    destruct (termination_outcome _ _ _ _ Hpass) as [?|[Hout|[?|[-> Hout]]]]; [congruence|by apply Hout|congruence|].
    destruct (Hout _ Hc0); congruence.
Qed.

(** ** The hash annotations *)

Section HashWaits.
Variable class_hash : OciNodeClassSpec → res Z.

(** A class whose annotations are not those of its hash. *)
Definition to_hash (w : W) (name : string) : Prop :=
  ∃ c new, class_at w name = Some c ∧ NodeClassHash.hashed class_hash c = Ok new ∧
    Annotations (NC_Meta new) ≠ Annotations (NC_Meta c).

Notation hash_pass := (pass_of (NodeClassHash.Hash_Reconcile (Q := Q) class_hash)).

Lemma Hash_later c t : keeps (λ w, t <= clock_now w)%Z (NodeClassHash.Hash_Reconcile (Q := Q) class_hash c).
Proof.
  assert (∀ nc, keeps (λ w, (t <= clock_now w)%Z) (NodeClassHash.update_claim class_hash c nc)).
  { intros nc. destruct laws. unfold NodeClassHash.update_claim. keeping. }
  destruct laws. unfold NodeClassHash.Hash_Reconcile, NodeClassHash.updateNodeClaimHash. keeping.
  apply keeps_List.
Qed.

Lemma to_hash_woken w w' name :
  to_hash w' name → to_hash w name ∨ name ∈ woken hash_Register (observed w w').
Proof.
  intros (c & new & Hc & Hnew).
  destruct (class_change_woken hash_Register w w' name c) as [Hc0|]; [set_solver|done| |by right].
  left. by exists c, new.
Qed.

(** A pass that is not repeated has patched the annotations. *)
Lemma hash_prompt name w r w' :
  hash_pass name w = (r, w') → to_hash w' name →
  prompt r = true ∨ name ∈ woken hash_Register (observed w w').
Proof.
  intros Hpass (c & new & Hc & Hnew & Hne).
  destruct (class_change_woken hash_Register w w' name c) as [Hc0|]; [set_solver|done|left|by right].
  revert Hpass. unfold pass_of. unfold mbind at 1, run_bind at 1, attempt at 1.
  destruct (kube_GetNodeClass name w) as [r0 w0] eqn:Hget. destruct (law_get laws _ _ _ _ Hget) as [-> Hgot].
  destruct r0 as [c1|e|why]; [| |by intros [= <- <-]].
  2: { unfold lift, ignoring, IgnoreNotFound. destruct (IsNotFound e); intros [= <- <-]; [|done].
       by rewrite Hgot in Hc0. }
  assert (c1 = c) as -> by congruence. unfold NodeClassHash.Hash_Reconcile. unfold mbind at 1, run_bind at 1.
  match goal with |- context [(if ?b then ?m1 else ?m2) w] => destruct ((if b then m1 else m2) w) as [[[]|e|why] w1] end;
    [|by intros [= <- <-]..].
  unfold mbind, run_bind, lift. rewrite Hnew, bool_decide_eq_false_2 by done.
  destruct (kube_PatchNodeClass false c new w1) as [[[]|e|why] w2] eqn:Hp; intros [= <- <-]; [|done..].
  destruct Hne. assert (NC_Meta new = set_annotations (Annotations (NC_Meta new)) (NC_Meta c)) as Hmeta.
  { unfold NodeClassHash.hashed in Hnew. res_inv. done. }
  assert (Meta_Name (NC_Meta c) = Meta_Name (NC_Meta new)) as Hname by by rewrite Hmeta.
  rewrite <- (law_name laws _ _ _ Hc), Hname in Hc. apply map_eq. intros k.
  destruct (law_patch laws _ _ _ _ _ _ Hp Hname Hc) as [Hann _].
  destruct (decide (Annotations (NC_Meta c) !! k = Annotations (NC_Meta new) !! k)) as [->|Hk]; [done|].
  by rewrite Hann.
Qed.

(** A class whose hash annotations are out of date has a request of the hash controller that is
    due within the longest back-off, in every state the program reaches. *)
Theorem class_hash_awaited (env : W → W → Prop) (w0 : W) (q0 : Qu) (w : W) (q : Qu) (name : string) :
  (∀ w w', env w w' → (clock_now w <= clock_now w')%Z) →
  rtc (manage hash_Register hash_pass observed env)
    (w0, receive (woken hash_Register (existing w0)) (clock_now w0) q0) (w, q) →
  to_hash w name → due_by (clock_now w + max_backoff) (pending q name).
Proof.
  intros Henv Hreach Hneed. pose proof max_backoff_nonneg.
  eapply (waiting_always hash_Register hash_pass observed env to_hash) in Hreach.
  - by apply Hreach.
  - exact Henv.
  - intros x u. apply pass_of_later. intros c t. by apply Hash_later.
  - intros ???. apply to_hash_woken.
  - intros ????. apply hash_prompt.
  - intros x (c & new & Hc & _). eapply due_by_le; [apply receive_due|simpl; lia].
    eapply woken_elem; [exact (law_existing laws _ _ _ Hc)|apply class_wakes; set_solver|].
    rewrite (law_name laws _ _ _ Hc). by left.
Qed.
End HashWaits.
End Classes.
