(* ===== verification/Launches.v ===== *)
(** * What the operations keep, component by component

    What every operation of the providers, the cloud provider and the
    controllers keeps of the world and of the table of offerings, given what
    each call of a client keeps ([closed]) and launches only of requests that
    are [launchable].  [System] puts the operations together. *)

From stdpp Require Import base list strings gmap relations.
From Stdlib Require Import ZArith Lia.
From S2P Require Import Prelude Frame GoStrings GoFloat OciModel Api Options Cache.
From S2P Require Import UnavailableOfferings Sched Paging Selector KubeModel ImageFamily Reconcile Capacity.
From S2P Require Pricing Subnet SecurityGroup Bootstrap InstanceType Instance CloudProvider.
From S2P Require Garbage Tagging NodeClassHash NodeClassStatus.

Local Open Scope string_scope.

(** ** Calls of the clients *)

(** Every call keeps [P]; a launch, when its request is [proper]. *)
Record closed (Q : Type) {W : Type} `{ComputeClient W} `{VirtualNetworkClient W} `{KubeClient Q W}
    (proper : LaunchInstanceDetails → Prop) (P : W → Prop) : Prop := {
  closed_GetImage id : keeps P (client_GetImage id);
  closed_ListImages c n : keeps P (client_ListImages c n);
  closed_LaunchInstance req : proper req → keeps P (client_LaunchInstance req);
  closed_TerminateInstance id : keeps P (client_TerminateInstance id);
  closed_GetInstance id : keeps P (client_GetInstance id);
  closed_ListInstances c p : keeps P (client_ListInstances c p);
  closed_ListShapes c d p : keeps P (client_ListShapes c d p);
  closed_ListVnicAttachments c i : keeps P (client_ListVnicAttachments c i);
  closed_UpdateInstance id tags : keeps P (client_UpdateInstance id tags);
  closed_ListSubnets c v n : keeps P (client_ListSubnets c v n);
  closed_GetSubnet id : keeps P (client_GetSubnet id);
  closed_ListGroups c v n : keeps P (client_ListNetworkSecurityGroups c v n);
  closed_GetGroup id : keeps P (client_GetNetworkSecurityGroup id);
  closed_GetVnic id : keeps P (client_GetVnic id);
  closed_CidrUtilization id : keeps P (client_GetSubnetCidrUtilization id);
  closed_GetNodeClass n : keeps P (kube_GetNodeClass (Q := Q) n);
  closed_GetNodePool n : keeps P (kube_GetNodePool (Q := Q) n);
  closed_ListNodeClaims r : keeps P (kube_ListNodeClaims (Q := Q) r);
  closed_ListNodes : keeps P (kube_ListNodes (Q := Q));
  closed_DeleteNode n : keeps P (kube_DeleteNode (Q := Q) n);
  closed_PatchNodeClaim old new : keeps P (kube_PatchNodeClaim (Q := Q) old new);
  closed_PatchNodeClass l old new : keeps P (kube_PatchNodeClass (Q := Q) l old new);
  closed_PatchStatus old new : keeps P (kube_PatchNodeClassStatus (Q := Q) old new);
  closed_Publish ev : keeps P (recorder_Publish (Q := Q) ev)
}.
#[export] Hint Resolve closed_GetImage closed_ListImages closed_TerminateInstance closed_UpdateInstance closed_GetInstance closed_ListInstances closed_ListShapes
  closed_ListVnicAttachments closed_ListSubnets closed_GetSubnet closed_ListGroups closed_GetGroup closed_GetVnic
  closed_CidrUtilization closed_GetNodeClass closed_GetNodePool closed_ListNodeClaims closed_ListNodes
  closed_DeleteNode closed_PatchNodeClaim closed_PatchNodeClass closed_PatchStatus closed_Publish : keeps.

(** ** The shared loops *)

Section Loops.
Lemma keeps_pages {W A} (P : W → Prop) (fetch : string → run W (list A * option string)) fuel token acc :
  (∀ t, keeps P (fetch t)) → keeps P (pages fetch fuel token acc).
Proof.
  intros Hf. revert token acc. induction fuel as [|fuel IH]; intros token acc; simpl; keeping.
Qed.

Lemma keeps_cached_list {W A Sel C} `{Clock W} {order : MapOrder} `{cache : TTLCache (list A) C} (P : W → Prop)
    (ask : Sel → run W (list A)) id key sels :
  (∀ sel, keeps P (ask sel)) → keeps (λ s : Cached C W, P (c_world s)) (cached_list ask id key sels).
Proof.
  intros Ha. unfold cached_list. apply keeps_get. intros s Hs. destruct (cache_Get _ _ _); [done|].
  revert s Hs. change (keeps (λ s : Cached C W, P (c_world s)) (m ← on_client (gather ask id sels);
    s' ← get_state; put_state (set_c_cache (cache_SetDefault (clock_now (c_world s')) key (map_values "cached" m) (c_cache s')) s');;
    mret (map_values "returned" m))).
  apply keeps_bind.
  - apply (keeps_zoom _ P); [|done..]. unfold gather. keeping.
  - intros m. by apply keeps_get.
Qed.

End Loops.
#[export] Hint Resolve keeps_pages keeps_cached_list : keeps.

(** ** The providers *)

Section Providers.
Context {Q W : Type} `{ComputeClient W} `{VirtualNetworkClient W} `{KubeClient Q W} `{clock : Clock W} {order : MapOrder}.
Variable proper : LaunchInstanceDetails → Prop.
Variable P : W → Prop.
Hypothesis HP : closed Q proper P.
Variable opts : Options.

Lemma keeps_subnets {C} `{TTLCache (list Subnet) C} hash c :
  keeps (λ s : Cached C W, P (c_world s)) (Subnet.List opts hash c).
Proof. unfold Subnet.List. keeping. apply keeps_cached_list. intros sel. unfold Subnet.ask_subnets. keeping. Qed.

Lemma keeps_free_addresses is_ipv6 subnet : keeps P (Subnet.GetSubnetAvailableIPv4Count is_ipv6 subnet).
Proof. unfold Subnet.GetSubnetAvailableIPv4Count. keeping. Qed.

Lemma keeps_utilization subnet : keeps P (Subnet.GetSubnetUtilization subnet).
Proof. unfold Subnet.GetSubnetUtilization. keeping. Qed.

Lemma keeps_attached_subnets vnics primary : keeps P (Subnet.GetSubnets vnics primary).
Proof.
  unfold Subnet.GetSubnets. apply keeps_bind; [|intros; apply keeps_lift]. generalize false as skipped.
  induction vnics as [|v vnics IH]; intros skipped; simpl; keeping.
Qed.

Lemma keeps_groups {C} `{TTLCache (list NetworkSecurityGroup) C} hash c :
  keeps (λ s : Cached C W, P (c_world s)) (SecurityGroup.List opts hash c).
Proof.
  unfold SecurityGroup.List. keeping. apply keeps_cached_list. intros sel. unfold SecurityGroup.ask_groups. keeping.
Qed.

Lemma keeps_attached_groups vnics primary : keeps P (SecurityGroup.GetSecurityGroups vnics primary).
Proof. unfold SecurityGroup.GetSecurityGroups, SecurityGroup.vnic_groups. keeping. Qed.

Lemma keeps_images {Rq Rqs C} `{Scheduling Rq Rqs} `{TTLCache (list (WrapImage Rqs)) C} hash c :
  keeps (λ s : Cached C W, P (c_world s)) (ImageFamily.List hash c).
Proof. unfold ImageFamily.List. keeping. apply keeps_cached_list. intros sel. unfold ask_images. keeping. Qed.


Lemma keeps_instance_get id : keeps P (Instance.Get id).
Proof. unfold Instance.Get. keeping. Qed.

Lemma keeps_instance_list fuel : keeps P (Instance.List opts fuel).
Proof. unfold Instance.List, Instance.list_page. apply keeps_pages. intros page. keeping. Qed.

Lemma keeps_attachments i : keeps P (Instance.GetVnicAttachments opts i).
Proof. unfold Instance.GetVnicAttachments. keeping. Qed.

Lemma keeps_instance_delete id : keeps P (Instance.Delete id).
Proof. unfold Instance.Delete. keeping. Qed.

Lemma keeps_tags id tags : keeps P (Instance.CreateTags id tags).
Proof. unfold Instance.CreateTags. keeping. Qed.
End Providers.
#[export] Hint Resolve keeps_free_addresses keeps_utilization keeps_attached_subnets keeps_attached_groups
  keeps_instance_get keeps_instance_list keeps_attachments keeps_instance_delete keeps_tags : keeps.

(** ** The shared table of offerings, beside the world *)

(** What the marks of a launch without capacity keep too. *)
Definition markable {UC W} `{Clock W} `{TTLCache unit UC} (R : UnavailableOfferings UC → W → Prop) : Prop :=
  ∀ u w it zone ct, R u w → R (MarkUnavailable (clock_now w) it zone ct u) w.

Section Types.
Context {Q W C UC : Type} `{ComputeClient W} `{VirtualNetworkClient W} `{KubeClient Q W} `{clock : Clock W} {order : MapOrder}
  `{TTLCache (gmap string WrapShape) C} `{TTLCache unit UC}.
Variable proper : LaunchInstanceDetails → Prop.
Variable R : UnavailableOfferings UC → W → Prop.
Hypothesis HP : ∀ u, closed Q proper (R u).
Variable opts : Options.

Notation PS := (λ s : @InstanceType.State W C UC, R (InstanceType.it_offerings s) (InstanceType.it_world s)).

Lemma keeps_shapes fuel : keeps PS (InstanceType.ListInstanceType opts fuel).
Proof.
  unfold InstanceType.ListInstanceType. apply keeps_get. intros s Hs. destruct (cache_Get _ _ _); [done|].
  revert s Hs. change (keeps PS (InstanceType.refresh opts fuel)). unfold InstanceType.refresh.
  apply keeps_bind; [|intros m; apply keeps_bind; [apply keeps_lift|intros ws; by apply keeps_get]].
  apply keeps_for_each. intros m d. unfold InstanceType.collect_domain. apply keeps_bind; [|intros; keeping].
  apply (keeps_part _ (λ s, R (InstanceType.it_offerings s))); [intros s|done..].
  pose proof (HP (InstanceType.it_offerings s)). unfold InstanceType.list_shapes. keeping.
Qed.

Lemma keeps_types {Rq Rqs} `{Scheduling Rq Rqs} `{Quantities Q} `{OfferingLib Rqs Q} Price ParseFloat_other region fuel c :
  keeps PS (InstanceType.List opts Price ParseFloat_other region fuel c : run _ (list (InstanceType Rqs Q))).
Proof.
  unfold InstanceType.List. apply keeps_bind; [apply keeps_shapes|]. intros m. by apply keeps_get.
Qed.
End Types.

(** ** Instances *)

Section Instances.
Context {Rq Rqs Q W SC UC : Type} `{sched : Scheduling Rq Rqs} `{Quantities Q} `{lib : OfferingLib Rqs Q}
  {olaws : OfferingLibLaws Rq Rqs Q}
  `{ComputeClient W} `{VirtualNetworkClient W} `{KubeClient Q W} `{clock : Clock W} {order : MapOrder}
  {shuffler : Instance.Shuffler} `{subnetCache : TTLCache (list Subnet) SC} `{TTLCache unit UC}.
Variable opts : Options.
Variable sdk : Instance.EnumMappings.
Variable is_ipv6 : string → bool.
Variable subnet_hash : list SubnetSelectorTerm → res Z.
Variable taint_ToString : Bootstrap.Taint → string.
Variable quote_other : string → string.
Variable url_Hostname : string → option string.
Variable random_boundary : string.
Variable read_parts : string → res (list Bootstrap.Part).
Variable templates : TemplateProvider.
Variable proper : LaunchInstanceDetails → Prop.
Variable R : UnavailableOfferings UC → W → Prop.
Hypothesis HP : ∀ u, closed Q proper (R u).
Hypothesis Hmark : markable R.

Notation State := (Instance.State W SC UC).
Notation PS := (λ s : State, R (Instance.ip_offerings s) (Instance.ip_world s)).

(** A request that [Instance.Create] may send for a claim, a class and the
    types offered. *)
Definition requested (class : OciNodeClass) (claim : NodeClaim Q) (its : list (InstanceType Rqs Q))
    (req : LaunchInstanceDetails) : Prop :=
  ∃ subnet it image ad, Instance.request_for opts req class claim subnet it image ad ∧
    it ∈ its ∧ image ∈ Status_Images (Status class) ∧ image_fits it image = true ∧
    ad ∈ Options.AvailableDomains opts.

Lemma keeps_on_world {A} (m : run W A) : (∀ u, keeps (R u) m) → keeps PS (Instance.on_world m).
Proof. intros Hm. by apply (keeps_part _ (λ s, R (Instance.ip_offerings s))). Qed.

Lemma keeps_launch req zone : proper req → keeps PS (Instance.launch req zone : run State Instance).
Proof.
  intros Hreq. unfold Instance.launch. apply keeps_bind.
  - apply keeps_attempt, keeps_on_world. intros u. by apply (closed_LaunchInstance _ _ _ (HP u)).
  - intros [e|i]; [|apply keeps_ret]. destruct (Instance.out_of_capacity e); [|apply keeps_fail].
    apply keeps_get. intros st Hst. by apply Hmark.
Qed.

Lemma keeps_least_utilized class : keeps PS (Instance.FindLeastUtilizedSubnet opts is_ipv6 subnet_hash class : run State _).
Proof.
  unfold Instance.FindLeastUtilizedSubnet, Instance.better_subnet. apply keeps_bind.
  - apply (keeps_part _ (λ s c, R (Instance.ip_offerings s) (c_world c))); [intros ?; by eapply keeps_subnets|done..].
  - intros subnets. keeping. apply keeps_on_world. intros u. keeping.
Qed.

Lemma keeps_create class claim its :
  (∀ req, requested class claim its req → proper req) →
  keeps PS (Instance.Create opts sdk is_ipv6 subnet_hash taint_ToString quote_other url_Hostname
    random_boundary read_parts templates class claim its : run State Instance).
Proof.
  intros Hreq. unfold Instance.Create. apply keeps_bind; [apply keeps_least_utilized|]. intros [subnet count].
  destruct (_ <? _)%Z; [apply keeps_fail|].
  destruct (Instance.pickBestInstanceType claim its) as [oit zone] eqn:Hpick.
  destruct (List.find _ _) as [ad|] eqn:Had; [|apply keeps_fail]. destruct oit as [it|]; [|apply keeps_fail].
  apply List.find_some in Had as [Had%list_elem_of_In _]. apply pick_offering in Hpick as [Hit _].
  apply keeps_bind_lift. intros ts Hts. apply keeps_bind_lift. intros t Ht.
  destruct (Instance.template_image _ _ _ _ _ _ _ Hts Ht) as (image & [Himg%list_elem_of_In Hfit]%List.find_some & Hid).
  apply keeps_bind; [by apply (keeps_part _ (λ _ _, True))|]. intros userdata.
  apply keeps_bind_lift. intros req Hr. apply keeps_launch, Hreq.
  exists subnet, it, image, ad. split_and!; [by eapply Instance.launch_request_for|done..].
Qed.
End Instances.

(** ** The cloud provider *)

Section Cloud.
Context {Rq Rqs Q W TC SC UC : Type} `{sched : Scheduling Rq Rqs} `{Quantities Q} `{lib : OfferingLib Rqs Q}
  {olaws : OfferingLibLaws Rq Rqs Q} `{CloudLib Rq Rqs Q} {conds : ConditionLib} {errlib : ErrorLib}
  `{ComputeClient W} `{VirtualNetworkClient W} `{KubeClient Q W} `{clock : Clock W} {order : MapOrder}
  {shuffler : Instance.Shuffler} `{shapeCache : TTLCache (gmap string WrapShape) TC}
  `{subnetCache : TTLCache (list Subnet) SC} `{TTLCache unit UC}.
Variable opts : Options.
Variable sdk : Instance.EnumMappings.
Variable is_ipv6 : string → bool.
Variable subnet_hash : list SubnetSelectorTerm → res Z.
Variable class_hash : OciNodeClassSpec → res Z.
Variable taint_ToString : Bootstrap.Taint → string.
Variable quote_other : string → string.
Variable url_Hostname : string → option string.
Variable random_boundary : string.
Variable read_parts : string → res (list Bootstrap.Part).
Variable templates : TemplateProvider.
Variable Price : WrapShape → res f32.
Variable ParseFloat_other : string → option f64.
Variable region : string.
Variable fuel : nat.

(** The class the claim refers to, as the API server has it at some time. *)
Definition class_of (claim : NodeClaim Q) (class : OciNodeClass) : Prop :=
  ∃ name w w', Claim_NodeClassRef claim = Some name ∧ kube_GetNodeClass (Q := Q) name w = (Ok class, w').

(** A request of the cloud provider: for the claim's class, ready and not
    being deleted, an instance type that suits the claim, an image and a domain
    of the class and the options, in the compartment and with the tags of the
    cluster. *)
Definition launchable (req : LaunchInstanceDetails) : Prop :=
  ∃ (class : OciNodeClass) (claim : NodeClaim Q) (its : list (InstanceType Rqs Q)),
    requested opts class claim its req ∧ class_of claim class ∧
    (cond_Ready (Status_Conditions (Status class))).1 = CondTrue ∧ DeletionTimestamp (NC_Meta class) = None ∧
    ∀ it, it ∈ its → CloudProvider.suits claim it = true.

Variable R : UnavailableOfferings UC → W → Prop.
Hypothesis HP : ∀ u, closed Q launchable (R u).
Hypothesis Hmark : markable R.

Notation State := (CloudProvider.State W TC SC UC).
Notation PS := (λ s : State, R (CloudProvider.cp_offerings s) (CloudProvider.cp_world s)).

Lemma keeps_cloud_world {A} (m : run W A) : (∀ u, keeps (R u) m) → keeps PS (CloudProvider.on_world m).
Proof. intros Hm. by apply (keeps_part _ (λ s, R (CloudProvider.cp_offerings s))). Qed.
#[local] Hint Resolve keeps_cloud_world : keeps.

Lemma keeps_resolve u ref : keeps (R u) (CloudProvider.resolve_node_class (Q := Q) ref).
Proof. unfold CloudProvider.resolve_node_class. keeping. Qed.

Lemma resolved_class (claim : NodeClaim Q) w class w' :
  CloudProvider.resolveNodeClassFromNodeClaim claim w = (Ok class, w') →
  class_of claim class ∧ DeletionTimestamp (NC_Meta class) = None.
Proof.
  unfold CloudProvider.resolveNodeClassFromNodeClaim, CloudProvider.resolve_node_class.
  intros (name & w1 & Hname & Hc)%run_bind_Ok.
  assert (Claim_NodeClassRef claim = Some name) as Href.
  { destruct (Claim_NodeClassRef claim); [|done]. by injection Hname as ->. }
  apply run_bind_Ok in Hc as (c & w2 & Hget & Hc). destruct (DeletionTimestamp (NC_Meta c)) eqn:Hd; [done|].
  injection Hc as <- _. split; [by exists name, w1, w2|done].
Qed.

(** The listings, in whatever orders their loops take. *)
Lemma keeps_list_types (o : MapOrder) class :
  keeps PS (CloudProvider.list_instance_types (order := o) opts Price ParseFloat_other region fuel class : run State (list (InstanceType Rqs Q))).
Proof.
  apply (keeps_zoom _ (λ t, R (InstanceType.it_offerings t) (InstanceType.it_world t))); [by eapply keeps_types|done..].
Qed.

Lemma keeps_not_found u e ev : keeps (R u) (CloudProvider.publish_not_found (Q := Q) e ev).
Proof. unfold CloudProvider.publish_not_found. keeping. Qed.

#[local] Hint Resolve keeps_resolve keeps_list_types keeps_not_found : keeps.

Lemma keeps_GetInstanceTypes (o : MapOrder) pool :
  keeps PS (CloudProvider.GetInstanceTypes (order := o) opts Price ParseFloat_other region fuel pool : run State (list (InstanceType Rqs Q))).
Proof. unfold CloudProvider.GetInstanceTypes, CloudProvider.resolveNodeClassFromNodePool. keeping. Qed.
#[local] Hint Resolve keeps_GetInstanceTypes : keeps.

Lemma keeps_now : keeps PS (CloudProvider.now : run State Z).
Proof. unfold CloudProvider.now. by apply keeps_get. Qed.
#[local] Hint Resolve keeps_now : keeps.

Lemma keeps_cloud_create (claim : NodeClaim Q) :
  keeps PS (CloudProvider.Create opts sdk is_ipv6 subnet_hash class_hash taint_ToString quote_other url_Hostname
    random_boundary read_parts templates Price ParseFloat_other region fuel claim : run State (NodeClaim Q)).
Proof.
  unfold CloudProvider.Create.
  apply (keeps_bind_post _ _ _ (λ r, match r with
    | inl _ => True
    | inr class => class_of claim class ∧ DeletionTimestamp (NC_Meta class) = None
    end)); [unfold CloudProvider.resolveNodeClassFromNodeClaim; keeping|..].
  { intros s r s' Hr%attempt_Ok. destruct r as [e|class]; [done|]. unfold CloudProvider.on_world, zoom in Hr.
    destruct (CloudProvider.resolveNodeClassFromNodeClaim _ _) as [r w] eqn:Hc. injection Hr as -> _.
    by eapply resolved_class. }
  intros [e|class] Hclass; [keeping|]. destruct Hclass as [Hof Hdel]. destruct (cond_Ready _) as [[] msg] eqn:Hready; [|apply keeps_fail..].
  unfold CloudProvider.resolveInstanceTypes.
  apply (keeps_bind_post _ _ _ (λ its, ∀ it, it ∈ its → CloudProvider.suits claim it = true)); [keeping|..].
  { intros s its s' Hits%map_err_Ok. apply run_bind_Ok in Hits as (all & s1 & _ & Hf). injection Hf as <- _.
    intros it Hit. by apply list_elem_of_In, List.filter_In in Hit as [_ ?]. }
  intros its Hsuits. destruct its as [|it its]; [apply keeps_fail|]. unfold CloudProvider.launch_claim.
  apply keeps_bind; [|intros i; keeping].
  apply (keeps_zoom _ (λ s, R (Instance.ip_offerings s) (Instance.ip_world s))); [|done..].
  eapply keeps_create; [exact HP|exact Hmark|].
  intros req Hreq. exists class, claim, (it :: its). split_and!; [done|done|by rewrite Hready|done|done].
Qed.

Lemma keeps_pool u i : keeps (R u) (CloudProvider.resolveNodePoolFromInstance (Q := Q) opts i).
Proof. unfold CloudProvider.resolveNodePoolFromInstance. keeping. Qed.
#[local] Hint Resolve keeps_pool : keeps.

Lemma keeps_type_of_instance (o : MapOrder) i :
  keeps PS (CloudProvider.resolveInstanceTypeFromInstance (order := o) opts Price ParseFloat_other region fuel i
    : run State (option (InstanceType Rqs Q))).
Proof. unfold CloudProvider.resolveInstanceTypeFromInstance. keeping. Qed.
#[local] Hint Resolve keeps_type_of_instance : keeps.

Lemma keeps_claim_of_instance (o : MapOrder) i :
  keeps PS (CloudProvider.claim_of_instance (order := o) opts Price ParseFloat_other region fuel i
    : run State (NodeClaim Q)).
Proof. unfold CloudProvider.claim_of_instance. keeping. Qed.
#[local] Hint Resolve keeps_claim_of_instance : keeps.

Lemma keeps_cloud_get id :
  keeps PS (CloudProvider.Get opts Price ParseFloat_other region fuel id : run State (NodeClaim Q)).
Proof. unfold CloudProvider.Get. keeping. Qed.

Lemma keeps_cloud_list : keeps PS (CloudProvider.List opts Price ParseFloat_other region fuel : run State (list (NodeClaim Q))).
Proof. unfold CloudProvider.List. keeping. Qed.

Lemma keeps_cloud_delete u (claim : NodeClaim Q) : keeps (R u) (CloudProvider.Delete claim).
Proof. unfold CloudProvider.Delete. keeping. Qed.

Lemma keeps_drifted claim :
  keeps PS (CloudProvider.IsDrifted opts Price ParseFloat_other region fuel claim : run State string).
Proof.
  unfold CloudProvider.IsDrifted, CloudProvider.isNodeClassDrifted, CloudProvider.isImageDrifted,
    CloudProvider.resolveNodeClassFromNodePool. keeping.
Qed.
End Cloud.

(** ** The controllers *)

Section Controllers.
Context {Q W : Type} {errlib : ErrorLib} {conds : ConditionLib} `{ComputeClient W} `{VirtualNetworkClient W}
  `{KubeClient Q W} {order : MapOrder}.
Variable proper : LaunchInstanceDetails → Prop.
Variable P : W → Prop.
Hypothesis HP : closed Q proper P.

Lemma keeps_tagging Sleep (claim : NodeClaim Q) :
  (∀ d w, P w → P (Sleep d w)) → keeps P (Tagging.Reconcile Sleep claim).
Proof.
  intros Hsleep. unfold Tagging.Reconcile, Tagging.tagInstance. keeping.
  intros w Hw. pose proof (keeps_map_err P (EWrap "tagging nodeclaim") _ (keeps_tags _ _ HP (Claim_ProviderID claim) 
    (Tagging.missing_tags (FreeFormTags (Spec a0)) (Inst_FreeformTags a1))) w Hw) as Ht.
  unfold Tagging.deferring_sleep. destruct (map_err _ _ w) as [r w']. by apply Hsleep.
Qed.

Lemma keeps_hash class_hash class : keeps P (NodeClassHash.Hash_Reconcile (Q := Q) class_hash class).
Proof.
  unfold NodeClassHash.Hash_Reconcile, NodeClassHash.updateNodeClaimHash, NodeClassHash.update_claim. keeping.
  apply keeps_try_all. intros claim. keeping.
Qed.

Lemma keeps_termination class : keeps P (NodeClassHash.Termination_Reconcile (Q := Q) class).
Proof. unfold NodeClassHash.Termination_Reconcile, NodeClassHash.finalize. keeping. Qed.

(** The status controller, over its caches. *)
Context {Rq Rqs IC SC GC : Type} `{Scheduling Rq Rqs} `{NodeClassStatus.RequirementsText Rqs} `{Clock W}
  `{imageCache : TTLCache (list (WrapImage Rqs)) IC} `{subnetCache : TTLCache (list Subnet) SC}
  `{groupCache : TTLCache (list NetworkSecurityGroup) GC}.
Notation PS := (λ s : NodeClassStatus.State W IC SC GC, P (NodeClassStatus.ns_world s)).

Lemma keeps_status opts image_hash subnet_hash group_hash FormatFloat result_Min class :
  keeps PS (NodeClassStatus.Status_Reconcile (Q := Q) opts image_hash subnet_hash group_hash FormatFloat result_Min class).
Proof.
  assert (∀ A (m : run W A), keeps P m → keeps PS (NodeClassStatus.on_world m)) as Hworld
    by (intros A m Hm; by apply (keeps_zoom _ P)).
  assert (∀ c, keeps PS (NodeClassStatus.reconcile_status (Q := Q) opts image_hash subnet_hash group_hash FormatFloat result_Min c)) as Hst.
  { intros c. unfold NodeClassStatus.reconcile_status. apply keeps_bind; [|intros [[new results] errs]; keeping; apply Hworld; keeping].
    cbn [NodeClassStatus.reconcile_all]. 
    unfold NodeClassStatus.Image_Reconcile, NodeClassStatus.Subnet_Reconcile, NodeClassStatus.SecurityGroup_Reconcile.
    keeping.
    all: try (apply (keeps_zoom _ (λ s, P (c_world s))); [|done..]).
    all: try (by eapply keeps_images) || (by eapply keeps_subnets) || (by eapply keeps_groups).
    all: apply Hworld; unfold NodeClassStatus.status_subnet; keeping. }
  unfold NodeClassStatus.Status_Reconcile. keeping.
Qed.
End Controllers.

(** The collector, over an implementation of the cloud's interface. *)
Lemma keeps_collector {Q S : Type} {errlib : ErrorLib} `{Clock S} `{Cloud Q S} `{KubeClient Q S} {work : Garbage.WorkOrder}
    (P : S → Prop) :
  keeps P (cloud_List (Q := Q)) → (∀ nc, keeps P (cloud_Delete (Q := Q) nc)) →
  (∀ r, keeps P (kube_ListNodeClaims (Q := Q) r)) → keeps P (kube_ListNodes (Q := Q)) →
  (∀ n, keeps P (kube_DeleteNode (Q := Q) n)) →
  keeps (λ s : Garbage.State S, P (Garbage.gc_world s)) (Garbage.Reconcile (Q := Q)).
Proof.
  intros Hl Hd Hc Hn Hdn.
  assert (∀ A (m : run S A), keeps P m → keeps (λ s : Garbage.State S, P (Garbage.gc_world s)) (Garbage.on_world m)) as Hworld
    by (intros A m Hm; by apply (keeps_zoom _ P)).
  assert (∀ n, keeps P (Garbage.delete_node (Q := Q) n)) as Hdelete by (intros n; unfold Garbage.delete_node; keeping).
  assert (∀ r a collect l, (∀ nc, keeps P (collect nc)) →
    keeps P (try_all (Garbage.when_orphan (Q := Q) r a collect) l)) as Hall.
  { intros r a collect l Hcol. apply keeps_try_all. intros nc. unfold Garbage.when_orphan. apply keeps_get.
    intros s Hs. destruct (Garbage.orphan _ _ _ _); [by apply Hcol|done]. }
  unfold Garbage.Reconcile. keeping.
  apply Hworld. unfold Garbage.sweep. keeping; apply Hall; intros nc.
  - unfold Garbage.garbageCollect. keeping.
  - unfold Garbage.garbageNode. keeping.
Qed.
