(* ===== verification/System.v ===== *)
(** * The running program

    What [cmd/controller/main.go] assembles: the operator that
    [Operator.NewOperator] started, on which karpenter calls the cloud provider
    and controller-runtime runs the controllers of [controllers.go].  An
    operation is one step, whatever it returns; the steps of the program
    interleave with those of the world, which the clients and the clock see.
    In the program the controllers run side by side, and a step of one may fall
    between two calls of another: [Concurrent] divides the launches into their
    calls, [Workers] the passes of the collector. *)

From stdpp Require Import base list strings gmap relations.
From Stdlib Require Import QArith ZArith Lia.
From S2P Require Import Prelude Frame GoStrings GoFloat Utils OciModel Api Options Cache.
From S2P Require Import UnavailableOfferings Sched KubeModel ImageFamily Reconcile OciConfig Operator Capacity Launches.
From S2P Require Pricing Bootstrap Instance CloudProvider Collector.
From S2P Require Garbage Tagging NodeClassHash NodeClassStatus.

Local Open Scope string_scope.

(** What karpenter asks of the cloud provider, what a controller is run on,
    and the janitor of the table of offerings. *)
Inductive operation (Q : Type) : Type :=
| DoGetInstanceTypes (pool : option NodePool)
| DoCreate (claim : NodeClaim Q)
| DoDelete (claim : NodeClaim Q)
| DoGet (id : string)
| DoList
| DoIsDrifted (claim : NodeClaim Q)
| RunHash (class : OciNodeClass)
| RunStatus (class : OciNodeClass)
| RunTermination (class : OciNodeClass)
| RunGarbageCollection
| RunPricing (outcome : Pricing.http_outcome)
| RunTagging (claim : NodeClaim Q)
| RunJanitor.
Arguments DoGetInstanceTypes {Q} _. Arguments DoCreate {Q} _. Arguments DoDelete {Q} _. Arguments DoGet {Q} _.
Arguments DoList {Q}. Arguments DoIsDrifted {Q} _. Arguments RunHash {Q} _. Arguments RunStatus {Q} _.
Arguments RunTermination {Q} _. Arguments RunGarbageCollection {Q}. Arguments RunPricing {Q} _.
Arguments RunTagging {Q} _. Arguments RunJanitor {Q}.

Section System.
Context {Rq Rqs Q W TC SC UC IC GC : Type} `{sched : Scheduling Rq Rqs} `{Quantities Q} `{lib : OfferingLib Rqs Q}
  `{CloudLib Rq Rqs Q} {conds : ConditionLib} {errlib : ErrorLib} `{NodeClassStatus.RequirementsText Rqs}
  `{ComputeClient W} `{VirtualNetworkClient W} `{KubeClient Q W} `{clock : Clock W}
  `{shapeCache : TTLCache (gmap string WrapShape) TC} `{subnetCache : TTLCache (list Subnet) SC} {offeringCache : TTLCache unit UC}
  `{imageCache : TTLCache (list (WrapImage Rqs)) IC} `{groupCache : TTLCache (list NetworkSecurityGroup) GC}
  {olaws : OfferingLibLaws Rq Rqs Q}.
Variable sdk : Instance.EnumMappings.
Variable is_ipv6 : string → bool.
Variable image_hash : list ImageSelectorTerm → res Z.
Variable subnet_hash : list SubnetSelectorTerm → res Z.
Variable group_hash : list SecurityGroupSelectorTerm → res Z.
Variable class_hash : OciNodeClassSpec → res Z.
Variable taint_ToString : Bootstrap.Taint → string.
Variable quote_other : string → string.
Variable url_Hostname : string → option string.
Variable read_parts : string → res (list Bootstrap.Part).
Variable ParseFloat_other : string → option f64.
Variable FormatFloat : f32 → string.
Variable result_Min : list Result → Result.
Variable regexp_other : string → string → option bool.
Variable unmarshal : string → option Pricing.PriceCatalog.
Variable HasChanged : option Pricing.PriceCatalog → bool.
Variable Sleep : Z → W → W.
Variable fuel : nat.

Notation Cloud := (CloudProvider.State W TC SC UC).
Notation Started := (Operator (W := W) (IC := IC) (SC := SC) (GC := GC) (SH := TC) (UC := UC)).

(** The state of the program: the cloud provider's, the caches of the images
    and the groups, the prices, and the collector's counter. *)
Record System := {
  sys_cloud : Cloud;
  sys_images : IC;
  sys_groups : GC;
  sys_prices : Pricing.DefaultProvider;
  sys_count : Z
}.

(** As [main] assembles it of a new operator [op], which stays as it is. *)
Definition assemble (op : Started) : System := {|
  sys_cloud := Op_Cloud op; sys_images := Op_Images op; sys_groups := Op_SecurityGroups op;
  sys_prices := Op_Pricing op; sys_count := 0
|}.

(** ** The parts the operations run on *)

Definition sys_world (s : System) : W := CloudProvider.cp_world (sys_cloud s).
Definition set_sys_cloud (c : Cloud) (s : System) : System := {|
  sys_cloud := c; sys_images := sys_images s; sys_groups := sys_groups s; sys_prices := sys_prices s;
  sys_count := sys_count s
|}.
Definition set_sys_world (w : W) (s : System) : System :=
  set_sys_cloud (CloudProvider.set_cp_world w (sys_cloud s)) s.
Definition set_sys_prices (p : Pricing.DefaultProvider) (s : System) : System := {|
  sys_cloud := sys_cloud s; sys_images := sys_images s; sys_groups := sys_groups s; sys_prices := p;
  sys_count := sys_count s
|}.
Definition set_sys_offerings (u : UnavailableOfferings UC) (s : System) : System :=
  set_sys_cloud {|
    CloudProvider.cp_shapes := CloudProvider.cp_shapes (sys_cloud s);
    CloudProvider.cp_subnets := CloudProvider.cp_subnets (sys_cloud s);
    CloudProvider.cp_offerings := u;
    CloudProvider.cp_bootstrap := CloudProvider.cp_bootstrap (sys_cloud s);
    CloudProvider.cp_world := sys_world s
  |} s.

(** The status controller shares the subnets' cache with the instances. *)
Definition status_state (s : System) : NodeClassStatus.State W IC SC GC := {|
  NodeClassStatus.ns_images := sys_images s;
  NodeClassStatus.ns_subnets := CloudProvider.cp_subnets (sys_cloud s);
  NodeClassStatus.ns_groups := sys_groups s;
  NodeClassStatus.ns_world := sys_world s
|}.
Definition set_status_state (n : NodeClassStatus.State W IC SC GC) (s : System) : System := {|
  sys_cloud := {|
    CloudProvider.cp_shapes := CloudProvider.cp_shapes (sys_cloud s);
    CloudProvider.cp_subnets := NodeClassStatus.ns_subnets n;
    CloudProvider.cp_offerings := CloudProvider.cp_offerings (sys_cloud s);
    CloudProvider.cp_bootstrap := CloudProvider.cp_bootstrap (sys_cloud s);
    CloudProvider.cp_world := NodeClassStatus.ns_world n
  |};
  sys_images := NodeClassStatus.ns_images n; sys_groups := NodeClassStatus.ns_groups n;
  sys_prices := sys_prices s; sys_count := sys_count s
|}.

(** The collector's counter, over the cloud provider. *)
Definition collector_state (s : System) : Garbage.State Cloud :=
  {| Garbage.successfulCount := sys_count s; Garbage.gc_world := sys_cloud s |}.
Definition set_collector_state (g : Garbage.State Cloud) (s : System) : System := {|
  sys_cloud := Garbage.gc_world g; sys_images := sys_images s; sys_groups := sys_groups s;
  sys_prices := sys_prices s; sys_count := Garbage.successfulCount g
|}.

Definition on_cloud {A} (m : run Cloud A) : run System A := zoom sys_cloud set_sys_cloud m.
Definition on_world {A} (m : run W A) : run System A := zoom sys_world set_sys_world m.
Definition on_status {A} (m : run (NodeClassStatus.State W IC SC GC) A) : run System A :=
  zoom status_state set_status_state m.
Definition on_collector {A} (m : run (Garbage.State Cloud) A) : run System A :=
  zoom collector_state set_collector_state m.
Definition on_prices {A} (m : run Pricing.DefaultProvider A) : run System A := zoom sys_prices set_sys_prices m.

(** ** The operations *)

Section Operations.
Variable op : Started.

(** The price the instance types are offered at: of the catalog as it is. *)
Definition price_of (s : System) (shape : WrapShape) : res f32 :=
  Pricing.Calculate regexp_other shape (Pricing.priceCatalog (sys_prices s)).

(** What is asked of the cloud provider, at the prices of the state. *)
Definition priced {A} (f : (WrapShape → res f32) → run System A) : run System A :=
  s ← get_state; f (price_of s).

(** The caller has the result. *)
Definition ran {A} (m : run System A) : run System unit := m;; mret tt.

(** What an operation draws as it runs: the orders of its loops over maps, the
    order it tries the shapes of a price in, the order its workers take their
    pieces in, and the boundary of the parts of a script. *)
Section Perform.
Context {order : MapOrder} {shuffler : Instance.Shuffler} {work : Garbage.WorkOrder}.
Variable random_boundary : string.

Definition perform (o : operation Q) : run System unit :=
  match o with
  | DoGetInstanceTypes pool => ran (priced (λ Price, on_cloud
      (CloudProvider.GetInstanceTypes (Op_Options op) Price ParseFloat_other (Op_Region op) fuel pool
        : run Cloud (list (InstanceType Rqs Q)))))
  | DoCreate claim => ran (priced (λ Price, on_cloud
      (CloudProvider.Create (Op_Options op) sdk is_ipv6 subnet_hash class_hash taint_ToString quote_other url_Hostname
        random_boundary read_parts (Op_Templates op) Price ParseFloat_other (Op_Region op) fuel claim)))
  | DoDelete claim => ran (on_world (CloudProvider.Delete claim))
  | DoGet id => ran (priced (λ Price, on_cloud
      (CloudProvider.Get (Op_Options op) Price ParseFloat_other (Op_Region op) fuel id : run Cloud (NodeClaim Q))))
  | DoList => ran (priced (λ Price, on_cloud
      (CloudProvider.List (Op_Options op) Price ParseFloat_other (Op_Region op) fuel : run Cloud (list (NodeClaim Q)))))
  | DoIsDrifted claim => ran (priced (λ Price, on_cloud
      (CloudProvider.IsDrifted (Op_Options op) Price ParseFloat_other (Op_Region op) fuel claim)))
  | RunHash class => ran (on_world (NodeClassHash.Hash_Reconcile (Q := Q) class_hash class))
  | RunStatus class => ran (on_status
      (NodeClassStatus.Status_Reconcile (Q := Q) (Op_Options op) image_hash subnet_hash group_hash FormatFloat result_Min class))
  | RunTermination class => ran (on_world (NodeClassHash.Termination_Reconcile (Q := Q) class))
  | RunGarbageCollection => ran (priced (λ Price, on_collector
      (Collector.pass (Q := Q) (Op_Options op) Price ParseFloat_other (Op_Region op) fuel)))
  | RunPricing outcome => ran (on_prices (Pricing_Reconcile (Op_Options op)
      (Pricing.UpdateOnDemandPricing unmarshal HasChanged (UseLocalPriceList (Op_Options op)) outcome)))
  | RunTagging claim => ran (on_world (Tagging.Reconcile Sleep claim))
  | RunJanitor =>
      s ← get_state;
      put_state (set_sys_offerings (cleanup (clock_now (sys_world s)) (CloudProvider.cp_offerings (sys_cloud s))) s)
  end.
End Perform.

(** ** Steps

    Each operation draws anew. *)

(** How the world moves by itself. *)
Variable env : W → W → Prop.

Inductive step : System → System → Prop :=
| step_operation (order : MapOrder) (shuffler : Instance.Shuffler) (work : Garbage.WorkOrder) random_boundary o s r s' :
    perform random_boundary o s = (r, s') → step s s'
| step_world s w : env (sys_world s) w → step s (set_sys_world w s).

(** ** What every step keeps of the offerings and the world *)

Variable R : UnavailableOfferings UC → W → Prop.
Hypothesis HP : ∀ u, closed Q (launchable (Q := Q) (Op_Options op)) (R u).
Hypothesis Hmark : markable R.
Hypothesis Hclean : ∀ u w, R u w → R (cleanup (clock_now w) u) w.
Hypothesis Hsleep : ∀ u d w, R u w → R u (Sleep d w).

Notation PS := (λ s : System, R (CloudProvider.cp_offerings (sys_cloud s)) (sys_world s)).

Lemma keeps_sys_world {A} (m : run W A) : (∀ u, keeps (R u) m) → keeps PS (on_world m).
Proof. intros Hm. by apply (keeps_part _ (λ s, R (CloudProvider.cp_offerings (sys_cloud s)))). Qed.

Lemma keeps_sys_cloud {A} (m : run Cloud A) :
  keeps (λ c, R (CloudProvider.cp_offerings c) (CloudProvider.cp_world c)) m → keeps PS (on_cloud m).
Proof. intros Hm. by apply (keeps_zoom _ (λ c : Cloud, R (CloudProvider.cp_offerings c) (CloudProvider.cp_world c))). Qed.

Lemma keeps_ran {A} (m : run System A) : keeps PS m → keeps PS (ran m).
Proof. intros Hm. apply keeps_bind; [done|]. intros _. apply keeps_ret. Qed.

Lemma keeps_priced {A} (f : (WrapShape → res f32) → run System A) :
  (∀ Price, keeps PS (f Price)) → keeps PS (priced f).
Proof. intros Hf. apply keeps_get. intros s Hs. by apply Hf. Qed.

Lemma keeps_collection {order : MapOrder} {work : Garbage.WorkOrder} :
  keeps PS (priced (λ Price, on_collector (Collector.pass (Q := Q) (Op_Options op) Price ParseFloat_other (Op_Region op) fuel))).
Proof.
  apply keeps_priced. intros Price.
  apply (keeps_zoom _ (λ g, R (CloudProvider.cp_offerings (Garbage.gc_world g)) (CloudProvider.cp_world (Garbage.gc_world g))));
    [|done..].
  apply (keeps_collector (λ c : Cloud, R (CloudProvider.cp_offerings c) (CloudProvider.cp_world c))).
  - by eapply keeps_cloud_list.
  - intros nc. eapply keeps_cloud_world; intros u. by eapply keeps_cloud_delete.
  - intros r. eapply keeps_cloud_world; intros u. eauto with keeps.
  - eapply keeps_cloud_world; intros u. eauto with keeps.
  - intros n. eapply keeps_cloud_world; intros u. eauto with keeps.
Qed.

Lemma keeps_perform {order : MapOrder} {shuffler : Instance.Shuffler} {work : Garbage.WorkOrder} random_boundary o :
  keeps PS (perform random_boundary o).
Proof.
  destruct o; simpl; try apply keeps_ran.
  - apply keeps_priced. intros Price. apply keeps_sys_cloud. by eapply keeps_GetInstanceTypes.
  - apply keeps_priced. intros Price. apply keeps_sys_cloud. by eapply keeps_cloud_create.
  - apply keeps_sys_world. intros u. by eapply keeps_cloud_delete.
  - apply keeps_priced. intros Price. apply keeps_sys_cloud. by eapply keeps_cloud_get.
  - apply keeps_priced. intros Price. apply keeps_sys_cloud. by eapply keeps_cloud_list.
  - apply keeps_priced. intros Price. apply keeps_sys_cloud. by eapply keeps_drifted.
  - apply keeps_sys_world. intros u. by eapply keeps_hash.
  - apply (keeps_part _ (λ s n, R (CloudProvider.cp_offerings (sys_cloud s)) (NodeClassStatus.ns_world n))); [|done..].
    intros s. by eapply keeps_status.
  - apply keeps_sys_world. intros u. by eapply keeps_termination.
  - apply keeps_collection.
  - by apply (keeps_part _ (λ _ _, True)).
  - apply keeps_sys_world. intros u. eapply keeps_tagging; [done|]. intros d w. apply Hsleep.
  - apply keeps_get. intros s Hs. by apply Hclean.
Qed.

Hypothesis Henv : ∀ u w w', env w w' → R u w → R u w'.

Lemma steps_keep s s' : rtc step s s' → PS s → PS s'.
Proof.
  induction 1 as [|s s1 s2 Hstep _ IH]; [done|]. intros Hs. apply IH. destruct Hstep as [order shuffler work boundary o s r s' Hp|s w Hw].
  - pose proof (keeps_perform boundary o s Hs) as Hk. by rewrite Hp in Hk.
  - by eapply Henv.
Qed.
End Operations.

(** ** Properties *)

(** A clock that no client and nothing else turns back. *)
Definition clock_goes_on (env : W → W → Prop) : Prop :=
  (∀ t, closed Q (λ _, True) (λ w, (t <= clock_now w)%Z)) ∧
  (∀ d w, (clock_now w <= clock_now (Sleep d w))%Z) ∧
  (∀ w w', env w w' → (clock_now w <= clock_now w')%Z).

Lemma closed_later (proper : LaunchInstanceDetails → Prop) (P : W → Prop) :
  (∀ t, closed Q (λ _, True) (λ w, (t <= clock_now w)%Z)) →
  (∀ w w', (clock_now w <= clock_now w')%Z → P w → P w') → closed Q proper P.
Proof.
  intros Hc Hup. assert (∀ A (m : run W A), (∀ t, keeps (λ w, (t <= clock_now w)%Z) m) → keeps P m) as Hm.
  { intros A m Hm w Hw. apply (Hup w); [|done]. by apply Hm. }
  split; intros.
  all: try (apply Hm; intros t; pose proof (Hc t); eauto with keeps).
  - by apply (closed_LaunchInstance _ _ _ (Hc t)).
Qed.

Section Table.
Context {slaws : SchedulingLaws Rq Rqs} {ulaws : TTLCacheLaws unit UC}.
Variable op : Started.
Variable env : W → W → Prop.

(** The table evolves by marks and passes of the janitor only. *)
Lemma steps_go_on s s' :
  clock_goes_on env → rtc (step op env) s s' →
  goes_on (clock_now (sys_world s)) (CloudProvider.cp_offerings (sys_cloud s))
    (clock_now (sys_world s')) (CloudProvider.cp_offerings (sys_cloud s')).
Proof.
  intros (Hcalls & Hsleep & Henv) Hs.
  set (R u w := goes_on (clock_now (sys_world s)) (CloudProvider.cp_offerings (sys_cloud s)) (clock_now w) u).
  assert (∀ u w w', (clock_now w <= clock_now w')%Z → R u w → R u w') as Hup.
  { intros u w w' Hle Hr. apply (goes_on_trans _ _ _ _ _ _ Hr). by constructor. }
  apply (steps_keep op env R) with (s := s); try done; unfold R.
  - intros u. apply closed_later; [done|]. intros w w'. apply Hup.
  - intros u w it zone ct Hr. apply (goes_on_trans _ _ _ _ _ _ Hr), (goes_mark _ (clock_now w) it zone ct); [done|].
    by constructor.
  - intros u w Hr. apply (goes_on_trans _ _ _ _ _ _ Hr), (goes_clean _ (clock_now w)); [done|]. by constructor.
  - intros u d w. apply Hup, Hsleep.
  - intros u w w' Hw. apply Hup, Henv, Hw.
  - by constructor.
Qed.

(** What is marked when the table goes on from [s] is not in a listing at [s']. *)
Lemma marked_not_listed {order : MapOrder} (s s' : System) (c' : Cloud) (name zone : string) (limit : Z)
    (nodeClass : OciNodeClass) (its : list (InstanceType Rqs Q)) (it : InstanceType Rqs Q) (o : Offering Rqs) :
  clock_goes_on env →
  goes_on (clock_now (sys_world s)) (CloudProvider.cp_offerings (sys_cloud s))
    (clock_now (sys_world s')) (CloudProvider.cp_offerings (sys_cloud s')) →
  (limit <= clock_now (sys_world s) + cache_ttl (cache (CloudProvider.cp_offerings (sys_cloud s))))%Z →
  (∀ now, (clock_now (sys_world s) <= now <= limit)%Z →
     IsUnavailable now name zone CapacityTypeOnDemand (CloudProvider.cp_offerings (sys_cloud s)) = true) →
  CloudProvider.list_instance_types (Op_Options op) (price_of s') ParseFloat_other (Op_Region op) fuel nodeClass
    (sys_cloud s') = (Ok its, c') →
  (clock_now (CloudProvider.cp_world c') <= limit)%Z →
  it ∈ its → IT_Name it = name → o ∈ IT_Offerings it → Instance.offering_zone o = zone → Of_Available o = true →
  InstanceType.only (Reqs_Get (Of_Requirements o) CapacityTypeLabelKey) CapacityTypePreemptible ∧
  InstanceType.supportPreemptible (Op_Options op) name = true.
Proof.
  intros Hclock Hgo Hlimit Hmark Hlist Hnow.
  assert (clock_now (sys_world s') <= clock_now (CloudProvider.cp_world c'))%Z as Hlater.
  { pose proof (keeps_list_types (SC := SC) (Op_Options op) (price_of s') ParseFloat_other (Op_Region op) fuel
      (λ (_ : UnavailableOfferings UC) w, (clock_now (sys_world s') <= clock_now w)%Z)) as Hk.
    assert (closed Q (launchable (Q := Q) (Op_Options op)) (λ w, (clock_now (sys_world s') <= clock_now w)%Z)) as Hc
      by (apply closed_later; [by apply Hclock|intros ???; lia]).
    specialize (Hk (λ _, Hc) order nodeClass (sys_cloud s') (Z.le_refl _)). by rewrite Hlist in Hk. }
  intros Hit Hname Ho Hz Ha. apply (listing_avoids _ _ _ _ _ _ _ _ _ _ zone Hlist) with (it := it); [|done..].
  by apply (marked_stays _ _ _ _ _ _ _ _ Hgo Hlimit Hmark).
Qed.

(** The same of a listing after any operations and moves of the world. *)
Theorem marked_offering_avoided {order : MapOrder} (s s' : System) (c' : Cloud) (name zone : string) (limit : Z)
    (nodeClass : OciNodeClass) (its : list (InstanceType Rqs Q)) (it : InstanceType Rqs Q) (o : Offering Rqs) :
  clock_goes_on env →
  (limit <= clock_now (sys_world s) + cache_ttl (cache (CloudProvider.cp_offerings (sys_cloud s))))%Z →
  (∀ now, (clock_now (sys_world s) <= now <= limit)%Z →
     IsUnavailable now name zone CapacityTypeOnDemand (CloudProvider.cp_offerings (sys_cloud s)) = true) →
  rtc (step op env) s s' →
  CloudProvider.list_instance_types (Op_Options op) (price_of s') ParseFloat_other (Op_Region op) fuel nodeClass
    (sys_cloud s') = (Ok its, c') →
  (clock_now (CloudProvider.cp_world c') <= limit)%Z →
  it ∈ its → IT_Name it = name → o ∈ IT_Offerings it → Instance.offering_zone o = zone → Of_Available o = true →
  InstanceType.only (Reqs_Get (Of_Requirements o) CapacityTypeLabelKey) CapacityTypePreemptible ∧
  InstanceType.supportPreemptible (Op_Options op) name = true.
Proof.
  intros Hclock Hlimit Hmark Hsteps. apply marked_not_listed with (s := s); [done|by apply steps_go_on|done..].
Qed.
End Table.

(** The start-up, and the log of the launches a world has seen. *)
Section StartUp.
Context {CP RC TLS : Type} `{OperatorSdk CP RC TLS W} `{HttpClient W} `{Process W} `{OciSdk CP W} {order : MapOrder}.
Variable ToAggregate : list FieldError → option gerror.
Variable embedded : option Pricing.PriceCatalog.
Variable env : W → W → Prop.
Variable launched : W → list LaunchInstanceDetails.

(** A call adds to the log at most the request it launches, a launch its own. *)
Hypothesis logged : ∀ A : LaunchInstanceDetails → Prop, closed Q A (λ w, Forall A (launched w)).
Hypothesis Sleep_launches : ∀ d w, launched (Sleep d w) = launched w.
Hypothesis env_launches : ∀ w w', env w w' → launched w' = launched w.

(** A request that is proper for the started program. *)
Lemma launchable_proper (opts : Options) (rc : option RC) (w w1 : W) (op : Started) (req : LaunchInstanceDetails) :
  NewOperator ToAggregate embedded opts rc w = (Ok op, w1) → launchable (Q := Q) (Op_Options op) req →
  ∃ class (claim : NodeClaim Q) subnet (it : InstanceType Rqs Q) image ad domains w2,
    ListAvailabilityDomains (CompartmentId opts) w2 = (Ok domains, w1) ∧ ad ∈ map ToString domains ∧
    class_of claim class ∧ (cond_Ready (Status_Conditions (Status class))).1 = CondTrue ∧
    DeletionTimestamp (NC_Meta class) = None ∧
    CloudProvider.suits claim it = true ∧
    image ∈ Status_Images (Status class) ∧ image_fits it image = true ∧
    Instance.request_for opts req class claim subnet it image ad.
Proof.
  intros Hop Hreq. apply NewOperator_Ok in Hop as (cp & domains & w2 & _ & Hads & Hopts & _).
  destruct Hreq as (class & claim & its & (subnet & it & image & ad & Hfor & Hit & Himg & Hfit & Had) & Hof & Hready & Hdel & Hsuits).
  exists class, claim, subnet, it, image, ad, domains, w2. rewrite Hopts in *. split_and!; try done. by apply Hsuits.
Qed.

(** Every launch after a start-up, whatever karpenter asks of the cloud
    provider and the controllers and the world do. *)
Theorem launched_proper (opts : Options) (rc : option RC) (w w1 : W) (op : Started) (s : System)
    (req : LaunchInstanceDetails) :
  NewOperator ToAggregate embedded opts rc w = (Ok op, w1) → launched w1 = [] →
  rtc (step op env) (assemble op) s → req ∈ launched (sys_world s) →
  ∃ class (claim : NodeClaim Q) subnet (it : InstanceType Rqs Q) image ad domains w2,
    ListAvailabilityDomains (CompartmentId opts) w2 = (Ok domains, w1) ∧ ad ∈ map ToString domains ∧
    class_of claim class ∧ (cond_Ready (Status_Conditions (Status class))).1 = CondTrue ∧
    DeletionTimestamp (NC_Meta class) = None ∧
    CloudProvider.suits claim it = true ∧
    image ∈ Status_Images (Status class) ∧ image_fits it image = true ∧
    Instance.request_for opts req class claim subnet it image ad.
Proof.
  intros Hop Hnone Hsteps Hreq. apply (launchable_proper _ _ _ _ _ _ Hop).
  apply NewOperator_Ok in Hop as (cp & domains & w2 & _ & _ & _ & _ & _ & Hw).
  assert (Forall (launchable (Q := Q) (Op_Options op)) (launched (sys_world s))) as Hall.
  { apply (steps_keep op env (λ _ w, Forall (launchable (Q := Q) (Op_Options op)) (launched w))) with (s := assemble op); try done.
    - by intros u v.
    - intros _ d v. by rewrite Sleep_launches.
    - intros _ v v' Hv. by rewrite (env_launches _ _ Hv).
    - unfold sys_world. simpl. by rewrite Hw, Hnone. }
  by rewrite Forall_forall in Hall; apply Hall.
Qed.
End StartUp.
End System.
