(* ===== verification/Goroutines.v ===== *)
(** * A launch, cut into its steps

    [CloudProvider.Create] and what it calls, as threads: each client call,
    each access to a cache, to the table of offerings, to the prices or to the
    shared variables of the Ubuntu scripts is one step, and the two listings
    that hold a mutex take it.  Every thread run alone is the operation of its
    component. *)

From stdpp Require Import base list strings gmap.
From Stdlib Require Import ZArith Lia.
From S2P Require Import Prelude Frame Threads GoStrings GoFloat OciModel Api Options Cache.
From S2P Require Import UnavailableOfferings Sched Paging Selector KubeModel ImageFamily.
From S2P Require Subnet Bootstrap InstanceType Instance CloudProvider.

Local Open Scope string_scope.

(** The [sync.Mutex] of the subnet provider and the one of the instance types. *)
Inductive mutex : Type := SubnetMutex | InstanceTypeMutex.
#[export] Instance mutex_eq_dec : EqDecision mutex.
Proof. solve_decision. Defined.
#[export] Instance mutex_countable : Countable mutex.
Proof.
  refine (inj_countable' (λ m, match m with SubnetMutex => true | InstanceTypeMutex => false end)
    (λ b : bool, if b then SubnetMutex else InstanceTypeMutex) _). by intros [].
Defined.

(** ** Listings *)

Section Listings.
Context {W A Sel C : Type} `{Clock W} {order : MapOrder} `{cache : TTLCache (list A) C}.
Variable ask : Sel → run W (list A).
Variable id : A → string.

(** [Selector.cached_list]: one request per selector. *)
Definition listing (key : string) (sels : list Sel) : thread mutex (Cached C W) (list A) :=
  cached ← reading (λ s, Ok (cache_Get (clock_now (c_world s)) key (c_cache s)));
  match cached with
  | Some l => mret l
  | None =>
      m ← zooming c_world set_c_world
            (each (λ m sel, items ← act (ask sel); mret (collect id m items)) sels ∅);
      updating (λ s, set_c_cache (cache_SetDefault (clock_now (c_world s)) key (map_values "cached" m) (c_cache s)) s);;
      mret (map_values "returned" m)
  end.

Lemma c_world_part : part_of (T := W) (c_world (C := C)) set_c_world.
Proof. split; [done|done|]. by intros []. Qed.

Lemma listing_alone key sels : implements (listing key sels) (cached_list ask id key sels).
Proof.
  apply implements_get. intros s. destruct (cache_Get _ _ _) as [l|]; [done|].
  match goal with |- seq ?t s = ?m s => change (seq t s = m s); revert s; change (implements t m) end.
  apply implements_bind.
  - apply implements_zoom; [apply c_world_part|]. unfold gather. implementing.
  - by intros m s.
Qed.
End Listings.

(** [Paging.pages]: one request per page. *)
Section Paging.
Context {W A : Type} (fetch : string → run W (list A * option string)).

Fixpoint paging (fuel : nat) (nextPage : string) (acc : list A) : thread mutex W (list A) :=
  if String.eqb nextPage "" then mret acc
  else
    match fuel with
    | O => pure (Panic out_of_fuel)
    | S fuel' =>
        '(items, OpcNextPage) ← act (fetch (if String.eqb nextPage "0" then "" else nextPage));
        paging fuel' (from_ptr "" OpcNextPage) (acc ++ items)%list
    end.

Lemma paging_alone fuel nextPage acc : implements (paging fuel nextPage acc) (pages fetch fuel nextPage acc).
Proof.
  revert nextPage acc. induction fuel as [|fuel IH]; intros nextPage acc; cbn [paging pages];
    destruct (String.eqb nextPage ""); try done.
  apply implements_bind; [apply implements_act|]. intros [items next]. apply IH.
Qed.
End Paging.

(** ** Instance types *)

(** [m] at the prices of the first part of the state, which it leaves alone. *)
Definition at_prices {PS S A} (m : PS → run S A) : run (PS * S) A := λ s,
  let '(r, t) := m s.1 s.2 in (r, (s.1, t)).

Section AtPrices.
Context {PS S : Type}.

Definition set_second (t : S) (s : PS * S) : PS * S := (s.1, t).
(** A thread that looks at no price. *)
Definition beside {A} : thread mutex S A → thread mutex (PS * S) A := zooming snd set_second.

Lemma second_part : part_of (T := S) snd set_second.
Proof. split; [done|done|]. by intros []. Qed.

Lemma implements_beside {A} (t : thread mutex S A) (m : run S A) :
  implements t m → implements (beside t) (at_prices (λ _ : PS, m)).
Proof. intros Ht. apply (implements_zoom _ _ _ _ second_part Ht). Qed.
Lemma implements_priced {A B} (t : thread mutex (PS * S) A) (m : PS → run S A)
    (f : A → thread mutex (PS * S) B) (g : PS → A → run S B) :
  implements t (at_prices m) → (∀ a, implements (f a) (at_prices (λ p, g p a))) →
  implements (t ≫= f) (at_prices (λ p, m p ≫= g p)).
Proof.
  intros Ht Hf. apply (implements_eq _ (at_prices m ≫= λ a, at_prices (λ p, g p a))).
  - by apply implements_bind.
  - intros [p s]. unfold at_prices, mbind, run_bind. simpl. by destruct (m p s) as [[]].
Qed.
Lemma implements_priced_attempt {A} (t : thread mutex (PS * S) A) (m : PS → run S A) :
  implements t (at_prices m) → implements (attempting t) (at_prices (λ p, attempt (m p))).
Proof.
  intros Ht. apply (implements_eq _ (attempt (at_prices m))); [by apply implements_attempt|].
  intros [p s]. unfold at_prices, attempt. simpl. by destruct (m p s) as [[]].
Qed.
Lemma implements_priced_err {A} f (t : thread mutex (PS * S) A) (m : PS → run S A) :
  implements t (at_prices m) → implements (mapping_err f t) (at_prices (λ p, map_err f (m p))).
Proof.
  intros Ht. apply (implements_eq _ (map_err f (at_prices m))); [by apply implements_map_err|].
  intros [p s]. unfold at_prices, map_err. simpl. by destruct (m p s) as [[]].
Qed.
End AtPrices.

Section Types.
Context {PS W C UC Rq Rqs Q : Type} `{ComputeClient W} `{clock : Clock W} {order : MapOrder}
  `{shapeCache : TTLCache (gmap string WrapShape) C} `{offeringCache : TTLCache unit UC}
  `{sched : Scheduling Rq Rqs} `{quantities : Quantities Q} `{lib : OfferingLib Rqs Q}.
Variable opts : Options.
Variable Price : PS → WrapShape → res f32.
Variable ParseFloat_other : string → option f64.
Variable region : string.
Variable fuel : nat.

Notation State := (@InstanceType.State W C UC).

Lemma it_world_part : part_of (T := W) (InstanceType.it_world (C := C) (UC := UC)) InstanceType.set_it_world.
Proof. split; [done|done|]. by intros []. Qed.

Definition collecting_domain (m : gmap string (list WrapShape)) (availableDomain : string)
  : thread mutex State (gmap string (list WrapShape)) :=
  shapes ← zooming InstanceType.it_world InstanceType.set_it_world
    (paging (λ page, client_ListShapes (CompartmentId opts) availableDomain page) fuel "0" []);
  ad ← pure (index (Split availableDomain ":") 1);
  ws ← pure (InstanceType.toWrapShape opts shapes ad);
  mret (match m !! ad with
        | Some old => <[ad := (old ++ ws)%list]> m
        | None => <[ad := ws]> m
        end).

(** [ListInstanceType], under the mutex of the provider. *)
Definition listing_shapes : thread mutex State (gmap string WrapShape) :=
  locked InstanceTypeMutex (
    cached ← reading (λ s, Ok (cache_Get (clock_now (InstanceType.it_world s)) InstanceType.InstanceTypesCacheKey
                                 (InstanceType.it_cache s)));
    match cached with
    | Some wrapShapes => mret wrapShapes
    | None =>
        adShapesMap ← each collecting_domain (Options.AvailableDomains opts) ∅;
        wrapShapes ← pure (fold_res InstanceType.combine_zone ∅ (InstanceType.flatten_domains adShapesMap));
        updating (λ s, InstanceType.set_it_cache
          (cache_SetDefault (clock_now (InstanceType.it_world s)) InstanceType.InstanceTypesCacheKey wrapShapes
             (InstanceType.it_cache s)) s);;
        mret wrapShapes
    end).

Lemma listing_shapes_alone : implements listing_shapes (InstanceType.ListInstanceType opts fuel).
Proof.
  apply implements_locked, implements_get. intros s. destruct (cache_Get _ _ _) as [l|]; [done|].
  match goal with |- seq ?t s = ?m s => change (seq t s = m s); revert s; change (implements t m) end.
  unfold InstanceType.refresh. apply implements_bind.
  - apply implements_each. intros m d. unfold collecting_domain, InstanceType.collect_domain. implementing.
    apply implements_zoom; [apply it_world_part|apply paging_alone].
  - intros m. by apply implements_bind.
Qed.

(** An offering: one look at the table, one at the prices. *)
Definition offering (shape : WrapShape) (zone capacityType : string) : thread mutex (PS * State) (Offering Rqs) :=
  name ← pure (deref (Shape_Shape (wShape shape)));
  isUnavailable ← reading (λ s, Ok (IsUnavailable (clock_now (InstanceType.it_world s.2)) name zone capacityType
                                      (InstanceType.it_offerings s.2)));
  price ← reading (λ s, Price s.1 shape);
  mret (InstanceType.make_offering opts shape name zone capacityType isUnavailable price).

Definition creating_offerings (shape : WrapShape) (zones : gmap string unit)
  : thread mutex (PS * State) (list (Offering Rqs)) :=
  collecting (λ '(zone, capacityType), offering shape zone capacityType)
    (list_prod (InstanceType.range_zones shape zones) InstanceType.supportInstanceTypes).

(** [instancetype.Provider.List] *)
Definition listing_types (nodeClass : OciNodeClass) : thread mutex (PS * State) (list (InstanceType Rqs Q)) :=
  wrapShapes ← beside listing_shapes;
  collecting (λ '(_, wrapped),
    offerings ← creating_offerings wrapped (InstanceType.zone_set (OciModel.AvailableDomains wrapped));
    pure (InstanceType.NewInstanceType ParseFloat_other opts region wrapped nodeClass
      (OciModel.AvailableDomains wrapped) offerings))
    (range_map "wrapShapes" wrapShapes).

Lemma offering_alone shape zone ct :
  implements (offering shape zone ct) (λ s,
    (InstanceType.create_offering opts (Price s.1) (clock_now (InstanceType.it_world s.2)) (InstanceType.it_offerings s.2)
       shape zone ct, s)).
Proof.
  intros s. unfold offering, InstanceType.create_offering. destruct (Shape_Shape (wShape shape)) as [name|]; [|done].
  simpl. by destruct (Price s.1 shape).
Qed.

Lemma listing_types_alone nodeClass :
  implements (listing_types nodeClass)
    (at_prices (λ p, InstanceType.List opts (Price p) ParseFloat_other region fuel nodeClass)).
Proof.
  apply implements_priced; [apply implements_beside, listing_shapes_alone|]. intros wrapShapes.
  eapply implements_eq.
  - apply implements_collecting with (g := λ s, λ '(_, wrapped), offerings ←
      InstanceType.CreateOfferings opts (Price s.1) (clock_now (InstanceType.it_world s.2)) (InstanceType.it_offerings s.2)
        wrapped (InstanceType.zone_set (OciModel.AvailableDomains wrapped));
      InstanceType.NewInstanceType ParseFloat_other opts region wrapped nodeClass (OciModel.AvailableDomains wrapped) offerings).
    intros [k wrapped] s. unfold mbind at 1, thread_bind at 1. rewrite seq_after. unfold creating_offerings.
    rewrite (implements_collecting _ (λ s, λ '(zone, ct),
      InstanceType.create_offering opts (Price s.1) (clock_now (InstanceType.it_world s.2)) (InstanceType.it_offerings s.2)
        wrapped zone ct)); [|intros [zone ct]; apply offering_alone].
    unfold InstanceType.CreateOfferings. by destruct (map_res _ _).
  - by intros [].
Qed.
End Types.

(** ** Scripts *)

Section Scripts.
Context {order : MapOrder}.
Variable taint_ToString : Bootstrap.Taint → string.
Variable quote_other : string → string.
Variable url_Hostname : string → option string.
Variable random_boundary : string.
Variable read_parts : string → res (list Bootstrap.Part).

(** Each part of the script reads the variables. *)
Definition ubuntu_parts (o : Bootstrap.Options) : thread mutex Bootstrap.NodeBootstrapVariables string :=
  install ← reading (Bootstrap.ubuntu_install o);
  boot ← reading Bootstrap.createBootstrapScript;
  config ← reading Bootstrap.createKubeletConfig;
  kubeconfig ← reading Bootstrap.createKubeletBootstrapConfig;
  service ← reading Bootstrap.createKubeletService;
  containerd ← reading Bootstrap.createContainerdConfig;
  host ← pure (Bootstrap.Hostname url_Hostname (Bootstrap.ClusterEndpoint o));
  mret (Bootstrap.EncodeToString
    (Bootstrap.ubuntu_text taint_ToString quote_other o install boot config kubeconfig service containerd host)).

(** They are set before. *)
Definition ubuntu (o : Bootstrap.Options) : thread mutex Bootstrap.NodeBootstrapVariables string :=
  act (Bootstrap.applyOptions o);; ubuntu_parts o.

(** [Bootstrapper.Script] *)
Definition scripting (b : Bootstrapper) : thread mutex Bootstrap.NodeBootstrapVariables string :=
  match b with
  | BootUbuntu o => ubuntu o
  | BootOKE o => pure (Bootstrap.OKE_Script taint_ToString quote_other url_Hostname random_boundary read_parts o)
  | BootCustom o => pure (Bootstrap.Custom_Script o)
  end.

Lemma ubuntu_parts_alone o nbv :
  seq (ubuntu_parts o) nbv =
    (text ← Bootstrap.ubuntu_script taint_ToString quote_other url_Hostname o nbv; Ok (Bootstrap.EncodeToString text), nbv).
Proof.
  unfold ubuntu_parts, Bootstrap.ubuntu_script. simpl.
  destruct (Bootstrap.ubuntu_install o nbv); [|done..]. simpl. destruct (Bootstrap.createBootstrapScript nbv); [|done..].
  simpl. by destruct (Bootstrap.Hostname _ _).
Qed.

Lemma ubuntu_alone o : implements (ubuntu o) (Bootstrap.Ubuntu_Script taint_ToString quote_other url_Hostname o).
Proof.
  intros s. unfold ubuntu, Bootstrap.Ubuntu_Script, Bootstrap.customBootstrapScript.
  unfold mbind at 1, thread_bind. rewrite seq_after. rewrite (implements_act (L := mutex) _ s).
  unfold mbind, run_bind, get_state, lift. destruct (Bootstrap.applyOptions o s) as [[[]| |] nbv]; [|done..].
  rewrite ubuntu_parts_alone. by destruct (Bootstrap.ubuntu_script _ _ _ o nbv).
Qed.

Lemma scripting_alone b :
  implements (scripting b) (Instance.Script taint_ToString quote_other url_Hostname random_boundary read_parts b).
Proof. destruct b; cbn [scripting Instance.Script]; first [apply ubuntu_alone|implementing]. Qed.
End Scripts.

(** ** Instances *)

Section Instances.
Context {Rq Rqs Q W SC UC : Type} `{sched : Scheduling Rq Rqs} `{quantities : Quantities Q} `{lib : OfferingLib Rqs Q}
  `{ComputeClient W} `{VirtualNetworkClient W} `{clock : Clock W} {order : MapOrder} {shuffler : Instance.Shuffler}
  `{subnetCache : TTLCache (list Subnet) SC} `{offeringCache : TTLCache unit UC}.
Variable opts : Options.
Variable sdk : Instance.EnumMappings.
Variable is_ipv6 : string → bool.
Variable subnet_hash : list SubnetSelectorTerm → res Z.
Variable taint_ToString : Bootstrap.Taint → string.
Variable quote_other : string → string.
Variable url_Hostname : string → option string.
Variable random_boundary : string.
Variable read_parts : string → res (list Bootstrap.Part).
Variable templates : TemplateProvider.

Notation State := (Instance.State W SC UC).

Lemma subnets_part : part_of (Instance.subnet_state (W := W) (SC := SC) (UC := UC)) Instance.set_subnet_state.
Proof. split; [by intros s []|done|]. by intros []. Qed.
Lemma bootstrap_part : part_of (Instance.ip_bootstrap (W := W) (SC := SC) (UC := UC)) Instance.set_ip_bootstrap.
Proof. split; [done|done|]. by intros []. Qed.

(** [subnet.Provider.List], under the mutex of the provider. *)
Definition listing_subnets (nodeClass : OciNodeClass) : thread mutex (Cached SC W) (list Subnet) :=
  h ← pure (subnet_hash (SubnetSelector (Spec nodeClass)));
  locked SubnetMutex (listing (Subnet.ask_subnets opts (VcnId (Spec nodeClass))) Subnet.subnet_id
    (Subnet.subnet_key (VcnId (Spec nodeClass)) h) (SubnetSelector (Spec nodeClass))).

(** [FindLeastUtilizedSubnet]: one request per subnet. *)
Definition finding_subnet (nodeClass : OciNodeClass) : thread mutex State (Subnet * Z) :=
  subnets ← zooming Instance.subnet_state Instance.set_subnet_state (listing_subnets nodeClass);
  match subnets with
  | [] => throw (EText "no subnets found for vcn")
  | first :: _ => each (λ best subnet, act (Instance.better_subnet is_ipv6 best subnet)) subnets (first, 0%Z)
  end.

(** [launch]: the request, and the mark after a refusal. *)
Definition launching (req : LaunchInstanceDetails) (zone : string) : thread mutex State Instance :=
  r ← attempting (act (Instance.on_world (client_LaunchInstance req)));
  match r with
  | inr i => mret i
  | inl e =>
      match Instance.out_of_capacity e with
      | Some msg =>
          updating (λ s, Instance.set_ip_offerings
            (MarkUnavailableForLaunchInstanceErr (clock_now (Instance.ip_world s)) CapacityTypeOnDemand
               (Launch_Shape req) zone (Instance.ip_offerings s)) s);;
          throw (EInsufficientCapacity (EText ("InsufficientCapacityError: " +:+ msg)))
      | None => throw e
      end
  end.

(** [instance.Provider.Create] *)
Definition creating_instance (nodeClass : OciNodeClass) (nodeClaim : NodeClaim Q)
    (instanceTypes : list (InstanceType Rqs Q)) : thread mutex State Instance :=
  '(subnet, count) ← finding_subnet nodeClass;
  if (count <? Pods_Value (Claim_Requests nodeClaim))%Z
  then throw (EText "not enough IPs are available on all subnets")
  else
    let '(instanceType, zone) := Instance.pickBestInstanceType nodeClaim instanceTypes in
    match List.find (λ item, Contains item zone) (Options.AvailableDomains opts) with
    | None => throw (EText "failed to find a zone")
    | Some ad =>
        match instanceType with
        | None => throw (EInsufficientCapacity (EText "no instance types available"))
        | Some instanceType =>
            template ← pure (CreateLaunchTemplate opts templates nodeClass nodeClaim instanceType);
            first ← pure (index template 0);
            userdata ← zooming Instance.ip_bootstrap Instance.set_ip_bootstrap
              (scripting taint_ToString quote_other url_Hostname random_boundary read_parts (LT_UserData first));
            req ← pure (Instance.launch_request opts sdk nodeClass nodeClaim subnet instanceType ad userdata first);
            launching req zone
        end
    end.

Lemma listing_subnets_alone nodeClass :
  implements (listing_subnets nodeClass) (Subnet.List opts subnet_hash nodeClass).
Proof.
  apply implements_bind; [done|]. intros h. apply implements_locked, listing_alone.
Qed.

Lemma launching_alone req zone : implements (launching req zone) (Instance.launch req zone : run State Instance).
Proof.
  apply implements_bind; [apply implements_attempt, implements_act|]. intros [e|i]; [|done].
  by destruct (Instance.out_of_capacity e).
Qed.

Lemma creating_instance_alone nodeClass nodeClaim its :
  implements (creating_instance nodeClass nodeClaim its)
    (Instance.Create opts sdk is_ipv6 subnet_hash taint_ToString quote_other url_Hostname random_boundary
       read_parts templates nodeClass nodeClaim its : run State Instance).
Proof.
  apply implements_bind.
  - apply implements_bind; [apply implements_zoom; [apply subnets_part|apply listing_subnets_alone]|].
    intros [|first rest]; [done|]. apply implements_each. intros best x. apply implements_act.
  - intros [subnet count]. destruct (_ <? _)%Z; [done|]. destruct (Instance.pickBestInstanceType _ _) as [[it|] zone];
      (destruct (List.find _ _) as [ad|]; [|done]); [|done].
    implementing; [apply implements_zoom; [apply bootstrap_part|apply scripting_alone]|apply launching_alone].
Qed.
End Instances.

(** ** The cloud provider *)

Section Cloud.
Context {PS Rq Rqs Q W TC SC UC : Type} `{sched : Scheduling Rq Rqs} `{quantities : Quantities Q}
  `{lib : OfferingLib Rqs Q} `{cloudlib : CloudLib Rq Rqs Q} {conds : ConditionLib} {errlib : ErrorLib}
  `{ComputeClient W} `{VirtualNetworkClient W} `{kube : KubeClient Q W} `{clock : Clock W} {order : MapOrder}
  {shuffler : Instance.Shuffler} `{shapeCache : TTLCache (gmap string WrapShape) TC}
  `{subnetCache : TTLCache (list Subnet) SC} `{offeringCache : TTLCache unit UC}.
Variable opts : Options.
Variable sdk : Instance.EnumMappings.
Variable is_ipv6 : string → bool.
Variable subnet_hash : list SubnetSelectorTerm → res Z.
Variable class_hash : OciNodeClassSpec → res Z.
Variable taint_ToString : Bootstrap.Taint → string.
Variable quote_other : string → string.
Variable url_Hostname : string → option string.
Variable random_boundary : string.
Variable read_parts : string → res (list Bootstrap.Part).
Variable templates : TemplateProvider.
Variable Price : PS → WrapShape → res f32.
Variable ParseFloat_other : string → option f64.
Variable region : string.
Variable fuel : nat.

Notation State := (CloudProvider.State W TC SC UC).

(** The prices and the state of the instance types. *)
Definition types_part (s : PS * State) : PS * InstanceType.State := (s.1, CloudProvider.types_state s.2).
Definition set_types_part (t : PS * InstanceType.State) (s : PS * State) : PS * State :=
  (t.1, CloudProvider.set_types_state t.2 s.2).

Lemma types_part_part : part_of types_part set_types_part.
Proof. split; [by intros [p s] [q []]|done|]. by intros [p []]. Qed.
Lemma cp_world_part : part_of (CloudProvider.cp_world (W := W) (TC := TC) (SC := SC) (UC := UC)) CloudProvider.set_cp_world.
Proof. split; [done|done|]. by intros []. Qed.
Lemma instances_part :
  part_of (CloudProvider.instances_state (W := W) (TC := TC) (SC := SC) (UC := UC)) CloudProvider.set_instances_state.
Proof. split; [by intros s []|done|]. by intros []. Qed.

Definition listing_offered (nodeClass : OciNodeClass) : thread mutex (PS * State) (list (InstanceType Rqs Q)) :=
  zooming types_part set_types_part (listing_types opts Price ParseFloat_other region fuel nodeClass).

Definition launching_instance (nodeClass : OciNodeClass) (nodeClaim : NodeClaim Q) (its : list (InstanceType Rqs Q))
  : thread mutex (PS * State) OciModel.Instance :=
  beside (zooming CloudProvider.instances_state CloudProvider.set_instances_state
    (creating_instance opts sdk is_ipv6 subnet_hash taint_ToString quote_other url_Hostname random_boundary
       read_parts templates nodeClass nodeClaim its)).

Definition launching_claim (nodeClaim : NodeClaim Q) (nodeClass : OciNodeClass) (its : list (InstanceType Rqs Q))
  : thread mutex (PS * State) (NodeClaim Q) :=
  newInstance ← launching_instance nodeClass nodeClaim its;
  instanceType ← pure (CloudProvider.find_by_shape (Inst_Shape newInstance) its);
  t ← reading (λ s, Ok (clock_now (CloudProvider.cp_world s.2)));
  nc ← pure (CloudProvider.instanceToNodeClaim opts t newInstance instanceType);
  annotations ← pure (CloudProvider.hash_annotations class_hash nodeClass);
  mret (set_claim_meta (set_annotations annotations (Claim_Meta nc)) nc).

(** [CloudProvider.Create] *)
Definition creating (nodeClaim : NodeClaim Q) : thread mutex (PS * State) (NodeClaim Q) :=
  r ← attempting (beside (act (CloudProvider.on_world (CloudProvider.resolveNodeClassFromNodeClaim nodeClaim))));
  match r with
  | inl e =>
      beside (act (CloudProvider.on_world (CloudProvider.publish_not_found (Q := Q) e
        (CloudProvider.NodeClaimFailedToResolveNodeClass nodeClaim))));;
      throw (CloudProvider.unresolved e)
  | inr nodeClass =>
      match cond_Ready (Status_Conditions (Status nodeClass)) with
      | (CondFalse, msg) => throw (ENodeClassNotReady (EText msg))
      | (CondUnknown, _) => throw (EText "resolving NodeClass readiness, NodeClass is in Ready=Unknown")
      | (CondTrue, _) =>
          instanceTypes ← mapping_err (EWrap "resolving instance types")
            (instanceTypes ← mapping_err (EWrap "getting instance types") (listing_offered nodeClass);
             mret (List.filter (CloudProvider.suits nodeClaim) instanceTypes));
          match instanceTypes with
          | [] => throw CloudProvider.none_available
          | _ => launching_claim nodeClaim nodeClass instanceTypes
          end
      end
  end.

Lemma listing_offered_alone nodeClass :
  implements (listing_offered nodeClass) (at_prices (λ p,
    CloudProvider.list_instance_types opts (Price p) ParseFloat_other region fuel nodeClass : run State (list (InstanceType Rqs Q)))).
Proof.
  eapply implements_eq; [apply implements_zoom; [apply types_part_part|apply listing_types_alone]|].
  intros [p s]. unfold zoom, at_prices, CloudProvider.list_instance_types. simpl. unfold zoom.
  by destruct (InstanceType.List _ _ _ _ _ _ _).
Qed.

Lemma launching_claim_alone nodeClaim nodeClass its :
  implements (launching_claim nodeClaim nodeClass its) (at_prices (λ _,
    CloudProvider.launch_claim opts sdk is_ipv6 subnet_hash class_hash taint_ToString quote_other url_Hostname
      random_boundary read_parts templates nodeClaim nodeClass its : run State (NodeClaim Q))).
Proof.
  apply implements_priced.
  - apply implements_beside, implements_zoom; [apply instances_part|apply creating_instance_alone].
  - intros i. unfold launching_claim. intros [p s]. unfold at_prices. simpl.
    unfold mbind, thread_bind, run_bind, lift, pure, mret, run_ret. destruct (CloudProvider.find_by_shape _ _); [|done..]. simpl.
    unfold CloudProvider.now, mbind, run_bind, get_state, mret, run_ret.
    destruct (CloudProvider.instanceToNodeClaim _ _ _ _); [|done..]. simpl. by destruct (CloudProvider.hash_annotations _ _).
Qed.

(** Alone, the steps of [Create] make [Create]. *)
Lemma creating_alone (nodeClaim : NodeClaim Q) :
  implements (creating nodeClaim) (at_prices (λ p,
    CloudProvider.Create opts sdk is_ipv6 subnet_hash class_hash taint_ToString quote_other url_Hostname
      random_boundary read_parts templates (Price p) ParseFloat_other region fuel nodeClaim)).
Proof.
  apply implements_priced; [apply implements_priced_attempt, implements_beside, implements_act|].
  intros [e|nodeClass].
  - apply implements_priced; [apply implements_beside, implements_act|]. by intros _ [].
  - destruct (cond_Ready _) as [[] msg]; [|by intros []..].
    apply implements_priced.
    + apply implements_priced_err, implements_priced; [apply implements_priced_err, listing_offered_alone|].
      by intros its [].
    + intros [|it its]; [by intros []|apply launching_claim_alone].
Qed.
End Cloud.
