(* ===== verification/Concurrent.v ===== *)
(** * Launches side by side

    What the steps of [Goroutines.creating] keep and what it returns, whatever
    other goroutines do between them; then the running program with any number
    of launches under way. *)

From stdpp Require Import base list strings gmap relations.
From Stdlib Require Import QArith ZArith Lia.
From S2P Require Import Prelude Frame Threads GoStrings GoFloat Utils OciModel Api.
From S2P Require Import Options Cache UnavailableOfferings Sched Paging Selector KubeModel.
From S2P Require Import ImageFamily Reconcile OciConfig Operator Capacity Launches Goroutines System.
From S2P Require Pricing Subnet Bootstrap InstanceType Instance CloudProvider Garbage NodeClassStatus.

Local Open Scope string_scope.

(** ** The steps of the listings *)

Lemma guar_listing {W A Sel C} `{Clock W} {order : MapOrder} `{cache : TTLCache (list A) C} (P : W → Prop)
    (ask : Sel → run W (list A)) id key sels :
  (∀ sel, keeps P (ask sel)) → guar (λ s : Cached C W, P (c_world s)) (listing ask id key sels).
Proof.
  intros Ha. unfold listing. apply guar_bind; [apply guar_reading|]. intros [l|] _; [done|].
  apply guar_bind.
  - apply (guar_zoom _ (λ _, P)); [|done..]. intros _. guarding.
  - intros m _. apply guar_bind; [by apply guar_updating|done].
Qed.

Lemma guar_paging {W A} (P : W → Prop) (fetch : string → run W (list A * option string)) fuel token acc :
  (∀ t, keeps P (fetch t)) → guar P (paging fetch fuel token acc).
Proof.
  intros Hf. revert token acc. induction fuel as [|fuel IH]; intros token acc; cbn [paging]; guarding; by apply Hf.
Qed.

(** Locks are taken one at a time and given back. *)
Lemma plain_listing {W A Sel C} `{Clock W} {order : MapOrder} `{cache : TTLCache (list A) C}
    (ask : Sel → run W (list A)) id key sels : plain (listing (C := C) ask id key sels).
Proof. unfold listing. tidying. Qed.
Lemma plain_paging {W A} (fetch : string → run W (list A * option string)) fuel token acc : plain (paging fetch fuel token acc).
Proof. revert token acc. induction fuel as [|fuel IH]; intros token acc; cbn [paging]; tidying; apply IH. Qed.

(** ** Scripts side by side *)

Section Scripts.
Context {order : MapOrder}.
Variable taint_ToString : Bootstrap.Taint → string.
Variable quote_other : string → string.
Variable url_Hostname : string → option string.

Lemma plain_ubuntu_parts o : plain (ubuntu_parts taint_ToString quote_other url_Hostname o).
Proof. unfold ubuntu_parts. tidying. Qed.

(** C34: A Ubuntu script made alone installs the user data of its node. Made beside that of
    another node, there is a schedule on which it installs the user data of the other node, or,
    when it has a script before installation and the other has none, panics. *)
Theorem Ubuntu_scripts_race (drawn : MapOrder) (o other : Bootstrap.Options) (nbv : Bootstrap.NodeBootstrapVariables)
    (ca ca' u host : string) :
  Bootstrap.CABundle o = Some ca → Bootstrap.CABundle other = Some ca' →
  Bootstrap.CustomUserData other = Some u → url_Hostname (Bootstrap.ClusterEndpoint o) = Some host →
  (∀ out, (seq (ubuntu (order := order) taint_ToString quote_other url_Hostname o) nbv).1 = Ok out → ∃ text v,
     Bootstrap.CustomUserData o = Some v ∧ Bootstrap.DecodeString out = Some text ∧ Bootstrap.installs text v) ∧
  ∃ p r, rtc move {| threads := [ubuntu (order := order) taint_ToString quote_other url_Hostname o;
      ubuntu (order := drawn) taint_ToString quote_other url_Hostname other]; held := ∅; shared := nbv |} p ∧ returned 0 p = Some r ∧
    (Bootstrap.PreInstallScript o = None ∨ is_Some (Bootstrap.PreInstallScript other) →
       ∃ out text, r = Ok out ∧ Bootstrap.DecodeString out = Some text ∧ Bootstrap.installs text u) ∧
    (is_Some (Bootstrap.PreInstallScript o) → Bootstrap.PreInstallScript other = None → ∃ why, r = Panic why).
Proof.
  intros Hca Hca' Hu Hhost. split.
  - rewrite (ubuntu_alone (order := order) taint_ToString quote_other url_Hostname o nbv). apply Bootstrap.Ubuntu_Script_installs.
  - set (p0 := {| threads := [ubuntu (order := order) taint_ToString quote_other url_Hostname o;
        ubuntu (order := drawn) taint_ToString quote_other url_Hostname other]; held := ∅; shared := nbv |}).
    set (nbv' := (Bootstrap.applyOptions other (Bootstrap.applyOptions o nbv).2).2).
    set (p2 := {| threads := [ubuntu_parts (order := order) taint_ToString quote_other url_Hostname o;
                              ubuntu_parts (order := drawn) taint_ToString quote_other url_Hostname other];
                  held := ∅; shared := nbv' |} : pool (L := mutex)).
    assert (rtc move p0 p2) as Hset.
    { eapply rtc_l; [eapply (move_act _ 0%nat); [done|]; simpl; unfold Bootstrap.applyOptions; by rewrite Hca|].
      eapply rtc_l; [eapply (move_act _ 1%nat); [done|]; simpl; unfold Bootstrap.applyOptions; by rewrite Hca'|].
      unfold p2, nbv', Bootstrap.applyOptions. simpl. rewrite Hca, Hca'. apply rtc_refl. }
    pose proof (moves_alone _ (plain_ubuntu_parts o) 0%nat p2 eq_refl) as Hrun. rewrite ubuntu_parts_alone in Hrun. simpl in Hrun.
    eexists _, _. split; [etrans; [exact Hset|exact Hrun]|]. split; [done|].
    assert (Bootstrap.nbv_UserData nbv' = Some u ∧ Bootstrap.nbv_PreInstallScript nbv' = Bootstrap.PreInstallScript other)
      as [Hdata Hpre] by (unfold nbv', Bootstrap.applyOptions; rewrite Hca, Hca'; by simpl).
    split.
    + rewrite <- Hpre. intros Hinstall.
      destruct (Bootstrap.ubuntu_script_built (order := order) taint_ToString quote_other url_Hostname o nbv') as [text Htext]; [eauto..|].
      rewrite Htext. apply Bootstrap.ubuntu_script_installs in Htext as (v & Hv & Hi). assert (v = u) as -> by congruence.
      eexists _, text. split; [done|]. by rewrite Bootstrap.DecodeString_EncodeToString.
    + rewrite <- Hpre. intros Hsome Hnone.
      destruct (Bootstrap.ubuntu_script_nil (order := order) taint_ToString quote_other url_Hostname o nbv' Hsome Hnone) as [why ->].
      by eexists.
Qed.
End Scripts.

(** ** The steps of the instance types *)

Section Types.
Context {PS W C UC Rq Rqs Q : Type} `{ComputeClient W} `{VirtualNetworkClient W} `{KubeClient Q W} `{clock : Clock W}
  {order : MapOrder} `{shapeCache : TTLCache (gmap string WrapShape) C} `{offeringCache : TTLCache unit UC}
  `{sched : Scheduling Rq Rqs} `{quantities : Quantities Q} `{lib : OfferingLib Rqs Q}.
Variable opts : Options.
Variable Price : PS → WrapShape → res f32.
Variable ParseFloat_other : string → option f64.
Variable region : string.
Variable fuel : nat.
Variable proper : LaunchInstanceDetails → Prop.
Variable R : UnavailableOfferings UC → W → Prop.
Hypothesis HP : ∀ u, closed Q proper (R u).

Notation State := (@InstanceType.State W C UC).
Notation PT := (λ s : State, R (InstanceType.it_offerings s) (InstanceType.it_world s)).

Lemma guar_listing_shapes : guar PT (listing_shapes opts fuel).
Proof.
  unfold listing_shapes, collecting_domain. guarding.
  - apply (guar_zoom _ (λ s, R (InstanceType.it_offerings s))); [|done..]. intros s. apply guar_paging. intros t.
    pose proof (HP (InstanceType.it_offerings s)). eauto with keeps.
  - by apply guar_updating.
Qed.

Lemma guar_listing_types nodeClass :
  guar (λ s : PS * State, PT s.2) (listing_types opts Price ParseFloat_other region fuel nodeClass
    : thread mutex (PS * State) (list (InstanceType Rqs Q))).
Proof.
  unfold listing_types. apply guar_bind.
  - apply (guar_zoom _ (λ _, PT)); [intros _; apply guar_listing_shapes|done..].
  - intros m _. unfold creating_offerings, offering. guarding.
Qed.

Lemma tidy_listing_types nodeClass :
  tidy None (listing_types opts Price ParseFloat_other region fuel nodeClass
    : thread mutex (PS * State) (list (InstanceType Rqs Q))).
Proof.
  unfold listing_types. apply tidy_bind.
  - apply tidy_zoom. unfold listing_shapes, collecting_domain. tidying. apply plain_paging.
  - intros m. unfold creating_offerings, offering. tidying.
Qed.
End Types.

(** ** The steps of a launch *)

Section Instances.
Context {Rq Rqs Q W SC UC : Type} `{sched : Scheduling Rq Rqs} `{quantities : Quantities Q} `{lib : OfferingLib Rqs Q}
  {olaws : OfferingLibLaws Rq Rqs Q}
  `{ComputeClient W} `{VirtualNetworkClient W} `{kube : KubeClient Q W} `{clock : Clock W} {order : MapOrder}
  {shuffler : Instance.Shuffler} `{subnetCache : TTLCache (list Subnet) SC} `{offeringCache : TTLCache unit UC}.
Variable opts : Options.
Variable sdk : Instance.EnumMappings.
Variable is_ipv6 : string → bool.
Variable subnet_hash : list SubnetSelectorTerm → res Z.
Variable taint_ToString : Bootstrap.Taint → string.
Variable quote_other : string → string.
Variable url_Hostname : string → option string.
Variable random_boundary : string.
Variable read_parts : string → res (list Bootstrap.Part).
Variable templates : TemplateProvider.

Notation State := (Instance.State W SC UC).
Notation script := (scripting taint_ToString quote_other url_Hostname random_boundary read_parts).
Notation create := (creating_instance opts sdk is_ipv6 subnet_hash taint_ToString quote_other url_Hostname
  random_boundary read_parts templates).

Lemma plain_scripting b : plain (script b).
Proof. unfold scripting, ubuntu, ubuntu_parts. tidying. Qed.

Lemma tidy_creating_instance class (claim : NodeClaim Q) (its : list (InstanceType Rqs Q)) :
  tidy None (create class claim its : thread mutex State Instance).
Proof.
  unfold creating_instance, finding_subnet, listing_subnets, launching. tidying.
  - apply plain_listing.
  - apply tidy_plain, plain_scripting.
Qed.

Variable proper : LaunchInstanceDetails → Prop.
Variable R : UnavailableOfferings UC → W → Prop.
Hypothesis HP : ∀ u, closed Q proper (R u).
Hypothesis Hmark : markable R.
Notation PI := (λ s : State, R (Instance.ip_offerings s) (Instance.ip_world s)).

Lemma guar_launching req zone : proper req → guar PI (launching req zone : thread mutex State Instance).
Proof.
  intros Hreq. unfold launching. guarding.
  - eapply keeps_on_world. intros u. by apply (closed_LaunchInstance _ _ _ (HP u)).
  - apply guar_updating. intros st. apply Hmark.
Qed.

Lemma guar_finding_subnet class : guar PI (finding_subnet opts is_ipv6 subnet_hash class : thread mutex State _).
Proof.
  unfold finding_subnet, Instance.better_subnet. apply guar_bind.
  - apply (guar_zoom _ (λ s c, R (Instance.ip_offerings s) (c_world c))); [intros s|done..].
    pose proof (HP (Instance.ip_offerings s)). unfold listing_subnets. guarding.
    apply (guar_listing (R (Instance.ip_offerings s))). intros sel. unfold Subnet.ask_subnets. keeping.
  - intros subnets _. guarding. keeping. eapply keeps_on_world. intros u. pose proof (HP u). eauto with keeps.
Qed.

Lemma guar_scripting b : guar (λ _, True) (script b).
Proof. unfold scripting, ubuntu, ubuntu_parts. guarding. by intros ? ?. Qed.

Lemma guar_creating_instance class (claim : NodeClaim Q) (its : list (InstanceType Rqs Q)) :
  (∀ req, requested opts class claim its req → proper req) →
  guar PI (create class claim its : thread mutex State Instance).
Proof.
  intros Hreq. unfold creating_instance. apply guar_bind; [apply guar_finding_subnet|]. intros [subnet count] _.
  destruct (_ <? _)%Z; [done|].
  destruct (Instance.pickBestInstanceType claim its) as [oit zone] eqn:Hpick.
  destruct (List.find _ _) as [ad|] eqn:Had; [|done]. destruct oit as [it|]; [|done].
  apply List.find_some in Had as [Had%list_elem_of_In _]. apply pick_offering in Hpick as [Hit _].
  apply guar_bind; [done|]. intros ts Hts. apply guar_bind; [done|]. intros t Ht.
  destruct (Instance.template_image _ _ _ _ _ _ _ Hts Ht) as (image & [Himg%list_elem_of_In Hfit]%List.find_some & Hid).
  apply guar_bind; [apply (guar_zoom _ (λ _ _, True)); [intros _; apply guar_scripting|done..]|]. intros userdata _.
  apply guar_bind; [done|]. intros req Hr. apply guar_launching, Hreq.
  exists subnet, it, image, ad. split_and!; [eapply Instance.launch_request_for; [exact Hr|done]|done..].
Qed.
End Instances.

(** ** The steps of [Create] *)

Section Cloud.
Context {PS Rq Rqs Q W TC SC UC : Type} `{sched : Scheduling Rq Rqs} `{quantities : Quantities Q}
  `{lib : OfferingLib Rqs Q} {olaws : OfferingLibLaws Rq Rqs Q} `{cloudlib : CloudLib Rq Rqs Q}
  {conds : ConditionLib} {errlib : ErrorLib}
  `{ComputeClient W} `{VirtualNetworkClient W} `{kube : KubeClient Q W} `{clock : Clock W} {order : MapOrder}
  {shuffler : Instance.Shuffler} `{shapeCache : TTLCache (gmap string WrapShape) TC}
  `{subnetCache : TTLCache (list Subnet) SC} `{offeringCache : TTLCache unit UC}.
Variable opts : Options.
Variable sdk : Instance.EnumMappings.
Variable is_ipv6 : string → bool.
Variable subnet_hash : list SubnetSelectorTerm → res Z.
Variable class_hash : OciNodeClassSpec → res Z.
Variable taint_ToString : Bootstrap.Taint → string.
Variable quote_other : string → string.
Variable url_Hostname : string → option string.
Variable random_boundary : string.
Variable read_parts : string → res (list Bootstrap.Part).
Variable templates : TemplateProvider.
Variable Price : PS → WrapShape → res f32.
Variable ParseFloat_other : string → option f64.
Variable region : string.
Variable fuel : nat.

Notation State := (CloudProvider.State W TC SC UC).
Notation create := (creating (TC := TC) (SC := SC) (UC := UC) opts sdk is_ipv6 subnet_hash class_hash taint_ToString
  quote_other url_Hostname random_boundary read_parts templates Price ParseFloat_other region fuel).
Notation launch_of := (creating_instance opts sdk is_ipv6 subnet_hash taint_ToString quote_other url_Hostname
  random_boundary read_parts templates).

Lemma tidy_creating (claim : NodeClaim Q) : tidy None (create claim).
Proof.
  unfold creating, launching_claim, listing_offered, launching_instance, beside. tidying.
  - apply tidy_listing_types.
  - apply tidy_creating_instance.
Qed.

Variable R : UnavailableOfferings UC → W → Prop.
Hypothesis HP : ∀ u, closed Q (launchable (Q := Q) opts) (R u).
Hypothesis Hmark : markable R.
Notation PC := (λ s : PS * State, R (CloudProvider.cp_offerings s.2) (CloudProvider.cp_world s.2)).

Lemma guar_beside {A} (t : thread mutex State A) :
  guar (λ s, R (CloudProvider.cp_offerings s) (CloudProvider.cp_world s)) t → guar PC (beside t).
Proof. intros Ht. by apply (guar_zoom _ (λ _ s, R (CloudProvider.cp_offerings s) (CloudProvider.cp_world s))). Qed.
Lemma guar_beside_world {A} (m : run W A) :
  (∀ u, keeps (R u) m) → guar PC (beside (act (CloudProvider.on_world m))).
Proof. intros Hm. apply guar_beside, guar_act. by eapply keeps_cloud_world. Qed.

Lemma ends_resolved (claim : NodeClaim Q) class :
  ends (beside (act (CloudProvider.on_world (CloudProvider.resolveNodeClassFromNodeClaim claim)))
    : thread mutex (PS * State) _) (Ok class) →
  class_of claim class ∧ DeletionTimestamp (NC_Meta class) = None.
Proof.
  intros Hs%ends_zoom. destruct Hs as [s Hs]. cbn [ends] in Hs. unfold CloudProvider.on_world, zoom in Hs.
  destruct (CloudProvider.resolveNodeClassFromNodeClaim _ _) as [r w] eqn:Hc. simpl in Hs. subst.
  by eapply resolved_class.
Qed.

Lemma guar_creating (claim : NodeClaim Q) : guar PC (create claim).
Proof.
  unfold creating. apply guar_bind.
  { apply guar_attempt, guar_beside_world. intros u. by eapply keeps_resolve. }
  intros [e|class] Hclass%ends_attempt.
  { apply guar_bind; [|done]. apply guar_beside_world. intros u. eapply keeps_not_found, HP. }
  apply ends_resolved in Hclass as [Hof Hdel]. destruct (cond_Ready _) as [[] msg] eqn:Hready; [|done..].
  apply guar_bind.
  { guarding. unfold listing_offered.
    apply (guar_zoom _ (λ _ s, R (InstanceType.it_offerings s.2) (InstanceType.it_world s.2))); [intros _|done..].
    by eapply guar_listing_types. }
  intros its Hits. ends_inv. destruct (List.filter _ _) as [|it rest] eqn:Hf; [done|]. unfold launching_claim.
  apply guar_bind; [|intros; guarding]. apply guar_beside.
  apply (guar_zoom _ (λ _ s, R (Instance.ip_offerings s) (Instance.ip_world s))); [intros _|done..].
  eapply guar_creating_instance; [exact HP|exact Hmark|]. intros req Hreq. exists class, claim, (it :: rest).
  split_and!; [done|done|by rewrite Hready|done|]. intros it' Hx. rewrite <- Hf in Hx.
  by apply list_elem_of_In, List.filter_In in Hx as [_ ?].
Qed.
End Cloud.

(** ** What a launch returns *)

Section Returns.
Context {PS Rq Rqs Q W TC SC UC : Type} `{sched : Scheduling Rq Rqs} `{quantities : Quantities Q}
  `{lib : OfferingLib Rqs Q} {olaws : OfferingLibLaws Rq Rqs Q} `{cloudlib : CloudLib Rq Rqs Q}
  {conds : ConditionLib} {errlib : ErrorLib}
  `{ComputeClient W} `{VirtualNetworkClient W} `{kube : KubeClient Q W} `{clock : Clock W} {order : MapOrder}
  {shuffler : Instance.Shuffler} `{shapeCache : TTLCache (gmap string WrapShape) TC}
  `{subnetCache : TTLCache (list Subnet) SC} `{offeringCache : TTLCache unit UC}.
Variable opts : Options.
Variable sdk : Instance.EnumMappings.
Variable is_ipv6 : string → bool.
Variable subnet_hash : list SubnetSelectorTerm → res Z.
Variable class_hash : OciNodeClassSpec → res Z.
Variable taint_ToString : Bootstrap.Taint → string.
Variable quote_other : string → string.
Variable url_Hostname : string → option string.
Variable random_boundary : string.
Variable read_parts : string → res (list Bootstrap.Part).
Variable templates : TemplateProvider.
Variable Price : PS → WrapShape → res f32.
Variable ParseFloat_other : string → option f64.
Variable region : string.
Variable fuel : nat.

Notation State := (Instance.State W SC UC).

(** Before and after a step of a history, as a client sees the world. *)
Notation moment := (W * W)%type (only parsing).
Notation worlds l := (map (prod_map Instance.ip_world Instance.ip_world) l).











Notation create := (creating (TC := TC) (SC := SC) (UC := UC) opts sdk is_ipv6 subnet_hash class_hash taint_ToString
  quote_other url_Hostname random_boundary read_parts templates Price ParseFloat_other region fuel).

(** The steps of a launch, as a client sees them. *)
Notation seen l := (map (prod_map (λ s : PS * CloudProvider.State W TC SC UC, CloudProvider.cp_world s.2)
  (λ s, CloudProvider.cp_world s.2)) l).





End Returns.

(** ** The running program with launches under way *)

Section Running.
Context {Rq Rqs Q W TC SC UC IC GC : Type} `{sched : Scheduling Rq Rqs} `{quantities : Quantities Q} `{lib : OfferingLib Rqs Q}
  `{cloudlib : CloudLib Rq Rqs Q} {conds : ConditionLib} {errlib : ErrorLib} `{text : NodeClassStatus.RequirementsText Rqs}
  `{ComputeClient W} `{VirtualNetworkClient W} `{kube : KubeClient Q W} `{clock : Clock W}
  `{shapeCache : TTLCache (gmap string WrapShape) TC} `{subnetCache : TTLCache (list Subnet) SC} {offeringCache : TTLCache unit UC}
  `{imageCache : TTLCache (list (WrapImage Rqs)) IC} `{groupCache : TTLCache (list NetworkSecurityGroup) GC}
  {olaws : OfferingLibLaws Rq Rqs Q}.
Variable sdk : Instance.EnumMappings.
Variable is_ipv6 : string → bool.
Variable image_hash : list ImageSelectorTerm → res Z.
Variable subnet_hash : list SubnetSelectorTerm → res Z.
Variable group_hash : list SecurityGroupSelectorTerm → res Z.
Variable class_hash : OciNodeClassSpec → res Z.
Variable taint_ToString : Bootstrap.Taint → string.
Variable quote_other : string → string.
Variable url_Hostname : string → option string.
Variable read_parts : string → res (list Bootstrap.Part).
Variable ParseFloat_other : string → option f64.
Variable FormatFloat : f32 → string.
Variable result_Min : list Result → Result.
Variable regexp_other : string → string → option bool.
Variable unmarshal : string → option Pricing.PriceCatalog.
Variable HasChanged : option Pricing.PriceCatalog → bool.
Variable Sleep : Z → W → W.
Variable fuel : nat.

Notation Cloud := (CloudProvider.State W TC SC UC).
Notation Started := (Operator (W := W) (IC := IC) (SC := SC) (GC := GC) (SH := TC) (UC := UC)).
Notation Program := (System (W := W) (TC := TC) (SC := SC) (UC := UC) (IC := IC) (GC := GC)).

Notation Pool := (pool (L := mutex) (S := Program) (A := NodeClaim Q)).

(** The prices and the cloud provider. *)
Definition launch_part (s : Program) : Pricing.DefaultProvider * Cloud := (sys_prices s, sys_cloud s).
Definition set_launch_part (t : Pricing.DefaultProvider * Cloud) (s : Program) : Program :=
  set_sys_cloud t.2 (set_sys_prices t.1 s).

Lemma launch_part_part : part_of launch_part set_launch_part.
Proof. split; [by intros s []|done|]. by intros []. Qed.

(** [DefaultProvider.Price] of the catalog there is. *)
Definition price_in (p : Pricing.DefaultProvider) (shape : WrapShape) : res f32 :=
  Pricing.Calculate regexp_other shape (Pricing.priceCatalog p).

Section Pools.
Variable op : Started.
(** How the world moves by itself. *)
Variable env : W → W → Prop.

Notation perform := (perform (Rq := Rq) (Rqs := Rqs) (Q := Q) sdk is_ipv6 image_hash subnet_hash group_hash class_hash
  taint_ToString quote_other url_Hostname read_parts ParseFloat_other FormatFloat result_Min
  regexp_other unmarshal HasChanged Sleep fuel op).
Notation step := (step (Rq := Rq) (Rqs := Rqs) (Q := Q) sdk is_ipv6 image_hash subnet_hash group_hash class_hash
  taint_ToString quote_other url_Hostname read_parts ParseFloat_other FormatFloat result_Min
  regexp_other unmarshal HasChanged Sleep fuel op env).
Notation create boundary := (creating (TC := TC) (SC := SC) (UC := UC) (Op_Options op) sdk is_ipv6 subnet_hash class_hash
  taint_ToString quote_other url_Hostname boundary read_parts (Op_Templates op) price_in ParseFloat_other
  (Op_Region op) fuel).

(** [CloudProvider.Create] of the program, as a goroutine; each draws its own
    orders and its own boundary. *)
Definition launch_thread {order : MapOrder} {shuffler : Instance.Shuffler} (boundary : string) (claim : NodeClaim Q)
  : thread mutex Program (NodeClaim Q) :=
  zooming launch_part set_launch_part (create boundary claim).

Definition is_launch (t : thread mutex Program (NodeClaim Q)) : Prop :=
  ∃ (order : MapOrder) (shuffler : Instance.Shuffler) boundary claim, t = launch_thread boundary claim.

(** Any number of launches, started at any time, side by side; every other
    operation of the program, and every move of the world, falls between two of
    their steps. *)
Definition launches_step : Pool → Pool → Prop := pool_step is_launch step.

(** Before the first launch. *)
Definition idle (s : Program) : Pool := {| threads := []; held := ∅; shared := s |}.

Lemma launch_thread_tidy t : is_launch t → tidy None t.
Proof. intros (order & shuffler & boundary & claim & ->). apply tidy_zoom, tidy_creating. Qed.

Lemma idle_orderly s : orderly (idle s).
Proof. split; simpl; [intros i t Hi; by rewrite lookup_nil in Hi|intros l i Hl; by rewrite lookup_empty in Hl]. Qed.



(** What every operation keeps ([System.keeps_perform]), the steps of the
    launches keep too. *)
Section Kept.
Variable R : UnavailableOfferings UC → W → Prop.
Hypothesis HP : ∀ u, closed Q (launchable (Q := Q) (Op_Options op)) (R u).
Hypothesis Hmark : markable R.
Hypothesis Hclean : ∀ u w, R u w → R (cleanup (clock_now w) u) w.
Hypothesis Hsleep : ∀ u d w, R u w → R u (Sleep d w).
Hypothesis Henv : ∀ u w w', env w w' → R u w → R u w'.
Notation PS := (λ s : Program, R (CloudProvider.cp_offerings (sys_cloud s)) (sys_world s)).

Lemma launches_keep (p p' : Pool) :
  rtc launches_step p p' → Forall (guar PS) (threads p) → PS (shared p) → PS (shared p').
Proof.
  intros Hsteps Hts Hs. eapply (pool_safe is_launch step PS p p'); [|..|exact Hsteps|by split].
  - intros t (order & shuffler & boundary & claim & ->). unfold launch_thread.
    apply (guar_zoom _ (λ _ s, R (CloudProvider.cp_offerings s.2) (CloudProvider.cp_world s.2))); [intros _|done..].
    by apply guar_creating.
  - intros s s' Hstep. by eapply steps_keep, rtc_once.
Qed.
End Kept.

(** ** Properties *)

(** A launch with no other beside it does, step by step, what the operation DoCreate of the
    program does: the same result, caches, marks, prices and calls, from every state. *)
Lemma launch_alone {order : MapOrder} {shuffler : Instance.Shuffler} {work : Garbage.WorkOrder} boundary
    (claim : NodeClaim Q) (s : Program) :
  seq (launch_thread boundary claim;; mret tt) s = perform boundary (DoCreate claim) s.
Proof.
  revert s. change (implements (launch_thread boundary claim;; mret tt) (perform boundary (DoCreate claim))).
  apply implements_bind; [|done]. eapply implements_eq.
  - apply implements_zoom; [apply launch_part_part|apply creating_alone].
  - intros s'. unfold zoom, at_prices, priced, mbind, run_bind, get_state, on_cloud, zoom. simpl.
    change (price_in (sys_prices s')) with (price_of regexp_other s').
    destruct (CloudProvider.Create _ _ _ _ _ _ _ _ _ _ _ _ _ _ _ _ _) as [r c]. by destruct s'.
Qed.


(** C2: Launches side by side never wait for one another for ever: in every pool that is
    reached, some goroutine can take its next step or all have returned, they can all be run to
    their end, and whatever operations and moves of the world fall between their steps, no
    schedule of them goes on for ever (a listing of shapes has at most fuel pages). *)
Theorem launches_return (s : Program) (p : Pool) :
  rtc launches_step (idle s) p →
  (Forall finished (threads p) ∨ ∃ p', move p p') ∧
  (∃ p', rtc move p p' ∧ Forall finished (threads p')) ∧
  Acc (turn step) p.
Proof.
  intros Hsteps. assert (orderly p) as Hp.
  { eapply orderly_steps; [apply launch_thread_tidy|exact Hsteps|apply idle_orderly]. }
  split_and!; [by apply never_stuck|by apply (pool_returns step)|apply turns_end].
Qed.
End Pools.

(** The table of offerings, beside launches. *)
Section Table.
Context {slaws : SchedulingLaws Rq Rqs} {ulaws : TTLCacheLaws unit UC}.
Variable op : Started.
Variable env : W → W → Prop.

Lemma launches_go_on p p' :
  clock_goes_on (Q := Q) Sleep env → rtc (launches_step op env) p p' → threads p = [] →
  goes_on (clock_now (sys_world (shared p))) (CloudProvider.cp_offerings (sys_cloud (shared p)))
    (clock_now (sys_world (shared p'))) (CloudProvider.cp_offerings (sys_cloud (shared p'))).
Proof.
  intros (Hcalls & Hsleep & Henv) Hs Hnone.
  set (R u w := goes_on (clock_now (sys_world (shared p))) (CloudProvider.cp_offerings (sys_cloud (shared p))) (clock_now w) u).
  assert (∀ u w w', (clock_now w <= clock_now w')%Z → R u w → R u w') as Hup.
  { intros u w w' Hle Hr. apply (goes_on_trans _ _ _ _ _ _ Hr). by constructor. }
  apply (launches_keep op env R) with (p := p); try done; unfold R.
  - intros u. apply closed_later; [done|]. intros w w'. apply Hup.
  - intros u w it zone ct Hr. apply (goes_on_trans _ _ _ _ _ _ Hr), (goes_mark _ (clock_now w) it zone ct); [done|].
    by constructor.
  - intros u w Hr. apply (goes_on_trans _ _ _ _ _ _ Hr), (goes_clean _ (clock_now w)); [done|]. by constructor.
  - intros u d w. apply Hup, Hsleep.
  - intros u w w' Hw. apply Hup, Henv, Hw.
  - by rewrite Hnone.
  - by constructor.
Qed.

(** C8: Of the running program, with any number of launches side by side: an on-demand offering
    that is marked unavailable stays so until the mark expires, whatever operations,
    controllers, steps of launches and janitor passes come in between, and a listing of instance
    types at any such time offers at most preemptible capacity of that shape in that zone. *)
Theorem marks_stay {order : MapOrder} (s : Program) (p : Pool) (c' : Cloud) (name zone : string) (limit : Z)
    (nodeClass : OciNodeClass) (its : list (InstanceType Rqs Q)) (it : InstanceType Rqs Q) (o : Offering Rqs) :
  clock_goes_on (Q := Q) Sleep env →
  (limit <= clock_now (sys_world s) + cache_ttl (cache (CloudProvider.cp_offerings (sys_cloud s))))%Z →
  (∀ now, (clock_now (sys_world s) <= now <= limit)%Z →
     IsUnavailable now name zone CapacityTypeOnDemand (CloudProvider.cp_offerings (sys_cloud s)) = true) →
  rtc (launches_step op env) (idle s) p →
  CloudProvider.list_instance_types (Op_Options op) (price_in (sys_prices (shared p))) ParseFloat_other (Op_Region op)
    fuel nodeClass (sys_cloud (shared p)) = (Ok its, c') →
  (clock_now (CloudProvider.cp_world c') <= limit)%Z →
  it ∈ its → IT_Name it = name → o ∈ IT_Offerings it → Instance.offering_zone o = zone → Of_Available o = true →
  InstanceType.only (Reqs_Get (Of_Requirements o) CapacityTypeLabelKey) CapacityTypePreemptible ∧
  InstanceType.supportPreemptible (Op_Options op) name = true.
Proof.
  intros Hclock Hlimit Hmark Hsteps. pose proof (launches_go_on _ _ Hclock Hsteps eq_refl) as Hgo.
  by apply (marked_not_listed _ regexp_other Sleep fuel op env s).
Qed.
End Table.

(** The start-up, and the log of the launches a world has seen. *)
Section StartUp.
Context {CP RC TLS : Type} `{OperatorSdk CP RC TLS W} `{HttpClient W} `{Process W} `{OciSdk CP W} {order : MapOrder}.
Variable ToAggregate : list FieldError → option gerror.
Variable embedded : option Pricing.PriceCatalog.
Variable env : W → W → Prop.
Variable launched : W → list LaunchInstanceDetails.

(** A call adds to the log at most the request it launches, a launch its own. *)
Hypothesis logged : ∀ A : LaunchInstanceDetails → Prop, closed Q A (λ w, Forall A (launched w)).
Hypothesis Sleep_launches : ∀ d w, launched (Sleep d w) = launched w.
Hypothesis env_launches : ∀ w w', env w w' → launched w' = launched w.

(** C1: Of the running program, with any number of launches side by side, each divided into its
    client calls and its accesses to what is shared: whatever else karpenter asks of the cloud
    provider and the controllers and the world do after a start-up, in whatever order and with
    whatever outcome, every launch the cloud ever saw was for a claim whose class was ready and
    not being deleted, of an instance type that suits the claim, with an image of the class that
    fits the type, in an availability domain that the compartment has, and with the compartment,
    tags, security groups and size of the options, class and claim. *)
Theorem launches_proper (opts : Options) (rc : option RC) (w w1 : W) (op : Started) (p : Pool)
    (req : LaunchInstanceDetails) :
  NewOperator ToAggregate embedded opts rc w = (Ok op, w1) → launched w1 = [] →
  rtc (launches_step op env) (idle (assemble op)) p → req ∈ launched (sys_world (shared p)) →
  ∃ class (claim : NodeClaim Q) subnet (it : InstanceType Rqs Q) image ad domains w2,
    ListAvailabilityDomains (CompartmentId opts) w2 = (Ok domains, w1) ∧ ad ∈ map ToString domains ∧
    class_of claim class ∧ (cond_Ready (Status_Conditions (Status class))).1 = CondTrue ∧
    DeletionTimestamp (NC_Meta class) = None ∧
    CloudProvider.suits claim it = true ∧
    image ∈ Status_Images (Status class) ∧ image_fits it image = true ∧
    Instance.request_for opts req class claim subnet it image ad.
Proof.
  intros Hop Hnone Hsteps Hreq. apply (launchable_proper _ _ _ _ _ _ _ _ Hop).
  apply NewOperator_Ok in Hop as (cp & domains & w2 & _ & _ & _ & _ & _ & Hw).
  assert (Forall (launchable (Q := Q) (Op_Options op)) (launched (sys_world (shared p)))) as Hall.
  { apply (launches_keep op env (λ _ w, Forall (launchable (Q := Q) (Op_Options op)) (launched w))
      (λ _, logged _) ltac:(by intros u v) ltac:(done)) with (p := idle (assemble op)); try done.
    - intros _ d v. by rewrite Sleep_launches.
    - intros _ v v' Hv. by rewrite (env_launches _ _ Hv).
    - unfold sys_world. simpl. by rewrite Hw, Hnone. }
  by rewrite Forall_forall in Hall; apply Hall.
Qed.
End StartUp.
End Running.
