(* ===== verification/Mock.v ===== *)
(** * The recording mocks of the tests ([pkg/fake/atomic.go], [types.go], [utils.go])

    A value to answer with, a list of inputs and an error with a budget, and
    the function made of the three.  Each is a record; the mutex around every
    method makes the method one step.  [clone] encodes its argument as JSON and
    decodes the text into a new value: the encoder and the decoder of a type
    are a class.  A process that ends in [log.Fatalf] is a [Panic]. *)

From stdpp Require Import base list strings gmap.
From Stdlib Require Import ZArith Lia.
From S2P Require Import Prelude GoStrings OciModel Sched.

Local Open Scope string_scope.
Local Open Scope list_scope.

(** ** [clone] *)

(** The encoder takes a pointer, nil included; the decoder fills a new value. *)
Class Json (A : Type) : Type := {
  buffer : Type;
  Encode : option A → option buffer;
  Decode : buffer → option A;
  zero : A
}.

(** What the SDK's records promise: a value is read back as it was written, and
    [null] leaves the new value as it is. *)
Class JsonLaws (A : Type) {json : Json A} : Prop := {
  Decode_Encode (a : A) : Encode (Some a) ≫= Decode = Some a;
  Decode_null : Encode (A := A) None ≫= Decode = Some zero
}.

(** Texts that are the values themselves. *)
Definition json_id {A : Type} (z : A) : Json A :=
  {| buffer := option A; Encode := Some; Decode o := Some (default z o); zero := z |}.

Lemma json_id_laws {A} (z : A) : JsonLaws A (json := json_id z).
Proof. by split. Qed.

Definition clone {A} `{Json A} (v : option A) : res A :=
  match Encode v with
  | None => Panic "encoding"
  | Some buf => match Decode buf with None => Panic "encoding" | Some cp => Ok cp end
  end.

(** ** [AtomicPtr] *)

Record AtomicPtr (A : Type) := { value : option A }.
Arguments value {A} _.
Arguments Build_AtomicPtr {A} _.

Definition AtomicPtr_Set {A} (v : option A) (a : AtomicPtr A) : AtomicPtr A := {| value := v |}.
Definition AtomicPtr_IsNil {A} (a : AtomicPtr A) : bool :=
  match value a with None => true | Some _ => false end.
Definition AtomicPtr_Clone {A} `{Json A} (a : AtomicPtr A) : res A := clone (value a).
Definition AtomicPtr_Reset {A} (a : AtomicPtr A) : AtomicPtr A := {| value := None |}.

(** ** [AtomicError] *)

Record AtomicError := { err : option gerror; calls : Z; maxCalls : Z }.

Definition AtomicError_Reset (e : AtomicError) : AtomicError :=
  {| err := None; calls := 0; maxCalls := 0 |}.
Definition AtomicError_IsNil (e : AtomicError) : bool :=
  match err e with None => true | Some _ => false end.

(** A call: the error, and one call less in the budget. *)
Definition AtomicError_Get (e : AtomicError) : option gerror * AtomicError :=
  if (maxCalls e <=? calls e)%Z then (None, e)
  else (err e, {| err := err e; calls := wrap64 (calls e + 1); maxCalls := maxCalls e |}).

Definition AtomicErrorOption : Type := AtomicError → AtomicError.

Definition MaxCalls (n : Z) : AtomicErrorOption := λ e,
  {| err := err e; calls := calls e; maxCalls := if (n <=? 0)%Z then max_int64 else n |}.

Definition AtomicError_Set (er : option gerror) (opts : list AtomicErrorOption) (e : AtomicError) : AtomicError :=
  let e' := foldl (λ e opt, opt e) {| err := er; calls := calls e; maxCalls := maxCalls e |} opts in
  {| err := err e'; calls := calls e'; maxCalls := if (maxCalls e' =? 0)%Z then 1 else maxCalls e' |}.

(** ** [AtomicPtrSlice] *)

Record AtomicPtrSlice (A : Type) := { values : list A }.
Arguments values {A} _.

Definition AtomicPtrSlice_Reset {A} (a : AtomicPtrSlice A) : AtomicPtrSlice A := {| values := [] |}.
Definition AtomicPtrSlice_Add {A} `{Json A} (input : option A) (a : AtomicPtrSlice A) : res (AtomicPtrSlice A) :=
  cp ← clone input; Ok {| values := values a ++ [cp] |}.
Definition AtomicPtrSlice_Len {A} (a : AtomicPtrSlice A) : Z := Z.of_nat (length (values a)).

(** The last element, and the slice without it. *)
Definition AtomicPtrSlice_Pop {A} (a : AtomicPtrSlice A) : res (A * AtomicPtrSlice A) :=
  match last (values a) with
  | None => Panic "index out of range"
  | Some x => Ok (x, {| values := removelast (values a) |})
  end.

Definition AtomicPtrSlice_ForEach {S A} `{Json A} (fn : A → run S unit) (a : AtomicPtrSlice A) : run S unit :=
  for_each (λ _ t, cp ← lift (clone (Some t)); fn cp) (values a) tt.

(** ** [MockedFunction] *)

Record MockedFunction (I O : Type) := {
  Output : AtomicPtr O;
  CalledWithInput : AtomicPtrSlice I;
  Error : AtomicError;
  successfulCalls : Z;
  failedCalls : Z
}.
Arguments Output {I O} _.
Arguments CalledWithInput {I O} _.
Arguments Error {I O} _.
Arguments successfulCalls {I O} _.
Arguments failedCalls {I O} _.

(** A mock that was never set. *)
Definition new_mock {I O} : MockedFunction I O := {|
  Output := {| value := None |}; CalledWithInput := {| values := [] |};
  Error := {| err := None; calls := 0; maxCalls := 0 |}; successfulCalls := 0; failedCalls := 0
|}.

Definition MockedFunction_Reset {I O} (m : MockedFunction I O) : MockedFunction I O := {|
  Output := AtomicPtr_Reset (Output m); CalledWithInput := AtomicPtrSlice_Reset (CalledWithInput m);
  Error := AtomicError_Reset (Error m); successfulCalls := 0; failedCalls := 0
|}.

Definition SuccessfulCalls {I O} (m : MockedFunction I O) : Z := successfulCalls m.
Definition FailedCalls {I O} (m : MockedFunction I O) : Z := failedCalls m.
Definition Calls {I O} (m : MockedFunction I O) : Z := (SuccessfulCalls m + FailedCalls m)%Z.

(** [Error.Get], [CalledWithInput.Add] and the two counters. *)
Definition take_error {I O} : run (MockedFunction I O) (option gerror) := λ m,
  let '(er, e) := AtomicError_Get (Error m) in
  (Ok er, {| Output := Output m; CalledWithInput := CalledWithInput m; Error := e;
             successfulCalls := successfulCalls m; failedCalls := failedCalls m |}).
Definition record_input {I O} `{Json I} (input : I) : run (MockedFunction I O) unit := λ m,
  match AtomicPtrSlice_Add (Some input) (CalledWithInput m) with
  | Ok l => (Ok tt, {| Output := Output m; CalledWithInput := l; Error := Error m;
                       successfulCalls := successfulCalls m; failedCalls := failedCalls m |})
  | Err e => (Err e, m)
  | Panic why => (Panic why, m)
  end.
Definition count_success {I O} : run (MockedFunction I O) unit := λ m,
  (Ok tt, {| Output := Output m; CalledWithInput := CalledWithInput m; Error := Error m;
             successfulCalls := wrap32 (successfulCalls m + 1); failedCalls := failedCalls m |}).
Definition count_failure {I O} : run (MockedFunction I O) unit := λ m,
  (Ok tt, {| Output := Output m; CalledWithInput := CalledWithInput m; Error := Error m;
             successfulCalls := successfulCalls m; failedCalls := wrap32 (failedCalls m + 1) |}).

(** ** [Invoke]

    The mock is a field of the client, and the function it stands for works on
    the whole client.  The pair is what Go returns: a pointer, nil or not, and
    an error, nil or not. *)
Section Invoke.
Context {I O S : Type} `{Json I} `{Json O}.
Variables (mock : S → MockedFunction I O) (set_mock : MockedFunction I O → S → S).

Definition on_mock {A} (m : run (MockedFunction I O) A) : run S A := zoom mock set_mock m.

Definition Invoke (input : I) (defaultTransformer : I → run S (option O * option gerror))
  : run S (option O * option gerror) :=
  er ← on_mock take_error;
  match er with
  | Some e => on_mock count_failure;; mret (None, Some e)
  | None =>
      on_mock (record_input input);;
      m ← on_mock get_state;
      if negb (AtomicPtr_IsNil (Output m)) then
        on_mock count_success;;
        out ← lift (AtomicPtr_Clone (Output m));
        mret (Some out, None)
      else
        '(out, er) ← defaultTransformer input;
        on_mock (match er with Some _ => count_failure | None => count_success end);;
        mret (out, er)
  end.
End Invoke.

(** ** [utils.go] *)

(** The texts of [go-randomdata] are an argument. *)
Definition InstanceID (Alphanumeric : string) : string := "ocid1.instance.oc1.iad." +:+ Alphanumeric.

(** The shapes the tests of the instance types have. *)
Definition MakeInstances : list WrapShape := [].

Section Families.
Context {Rqs Q : Type}.
Notation IT := (InstanceType Rqs Q).

(** The loop over the types that remain, with the families found so far. *)
Fixpoint unique_from (instances : list IT) (numInstanceFamilies : Z) (instanceTypes : list IT)
    (instanceFamilies : gset string) : list IT * gset string :=
  match instances with
  | [] => (instanceTypes, instanceFamilies)
  | it :: rest =>
      if bool_decide (IT_Name it ∈ instanceFamilies)
      then unique_from rest numInstanceFamilies instanceTypes instanceFamilies
      else
        let instanceTypes := (instanceTypes ++ [it])%list in
        let instanceFamilies := {[IT_Name it]} ∪ instanceFamilies in
        if (Z.of_nat (size instanceFamilies) =? numInstanceFamilies)%Z
        then (instanceTypes, instanceFamilies)
        else unique_from rest numInstanceFamilies instanceTypes instanceFamilies
  end.
Definition MakeUniqueInstancesAndFamilies (instances : list IT) (numInstanceFamilies : Z) : list IT * gset string :=
  unique_from instances numInstanceFamilies [] ∅.
End Families.

(** ** Properties *)

Lemma clone_id {A} `{JsonLaws A} (a : A) : clone (Some a) = Ok a.
Proof.
  pose proof (Decode_Encode a) as Ha. unfold clone. destruct (Encode (Some a)) as [buf|]; simpl in Ha; [|done].
  by rewrite Ha.
Qed.

(** A pointer that was never set is read as an empty answer, not as none. *)
Lemma AtomicPtr_Clone_Reset {A} `{JsonLaws A} (a : AtomicPtr A) : AtomicPtr_Clone (AtomicPtr_Reset a) = Ok zero.
Proof.
  pose proof (Decode_null (A := A)) as Ha. unfold AtomicPtr_Clone, clone. simpl. destruct (Encode None) as [buf|]; simpl in Ha; [|done].
  by rewrite Ha.
Qed.

Lemma Pop_Add {A} `{JsonLaws A} (a a' : AtomicPtrSlice A) x :
  AtomicPtrSlice_Add (Some x) a = Ok a' → AtomicPtrSlice_Pop a' = Ok (x, a).
Proof.
  unfold AtomicPtrSlice_Add. rewrite clone_id. intros [= <-]. unfold AtomicPtrSlice_Pop. simpl.
  rewrite last_snoc, removelast_last. by destruct a.
Qed.

(** *** The budget of an error *)

(** How many more calls get the error. *)
Definition budget (e : AtomicError) : nat :=
  match err e with None => 0 | Some _ => Z.to_nat (maxCalls e - calls e) end.

Definition counted (e : AtomicError) : Prop := (0 <= calls e)%Z ∧ (maxCalls e <= max_int64)%Z.

Lemma AtomicError_Get_spec e : counted e →
  let '(r, e') := AtomicError_Get e in
  counted e' ∧ err e' = err e ∧
  match budget e with
  | O => r = None ∧ budget e' = 0
  | S k => r = err e ∧ budget e' = k
  end.
Proof.
  intros [Hc Hm]. unfold AtomicError_Get, budget. destruct (Z.leb_spec (maxCalls e) (calls e)).
  - split; [done|]. split; [done|]. destruct (err e); [|done].
    by replace (Z.to_nat (maxCalls e - calls e)) with 0 by lia.
  - simpl. rewrite wrap64_id by (unfold in_int64, max_int64, min_int64 in *; lia).
    split; [unfold counted; simpl; lia|]. split; [done|]. destruct (err e); [|done].
    destruct (Z.to_nat (maxCalls e - calls e)) as [|k] eqn:Hk; [lia|]. split; [done|]. lia.
Qed.

(** After a reset, an error set with [MaxCalls n] has a budget of [n] calls, of all of them for
    [n <= 0], and of one call without the option. *)
Lemma AtomicError_Set_budget e er n :
  (n <= max_int64)%Z →
  let set opts := AtomicError_Set (Some er) opts (AtomicError_Reset e) in
  counted (set [MaxCalls n]) ∧ counted (set []) ∧ budget (set []) = 1 ∧
  budget (set [MaxCalls n]) = Z.to_nat (if (n <=? 0)%Z then max_int64 else n).
Proof.
  intros Hn. unfold budget, counted, max_int64 in *. simpl. destruct (Z.leb_spec n 0); simpl; [by split_and!; try lia|].
  destruct (Z.eqb_spec n 0); [lia|]. by split_and!; try lia.
Qed.

(** Without a reset in between it has none once as many calls failed as the first was set for:
    setting an error does not start the count again. *)
Lemma AtomicError_Set_spent e er er' :
  err e = Some er → (0 < maxCalls e)%Z → (maxCalls e <= calls e)%Z → (AtomicError_Get (AtomicError_Set (Some er') [] e)).1 = None.
Proof.
  intros _ Hm Hc. unfold AtomicError_Get. simpl. destruct (Z.eqb_spec (maxCalls e) 0); [lia|].
  by destruct (Z.leb_spec (maxCalls e) (calls e)); [|lia].
Qed.

(** A mock with neither an error nor an answer. *)
Definition resting {I O} (m : MockedFunction I O) : Prop := err (Error m) = None ∧ value (Output m) = None.

(** The counters after a call that ended with [er]. *)
Definition counted_call {I O} (er : option gerror) (m : MockedFunction I O) : MockedFunction I O :=
  (match er with Some _ => count_failure | None => count_success end m).2.

Lemma resting_counted {I O} er (m : MockedFunction I O) : resting m → resting (counted_call er m).
Proof. by destruct er. Qed.

(** *** [Invoke] *)

Section InvokeProperties.
Context {I O S : Type} {jsonI : Json I} {jsonO : Json O} {lawsI : JsonLaws I} {lawsO : JsonLaws O}.
Variables (mock : S → MockedFunction I O) (set_mock : MockedFunction I O → S → S).

(** The mock is a field. *)
Hypothesis mock_set : ∀ m s, mock (set_mock m s) = m.
Hypothesis set_set : ∀ m m' s, set_mock m (set_mock m' s) = set_mock m s.

Notation Transformer := (I → run S (option O * option gerror)).

(** The mock after an error, a failure and a success. *)
Definition with_error (e : AtomicError) (m : MockedFunction I O) : MockedFunction I O :=
  {| Output := Output m; CalledWithInput := CalledWithInput m; Error := e;
     successfulCalls := successfulCalls m; failedCalls := failedCalls m |}.
Definition with_input (input : I) (m : MockedFunction I O) : MockedFunction I O :=
  {| Output := Output m; CalledWithInput := {| values := values (CalledWithInput m) ++ [input] |}; Error := Error m;
     successfulCalls := successfulCalls m; failedCalls := failedCalls m |}.

(** The three ways of a call: the injected error, the canned answer, the function. *)
Lemma Invoke_eq input (tr : Transformer) s :
  Invoke mock set_mock input tr s =
    let '(er, e) := AtomicError_Get (Error (mock s)) in
    match er with
    | Some x => (Ok (None, Some x), set_mock (count_failure (with_error e (mock s))).2 s)
    | None =>
        let m := with_input input (with_error e (mock s)) in
        match value (Output (mock s)) with
        | Some o => (Ok (Some o, None), set_mock (count_success m).2 s)
        | None =>
            match tr input (set_mock m s) with
            | (Ok (out, er), s') =>
                (Ok (out, er), set_mock (match er with Some _ => count_failure | None => count_success end (mock s')).2 s')
            | (Err x, s') => (Err x, s')
            | (Panic why, s') => (Panic why, s')
            end
        end
    end.
Proof.
  unfold Invoke, on_mock, zoom, take_error, record_input, get_state, AtomicPtr_IsNil, AtomicPtr_Clone, AtomicPtrSlice_Add,
    mbind, run_bind, lift.
  destruct (AtomicError_Get (Error (mock s))) as [[x|] e]; simpl.
  - by rewrite mock_set, set_set.
  - rewrite mock_set. simpl. rewrite clone_id. simpl. rewrite !mock_set, !set_set. simpl.
    destruct (value (Output (mock s))) as [o|]; simpl.
    + rewrite clone_id. by rewrite mock_set, !set_set.
    + fold (with_error e (mock s)). fold (with_input input (with_error e (mock s))).
      unfold with_input, with_error. simpl.
      destruct (tr input _) as [[[out [y|]]|y|why] s']; done.
Qed.

(** A mock at rest calls the function, and counts how it ended. *)
Lemma Invoke_resting input (tr : Transformer) s :
  resting (mock s) →
  ∃ m, resting m ∧
    Invoke mock set_mock input tr s =
      match tr input (set_mock m s) with
      | (Ok (out, er), s') => (Ok (out, er), set_mock (counted_call er (mock s')) s')
      | (Err x, s') => (Err x, s')
      | (Panic why, s') => (Panic why, s')
      end.
Proof.
  intros [He Ho]. rewrite Invoke_eq. unfold AtomicError_Get.
  destruct (Z.leb_spec (maxCalls (Error (mock s))) (calls (Error (mock s)))); rewrite ?He, Ho;
    (eexists; split; [|reflexivity]; by split).
Qed.

(** An error that is due is returned without an answer. *)
Lemma Invoke_injected input (tr : Transformer) s e :
  (AtomicError_Get (Error (mock s))).1 = Some e → ∃ m, Invoke mock set_mock input tr s = (Ok (None, Some e), set_mock m s).
Proof. intros He. rewrite Invoke_eq. destruct (AtomicError_Get (Error (mock s))) as [er e']. simpl in He. subst er. by eexists. Qed.

Fixpoint invoke_all (l : list I) (tr : Transformer) : run S (list (option O * option gerror)) :=
  match l with
  | [] => mret []
  | input :: l' => out ← Invoke mock set_mock input tr; outs ← invoke_all l' tr; mret (out :: outs)
  end.

Definition failed (r : option O * option gerror) : bool := match r.2 with Some _ => true | None => false end.

(** A client's function answers, and does not touch its own mock. *)
Variable tr : Transformer.
Hypothesis tr_answers : ∀ input s, ∃ out s', tr input s = (Ok out, s') ∧ mock s' = mock s.

Lemma Invoke_spec input s :
  counted (Error (mock s)) → (0 <= successfulCalls (mock s))%Z → (0 <= failedCalls (mock s))%Z →
  (Calls (mock s) < 2 ^ 31 - 1)%Z →
  ∃ r s', Invoke mock set_mock input tr s = (Ok r, s') ∧
    let m := mock s in let m' := mock s' in
    counted (Error m') ∧ err (Error m') = err (Error m) ∧ Output m' = Output m ∧
    successfulCalls m' = (successfulCalls m + if failed r then 0 else 1)%Z ∧
    failedCalls m' = (failedCalls m + if failed r then 1 else 0)%Z ∧
    match budget (Error m) with
    | Datatypes.O => budget (Error m') = 0 ∧ values (CalledWithInput m') = values (CalledWithInput m) ++ [input]
    | Datatypes.S k => budget (Error m') = k ∧ CalledWithInput m' = CalledWithInput m ∧ r = (None, err (Error m))
    end.
Proof.
  intros Hc Hs Hf Hb. rewrite Invoke_eq. pose proof (AtomicError_Get_spec _ Hc) as Hg.
  unfold Calls, SuccessfulCalls, FailedCalls in Hb.
  assert (∀ z, (0 <= z < 2 ^ 31 - 1)%Z → wrap32 (z + 1) = (z + 1)%Z) as Hw.
  { intros z Hz. unfold wrap32. rewrite Z.mod_small; lia. }
  destruct (AtomicError_Get (Error (mock s))) as [er e] eqn:Hget. destruct Hg as (Hc' & He & Hbudget).
  destruct er as [x|].
  - destruct (budget (Error (mock s))) as [|k] eqn:Hk; destruct Hbudget as [Hr Hb']; [done|].
    eexists _, _. split; [done|]. simpl. rewrite mock_set. simpl. rewrite Hk, Hw by lia.
    split_and!; (done || lia || congruence).
  - assert (budget (Error (mock s)) = 0) as Hk.
    { destruct (budget (Error (mock s))) eqn:Hk; [done|]. destruct Hbudget as [Hr _].
      unfold budget in Hk. by rewrite <- Hr in Hk. }
    rewrite Hk in Hbudget. destruct Hbudget as [_ Hb'].
    destruct (value (Output (mock s))) as [o|] eqn:Ho.
    + eexists _, _. split; [done|]. simpl. rewrite mock_set. simpl. rewrite Hk, Hw by lia. split_and!; (done || lia || congruence).
    + destruct (tr_answers input (set_mock (with_input input (with_error e (mock s))) s)) as ([out r] & s' & Htr & Hm).
      rewrite mock_set in Hm. simpl. rewrite Htr. eexists _, _. split; [done|].
      rewrite mock_set, Hm, Hk. destruct r as [y|]; simpl; rewrite Hw by lia; split_and!; (done || lia || congruence).
Qed.

(** A mock answers as many calls with its error as the budget says, the first ones; it records
    the inputs of the others, and its counters add up to the number of calls. *)
Theorem Invoke_history (l : list I) (s : S) :
  counted (Error (mock s)) → (0 <= successfulCalls (mock s))%Z → (0 <= failedCalls (mock s))%Z →
  (Calls (mock s) + Z.of_nat (length l) < 2 ^ 31)%Z →
  ∃ outs s', invoke_all l tr s = (Ok outs, s') ∧
    let m := mock s in let m' := mock s' in let k := budget (Error m) in
    length outs = length l ∧ Calls m' = (Calls m + Z.of_nat (length l))%Z ∧
    failedCalls m' = (failedCalls m + Z.of_nat (length (List.filter failed outs)))%Z ∧
    take k outs = replicate (min k (length l)) (None, err (Error m)) ∧
    values (CalledWithInput m') = values (CalledWithInput m) ++ drop k l.
Proof.
  revert s. induction l as [|input l IH]; intros s Hc Hs Hf Hb.
  - eexists [], s. simpl. rewrite take_nil, drop_nil, Nat.min_0_r, app_nil_r, !Z.add_0_r. by split_and!.
  - cbn [length] in Hb.
    destruct (Invoke_spec input s) as (r & s1 & Hr & Hc1 & Herr & Hout & Hsucc & Hfail & Hbud); [done..|lia|].
    destruct (IH s1) as (outs & s' & Hall & Hlen & Hcalls & Hfailed & Htake & Hvals).
    { done. } { rewrite Hsucc. destruct (failed r); lia. } { rewrite Hfail. destruct (failed r); lia. }
    { unfold Calls, SuccessfulCalls, FailedCalls in *. rewrite Hsucc, Hfail. destruct (failed r); lia. }
    exists (r :: outs), s'. split.
    { cbn [invoke_all]. rewrite (run_bind_step _ _ _ _ _ Hr). by rewrite (run_bind_step _ _ _ _ _ Hall). }
    cbn [length]. split; [by rewrite Hlen|]. split.
    { rewrite Hcalls. unfold Calls, SuccessfulCalls, FailedCalls in *. rewrite Hsucc, Hfail. destruct (failed r); lia. }
    split. { rewrite Hfailed, Hfail. simpl. destruct (failed r); simpl; lia. }
    destruct (budget (Error (mock s))) as [|k].
    + destruct Hbud as [Hb0 Hv]. rewrite Hb0 in Htake, Hvals. split; [done|].
      rewrite Hvals, Hv. simpl. by rewrite drop_0, <- app_assoc.
    + destruct Hbud as (Hb0 & Hv & ->). rewrite Hb0 in Htake, Hvals. simpl. split; [|by rewrite Hvals, Hv].
      by rewrite Htake, Herr.
Qed.
End InvokeProperties.

(** *** [MakeUniqueInstancesAndFamilies] *)

Section FamiliesProperties.
Context {Rqs Q : Type}.
Notation IT := (InstanceType Rqs Q).

(** At every turn of the loop the set holds the names of the types kept so far, once each. *)
Definition one_each (its : list IT) (families : gset string) : Prop :=
  NoDup (map IT_Name its) ∧ ∀ n, n ∈ families ↔ n ∈ map IT_Name its.

Lemma one_each_size its families : one_each its families → size families = length its.
Proof.
  intros [Hnd Heq]. assert (families = list_to_set (map IT_Name its)) as ->.
  { apply set_eq. intros n. by rewrite Heq, elem_of_list_to_set. }
  by rewrite size_list_to_set, length_map.
Qed.

Lemma one_each_snoc its families it :
  one_each its families → IT_Name it ∉ families → one_each (its ++ [it]) ({[IT_Name it]} ∪ families).
Proof.
  intros [Hnd Heq] Hnew. split.
  - rewrite map_app. apply NoDup_app. split; [done|]. split; [|apply NoDup_singleton].
    intros n Hn ->%list_elem_of_singleton. by apply Hnew, Heq.
  - intros n. rewrite map_app. simpl. set_solver.
Qed.

Lemma unique_from_spec (instances its its' : list IT) n families families' :
  one_each its families → (n <= 0 ∨ Z.of_nat (length its) < n)%Z →
  unique_from instances n its families = (its', families') →
  one_each its' families' ∧ (∃ more, its' = its ++ more ∧ more `sublist_of` instances) ∧
  (n <= 0 ∨ Z.of_nat (length its') <= n)%Z ∧
  (Z.of_nat (length its') = n ∨ ∀ it, it ∈ instances → IT_Name it ∈ families').
Proof.
  revert its families. induction instances as [|it rest IH]; intros its families Hone Hn; cbn [unique_from].
  - intros [= <- <-]. split_and!; [done| | |].
    + exists []. by rewrite app_nil_r.
    + lia.
    + right. intros it Hit. by apply elem_of_nil in Hit.
  - case_bool_decide as Hin.
    + intros Hu. destruct (IH _ _ Hone Hn Hu) as (Hone' & (more & -> & Hmore) & Hle & Hall). split_and!; try done.
      * exists more. split; [done|]. by apply sublist_cons.
      * destruct Hall as [Hall|Hall]; [by left|]. right. intros x [->|Hx]%elem_of_cons; [|by apply Hall].
        destruct Hone as [_ Heq], Hone' as [_ Heq']. apply Heq'. rewrite map_app, elem_of_app. left. by apply Heq.
    + pose proof (one_each_snoc _ _ it Hone Hin) as Hone1. pose proof (one_each_size _ _ Hone1) as Hsize.
      rewrite length_app in Hsize. simpl in Hsize.
      destruct (Z.eqb_spec (Z.of_nat (size ({[IT_Name it]} ∪ families))) n) as [Heqn|Hne].
      * intros [= <- <-]. rewrite length_app. simpl. split_and!; [done| |lia|left; lia].
        exists [it]. split; [done|]. by apply sublist_skip, sublist_nil_l.
      * intros Hu. destruct (IH _ _ Hone1) with (2 := Hu) as (Hone' & (more & -> & Hmore) & Hle & Hall).
        { rewrite length_app. simpl. lia. }
        split_and!; try done.
        -- exists (it :: more). rewrite <- app_assoc. split; [done|]. by apply sublist_skip.
        -- destruct Hall as [Hall|Hall]; [by left|]. right. intros x [->|Hx]%elem_of_cons; [|by apply Hall].
           destruct Hone' as [_ Heq']. apply Heq'. rewrite !map_app, !elem_of_app. left. right. by left.
Qed.

(** One type of each name, in the order given: as many as asked for, or one of every name there is
    when there are fewer or the number is not positive. *)
Theorem MakeUniqueInstancesAndFamilies_spec (instances its : list IT) n families :
  MakeUniqueInstancesAndFamilies instances n = (its, families) →
  NoDup (map IT_Name its) ∧ its `sublist_of` instances ∧ (∀ name, name ∈ families ↔ name ∈ map IT_Name its) ∧
  ((0 < n)%Z → (Z.of_nat (length its) <= n)%Z) ∧
  (Z.of_nat (length its) = n ∨ ∀ it, it ∈ instances → IT_Name it ∈ families).
Proof.
  intros Hu. apply unique_from_spec in Hu as ([Hnd Heq] & (more & -> & Hmore) & Hle & Hall); [|split; [apply NoDup_nil_2|set_solver]|simpl; lia].
  split_and!; try done. lia.
Qed.
End FamiliesProperties.
