(* ===== verification/FakeNetwork.v ===== *)
(** * The network client of the tests ([pkg/fake/vcn_cli.go])

    Three subnets, three groups and two vnics that are always there, the
    subnets and groups the tests create, and canned answers.  The client is the
    state of its methods, beside a clock. *)

From stdpp Require Import base list strings gmap.
From Stdlib Require Import ZArith SpecFloat Lia.
From S2P Require Import Prelude GoStrings GoFloat OciModel Cache Frame Mock.

Local Open Scope string_scope.
Local Open Scope list_scope.

(** A client and what surrounds it. *)
Record Fake (C E : Type) := { client : C; env : E }.
Arguments client {C E} _.
Arguments env {C E} _.
Arguments Build_Fake {C E} _ _.

Definition set_client {C E} (c : C) (s : Fake C E) : Fake C E := {| client := c; env := env s |}.
Definition on_env {C E A} (m : run E A) : run (Fake C E) A :=
  zoom env (λ e s, {| client := client s; env := e |}) m.

(** ** What is always there *)

Definition DefaultSubnets : list Subnet :=
  let subnet id name cidr := {|
    Subnet_Id := Some id; Subnet_DisplayName := Some name; CidrBlock := Some cidr;
    Subnet_CompartmentId := Some "ocid1.compartment.oc1..aaaaaaaa"; Subnet_VcnId := None; Subnet_TimeCreated := None
  |} in
  [ subnet "ocid1.subnet.oc1.iad.aaaaaaaa" "private-1" "10.0.0.0/24";
    subnet "ocid1.subnet.oc1.iad.aaaaaaab" "private-1" "10.0.0.10/24";
    subnet "ocid1.subnet.oc1.iad.aaaaaaac" "private-2" "10.0.0.20/24" ].

Definition DefaultSecurityGroup : list NetworkSecurityGroup :=
  let group id name := {|
    NSG_Id := Some id; NSG_DisplayName := Some name; NSG_CompartmentId := Some "ocid1.compartment.oc1..aaaaaaaa";
    NSG_VcnId := None; NSG_TimeCreated := None
  |} in
  [ group "sg-test1" "securityGroup-test1"; group "sg-test2" "securityGroup-test2";
    group "sg-test3" "securityGroup-test3" ].

Definition DefaultVnics : list Vnic :=
  let subnet i := DefaultSubnets !! i ≫= Subnet_Id in
  let group i := from_ptr "" (DefaultSecurityGroup !! i ≫= NSG_Id) in
  [ {| Vnic_Id := Some "ocid1.vnic.oci.iad.aaaaaa"; Vnic_SubnetId := subnet 0; Vnic_IsPrimary := Some true;
       Vnic_NsgIds := [group 0; group 1; group 2] |};
    {| Vnic_Id := Some "ocid1.vnic.oci.iad.aaaaab"; Vnic_SubnetId := subnet 1; Vnic_IsPrimary := None;
       Vnic_NsgIds := [group 1] |} ].

(** A pointer to a text: one of the caller's own, or the field [Id] of a default subnet, which the
    attachments of [cmp_cli.go] hold. *)
Inductive StringPtr : Type :=
| Own (s : string)
| DefaultSubnetId (i : nat).

#[export] Instance StringPtr_eq_dec : EqDecision StringPtr.
Proof. solve_decision. Defined.

Definition points_to (p : StringPtr) : string :=
  match p with
  | Own s => s
  | DefaultSubnetId i => from_ptr "" (DefaultSubnets !! i ≫= Subnet_Id)
  end.

(** ** The client *)

(** The encodings of the canned answers. *)
Class VcnJson : Type := {
  json_Subnets :: Json (list Subnet);
  json_Groups :: Json (list NetworkSecurityGroup);
  json_Subnet :: Json (Subnet);
  json_Vnic :: Json (Vnic);
  json_Group :: Json (NetworkSecurityGroup);
  json_Deleted :: Json (unit);
  json_Utilization :: Json (gmap string (list IpInventoryCidrUtilizationSummary))
}.

Record VcnBehavior := {
  ListSubnetsOutput : AtomicPtr (list Subnet);
  ListSecurityGroupOutput : AtomicPtr (list NetworkSecurityGroup);
  GetSubnetOutput : AtomicPtr Subnet;
  GetVnicOutput : AtomicPtr Vnic;
  GetSecurityGroupResponse : AtomicPtr NetworkSecurityGroup;
  CreateSecurityGroupResponse : AtomicPtr NetworkSecurityGroup;
  DeleteSecurityGroupResponse : AtomicPtr unit;
  CreateSubnetResponse : AtomicPtr Subnet;
  DeleteSubnetResponse : AtomicPtr unit;
  GetSubnetCidrUtilizationOutput : AtomicPtr (gmap string (list IpInventoryCidrUtilizationSummary))
}.

Record VcnCli := {
  behavior : VcnBehavior;
  createdSecurityGroups : gmap string NetworkSecurityGroup;
  createdSubnets : gmap string Subnet
}.

Definition NewVcnCli : VcnCli := {|
  behavior := {|
    ListSubnetsOutput := {| value := None |}; ListSecurityGroupOutput := {| value := None |};
    GetSubnetOutput := {| value := None |}; GetVnicOutput := {| value := None |};
    GetSecurityGroupResponse := {| value := None |}; CreateSecurityGroupResponse := {| value := None |};
    DeleteSecurityGroupResponse := {| value := None |}; CreateSubnetResponse := {| value := None |};
    DeleteSubnetResponse := {| value := None |}; GetSubnetCidrUtilizationOutput := {| value := None |} |};
  createdSecurityGroups := ∅; createdSubnets := ∅
|}.

(** [lo.Filter] and [lo.Find] with a predicate that may panic. *)
Fixpoint filter_res {A} (p : A → res bool) (l : list A) : res (list A) :=
  match l with
  | [] => Ok []
  | x :: l' => b ← p x; ys ← filter_res p l'; Ok (if (b : bool) then x :: ys else ys)
  end.
Fixpoint find_res {A} (p : A → res bool) (l : list A) : res (option A) :=
  match l with
  | [] => Ok None
  | x :: l' => b ← p x; if (b : bool) then Ok (Some x) else find_res p l'
  end.

Definition FilterDescribeSubnets (subnets : list Subnet) (name : string) : res (list Subnet) :=
  filter_res (λ subnet, n ← deref (Subnet_DisplayName subnet); Ok (String.eqb n name)) subnets.
Definition FilterDescribeSecurityGroups (sgs : list NetworkSecurityGroup) (displayName : string)
  : res (list NetworkSecurityGroup) :=
  filter_res (λ sg, n ← deref (NSG_DisplayName sg); Ok (String.eqb n displayName)) sgs.

Section VcnCli.
Context {E : Type} `{Clock E} {order : MapOrder} {json : VcnJson}.

Notation State := (Fake VcnCli E).

(** [if !v.Output.IsNil() { return *v.Output.Clone(), nil }], before the rest of a method. *)
Definition canned {A} `{Json A} (output : VcnBehavior → AtomicPtr A) (rest : run State A) : run State A :=
  v ← get_state;
  if negb (AtomicPtr_IsNil (output (behavior (client v))))
  then lift (AtomicPtr_Clone (output (behavior (client v))))
  else rest.

(** ... with the items filtered. *)
Definition canned_items {A} `{Json (list A)} (output : VcnBehavior → AtomicPtr (list A))
    (filter : list A → string → res (list A)) (DisplayName : option string) (rest : run State (list A))
  : run State (list A) :=
  v ← get_state;
  if negb (AtomicPtr_IsNil (output (behavior (client v))))
  then
    items ← lift (AtomicPtr_Clone (output (behavior (client v))));
    name ← lift (deref DisplayName);
    lift (filter items name)
  else rest.

Definition null_filter : gerror := EText "InvalidParameterValue: The filter 'null' is invalid".

Definition ListSubnets (DisplayName : option string) : run State (list Subnet) :=
  canned_items ListSubnetsOutput FilterDescribeSubnets DisplayName
    (match DisplayName with
     | None => fail null_filter
     | Some name =>
         v ← get_state;
         let allSubnets := DefaultSubnets ++ map_values v (createdSubnets (client v)) in
         lift (FilterDescribeSubnets allSubnets name)
     end).

Definition ListNetworkSecurityGroups (DisplayName : option string) : run State (list NetworkSecurityGroup) :=
  canned_items ListSecurityGroupOutput FilterDescribeSecurityGroups DisplayName
    (match DisplayName with
     | None => fail null_filter
     | Some name => lift (FilterDescribeSecurityGroups DefaultSecurityGroup name)
     end).

(** The default subnets are searched for the pointer, not for the text. *)
Definition find_default (p : StringPtr) : option Subnet :=
  snd <$> List.find (λ '(i, _), bool_decide (DefaultSubnetId i = p)) (imap pair DefaultSubnets).

Definition GetSubnet (SubnetId : option StringPtr) : run State Subnet :=
  match SubnetId with
  | None => fail (EText "InvalidParameterValue: The subnetId is empty")
  | Some p =>
      canned GetSubnetOutput
        (v ← get_state;
         match createdSubnets (client v) !! points_to p with
         | Some subnet => mret subnet
         | None =>
             match find_default p with
             | Some subnet => mret subnet
             | None => fail (EText "no subnet is found with ")
             end
         end)
  end.

Definition GetVnic (VnicId : option string) : run State Vnic :=
  match VnicId with
  | None => fail (EText "InvalidParameterValue: The vnicId is empty")
  | Some id =>
      canned GetVnicOutput
        (found ← lift (find_res (λ item, i ← deref (Vnic_Id item); Ok (String.eqb id i)) DefaultVnics);
         match found with
         | Some vnic => mret vnic
         | None => fail (EText "no vnic is found with ")
         end)
  end.

Definition GetNetworkSecurityGroup (NetworkSecurityGroupId : option string) : run State NetworkSecurityGroup :=
  match NetworkSecurityGroupId with
  | None => fail (EText "InvalidParameterValue: networkSecurityGroupId is empty")
  | Some id =>
      canned GetSecurityGroupResponse
        (v ← get_state;
         match createdSecurityGroups (client v) !! id with
         | Some sg => mret sg
         | None =>
             found ← lift (find_res (λ item, i ← deref (NSG_Id item); Ok (String.eqb i id)) DefaultSecurityGroup);
             match found with
             | Some sg => mret sg
             | None => fail (EText "no sgs is found with ")
             end
         end)
  end.

(** A subnet that is not in the canned table has no summaries. *)
Definition GetSubnetCidrUtilization (SubnetId : option string) : run State (list IpInventoryCidrUtilizationSummary) :=
  v ← get_state;
  let output := GetSubnetCidrUtilizationOutput (behavior (client v)) in
  if negb (AtomicPtr_IsNil output) then
    table ← lift (AtomicPtr_Clone output);
    id ← lift (deref SubnetId);
    mret (default [] (table !! id))
  else
    match SubnetId with
    | None => fail null_filter
    | Some _ => mret [{| Smy_Utilization := Some (f32_of_Z 0); Smy_Cidr := Some "10.0.0.0/24";
                         Smy_AddressType := "Private_IPv4" |}]
    end.

Definition store_group (id : string) (sg : NetworkSecurityGroup) : run State unit := λ s,
  (Ok tt, set_client {| behavior := behavior (client s);
                        createdSecurityGroups := <[id := sg]> (createdSecurityGroups (client s));
                        createdSubnets := createdSubnets (client s) |} s).
Definition delete_group (id : string) : run State unit := λ s,
  (Ok tt, set_client {| behavior := behavior (client s);
                        createdSecurityGroups := delete id (createdSecurityGroups (client s));
                        createdSubnets := createdSubnets (client s) |} s).
Definition store_subnet (id : string) (subnet : Subnet) : run State unit := λ s,
  (Ok tt, set_client {| behavior := behavior (client s);
                        createdSecurityGroups := createdSecurityGroups (client s);
                        createdSubnets := <[id := subnet]> (createdSubnets (client s)) |} s).
Definition delete_subnet (id : string) : run State unit := λ s,
  (Ok tt, set_client {| behavior := behavior (client s);
                        createdSecurityGroups := createdSecurityGroups (client s);
                        createdSubnets := delete id (createdSubnets (client s)) |} s).

(** [time.Since(t) < 5*time.Second], for the time of creation of what was created. *)
Definition just_created (TimeCreated : option Z) (now : Z) : bool :=
  match TimeCreated with Some t => (now - t <? 5 * time_Second)%Z | None => false end.

Definition CreateNetworkSecurityGroup (request : CreateNetworkSecurityGroupDetails) : run State NetworkSecurityGroup :=
  canned CreateSecurityGroupResponse
    (name ← lift (deref (CG_DisplayName request));
     s ← get_state;
     let newSG := {| NSG_Id := Some ("sg-" +:+ name); NSG_DisplayName := CG_DisplayName request;
                     NSG_CompartmentId := CG_CompartmentId request; NSG_VcnId := CG_VcnId request;
                     NSG_TimeCreated := Some (clock_now (env s)) |} in
     store_group ("sg-" +:+ name) newSG;;
     mret newSG).

Definition DeleteNetworkSecurityGroup (NetworkSecurityGroupId : option string) : run State unit :=
  canned DeleteSecurityGroupResponse
    (match NetworkSecurityGroupId with
     | None => mret tt
     | Some id =>
         s ← get_state;
         if match createdSecurityGroups (client s) !! id with
            | Some sg => just_created (NSG_TimeCreated sg) (clock_now (env s))
            | None => false
            end
         then fail (EText "NetworkSecurityGroup  cannot be deleted since it still has vnics attached to it")
         else delete_group id
     end).

Definition CreateSubnet (request : CreateSubnetDetails) : run State Subnet :=
  canned CreateSubnetResponse
    (name ← lift (deref (CS_DisplayName request));
     s ← get_state;
     let newSubnet := {| Subnet_Id := Some ("subnet-" +:+ name); Subnet_DisplayName := CS_DisplayName request;
                         CidrBlock := CS_CidrBlock request; Subnet_CompartmentId := CS_CompartmentId request;
                         Subnet_VcnId := CS_VcnId request; Subnet_TimeCreated := Some (clock_now (env s)) |} in
     store_subnet ("subnet-" +:+ name) newSubnet;;
     mret newSubnet).

Definition DeleteSubnet (SubnetId : option string) : run State unit :=
  canned DeleteSubnetResponse
    (match SubnetId with
     | None => mret tt
     | Some id =>
         s ← get_state;
         if match createdSubnets (client s) !! id with
            | Some subnet => just_created (Subnet_TimeCreated subnet) (clock_now (env s))
            | None => false
            end
         then fail (EText "subnet  cannot be deleted since it still has resources attached to it")
         else delete_subnet id
     end).

Definition Reset (v : VcnCli) : VcnCli := {|
  behavior := {|
    ListSubnetsOutput := AtomicPtr_Reset (ListSubnetsOutput (behavior v));
    ListSecurityGroupOutput := ListSecurityGroupOutput (behavior v);
    GetSubnetOutput := GetSubnetOutput (behavior v);
    GetVnicOutput := GetVnicOutput (behavior v);
    GetSecurityGroupResponse := GetSecurityGroupResponse (behavior v);
    CreateSecurityGroupResponse := AtomicPtr_Reset (CreateSecurityGroupResponse (behavior v));
    DeleteSecurityGroupResponse := AtomicPtr_Reset (DeleteSecurityGroupResponse (behavior v));
    CreateSubnetResponse := AtomicPtr_Reset (CreateSubnetResponse (behavior v));
    DeleteSubnetResponse := AtomicPtr_Reset (DeleteSubnetResponse (behavior v));
    GetSubnetCidrUtilizationOutput := GetSubnetCidrUtilizationOutput (behavior v) |};
  createdSecurityGroups := ∅; createdSubnets := ∅
|}.

(** The client as the providers see it.  A text they pass is behind a pointer of theirs or of a
    default subnet: [through] says which. *)
Definition fake_network (through : string → StringPtr) : VirtualNetworkClient State := {|
  client_ListSubnets _ _ name := ListSubnets (Some name);
  client_GetSubnet id := GetSubnet (through <$> id);
  client_ListNetworkSecurityGroups _ _ name := ListNetworkSecurityGroups (Some name);
  client_GetNetworkSecurityGroup id := GetNetworkSecurityGroup (Some id);
  client_GetVnic := GetVnic;
  client_GetSubnetCidrUtilization := GetSubnetCidrUtilization;
  client_CreateNetworkSecurityGroup := CreateNetworkSecurityGroup;
  client_DeleteNetworkSecurityGroup := DeleteNetworkSecurityGroup;
  client_CreateSubnet := CreateSubnet;
  client_DeleteSubnet := DeleteSubnet
|}.
End VcnCli.

(** ** Properties *)

Lemma filter_res_Ok {A} (p : A → res bool) (f : A → bool) l :
  (∀ x, x ∈ l → p x = Ok (f x)) → filter_res p l = Ok (List.filter f l).
Proof.
  induction l as [|x l IH]; intros Hp; [done|]. simpl. rewrite Hp by left. simpl.
  rewrite IH by (intros; apply Hp; by right). simpl. by destruct (f x).
Qed.

Lemma filter_name_elem {A} (name : A → option string) (l : list A) n :
  (∀ x, x ∈ l → is_Some (name x)) →
  ∃ l', filter_res (λ x, m ← deref (name x); Ok (String.eqb m n)) l = Ok l' ∧
    ∀ x, x ∈ l' ↔ x ∈ l ∧ name x = Some n.
Proof.
  intros Hl. exists (List.filter (λ x, bool_decide (name x = Some n)) l). split.
  - apply filter_res_Ok. intros x Hx. destruct (Hl x Hx) as [m Hm]. rewrite Hm. simpl. f_equal.
    destruct (String.eqb_spec m n); case_bool_decide; congruence.
  - intros x. rewrite !list_elem_of_In, List.filter_In. by rewrite bool_decide_eq_true.
Qed.

Section VcnProperties.
Context {E : Type} `{Clock E} {order : MapOrder} {json : VcnJson}.

Notation State := (Fake VcnCli E).

(** A canned answer that was not set. *)
Notation unset output s := (value (output (behavior (client s))) = None).

Lemma canned_unset {A} `{Json A} (output : VcnBehavior → AtomicPtr A) (rest : run State A) s :
  unset output s → canned output rest s = rest s.
Proof. intros Ho. unfold canned, get_state, mbind, run_bind, AtomicPtr_IsNil. simpl. by rewrite Ho. Qed.

Lemma canned_items_unset {A} `{Json (list A)} output filter name (rest : run State (list A)) s :
  unset output s → canned_items output filter name rest s = rest s.
Proof. intros Ho. unfold canned_items, get_state, mbind, run_bind, AtomicPtr_IsNil. simpl. by rewrite Ho. Qed.

(** What was created has its name, and is stored under the id made of it. *)
Definition well_stored (v : VcnCli) : Prop :=
  (∀ k x, createdSubnets v !! k = Some x →
     ∃ n, k = "subnet-" +:+ n ∧ Subnet_Id x = Some k ∧ Subnet_DisplayName x = Some n) ∧
  (∀ k x, createdSecurityGroups v !! k = Some x →
     ∃ n, k = "sg-" +:+ n ∧ NSG_Id x = Some k ∧ NSG_DisplayName x = Some n).

Lemma well_stored_new : well_stored NewVcnCli.
Proof. split; intros k x; simpl; by rewrite lookup_empty. Qed.

Lemma well_stored_Reset v : well_stored (Reset v).
Proof. split; intros k x; simpl; by rewrite lookup_empty. Qed.

(** *** Subnets *)

(** The subnets of a name are the default ones and the created ones that have it. *)
Theorem ListSubnets_spec name (s : State) :
  unset ListSubnetsOutput s → well_stored (client s) →
  ∃ l, ListSubnets (Some name) s = (Ok l, s) ∧
    ∀ x, x ∈ l ↔ (x ∈ DefaultSubnets ∨ ∃ k, createdSubnets (client s) !! k = Some x) ∧ Subnet_DisplayName x = Some name.
Proof.
  intros Ho [Hs _]. unfold ListSubnets. rewrite (canned_items_unset _ _ _ _ _ Ho).
  destruct (filter_name_elem Subnet_DisplayName (DefaultSubnets ++ map_values s (createdSubnets (client s))) name) as (l & Hl & Hin).
  - intros x [Hx|(k & Hk)%map_values_elem]%elem_of_app.
    + repeat (apply elem_of_cons in Hx as [->|Hx]; [by eexists|]). by apply elem_of_nil in Hx.
    + destruct (Hs _ _ Hk) as (n & _ & _ & ->). by eexists.
  - exists l. split; [|by intros x; rewrite Hin, elem_of_app, map_values_elem].
    transitivity (FilterDescribeSubnets (DefaultSubnets ++ map_values s (createdSubnets (client s))) name, s); [done|].
    unfold FilterDescribeSubnets. by rewrite Hl.
Qed.

(** A subnet is created with the fields of the request, is there from then on, and is found under
    its id and its name. *)
Theorem CreateSubnet_spec request name (s : State) :
  unset CreateSubnetResponse s → CS_DisplayName request = Some name →
  ∃ x s', CreateSubnet request s = (Ok x, s') ∧
    Subnet_Id x = Some ("subnet-" +:+ name) ∧ Subnet_DisplayName x = Some name ∧ CidrBlock x = CS_CidrBlock request ∧
    Subnet_CompartmentId x = CS_CompartmentId request ∧ Subnet_VcnId x = CS_VcnId request ∧
    Subnet_TimeCreated x = Some (clock_now (env s)) ∧
    env s' = env s ∧ behavior (client s') = behavior (client s) ∧
    createdSecurityGroups (client s') = createdSecurityGroups (client s) ∧
    createdSubnets (client s') = <["subnet-" +:+ name := x]> (createdSubnets (client s)) ∧
    (unset GetSubnetOutput s → GetSubnet (Some (Own ("subnet-" +:+ name))) s' = (Ok x, s')) ∧
    (well_stored (client s) → well_stored (client s')).
Proof.
  intros Ho Hname. unfold CreateSubnet. rewrite (canned_unset _ _ _ Ho), Hname.
  eexists _, _. split; [reflexivity|]. split_and!; try done.
  - intros Hg. unfold GetSubnet. rewrite canned_unset by done.
    unfold get_state, mbind, run_bind, set_client. simpl. by rewrite lookup_insert_eq.
  - intros [Hs Hgroups]. split; [|done]. intros k x. cbn [client set_client createdSubnets].
    intros [[<- <-]|[_ Hx]]%lookup_insert_Some; [by exists name|by apply Hs].
Qed.

Lemma CreateSubnet_nil_name request (s : State) :
  unset CreateSubnetResponse s → CS_DisplayName request = None →
  CreateSubnet request s = (Panic "nil pointer dereference", s).
Proof. intros Ho Hname. unfold CreateSubnet. by rewrite (canned_unset _ _ _ Ho), Hname. Qed.

(** For five seconds after its creation a subnet cannot be deleted; afterwards it is, and no other
    subnet is touched.  Deleting what was never created succeeds. *)
Theorem DeleteSubnet_spec id (s : State) :
  unset DeleteSubnetResponse s →
  let early := ∃ x t, createdSubnets (client s) !! id = Some x ∧ Subnet_TimeCreated x = Some t ∧
                      (clock_now (env s) - t < 5 * time_Second)%Z in
  (early → (∃ msg, (DeleteSubnet (Some id) s).1 = Err (EText msg)) ∧ (DeleteSubnet (Some id) s).2 = s) ∧
  (¬ early → ∃ s', DeleteSubnet (Some id) s = (Ok tt, s') ∧ env s' = env s ∧
     createdSubnets (client s') = delete id (createdSubnets (client s)) ∧
     behavior (client s') = behavior (client s) ∧
     createdSecurityGroups (client s') = createdSecurityGroups (client s) ∧
     (unset GetSubnetOutput s → is_ok (GetSubnet (Some (Own id)) s').1 = false)).
Proof.
  intros Ho early. unfold DeleteSubnet. rewrite (canned_unset _ _ _ Ho).
  unfold get_state, mbind, run_bind.
  assert (match createdSubnets (client s) !! id with
          | Some x => just_created (Subnet_TimeCreated x) (clock_now (env s))
          | None => false end = true ↔ early) as Hearly.
  { unfold early, just_created. split.
    - destruct (createdSubnets (client s) !! id) as [x|] eqn:Hx; [|done].
      destruct (Subnet_TimeCreated x) as [t|] eqn:Ht; [|done]. intros Hlt%Z.ltb_lt. by exists x, t.
    - intros (x & t & -> & -> & Hlt). by apply Z.ltb_lt. }
  split.
  - intros He%Hearly. rewrite He. split; [by eexists|done].
  - intros Hn. destruct (match createdSubnets (client s) !! id with
          | Some x => just_created (Subnet_TimeCreated x) (clock_now (env s))
          | None => false end) eqn:He; [by destruct Hn; apply Hearly|].
    eexists. split; [reflexivity|]. split_and!; try done. intros Hg.
    unfold GetSubnet. rewrite canned_unset by done. unfold get_state, mbind, run_bind. simpl. by rewrite lookup_delete_eq.
Qed.

(** A default subnet is found through the pointer of its own field only: under a text, the
    text of its id included, it is not. *)
Theorem GetSubnet_default (s : State) :
  unset GetSubnetOutput s →
  (∀ id, createdSubnets (client s) !! id = None → is_ok (GetSubnet (Some (Own id)) s).1 = false) ∧
  (∀ i x, DefaultSubnets !! i = Some x → createdSubnets (client s) !! points_to (DefaultSubnetId i) = None →
     GetSubnet (Some (DefaultSubnetId i)) s = (Ok x, s)).
Proof.
  intros Ho. split.
  - intros id Hid. unfold GetSubnet. rewrite (canned_unset _ _ _ Ho). unfold get_state, mbind, run_bind. simpl. by rewrite Hid.
  - intros i x Hi Hid. unfold GetSubnet. rewrite (canned_unset _ _ _ Ho). unfold get_state, mbind, run_bind.
    rewrite Hid. destruct i as [|[|[|i]]]; simpl in Hi; [by injection Hi as <-..|done].
Qed.

(** *** Groups *)

Theorem CreateNetworkSecurityGroup_spec request name (s : State) :
  unset CreateSecurityGroupResponse s → CG_DisplayName request = Some name →
  ∃ x s', CreateNetworkSecurityGroup request s = (Ok x, s') ∧
    NSG_Id x = Some ("sg-" +:+ name) ∧ NSG_DisplayName x = Some name ∧
    NSG_CompartmentId x = CG_CompartmentId request ∧ NSG_VcnId x = CG_VcnId request ∧
    NSG_TimeCreated x = Some (clock_now (env s)) ∧
    env s' = env s ∧ behavior (client s') = behavior (client s) ∧
    createdSubnets (client s') = createdSubnets (client s) ∧
    createdSecurityGroups (client s') = <["sg-" +:+ name := x]> (createdSecurityGroups (client s)) ∧
    (unset GetSecurityGroupResponse s → GetNetworkSecurityGroup (Some ("sg-" +:+ name)) s' = (Ok x, s')) ∧
    (well_stored (client s) → well_stored (client s')).
Proof.
  intros Ho Hname. unfold CreateNetworkSecurityGroup. rewrite (canned_unset _ _ _ Ho), Hname.
  eexists _, _. split; [reflexivity|]. split_and!; try done.
  - intros Hg. unfold GetNetworkSecurityGroup. rewrite canned_unset by done.
    unfold get_state, mbind, run_bind, set_client. simpl. by rewrite lookup_insert_eq.
  - intros [Hs Hgroups]. split; [done|]. intros k x. cbn [client set_client createdSecurityGroups].
    intros [[<- <-]|[_ Hx]]%lookup_insert_Some; [by exists name|by apply Hgroups].
Qed.

(** A created group is found by its id but never listed: the listing is of the default groups. *)
Theorem ListNetworkSecurityGroups_spec name (s : State) :
  unset ListSecurityGroupOutput s →
  ∃ l, ListNetworkSecurityGroups (Some name) s = (Ok l, s) ∧
    ∀ x, x ∈ l ↔ x ∈ DefaultSecurityGroup ∧ NSG_DisplayName x = Some name.
Proof.
  intros Ho. unfold ListNetworkSecurityGroups. rewrite (canned_items_unset _ _ _ _ _ Ho).
  destruct (filter_name_elem NSG_DisplayName DefaultSecurityGroup name) as (l & Hl & Hin).
  - intros x Hx. repeat (apply elem_of_cons in Hx as [->|Hx]; [by eexists|]). by apply elem_of_nil in Hx.
  - exists l. split; [|done]. unfold lift, FilterDescribeSecurityGroups. by rewrite Hl.
Qed.

(** *** Every operation *)

Notation Stored := (λ s : State, well_stored (client s)).

Lemma keeps_canned {A} `{Json A} P (output : VcnBehavior → AtomicPtr A) (rest : run State A) :
  keeps P rest → keeps P (canned output rest).
Proof. intros Hr. unfold canned. apply keeps_read. intros s. keeping. Qed.

Lemma keeps_canned_items {A} `{Json (list A)} P output filter name (rest : run State (list A)) :
  keeps P rest → keeps P (canned_items output filter name rest).
Proof. intros Hr. unfold canned_items. apply keeps_read. intros s. keeping. Qed.

Lemma keeps_store_subnet name x :
  Subnet_Id x = Some ("subnet-" +:+ name) → Subnet_DisplayName x = Some name →
  keeps Stored (store_subnet ("subnet-" +:+ name) x).
Proof.
  intros Hid Hname s [Hs Hgroups]. split; [|done]. intros k y. simpl.
  intros [[<- <-]|[_ Hy]]%lookup_insert_Some; [by exists name|by apply Hs].
Qed.
Lemma keeps_store_group name x :
  NSG_Id x = Some ("sg-" +:+ name) → NSG_DisplayName x = Some name →
  keeps Stored (store_group ("sg-" +:+ name) x).
Proof.
  intros Hid Hname s [Hs Hgroups]. split; [done|]. intros k y. simpl.
  intros [[<- <-]|[_ Hy]]%lookup_insert_Some; [by exists name|by apply Hgroups].
Qed.
Lemma keeps_delete_subnet id : keeps Stored (delete_subnet id).
Proof. intros s [Hs Hgroups]. split; [|done]. intros k y. simpl. intros [_ Hy]%lookup_delete_Some. by apply Hs. Qed.
Lemma keeps_delete_group id : keeps Stored (delete_group id).
Proof. intros s [Hs Hgroups]. split; [done|]. intros k y. simpl. intros [_ Hy]%lookup_delete_Some. by apply Hgroups. Qed.

Lemma keeps_deref {A B} P (p : option A) (f : A → run State B) :
  (∀ a, p = Some a → keeps P (f a)) → keeps P (a ← lift (deref p); f a).
Proof. intros Hf s Hs. destruct p as [a|]; [by apply (Hf a)|done]. Qed.

(** Whatever is called with whatever arguments, what was created stays under its own id. *)
Theorem network_keeps_stored :
  (∀ n, keeps Stored (ListSubnets n)) ∧ (∀ n, keeps Stored (ListNetworkSecurityGroups n)) ∧
  (∀ p, keeps Stored (GetSubnet p)) ∧ (∀ id, keeps Stored (GetVnic id)) ∧
  (∀ id, keeps Stored (GetNetworkSecurityGroup id)) ∧ (∀ id, keeps Stored (GetSubnetCidrUtilization id)) ∧
  (∀ r, keeps Stored (CreateSubnet r)) ∧ (∀ id, keeps Stored (DeleteSubnet id)) ∧
  (∀ r, keeps Stored (CreateNetworkSecurityGroup r)) ∧ (∀ id, keeps Stored (DeleteNetworkSecurityGroup id)).
Proof.
  split_and!; intros x.
  - apply keeps_canned_items. destruct x; [apply keeps_read; intros v|]; keeping.
  - apply keeps_canned_items. destruct x; keeping.
  - destruct x as [p|]; [|keeping]. apply keeps_canned, keeps_read. intros v. keeping.
  - destruct x as [p|]; [|keeping]. apply keeps_canned. keeping.
  - destruct x as [p|]; [|keeping]. apply keeps_canned, keeps_read. intros v. keeping.
  - apply keeps_read. intros v. cbv zeta. keeping.
  - apply keeps_canned, keeps_deref. intros name Hname. apply keeps_get. intros s Hs.
    apply keeps_bind; [by apply keeps_store_subnet|keeping|done].
  - apply keeps_canned. destruct x as [id|]; [|keeping]. apply keeps_get. intros s Hs.
    destruct (match _ with Some _ => _ | None => _ end); [done|by apply keeps_delete_subnet].
  - apply keeps_canned, keeps_deref. intros name Hname. apply keeps_get. intros s Hs.
    apply keeps_bind; [by apply keeps_store_group|keeping|done].
  - apply keeps_canned. destruct x as [id|]; [|keeping]. apply keeps_get. intros s Hs.
    destruct (match _ with Some _ => _ | None => _ end); [done|by apply keeps_delete_group].
Qed.

(** *** [Reset] *)

(** What a test set before the reset and the next one still gets. *)
Theorem network_Reset_spec (v : VcnCli) :
  Reset v = NewVcnCli ↔
    value (ListSecurityGroupOutput (behavior v)) = None ∧ value (GetSubnetOutput (behavior v)) = None ∧
    value (GetVnicOutput (behavior v)) = None ∧ value (GetSecurityGroupResponse (behavior v)) = None ∧
    value (GetSubnetCidrUtilizationOutput (behavior v)) = None.
Proof.
  destruct v as [[? [] [] [] [] ? ? ? ? []] ? ?]. unfold Reset, NewVcnCli. simpl. split; [by intros [=]|].
  by intros (-> & -> & -> & -> & ->).
Qed.
End VcnProperties.
