(* ===== verification/FakeCompute.v ===== *)
(** * The compute client of the tests ([pkg/fake/cmp_cli.go])

    Instances and their attachments by id, pools without capacity, and a mock
    in front of most methods.  Random texts are drawn from the environment.
    An answer keeps what the program reads: the items, and the status of the
    raw response.  [GetVnicAttachmentBehavior] and the other mocks hold
    requests as the arguments of the client interface. *)

From stdpp Require Import base list strings gmap.
From Stdlib Require Import ZArith SpecFloat Lia.
From S2P Require Import Prelude GoStrings GoFloat OciModel Cache Frame Mock FakeNetwork.

Local Open Scope string_scope.
Local Open Scope list_scope.

(** [uuid.New] and [randomdata.Alphanumeric] *)
Class Entropy (E : Type) : Type := {
  uuid_New : E → string * E;
  Alphanumeric : nat → E → string * E
}.

(** Identifiers are new: none was given before. *)
Class EntropyLaws (E : Type) {entropy : Entropy E} : Type := {
  issued : E → string → Prop;
  uuid_fresh e : ¬ issued e (uuid_New e).1;
  uuid_issued e id : issued (uuid_New e).2 id ↔ id = (uuid_New e).1 ∨ issued e id;
  Alphanumeric_issued n e id : issued (Alphanumeric n e).2 id ↔ issued e id
}.

Definition draw {C E A} (d : E → A * E) : run (Fake C E) A := on_env (λ e, let '(a, e') := d e in (Ok a, e')).

(** ** State *)

(** The encodings of the requests and answers the mocks copy. *)
Class CmpJson : Type := {
  json_Image :: Json (Image);
  json_Images :: Json (list Image);
  json_WrapShape :: Json (WrapShape);
  json_Launch :: Json (LaunchInstanceDetails);
  json_Instance :: Json (Instance);
  json_Id :: Json (option string);
  json_Status :: Json (option Z);
  json_GetAnswer :: Json (Instance * option Z);
  json_Attachments :: Json (option Z * list VnicAttachment);
  json_ListRequest :: Json (string * string);
  json_ListAnswer :: Json (list Instance * option string);
  json_ImagesRequest :: Json (string * option string);
  json_UpdateRequest :: Json (option string * gmap string string);
  json_UpdateAnswer :: Json (option Z * Instance)
}.
Class CmpJsonLaws {json : CmpJson} : Prop := {
  laws_Image :: JsonLaws (Image);
  laws_Images :: JsonLaws (list Image);
  laws_WrapShape :: JsonLaws (WrapShape);
  laws_Launch :: JsonLaws (LaunchInstanceDetails);
  laws_Instance :: JsonLaws (Instance);
  laws_Id :: JsonLaws (option string);
  laws_Status :: JsonLaws (option Z);
  laws_GetAnswer :: JsonLaws (Instance * option Z);
  laws_Attachments :: JsonLaws (option Z * list VnicAttachment);
  laws_ListRequest :: JsonLaws (string * string);
  laws_ListAnswer :: JsonLaws (list Instance * option string);
  laws_ImagesRequest :: JsonLaws (string * option string);
  laws_UpdateRequest :: JsonLaws (option string * gmap string string);
  laws_UpdateAnswer :: JsonLaws (option Z * Instance)
}.

Record CapacityPool := { Pool_CapacityType : string; Pool_InstanceType : string; Pool_Zone : string }.

(** The record of a service error. *)
Record FakeServicefailure := { StatusCode : Z; Code : string; Message : string; OpcRequestID : string }.
Definition GetHTTPStatusCode (se : FakeServicefailure) : Z := StatusCode se.
Definition GetMessage (se : FakeServicefailure) : string := Message se.
Definition GetCode (se : FakeServicefailure) : string := Code se.
Definition GetOpcRequestID (se : FakeServicefailure) : string := OpcRequestID se.
Definition FakeServicefailure_Error (se : FakeServicefailure) : string :=
  "Error returned by Service. Http Status Code: " +:+ Itoa (StatusCode se) +:+ ". Error Code: " +:+ Code se +:+
  ". Opc request id: " +:+ OpcRequestID se +:+ ". Message: " +:+ Message se.

(** As the program sees it, through the interface of the SDK. *)
Definition as_error (se : FakeServicefailure) : gerror :=
  EService (GetHTTPStatusCode se) (GetCode se) (GetMessage se).

Record CmpCli := {
  GetImagesOutput : AtomicPtr Image;
  ListImagesOutput : AtomicPtr (list Image);
  DescribeInstanceTypesOutput : AtomicPtrSlice WrapShape;
  LaunchInstanceBehavior : MockedFunction LaunchInstanceDetails Instance;
  TerminateInstancesBehavior : MockedFunction (option string) (option Z);
  GetInstanceBehavior : MockedFunction (option string) (Instance * option Z);
  GetVnicAttachmentBehavior : MockedFunction (option string) (option Z * list VnicAttachment);
  ListInstanceBehavior : MockedFunction (string * string) (list Instance * option string);
  CalledWithListImagesInput : AtomicPtrSlice (string * option string);
  UpdateInstanceBehavior : MockedFunction (option string * gmap string string) (option Z * Instance);
  Instances : gmap string Instance;
  Vnics : gmap string (list VnicAttachment);
  InsufficientCapacityPools : list CapacityPool
}.

Definition NewCmpCli : CmpCli := {|
  GetImagesOutput := {| value := None |}; ListImagesOutput := {| value := None |};
  DescribeInstanceTypesOutput := {| values := [] |}; LaunchInstanceBehavior := new_mock;
  TerminateInstancesBehavior := new_mock; GetInstanceBehavior := new_mock; GetVnicAttachmentBehavior := new_mock;
  ListInstanceBehavior := new_mock; CalledWithListImagesInput := {| values := [] |};
  UpdateInstanceBehavior := new_mock; Instances := ∅; Vnics := ∅; InsufficientCapacityPools := []
|}.

(** Assignments to the fields. *)
Definition set_launch m '(Build_CmpCli gi li di la te ge va ls ci up ins vn po) := Build_CmpCli gi li di m te ge va ls ci up ins vn po.
Definition set_terminate m '(Build_CmpCli gi li di la te ge va ls ci up ins vn po) := Build_CmpCli gi li di la m ge va ls ci up ins vn po.
Definition set_get m '(Build_CmpCli gi li di la te ge va ls ci up ins vn po) := Build_CmpCli gi li di la te m va ls ci up ins vn po.
Definition set_attachment m '(Build_CmpCli gi li di la te ge va ls ci up ins vn po) := Build_CmpCli gi li di la te ge m ls ci up ins vn po.
Definition set_list m '(Build_CmpCli gi li di la te ge va ls ci up ins vn po) := Build_CmpCli gi li di la te ge va m ci up ins vn po.
Definition set_image_calls l '(Build_CmpCli gi li di la te ge va ls ci up ins vn po) := Build_CmpCli gi li di la te ge va ls l up ins vn po.
Definition set_update m '(Build_CmpCli gi li di la te ge va ls ci up ins vn po) := Build_CmpCli gi li di la te ge va ls ci m ins vn po.
Definition set_Instances i '(Build_CmpCli gi li di la te ge va ls ci up ins vn po) := Build_CmpCli gi li di la te ge va ls ci up i vn po.
Definition set_Vnics v '(Build_CmpCli gi li di la te ge va ls ci up ins vn po) := Build_CmpCli gi li di la te ge va ls ci up ins v po.

(** ** The shapes that are always there *)

Definition defaultDescribeInstanceTypesOutput : list Shape :=
  let shape name cpus mem gpus description := {|
    Shape_Shape := Some name; IsFlexible := Some false; Ocpus := Some (f32_of_Z cpus); MemoryInGBs := Some (f32_of_Z mem);
    NetworkingBandwidthInGbps := Some (f32_of_Z 10); MaxVnicAttachments := Some 2%Z; Gpus := gpus;
    GpuDescription := description; LocalDisksTotalSizeInGBs := None; OcpuOptions := None; MemoryOptions := None;
    MaxVnicAttachmentOptions := None; NetworkingBandwidthOptions := None
  |} in
  [ shape "shape-1" 1%Z 4%Z None None; shape "shape-2" 2%Z 8%Z None None; shape "shape-3" 4%Z 16%Z None None;
    shape "shape-4" 8%Z 32%Z None None; shape "shape-gpu" 2%Z 8%Z (Some 1%Z) (Some "A100") ].

Definition FilterDescribeImages (images : list Image) (name : string) : res (list Image) :=
  filter_res (λ image, n ← deref (Image_DisplayName image); Ok (String.eqb n name)) images.

(** The zero value, of which a missing instance's answer is made. *)
Definition zero_instance : Instance := {|
  Inst_Id := None; Inst_Shape := None; Inst_AvailabilityDomain := None; Inst_LifecycleState := Lifecycle_Other "";
  Inst_DefinedTags := ∅; Inst_FreeformTags := ∅; Inst_ImageId := None; Inst_SourceDetails := SourceOther;
  Inst_TimeCreated := None; Inst_Preemptible := false
|}.

(** The loop over the pools, left at the first of the shape in the domain; the domain's name is
    cut at its colons only when the shape matches. *)
Fixpoint insufficient (pools : list CapacityPool) (shape ad : string) : res bool :=
  match pools with
  | [] => Ok false
  | pool :: rest =>
      if String.eqb (Pool_InstanceType pool) shape then
        zone ← index (Split ad ":") 1;
        if String.eqb (Pool_Zone pool) zone then Ok true else insufficient rest shape ad
      else insufficient rest shape ad
  end.

Section CmpCli.
Context {E : Type} `{Clock E} `{Entropy E} {order : MapOrder} {json : CmpJson}.

Notation State := (Fake CmpCli E).

Definition update_client (f : CmpCli → CmpCli) : run State unit := λ s, (Ok tt, set_client (f (client s)) s).

(** The mock [field] of the client in front of a function. *)
Definition invoke {I O} `{Json I} `{Json O} (field : CmpCli → MockedFunction I O)
    (set_field : MockedFunction I O → CmpCli → CmpCli) (input : I) (f : I → run State (option O * option gerror))
  : run State (option O * option gerror) :=
  Invoke (λ s, field (client s)) (λ m s, set_client (set_field m (client s)) s) input f.

(** [return *ptr, err] *)
Definition both {A} (m : run State (option A * option gerror)) : run State (A * option gerror) :=
  '(ptr, err) ← m;
  out ← lift (deref ptr);
  mret (out, err).

Definition ListImages (compartmentId : string) (DisplayName : option string) : run State (list Image) :=
  c ← get_state;
  calls ← lift (AtomicPtrSlice_Add (Some (compartmentId, DisplayName)) (CalledWithListImagesInput (client c)));
  update_client (set_image_calls calls);;
  if negb (AtomicPtr_IsNil (ListImagesOutput (client c))) then
    items ← lift (AtomicPtr_Clone (ListImagesOutput (client c)));
    name ← lift (deref DisplayName);
    lift (FilterDescribeImages items name)
  else
    name ← lift (deref DisplayName);
    if String.eqb name "invalid" then mret []
    else
      text ← draw (Alphanumeric 10);
      mret [{| Image_Id := Some ("ocid1.image.oc1.iad." +:+ text); Image_DisplayName := Some "ubuntu";
               Image_CompartmentId := None |}].

Definition GetImage (ImageId : option string) : run State Image :=
  c ← get_state;
  if negb (AtomicPtr_IsNil (GetImagesOutput (client c)))
  then lift (AtomicPtr_Clone (GetImagesOutput (client c)))
  else mret {| Image_Id := match ImageId with None => None | Some _ => Some "ocid1.image.oc1.iad.aaaaaaaa" end;
               Image_DisplayName := None; Image_CompartmentId := None |}.

(** The function behind [LaunchInstanceBehavior]. *)
Definition launch_default (request : LaunchInstanceDetails) : run State (option Instance * option gerror) :=
  c ← get_state;
  full ← lift (insufficient (InsufficientCapacityPools (client c)) (Launch_Shape request) (Launch_AvailabilityDomain request));
  if (full : bool) then
    mret (None, Some (as_error {| StatusCode := 500; Code := ""; Message := "Out of host capacity"; OpcRequestID := "" |}))
  else
    let imageId := Some "ocid1.image.oc1.iad.aaaaaaaa" in
    id ← draw uuid_New;
    s ← get_state;
    let instance := {|
      Inst_Id := Some id; Inst_Shape := Some (Launch_Shape request);
      Inst_AvailabilityDomain := Some (Launch_AvailabilityDomain request); Inst_LifecycleState := Lifecycle_Other "";
      Inst_DefinedTags := ∅; Inst_FreeformTags := ∅; Inst_ImageId := imageId;
      Inst_SourceDetails := SourceViaImage imageId; Inst_TimeCreated := Some (clock_now (env s)); Inst_Preemptible := false
    |} in
    update_client (λ c, set_Instances (<[id := instance]> (Instances c)) c);;
    attachment ← draw uuid_New;
    subnet ← lift (index DefaultSubnets 0);
    vnic ← lift (index DefaultVnics 0);
    update_client (λ c, set_Vnics (<[id := [{| VA_Id := Some attachment; VA_InstanceId := Some id;
                                               VA_VnicId := Vnic_Id vnic; VA_SubnetId := Subnet_Id subnet |}]]> (Vnics c)) c);;
    mret (Some instance, None).

Definition LaunchInstance (request : LaunchInstanceDetails) : run State Instance :=
  '(ptr, err) ← invoke LaunchInstanceBehavior set_launch request launch_default;
  match err with Some e => fail e | None => lift (deref ptr) end.

(** The status of the raw response. *)
Definition terminate_default (InstanceId : option string) : run State (option (option Z) * option gerror) :=
  instanceID ← lift (deref InstanceId);
  c ← get_state;
  match Instances (client c) !! instanceID with
  | Some _ =>
      update_client (λ c, set_Instances (delete instanceID (Instances c)) c);;
      mret (Some (Some 200%Z), None)
  | None => mret (None, None)
  end.

Definition TerminateInstance (InstanceId : option string) : run State (option Z * option gerror) :=
  both (invoke TerminateInstancesBehavior set_terminate InstanceId terminate_default).

(** The error that comes with status 404 wraps the result [err] of the method, which is nil there. *)
Definition get_default (InstanceId : option string) : run State (option (Instance * option Z) * option gerror) :=
  id ← lift (deref InstanceId);
  c ← get_state;
  match Instances (client c) !! id with
  | None => mret (Some (zero_instance, Some 404%Z), Some (ENodeClaimNotFound None))
  | Some instance => mret (Some (instance, Some 200%Z), None)
  end.

Definition GetInstance (InstanceId : option string) : run State ((Instance * option Z) * option gerror) :=
  both (invoke GetInstanceBehavior set_get InstanceId get_default).

Definition list_default (request : string * string) : run State (option (list Instance * option string) * option gerror) :=
  c ← get_state;
  mret (Some (map_values c (Instances (client c)), None), None).

Definition ListInstances (request : string * string) : run State ((list Instance * option string) * option gerror) :=
  both (invoke ListInstanceBehavior set_list request list_default).

(** The loop over the tags of the request. *)
Definition with_tags (tags : gmap string string) (i : Instance) : Instance := {|
  Inst_Id := Inst_Id i; Inst_Shape := Inst_Shape i; Inst_AvailabilityDomain := Inst_AvailabilityDomain i;
  Inst_LifecycleState := Inst_LifecycleState i; Inst_DefinedTags := Inst_DefinedTags i;
  Inst_FreeformTags := foldl (λ m '(k, v), <[k := v]> m) (Inst_FreeformTags i) (range_map "tags" tags);
  Inst_ImageId := Inst_ImageId i; Inst_SourceDetails := Inst_SourceDetails i; Inst_TimeCreated := Inst_TimeCreated i;
  Inst_Preemptible := Inst_Preemptible i
|}.

(** The tags are written through the stored pointer, under the id that was looked up; the pointer
    is then also stored under the id the instance has. *)
Definition update_default (request : option string * gmap string string)
  : run State (option (option Z * Instance) * option gerror) :=
  let id := from_ptr "" request.1 in
  c ← get_state;
  match Instances (client c) !! id with
  | None => mret (Some (Some 404%Z, zero_instance), None)
  | Some raw =>
      let instance := with_tags request.2 raw in
      update_client (λ c, set_Instances (<[id := instance]> (Instances c)) c);;
      update_client (λ c, set_Instances (<[from_ptr "" (Inst_Id instance) := instance]> (Instances c)) c);;
      mret (Some (Some 200%Z, instance), None)
  end.

Definition UpdateInstance (request : option string * gmap string string) : run State ((option Z * Instance) * option gerror) :=
  both (invoke UpdateInstanceBehavior set_update request update_default).

Definition ListShapes : run State (list Shape) :=
  c ← get_state;
  let shapes := DescribeInstanceTypesOutput (client c) in
  if negb (AtomicPtrSlice_Len shapes =? 0)%Z
  then for_each (λ items w, cp ← lift (clone (Some w)); mret (items ++ [wShape cp])) (values shapes) []
  else mret defaultDescribeInstanceTypesOutput.

Definition attachments_default (InstanceId : option string)
  : run State (option (option Z * list VnicAttachment) * option gerror) :=
  id ← lift (deref InstanceId);
  c ← get_state;
  match Vnics (client c) !! id with
  | None => mret (Some (Some 404%Z, []), Some (EText "vnic not found"))
  | Some vnics => mret (Some (Some 200%Z, vnics), None)
  end.

Definition ListVnicAttachments (InstanceId : option string) : run State ((option Z * list VnicAttachment) * option gerror) :=
  both (invoke GetVnicAttachmentBehavior set_attachment InstanceId attachments_default).

Definition Reset (c : CmpCli) : CmpCli := {|
  GetImagesOutput := GetImagesOutput c;
  ListImagesOutput := AtomicPtr_Reset (ListImagesOutput c);
  DescribeInstanceTypesOutput := AtomicPtrSlice_Reset (DescribeInstanceTypesOutput c);
  LaunchInstanceBehavior := MockedFunction_Reset (LaunchInstanceBehavior c);
  TerminateInstancesBehavior := MockedFunction_Reset (TerminateInstancesBehavior c);
  GetInstanceBehavior := MockedFunction_Reset (GetInstanceBehavior c);
  GetVnicAttachmentBehavior := GetVnicAttachmentBehavior c;
  ListInstanceBehavior := MockedFunction_Reset (ListInstanceBehavior c);
  CalledWithListImagesInput := AtomicPtrSlice_Reset (CalledWithListImagesInput c);
  UpdateInstanceBehavior := UpdateInstanceBehavior c;
  Instances := ∅;
  Vnics := Vnics c;
  InsufficientCapacityPools := []
|}.

(** [return out, err] where the caller drops [out] on an error. *)
Definition or_fail {A} (m : run State (A * option gerror)) : run State A :=
  '(out, err) ← m;
  match err with Some e => fail e | None => mret out end.

(** The client as the providers see it. *)
#[export] Instance fake_compute : ComputeClient State := {
  client_GetImage id := GetImage (Some id);
  client_ListImages compartment name := ListImages compartment (Some name);
  client_LaunchInstance := LaunchInstance;
  client_TerminateInstance id := TerminateInstance (Some id);
  client_GetInstance id := or_fail (GetInstance (Some id));
  client_ListInstances compartment page := or_fail (ListInstances (compartment, page));
  client_ListShapes _ _ _ := shapes ← ListShapes; mret (shapes, None);
  client_ListVnicAttachments _ id := '(_, vnics) ← or_fail (ListVnicAttachments (Some id)); mret vnics;
  client_UpdateInstance id tags := '((status, _), err) ← UpdateInstance (Some id, tags); mret (status, err)
}.
End CmpCli.

(** ** Properties *)

(** The assignments write their field and nothing else. *)
Record is_mock {I O} (field : CmpCli → MockedFunction I O) (set_field : MockedFunction I O → CmpCli → CmpCli) : Prop := {
  mock_field m c : field (set_field m c) = m;
  mock_twice m m' c : set_field m (set_field m' c) = set_field m c;
  mock_instances m c : Instances (set_field m c) = Instances c;
  mock_vnics m c : Vnics (set_field m c) = Vnics c;
  mock_pools m c : InsufficientCapacityPools (set_field m c) = InsufficientCapacityPools c
}.

Lemma launch_mock : is_mock LaunchInstanceBehavior set_launch.
Proof. split; intros; by destruct c. Qed.
Lemma terminate_mock : is_mock TerminateInstancesBehavior set_terminate.
Proof. split; intros; by destruct c. Qed.
Lemma get_mock : is_mock GetInstanceBehavior set_get.
Proof. split; intros; by destruct c. Qed.
Lemma attachment_mock : is_mock GetVnicAttachmentBehavior set_attachment.
Proof. split; intros; by destruct c. Qed.
Lemma list_mock : is_mock ListInstanceBehavior set_list.
Proof. split; intros; by destruct c. Qed.
Lemma update_mock : is_mock UpdateInstanceBehavior set_update.
Proof. split; intros; by destruct c. Qed.
#[export] Hint Resolve launch_mock terminate_mock get_mock attachment_mock list_mock update_mock : mocks.

(** What the functions behind the mocks work on. *)
Definition store {E} (s : Fake CmpCli E) : gmap string Instance * gmap string (list VnicAttachment) * list CapacityPool :=
  (Instances (client s), Vnics (client s), InsufficientCapacityPools (client s)).

(** No mock has an error or an answer set. *)
Definition quiet (c : CmpCli) : Prop :=
  resting (LaunchInstanceBehavior c) ∧ resting (TerminateInstancesBehavior c) ∧ resting (GetInstanceBehavior c) ∧
  resting (GetVnicAttachmentBehavior c) ∧ resting (ListInstanceBehavior c) ∧ resting (UpdateInstanceBehavior c).

Lemma quiet_new : quiet NewCmpCli.
Proof. unfold quiet. by split_and!. Qed.

Lemma quiet_Reset c :
  resting (GetVnicAttachmentBehavior c) → resting (UpdateInstanceBehavior c) → quiet (Reset c).
Proof. intros Hv Hu. unfold quiet. by split_and!. Qed.

(** What survives a reset. *)
Theorem compute_Reset_spec c :
  Reset c = NewCmpCli ↔ value (GetImagesOutput c) = None ∧ GetVnicAttachmentBehavior c = new_mock ∧
    UpdateInstanceBehavior c = new_mock ∧ Vnics c = ∅.
Proof.
  destruct c as [[gi] li di la te ge va ls ci up ins vn po]. unfold Reset, NewCmpCli. simpl. split.
  - intros Heq. split_and!.
    + exact (f_equal (λ c, value (GetImagesOutput c)) Heq).
    + exact (f_equal GetVnicAttachmentBehavior Heq).
    + exact (f_equal UpdateInstanceBehavior Heq).
    + exact (f_equal Vnics Heq).
  - by intros (-> & -> & -> & ->).
Qed.

Lemma insufficient_no_error pools shape ad e : insufficient pools shape ad ≠ Err e.
Proof.
  induction pools as [|pool rest IH]; simpl; [done|]. destruct (String.eqb _ shape); [|done].
  unfold index. destruct (Split ad ":" !! 1); simpl; [|done]. by destruct (String.eqb _ _).
Qed.

Section CmpProperties.
Context {E : Type} `{Clock E} `{entropy : Entropy E} {order : MapOrder} {json : CmpJson} {jlaws : CmpJsonLaws}.

Notation State := (Fake CmpCli E).

(** A mock at rest calls the function behind it, and rests again. *)
Lemma invoke_resting {I O} {jI : Json I} {jO : Json O} {lI : JsonLaws I} {lO : JsonLaws O}
    (field : CmpCli → MockedFunction I O) set_field input (f : I → run State (option O * option gerror)) s :
  is_mock field set_field → resting (field (client s)) →
  ∃ s1, env s1 = env s ∧ store s1 = store s ∧ (∃ m1, resting m1 ∧ client s1 = set_field m1 (client s)) ∧
    invoke field set_field input f s =
      match f input s1 with
      | (Ok (out, er), s2) =>
          (Ok (out, er), set_client (set_field (counted_call er (field (client s2))) (client s2)) s2)
      | (Err x, s2) => (Err x, s2)
      | (Panic why, s2) => (Panic why, s2)
      end.
Proof.
  intros Hm Hr.
  destruct (Invoke_resting (λ s : State, field (client s)) (λ m s, set_client (set_field m (client s)) s)) with (input := input) (tr := f) (s := s)
    as (m1 & Hm1 & Heq); [intros; apply (mock_field _ _ Hm)|intros; unfold set_client; simpl; by rewrite (mock_twice _ _ Hm)|done|].
  exists (set_client (set_field m1 (client s)) s). split; [done|]. split.
  { unfold store. simpl. by rewrite (mock_instances _ _ Hm), (mock_vnics _ _ Hm), (mock_pools _ _ Hm). }
  split; [by exists m1|]. exact Heq.
Qed.

(** ... and one with an error that is due does not: the answer is a nil pointer. *)
Lemma invoke_injected {I O} {jI : Json I} {jO : Json O} {lI : JsonLaws I} {lO : JsonLaws O}
    (field : CmpCli → MockedFunction I O) set_field input (f : I → run State (option O * option gerror)) s e :
  is_mock field set_field → (AtomicError_Get (Error (field (client s)))).1 = Some e →
  ∃ m, invoke field set_field input f s = (Ok (None, Some e), set_client (set_field m (client s)) s).
Proof.
  intros Hm He. apply (Invoke_injected (λ s : State, field (client s)) (λ m s, set_client (set_field m (client s)) s)); [| |done].
  - intros m s1. apply (mock_field _ _ Hm).
  - intros m m' s1. unfold set_client. simpl. by rewrite (mock_twice _ _ Hm).
Qed.

Lemma both_injected {I O} {jI : Json I} {jO : Json O} {lI : JsonLaws I} {lO : JsonLaws O}
    (field : CmpCli → MockedFunction I O) set_field input (f : I → run State (option O * option gerror)) s e :
  is_mock field set_field → (AtomicError_Get (Error (field (client s)))).1 = Some e →
  (both (invoke field set_field input f) s).1 = Panic "nil pointer dereference".
Proof.
  intros Hm He. destruct (invoke_injected field set_field input f s e Hm He) as [m Heq].
  unfold both. by rewrite (run_bind_step _ _ _ _ _ Heq).
Qed.

(** An error set for a launch is what the launch returns; set for any other method it is never
    seen, since the method reads its nil answer first. *)
Theorem injected_errors (s : State) e :
  let due {I O} (m : MockedFunction I O) := (AtomicError_Get (Error m)).1 = Some e in
  let panics {A} (r : res A * State) := r.1 = Panic "nil pointer dereference" in
  (∀ req, due (LaunchInstanceBehavior (client s)) → (LaunchInstance req s).1 = Err e) ∧
  (∀ id, due (TerminateInstancesBehavior (client s)) → panics (TerminateInstance id s)) ∧
  (∀ id, due (GetInstanceBehavior (client s)) → panics (GetInstance id s)) ∧
  (∀ req, due (ListInstanceBehavior (client s)) → panics (ListInstances req s)) ∧
  (∀ req, due (UpdateInstanceBehavior (client s)) → panics (UpdateInstance req s)) ∧
  (∀ id, due (GetVnicAttachmentBehavior (client s)) → panics (ListVnicAttachments id s)).
Proof.
  cbv zeta. split_and!; intros x He; [|by eapply both_injected; [eauto with mocks|]..].
  destruct (invoke_injected LaunchInstanceBehavior set_launch x launch_default s e launch_mock He) as [m Heq].
  unfold LaunchInstance. by rewrite (run_bind_step _ _ _ _ _ Heq).
Qed.

(** *** Instances *)

Lemma run_set_store {I O} (field : CmpCli → MockedFunction I O) set_field m (s : State) :
  is_mock field set_field → store (set_client (set_field m (client s)) s) = store s.
Proof. intros Hm. unfold store. simpl. by rewrite (mock_instances _ _ Hm), (mock_vnics _ _ Hm), (mock_pools _ _ Hm). Qed.

(** A launch is refused when a pool without capacity is of its shape and domain; otherwise there
    is one instance more, under a new id, with the shape and the domain of the request and with
    none of its tags, and one attachment to the first default subnet. *)
Theorem LaunchInstance_spec {elaws : EntropyLaws E} req (s : State) :
  resting (LaunchInstanceBehavior (client s)) →
  ∃ r s', LaunchInstance req s = (r, s') ∧
    match insufficient (InsufficientCapacityPools (client s)) (Launch_Shape req) (Launch_AvailabilityDomain req) with
    | Ok true => r = Err (EService 500 "" "Out of host capacity") ∧ store s' = store s ∧ env s' = env s
    | Ok false =>
        ∃ id i a, r = Ok i ∧ Inst_Id i = Some id ∧ ¬ issued (env s) id ∧ issued (env s') id ∧
          (∀ x, issued (env s) x → issued (env s') x) ∧
          Inst_Shape i = Some (Launch_Shape req) ∧ Inst_AvailabilityDomain i = Some (Launch_AvailabilityDomain req) ∧
          Inst_DefinedTags i = ∅ ∧ Inst_FreeformTags i = ∅ ∧
          store s' = (<[id := i]> (Instances (client s)), <[id := [a]]> (Vnics (client s)), InsufficientCapacityPools (client s)) ∧
          VA_InstanceId a = Some id ∧ VA_SubnetId a = Some "ocid1.subnet.oc1.iad.aaaaaaaa" ∧
          VA_VnicId a = Some "ocid1.vnic.oci.iad.aaaaaa"
    | Err e => False
    | Panic why => r = Panic why ∧ store s' = store s ∧ env s' = env s
    end.
Proof.
  intros Hr. unfold LaunchInstance.
  destruct (invoke_resting LaunchInstanceBehavior set_launch req launch_default s launch_mock Hr) as (s1 & Henv & Hstore & _ & Heq).
  unfold store in Hstore. injection Hstore as Hins Hvn Hpo. rewrite <- Hins, <- Hvn, <- Hpo.
  set (r := insufficient _ _ _). unfold mbind, run_bind. rewrite Heq. clear Heq.
  unfold launch_default, get_state, lift, mbind, run_bind. fold r. destruct r as [[]|e|why] eqn:Hfull; [| | |].
  - eexists _, _. split; [reflexivity|]. simpl. split; [done|]. split; [|done].
    rewrite (run_set_store LaunchInstanceBehavior) by apply launch_mock. unfold store. by rewrite Hins, Hvn, Hpo.
  - unfold draw, on_env, zoom. rewrite Henv. pose proof (uuid_fresh (env s)) as Hfresh.
    destruct (uuid_New (env s)) as [id e1] eqn:Hu. simpl. destruct (uuid_New e1) as [attachment e2] eqn:Hu2. simpl.
    eexists _, _. split; [reflexivity|]. eexists id, _, _. split; [reflexivity|]. split_and!; try done.
    + change e2 with (attachment, e2).2. rewrite <- Hu2. apply uuid_issued. right.
      change e1 with (id, e1).2. rewrite <- Hu. apply uuid_issued. left. by rewrite Hu.
    + intros x Hx. change e2 with (attachment, e2).2. rewrite <- Hu2. apply uuid_issued. right.
      change e1 with (id, e1).2. rewrite <- Hu. apply uuid_issued. by right.
    + unfold store. destruct (client s1). reflexivity.
    + done.
    + done.
    + done.
  - by apply insufficient_no_error in Hfull.
  - eexists _, _. split; [reflexivity|]. simpl. split; [done|]. unfold store. by rewrite Hins, Hvn, Hpo.
Qed.

(** The function behind a mock at rest, called at [s1], that answers and writes the instances. *)
Lemma both_resting_at {I O} {jI : Json I} {jO : Json O} {lI : JsonLaws I} {lO : JsonLaws O}
    (field : CmpCli → MockedFunction I O) set_field input (f : I → run State (option O * option gerror)) s
    (r : State → res (option O * option gerror)) (write : CmpCli → CmpCli) (after : gmap string Instance) :
  is_mock field set_field → resting (field (client s)) →
  (∀ s1, store s1 = store s → f input s1 = (r s1, set_client (write (client s1)) s1)) →
  (∀ c, Instances c = Instances (client s) → Instances (write c) = after) →
  (∀ c, Vnics (write c) = Vnics c ∧ InsufficientCapacityPools (write c) = InsufficientCapacityPools c) →
  ∃ s1 s', both (invoke field set_field input f) s =
    (match r s1 with
     | Ok (Some o, er) => Ok (o, er)
     | Ok (None, er) => Panic "nil pointer dereference"
     | Err e => Err e
     | Panic why => Panic why
     end, s') ∧ env s' = env s ∧ store s' = (after, Vnics (client s), InsufficientCapacityPools (client s)).
Proof.
  intros Hm Hr Hf Hafter Hkeep. destruct (invoke_resting field set_field input f s Hm Hr) as (s1 & Henv & Hstore & _ & Heq).
  rewrite (Hf s1 Hstore) in Heq. unfold store in Hstore. injection Hstore as Hins Hvn Hpo.
  assert (store (set_client (write (client s1)) s1) = (after, Vnics (client s), InsufficientCapacityPools (client s))) as Hs2.
  { unfold store. simpl. rewrite (Hafter _ Hins). destruct (Hkeep (client s1)) as [-> ->]. by rewrite Hvn, Hpo. }
  exists s1. unfold both, mbind, run_bind. rewrite Heq. destruct (r s1) as [[[o|] er]|e|why]; (eexists; split; [reflexivity|]);
    (split; [done|]); try done; rewrite <- Hs2; by apply (run_set_store field set_field).
Qed.

(** ... with the same answer wherever it is called. *)
Lemma both_resting {I O} {jI : Json I} {jO : Json O} {lI : JsonLaws I} {lO : JsonLaws O}
    (field : CmpCli → MockedFunction I O) set_field input (f : I → run State (option O * option gerror)) s (r : res (option O * option gerror))
    (write : CmpCli → CmpCli) (after : gmap string Instance) :
  is_mock field set_field → resting (field (client s)) →
  (∀ s1, store s1 = store s → f input s1 = (r, set_client (write (client s1)) s1)) →
  (∀ c, Instances c = Instances (client s) → Instances (write c) = after) →
  (∀ c, Vnics (write c) = Vnics c ∧ InsufficientCapacityPools (write c) = InsufficientCapacityPools c) →
  ∃ s', both (invoke field set_field input f) s =
    (match r with
     | Ok (Some o, er) => Ok (o, er)
     | Ok (None, er) => Panic "nil pointer dereference"
     | Err e => Err e
     | Panic why => Panic why
     end, s') ∧ env s' = env s ∧ store s' = (after, Vnics (client s), InsufficientCapacityPools (client s)).
Proof. intros Hm Hr Hf Ha Hk. by destruct (both_resting_at field set_field input f s (λ _, r) write after Hm Hr Hf Ha Hk) as (_ & ?). Qed.

(** A method that only reads. *)
Lemma both_reading {I O} {jI : Json I} {jO : Json O} {lI : JsonLaws I} {lO : JsonLaws O}
    (field : CmpCli → MockedFunction I O) set_field input (f : I → run State (option O * option gerror)) s r :
  is_mock field set_field → resting (field (client s)) → (∀ s1, store s1 = store s → f input s1 = (r, s1)) →
  ∃ s', both (invoke field set_field input f) s =
    (match r with
     | Ok (Some o, er) => Ok (o, er)
     | Ok (None, er) => Panic "nil pointer dereference"
     | Err e => Err e
     | Panic why => Panic why
     end, s') ∧ env s' = env s ∧ store s' = store s.
Proof.
  intros Hm Hr Hf. apply (both_resting field set_field input f s r (λ c, c)); try done.
  intros s1 Hs1. rewrite (Hf s1 Hs1). by destruct s1.
Qed.

Theorem GetInstance_spec id (s : State) :
  resting (GetInstanceBehavior (client s)) →
  ∃ s', env s' = env s ∧ store s' = store s ∧
    GetInstance (Some id) s =
      (Ok match Instances (client s) !! id with
          | Some i => ((i, Some 200%Z), None)
          | None => ((zero_instance, Some 404%Z), Some (ENodeClaimNotFound None))
          end, s').
Proof.
  intros Hr. unfold GetInstance.
  destruct (both_reading GetInstanceBehavior set_get (Some id) get_default s
    (Ok match Instances (client s) !! id with
        | Some i => (Some (i, Some 200%Z), None)
        | None => (Some (zero_instance, Some 404%Z), Some (ENodeClaimNotFound None)) end)) as (s' & Heq & Henv & Hst);
    [apply get_mock|done| |exists s'; split_and!; [done..|rewrite Heq; by destruct (Instances (client s) !! id)]].
  intros s1 Hs1. unfold store in Hs1. injection Hs1 as Hins _ _.
  unfold get_default, get_state, lift, mbind, run_bind. simpl. rewrite Hins. by destruct (Instances (client s) !! id).
Qed.

(** A termination removes the instance, and no other; one of an instance that is not there panics. *)
Theorem TerminateInstance_spec id (s : State) :
  resting (TerminateInstancesBehavior (client s)) →
  ∃ s', env s' = env s ∧
    store s' = (delete id (Instances (client s)), Vnics (client s), InsufficientCapacityPools (client s)) ∧
    TerminateInstance (Some id) s =
      (match Instances (client s) !! id with
       | Some _ => Ok (Some 200%Z, None)
       | None => Panic "nil pointer dereference"
       end, s').
Proof.
  intros Hr. unfold TerminateInstance.
  destruct (both_resting TerminateInstancesBehavior set_terminate (Some id) terminate_default s
    (Ok match Instances (client s) !! id with Some _ => (Some (Some 200%Z), None) | None => (None, None) end)
    (λ c, match Instances (client s) !! id with Some _ => set_Instances (delete id (Instances c)) c | None => c end)
    (delete id (Instances (client s)))) as (s' & Heq & Henv & Hst); [apply terminate_mock|done|..].
  - intros s1 Hs1. unfold store in Hs1. injection Hs1 as Hins _ _.
    unfold terminate_default, get_state, lift, mbind, run_bind. simpl. rewrite Hins.
    destruct (Instances (client s) !! id); [simpl; by rewrite Hins|]. by destruct s1.
  - intros c Hc. destruct (Instances (client s) !! id) eqn:Hi; [destruct c; simpl in *; by rewrite Hc|].
    by rewrite Hc, delete_id.
  - intros c. destruct (Instances (client s) !! id); by destruct c.
  - exists s'. split_and!; [done..|]. rewrite Heq. by destruct (Instances (client s) !! id).
Qed.

(** The instances in some order, on one page. *)
Theorem ListInstances_spec request (s : State) :
  resting (ListInstanceBehavior (client s)) →
  ∃ s' l, env s' = env s ∧ store s' = store s ∧ ListInstances request s = (Ok ((l, None), None), s') ∧
    l ≡ₚ (map_to_list (Instances (client s))).*2.
Proof.
  intros Hr. unfold ListInstances.
  destruct (both_resting_at ListInstanceBehavior set_list request list_default s
    (λ s1, Ok (Some (map_values s1 (Instances (client s)), None), None)) (λ c, c) (Instances (client s)))
    as (s1 & s' & Heq & Henv & Hst); [apply list_mock|done| |done..|].
  - intros s1 Hs1. unfold store in Hs1. injection Hs1 as Hins _ _.
    unfold list_default, get_state, mbind, run_bind. simpl. rewrite Hins. by destruct s1.
  - exists s', (map_values s1 (Instances (client s))). split_and!; try done. unfold map_values. by rewrite range_map_perm.
Qed.

Lemma foldl_insert_lookup (l : list (string * string)) (m : gmap string string) k :
  NoDup l.*1 → foldl (λ m '(k, v), <[k := v]> m) m l !! k = match list_to_map (M := gmap string string) l !! k with Some v => Some v | None => m !! k end.
Proof.
  revert m. induction l as [|[k' v] l IH]; intros m Hnd; simpl; [by rewrite lookup_empty|].
  apply NoDup_cons in Hnd as [Hk' Hnd]. rewrite (IH _ Hnd). destruct (decide (k' = k)) as [->|Hne].
  - rewrite lookup_insert_eq. replace (list_to_map l !! k) with (@None string); [by rewrite lookup_insert_eq|].
    symmetry. by apply not_elem_of_list_to_map_1.
  - by rewrite !lookup_insert_ne.
Qed.

(** The tags of the request are added to those the instance has: a tag that is not in the request
    stays. *)
Lemma with_tags_lookup tags i k :
  Inst_FreeformTags (with_tags tags i) !! k = match tags !! k with Some v => Some v | None => Inst_FreeformTags i !! k end.
Proof.
  unfold with_tags. simpl. rewrite foldl_insert_lookup by apply range_map_NoDup.
  replace (list_to_map (range_map "tags" tags) !! k) with (tags !! k); [done|].
  destruct (tags !! k) as [v|] eqn:Hk; symmetry.
  - apply elem_of_list_to_map_1; [apply range_map_NoDup|by apply range_map_lookup].
  - destruct (list_to_map (range_map "tags" tags) !! k) as [v|] eqn:Hl; [|done].
    apply elem_of_list_to_map_2, range_map_lookup in Hl. congruence.
Qed.

Theorem UpdateInstance_spec id tags (s : State) :
  resting (UpdateInstanceBehavior (client s)) →
  (∀ i, Instances (client s) !! id = Some i → Inst_Id i = Some id) →
  ∃ s', env s' = env s ∧
    match Instances (client s) !! id with
    | None => UpdateInstance (Some id, tags) s = (Ok ((Some 404%Z, zero_instance), None), s') ∧ store s' = store s
    | Some i =>
        UpdateInstance (Some id, tags) s = (Ok ((Some 200%Z, with_tags tags i), None), s') ∧
        store s' = (<[id := with_tags tags i]> (Instances (client s)), Vnics (client s), InsufficientCapacityPools (client s))
    end.
Proof.
  intros Hr Hid. unfold UpdateInstance. destruct (Instances (client s) !! id) as [i|] eqn:Hi.
  - destruct (both_resting UpdateInstanceBehavior set_update (Some id, tags) update_default s
      (Ok (Some (Some 200%Z, with_tags tags i), None))
      (λ c, set_Instances (<[id := with_tags tags i]> (<[id := with_tags tags i]> (Instances c))) c)
      (<[id := with_tags tags i]> (Instances (client s)))) as (s' & Heq & Henv & Hst); [apply update_mock|done|..].
    + intros s1 Hs1. unfold store in Hs1. injection Hs1 as Hins _ _.
      unfold update_default, get_state, update_client, mbind, run_bind. simpl. rewrite Hins, Hi. simpl.
      rewrite (Hid i eq_refl), <- Hins. by destruct s1 as [[] ?].
    + intros c Hc. destruct c. simpl in *. by rewrite Hc, insert_insert_eq.
    + intros c. by destruct c.
    + by exists s'.
  - destruct (both_reading UpdateInstanceBehavior set_update (Some id, tags) update_default s
      (Ok (Some (Some 404%Z, zero_instance), None))) as (s' & Heq & Henv & Hst); [apply update_mock|done| |by exists s'].
    intros s1 Hs1. unfold store in Hs1. injection Hs1 as Hins _ _.
    unfold update_default, get_state, mbind, run_bind. simpl. by rewrite Hins, Hi.
Qed.

Theorem ListVnicAttachments_spec id (s : State) :
  resting (GetVnicAttachmentBehavior (client s)) →
  ∃ s', env s' = env s ∧ store s' = store s ∧
    ListVnicAttachments (Some id) s =
      (Ok match Vnics (client s) !! id with
          | Some l => ((Some 200%Z, l), None)
          | None => ((Some 404%Z, []), Some (EText "vnic not found"))
          end, s').
Proof.
  intros Hr. unfold ListVnicAttachments.
  destruct (both_reading GetVnicAttachmentBehavior set_attachment (Some id) attachments_default s
    (Ok match Vnics (client s) !! id with
        | Some l => (Some (Some 200%Z, l), None)
        | None => (Some (Some 404%Z, []), Some (EText "vnic not found")) end)) as (s' & Heq & Henv & Hst);
    [apply attachment_mock|done| |exists s'; split_and!; [done..|rewrite Heq; by destruct (Vnics (client s) !! id)]].
  intros s1 Hs1. unfold store in Hs1. injection Hs1 as _ Hvn _.
  unfold attachments_default, get_state, lift, mbind, run_bind. simpl. rewrite Hvn. by destruct (Vnics (client s) !! id).
Qed.
End CmpProperties.

(** ** Every operation, whatever is set

    The instances are stored under their own ids. *)

Definition own_ids (c : CmpCli) : Prop := ∀ k i, Instances c !! k = Some i → Inst_Id i = Some k.

Lemma own_ids_new : own_ids NewCmpCli.
Proof. intros k i. simpl. by rewrite lookup_empty. Qed.

Section CmpInvariant.
Context {E : Type} `{Clock E} `{entropy : Entropy E} {order : MapOrder} {json : CmpJson}.

Notation State := (Fake CmpCli E).
Notation Own := (λ s : State, own_ids (client s)).

(** A property of the client that the assignments a method makes preserve. *)
Section Kept.
Variable P : CmpCli → Prop.
Notation Own := (λ s : State, P (client s)).

Lemma keeps_draw {A} (d : E → A * E) : keeps Own (draw d).
Proof. intros s Hs. unfold draw, on_env, zoom. by destruct (d (env s)). Qed.

Lemma keeps_update_client f : (∀ c, P c → P (f c)) → keeps Own (update_client f).
Proof. intros Hf s Hs. by apply Hf. Qed.

Lemma keeps_on_mock {I O A} (field : CmpCli → MockedFunction I O) set_field (m : run (MockedFunction I O) A) :
  (∀ m c, P c → P (set_field m c)) →
  keeps Own (on_mock (λ s, field (client s)) (λ m s, set_client (set_field m (client s)) s) m).
Proof. intros Hm s Hs. unfold on_mock, zoom. destruct (m (field (client s))) as [r m']. by apply Hm. Qed.

Lemma keeps_invoke {I O} {jI : Json I} {jO : Json O} (field : CmpCli → MockedFunction I O) set_field input
    (f : I → run State (option O * option gerror)) :
  (∀ m c, P c → P (set_field m c)) → (∀ i, keeps Own (f i)) → keeps Own (invoke field set_field input f).
Proof.
  intros Hm Hf. pose proof (λ A m, keeps_on_mock (A := A) field set_field m Hm). unfold invoke, Invoke. keeping.
Qed.

Lemma keeps_both {A} (m : run State (option A * option gerror)) : keeps Own m → keeps Own (both m).
Proof. intros Hm. unfold both. keeping. Qed.

(** The functions behind the mocks. *)
Lemma keeps_launch_default req :
  (∀ k i c, Inst_Id i = Some k → P c → P (set_Instances (<[k := i]> (Instances c)) c)) →
  (∀ v c, P c → P (set_Vnics v c)) → keeps Own (launch_default req).
Proof.
  intros Hi Hv. apply keeps_read. intros c. apply keeps_bind; [apply keeps_lift|]. intros [|]; [keeping|].
  apply keeps_bind; [apply keeps_draw|]. intros id. apply keeps_read. intros s1. cbv zeta.
  apply keeps_bind; [by apply keeps_update_client; intros c1 Hc1; apply Hi|]. intros _.
  apply keeps_bind; [apply keeps_draw|]. intros a. apply keeps_bind; [apply keeps_lift|]. intros sn.
  apply keeps_bind; [apply keeps_lift|]. intros vn.
  apply keeps_bind; [by apply keeps_update_client; intros c1 Hc1; apply Hv|keeping].
Qed.
Lemma keeps_terminate_default id :
  (∀ k c, P c → P (set_Instances (delete k (Instances c)) c)) → keeps Own (terminate_default id).
Proof.
  intros Hd. apply keeps_bind; [apply keeps_lift|]. intros k. apply keeps_read. intros c.
  destruct (Instances (client c) !! k); [|keeping]. apply keeps_bind; [|keeping]. by apply keeps_update_client, Hd.
Qed.
Lemma keeps_get_default id : keeps Own (get_default id).
Proof. apply keeps_bind; [apply keeps_lift|]. intros k. apply keeps_read. intros c. keeping. Qed.
Lemma keeps_list_default req : keeps Own (list_default req).
Proof. apply keeps_read. intros c. keeping. Qed.
Lemma keeps_attachments_default id : keeps Own (attachments_default id).
Proof. apply keeps_bind; [apply keeps_lift|]. intros k. apply keeps_read. intros c. keeping. Qed.
Lemma keeps_update_default req : (∀ m c, P c → P (set_Instances m c)) → keeps Own (update_default req).
Proof.
  intros Hi. unfold update_default. apply keeps_read. intros c. destruct (Instances (client c) !! _); [|keeping].
  apply keeps_bind; [by apply (keeps_update_client (λ c, set_Instances _ c)); intros; apply Hi|]. intros _.
  apply keeps_bind; [by apply (keeps_update_client (λ c, set_Instances _ c)); intros; apply Hi|keeping].
Qed.

Lemma compute_keeps_launch req :
  (∀ m c, P c → P (set_launch m c)) →
  (∀ k i c, Inst_Id i = Some k → P c → P (set_Instances (<[k := i]> (Instances c)) c)) →
  (∀ v c, P c → P (set_Vnics v c)) → keeps Own (LaunchInstance req).
Proof.
  intros Hm Hi Hv. apply keeps_bind; [|intros ?; keeping]. apply keeps_invoke; [done|]. intros r.
  by apply keeps_launch_default.
Qed.
End Kept.

(** A launch leaves the other mocks alone. *)
Lemma launch_keeps_list req : keeps (λ s : State, resting (ListInstanceBehavior (client s))) (LaunchInstance req).
Proof. apply (compute_keeps_launch (λ c, resting (ListInstanceBehavior c))); intros; by destruct c. Qed.

Lemma own_ids_set c m :
  own_ids (set_Instances m c) ↔ ∀ k i, m !! k = Some i → Inst_Id i = Some k.
Proof. unfold own_ids. by destruct c. Qed.

Lemma own_ids_insert k i c : Inst_Id i = Some k → own_ids c → own_ids (set_Instances (<[k := i]> (Instances c)) c).
Proof. intros Hi Hc. apply own_ids_set. intros k' i'. intros [[<- <-]|[_ Hk]]%lookup_insert_Some; [done|by apply Hc]. Qed.

Lemma own_ids_same c c' : Instances c' = Instances c → own_ids c → own_ids c'.
Proof. unfold own_ids. by intros ->. Qed.

Lemma own_ids_mock {I O} (field : CmpCli → MockedFunction I O) set_field m c :
  is_mock field set_field → own_ids c → own_ids (set_field m c).
Proof. intros Hm. apply own_ids_same, (mock_instances _ _ Hm). Qed.

Lemma keeps_update_instance request : keeps Own (update_default request).
Proof.
  destruct request as [id tags]. intros s Hs. unfold update_default, get_state, mbind, run_bind. simpl.
  destruct (Instances (client s) !! from_ptr "" id) as [raw|] eqn:Hi; [|done]. simpl.
  pose proof (Hs _ _ Hi) as Hraw. rewrite Hraw. simpl.
  apply own_ids_insert; [done|]. by apply own_ids_insert.
Qed.

Ltac kept mock :=
  apply (keeps_both own_ids), (keeps_invoke own_ids); [by intros; eapply own_ids_mock; [apply mock|]|intros ?].

(** No method stores an instance under the id of another. *)
Theorem compute_keeps_ids :
  (∀ req, keeps Own (LaunchInstance req)) ∧ (∀ id, keeps Own (TerminateInstance id)) ∧
  (∀ id, keeps Own (GetInstance id)) ∧ (∀ req, keeps Own (ListInstances req)) ∧
  (∀ req, keeps Own (UpdateInstance req)) ∧ (∀ id, keeps Own (ListVnicAttachments id)) ∧
  (∀ c n, keeps Own (ListImages c n)) ∧ (∀ id, keeps Own (GetImage id)) ∧ keeps Own ListShapes.
Proof.
  split_and!; [intros x..|].
  - apply (compute_keeps_launch own_ids); [by intros; eapply own_ids_mock; [apply launch_mock|]|apply own_ids_insert|].
    intros v c. apply own_ids_same. by destruct c.
  - kept terminate_mock. apply (keeps_terminate_default own_ids).
    intros k c Hc. apply own_ids_set. intros k' j [_ Hk']%lookup_delete_Some. by apply Hc.
  - kept get_mock. apply (keeps_get_default own_ids).
  - kept list_mock. apply (keeps_list_default own_ids).
  - kept update_mock. apply keeps_update_instance.
  - kept attachment_mock. apply (keeps_attachments_default own_ids).
  - intros n. apply keeps_read. intros c. apply keeps_bind; [apply keeps_lift|]. intros calls.
    apply keeps_bind; [by apply (keeps_update_client own_ids); intros c1; apply own_ids_same; destruct c1|].
    intros _. pose proof (keeps_draw own_ids (Alphanumeric 10)). keeping.
  - apply keeps_read. intros c. keeping.
  - apply keeps_read. intros c. cbv zeta. keeping.
Qed.
End CmpInvariant.
