(* ===== verification/Fixtures.v ===== *)
(** * The options and the node class of the tests ([pkg/test/options.go], [nodeclass.go])

    Both are a value with defaults and the overrides of the test.  [mergo.Merge]
    with [mergo.WithOverride], and the metadata karpenter's test package
    completes, are arguments. *)

From stdpp Require Import base list strings gmap.
From Stdlib Require Import ZArith SpecFloat Lia.
From S2P Require Import Prelude GoStrings GoFloat Api Options KubeModel.

Local Open Scope string_scope.
Local Open Scope list_scope.

(** Every override is merged into the value, in order; a merge that fails panics. *)
Definition merge_all {A} (mergo_Merge : A → A → res A) (initial : A) (overrides : list A) : res A :=
  fold_res (λ opts override,
    match mergo_Merge opts override with
    | Err _ => Panic "Failed to merge settings"
    | r => r
    end) initial overrides.

(** ** [Options] *)

Record OptionsFields := {
  Fields_ClusterName : option string;
  Fields_ClusterEndpoint : option string;
  Fields_ClusterCABundle : option string;
  Fields_BootStrapToken : option string;
  Fields_CompartmentId : option string;
  Fields_VMMemoryOverheadPercent : option f64;
  Fields_FlexCpuMemRatios : option string;
  Fields_FlexCpuConstrainList : option string;
  Fields_AvailableDomains : list string;
  Fields_TagNamespace : option string;
  Fields_PreemptibleShapes : option string;
  Fields_PreemptibleExcludeShapes : option string
}.

Definition no_fields : OptionsFields := {|
  Fields_ClusterName := None; Fields_ClusterEndpoint := None; Fields_ClusterCABundle := None;
  Fields_BootStrapToken := None; Fields_CompartmentId := None; Fields_VMMemoryOverheadPercent := None;
  Fields_FlexCpuMemRatios := None; Fields_FlexCpuConstrainList := None; Fields_AvailableDomains := [];
  Fields_TagNamespace := None; Fields_PreemptibleShapes := None; Fields_PreemptibleExcludeShapes := None
|}.

Definition options_of (opts : OptionsFields) : Options := {|
  ClusterCABundle := from_ptr "" (Fields_ClusterCABundle opts);
  ClusterName := from_ptr "test-cluster" (Fields_ClusterName opts);
  ClusterEndpoint := from_ptr "https://test-cluster" (Fields_ClusterEndpoint opts);
  ClusterDns := "";
  BootStrapToken := from_ptr "fake_token" (Fields_BootStrapToken opts);
  CompartmentId := from_ptr "fake_compartment_id" (Fields_CompartmentId opts);
  VMMemoryOverheadPercent := from_ptr (f64_of_decimal 75 3) (Fields_VMMemoryOverheadPercent opts);
  FlexCpuMemRatios := from_ptr "4" (Fields_FlexCpuMemRatios opts);
  FlexCpuConstrainList := from_ptr "2,4,8,16,32,48,64,96,128" (Fields_FlexCpuConstrainList opts);
  TagNamespace := from_ptr "tag_namespace" (Fields_TagNamespace opts);
  AvailableDomains := Fields_AvailableDomains opts;
  OciAuthMethods := ""; PriceEndpoint := ""; PriceSyncPeriod := 0; UseLocalPriceList := false;
  PreemptibleShapes := from_ptr "VM.Standard3.Flex,VM.Standard.E2" (Fields_PreemptibleShapes opts);
  PreemptibleExcludeShapes := from_ptr "VM.Standard.E2.1.Micro" (Fields_PreemptibleExcludeShapes opts)
|}.

Definition test_Options (mergo_Merge : OptionsFields → OptionsFields → res OptionsFields) (overrides : list OptionsFields)
  : res Options :=
  opts ← merge_all mergo_Merge no_fields overrides;
  Ok (options_of opts).

(** The options of the tests pass the validation of the program, unless a test overrides the
    endpoint, the overhead or the name with what the program refuses. *)
Theorem test_Options_valid url_Parse (opts : OptionsFields) :
  url_Parse "https://test-cluster" = Some (true, "test-cluster") →
  (∀ e, Fields_ClusterEndpoint opts = Some e → e = "" ∨ ∃ h, url_Parse e = Some (true, h) ∧ h ≠ "") →
  (∀ n, Fields_ClusterName opts = Some n → n ≠ "") →
  Fields_VMMemoryOverheadPercent opts = None →
  Validate url_Parse (options_of opts) = None.
Proof.
  intros Hdefault He Hn Hv. unfold Validate. rewrite multierr_Combine_None, !Forall_cons. split_and!; [| | |done].
  - unfold validateEndpoint, options_of. cbn [ClusterEndpoint]. destruct (Fields_ClusterEndpoint opts) as [e|].
    + destruct (He e eq_refl) as [->|(h & Hh & Hne)]; [done|]. simpl. rewrite Hh. simpl.
      destruct (String.eqb_spec e ""); [done|]. by destruct (String.eqb_spec h "").
    + simpl. by rewrite Hdefault.
  - unfold validateVMMemoryOverheadPercent, options_of. cbn [VMMemoryOverheadPercent]. rewrite Hv. by vm_compute.
  - unfold validateRequiredFields, options_of. cbn [ClusterName]. destruct (Fields_ClusterName opts) as [n|]; [|done].
    simpl. specialize (Hn n eq_refl). by destruct (String.eqb_spec n "").
Qed.

(** ** [OciNodeClass] *)

Definition default_class : OciNodeClass := {|
  NC_Meta := {| Meta_Name := "test"; Labels := ∅; Annotations := ∅; Finalizers := []; DeletionTimestamp := None |};
  Spec := {|
    VcnId := "vcn_1"; ImageSelector := [];
    SubnetSelector := [{| SST_Id := ""; SST_Name := "private-1" |}];
    SecurityGroupSelector := [{| SGT_Id := ""; SGT_Name := "securityGroup-test1" |};
                              {| SGT_Id := ""; SGT_Name := "securityGroup-test2" |}];
    UserData := Some "#!/bin/bash"; PreInstallScript := None; MetaData := ∅;
    ImageFamily := Ubuntu2204ImageFamily; Tags := ∅;
    DefinedTags := {["tag_namespace" := {["test_key" := "test_val"]}]}; FreeFormTags := ∅; Kubelet := None;
    NodeClass_BootConfig := Some {| BootVolumeSizeInGBs := 100; BootVolumeVpusPerGB := 10 |};
    NodeClass_LaunchOptions := None; BlockDevices := [{| SizeInGBs := 100; VpusPerGB := 20 |}]; AgentList := [] |};
  Status := {| Status_Subnets := []; Status_Images := []; Status_SecurityGroups := []; Status_Conditions := [] |}
|}.

(** An image of the status for an architecture, with or without a GPU. *)
Definition default_image (id arch : string) (gpu : NodeSelectorOperator) : StatusImage := {|
  SI_Id := id; SI_Name := ""; SI_CompartmentId := "";
  SI_Requirements := [{| NSR_Key := LabelArchStable; NSR_Operator := OpIn; NSR_Values := [arch] |};
                      {| NSR_Key := LabelInstanceGPU; NSR_Operator := gpu; NSR_Values := [] |}]
|}.
Definition default_images : list StatusImage :=
  [ default_image "ocid1.image.amd64" "amd64" OpDoesNotExist; default_image "ocid1.image.gpu" "amd64" OpExists;
    default_image "ocid1.image.arm64" "arm64" OpDoesNotExist ].

(** Without a selector of images the class gets one, and three images in its status whatever the
    overrides had there. *)
Definition with_images (nodeClass : OciNodeClass) : OciNodeClass :=
  match ImageSelector (Spec nodeClass) with
  | _ :: _ => nodeClass
  | [] => {|
      NC_Meta := NC_Meta nodeClass;
      Spec := {|
        VcnId := VcnId (Spec nodeClass);
        ImageSelector := [{| IST_Id := ""; IST_Name := "ubuntu"; IST_CompartmentId := "ocid1.compartment.oc1..aaaaaaaa" |}];
        SubnetSelector := SubnetSelector (Spec nodeClass); SecurityGroupSelector := SecurityGroupSelector (Spec nodeClass);
        UserData := UserData (Spec nodeClass); PreInstallScript := PreInstallScript (Spec nodeClass);
        MetaData := MetaData (Spec nodeClass); ImageFamily := ImageFamily (Spec nodeClass); Tags := Tags (Spec nodeClass);
        DefinedTags := DefinedTags (Spec nodeClass); FreeFormTags := FreeFormTags (Spec nodeClass);
        Kubelet := Kubelet (Spec nodeClass); NodeClass_BootConfig := NodeClass_BootConfig (Spec nodeClass);
        NodeClass_LaunchOptions := NodeClass_LaunchOptions (Spec nodeClass); BlockDevices := BlockDevices (Spec nodeClass);
        AgentList := AgentList (Spec nodeClass) |};
      Status := {| Status_Subnets := Status_Subnets (Status nodeClass); Status_Images := default_images;
                   Status_SecurityGroups := Status_SecurityGroups (Status nodeClass);
                   Status_Conditions := Status_Conditions (Status nodeClass) |}
    |}
  end.

Definition test_OciNodeClass (mergo_Merge : OciNodeClass → OciNodeClass → res OciNodeClass)
    (test_ObjectMeta : ObjectMeta → ObjectMeta) (overrides : list OciNodeClass) : res OciNodeClass :=
  options ← merge_all mergo_Merge default_class overrides;
  let options := with_images options in
  Ok {| NC_Meta := test_ObjectMeta (NC_Meta options); Spec := Spec options; Status := Status options |}.

(** Every class of the tests has a selector of images, and the images of its status are given
    with the selector or are the three. *)
Theorem test_OciNodeClass_images mergo_Merge test_ObjectMeta overrides c :
  test_OciNodeClass mergo_Merge test_ObjectMeta overrides = Ok c →
  ImageSelector (Spec c) ≠ [] ∧
  ∃ merged, merge_all mergo_Merge default_class overrides = Ok merged ∧
    Status_Images (Status c) =
      match ImageSelector (Spec merged) with [] => default_images | _ => Status_Images (Status merged) end.
Proof.
  intros (merged & Hm & Hc)%bind_Ok. injection Hc as <-. cbn [Spec Status]. unfold with_images.
  destruct (ImageSelector (Spec merged)) as [|sel sels] eqn:Hs; (split; [simpl; congruence|]); exists merged; by rewrite Hs.
Qed.

(** The value the index on the class of a claim has. *)
Definition OciNodeClassFieldIndexer {Q} (nc : NodeClaim Q) : list string :=
  match Claim_NodeClassRef nc with
  | None => [""]
  | Some name => [name]
  end.
