(* ===== verification/FakeEnvironment.v ===== *)
(** * The environment of the tests ([pkg/test/environment.go]), and the providers on it

    The two fake clients in one world, the caches of the providers, and what
    the providers do on the fakes: what a test that uses them can see. *)

From stdpp Require Import base list strings gmap.
From Stdlib Require Import ZArith SpecFloat Lia.
From S2P Require Import Prelude GoStrings GoFloat OciModel Api Options Cache UnavailableOfferings Frame Sched.
From S2P Require Import Paging KubeModel ImageFamily Mock FakeNetwork FakeCompute.
From S2P Require Pricing Instance.

Local Open Scope string_scope.
Local Open Scope list_scope.

(** ** The world: both clients, and a clock with random texts *)

Record FakeCloud (E : Type) := { cmpCli : CmpCli; vcnCli : VcnCli; around : E }.
Arguments cmpCli {E} _.
Arguments vcnCli {E} _.
Arguments around {E} _.
Arguments Build_FakeCloud {E} _ _ _.

Section World.
Context {E : Type} `{Clock E} `{Entropy E} {order : MapOrder} {cjson : CmpJson} {vjson : VcnJson}.
Variable through : string → StringPtr.
Notation World := (FakeCloud E).

Definition cmp_of (w : World) : Fake CmpCli E := Build_Fake (cmpCli w) (around w).
Definition set_cmp (f : Fake CmpCli E) (w : World) : World := Build_FakeCloud (client f) (vcnCli w) (env f).
Definition vcn_of (w : World) : Fake VcnCli E := Build_Fake (vcnCli w) (around w).
Definition set_vcn (f : Fake VcnCli E) (w : World) : World := Build_FakeCloud (cmpCli w) (client f) (env f).
Definition on_cmp {A} (m : run (Fake CmpCli E) A) : run World A := zoom cmp_of set_cmp m.
Definition on_vcn {A} (m : run (Fake VcnCli E) A) : run World A := zoom vcn_of set_vcn m.

#[export] Instance cloud_clock : Clock World := λ w, clock_now (around w).

#[export] Instance cloud_compute : ComputeClient World := {
  client_GetImage id := on_cmp (client_GetImage id);
  client_ListImages c n := on_cmp (client_ListImages c n);
  client_LaunchInstance req := on_cmp (client_LaunchInstance req);
  client_TerminateInstance id := on_cmp (client_TerminateInstance id);
  client_GetInstance id := on_cmp (client_GetInstance id);
  client_ListInstances c p := on_cmp (client_ListInstances c p);
  client_ListShapes c d p := on_cmp (client_ListShapes c d p);
  client_ListVnicAttachments c id := on_cmp (client_ListVnicAttachments c id);
  client_UpdateInstance id tags := on_cmp (client_UpdateInstance id tags)
}.

#[local] Existing Instance fake_network.
#[export] Instance cloud_network : VirtualNetworkClient World :=
  let net := fake_network through in {|
  client_ListSubnets c v n := on_vcn (client_ListSubnets c v n);
  client_GetSubnet id := on_vcn (client_GetSubnet id);
  client_ListNetworkSecurityGroups c v n := on_vcn (client_ListNetworkSecurityGroups c v n);
  client_GetNetworkSecurityGroup id := on_vcn (client_GetNetworkSecurityGroup id);
  client_GetVnic id := on_vcn (client_GetVnic id);
  client_GetSubnetCidrUtilization id := on_vcn (client_GetSubnetCidrUtilization id);
  client_CreateNetworkSecurityGroup r := on_vcn (client_CreateNetworkSecurityGroup r);
  client_DeleteNetworkSecurityGroup id := on_vcn (client_DeleteNetworkSecurityGroup id);
  client_CreateSubnet r := on_vcn (client_CreateSubnet r);
  client_DeleteSubnet id := on_vcn (client_DeleteSubnet id)
|}.
End World.

(** ** The environment *)

Record Environment (E IC TC SC GC UC : Type) := {
  cloud : FakeCloud E;
  AmiCache : IC;
  InstanceTypeCache : TC;
  SubnetCache : SC;
  SecurityGroupCache : GC;
  UnavailableOfferingsCache : UnavailableOfferings UC;
  (** what the price and the launch template providers hold *)
  Prices : Pricing.DefaultProvider;
  Templates : TemplateProvider
}.
Arguments cloud {E IC TC SC GC UC} _.
Arguments AmiCache {E IC TC SC GC UC} _.
Arguments InstanceTypeCache {E IC TC SC GC UC} _.
Arguments SubnetCache {E IC TC SC GC UC} _.
Arguments SecurityGroupCache {E IC TC SC GC UC} _.
Arguments UnavailableOfferingsCache {E IC TC SC GC UC} _.
Arguments Prices {E IC TC SC GC UC} _.
Arguments Templates {E IC TC SC GC UC} _.

Section Environment.
Context {E VI VT IC TC SC GC UC : Type} `{imageCache : TTLCache VI IC} `{typeCache : TTLCache VT TC}
  `{subnetCache : TTLCache (list Subnet) SC} `{groupCache : TTLCache (list NetworkSecurityGroup) GC}
  `{offeringCache : TTLCache unit UC}.
Notation Environment := (Environment E IC TC SC GC UC).

(** [embedded] is the decoded price list of the program. *)
Definition NewEnvironment (embedded : option Pricing.PriceCatalog) (e : E) : Environment := {|
  cloud := Build_FakeCloud NewCmpCli NewVcnCli e;
  AmiCache := cache_new (V := VI) DefaultTTL;
  InstanceTypeCache := cache_new (V := VT) DefaultTTL;
  SubnetCache := cache_new (V := list Subnet) DefaultTTL;
  SecurityGroupCache := cache_new (V := list NetworkSecurityGroup) DefaultTTL;
  UnavailableOfferingsCache := NewUnavailableOfferings;
  Prices := Pricing.NewDefaultProvider embedded "https://apexapps.oracle.com/pls/apex/cetools/api/v1/products/";
  Templates := {| TP_CABundle := Some "ca-bundle"; TP_ClusterEndpoint := "https://test-cluster"; TP_BootstrapToken := "fake_token" |}
|}.

Definition Environment_Reset (s : Environment) : Environment := {|
  cloud := Build_FakeCloud (FakeCompute.Reset (cmpCli (cloud s))) (FakeNetwork.Reset (vcnCli (cloud s))) (around (cloud s));
  AmiCache := cache_Flush (V := VI) (AmiCache s);
  InstanceTypeCache := cache_Flush (V := VT) (InstanceTypeCache s);
  SubnetCache := cache_Flush (V := list Subnet) (SubnetCache s);
  SecurityGroupCache := cache_Flush (V := list NetworkSecurityGroup) (SecurityGroupCache s);
  UnavailableOfferingsCache := Flush (UnavailableOfferingsCache s);
  Prices := Prices s;
  Templates := Templates s
|}.

(** The loop over the gathered metrics: it runs when gathering them failed. *)
Definition reset_gathered {M : Type} (metric_Reset : M → M) (mfs : list (list (option M))) (err : option gerror)
  : list (list (option M)) :=
  match err with
  | None => mfs
  | Some _ => map (map (option_map metric_Reset)) mfs
  end.

(** What of the clients a reset leaves as a test set it. *)
Definition survivors (w : FakeCloud E) : Prop :=
  (value (GetImagesOutput (cmpCli w)) = None ∧ GetVnicAttachmentBehavior (cmpCli w) = new_mock ∧
   UpdateInstanceBehavior (cmpCli w) = new_mock ∧ Vnics (cmpCli w) = ∅) ∧
  (value (ListSecurityGroupOutput (behavior (vcnCli w))) = None ∧ value (GetSubnetOutput (behavior (vcnCli w))) = None ∧
   value (GetVnicOutput (behavior (vcnCli w))) = None ∧ value (GetSecurityGroupResponse (behavior (vcnCli w))) = None ∧
   value (GetSubnetCidrUtilizationOutput (behavior (vcnCli w))) = None).

(** A reset empties every cache and the table of offerings, keeping their lifetimes; the clients
    are new exactly if none of the fields it forgets was set. *)
Theorem Environment_Reset_spec {il : TTLCacheLaws VI IC} {tl : TTLCacheLaws VT TC} {sl : TTLCacheLaws (list Subnet) SC}
    {gl : TTLCacheLaws (list NetworkSecurityGroup) GC} {ol : TTLCacheLaws unit UC} (s : Environment) :
  (cloud (Environment_Reset s) = Build_FakeCloud NewCmpCli NewVcnCli (around (cloud s)) ↔ survivors (cloud s)) ∧
  (∀ now k, cache_Get (V := VI) now k (AmiCache (Environment_Reset s)) = None ∧
     cache_Get (V := VT) now k (InstanceTypeCache (Environment_Reset s)) = None ∧
     cache_Get (V := list Subnet) now k (SubnetCache (Environment_Reset s)) = None ∧
     cache_Get (V := list NetworkSecurityGroup) now k (SecurityGroupCache (Environment_Reset s)) = None) ∧
  (∀ now it zone ct, IsUnavailable now it zone ct (UnavailableOfferingsCache (Environment_Reset s)) = false) ∧
  SeqNum (UnavailableOfferingsCache (Environment_Reset s)) = SeqNum (UnavailableOfferingsCache s).
Proof.
  split_and!.
  - unfold survivors, Environment_Reset. simpl. rewrite <- FakeCompute.compute_Reset_spec, <- FakeNetwork.network_Reset_spec. split.
    + intros Heq. split; [exact (f_equal cmpCli Heq)|exact (f_equal vcnCli Heq)].
    + intros [Hc Hv]. by f_equal.
  - intros now k. unfold Environment_Reset. simpl. split_and!; apply Get_Flush.
  - intros now it zone ct. unfold IsUnavailable, Environment_Reset, Flush. simpl. by rewrite Get_Flush.
  - done.
Qed.
End Environment.

(** ** The providers on the fakes *)

Section Providers.
Context {E SC UC : Type} `{Clock E} `{entropy : Entropy E} {elaws : EntropyLaws E} {order : MapOrder}
  {cjson : CmpJson} {jlaws : CmpJsonLaws} {errlib : ErrorLib} {offeringCache : TTLCache unit UC} {olaws : TTLCacheLaws unit UC}.
Variable opts : Options.
Notation World := (FakeCloud E).

(** The instances the fake holds. *)
Definition held (w : World) : gmap string Instance := Instances (cmpCli w).

Lemma on_cmp_step {A} (m : run (Fake CmpCli E) A) (w : World) r s' :
  m (cmp_of w) = (r, s') → on_cmp m w = (r, set_cmp s' w).
Proof. intros Hm. unfold on_cmp, zoom. by rewrite Hm. Qed.

(** [Instance.List] is the instances the fake holds that have the tag of the cluster, and the
    listing of the fake is one page. *)
Theorem List_on_fake (w : World) fuel :
  resting (ListInstanceBehavior (cmpCli w)) → (1 <= fuel)%nat →
  ∃ l w', Instance.List opts fuel w = (Ok l, w') ∧ held w' = held w ∧
    ∀ i, i ∈ l ↔ Instance.managed opts i = true ∧ ∃ k, held w !! k = Some i.
Proof.
  intros Hr Hf. destruct (ListInstances_spec (CompartmentId opts, "") (cmp_of w) Hr) as (s' & l & _ & Hst & Hl & Hperm).
  assert (page_chain (client_ListInstances (CompartmentId opts)) w "" [l] (set_cmp s' w)) as Hchain.
  { eapply chain_last with (next := None); [|done]. apply on_cmp_step. simpl. unfold or_fail.
    by rewrite (run_bind_step _ _ _ _ _ Hl). }
  eexists _, (set_cmp s' w). split; [by apply (Instance.List_pages opts fuel w _ [l])|]. split.
  - unfold held, set_cmp. simpl. by injection Hst as ->.
  - intros i. simpl. rewrite app_nil_r, list_elem_of_In, List.filter_In, <- list_elem_of_In, Hperm.
    rewrite list_elem_of_fmap. unfold held. split.
    + intros [([k j] & -> & Hj%elem_of_map_to_list) Hm]. split; [done|]. by exists k.
    + intros [Hm (k & Hk)]. split; [|done]. exists (k, i). by rewrite elem_of_map_to_list.
Qed.

(** The fake drops the tags of a launch, so no listing ever shows what was launched on it. *)
Theorem launch_not_listed req (w w1 : World) i fuel :
  resting (LaunchInstanceBehavior (cmpCli w)) → resting (ListInstanceBehavior (cmpCli w)) → own_ids (cmpCli w) →
  (1 <= fuel)%nat →
  client_LaunchInstance req w = (Ok i, w1) →
  ∃ id l w2, Inst_Id i = Some id ∧ held w1 !! id = Some i ∧ Instance.List opts fuel w1 = (Ok l, w2) ∧
    ∀ j, j ∈ l → Inst_Id j ≠ Some id.
Proof.
  intros Hr Hlr Hown Hf Hl. cbn [client_LaunchInstance cloud_compute] in Hl. unfold on_cmp, zoom in Hl.
  destruct (LaunchInstance req (cmp_of w)) as [r s'] eqn:Hrun. cbn [client_LaunchInstance fake_compute] in Hl.
  rewrite Hrun in Hl. injection Hl as -> <-.
  pose proof (LaunchInstance_spec req (cmp_of w) Hr) as (r' & s2 & Hrun' & Hspec). rewrite Hrun in Hrun'.
  injection Hrun' as <- <-. destruct (insufficient _ _ _) as [[]|e|why]; [by destruct Hspec as [? _]| |done|by destruct Hspec as [? _]].
  destruct Hspec as (id & i' & a & [= <-] & Hid & _ & _ & _ & _ & _ & Hdt & _ & Hst & _).
  injection Hst as Hins _ _. exists id.
  assert (resting (ListInstanceBehavior (client s'))) as Hlr'.
  { pose proof (launch_keeps_list req (cmp_of w)) as Hk. rewrite Hrun in Hk. by apply Hk. }
  destruct (List_on_fake (set_cmp s' w) fuel) as (l & w2 & Hlist & _ & Hin); [done|done|].
  exists l, w2. split; [done|]. split; [unfold held; simpl; rewrite Hins; apply lookup_insert_eq|]. split; [done|].
  intros j [Hm (k & Hk)]%Hin Hj. unfold held in Hk. simpl in Hk.
  assert (Inst_Id j = Some k) as Hjk.
  { destruct compute_keeps_ids as [Hkeep _]. specialize (Hkeep req (cmp_of w) Hown). rewrite Hrun in Hkeep. by apply Hkeep. }
  assert (k = id) as -> by congruence. rewrite Hins, lookup_insert_eq in Hk. injection Hk as <-.
  unfold Instance.managed, Instance.karpenter_tag in Hm. by rewrite Hdt in Hm.
Qed.

(** A missing instance is recognised as such on the fake, which makes the error itself; on a
    client that answers with the service's error, [Instance.Get] wraps that error before it looks
    at the status, and the instance is not recognised as missing. *)
Theorem Get_missing (w : World) id :
  resting (GetInstanceBehavior (cmpCli w)) → held w !! id = None →
  (∃ e w', Instance.Get id w = (Err e, w') ∧ IsNodeClaimNotFoundError e = true) ∧
  (∀ {W' : Type} `{ComputeClient W'} (v v' : W') code msg,
     client_GetInstance id v = (Err (EService Instance.StatusNotFound code msg), v') →
     ∃ e, Instance.Get id v = (Err e, v') ∧ IsNodeClaimNotFoundError e = false).
Proof.
  intros Hr Hn. split.
  - destruct (GetInstance_spec id (cmp_of w) Hr) as (s' & _ & _ & Hg).
    unfold held in Hn. change (Instances (client (cmp_of w))) with (Instances (cmpCli w)) in Hg. rewrite Hn in Hg.
    assert (client_GetInstance id w = (Err (ENodeClaimNotFound None), set_cmp s' w)) as Hc.
    { apply on_cmp_step. simpl. unfold or_fail. by rewrite (run_bind_step _ _ _ _ _ Hg). }
    eexists _, _. split; [|shelve]. unfold Instance.Get. rewrite (run_bind_step _ _ _ (inl (ENodeClaimNotFound None)) (set_cmp s' w)); [done|].
    unfold attempt. by rewrite Hc.
    Unshelve. done.
  - intros W' HW v v' code msg Hc. eexists. split; [|shelve]. unfold Instance.Get.
    rewrite (run_bind_step _ _ _ (inl (EService Instance.StatusNotFound code msg)) v'); [done|].
    unfold attempt. by rewrite Hc.
    Unshelve. done.
Qed.

(** [Instance.Delete] on the fake: the instance goes and nothing is returned; a second deletion
    panics, where the service answers 404. *)
Theorem Delete_on_fake (w : World) id :
  resting (TerminateInstancesBehavior (cmpCli w)) →
  ∃ w', held w' = delete id (held w) ∧
    Instance.Delete id w =
      (match held w !! id with Some _ => Ok tt | None => Panic "nil pointer dereference" end, w').
Proof.
  intros Hr. destruct (TerminateInstance_spec id (cmp_of w) Hr) as (s' & _ & Hst & Ht).
  exists (set_cmp s' w). split; [unfold held, set_cmp; simpl; by injection Hst as ->|].
  unfold Instance.Delete. unfold held.
  change (Instances (client (cmp_of w))) with (Instances (cmpCli w)) in Ht.
  apply (on_cmp_step _ w) in Ht. change (on_cmp (TerminateInstance (Some id)) w) with (client_TerminateInstance id w) in Ht.
  unfold mbind, run_bind. rewrite Ht. by destruct (Instances (cmpCli w) !! id).
Qed.

(** [Instance.CreateTags] on the fake adds the tags to those the instance has; of a missing one it
    says so. *)
Theorem CreateTags_on_fake (w : World) id tags :
  resting (UpdateInstanceBehavior (cmpCli w)) → own_ids (cmpCli w) →
  ∃ w', match held w !! id with
        | Some i =>
            Instance.CreateTags id tags w = (Ok tt, w') ∧
            ∃ i', held w' = <[id := i']> (held w) ∧ ∀ k, Inst_FreeformTags i' !! k =
              match tags !! k with Some v => Some v | None => Inst_FreeformTags i !! k end
        | None => ∃ e, Instance.CreateTags id tags w = (Err e, w') ∧ IsNodeClaimNotFoundError e = true ∧ held w' = held w
        end.
Proof.
  intros Hr Hown. destruct (UpdateInstance_spec id tags (cmp_of w) Hr (Hown id)) as (s' & _ & Hu).
  exists (set_cmp s' w). unfold held. change (Instances (client (cmp_of w))) with (Instances (cmpCli w)) in Hu.
  assert (∀ status i er, UpdateInstance (Some id, tags) (cmp_of w) = (Ok ((status, i), er), s') →
    client_UpdateInstance id tags w = (Ok (status, er), set_cmp s' w)) as Hc.
  { intros status i er Hu'. apply on_cmp_step. simpl. by rewrite (run_bind_step _ _ _ _ _ Hu'). }
  unfold Instance.CreateTags. destruct (Instances (cmpCli w) !! id) as [i|]; destruct Hu as [Hu Hst]; apply Hc in Hu.
  - split; [by rewrite (run_bind_step _ _ _ _ _ Hu)|]. exists (with_tags tags i). injection Hst as Hins _ _. split; [done|].
    apply with_tags_lookup.
  - injection Hst as Hins _ _. eexists. split; [by rewrite (run_bind_step _ _ _ _ _ Hu)|]. by split.
Qed.

(** A pool without capacity makes a launch an insufficient capacity error, and the offering is
    avoided from then on: what the tests of the instance provider rely on. *)
Theorem launch_on_full_pool req zone (s : Instance.State World SC UC) :
  resting (LaunchInstanceBehavior (cmpCli (Instance.ip_world s))) →
  insufficient (InsufficientCapacityPools (cmpCli (Instance.ip_world s))) (Launch_Shape req) (Launch_AvailabilityDomain req) = Ok true →
  ∃ s', Instance.launch req zone s =
      (Err (EInsufficientCapacity (EText "InsufficientCapacityError: Out of host capacity")), s') ∧
    held (Instance.ip_world s') = held (Instance.ip_world s) ∧
    IsUnavailable (clock_now (Instance.ip_world s')) (Launch_Shape req) zone CapacityTypeOnDemand (Instance.ip_offerings s') =
      (0 <=? cache_ttl (cache (Instance.ip_offerings s)))%Z.
Proof.
  intros Hr Hfull. destruct (LaunchInstance_spec req (cmp_of (Instance.ip_world s)) Hr) as (r & s1 & Hl & Hspec).
  change (client (cmp_of (Instance.ip_world s))) with (cmpCli (Instance.ip_world s)) in Hspec.
  rewrite Hfull in Hspec. destruct Hspec as (-> & Hst & Henv).
  unfold Instance.launch. eexists. split.
  - apply (on_cmp_step _ (Instance.ip_world s)) in Hl.
    change (on_cmp (LaunchInstance req) (Instance.ip_world s)) with (client_LaunchInstance req (Instance.ip_world s)) in Hl.
    erewrite run_bind_step; [|unfold attempt, Instance.on_world, zoom; rewrite Hl; reflexivity]. reflexivity.
  - simpl. split; [unfold held; simpl; by injection Hst as ->|].
    unfold IsUnavailable. simpl. rewrite Get_Set_eq.
    change (clock_now (set_cmp s1 (Instance.ip_world s))) with (clock_now (env s1)).
    destruct (Z.leb_spec (clock_now (env s1)) (clock_now (env s1) + cache_ttl (cache (Instance.ip_offerings s))));
      destruct (Z.leb_spec 0 (cache_ttl (cache (Instance.ip_offerings s)))); try done; lia.
Qed.
End Providers.
