(* ===== verification/FakeSpec.v ===== *)
(** * What the fake compute client promises

    An abstract cloud: the instances that run and the pools without capacity.
    Each call of the client interface is a step of it with a reply, and the
    fake client of [FakeCompute] refines it over any history of calls, as long
    as the test sets no error and no canned answer. *)

From stdpp Require Import base list strings gmap.
From Stdlib Require Import ZArith Lia.
From S2P Require Import Prelude GoStrings OciModel Cache Frame Mock FakeNetwork FakeCompute.

Local Open Scope string_scope.
Local Open Scope list_scope.

(** ** Calls, replies, and the abstract cloud *)

Inductive call : Type :=
| Launch (req : LaunchInstanceDetails)
| Get (id : string)
| ListAll (compartment page : string)
| Terminate (id : string)
| Tag (id : string) (tags : gmap string string)
| Attachments (compartment id : string).

Inductive reply : Type :=
| Launched (r : res Instance)
| Got (r : res (Instance * option Z))
| Listed (r : res (list Instance * option string))
| Terminated (r : res (option Z * option gerror))
| Tagged (r : res (option Z * option gerror))
| Attached (r : res (list VnicAttachment)).

Record cloud := { running : gmap string Instance; vnics : gmap string (list VnicAttachment); full : list CapacityPool }.

(** The calls as a client of the interface makes them. *)
Definition perform {W} `{ComputeClient W} (c : call) (w : W) : reply * W :=
  match c with
  | Launch req => let '(r, w') := client_LaunchInstance req w in (Launched r, w')
  | Get id => let '(r, w') := client_GetInstance id w in (Got r, w')
  | ListAll compartment page => let '(r, w') := client_ListInstances compartment page w in (Listed r, w')
  | Terminate id => let '(r, w') := client_TerminateInstance id w in (Terminated r, w')
  | Tag id tags => let '(r, w') := client_UpdateInstance id tags w in (Tagged r, w')
  | Attachments compartment id => let '(r, w') := client_ListVnicAttachments compartment id w in (Attached r, w')
  end.

Fixpoint perform_all {W} `{ComputeClient W} (cs : list call) (w : W) : list reply * W :=
  match cs with
  | [] => ([], w)
  | c :: cs' =>
      let '(r, w1) := perform c w in
      let '(rs, w') := perform_all cs' w1 in
      (r :: rs, w')
  end.

(** The instance with more tags: those of [tags], then its own. *)
Definition tagged (tags : gmap string string) (i i' : Instance) : Prop :=
  Inst_Id i' = Inst_Id i ∧ Inst_Shape i' = Inst_Shape i ∧ Inst_AvailabilityDomain i' = Inst_AvailabilityDomain i ∧
  Inst_LifecycleState i' = Inst_LifecycleState i ∧ Inst_DefinedTags i' = Inst_DefinedTags i ∧
  Inst_FreeformTags i' = tags ∪ Inst_FreeformTags i.

(** One call: the state before, the reply, the state after. *)
Inductive spec (c : cloud) : call → reply → cloud → Prop :=
| spec_refused req :
    insufficient (full c) (Launch_Shape req) (Launch_AvailabilityDomain req) = Ok true →
    spec c (Launch req) (Launched (Err (EService 500 "" "Out of host capacity"))) c
| spec_launched req id i a :
    insufficient (full c) (Launch_Shape req) (Launch_AvailabilityDomain req) = Ok false →
    running c !! id = None → Inst_Id i = Some id → Inst_Shape i = Some (Launch_Shape req) →
    Inst_AvailabilityDomain i = Some (Launch_AvailabilityDomain req) → Inst_DefinedTags i = ∅ → VA_InstanceId a = Some id →
    spec c (Launch req) (Launched (Ok i))
      {| running := <[id := i]> (running c); vnics := <[id := [a]]> (vnics c); full := full c |}
| spec_no_domain req why :
    insufficient (full c) (Launch_Shape req) (Launch_AvailabilityDomain req) = Panic why →
    spec c (Launch req) (Launched (Panic why)) c
| spec_got id i :
    running c !! id = Some i → spec c (Get id) (Got (Ok (i, Some 200%Z))) c
| spec_not_found id :
    running c !! id = None → spec c (Get id) (Got (Err (ENodeClaimNotFound None))) c
| spec_listed compartment page l :
    l ≡ₚ (map_to_list (running c)).*2 → spec c (ListAll compartment page) (Listed (Ok (l, None))) c
| spec_terminated id :
    is_Some (running c !! id) →
    spec c (Terminate id) (Terminated (Ok (Some 200%Z, None)))
      {| running := delete id (running c); vnics := vnics c; full := full c |}
| spec_gone id why :
    running c !! id = None → spec c (Terminate id) (Terminated (Panic why)) c
| spec_tagged id tags i i' :
    running c !! id = Some i → tagged tags i i' →
    spec c (Tag id tags) (Tagged (Ok (Some 200%Z, None)))
      {| running := <[id := i']> (running c); vnics := vnics c; full := full c |}
| spec_untagged id tags :
    running c !! id = None → spec c (Tag id tags) (Tagged (Ok (Some 404%Z, None))) c
| spec_attached compartment id l :
    vnics c !! id = Some l → spec c (Attachments compartment id) (Attached (Ok l)) c
| spec_unattached compartment id msg :
    vnics c !! id = None → spec c (Attachments compartment id) (Attached (Err (EText msg))) c.

Inductive spec_all : cloud → list call → list reply → cloud → Prop :=
| spec_nil c : spec_all c [] [] c
| spec_cons c x r c1 xs rs c' : spec c x r c1 → spec_all c1 xs rs c' → spec_all c (x :: xs) (r :: rs) c'.

(** ** The refinement *)

Section Refinement.
Context {E : Type} `{Clock E} `{entropy : Entropy E} {elaws : EntropyLaws E} {order : MapOrder}
  {json : CmpJson} {jlaws : CmpJsonLaws}.
Notation State := (Fake CmpCli E).

Definition abs (s : State) : cloud :=
  {| running := Instances (client s); vnics := Vnics (client s); full := InsufficientCapacityPools (client s) |}.

Lemma abs_store (s s' : State) : store s' = store s → abs s' = abs s.
Proof. unfold store, abs. by intros [= -> -> ->]. Qed.

Lemma store_abs (s : State) i v p : store s = (i, v, p) → abs s = {| running := i; vnics := v; full := p |}.
Proof. unfold store, abs. by intros [= -> -> ->]. Qed.

(** A client without errors and canned answers whose instances are stored under their ids, all of
    them given out. *)
Definition steady (s : State) : Prop :=
  quiet (client s) ∧ own_ids (client s) ∧ ∀ id, is_Some (Instances (client s) !! id) → issued (env s) id.

(** *** What a call keeps *)

(** A mock of a quiet client rests, and a resting one keeps the client quiet. *)
Record quiet_mock {I O} (field : CmpCli → MockedFunction I O) (set_field : MockedFunction I O → CmpCli → CmpCli) : Prop := {
  quiet_is : is_mock field set_field;
  quiet_rests c : quiet c → resting (field c);
  quiet_set m c : resting m → quiet c → quiet (set_field m c)
}.

Lemma launch_quiet : quiet_mock LaunchInstanceBehavior set_launch.
Proof. split; [apply launch_mock|..]; unfold quiet; intros; [|destruct c]; naive_solver. Qed.
Lemma terminate_quiet : quiet_mock TerminateInstancesBehavior set_terminate.
Proof. split; [apply terminate_mock|..]; unfold quiet; intros; [|destruct c]; naive_solver. Qed.
Lemma get_quiet : quiet_mock GetInstanceBehavior set_get.
Proof. split; [apply get_mock|..]; unfold quiet; intros; [|destruct c]; naive_solver. Qed.
Lemma attachment_quiet : quiet_mock GetVnicAttachmentBehavior set_attachment.
Proof. split; [apply attachment_mock|..]; unfold quiet; intros; [|destruct c]; naive_solver. Qed.
Lemma list_quiet : quiet_mock ListInstanceBehavior set_list.
Proof. split; [apply list_mock|..]; unfold quiet; intros; [|destruct c]; naive_solver. Qed.
Lemma update_quiet : quiet_mock UpdateInstanceBehavior set_update.
Proof. split; [apply update_mock|..]; unfold quiet; intros; [|destruct c]; naive_solver. Qed.

Notation Quiet := (λ s : State, quiet (client s)).

Lemma quiet_instances m c : quiet c → quiet (set_Instances m c).
Proof. unfold quiet. by destruct c. Qed.
Lemma quiet_vnics v c : quiet c → quiet (set_Vnics v c).
Proof. unfold quiet. by destruct c. Qed.

Lemma keeps_quiet_invoke {I O} {jI : Json I} {jO : Json O} {lI : JsonLaws I} {lO : JsonLaws O}
    (field : CmpCli → MockedFunction I O) set_field input (f : I → run State (option O * option gerror)) :
  quiet_mock field set_field → (∀ i, keeps Quiet (f i)) → keeps Quiet (invoke field set_field input f).
Proof.
  intros Hq Hf s Hs.
  destruct (invoke_resting field set_field input f s (quiet_is _ _ Hq) (quiet_rests _ _ Hq _ Hs)) as (s1 & _ & _ & (m1 & Hm1 & Hc1) & ->).
  assert (quiet (client s1)) as Hs1 by (rewrite Hc1; by apply (quiet_set _ _ Hq)).
  specialize (Hf input s1 Hs1). destruct (f input s1) as [[[out er]|e|why] s2]; [|done..]. simpl in *.
  apply (quiet_set _ _ Hq); [|done]. by apply resting_counted, (quiet_rests _ _ Hq).
Qed.

Lemma keeps_or_fail {A} P (m : run State (A * option gerror)) : keeps P m → keeps P (or_fail m).
Proof. intros Hm. unfold or_fail. keeping. Qed.

(** Whatever is called, the client stays quiet. *)
Lemma perform_quiet c s : Quiet s → Quiet (perform c s).2.
Proof.
  intros Hs.
  assert (∀ A (m : run State A) (r : res A → reply), keeps Quiet m → Quiet (let '(x, s') := m s in (r x, s')).2) as Hstep.
  { intros A m r Hm. specialize (Hm s Hs). by destruct (m s). }
  destruct c; apply Hstep.
  - apply keeps_bind; [|intros ?; keeping]. apply keeps_quiet_invoke; [apply launch_quiet|]. intros r.
    apply (keeps_launch_default quiet); intros; [by apply quiet_instances|by apply quiet_vnics].
  - apply keeps_or_fail, (keeps_both quiet), keeps_quiet_invoke; [apply get_quiet|]. apply (keeps_get_default quiet).
  - apply keeps_or_fail, (keeps_both quiet), keeps_quiet_invoke; [apply list_quiet|]. apply (keeps_list_default quiet).
  - apply (keeps_both quiet), keeps_quiet_invoke; [apply terminate_quiet|]. intros i.
    apply (keeps_terminate_default quiet). intros. by apply quiet_instances.
  - apply keeps_bind; [|intros [[? ?] ?]; keeping]. apply (keeps_both quiet), keeps_quiet_invoke; [apply update_quiet|]. intros i.
    apply (keeps_update_default quiet). apply quiet_instances.
  - apply keeps_bind; [|intros [? ?]; keeping]. apply keeps_or_fail, (keeps_both quiet), keeps_quiet_invoke; [apply attachment_quiet|].
    apply (keeps_attachments_default quiet).
Qed.

(** *** One call *)

Lemma or_fail_Ok {A} (m : run State (A * option gerror)) s o er s' :
  m s = (Ok (o, er), s') → or_fail m s = (match er with Some e => Err e | None => Ok o end, s').
Proof. intros Hm. unfold or_fail. rewrite (run_bind_step _ _ _ _ _ Hm). by destruct er. Qed.

Lemma steady_same (s s' : State) :
  steady s → quiet (client s') → env s' = env s → store s' = store s → steady s'.
Proof.
  intros (_ & Hown & Hissued) Hq Henv [= Hi _ _]. split; [done|]. unfold own_ids. rewrite Hi, Henv. by split.
Qed.

Lemma tagged_with_tags tags i : tagged tags i (with_tags tags i).
Proof.
  unfold tagged. split_and!; try done. apply map_eq. intros k. rewrite with_tags_lookup, lookup_union.
  by destruct (tags !! k), (Inst_FreeformTags i !! k).
Qed.

Lemma launch_refines req s : steady s →
  let '(r, s') := LaunchInstance req s in
  (quiet (client s') → steady s') ∧ spec (abs s) (Launch req) (Launched r) (abs s').
Proof.
  intros Hs. pose proof Hs as (Hq & Hown & Hissued).
  destruct (LaunchInstance_spec req s) as (r & s' & Hl & Hspec); [apply Hq|]. rewrite Hl.
  destruct (insufficient _ _ _) as [[]|e|why] eqn:Hfull; [..|].
  - destruct Hspec as (-> & Hst & Henv). split; [by intros; eapply steady_same|]. rewrite (abs_store _ _ Hst). by apply spec_refused.
  - destruct Hspec as (id & i & a & -> & Hid & Hnew & Hnow & Hmore & Hshape & Had & Htags & _ & Hst & Ha & _).
    pose proof (store_abs _ _ _ _ Hst) as ->. split.
    + intros Hq'. split; [done|]. injection Hst as Hi _ _. unfold own_ids. rewrite Hi. split.
      * intros k j [[<- <-]|[_ Hj]]%lookup_insert_Some; [done|by apply Hown].
      * intros k. destruct (decide (id = k)) as [<-|Hne]; [done|]. rewrite lookup_insert_ne by done. intros Hk. by apply Hmore, Hissued.
    + eapply spec_launched; try done. destruct (running (abs s) !! id) eqn:Hr; [|done]. destruct Hnew. by apply Hissued.
  - done.
  - destruct Hspec as (-> & Hst & Henv). split; [by intros; eapply steady_same|]. rewrite (abs_store _ _ Hst). by apply spec_no_domain.
Qed.

Lemma terminate_refines id s : steady s →
  let '(r, s') := TerminateInstance (Some id) s in
  (quiet (client s') → steady s') ∧ spec (abs s) (Terminate id) (Terminated r) (abs s').
Proof.
  intros (Hq & Hown & Hissued).
  destruct (TerminateInstance_spec id s) as (s' & Henv & Hst & Ht); [apply Hq|]. rewrite Ht. split.
  - intros Hq'. split; [done|]. injection Hst as Hi _ _. unfold own_ids. rewrite Hi, Henv. split.
    + intros k j [_ Hj]%lookup_delete_Some. by apply Hown.
    + intros k [j [_ Hj]%lookup_delete_Some]. by apply Hissued.
  - rewrite (store_abs _ _ _ _ Hst). destruct (Instances (client s) !! id) as [i|] eqn:Hi; [by apply spec_terminated|].
    rewrite delete_id by done. by apply (spec_gone (abs s)).
Qed.

Lemma update_refines id tags s : steady s →
  let '(r, s') := client_UpdateInstance id tags s in
  (quiet (client s') → steady s') ∧ spec (abs s) (Tag id tags) (Tagged r) (abs s').
Proof.
  intros Hs. pose proof Hs as (Hq & Hown & Hissued).
  destruct (UpdateInstance_spec id tags s) as (s' & Henv & Hu); [apply Hq|apply Hown|]. simpl.
  destruct (Instances (client s) !! id) as [i|] eqn:Hi; destruct Hu as [Hu Hst]; rewrite (run_bind_step _ _ _ _ _ Hu);
    cbv beta iota delta [mret run_ret].
  - rewrite (store_abs _ _ _ _ Hst). split; [|by eapply (spec_tagged (abs s)); [exact Hi|apply tagged_with_tags]].
    intros Hq'. split; [done|]. injection Hst as Hins _ _. unfold own_ids. rewrite Hins, Henv. split.
    + intros k j [[<- <-]|[_ Hj]]%lookup_insert_Some; [by apply (Hown id i)|by apply Hown].
    + intros k. destruct (decide (id = k)) as [<-|Hne]; [by intros; apply Hissued|]. rewrite lookup_insert_ne by done. apply Hissued.
  - split; [by intros; eapply steady_same|]. rewrite (abs_store _ _ Hst). by apply spec_untagged.
Qed.

Lemma perform_refines c s : steady s →
  steady (perform c s).2 ∧ spec (abs s) c (perform c s).1 (abs (perform c s).2).
Proof.
  intros Hs. pose proof (perform_quiet c s (proj1 Hs)) as Hq'. pose proof Hs as (Hq & _). destruct c as [req|id|cp p|id|id tags|cp id].
  - pose proof (launch_refines req s Hs) as Hl. simpl in *. destruct (LaunchInstance req s) as [r s']. destruct Hl. by split; [auto|].
  - destruct (GetInstance_spec id s) as (s' & Henv & Hst & Hg); [apply Hq|]. simpl in *.
    assert (or_fail (GetInstance (Some id)) s = (match Instances (client s) !! id with
      | Some i => Ok (i, Some 200%Z) | None => Err (ENodeClaimNotFound None) end, s')) as Heq.
    { destruct (Instances (client s) !! id); by rewrite (or_fail_Ok _ _ _ _ _ Hg). }
    rewrite Heq in *. simpl in *. split; [by eapply steady_same|]. rewrite (abs_store _ _ Hst).
    destruct (Instances (client s) !! id) eqn:Hi; [by apply spec_got|by apply spec_not_found].
  - destruct (ListInstances_spec (cp, p) s) as (s' & l & Henv & Hst & Hl & Hperm); [apply Hq|]. simpl in *.
    rewrite (or_fail_Ok _ _ _ _ _ Hl) in *. simpl in *. split; [by eapply steady_same|]. rewrite (abs_store _ _ Hst). by apply spec_listed.
  - pose proof (terminate_refines id s Hs) as Hl. simpl in *. destruct (TerminateInstance (Some id) s) as [r s']. destruct Hl. by split; [auto|].
  - pose proof (update_refines id tags s Hs) as Hl. cbn [perform] in *. destruct (client_UpdateInstance id tags s) as [r s']. destruct Hl. by split; [auto|].
  - destruct (ListVnicAttachments_spec id s) as (s' & Henv & Hst & Hl); [apply Hq|]. simpl in *. unfold mbind, run_bind in *.
    destruct (Vnics (client s) !! id) as [l|] eqn:Hv; rewrite (or_fail_Ok _ _ _ _ _ Hl) in *; simpl in *;
      (split; [by eapply steady_same|]); rewrite (abs_store _ _ Hst); [by apply spec_attached|by apply spec_unattached].
Qed.

(** C40: Over any history of calls, the fake compute client of the tests answers as an abstract
    cloud does, as long as a test sets neither an error nor a canned answer: a launch is refused
    for a full pool, or makes a new instance without the tags of the request; what was launched
    is found, listed and tagged until it is terminated, and a second termination panics. *)
Theorem fake_refines_cloud (cs : list call) (s : State) :
  steady s →
  let '(rs, s') := perform_all cs s in steady s' ∧ spec_all (abs s) cs rs (abs s').
Proof.
  revert s. induction cs as [|c cs IH]; intros s Hs; [by split; [|apply spec_nil]|]. cbn [perform_all].
  destruct (perform_refines c s Hs) as [Hs1 Hspec]. destruct (perform c s) as [r s1]. simpl in *.
  specialize (IH s1 Hs1). destruct (perform_all cs s1) as [rs s']. destruct IH as [Hs' Hall].
  split; [done|]. by eapply spec_cons.
Qed.

(** A reset leaves a steady client, if the two mocks it forgets rest. *)
Lemma steady_Reset (s : State) :
  resting (GetVnicAttachmentBehavior (client s)) → resting (UpdateInstanceBehavior (client s)) →
  steady (set_client (Reset (client s)) s).
Proof.
  intros Hv Hu. split; [by apply quiet_Reset|]. split; [intros k i; simpl; by rewrite lookup_empty|].
  intros id. simpl. rewrite lookup_empty. by intros [? ?].
Qed.
End Refinement.
