(* ===== verification/Toy.v ===== *)
(** * A small cloud for the examples

    Concrete clients over a world that is a clock, one flexible shape and one
    subnet, an options record and a node class: inputs at which the theorems'
    hypotheses hold. *)

From stdpp Require Import base list strings gmap.
From Stdlib Require Import ZArith SpecFloat Lia.
From S2P Require Import Prelude GoStrings GoFloat OciModel Api Options Cache.
From S2P Require Import UnavailableOfferings Sched Paging KubeModel ImageFamily Reconcile.
From S2P Require Bootstrap Instance CloudProvider Garbage NodeClassStatus.

Local Open Scope string_scope.

(** The world: the instant, the launches made so far, and what was terminated
    or deleted. *)
Record toy_world := { toy_now : Z; toy_launched : list LaunchInstanceDetails; toy_gone : list string }.

Definition toy_start : toy_world := {| toy_now := 0; toy_launched := []; toy_gone := [] |}.
Definition toy_remove (name : string) (w : toy_world) : toy_world :=
  {| toy_now := toy_now w; toy_launched := toy_launched w; toy_gone := name :: toy_gone w |}.

#[export] Instance toy_clock : Clock toy_world := toy_now.

Definition toy_flex : Shape := {|
  Shape_Shape := Some "VM.Standard.E4.Flex"; IsFlexible := Some true; Ocpus := Some (f32_of_Z 1);
  MemoryInGBs := Some (f32_of_Z 16); NetworkingBandwidthInGbps := Some (f32_of_Z 1);
  MaxVnicAttachments := Some 2%Z; Gpus := Some 0%Z; GpuDescription := None;
  LocalDisksTotalSizeInGBs := None;
  OcpuOptions := Some {| Ocpu_Min := Some (f32_of_Z 1); Ocpu_Max := Some (f32_of_Z 64) |};
  MemoryOptions := Some {| MinInGBs := Some (f32_of_Z 1); MaxInGBs := Some (f32_of_Z 1024) |};
  MaxVnicAttachmentOptions := Some {| DefaultPerOcpu := Some (f32_of_Z 1) |};
  NetworkingBandwidthOptions := Some {| MinInGbps := Some (f32_of_Z 1); MaxInGbps := Some (f32_of_Z 40);
    DefaultPerOcpuInGbps := Some (f32_of_Z 1) |}
|}.

Definition toy_fixed : Shape := {|
  Shape_Shape := Some "VM.Standard2.2"; IsFlexible := Some false; Ocpus := Some (f32_of_Z 2);
  MemoryInGBs := Some (f32_of_Z 30); NetworkingBandwidthInGbps := Some (f32_of_Z 2);
  MaxVnicAttachments := Some 2%Z; Gpus := None; GpuDescription := None;
  LocalDisksTotalSizeInGBs := None; OcpuOptions := None; MemoryOptions := None;
  MaxVnicAttachmentOptions := None; NetworkingBandwidthOptions := None
|}.

Definition toy_instance (d : LaunchInstanceDetails) : Instance := {|
  Inst_Id := Some ("ocid1.instance.oc1.." +:+ Launch_DisplayName d); Inst_Shape := Some (Launch_Shape d);
  Inst_AvailabilityDomain := Some (Launch_AvailabilityDomain d);
  Inst_LifecycleState := Lifecycle_Running; Inst_DefinedTags := Launch_DefinedTags d;
  Inst_FreeformTags := ∅; Inst_ImageId := Some (Launch_ImageId d);
  Inst_SourceDetails := SourceViaImage (Some (Launch_ImageId d)); Inst_TimeCreated := Some 0%Z;
  Inst_Preemptible := Launch_Preemptible d
|}.

Definition toy_image (id name : string) : Image :=
  {| Image_Id := Some id; Image_DisplayName := Some name; Image_CompartmentId := Some "ocid1.compartment.oc1..1" |}.

Definition toy_attachment (id : string) : VnicAttachment := {|
  VA_Id := Some id; VA_InstanceId := None; VA_VnicId := Some id; VA_SubnetId := Some "s"
|}.

(** Shapes come in two pages; a launch is recorded, and refused for lack of
    capacity for one shape and in one domain. *)
#[export] Instance toy_compute : ComputeClient toy_world := {
  client_GetImage id := mret (toy_image id "Custom-Image");
  client_ListImages _ name :=
    mret [toy_image "ocid1.image.oc1..1" name; toy_image "ocid1.image.oc1..2" (name +:+ "-aarch64")];
  client_LaunchInstance d := λ w,
    if String.eqb (Launch_Shape d) "BM.Full" || String.eqb (Launch_AvailabilityDomain d) "JPqd:US-ASHBURN-AD-3"
    then (Err (EService 500 "InternalError" "Out of host capacity."), w)
    else (Ok (toy_instance d),
          {| toy_now := toy_now w; toy_launched := d :: toy_launched w; toy_gone := toy_gone w |});
  client_TerminateInstance id := λ w, (Ok (Some 204%Z, None), toy_remove id w);
  client_GetInstance _ := λ w,
    match toy_launched w with
    | d :: _ => (Ok (toy_instance d, Some 200%Z), w)
    | [] => (Err (EService 404 "NotFound" "no instance"), w)
    end;
  client_ListInstances _ _ := λ w, (Ok (map toy_instance (toy_launched w), None), w);
  client_ListShapes _ _ page :=
    if String.eqb page "" then mret ([toy_flex], Some "next") else mret ([toy_fixed], None);
  client_ListVnicAttachments _ _ := mret [toy_attachment "primary"; toy_attachment "secondary"];
  client_UpdateInstance _ _ := mret (Some 200%Z, None)
}.

Definition toy_options : Options := {|
  ClusterName := "toy"; ClusterEndpoint := ""; ClusterDns := "10.96.5.5"; ClusterCABundle := "";
  BootStrapToken := ""; CompartmentId := "ocid1.compartment.oc1..1"; TagNamespace := "oke-karpenter-ns";
  VMMemoryOverheadPercent := S754_zero false; FlexCpuMemRatios := "4,8";
  FlexCpuConstrainList := "1,2,4"; AvailableDomains := ["JPqd:US-ASHBURN-AD-1"; "JPqd:US-ASHBURN-AD-2"];
  OciAuthMethods := "OKE"; PriceEndpoint := ""; PriceSyncPeriod := 12; UseLocalPriceList := true;
  PreemptibleShapes := defaultPreemptibleShapes;
  PreemptibleExcludeShapes := defaultPreemptibleExcludeShapes
|}.

Definition toy_boot : BootConfig := {| BootVolumeSizeInGBs := 100; BootVolumeVpusPerGB := 20 |}.

Definition toy_spec : OciNodeClassSpec := {|
  VcnId := "ocid1.vcn.oc1..1"; ImageSelector := []; SubnetSelector := [{| SST_Id := ""; SST_Name := "nodes" |}];
  SecurityGroupSelector := []; UserData := None; PreInstallScript := None; MetaData := ∅;
  ImageFamily := OracleOKELinuxImageFamily; Tags := ∅; DefinedTags := ∅; FreeFormTags := ∅;
  Kubelet := None; NodeClass_BootConfig := Some toy_boot; NodeClass_LaunchOptions := None;
  BlockDevices := []; AgentList := []
|}.

Definition toy_meta (name : string) : ObjectMeta := {|
  Meta_Name := name; Labels := ∅; Annotations := ∅; Finalizers := []; DeletionTimestamp := None
|}.

Definition toy_class : OciNodeClass := {|
  NC_Meta := toy_meta "default"; Spec := toy_spec;
  Status := {| Status_Subnets := [];
    Status_Images := [{| SI_Id := "ocid1.image.oc1..1"; SI_Name := "Oracle-Linux-8"; SI_CompartmentId := "";
                         SI_Requirements := [] |}];
    Status_SecurityGroups := []; Status_Conditions := [] |}
|}.

(** ** The network: one subnet and one security group *)

Definition toy_subnet (id : string) : Subnet := {|
  Subnet_Id := Some id; Subnet_DisplayName := Some "nodes"; CidrBlock := Some "10.0.10.0/24";
  Subnet_CompartmentId := None; Subnet_VcnId := None; Subnet_TimeCreated := None
|}.

Definition toy_group (id : string) : NetworkSecurityGroup := {|
  NSG_Id := Some id; NSG_DisplayName := Some "workers"; NSG_CompartmentId := None; NSG_VcnId := None;
  NSG_TimeCreated := None
|}.

(** The vnic [primary] is the primary one; every vnic has the group [g]. *)
Definition toy_vnic (id : option string) : Vnic := {|
  Vnic_Id := id; Vnic_SubnetId := Some "s"; Vnic_IsPrimary := Some (bool_decide (id = Some "primary")); Vnic_NsgIds := ["g"]
|}.

(** A tenth of the subnet's addresses are in use. *)
#[export] Instance toy_network : VirtualNetworkClient toy_world := {
  client_ListSubnets _ _ name := mret (if String.eqb name "nodes" then [toy_subnet "s"] else []);
  client_GetSubnet id := mret (toy_subnet (from_ptr "" id));
  client_ListNetworkSecurityGroups _ _ _ := mret [toy_group "g"];
  client_GetNetworkSecurityGroup id := mret (toy_group id);
  client_GetVnic id := mret (toy_vnic id);
  client_GetSubnetCidrUtilization _ := mret [{| Smy_Cidr := Some "10.0.10.0/24";
    Smy_Utilization := Some (f32_of_Z 10); Smy_AddressType := "Private" |}];
  client_CreateNetworkSecurityGroup _ := fail (EText "not used");
  client_DeleteNetworkSecurityGroup _ := fail (EText "not used");
  client_CreateSubnet _ := fail (EText "not used");
  client_DeleteSubnet _ := fail (EText "not used")
}.

(** ** Kubernetes *)

Definition toy_claim (name provider_id : string) : NodeClaim Z := {|
  Claim_Meta := {| Meta_Name := name; Labels := {[NodePoolLabelKey := "pool"; LabelInstanceTypeStable := "VM.Standard.E4.Flex"]};
    Annotations := {[ManagedByAnnotationKey := "toy"]}; Finalizers := []; DeletionTimestamp := None |};
  Claim_CreationTimestamp := 0; Claim_Requirements := []; Claim_Taints := []; Claim_StartupTaints := [];
  Claim_Requests := {[ResourcePods := (3 * nano)%Z]}; Claim_NodeClassRef := Some "default";
  Claim_ProviderID := provider_id; Claim_ImageID := ""; Claim_NodeName := "node-1";
  Claim_Capacity := ∅; Claim_Allocatable := ∅; Claim_Conditions := []
|}.

Definition toy_node (id : string) : Node :=
  {| Node_Name := "node-" +:+ id; Node_ProviderID := id; Node_Taints := [] |}.

(** Reads answer a fixed state; the writes are not kept, a deletion apart. *)
#[export] Instance toy_kube : KubeClient Z toy_world := {
  kube_GetNodeClass _ := mret toy_class;
  kube_GetNodePool name := mret {| Pool_Name := name; Pool_NodeClassRef := Some "default" |};
  kube_ListNodeClaims _ := mret [toy_claim "claim-1" "ocid1.instance.oc1..1"];
  kube_ListNodes := mret [toy_node "ocid1.instance.oc1..1"; toy_node "ocid1.instance.oc1..2"];
  kube_DeleteNode n := λ w, (Ok tt, toy_remove (Node_Name n) w);
  kube_PatchNodeClaim _ _ := mret tt;
  kube_PatchNodeClass _ _ _ := mret tt;
  kube_PatchNodeClassStatus _ _ := mret tt;
  recorder_Publish _ := mret tt
}.

(** ** Instances of the libraries' classes *)

#[export] Instance toy_errors : ErrorLib := false.
#[export] Instance toy_shuffler : Instance.Shuffler :=
  {| Instance.Shuffle l := l; Instance.Shuffle_perm l := Permutation_refl l |}.
#[export] Instance toy_workers : Garbage.WorkOrder :=
  {| Garbage.schedule A l := l; Garbage.schedule_perm A l := Permutation_refl l |}.

Definition toy_total (it : InstanceType (gmap string set_req) Z) (k : string) : Z :=
  (from_ptr 0 (Ov_KubeReserved (IT_Overhead it) !! k) + from_ptr 0 (Ov_SystemReserved (IT_Overhead it) !! k)
   + from_ptr 0 (Ov_EvictionThreshold (IT_Overhead it) !! k))%Z.

#[export] Instance toy_lib : CloudLib set_req (gmap string set_req) Z := {
  Reqs_map m := m;
  Req_Len r := if sr_complement r then (max_int64 - Z.of_nat (size (sr_values r)))%Z
               else Z.of_nat (length (elements (sr_values r)));
  Offerings_Compatible reqs l := List.filter (λ o, Reqs_Compatible reqs (Of_Requirements o)) l;
  Allocatable it := map_imap (λ k q, Some (q - toy_total it k)%Z) (IT_Capacity it);
  Q_IsZero q := (q =? 0)%Z;
  Fits a b := forallb (λ kq, (kq.2 <=? from_ptr 0 (b !! kq.1))%Z) (map_to_list a)
}.

#[export] Instance toy_lib_laws : CloudLibLaws set_req (gmap string set_req) Z.
Proof.
  split; intros; simpl.
  - by apply foldl_reqs_elem.
  - by apply foldl_reqs_absent.
  - done.
  - by rewrite elements_empty.
  - done.
Qed.

(** Conditions by type; the root condition holds when all do. *)
Definition toy_set (t : string) (st : ConditionStatus) (reason msg : string) (l : list Condition) : list Condition :=
  {| Cond_Type := t; Cond_Status := st; Cond_Reason := reason; Cond_Message := msg |} ::
  List.filter (λ c, negb (String.eqb (Cond_Type c) t)) l.
Definition toy_find (t : string) (l : list Condition) : option ConditionStatus :=
  Cond_Status <$> List.find (λ c, String.eqb (Cond_Type c) t) l.

#[export] Instance toy_conditions : ConditionLib := {
  cond_Ready l :=
    match List.find (λ c, bool_decide (Cond_Status c ≠ CondTrue)) l with
    | Some c => (Cond_Status c, Cond_Message c)
    | None => (CondTrue, "")
    end;
  cond_SetTrue t l := toy_set t CondTrue t "" l;
  cond_SetFalse t reason msg l := toy_set t CondFalse reason msg l;
  cond_Status := toy_find
}.

Lemma toy_find_eq t st r m l : toy_find t (toy_set t st r m l) = Some st.
Proof. unfold toy_find, toy_set. simpl. by rewrite String.eqb_refl. Qed.

Lemma toy_find_ne t t' st r m l : t ≠ t' → toy_find t' (toy_set t st r m l) = toy_find t' l.
Proof.
  intros Hne. unfold toy_find, toy_set. simpl. destruct (String.eqb_spec t t') as [|_]; [done|]. f_equal.
  induction l as [|c l IH]; [done|]. simpl. destruct (String.eqb_spec (Cond_Type c) t) as [Hc|Hc]; simpl.
  - destruct (String.eqb_spec (Cond_Type c) t'); [congruence|done].
  - by destruct (String.eqb (Cond_Type c) t').
Qed.

#[export] Instance toy_conditions_laws : ConditionLaws.
Proof. split; intros; simpl; first [apply toy_find_eq|by apply toy_find_ne]. Qed.

#[export] Instance toy_text : NodeClassStatus.RequirementsText (gmap string set_req) := λ reqs,
  map (λ kr, {| NSR_Key := kr.1; NSR_Operator := if sr_complement kr.2 then OpNotIn else OpIn;
                NSR_Values := elements (sr_values kr.2) |}) (map_to_list reqs).
