(* ===== verification/InstanceTypeExamples.v ===== *)
(** * Examples for [InstanceType]: the theorems at concrete shapes *)

From stdpp Require Import base list strings gmap.
From Stdlib Require Import QArith ZArith SpecFloat Lia.
From S2P Require Import Prelude GoStrings GoFloat OciModel Api Options Cache UnavailableOfferings Sched Paging InstanceType Metrics Toy.

Local Open Scope string_scope.

Definition toy_domain_shapes (ad : string) : list WrapShape :=
  match toWrapShape toy_options [toy_flex; toy_fixed] ad with Ok ws => ws | _ => [] end.

(** Three core counts at two ratios, and the fixed shape. *)
Example toy_shapes_sizes :
  map (λ w, (CalcCpu w, CalMemInGBs w)) (toy_domain_shapes "AD-1") =
  [(2, 8); (2, 16); (4, 16); (4, 32); (8, 32); (8, 64); (4, 30)]%Z.
Proof. vm_compute. reflexivity. Qed.

Definition toy_flex_sizes : list WrapShape :=
  match splitFlexCpuMem toy_options toy_flex "AD-1" with Ok ws => ws | _ => [] end.

Lemma splitFlexCpuMem_spec_witness :
  Forall (λ w, ∃ cpus ratio, listed_cpus toy_options cpus ∧ listed_ratio toy_options ratio ∧
     CalcCpu w = (cpus * 2)%Z ∧ CalMemInGBs w = (CalcCpu w * ratio)%Z) toy_flex_sizes.
Proof.
  assert (sane_lists toy_options) as Hsane.
  { split; intros z (c & Hc & Hz); vm_compute in Hc;
      repeat (apply elem_of_cons in Hc as [->|Hc]; [vm_compute in Hz; simplify_eq; lia|]);
      by apply elem_of_nil in Hc. }
  assert (flex_limits toy_flex 1 64 1 1024) as Hlim.
  { eexists _, _. split_and!; [reflexivity|reflexivity|vm_compute; reflexivity..]. }
  assert (splitFlexCpuMem toy_options toy_flex "AD-1" = Ok toy_flex_sizes) as Hws by (vm_compute; reflexivity).
  apply Forall_forall. intros w Hw.
  destruct (proj1 (splitFlexCpuMem_spec toy_options toy_flex "AD-1" "VM.Standard.E4.Flex" 1 64 1 1024 _
    Hsane eq_refl Hlim Hws) w Hw) as (cpus & ratio & ? & ? & ? & ? & _).
  exists cpus, ratio. by split_and!.
Defined.

Lemma ListInstanceType_fresh_witness :
  let s := {| it_cache := cache_new InstanceTypesAndZonesTTL : ttl_map (gmap string WrapShape);
              it_offerings := NewUnavailableOfferings : UnavailableOfferings (ttl_map unit);
              it_world := toy_start |} in
  ∃ m s', ListInstanceType (order := list_order) toy_options 2 s = (Ok m, s').
Proof.
  intros s.
  destruct (ListInstanceType_fresh (order := list_order) toy_options 2 s
    [("US-ASHBURN-AD-1", toy_domain_shapes "US-ASHBURN-AD-1");
     ("US-ASHBURN-AD-2", toy_domain_shapes "US-ASHBURN-AD-2")] toy_start) as (m & s' & Hm & _).
  - reflexivity.
  - assert (∀ d w, page_chain (λ page, client_ListShapes (CompartmentId toy_options) d page) w ""
      [[toy_flex]; [toy_fixed]] w) as Hp.
    { intros d w. eapply chain_more; [reflexivity|done|done|]. by eapply chain_last. }
    eapply server_domain; [apply Hp|simpl; lia|reflexivity|vm_compute; reflexivity|].
    eapply server_domain; [apply Hp|simpl; lia|reflexivity|vm_compute; reflexivity|].
    apply server_done.
  - intros ad ws v Hin Hv.
    assert (∀ ad' v', v' ∈ toy_domain_shapes ad' → is_Some (Shape_Shape (wShape v'))) as Hall.
    { intros ad'. apply Forall_forall. vm_compute. repeat constructor; eauto. }
    apply elem_of_cons in Hin as [[= -> ->]|Hin]; [by eapply Hall|].
    apply list_elem_of_singleton in Hin as [= -> ->]. by eapply Hall.
  - by exists m, s'.
Defined.

Definition toy_shape : WrapShape := {|
  wShape := toy_flex; CalcCpu := 4; CalMemInGBs := 16; OciModel.AvailableDomains := ["US-ASHBURN-AD-1"];
  CalMaxVnic := 2; CalMaxBandwidthInGbps := 2
|}.

(** The overhead of the operator's own tests, 7.5 percent, takes 1229 MiB of
    16 GiB. *)
Definition overhead_options : Options := {|
  ClusterName := ClusterName toy_options; ClusterEndpoint := ClusterEndpoint toy_options;
  ClusterDns := ClusterDns toy_options; ClusterCABundle := ClusterCABundle toy_options;
  BootStrapToken := BootStrapToken toy_options; CompartmentId := CompartmentId toy_options;
  TagNamespace := TagNamespace toy_options; VMMemoryOverheadPercent := f64_of_decimal 75 3;
  FlexCpuMemRatios := FlexCpuMemRatios toy_options; FlexCpuConstrainList := FlexCpuConstrainList toy_options;
  AvailableDomains := AvailableDomains toy_options; OciAuthMethods := OciAuthMethods toy_options;
  PriceEndpoint := PriceEndpoint toy_options; PriceSyncPeriod := PriceSyncPeriod toy_options;
  UseLocalPriceList := UseLocalPriceList toy_options; PreemptibleShapes := PreemptibleShapes toy_options;
  PreemptibleExcludeShapes := PreemptibleExcludeShapes toy_options
|}.

Lemma NewInstanceType_allocatable_witness :
  ∃ it m, NewInstanceType (Q := Z) (λ _, None) overhead_options "us-ashburn-1" toy_shape toy_class
      ["US-ASHBURN-AD-1"] [] = Ok it ∧
    IT_Capacity it !! ResourceMemory = Some m ∧ Q_Value m = (16 * 2 ^ 30 - 1229 * 2 ^ 20)%Z ∧
    (0 < reserved it ResourceMemory < amount m)%Z.
Proof.
  destruct (NewInstanceType_allocatable (Q := Z) (λ _, None) overhead_options "us-ashburn-1" "VM.Standard.E4.Flex"
    toy_shape toy_class ["US-ASHBURN-AD-1"] [] 100 (5404319552844595 # 2 ^ 56))
    as (it & Hit & _ & _ & _ & (m & ov & Hm & [[Hlow Hup] _] & Hv & Hres) & _).
  - reflexivity.
  - unfold sane_sizes; simpl. split_and!; [lia..|reflexivity].
  - split; [reflexivity|]. exists 20%Z. reflexivity.
  - lia.
  - reflexivity.
  - reflexivity.
  - vm_compute. split; discriminate.
  - exists it, m. split; [exact Hit|]. split; [exact Hm|]. assert (ov = 1229%Z) as ->.
    { revert Hlow Hup. unfold Qle, Qlt, inject_Z. simpl. lia. }
    split; [exact Hv|]. apply Hres. vm_compute. discriminate.
Defined.

Lemma computeRequirements_spec_witness :
  ∃ reqs, computeRequirements (Rq := set_req) (Q := Z) "us-ashburn-1" toy_shape [] ["US-ASHBURN-AD-1"] = Ok reqs ∧
    only (Reqs_Get reqs LabelInstanceCPU) "4".
Proof.
  destruct (computeRequirements_spec (Q := Z) "us-ashburn-1" "VM.Standard.E4.Flex" toy_shape []
    ["US-ASHBURN-AD-1"]) as (reqs & Hr & _ & _ & _ & Hc & _); [reflexivity|reflexivity|].
  exists reqs. split; [exact Hr|exact Hc].
Defined.

Lemma CreateOfferings_spec_witness :
  ∃ os, CreateOfferings (order := list_order) (UC := ttl_map unit) (Rq := set_req) toy_options (λ _, Ok (f32_of_Z 1)) 0
      NewUnavailableOfferings toy_shape (zone_set ["US-ASHBURN-AD-1"; "US-ASHBURN-AD-2"]) = Ok os ∧
    length os = 4%nat.
Proof.
  destruct (CreateOfferings_spec (order := list_order) (UC := ttl_map unit) toy_options 0
    NewUnavailableOfferings toy_shape "VM.Standard.E4.Flex" (f32_of_Z 1)
    ["US-ASHBURN-AD-1"; "US-ASHBURN-AD-2"]) as (os & Hos & Hl & _); [reflexivity|].
  exists os. split; [exact Hos|]. rewrite Hl. vm_compute. reflexivity.
Defined.

(** The gauges after a listing of the flexible shape: of its six sizes only the last is seen. *)
Example toy_gauges :
  let '(r, m) := for_each metered_zone (map (pair "AD-1") toy_flex_sizes) ∅ ([] : registry) in
  is_ok r = true ∧ length toy_flex_sizes = 6%nat ∧
  gauge_value instanceTypeVCPU (type_label "VM.Standard.E4.Flex") m = Some (f64_of_Z 8) ∧
  gauge_value instanceTypeMemory (type_label "VM.Standard.E4.Flex") m = Some (f64_of_Z (16 * 2 ^ 30)).
Proof. vm_compute. by split_and!. Qed.

(** The availability of an offering and its price carry different names of the instance type. *)
Example toy_offering_gauges :
  let '(r, m) := metered_CreateOfferings (order := list_order) (UC := ttl_map unit) (Rq := set_req) toy_options
    (λ _, Ok (f32_of_Z 1)) 0 NewUnavailableOfferings toy_shape (zone_set ["AD-1"]) ([] : registry) in
  is_ok r = true ∧
  gauge_value instanceTypeOfferingAvailable (offering_label "VM.Standard.E4.Flex" CapacityTypeOnDemand "AD-1") m
    = Some (f64_of_Z 1) ∧
  gauge_value instanceTypeOfferingPriceEstimate (offering_label "VM.Standard.E4.Flex" CapacityTypeOnDemand "AD-1") m
    = None ∧
  gauge_value instanceTypeOfferingPriceEstimate
    (offering_label "VM.Standard.E4.Flex_2_16" CapacityTypeOnDemand "AD-1") m = Some (f64_of_Z 1).
Proof. vm_compute. by split_and!. Qed.
