(* ===== verification/NetworkExamples.v ===== *)
(** * Examples for [Subnet], [SecurityGroup] and [Bootstrap] *)

From stdpp Require Import base list strings gmap.
From Stdlib Require Import ZArith SpecFloat Lia.
From S2P Require Import Prelude GoStrings GoFloat OciModel Api Options Cache Selector Toy.
From S2P Require Subnet SecurityGroup Bootstrap.

Local Open Scope string_scope.

(** ** Subnets *)

Lemma calculateTotalIps_ipv4_witness :
  Subnet.calculateTotalIps (λ _, false) "10.0.10.0/24" = Ok 256%Z.
Proof. exact (Subnet.calculateTotalIps_ipv4 (λ _, false) 10 0 10 0 24
  ltac:(unfold Subnet.byte; lia) ltac:(unfold Subnet.byte; lia) ltac:(unfold Subnet.byte; lia)
  ltac:(unfold Subnet.byte; lia) ltac:(lia)). Defined.

Lemma GetSubnetAvailableIPv4Count_spec_witness :
  ∃ count, Subnet.GetSubnetAvailableIPv4Count (W := toy_world) (λ _, false) (toy_subnet "s") toy_start
    = (Ok count, toy_start) ∧ count = 231%Z.
Proof.
  destruct (Subnet.GetSubnetAvailableIPv4Count_spec (λ _, false) (toy_subnet "s") toy_start toy_start
    10 0 10 0 24 10 {| Smy_Cidr := Some "10.0.10.0/24"; Smy_Utilization := Some (f32_of_Z 10);
                       Smy_AddressType := "Private" |} []) as (count & Hc & _ & Hv);
    [unfold Subnet.byte; lia..|lia|lia|reflexivity|reflexivity|reflexivity|].
  exists count. split; [exact Hc|]. rewrite Hv. vm_compute. reflexivity.
Defined.

Definition toy_subnets_cache : Cached (ttl_map (list Subnet)) toy_world :=
  {| c_cache := cache_new DefaultTTL; c_world := toy_start |}.

Lemma List_spec_witness :
  ∃ l s', Subnet.List (order := list_order) toy_options (λ _, Ok 0%Z) toy_class toy_subnets_cache = (Ok l, s').
Proof.
  destruct (Subnet.List_spec (order := list_order) (C := ttl_map (list Subnet)) toy_options (λ _, Ok 0%Z) toy_class
    toy_subnets_cache 0 ([toy_subnet "s"] ++ []) toy_start) as (l & cached & s' & Hl & _).
  - reflexivity.
  - reflexivity.
  - eapply answers_cons; [reflexivity|apply answers_nil].
  - exists l, s'. exact Hl.
Defined.

Lemma GetSubnets_primary_witness :
  Subnet.GetSubnets (W := toy_world) [toy_attachment "secondary"; toy_attachment "primary"] true toy_start
    = (Ok [toy_subnet "s"], toy_start).
Proof.
  apply (Subnet.GetSubnets_primary (λ v, bool_decide (VA_VnicId v = Some "primary"))
    (λ id, toy_subnet (from_ptr "" id)) toy_start) with (v := toy_attachment "primary").
  - intros v. exists (toy_vnic (VA_VnicId v)). by split.
  - reflexivity.
  - reflexivity.
  - eexists. reflexivity.
Defined.

(** ** Security groups *)

Lemma GetSecurityGroups_spec_witness :
  SecurityGroup.GetSecurityGroups (W := toy_world) [toy_attachment "secondary"; toy_attachment "primary"] true toy_start
    = (Ok [toy_group "g"], toy_start).
Proof.
  exact (SecurityGroup.GetSecurityGroups_spec (λ v, toy_vnic (VA_VnicId v)) toy_group toy_start
    (λ v, eq_refl) (λ id, eq_refl) [toy_attachment "secondary"; toy_attachment "primary"] true).
Defined.

(** ** Scripts *)

Definition toy_bootstrap : Bootstrap.Options := {|
  Bootstrap.ClusterName := "toy"; Bootstrap.ClusterEndpoint := "https://10.0.0.1:6443";
  Bootstrap.ClusterDns := "10.96.5.5"; Bootstrap.KubeletConfig := None; Bootstrap.Taints := [];
  Bootstrap.NodeLabels := {["karpenter.sh/nodepool" := "default"]}; Bootstrap.CABundle := Some "Q0E=";
  Bootstrap.BootstrapToken := ""; Bootstrap.CustomUserData := Some "echo hello";
  Bootstrap.PreInstallScript := None
|}.

(** A reader of the messages [mimeify] writes with the boundary [b]: the one
    body between the headers and the closing mark. *)
Definition toy_read_parts (message : string) : res (list Bootstrap.Part) :=
  let around := String.length (Bootstrap.mimeify "b" "") in
  let before := (around - String.length (Bootstrap.write_close "b"))%nat in
  Ok [Bootstrap.shellscript (String.substring before (String.length message - around) message)].

Definition toy_host (url : string) : option string := Some "10.0.0.1".

Lemma Ubuntu_Script_independent_witness :
  let script nbv := Bootstrap.Ubuntu_Script (order := list_order) Bootstrap.Taint_Key (λ s, s) toy_host toy_bootstrap nbv in
  let used := (script Bootstrap.staticNodeBootstrapVars).2 in
  used ≠ Bootstrap.staticNodeBootstrapVars ∧
  (script used).1 = (script Bootstrap.staticNodeBootstrapVars).1.
Proof.
  intros script used. split; [discriminate|].
  apply (Bootstrap.Ubuntu_Script_independent (order := list_order)). unfold Bootstrap.same_static. split_and!; reflexivity.
Defined.

Lemma Ubuntu_Script_user_data_witness :
  ∃ out text, (Bootstrap.Ubuntu_Script (order := list_order) Bootstrap.Taint_Key (λ s, s) toy_host toy_bootstrap Bootstrap.staticNodeBootstrapVars).1 = Ok out ∧
    Bootstrap.DecodeString out = Some text ∧ Bootstrap.installs text "echo hello".
Proof.
  destruct (Bootstrap.Ubuntu_Script_user_data (order := list_order) Bootstrap.Taint_Key (λ s, s) toy_host toy_bootstrap toy_bootstrap Bootstrap.staticNodeBootstrapVars "Q0E=" eq_refl) as [Ho _].
  destruct (Bootstrap.Ubuntu_Script (order := list_order) Bootstrap.Taint_Key (λ s, s) toy_host toy_bootstrap Bootstrap.staticNodeBootstrapVars).1 as [out|e|why] eqn:Hs;
    [|vm_compute in Hs; discriminate Hs..].
  destruct (Ho out eq_refl) as (text & u & [= <-] & Hd & Hi). exists out, text. by split_and!.
Defined.

Lemma OKE_Script_spec_witness :
  ∃ out text, Bootstrap.OKE_Script (order := list_order) Bootstrap.Taint_Key (λ s, s) toy_host "b" toy_read_parts
      toy_bootstrap = Ok out ∧ Bootstrap.DecodeString out = Some text ∧
    Contains text "echo hello" = true ∧ Contains text "oke-install.sh --apiserver-endpoint '10.0.0.1'" = true.
Proof.
  pose proof (Bootstrap.OKE_Script_spec (order := list_order) Bootstrap.Taint_Key (λ s, s) toy_host "b"
    toy_read_parts toy_bootstrap ltac:(intros h [= <-]; vm_compute; reflexivity)) as H.
  cbv zeta in H. change (toy_host (Bootstrap.ClusterEndpoint toy_bootstrap)) with (Some "10.0.0.1") in H.
  destruct (Bootstrap.OKE_Script (order := list_order) Bootstrap.Taint_Key (λ s, s) toy_host "b" toy_read_parts
    toy_bootstrap) as [out|e|why] eqn:Hs; [|vm_compute in Hs; discriminate Hs..].
  destruct H as (ps & Hps & Hd). vm_compute in Hps. injection Hps as <-.
  eexists _, _. split_and!; [reflexivity|exact Hd|vm_compute; reflexivity..].
Defined.
