(* ===== verification/CloudExamples.v ===== *)
(** * Examples for [ImageFamily], [Instance] and [CloudProvider]

    One launch in the small cloud of [Toy], end to end: the image list, the
    subnet, the instance type, the launch request, the node claim, the listing
    and the drift of the node. *)

From stdpp Require Import base list strings gmap.
From Stdlib Require Import ZArith SpecFloat Lia.
From S2P Require Import Prelude GoStrings GoFloat OciModel Api Options Cache.
From S2P Require Import UnavailableOfferings Sched Paging Selector KubeModel ImageFamily Toy.
From S2P Require Subnet Bootstrap InstanceType Instance CloudProvider.
From S2P Require Import Capacity ClaimLabels.

Local Open Scope string_scope.

#[local] Existing Instance list_order.

Definition is_some {A} (o : option A) : bool := match o with Some _ => true | None => false end.

(** ** Images *)

Notation toy_rqs := (gmap string set_req).

Definition toy_image_class : OciNodeClass := {|
  NC_Meta := toy_meta "default";
  Spec := {| VcnId := "ocid1.vcn.oc1..1";
    ImageSelector := [{| IST_Id := ""; IST_Name := "Oracle-Linux-8"; IST_CompartmentId := "c" |}];
    SubnetSelector := []; SecurityGroupSelector := []; UserData := None; PreInstallScript := None; MetaData := ∅;
    ImageFamily := OracleOKELinuxImageFamily; Tags := ∅; DefinedTags := ∅; FreeFormTags := ∅; Kubelet := None;
    NodeClass_BootConfig := None; NodeClass_LaunchOptions := None; BlockDevices := []; AgentList := [] |};
  Status := Status toy_class
|}.

Definition toy_images : Cached (ttl_map (list (WrapImage toy_rqs))) toy_world :=
  {| c_cache := cache_new DefaultTTL; c_world := toy_start |}.

Lemma ImageList_spec_witness :
  ∃ l s', ImageFamily.List (Rqs := toy_rqs) (λ _, Ok 0%Z) toy_image_class toy_images = (Ok l, s') ∧
    ∀ i, i ∈ l → wRequirements i = requirementsForImage OracleOKELinuxImageFamily (wImage i).
Proof.
  destruct (ImageList_spec (C := ttl_map (list (WrapImage toy_rqs))) (λ _, Ok 0%Z) toy_image_class toy_images 0
    ([wrap_image OracleOKELinuxImageFamily (toy_image "ocid1.image.oc1..1" "Oracle-Linux-8");
      wrap_image OracleOKELinuxImageFamily (toy_image "ocid1.image.oc1..2" "Oracle-Linux-8-aarch64")] ++ [])
    toy_start) as (l & cached & s' & Hl & _ & _ & _ & Hr & _).
  - reflexivity.
  - reflexivity.
  - eapply answers_cons; [reflexivity|apply answers_nil].
  - exists l, s'. split; [exact Hl|exact Hr].
Defined.

(** ** Instances *)

Notation toy_state := (Instance.State toy_world (ttl_map (list Subnet)) (ttl_map unit)).

Definition toy_state_0 : toy_state := {|
  Instance.ip_subnets := cache_new DefaultTTL; Instance.ip_offerings := NewUnavailableOfferings;
  Instance.ip_bootstrap := Bootstrap.staticNodeBootstrapVars; Instance.ip_world := toy_start
|}.

Definition toy_hash {A : Type} (_ : A) : res Z := Ok 0%Z.
Definition toy_ipv6 (_ : string) : bool := false.

Section TwoSubnets.
#[local] Instance toy_two_subnets : VirtualNetworkClient toy_world := {
  client_ListSubnets _ _ _ := mret [toy_subnet "s"; toy_subnet "t"];
  client_GetSubnet := client_GetSubnet (VirtualNetworkClient := toy_network);
  client_ListNetworkSecurityGroups := client_ListNetworkSecurityGroups (VirtualNetworkClient := toy_network);
  client_GetNetworkSecurityGroup := client_GetNetworkSecurityGroup (VirtualNetworkClient := toy_network);
  client_GetVnic := client_GetVnic (VirtualNetworkClient := toy_network);
  client_GetSubnetCidrUtilization id := mret [{| Smy_Cidr := Some "10.0.10.0/24";
    Smy_Utilization := Some (f32_of_Z (if bool_decide (id = Some "s") then 50 else 10)); Smy_AddressType := "Private" |}];
  client_CreateNetworkSecurityGroup _ := fail (EText "not used"); client_DeleteNetworkSecurityGroup _ := fail (EText "not used");
  client_CreateSubnet _ := fail (EText "not used"); client_DeleteSubnet _ := fail (EText "not used")
}.

Lemma toy_largest (x y best : Subnet * Z) before after :
  (x.2 < y.2)%Z → [x; y] = (before ++ best :: after)%list → (∀ p, p ∈ after → (p.2 <= best.2)%Z) → best = y.
Proof.
  intros Hlt Hl Ha. destruct before as [|p [|q before]]; simplify_list_eq; try done.
  - pose proof (Ha y ltac:(by left)). lia.
  - by destruct before.
Qed.

(** Half of the first subnet is in use, and a tenth of the second. *)
Lemma FindLeastUtilizedSubnet_spec_witness :
  ∃ s1, Instance.FindLeastUtilizedSubnet toy_options toy_ipv6 toy_hash toy_class toy_state_0
          = (Ok (toy_subnet "t", 231%Z), s1).
Proof.
  set (listed := Instance.on_subnets (Subnet.List toy_options toy_hash toy_class) toy_state_0).
  destruct (Instance.FindLeastUtilizedSubnet_spec (SC := ttl_map (list Subnet)) (UC := ttl_map unit)
    toy_options toy_ipv6 toy_hash toy_class toy_state_0 listed.2 [toy_subnet "s"; toy_subnet "t"]) as (_ & Hf & _).
  { vm_compute. reflexivity. }
  destruct (Hf [(toy_subnet "s", 128%Z); (toy_subnet "t", 231%Z)] toy_start) as (best & (before & after & Hl & Hb & Ha) & Hr).
  - reflexivity.
  - discriminate.
  - apply (Instance.measured_next _ _ _ _ _ toy_start); [vm_compute; reflexivity|].
    apply (Instance.measured_next _ _ _ _ _ toy_start); [vm_compute; reflexivity|]. constructor.
  - intros p Hp. repeat (apply elem_of_cons in Hp as [->|Hp]); [simpl; lia..|by apply elem_of_nil in Hp].
  - assert (best = (toy_subnet "t", 231%Z)) as -> by (eapply toy_largest; [|exact Hl|exact Ha]; simpl; lia).
    eexists. exact Hr.
Defined.
End TwoSubnets.

Definition toy_request (shape : string) : LaunchInstanceDetails := {|
  Launch_SubnetId := Some "s"; Launch_NsgIds := []; Launch_VolumeAttachments := [];
  Launch_ImageId := "ocid1.image.oc1..1"; Launch_BootVolumeVpusPerGB := 20; Launch_BootVolumeSizeInGBs := 100;
  Launch_DefinedTags := ∅; Launch_CompartmentId := ""; Launch_DisplayName := "claim-1";
  Launch_AvailabilityDomain := "JPqd:US-ASHBURN-AD-1"; Launch_Shape := shape; Launch_Metadata := ∅;
  Launch_Preemptible := true; Launch_ShapeConfig := None; Launch_LaunchOptions := None; Launch_AgentPlugins := []
|}.

(** A preemptible launch that finds no capacity marks the on-demand offering. *)
Lemma launch_failure_spec_witness :
  ∃ s', Instance.launch (toy_request "BM.Full") "US-ASHBURN-AD-1" toy_state_0 =
      (Err (EInsufficientCapacity (EText "InsufficientCapacityError: Out of host capacity.")), s') ∧
    IsUnavailable 0 "BM.Full" "US-ASHBURN-AD-1" CapacityTypeOnDemand (Instance.ip_offerings s') = true ∧
    IsUnavailable 0 "BM.Full" "US-ASHBURN-AD-1" CapacityTypePreemptible (Instance.ip_offerings s') = false.
Proof.
  pose proof (Instance.launch_failure_spec (SC := ttl_map (list Subnet)) (UC := ttl_map unit)
    (toy_request "BM.Full") "US-ASHBURN-AD-1" toy_state_0 (EService 500 "InternalError" "Out of host capacity.")
    toy_start eq_refl) as H.
  change (Instance.out_of_capacity (EService 500 "InternalError" "Out of host capacity."))
    with (Some "Out of host capacity.") in H. cbv beta iota in H.
  destruct H as (s' & Hs & _ & _ & _ & Hmarked & Hother). exists s'. split_and!; [exact Hs|..].
  - apply Hmarked. vm_compute. discriminate.
  - rewrite Hother by (vm_compute; discriminate). reflexivity.
Defined.

Definition toy_types : list (InstanceType toy_rqs Z) :=
  match InstanceType.List (UC := ttl_map unit) toy_options (λ _, Ok (f32_of_Z 1)) (λ _, None) "us-ashburn-1" 2 toy_class
    {| InstanceType.it_cache := cache_new InstanceTypesAndZonesTTL : ttl_map (gmap string WrapShape);
       InstanceType.it_offerings := NewUnavailableOfferings; InstanceType.it_world := toy_start |} with
  | (Ok its, _) => its
  | _ => []
  end.

Example toy_types_names :
  map (λ it, (IT_Name it, length (IT_Offerings it))) toy_types =
    (replicate 6 ("VM.Standard.E4.Flex", 4%nat) ++ [("VM.Standard2.2", 4%nat)])%list.
Proof. vm_compute. reflexivity. Qed.

Lemma pickBestInstanceType_spec_witness :
  ∃ it zone, Instance.pickBestInstanceType (toy_claim "claim-2" "") toy_types = (Some it, zone) ∧
    it ∈ toy_types ∧ zone = "US-ASHBURN-AD-1".
Proof.
  pose proof (Instance.pickBestInstanceType_spec (toy_claim "claim-2" "") toy_types) as H.
  assert ((is_some (Instance.pickBestInstanceType (toy_claim "claim-2" "") toy_types).1,
           (Instance.pickBestInstanceType (toy_claim "claim-2" "") toy_types).2) = (true, "US-ASHBURN-AD-1")) as Hc
    by (vm_compute; reflexivity).
  destruct (Instance.pickBestInstanceType (toy_claim "claim-2" "") toy_types) as [[it|] zone];
    [|discriminate Hc].
  injection Hc as Hzone. destruct H as (Hin & _). exists it, zone. split_and!; [reflexivity|exact Hin|exact Hzone].
Defined.

(** ** A launch *)

Definition toy_sdk : Instance.EnumMappings := {|
  Instance.GetMappingLaunchOptionsBootVolumeTypeEnum s := s;
  Instance.GetMappingLaunchOptionsFirmwareEnum s := s;
  Instance.GetMappingLaunchOptionsNetworkTypeEnum s := s;
  Instance.GetMappingLaunchOptionsRemoteDataVolumeTypeEnum s := s
|}.

Definition toy_hostname (url : string) : option string := Some "10.0.0.1".
Definition toy_parts (message : string) : res (list Bootstrap.Part) := Ok [].
Definition toy_templates : TemplateProvider :=
  {| TP_CABundle := Some "Q0E="; TP_ClusterEndpoint := "https://10.0.0.1:6443"; TP_BootstrapToken := "" |}.

Notation toy_create := (Instance.Create toy_options toy_sdk toy_ipv6 toy_hash Bootstrap.Taint_Key (λ s, s)
  toy_hostname "b" toy_parts toy_templates).

Lemma Create_safe_witness :
  ∃ i s' it zone, toy_create toy_class (toy_claim "claim-2" "") toy_types toy_state_0 = (Ok i, s') ∧
    Instance.pickBestInstanceType (toy_claim "claim-2" "") toy_types = (Some it, zone) ∧
    Inst_Shape i = Some "VM.Standard.E4.Flex".
Proof.
  destruct (toy_create toy_class (toy_claim "claim-2" "") toy_types toy_state_0) as [r s'] eqn:Hc.
  assert (Inst_Shape <$> (match r with Ok i => Some i | _ => None end) = Some (Some "VM.Standard.E4.Flex")) as Hr.
  { change r with (r, s').1. rewrite <- Hc. vm_compute. reflexivity. }
  destruct r as [i|e|why]; [|discriminate Hr..]. injection Hr as Hshape.
  destruct (Instance.Create_safe (SC := ttl_map (list Subnet)) (UC := ttl_map unit) toy_options toy_sdk toy_ipv6 toy_hash
    Bootstrap.Taint_Key (λ s, s) toy_hostname "b" toy_parts toy_templates toy_class (toy_claim "claim-2" "")
    toy_types toy_state_0 s' i Hc) as (subnet & count & s1 & it & zone & ad & image & req & _ & _ & Hp & _).
  exists i, s', it, zone. split_and!; [done|exact Hp|exact Hshape].
Defined.

Definition toy_managed_launch : LaunchInstanceDetails := {|
  Launch_SubnetId := Some "s"; Launch_NsgIds := []; Launch_VolumeAttachments := [];
  Launch_ImageId := "ocid1.image.oc1..1"; Launch_BootVolumeVpusPerGB := 20; Launch_BootVolumeSizeInGBs := 100;
  Launch_DefinedTags := Instance.getTags toy_options toy_class (toy_claim "claim-2" "");
  Launch_CompartmentId := ""; Launch_DisplayName := "claim-2";
  Launch_AvailabilityDomain := "JPqd:US-ASHBURN-AD-1"; Launch_Shape := "VM.Standard2.2"; Launch_Metadata := ∅;
  Launch_Preemptible := false; Launch_ShapeConfig := None; Launch_LaunchOptions := None; Launch_AgentPlugins := []
|}.
Definition toy_launched_instance : Instance := toy_instance toy_managed_launch.


Lemma flex_size_roundtrip_witness :
  ∃ it, InstanceType.NewInstanceType (Q := Z) (λ _, None) toy_options "us-ashburn-1"
      {| wShape := toy_flex; CalcCpu := 4; CalMemInGBs := 16; OciModel.AvailableDomains := ["AD-1"];
         CalMaxVnic := 2; CalMaxBandwidthInGbps := 2 |} toy_class ["AD-1"] [] = Ok it ∧
    Instance.shape_config it = Ok (Some {| SC_Ocpus := f32_of_Z 2; SC_MemoryInGBs := f32_of_Z 16 |}).
Proof.
  set (w := {| wShape := toy_flex; CalcCpu := 4; CalMemInGBs := 16; OciModel.AvailableDomains := ["AD-1"];
               CalMaxVnic := 2; CalMaxBandwidthInGbps := 2 |}).
  assert (is_ok (InstanceType.NewInstanceType (Q := Z) (λ _, None) toy_options "us-ashburn-1" w toy_class ["AD-1"] [])
          = true) as Hok by (vm_compute; reflexivity).
  destruct (InstanceType.NewInstanceType (Q := Z) (λ _, None) toy_options "us-ashburn-1" w toy_class ["AD-1"] [])
    as [it|e|why] eqn:Hit; [|discriminate Hok..].
  destruct (Instance.flex_size_roundtrip (Q := Z) (λ _, None) toy_options "us-ashburn-1" "VM.Standard.E4.Flex" w toy_class
    ["AD-1"] [] it 2 Hit) as [_ Hs]; [reflexivity|reflexivity|reflexivity|reflexivity|lia|simpl; lia|].
  exists it. split; [done|exact Hs].
Defined.

(** ** The cloud provider *)

Notation toy_cloud_state := (CloudProvider.State toy_world (ttl_map (gmap string WrapShape))
  (ttl_map (list Subnet)) (ttl_map unit)).

Definition toy_cloud_at (w : toy_world) : toy_cloud_state := {|
  CloudProvider.cp_shapes := cache_new InstanceTypesAndZonesTTL; CloudProvider.cp_subnets := cache_new DefaultTTL;
  CloudProvider.cp_offerings := NewUnavailableOfferings; CloudProvider.cp_bootstrap := Bootstrap.staticNodeBootstrapVars;
  CloudProvider.cp_world := w
|}.

(** The world after one launch. *)
Definition toy_busy : toy_world := {|
  toy_now := 1; toy_launched := [toy_request "VM.Standard.E4.Flex"]; toy_gone := []
|}.

Definition toy_price (_ : WrapShape) : res f32 := Ok (f32_of_Z 1).
Definition toy_parse (_ : string) : option f64 := None.

Notation toy_cloud_create := (CloudProvider.Create toy_options toy_sdk toy_ipv6 toy_hash toy_hash Bootstrap.Taint_Key
  (λ s, s) toy_hostname "b" toy_parts toy_templates toy_price toy_parse "us-ashburn-1" 2).

Lemma instanceToNodeClaim_spec_witness :
  ∃ nc, CloudProvider.instanceToNodeClaim (Q := Z) toy_options 7 toy_launched_instance (head toy_types) = Ok nc ∧
    Labels (Claim_Meta nc) !! LabelTopologyZone = Some "US-ASHBURN-AD-1".
Proof.
  assert (is_ok (CloudProvider.instanceToNodeClaim (Q := Z) toy_options 7 toy_launched_instance (head toy_types)) = true)
    as Hok by (vm_compute; reflexivity).
  destruct (CloudProvider.instanceToNodeClaim (Q := Z) toy_options 7 toy_launched_instance (head toy_types))
    as [nc|e|why] eqn:Hnc; [|discriminate Hok..].
  destruct (CloudProvider.instanceToNodeClaim_spec (Q := Z) toy_options 7 toy_launched_instance (head toy_types) nc Hnc)
    as (_ & _ & _ & Hz & _).
  exists nc. split; [reflexivity|]. rewrite Hz. vm_compute. reflexivity.
Defined.

(** The claim of an instance of a flexible type has the size as labels. *)
Lemma claim_labels_spec_witness :
  ∃ it nc, InstanceType.NewInstanceType (Q := Z) (λ _, None) toy_options "us-ashburn-1"
      {| wShape := toy_flex; CalcCpu := 4; CalMemInGBs := 16; OciModel.AvailableDomains := ["AD-1"];
         CalMaxVnic := 2; CalMaxBandwidthInGbps := 2 |} toy_class ["AD-1"] [] = Ok it ∧
    CloudProvider.instanceToNodeClaim toy_options 7 toy_launched_instance (Some it) = Ok nc ∧
    Labels (Claim_Meta nc) !! LabelInstanceCPU = Some "4" ∧ Labels (Claim_Meta nc) !! LabelInstanceGPU = None.
Proof.
  set (w := {| wShape := toy_flex; CalcCpu := 4; CalMemInGBs := 16; OciModel.AvailableDomains := ["AD-1"];
               CalMaxVnic := 2; CalMaxBandwidthInGbps := 2 |}).
  assert (match InstanceType.NewInstanceType (Q := Z) (λ _, None) toy_options "us-ashburn-1" w toy_class ["AD-1"] [] with
          | Ok it => is_ok (CloudProvider.instanceToNodeClaim toy_options 7 toy_launched_instance (Some it))
          | _ => false
          end = true) as Hok by (vm_compute; reflexivity).
  destruct (InstanceType.NewInstanceType (Q := Z) (λ _, None) toy_options "us-ashburn-1" w toy_class ["AD-1"] [])
    as [it|e|why] eqn:Hit; [|discriminate Hok..].
  destruct (CloudProvider.instanceToNodeClaim toy_options 7 toy_launched_instance (Some it)) as [nc|e|why] eqn:Hnc;
    [|discriminate Hok..].
  destruct (claim_labels_spec (λ _, None) toy_options "us-ashburn-1" "VM.Standard.E4.Flex" w toy_class ["AD-1"] []
    it 7 toy_launched_instance nc Hit eq_refl eq_refl Hnc) as [Hl _].
  exists it, nc. split_and!; [done|done|..]; apply Hl; unfold label_table; InstanceType.find_in.
Defined.

Lemma Create_spec_witness :
  ∃ nc s', toy_cloud_create (toy_claim "claim-2" "") (toy_cloud_at toy_start) = (Ok nc, s') ∧
    claim_annotation nc AnnotationOciNodeClassHash = "0".
Proof.
  assert (is_ok (toy_cloud_create (toy_claim "claim-2" "") (toy_cloud_at toy_start)).1 = true) as Hok
    by (vm_compute; reflexivity).
  destruct (toy_cloud_create (toy_claim "claim-2" "") (toy_cloud_at toy_start)) as [[nc|e|why] s'] eqn:Hc;
    [|discriminate Hok..].
  destruct (CloudProvider.Create_spec toy_options toy_sdk toy_ipv6 toy_hash toy_hash Bootstrap.Taint_Key (λ s, s)
    toy_hostname "b" toy_parts toy_templates toy_price toy_parse "us-ashburn-1" 2 (toy_claim "claim-2" "") nc
    (toy_cloud_at toy_start) s' Hc) as (class & w1 & its & s1 & i & h & _ & _ & _ & _ & _ & _ & Hh & Ha & _).
  exists nc, s'. split; [reflexivity|]. rewrite Ha. unfold Hash, toy_hash in Hh. by injection Hh as <-.
Defined.

(** Two sizes of one flexible shape. *)
Definition toy_size (cpus : Z) : InstanceType toy_rqs Z := {|
  IT_Name := "VM.Standard.E4.Flex"; 
  IT_Requirements := NewRequirements [NewRequirement LabelInstanceCPU OpIn [Itoa (2 * cpus)];
    NewRequirement LabelInstanceMemory OpIn [Itoa (8192 * cpus)]; NewRequirement LabelIsFlexible OpIn ["true"]];
  IT_Offerings := [{| Of_Requirements := NewRequirements [NewRequirement LabelTopologyZone OpIn ["US-ASHBURN-AD-1"]];
                      Of_Price := f64_of_Z cpus; Of_Available := true |}];
  IT_Capacity := {[ResourceCPU := (cpus * nano)%Z]};
  IT_Overhead := {| Ov_KubeReserved := ∅; Ov_SystemReserved := ∅; Ov_EvictionThreshold := ∅ |}
|}.

Notation toy_launch := (CloudProvider.create_instance toy_options toy_sdk toy_ipv6 toy_hash Bootstrap.Taint_Key (λ s, s)
  toy_hostname "b" toy_parts toy_templates toy_class (toy_claim "claim-2" "")).
Notation toy_launch_claim := (CloudProvider.launch_claim toy_options toy_sdk toy_ipv6 toy_hash toy_hash Bootstrap.Taint_Key
  (λ s, s) toy_hostname "b" toy_parts toy_templates (toy_claim "claim-2" "") toy_class).

(** The launched node has two cores, its claim the capacity of sixteen. *)
Lemma Create_first_size_witness :
  ∃ nc s', toy_launch_claim [toy_size 16; toy_size 2] (toy_cloud_at toy_start) = (Ok nc, s') ∧
    Claim_Capacity nc !! ResourceCPU = Some (16 * nano)%Z ∧
    IT_Capacity (toy_size 2) !! ResourceCPU = Some (2 * nano)%Z.
Proof.
  set (its := [toy_size 16; toy_size 2]).
  assert (is_ok (toy_launch its (toy_cloud_at toy_start)).1 = true ∧
          is_ok (toy_launch_claim its (toy_cloud_at toy_start)).1 = true ∧
          match (toy_launch its (toy_cloud_at toy_start)).1 with Ok i => Inst_Shape i | _ => None end
            = Some "VM.Standard.E4.Flex") as (Hok1 & Hok2 & Hs) by (vm_compute; split_and!; reflexivity).
  destruct (toy_launch its (toy_cloud_at toy_start)) as [[i|e|why] s1] eqn:Hl; [|discriminate Hok1..].
  destruct (toy_launch_claim its (toy_cloud_at toy_start)) as [[nc|e|why] s'] eqn:Hc; [|discriminate Hok2..].
  destruct (CloudProvider.Create_first_size toy_options toy_sdk toy_ipv6 toy_hash toy_hash Bootstrap.Taint_Key (λ s, s)
    toy_hostname "b" toy_parts toy_templates (toy_claim "claim-2" "") nc (toy_cloud_at toy_start) s1 s' toy_class
    (toy_size 16) (toy_size 2) [toy_size 2] i) as [Hcap _].
  - right. left.
  - reflexivity.
  - exact Hl.
  - exact Hs.
  - exact Hc.
  - exists nc, s'. split_and!; [reflexivity| |reflexivity]. rewrite Hcap. vm_compute. reflexivity.
Defined.

(** A class whose subnet, group and image are those of the node. *)
Definition toy_ready_class (image : string) : OciNodeClass := {|
  NC_Meta := toy_meta "default"; Spec := toy_spec;
  Status := {| Status_Subnets := [{| SS_Id := "s"; SS_Name := "nodes"; CidrUtilization := [] |}];
    Status_Images := [{| SI_Id := image; SI_Name := ""; SI_CompartmentId := ""; SI_Requirements := [] |}];
    Status_SecurityGroups := [{| SSG_Id := "g"; SSG_Name := "workers" |}]; Status_Conditions := [] |}
|}.

Lemma drift_comparisons_witness :
  CloudProvider.isSubnetDrifted [toy_subnet "s"] (toy_ready_class "") = Ok "" ∧
  CloudProvider.areSecurityGroupsDrifted [toy_group "other"] (toy_ready_class "") = Ok CloudProvider.SecurityGroupDrift ∧
  "other" ∉ ["g"].
Proof.
  pose proof (CloudProvider.drift_comparisons (toy_ready_class "") [toy_subnet "s"] [toy_group "other"]
    ["s"] ["other"] eq_refl eq_refl) as [_ Hg].
  split_and!; [reflexivity|reflexivity|]. intros Hin.
  destruct Hg as (_ & [[Hr _]|[_ Hn]]); [discriminate Hr|]. apply list_elem_of_singleton in Hin. discriminate Hin.
Defined.

Notation toy_drift := (CloudProvider.isNodeClassDrifted toy_options toy_price toy_parse "us-ashburn-1" 2
  (toy_claim "claim-1" "ocid1.instance.oc1..1") {| Pool_Name := "pool"; Pool_NodeClassRef := Some "default" |}).

(** The instance runs another image than the first that fits its type. *)
Lemma isNodeClassDrifted_spec_witness :
  ∃ s1 i w1 (it : InstanceType toy_rqs Z) image,
    toy_drift (toy_ready_class "ocid1.image.oc1..2") (toy_cloud_at toy_busy) = (Ok CloudProvider.ImageDrift, s1) ∧
    Instance.Get "ocid1.instance.oc1..1" toy_busy = (Ok i, w1) ∧ Inst_ImageId i = Some image ∧
    ¬ CloudProvider.image_current (toy_ready_class "ocid1.image.oc1..2") it image.
Proof.
  assert (match (toy_drift (toy_ready_class "ocid1.image.oc1..2") (toy_cloud_at toy_busy)).1 with Ok r => r | _ => "" end
          = CloudProvider.ImageDrift) as Hr by (vm_compute; reflexivity).
  destruct (toy_drift (toy_ready_class "ocid1.image.oc1..2") (toy_cloud_at toy_busy)) as [[r|e|why] s1] eqn:Hd;
    [|discriminate Hr..]. simpl in Hr. subst r.
  destruct (CloudProvider.isNodeClassDrifted_spec toy_options toy_price toy_parse "us-ashburn-1" 2 _ _ _ _ _ _ Hd)
    as (i & w1 & its & s2 & it & image & vnics & w3 & sgs & w4 & subnets & w5 & Hi & _ & _ & Himg & _ & _ & _ & _ & Hreason & _).
  exists s1, i, w1, it, image. split; [reflexivity|]. split; [exact Hi|]. split; [exact Himg|].
  destruct Hreason as [[_ Hnot]|[_ [[Hne _]|[_ [[Hne _]|[_ Hne]]]]]]; [exact Hnot|discriminate Hne..].
Defined.

(** ** A domain without capacity *)

(** The third domain refuses launches; Standard2 shapes are not preemptible. *)
Definition full_options : Options := {|
  ClusterName := "toy"; ClusterEndpoint := ""; ClusterDns := ""; ClusterCABundle := ""; BootStrapToken := "";
  CompartmentId := "ocid1.compartment.oc1..1"; TagNamespace := "oke-karpenter-ns";
  VMMemoryOverheadPercent := S754_zero false; FlexCpuMemRatios := "4"; FlexCpuConstrainList := "1";
  AvailableDomains := ["JPqd:US-ASHBURN-AD-3"]; OciAuthMethods := "OKE"; PriceEndpoint := ""; PriceSyncPeriod := 12;
  UseLocalPriceList := true; PreemptibleShapes := defaultPreemptibleShapes; PreemptibleExcludeShapes := "VM.Standard2"
|}.

Definition full_request : LaunchInstanceDetails := {|
  Launch_SubnetId := Some "s"; Launch_NsgIds := []; Launch_VolumeAttachments := [];
  Launch_ImageId := "ocid1.image.oc1..1"; Launch_BootVolumeVpusPerGB := 20; Launch_BootVolumeSizeInGBs := 100;
  Launch_DefinedTags := ∅; Launch_CompartmentId := ""; Launch_DisplayName := "claim-1";
  Launch_AvailabilityDomain := "JPqd:US-ASHBURN-AD-3"; Launch_Shape := "VM.Standard2.2"; Launch_Metadata := ∅;
  Launch_Preemptible := false; Launch_ShapeConfig := None; Launch_LaunchOptions := None; Launch_AgentPlugins := []
|}.

Definition full_zone : string := "US-ASHBURN-AD-3".
Definition refused : toy_state := (Instance.launch full_request full_zone toy_state_0).2.

(** The provider after the refusal and a pass of the janitor. *)
Definition full_provider : CloudProvider.State toy_world (ttl_map (gmap string WrapShape)) (ttl_map (list Subnet)) (ttl_map unit) := {|
  CloudProvider.cp_shapes := cache_new InstanceTypesAndZonesTTL; CloudProvider.cp_subnets := cache_new DefaultTTL;
  CloudProvider.cp_offerings := cleanup 0 (Instance.ip_offerings refused);
  CloudProvider.cp_bootstrap := Bootstrap.staticNodeBootstrapVars; CloudProvider.cp_world := toy_start
|}.

Definition full_listing :=
  CloudProvider.list_instance_types full_options (λ _, Ok (f32_of_Z 1)) (λ _, None) "us-ashburn-1" 2 toy_class full_provider.
Definition full_types : list (InstanceType toy_rqs Z) := match full_listing with (Ok its, _) => its | _ => [] end.

Example full_types_names :
  map (λ it, (IT_Name it, map Of_Available (IT_Offerings it))) full_types =
    [("VM.Standard.E4.Flex", [true; true]); ("VM.Standard2.2", [false; false])].
Proof. vm_compute. reflexivity. Qed.

(** Neither a claim for any type nor one for the refused type is sent there again. *)
Lemma capacity_error_avoided_witness :
  Forall (λ claim, ∀ it z, Instance.pickBestInstanceType claim full_types = (Some it, z) →
    ¬ (IT_Name it = "VM.Standard2.2" ∧ z = full_zone)) [toy_claim "claim-1" ""; toy_claim "claim-2" ""].
Proof.
  destruct full_listing as [r s'] eqn:Hlist.
  assert (r = Ok full_types ∧ s' = full_listing.2) as [-> ->].
  { rewrite Hlist. split; [|done]. unfold full_types. rewrite Hlist. 
    assert (is_ok full_listing.1 = true) as Hok by (vm_compute; reflexivity). rewrite Hlist in Hok.
    by destruct r. }
  destruct (capacity_error_avoided (SC := ttl_map (list Subnet)) (UC := ttl_map unit) full_options (λ _, Ok (f32_of_Z 1)) (λ _, None)
    "us-ashburn-1" 2 full_request full_zone "Out of host capacity." (EService 500 "InternalError" "Out of host capacity.")
    toy_state_0 refused toy_start (Instance.launch full_request full_zone toy_state_0).1 0 toy_class
    full_provider full_listing.2 full_types) as [_ Havoid].
  - reflexivity.
  - reflexivity.
  - reflexivity.
  - apply (goes_clean 0 0); [lia|]. apply goes_stay. lia.
  - exact Hlist.
  - vm_compute. split; discriminate.
  - apply Forall_forall. intros claim _ it z Hp. apply (Havoid eq_refl claim full_types it z (λ x Hx, Hx) Hp).
Defined.
