(* ===== verification/ControllerExamples.v ===== *)
(** * Examples for the controllers *)

From stdpp Require Import base list strings gmap sorting.
From Stdlib Require Import ZArith SpecFloat Lia.
From S2P Require Import Prelude GoStrings GoFloat OciModel Api Options Cache Sched Selector.
From S2P Require Import KubeModel ImageFamily UnavailableOfferings Paging Reconcile Toy.
From S2P Require Import CloudExamples.
From S2P Require Import Threads Rely.
From S2P Require Instance CloudProvider Garbage Collector Workers Tagging NodeClassHash NodeClassStatus.

Local Open Scope string_scope.

#[local] Existing Instance list_order.

(** ** Garbage collection *)

(** The cloud lists two instances; the cluster has a claim for the first. *)
#[local] Instance toy_cloud : Cloud Z toy_world := {
  cloud_List := mret [toy_claim "" "ocid1.instance.oc1..1"; toy_claim "" "ocid1.instance.oc1..2"];
  cloud_Delete nc := Instance.Delete (Claim_ProviderID nc)
}.

Definition toy_later : Garbage.State toy_world := {|
  Garbage.successfulCount := 0;
  Garbage.gc_world := {| toy_now := time_Hour; toy_launched := []; toy_gone := [] |}
|}.

Notation toy_listed := [toy_claim "" "ocid1.instance.oc1..1"; toy_claim "" "ocid1.instance.oc1..2"].
Notation toy_nodes := [toy_node "ocid1.instance.oc1..1"; toy_node "ocid1.instance.oc1..2"].

(** The instance with a claim is never terminated. *)
Lemma Garbage_safe_witness :
  "ocid1.instance.oc1..1" ∉ toy_gone (Garbage.gc_world (Garbage.Reconcile (Q := Z) toy_later).2).
Proof.
  destruct (Garbage.Reconcile (Q := Z) toy_later) as [r s'] eqn:Hr.
  apply (Garbage.Garbage_safe (λ w, "ocid1.instance.oc1..1" ∉ toy_gone w) toy_later s' toy_listed
    [toy_claim "claim-1" "ocid1.instance.oc1..1"] toy_nodes (Garbage.gc_world toy_later)
    (Garbage.gc_world toy_later) (Garbage.gc_world toy_later) r).
  - reflexivity.
  - reflexivity.
  - reflexivity.
  - intros nc w (_ & _ & _ & [Hid|Hid]) _ Hw; simpl.
    + rewrite Hid. apply not_elem_of_cons. split; [discriminate|exact Hw].
    + apply not_elem_of_cons. split; [|exact Hw]. intros Heq.
      apply (Hid (toy_claim "claim-1" "ocid1.instance.oc1..1")); [left|exact Heq].
  - intros n w [Hn _] Hw. simpl. apply not_elem_of_cons. split; [|exact Hw].
    repeat (apply elem_of_cons in Hn as [->|Hn]; [discriminate|]). by apply elem_of_nil in Hn.
  - apply not_elem_of_nil.
  - exact Hr.
Defined.

(** *** Workers *)

(** Time passes and other instances go meanwhile. *)
Definition toy_meanwhile (w w' : toy_world) : Prop :=
  (toy_now w <= toy_now w')%Z ∧ ∀ id, id ∈ toy_gone w → id ∈ toy_gone w'.
Notation toy_meanwhile_but id := (λ w w', toy_meanwhile w w' ∧ (id ∈ toy_gone w' → id ∈ toy_gone w)).
Notation toy_other := (toy_meanwhile_but "ocid1.instance.oc1..1").

Notation toy_owned := [toy_claim "claim-1" "ocid1.instance.oc1..1"].

(** The two workers take turns; the second terminates the instance and deletes its node. *)
Lemma toy_sweep : ∃ w', Workers.sweeping toy_other toy_listed toy_owned toy_nodes (Garbage.gc_world toy_later) (Ok []) w'.
Proof.
  eexists. exists (Ok []). eexists. split.
  - eexists. split; [apply moves_steps, (schedule_moves [1; 0; 1; 0; 1; 1])|]. split; [|reflexivity].
    vm_compute. reflexivity.
  - exists (Ok []). eexists. split; [|split; reflexivity].
    eexists. split; [apply rtc_refl|]. split; reflexivity.
Qed.

Lemma toy_lists l c n w :
  Workers.listed (Q := Z) toy_other (Garbage.gc_world toy_later) l c n w → l = toy_listed ∧ c = toy_owned ∧
    n = toy_nodes ∧ "ocid1.instance.oc1..1" ∉ toy_gone w ∧ (time_Hour <= toy_now w)%Z.
Proof.
  intros (w1 & w2 & (v1 & Ho1 & Hc1) & (v2 & Ho2 & Hc2) & (v3 & Ho3 & Hc3)).
  injection Hc1 as <- <-. injection Hc2 as <- <-. injection Hc3 as <- <-.
  assert (rtc toy_other (Garbage.gc_world toy_later) v3) as Ho by by do 2 (eapply rtc_trans; [eassumption|]).
  split_and!; [done..| |].
  - assert (∀ a b, rtc toy_other a b → "ocid1.instance.oc1..1" ∈ toy_gone b → "ocid1.instance.oc1..1" ∈ toy_gone a)
      as Hback by (induction 1 as [|a b d [_ Hab]]; auto).
    intros Hin%(Hback _ _ Ho). by apply elem_of_nil in Hin.
  - assert (∀ a b, rtc toy_other a b → (toy_now a <= toy_now b)%Z) as Hlater
      by (induction 1 as [|a b d [[Hab _] _]]; [lia|etrans; done]).
    by apply Hlater in Ho.
Qed.

Lemma Reconciling_spec_witness :
  ∃ w', Workers.sweeping toy_other toy_listed toy_owned toy_nodes (Garbage.gc_world toy_later) (Ok []) w' ∧
    "ocid1.instance.oc1..1" ∉ toy_gone w' ∧ "ocid1.instance.oc1..2" ∈ toy_gone w'.
Proof.
  destruct toy_sweep as [swept Hsweep]. exists swept. split; [exact Hsweep|].
  assert (Workers.listed (Q := Z) toy_other (Garbage.gc_world toy_later) toy_listed toy_owned toy_nodes
    (Garbage.gc_world toy_later)) as Hlisted.
  { exists (Garbage.gc_world toy_later), (Garbage.gc_world toy_later).
    split_and!; exists (Garbage.gc_world toy_later); (split; [apply rtc_refl|reflexivity]). }
  pose proof (Workers.Reconciling_Ok toy_other toy_later _ _ _ _ _ Hlisted Hsweep) as Hr.
  destruct (Workers.Reconciling_spec (Q := Z) toy_other (λ nc w, Claim_ProviderID nc ∈ toy_gone w)
    (λ l c n w, c = toy_owned → n = toy_nodes → "ocid1.instance.oc1..1" ∉ toy_gone w)) with (s := toy_later)
    as [_ Hall]; [..|destruct (Hall _ _ Hr) as [[_ Hno]|(l & c & n & w & Hl & HP & Hdone)]].
  - intros nc w r w' Hd. injection Hd as <- <-. split; [split; [done|by right]|]. by left.
  - intros n w r w' Hd. injection Hd as <- <-. split; [done|by right].
  - intros w w' [[Hnow Hgone] _]. split; [exact Hnow|]. intros y. apply Hgone.
  - intros l c n w w' [_ Hback] Hw Hc Hn Hin. by apply (Hw Hc Hn), Hback.
  - intros l c n nc w (_ & _ & _ & Hid) _ Hw Hc Hn. simpl. apply not_elem_of_cons. split; [|by apply Hw].
    destruct Hid as [->|Hid]; [discriminate|]. intros Heq. subst c. by apply (Hid (toy_claim "claim-1" "ocid1.instance.oc1..1")); [left|].
  - intros l c ns n w [Hin _] Hw Hc ->. simpl. apply not_elem_of_cons. split; [|by apply Hw].
    repeat (apply elem_of_cons in Hin as [->|Hin]; [discriminate|]). by apply elem_of_nil in Hin.
  - intros l c n w (_ & _ & _ & Hw & _)%toy_lists _ _. exact Hw.
  - by destruct (Hno _ eq_refl).
  - apply toy_lists in Hl as (-> & -> & -> & _ & Hnow). split; [by apply HP|].
    apply (Hdone _ (toy_claim "" "ocid1.instance.oc1..2") eq_refl); [right; left|reflexivity|reflexivity|].
    apply Garbage.orphan_spec. split; [by apply (bool_decide_unpack _); vm_compute|].
    apply (Z.lt_le_trans _ time_Hour); [by apply (bool_decide_unpack _)|]. simpl. by rewrite Z.sub_0_r.
Defined.

(** *** A claim that gets its id late

    An instance [i] is launched at 0 and its claim has its id from 29 seconds on. *)

Record late_world := { late_now : Z; late_gone : list string }.
#[local] Instance late_clock : Clock late_world := late_now.
#[local] Instance late_cloud : Cloud Z late_world := {
  cloud_List := mret [toy_claim "" "i"];
  cloud_Delete nc := λ w, (Ok tt, {| late_now := late_now w; late_gone := Claim_ProviderID nc :: late_gone w |})
}.
#[local] Instance late_kube : KubeClient Z late_world := {
  kube_GetNodeClass _ := mret toy_class;
  kube_GetNodePool name := mret {| Pool_Name := name; Pool_NodeClassRef := Some "default" |};
  kube_ListNodeClaims _ := λ w, (Ok (if (time_Second * 29 <=? late_now w)%Z then [toy_claim "c" "i"] else []), w);
  kube_ListNodes := mret [];
  kube_DeleteNode _ := mret tt;
  kube_PatchNodeClaim _ _ := mret tt;
  kube_PatchNodeClass _ _ _ := mret tt;
  kube_PatchNodeClassStatus _ _ := mret tt;
  recorder_Publish _ := mret tt
}.

Definition late_passes (w w' : late_world) : Prop := (late_now w <= late_now w')%Z ∧ late_gone w' = late_gone w.
Definition late_at (seconds : Z) : late_world := {| late_now := (time_Second * seconds)%Z; late_gone := [] |}.
Definition late_start : Garbage.State late_world := {| Garbage.successfulCount := 0; Garbage.gc_world := late_at 28 |}.

Lemma late_listed w : rtc late_passes (late_at 28) w →
  Workers.listed (Q := Z) late_passes (late_at 28) [toy_claim "" "i"] [] [] w.
Proof.
  intros Hw. exists (late_at 28), (late_at 28).
  split_and!; [exists (late_at 28); split; [apply rtc_refl|reflexivity]..|].
  exists w. split; [exact Hw|reflexivity].
Qed.

(** A pass that lists at 28 seconds and checks at 31 terminates the instance, whose claim has its
    id by then. *)
Lemma late_collected :
  ∃ result s', Workers.Reconciling (Q := Z) late_passes late_start (Ok result) s' ∧
    "i" ∈ late_gone (Garbage.gc_world s') ∧
    (kube_ListNodeClaims None (Garbage.gc_world s')).1 = Ok [toy_claim "c" "i"].
Proof.
  eexists _, _. split.
  - eapply (Workers.Reconciling_Ok late_passes late_start); [apply (late_listed (late_at 31))|].
    + apply rtc_once. by split; [apply (bool_decide_unpack _)|].
    + eexists (Ok []), _. split.
      * eexists. split; [apply moves_steps, (schedule_moves [0; 0])|]. split; [|reflexivity]. vm_compute. reflexivity.
      * exists (Ok []). eexists. split; [|split; reflexivity]. eexists. split; [apply rtc_refl|]. split; reflexivity.
  - split; [left|reflexivity].
Qed.

(** One that ends by 29 seconds spares it. *)
Lemma owned_instance_spared_witness :
  ∃ r s', Workers.Reconciling (Q := Z) late_passes late_start r s' ∧ "i" ∉ late_gone (Garbage.gc_world s').
Proof.
  assert (∃ w', Workers.sweeping (Q := Z) late_passes [toy_claim "" "i"] [] [] (late_at 28) (Ok []) w' ∧ late_now w' = (time_Second * 28)%Z)
    as (w' & Hsweep & Hnow).
  { eexists. split.
    - eexists (Ok []), _. split.
      + eexists. split; [apply moves_steps, (schedule_moves [0; 0])|]. split; [|reflexivity]. vm_compute. reflexivity.
      + exists (Ok []). eexists. split; [|split; reflexivity]. eexists. split; [apply rtc_refl|]. split; reflexivity.
    - reflexivity. }
  pose proof (Workers.Reconciling_Ok late_passes late_start _ _ _ _ _ (late_listed (late_at 28) (rtc_refl _ _)) Hsweep) as Hr.
  eexists _, _. split; [exact Hr|].
  apply (Workers.owned_instance_spared (Q := Z) late_passes "i" 0 (time_Second * 29))
    with (Safe := λ w, "i" ∉ late_gone w) (e := time_Second) (12 := Hr).
  - discriminate.
  - intros nc w Hne Hw. simpl. apply not_elem_of_cons. by split.
  - by intros n w Hw.
  - by split_and!; intros w Hw.
  - intros w w1 [_ Hgone] Hw. simpl. by rewrite Hgone.
  - by intros nc t w Hw.
  - by intros n t w Hw.
  - by split_and!; intros t w Hw.
  - by intros w w1 [Hlater _].
  - intros w retrieved w1 nc [= <- <-] Hin _. by apply list_elem_of_singleton in Hin as ->.
  - intros w claims w1 [= <- <-] Hd. exists (toy_claim "c" "i"). split; [|reflexivity].
    apply Z.leb_le in Hd. change (0 + time_Second * 29)%Z with (time_Second * 29)%Z in Hd.
    unfold clock_now, late_clock in Hd. rewrite Hd. left.
  - simpl. unfold clock_now, late_clock. rewrite Hnow. by apply (bool_decide_unpack _).
  - by apply (bool_decide_unpack _).
  - apply not_elem_of_nil.
Defined.

(** The collector over the cloud provider, an hour after a launch whose claim
    is lost. *)
Definition toy_leak : Garbage.State toy_cloud_state := {|
  Garbage.successfulCount := 0;
  Garbage.gc_world := toy_cloud_at {| toy_now := time_Hour; toy_launched := [toy_managed_launch]; toy_gone := [] |}
|}.

Notation toy_pass := (Collector.pass (TC := ttl_map (gmap string WrapShape)) (UC := ttl_map unit)
  toy_options toy_price toy_parse "us-ashburn-1" 2).
Notation toy_leak_list := (CloudProvider.List (TC := ttl_map (gmap string WrapShape)) (UC := ttl_map unit)
  toy_options toy_price toy_parse "us-ashburn-1" 2 (Garbage.gc_world toy_leak)).

Lemma leaked_instance_terminated_witness :
  "ocid1.instance.oc1..claim-2" ∈ toy_gone (CloudProvider.cp_world (Garbage.gc_world (toy_pass toy_leak).2)).
Proof.
  assert (is_ok (toy_pass toy_leak).1 && is_ok toy_leak_list.1 = true ∧
          toy_now (CloudProvider.cp_world toy_leak_list.2) = time_Hour) as [[Hok1 Hok2]%andb_true_iff Hnow]
    by (vm_compute; split; reflexivity).
  destruct (toy_pass toy_leak) as [[result|e|why] s'] eqn:Hr; [|discriminate Hok1..].
  destruct toy_leak_list as [[retrieved|e|why] w1] eqn:Hl; [|discriminate Hok2..].
  apply (Collector.leaked_instance_terminated (TC := ttl_map (gmap string WrapShape)) (UC := ttl_map unit)
    toy_options toy_price toy_parse "us-ashburn-1" 2 (λ id w, id ∈ toy_gone w)) with (s := toy_leak) (result := result)
    (w1 := w1) (w2 := CloudProvider.set_cp_world (CloudProvider.cp_world w1) w1)
    (w3 := CloudProvider.set_cp_world (CloudProvider.cp_world w1) w1) (retrieved := retrieved)
    (claims := [toy_claim "claim-1" "ocid1.instance.oc1..1"]) (nodes := toy_nodes)
    (chunks := [[toy_launched_instance]]) (w' := CloudProvider.cp_world (Garbage.gc_world toy_leak))
    (i := toy_launched_instance) (created := 0%Z).
  - intros id w r w' Ht. simpl in Ht. injection Ht as <- <-. split; [|eexists _, _; split; [reflexivity|split]].
    + split; [exact (Z.le_refl _)|]. intros id' Hid. by right.
    + intros _. by left.
    + intros e He. discriminate He.
  - intros n w r w' Hd. simpl in Hd. injection Hd as <- <-. split; [exact (Z.le_refl _)|]. intros id Hid. by right.
  - exact Hr.
  - discriminate.
  - apply chain_last with (next := None); reflexivity.
  - exact (le_S _ _ (le_n _)).
  - exact Hl.
  - reflexivity.
  - reflexivity.
  - left.
  - split; [vm_compute; reflexivity|]. intros [Ht|Ht]; discriminate Ht.
  - reflexivity.
  - reflexivity.
  - intros c Hc. apply list_elem_of_singleton in Hc as ->. discriminate.
  - simpl in Hnow. unfold clock_now, toy_clock. simpl. rewrite Hnow. reflexivity.
Defined.

Notation toy_pass_beside := (Collector.pass_beside (TC := ttl_map (gmap string WrapShape)) (UC := ttl_map unit)
  toy_options toy_price toy_parse "us-ashburn-1" 2 (λ _ _, False)).

Lemma rtc_nothing {A} (a b : A) : rtc (λ _ _, False) a b → a = b.
Proof. destruct 1; [reflexivity|contradiction]. Qed.

(** The same pass among those of the workers, with nothing else beside it. *)
Lemma leaked_instance_collected_witness :
  ∃ result s', toy_pass_beside toy_leak (Ok result) s' ∧
    "ocid1.instance.oc1..claim-2" ∈ toy_gone (CloudProvider.cp_world (Garbage.gc_world s')).
Proof.
  assert (is_ok (toy_pass toy_leak).1 && is_ok toy_leak_list.1 = true ∧
          toy_now (CloudProvider.cp_world toy_leak_list.2) = time_Hour) as [[Hok1 Hok2]%andb_true_iff Hnow]
    by (vm_compute; split; reflexivity).
  destruct (toy_pass toy_leak) as [[result|e|why] s'] eqn:Hr; [|discriminate Hok1..].
  assert (toy_pass_beside toy_leak (Ok result) s') as Hpass.
  { apply (Workers.Reconcile_is_pass _ toy_leak s' result); [reflexivity|exact Hr]. }
  exists result, s'. split; [exact Hpass|].
  destruct (Collector.leaked_instance_collected (TC := ttl_map (gmap string WrapShape)) (SC := ttl_map (list Subnet))
    (UC := ttl_map unit) toy_options toy_price toy_parse "us-ashburn-1" 2 (λ id w, id ∈ toy_gone w)) with (4 := Hpass)
    as (s0 & w1 & w2 & w3 & retrieved & claims & nodes & Hs0 & Hl & Hc2 & Hc3 & Hgone).
  - intros id w r w' Ht. simpl in Ht. injection Ht as <- <-. split; [|eexists _, _; split; [reflexivity|split]].
    + split; [exact (Z.le_refl _)|]. intros id' Hid. by right.
    + intros _. by left.
    + intros e He. discriminate He.
  - intros n w r w' Hd. simpl in Hd. injection Hd as <- <-. split; [exact (Z.le_refl _)|]. intros id Hid. by right.
  - intros a b [].
  - discriminate.
  - apply rtc_nothing in Hs0 as <-. destruct Hc2 as (v2 & <-%rtc_nothing & Hc2).
    destruct Hc3 as (v3 & <-%rtc_nothing & Hc3).
    injection Hc2 as <- <-. injection Hc3 as <- <-.
    eapply (Hgone [[toy_launched_instance]]).
    + apply chain_last with (next := None); reflexivity.
    + exact (le_S _ _ (le_n _)).
    + left.
    + split; [vm_compute; reflexivity|]. intros [Ht|Ht]; discriminate Ht.
    + reflexivity.
    + reflexivity.
    + intros c Hc. apply list_elem_of_singleton in Hc as ->. discriminate.
    + change (toy_leak_list = (Ok retrieved, w1)) in Hl. rewrite Hl in Hnow. simpl in Hnow. unfold clock_now, toy_clock. simpl. rewrite Hnow. reflexivity.
Defined.

(** ** Tagging *)

Definition toy_sleep (d : Z) (w : toy_world) : toy_world :=
  {| toy_now := (toy_now w + d)%Z; toy_launched := toy_launched w; toy_gone := toy_gone w |}.

Definition toy_node_launch : LaunchInstanceDetails := {|
  Launch_SubnetId := Some "s"; Launch_NsgIds := []; Launch_VolumeAttachments := [];
  Launch_ImageId := "i"; Launch_BootVolumeVpusPerGB := 20; Launch_BootVolumeSizeInGBs := 100;
  Launch_DefinedTags := ∅; Launch_CompartmentId := ""; Launch_DisplayName := "claim-1";
  Launch_AvailabilityDomain := "AD-1"; Launch_Shape := "VM.Standard2.2"; Launch_Metadata := ∅;
  Launch_Preemptible := false; Launch_ShapeConfig := None; Launch_LaunchOptions := None; Launch_AgentPlugins := []
|}.
Definition toy_one_launch : toy_world := {| toy_now := 0; toy_launched := [toy_node_launch]; toy_gone := [] |}.

Definition toy_tagged_class : OciNodeClass := {|
  NC_Meta := toy_meta "default"; Status := Status toy_class;
  Spec := {| VcnId := VcnId toy_spec; ImageSelector := []; SubnetSelector := SubnetSelector toy_spec;
    SecurityGroupSelector := []; UserData := None; PreInstallScript := None; MetaData := ∅;
    ImageFamily := ImageFamily toy_spec; Tags := ∅; DefinedTags := ∅; FreeFormTags := {["team" := "a"]};
    Kubelet := None; NodeClass_BootConfig := Some toy_boot; NodeClass_LaunchOptions := None;
    BlockDevices := []; AgentList := [] |}
|}.

Section TaggedClass.
#[local] Instance toy_tagged_kube : KubeClient Z toy_world := {
  kube_GetNodeClass _ := mret toy_tagged_class; kube_GetNodePool := kube_GetNodePool (KubeClient := toy_kube);
  kube_ListNodeClaims := kube_ListNodeClaims (KubeClient := toy_kube); kube_ListNodes := kube_ListNodes (KubeClient := toy_kube);
  kube_DeleteNode := kube_DeleteNode (KubeClient := toy_kube); kube_PatchNodeClaim := kube_PatchNodeClaim (KubeClient := toy_kube);
  kube_PatchNodeClass := kube_PatchNodeClass (KubeClient := toy_kube);
  kube_PatchNodeClassStatus := kube_PatchNodeClassStatus (KubeClient := toy_kube);
  recorder_Publish := recorder_Publish (KubeClient := toy_kube)
}.

(** The tag of the class is sent, and the patch is made a second later. *)
Lemma Tagging_spec_witness :
  Tagging.missing_tags (FreeFormTags (Spec toy_tagged_class)) (Inst_FreeformTags (toy_instance toy_node_launch)) = {["team" := "a"]} ∧
  Tagging.Reconcile toy_sleep (toy_claim "claim-1" "ocid1.instance.oc1..1") toy_one_launch =
    (Ok no_requeue, toy_sleep time_Second toy_one_launch).
Proof.
  pose proof (Tagging.Tagging_spec toy_sleep (toy_claim "claim-1" "ocid1.instance.oc1..1") toy_tagged_class
    (toy_instance toy_node_launch) "default"
    toy_one_launch toy_one_launch toy_one_launch eq_refl eq_refl eq_refl eq_refl) as (_ & _ & Hr).
  split; [vm_compute; reflexivity|]. rewrite Hr. vm_compute. reflexivity.
Defined.
End TaggedClass.

(** ** Hashes *)

Definition toy_rehashed : NodeClaim Z :=
  set_claim_meta (set_annotations
    (<[AnnotationOciNodeClassHash := "42"]> (<[AnnotationOciNodeClassHashVersion := OciNodeClassHashVersion]>
      {[ManagedByAnnotationKey := "toy"]})) (Claim_Meta (toy_claim "claim-1" "ocid1.instance.oc1..1")))
    (toy_claim "claim-1" "ocid1.instance.oc1..1").

(** A class and a claim without a version: both are patched, and the next pass does nothing. *)
Lemma Hash_Reconcile_converges_witness :
  ∃ new, NodeClassHash.carries_hash toy_class new "42" ∧
    NodeClassHash.Hash_Reconcile (Q := Z) (λ _, Ok 42%Z) toy_class toy_start =
      NodeClassHash.patched (Q := Z) toy_class new "42" toy_start ∧
    ∀ w : toy_world, NodeClassHash.Hash_Reconcile (Q := Z) (λ _, Ok 42%Z) new w = (Ok no_requeue, w).
Proof.
  destruct (NodeClassHash.Hash_Reconcile_converges (Q := Z) (λ _, Ok 42%Z) toy_class "42" toy_start eq_refl)
    as (new & Hc & _ & Hold & Hnext).
  exists new. split; [exact Hc|]. split; [|exact Hnext].
  assert (NodeClassHash.class_annotation toy_class AnnotationOciNodeClassHashVersion ≠ OciNodeClassHashVersion) as Hv
    by (intros Hv; vm_compute in Hv; discriminate Hv).
  destruct (Hold Hv) as [_ Hpass].
  rewrite (Hpass [toy_claim "claim-1" "ocid1.instance.oc1..1"] toy_start [] toy_start eq_refl).
  2:{ apply NodeClassHash.updated_patched with (new := toy_rehashed) (w1 := toy_start); [intros Hq; vm_compute in Hq; discriminate Hq| |reflexivity|constructor].
      split; [reflexivity|]. split; [reflexivity|]. split; [|reflexivity].
      intros k Hk1 Hk2. cbn. rewrite !lookup_insert_ne; congruence. }
  reflexivity.
Defined.

(** ** Termination *)

Definition toy_deleted_class : OciNodeClass := {|
  NC_Meta := {| Meta_Name := "default"; Labels := ∅; Annotations := ∅; Finalizers := [TerminationFinalizer];
                DeletionTimestamp := Some 0%Z |};
  Spec := toy_spec; Status := Status toy_class
|}.

(** A claim still uses the class: nothing is patched. *)
Lemma Termination_safe_witness :
  (NodeClassHash.Termination_Reconcile (Q := Z) toy_deleted_class toy_start).2 = toy_start.
Proof.
  apply (NodeClassHash.Termination_safe (Q := Z) (λ w, w = toy_start)).
  - reflexivity.
  - intros ref w ->. reflexivity.
  - intros ev w ->. reflexivity.
  - intros w0 w1 _ Hl _. discriminate Hl.
Defined.

(** ** Status *)

Notation toy_status_state := (NodeClassStatus.State toy_world (ttl_map (list (WrapImage (gmap string set_req))))
  (ttl_map (list Subnet)) (ttl_map (list NetworkSecurityGroup))).

Definition toy_status_0 : toy_status_state := {|
  NodeClassStatus.ns_images := cache_new DefaultTTL; NodeClassStatus.ns_subnets := cache_new DefaultTTL;
  NodeClassStatus.ns_groups := cache_new DefaultTTL; NodeClassStatus.ns_world := toy_start
|}.

Definition toy_status_class : OciNodeClass := {|
  NC_Meta := toy_meta "default";
  Spec := {| VcnId := "ocid1.vcn.oc1..1";
    ImageSelector := [{| IST_Id := ""; IST_Name := "Oracle-Linux-8"; IST_CompartmentId := "c" |}];
    SubnetSelector := [{| SST_Id := ""; SST_Name := "nodes" |}];
    SecurityGroupSelector := [{| SGT_Id := ""; SGT_Name := "workers" |}];
    UserData := None; PreInstallScript := None; MetaData := ∅;
    ImageFamily := OracleOKELinuxImageFamily; Tags := ∅; DefinedTags := ∅; FreeFormTags := ∅; Kubelet := None;
    NodeClass_BootConfig := None; NodeClass_LaunchOptions := None; BlockDevices := []; AgentList := [] |};
  Status := {| Status_Subnets := []; Status_Images := []; Status_SecurityGroups := []; Status_Conditions := [] |}
|}.

Notation toy_reconcilers :=
  [NodeClassStatus.Image_Reconcile (Rqs := gmap string set_req) (λ _, Ok 0%Z);
   NodeClassStatus.Subnet_Reconcile toy_options (λ _, Ok 0%Z) (λ _, "10");
   NodeClassStatus.SecurityGroup_Reconcile toy_options (λ _, Ok 0%Z)].

Definition toy_reconcile : run toy_status_state (OciNodeClass * list Result * list gerror) :=
  NodeClassStatus.reconcile_all toy_reconcilers toy_status_class.

Lemma Status_invariant_witness :
  ∃ new s' results, toy_reconcile toy_status_0 = (Ok (new, results, []), s') ∧
    NodeClassStatus.decided ConditionTypeImageReady new ∧
    Sorted (NodeClassStatus.by_id SI_Id) (Status_Images (Status new)).
Proof.
  assert (match (toy_reconcile toy_status_0).1 with Ok (_, _, []) => true | _ => false end = true) as Hok
    by (vm_compute; reflexivity).
  destruct (toy_reconcile toy_status_0) as [[[[new results] [|e errs]]|e|why] s'] eqn:Hr; try discriminate Hok.
  exists new, s', results.
  destruct (NodeClassStatus.Status_invariant (Rqs := gmap string set_req) toy_options (λ _, Ok 0%Z) (λ _, Ok 0%Z)
    (λ _, Ok 0%Z) (λ _, "10") toy_status_class new toy_status_0 s' results []) as (_ & _ & _ & Hdone).
  - split_and!; intros Hc; vm_compute in Hc; discriminate Hc.
  - exact Hr.
  - destruct (Hdone eq_refl) as (Hd & _ & _ & Hs). split_and!; [reflexivity|exact Hd|exact Hs].
Defined.
