(* ===== verification/RegistrationExamples.v ===== *)
(** * Examples for [Registration]: a small API server and a queue

    A server of classes and claims with its watches and a queue of requests
    satisfy the laws; a class waits for its last claim and is released. *)

From stdpp Require Import base list strings gmap relations.
From Stdlib Require Import ZArith Lia.
From S2P Require Import Prelude Frame GoStrings OciModel Api Options Cache Sched KubeModel Reconcile.
From S2P Require Import Registration Toy.
From S2P Require NodeClassHash.

Local Open Scope string_scope.

(** ** The queue: the instant each request is due *)

Definition sooner (x : string) (t : Z) (q : gmap string Z) : gmap string Z :=
  <[x := match q !! x with Some d => Z.min d t | None => t end]> q.

#[export] Instance toy_runtime : Runtime Z (gmap string Z) := {
  pending q x := q !! x;
  receive xs now q := foldr (λ x, sooner x now) q xs;
  take x q := delete x q;
  finish x r now q :=
    if prompt r then sooner x (now + time_Minute) q
    else match r with
         | Ok result => if (0 <? RequeueAfter result)%Z then sooner x (now + RequeueAfter result) q else q
         | _ => q
         end;
  max_backoff := time_Minute
}.

Lemma sooner_due x t q : due_by t (sooner x t q !! x).
Proof.
  unfold sooner. rewrite lookup_insert_eq. eexists. split; [done|]. destruct (q !! x); lia.
Qed.

Lemma sooner_keeps x y t t' q : due_by t (q !! y) → due_by t (sooner x t' q !! y).
Proof.
  intros (d & Hd & Hle). unfold sooner. destruct (decide (x = y)) as [<-|Hne].
  - rewrite lookup_insert_eq, Hd. eexists. split; [done|lia].
  - rewrite lookup_insert_ne by done. by exists d.
Qed.

Lemma sooner_other x y t q : x ≠ y → sooner x t q !! y = q !! y.
Proof. intros Hne. unfold sooner. by rewrite lookup_insert_ne. Qed.

#[export] Instance toy_runtime_laws : RuntimeLaws Z (gmap string Z).
Proof.
  split; cbn [pending receive take finish max_backoff toy_runtime].
  - by vm_compute.
  - intros xs now q x. induction xs as [|y xs IH]; intros [->|Hx]%elem_of_cons || intros Hx%elem_of_nil; [done|..].
    + apply sooner_due.
    + by apply sooner_keeps, IH.
  - intros xs now q x t Ht. induction xs as [|y xs IH]; [done|]. by apply sooner_keeps.
  - intros x y q Hne. by rewrite lookup_delete_ne.
  - intros x y r now q Hne. destruct (prompt r); [by rewrite sooner_other|].
    destruct r as [result| |]; [|done..]. destruct (0 <? _)%Z; [by rewrite sooner_other|done].
  - intros x r now q t Ht. destruct (prompt r); [by apply sooner_keeps|].
    destruct r as [result| |]; [|done..]. destruct (0 <? _)%Z; [by apply sooner_keeps|done].
  - intros x r now q ->. apply sooner_due.
Qed.

(** ** The server *)

Record api := {
  api_now : Z;
  api_classes : gmap string OciNodeClass;
  api_claims : gmap string (NodeClaim Z)
}.
#[export] Instance api_clock : Clock api := api_now.

Definition api_class (w : api) (name : string) : option OciNodeClass :=
  match api_classes w !! name with
  | Some c => if String.eqb (Meta_Name (NC_Meta c)) name then Some c else None
  | None => None
  end.
Definition api_uses (name : string) (nc : NodeClaim Z) : bool := bool_decide (Claim_NodeClassRef nc = Some name).
Definition api_claims_of (w : api) (name : string) : list (NodeClaim Z) :=
  List.filter (api_uses name) (map snd (map_to_list (api_claims w))).
Definition api_used (w : api) (name : string) : bool :=
  match api_claims_of w name with [] => false | _ => true end.

Definition set_api_class (name : string) (c : option OciNodeClass) (w : api) : api :=
  {| api_now := api_now w; api_classes := partial_alter (λ _, c) name (api_classes w); api_claims := api_claims w |}.

(** A merge patch: the annotations that differ, and the finalizers when they do. *)
Definition merged (old new c : ObjectMeta) : ObjectMeta :=
  let a := filter (λ kv, Annotations old !! kv.1 = Annotations new !! kv.1) (Annotations c) ∪
           filter (λ kv, Annotations old !! kv.1 ≠ Annotations new !! kv.1) (Annotations new) in
  let f := if decide (Finalizers old = Finalizers new) then Finalizers c else Finalizers new in
  set_finalizers f (set_annotations a c).

(** The optimistic lock looks at the finalizers; a deleted class without any is gone. *)
Definition api_patch (lock : bool) (old new : OciNodeClass) (w : api) : res unit * api :=
  let name := Meta_Name (NC_Meta new) in
  match api_class w name with
  | None => (Err EK8sNotFound, w)
  | Some c =>
      if lock && negb (bool_decide (Finalizers (NC_Meta c) = Finalizers (NC_Meta old))) then (Err EK8sConflict, w)
      else
        let m := merged (NC_Meta old) (NC_Meta new) (NC_Meta c) in
        let gone := bool_decide (Finalizers m = []) && negb (bool_decide (DeletionTimestamp m = None)) in
        (Ok tt, set_api_class name (if gone then None else Some (NodeClassHash.set_class_meta m c)) w)
  end.

#[export] Instance api_kube : KubeClient Z api := {
  kube_GetNodeClass name := λ w,
    (match api_class w name with Some c => Ok c | None => Err EK8sNotFound end, w);
  kube_GetNodePool name := mret {| Pool_Name := name; Pool_NodeClassRef := None |};
  kube_ListNodeClaims ref := λ w,
    (Ok (match ref with Some name => api_claims_of w name | None => map snd (map_to_list (api_claims w)) end), w);
  kube_ListNodes := mret [];
  kube_DeleteNode _ := mret tt;
  kube_PatchNodeClaim _ _ := mret tt;
  kube_PatchNodeClass := api_patch;
  kube_PatchNodeClassStatus _ _ := mret tt;
  recorder_Publish _ := mret tt
}.

(** The watches report the classes that are new or changed, and the claims that are gone. *)
Definition api_reported (ch : change) (l : list (string * OciNodeClass)) : list (watch_event Z) :=
  map (λ kc, {| Ev_Change := ch; Ev_Of := ObjNodeClass kc.2 |}) l.
Definition api_existing (w : api) : list (watch_event Z) := api_reported Created (map_to_list (api_classes w)).
Definition api_observed (w w' : api) : list (watch_event Z) :=
  api_reported Updated
    (List.filter (λ kc, negb (bool_decide (api_classes w !! kc.1 = Some kc.2))) (map_to_list (api_classes w'))) ++
  map (λ knc, {| Ev_Change := Deleted; Ev_Of := ObjNodeClaim knc.2 |})
    (List.filter (λ knc, negb (bool_decide (Claim_NodeClassRef <$> api_claims w' !! knc.1 = Some (Claim_NodeClassRef knc.2))))
       (map_to_list (api_claims w))).

Lemma api_class_name w name c : api_class w name = Some c → Meta_Name (NC_Meta c) = name ∧ api_classes w !! name = Some c.
Proof.
  unfold api_class. destruct (api_classes w !! name) as [c'|]; [|done].
  destruct (String.eqb_spec (Meta_Name (NC_Meta c')) name); [|done]. by intros [= <-].
Qed.

Lemma merged_annotation old new c k :
  Annotations old !! k ≠ Annotations new !! k → Annotations (merged old new c) !! k = Annotations new !! k.
Proof.
  intros Hk. unfold merged. simpl.
  assert (filter (λ kv, Annotations old !! kv.1 = Annotations new !! kv.1) (Annotations c) !! k = None) as Hnone.
  { apply map_lookup_filter_None. right. by intros v _. }
  rewrite lookup_union, Hnone, left_id by apply _.
  destruct (Annotations new !! k) as [v|] eqn:Hv; [apply map_lookup_filter_Some|apply map_lookup_filter_None].
  - split; [done|]. simpl. by rewrite Hv.
  - by left.
Qed.

Lemma api_patch_class lock old new w w' c :
  api_patch lock old new w = (Ok tt, w') → api_class w' (Meta_Name (NC_Meta new)) = Some c →
  ∃ c0, NC_Meta c = merged (NC_Meta old) (NC_Meta new) (NC_Meta c0).
Proof.
  unfold api_patch. destruct (api_class w _) as [c0|]; [|done].
  destruct (lock && _); [done|]. destruct (bool_decide _ && _); intros [= <-] Hc;
    apply api_class_name in Hc as [_ Hc]; cbn [api_classes set_api_class] in Hc; rewrite lookup_partial_alter_eq in Hc;
    [done|]. injection Hc as <-. by exists c0.
Qed.

Lemma api_observed_class w w' name c :
  api_class w' name = Some c →
  api_class w name = Some c ∨ {| Ev_Change := Updated; Ev_Of := ObjNodeClass c |} ∈ api_observed w w'.
Proof.
  intros [Hn Hc]%api_class_name. destruct (decide (api_classes w !! name = Some c)) as [Hold|Hnew]; [left|right].
  - unfold api_class. by rewrite Hold, (proj2 (String.eqb_eq _ _) Hn).
  - unfold api_observed, api_reported. apply elem_of_app. left. apply list_elem_of_fmap. exists (name, c).
    split; [done|]. rewrite list_elem_of_In, List.filter_In, <- list_elem_of_In, elem_of_map_to_list.
    split; [done|]. by rewrite negb_true_iff, bool_decide_eq_false.
Qed.

Lemma api_used_true w name :
  api_used w name = true ↔ ∃ k nc, api_claims w !! k = Some nc ∧ Claim_NodeClassRef nc = Some name.
Proof.
  unfold api_used. assert (∀ nc, nc ∈ api_claims_of w name ↔
    ∃ k, api_claims w !! k = Some nc ∧ Claim_NodeClassRef nc = Some name) as Hin.
  { intros nc. unfold api_claims_of. rewrite list_elem_of_In, List.filter_In, List.in_map_iff.
    setoid_rewrite <- list_elem_of_In. unfold api_uses. rewrite bool_decide_eq_true. split.
    - intros [([k nc'] & <- & Hk%elem_of_map_to_list) Href]. by exists k.
    - intros (k & Hk & Href). split; [|done]. exists (k, nc). split; [done|by apply elem_of_map_to_list]. }
  destruct (api_claims_of w name) as [|nc l] eqn:Hl.
  - split; [done|]. intros (k & nc & Hk & Href). assert (nc ∈ []) as []%elem_of_nil. apply Hin. eauto.
  - split; [intros _|done]. destruct (proj1 (Hin nc)) as (k & Hk & Href); [by left|eauto].
Qed.

Lemma api_laws : server_laws api_class api_used api_observed api_existing.
Proof.
  split; cbn [kube_GetNodeClass kube_ListNodeClaims kube_PatchNodeClass api_kube].
  - intros name w r w' [= <- <-]. split; [done|]. by destruct (api_class w name).
  - intros w name c Hc. by apply api_class_name in Hc as [? _].
  - intros name w r w' [= <- <-]. split; [done|]. intros cs [= <-]. unfold api_used.
    by destruct (api_claims_of w name).
  - intros lock old new w w' c Hp _ Hc. destruct (api_patch_class _ _ _ _ _ _ Hp Hc) as [c0 ->]. split.
    + intros k. apply merged_annotation.
    + intros Hf. unfold merged. simpl. by rewrite decide_False.
  - intros lock old new w w' e. unfold api_patch. destruct (api_class w _) eqn:Hc.
    + destruct (lock && _); [|by destruct (bool_decide _ && _)]. by intros [= <- <-].
    + by intros [= <- <-].
  - intros w w' name c [?|?]%(api_observed_class w); [by left|right; by exists Updated].
  - intros w w' name (k & nc & Hk & Href)%api_used_true Hun. exists nc. split; [|done].
    unfold api_observed. apply elem_of_app. right. apply list_elem_of_fmap. exists (k, nc). split; [done|].
    rewrite list_elem_of_In, List.filter_In, <- list_elem_of_In, elem_of_map_to_list. split; [done|].
    rewrite negb_true_iff, bool_decide_eq_false. simpl. intros Hsame.
    destruct (api_claims w' !! k) as [nc'|] eqn:Hk'; [|done]. simpl in Hsame.
    apply not_true_iff_false in Hun. apply Hun, api_used_true. exists k, nc'. split; [done|congruence].
  - intros w name c [_ Hc]%api_class_name. unfold api_existing, api_reported. apply list_elem_of_fmap.
    exists (name, c). split; [done|by apply elem_of_map_to_list].
  - intros t lock old new w Ht. unfold api_patch. destruct (api_class w _); [|done].
    destruct (lock && _); [done|by destruct (bool_decide _ && _)].
  - by intros t old new w Ht.
  - by intros t ev w Ht.
Qed.

(** ** A class that is deleted while a claim uses it *)

Definition released_class (deleted : option Z) : OciNodeClass := {|
  NC_Meta := {| Meta_Name := "default"; Labels := ∅; Annotations := ∅; Finalizers := [TerminationFinalizer];
                DeletionTimestamp := deleted |};
  Spec := Spec toy_class; Status := Status toy_class
|}.
Definition api_at (now : Z) (deleted : option Z) (claims : list (string * NodeClaim Z)) : api :=
  {| api_now := now; api_classes := {["default" := released_class deleted]}; api_claims := list_to_map claims |}.

Definition before : api := api_at 0 None [("claim-1", toy_claim "claim-1" "i")].
Definition deleting : api := api_at 1 (Some 1%Z) [("claim-1", toy_claim "claim-1" "i")].
Definition unused : api := api_at 2 (Some 1%Z) [].

Notation release_pass := (pass_of (NodeClassHash.Termination_Reconcile (Q := Z))).
Notation releasing := (manage (Qu := gmap string Z) termination_Register release_pass api_observed
  (λ w w', api_now w <= api_now w')%Z).

(** The queue at the start, after the deletion of the class, after the pass, and after the deletion
    of the claim. *)
Notation woken_by w w' := (woken termination_Register (api_observed w w')).
Notation queue_start := (receive (Qu := gmap string Z) (woken termination_Register (api_existing before)) (clock_now before) ∅).
Definition queue_deleting : gmap string Z := receive (woken_by before deleting) (clock_now deleting) queue_start.
Definition queue_waiting : gmap string Z :=
  finish "default" (Ok (requeue_after (time_Minute * 10))) (clock_now deleting)
    (receive (woken_by deleting deleting) (clock_now deleting) (take "default" queue_deleting)).
Definition queue_unused : gmap string Z := receive (woken_by deleting unused) (clock_now unused) queue_waiting.

(** While the claim is there the pass puts the class off for ten minutes; the deletion of the claim
    brings it forward. *)
Example queues : map (λ q, q !! "default") [queue_start; queue_deleting; queue_waiting; queue_unused] =
  [Some 0; Some 0; Some (1 + time_Minute * 10); Some 2]%Z.
Proof. vm_compute. reflexivity. Qed.
Lemma releasing_run : rtc releasing (before, queue_start) (unused, queue_unused).
Proof.
  apply (rtc_l _ _ (deleting, queue_deleting)).
  { apply (manage_world termination_Register release_pass api_observed _ before deleting queue_start).
    by apply (bool_decide_unpack _). }
  apply (rtc_l _ _ (deleting, queue_waiting)).
  { apply (manage_pass termination_Register release_pass api_observed _ "default" 0%Z deleting _ deleting queue_deleting);
      [by vm_compute|by apply (bool_decide_unpack _)|by vm_compute]. }
  apply rtc_once. apply (manage_world termination_Register release_pass api_observed _ deleting unused queue_waiting).
  by apply (bool_decide_unpack _).
Qed.

Example released : (release_pass "default" unused).1 = Ok no_requeue ∧
  api_classes (release_pass "default" unused).2 = ∅.
Proof. by vm_compute. Qed.

Lemma deleted_class_released_witness :
  due_by (2 + time_Minute) (queue_unused !! "default") ∧
  ∀ c, api_class (release_pass "default" unused).2 "default" = Some c → NodeClassHash.has_finalizer c = false.
Proof.
  destruct (deleted_class_released (Q := Z) api_class api_used api_observed api_existing api_laws
    (λ w w', api_now w <= api_now w')%Z before ∅ unused queue_unused "default" (λ _ _ H, H) releasing_run)
    as [Hdue Hpass].
  { exists (released_class (Some 1%Z)). split_and!; [reflexivity|discriminate|reflexivity|reflexivity]. }
  split; [exact Hdue|]. intros c Hc.
  by apply (Hpass (release_pass "default" unused).1 (release_pass "default" unused).2);
    [apply surjective_pairing|vm_compute|].
Defined.

(** The hash of the class is written by the first pass of the hash controller. *)
Lemma class_hash_awaited_witness :
  due_by (clock_now before + max_backoff (Q := Z) (Qu := gmap string Z))
    (pending (receive (Qu := gmap string Z) (woken hash_Register (api_existing before)) (clock_now before) ∅) "default").
Proof.
  apply (class_hash_awaited (Q := Z) api_class api_used api_observed api_existing api_laws
    (λ _, Ok 42%Z) (λ w w', api_now w <= api_now w')%Z before ∅ before _ "default" (λ _ _ H, H)); [apply rtc_refl|].
  exists (released_class None). eexists. split_and!; [reflexivity|reflexivity|]. intros Hann.
  apply (f_equal (λ m, m !! AnnotationOciNodeClassHash)) in Hann. by vm_compute in Hann.
Defined.
