(* ===== verification/StartExamples.v ===== *)
(** * Examples for [OciConfig] and [Operator]

    A host whose metadata service answers, with a configuration file that
    leaves the location to it. *)

From stdpp Require Import base list strings gmap.
From Stdlib Require Import ZArith SpecFloat Lia.
From S2P Require Import Prelude GoStrings GoFloat OciModel Api Options Cache.
From S2P Require Import UnavailableOfferings ImageFamily Sched Toy OciConfig Operator.
From S2P Require CloudProvider.

Local Open Scope string_scope.

#[local] Existing Instance list_order.

Definition host_metadata : InstanceMetadata :=
  {| MD_CompartmentID := "ocid1.compartment.oc1..host"; MD_Region := "iad"; MD_CanonicalRegionName := "us-ashburn-1" |}.

#[export] Instance host_http : HttpClient toy_world := {
  http_NewRequest m u := Ok {| Req_Method := m; Req_URL := u; Req_Header := [] |};
  http_Do _ r := mret (Some (if bool_decide (Req_Header r = [("Authorization", "Bearer Oracle")])
                             then {| Resp_StatusCode := 200; Resp_Body := "{}" |}
                             else {| Resp_StatusCode := 404; Resp_Body := "" |}));
  json_Decode _ := Ok host_metadata
}.

(** The location, the passphrase and the principals are in deprecated places
    or missing. *)
Definition old_config (compartment : string) : Config toy_world := {|
  Auth := {| Region := ""; TenancyID := "t"; UserID := "u"; PrivateKey := "k"; Fingerprint := "f"; Passphrase := "new";
             Auth_RegionKey := ""; Auth_UseInstancePrincipals := false; Auth_CompartmentID := compartment;
             PrivateKeyPassphrase := "old"; Auth_metadataSvc := None |};
  RateLimiter := None; RegionKey := ""; UseInstancePrincipals := false; CompartmentID := ""; metadataSvc := None
|}.

#[export] Instance host_process : Process toy_world := {
  os_LookupEnv _ _ := None;
  os_Open path := if String.eqb path "/etc/oci/config.yaml" then mret "config" else fail (EText "no such file");
  yaml_Decode text := Ok (if String.eqb text "config" then Some (old_config "") else None)
}.

(** A provider of credentials is the list of what it was made of. *)
#[export] Instance host_sdk : OciSdk (list string) toy_world := {
  InstancePrincipalConfigurationProvider := mret ["instance"];
  NewRawConfigurationProvider t u r f k p := [t; u; r; f; k; p];
  DefaultConfigProvider := ["default"]
}.

#[export] Instance host_operator : OperatorSdk (list string) string string toy_world := {
  user_HomeDir := mret "/root";
  CustomProfileSessionTokenConfigProvider path profile := [path; profile];
  OkeWorkloadIdentityConfigurationProvider := mret ["oke"];
  NewIdentityClient _ := Ok tt; NewComputeClient _ := Ok tt; NewVirtualNetworkClient _ := Ok tt;
  ListAvailabilityDomains _ := mret [Some "JPqd:US-ASHBURN-AD-1"; Some "JPqd:US-ASHBURN-AD-2"];
  CP_Region _ := Ok "us-ashburn-1";
  TransportConfig r := Ok r; TLSConfigFor t := Ok t; TLS_CAData t := t
}.

Definition aggregate (l : list FieldError) : option gerror :=
  match l with [] => None | _ => Some (EText "invalid") end.

Lemma aggregate_nil l : aggregate l = None ↔ l = [].
Proof. by destruct l. Qed.

Lemma host_steady : steady (Some (Get New)) (inr host_metadata : gerror + InstanceMetadata).
Proof. exists (Get New : run toy_world InstanceMetadata). split; [done|]. intros w. reflexivity. Qed.

Lemma ReadConfig_spec_witness :
  ∃ c, ReadConfig (Some "config") toy_start = (Ok c, toy_start) ∧
    Region (Auth c) = "us-ashburn-1" ∧ CompartmentID c = "ocid1.compartment.oc1..host" ∧ RegionKey c = "iad" ∧ Passphrase (Auth c) = "new".
Proof.
  destruct (ReadConfig_spec (inr host_metadata) "config" (old_config "") toy_start)
    as (c & Hc & Hr & Hcid & Hk & _ & Hp & _); [reflexivity|exact host_steady|].
  exists c. split_and!; [exact Hc|exact Hr|exact Hcid|exact Hk|exact Hp].
Defined.

(** The configuration above, completed, and what the client gets. *)
Definition host_config : Config toy_world :=
  match ReadConfig (Some "config") toy_start with (Ok c, _) => c | _ => old_config "" end.

Lemma host_usable : usable host_config.
Proof. apply (Config_Validate_spec aggregate aggregate_nil). vm_compute. reflexivity. Qed.

(** The passphrase the client gets is the deprecated one. *)
Lemma NewConfigurationProvider_spec_witness :
  NewConfigurationProvider aggregate (Some host_config) toy_start =
    (Ok ["t"; "u"; "us-ashburn-1"; "f"; "k"; "old"], toy_start).
Proof.
  destruct (NewConfigurationProvider_spec aggregate aggregate_nil host_config toy_start) as (Hok & _).
  rewrite (Hok host_usable). reflexivity.
Defined.

(** The file has neither compartment nor region: both are the metadata's. *)
Lemma NewOCIProvisioner_spec_witness :
  given_compartment (inr host_metadata) (old_config "") = "ocid1.compartment.oc1..host" ∧
  NewOCIProvisioner aggregate toy_start = (Ok ["t"; "u"; "us-ashburn-1"; "f"; "k"; "old"], toy_start).
Proof.
  split; [reflexivity|].
  destruct (NewOCIProvisioner_spec aggregate aggregate_nil (inr host_metadata) "config" (old_config "") toy_start toy_start)
    as [Hok _]; [reflexivity|reflexivity|exact host_steady|].
  rewrite Hok; [reflexivity|]. apply (bool_decide_unpack _). vm_compute. exact I.
Defined.

(** Without any configured bundle and REST client, by workload identity. *)
Definition started :=
  NewOperator (CP := list string) (RC := string) (TC := string) (Rqs := gmap string set_req)
    (IC := ttl_map (list (WrapImage (gmap string set_req)))) (SC := ttl_map (list Subnet))
    (GC := ttl_map (list NetworkSecurityGroup)) (SH := ttl_map (gmap string WrapShape)) (UC := ttl_map unit)
    aggregate None default_options None toy_start.

Lemma NewOperator_spec_witness :
  match started.1 with
  | Ok op => AvailableDomains (Op_Options op) = ["JPqd:US-ASHBURN-AD-1"; "JPqd:US-ASHBURN-AD-2"] ∧
             TP_CABundle (Op_Templates op) = None
  | _ => False
  end.
Proof.
  destruct (NewOperator_spec (CP := list string) (RC := string) (TC := string) (Rqs := gmap string set_req)
    (IC := ttl_map (list (WrapImage (gmap string set_req)))) (SC := ttl_map (list Subnet))
    (GC := ttl_map (list NetworkSecurityGroup)) (SH := ttl_map (gmap string WrapShape)) (UC := ttl_map unit)
    aggregate None default_options None toy_start started.2 started.1) as [Hop _].
  - reflexivity.
  - assert (is_ok started.1 = true) as Hok by (vm_compute; reflexivity).
    destruct started.1 as [op|e|why]; [|discriminate Hok|discriminate Hok].
    destruct Hop as (cp & items & w1 & Hcp & Hads & Ho & _ & Hca & _).
    injection Hca as <-. split; [|reflexivity]. rewrite Ho.
    injection Hads as <- _. reflexivity.
Defined.
