(* ===== verification/SystemExamples.v ===== *)
(** * Examples for [System]

    The operator of a small start-up, an hour of its life, and the launch it
    makes. *)

From stdpp Require Import base list strings gmap relations.
From Stdlib Require Import ZArith SpecFloat Lia.
From S2P Require Import Prelude Frame GoStrings GoFloat Utils OciModel Api Options Cache.
From S2P Require Import UnavailableOfferings Sched KubeModel ImageFamily Reconcile Operator Capacity Launches System.
From S2P Require Import Toy CloudExamples StartExamples.
From S2P Require Pricing PriceList Bootstrap InstanceType Instance CloudProvider.

Local Open Scope string_scope.

#[local] Existing Instance list_order.

Notation toy_operator := (Operator (W := toy_world) (IC := ttl_map (list (WrapImage toy_rqs)))
  (SC := ttl_map (list Subnet)) (GC := ttl_map (list NetworkSecurityGroup)) (SH := ttl_map (gmap string WrapShape))
  (UC := ttl_map unit)).
Notation toy_system := (System (W := toy_world) (TC := ttl_map (gmap string WrapShape)) (SC := ttl_map (list Subnet))
  (UC := ttl_map unit) (IC := ttl_map (list (WrapImage toy_rqs))) (GC := ttl_map (list NetworkSecurityGroup))).

Definition toy_started : res toy_operator * toy_world :=
  NewOperator (CP := list string) (RC := string) (TC := string) aggregate (Some PriceList.default_catalog)
    toy_options None toy_start.

Definition toy_op : toy_operator := {|
  Op_Options := toy_options; Op_Region := "us-ashburn-1";
  Op_Templates := {| TP_CABundle := None; TP_ClusterEndpoint := ""; TP_BootstrapToken := "" |};
  Op_Cloud := toy_cloud_at toy_start;
  Op_Images := cache_new DefaultTTL; Op_SecurityGroups := cache_new DefaultTTL;
  Op_Pricing := Pricing.NewDefaultProvider (Some PriceList.default_catalog) ""
|}.

Lemma toy_op_started : toy_started = (Ok toy_op, toy_start).
Proof. reflexivity. Qed.

(** A second of sleep takes a second; otherwise the time passes by itself. *)
Definition toy_later (d : Z) (w : toy_world) : toy_world :=
  {| toy_now := toy_now w + Z.max 0 d; toy_launched := toy_launched w; toy_gone := toy_gone w |}.
Definition toy_env (w w' : toy_world) : Prop := ∃ d, w' = toy_later d w.

Notation toy_perform := (perform (Rqs := toy_rqs) toy_sdk toy_ipv6 toy_hash toy_hash toy_hash toy_hash Bootstrap.Taint_Key (λ s, s)
  toy_hostname toy_parts toy_parse (λ _, "") (λ _, no_requeue) (λ _ _, None) (λ _, None) (λ _, false) toy_later 2 toy_op "b").
Notation toy_step := (step (Rqs := toy_rqs) toy_sdk toy_ipv6 toy_hash toy_hash toy_hash toy_hash Bootstrap.Taint_Key (λ s, s)
  toy_hostname toy_parts toy_parse (λ _, "") (λ _, no_requeue) (λ _ _, None) (λ _, None) (λ _, false) toy_later 2 toy_op toy_env).

(** A launch, an hour, a pass of the collector and one of the janitor. *)
Definition toy_morning : toy_system := (toy_perform (DoCreate (toy_claim "claim-2" "")) (assemble toy_op)).2.
Definition toy_noon : toy_system := set_sys_world (toy_later (60 * time_Minute) (sys_world toy_morning)) toy_morning.
Definition toy_day : toy_system := (toy_perform RunJanitor (toy_perform RunGarbageCollection toy_noon).2).2.

Lemma toy_step_perform o s : toy_step s (toy_perform o s).2.
Proof. eapply (step_operation _ _ _ _ _ _ _ _ _ _ _ _ _ _ _ _ _ _ _ _ _ _ _ "b" o s (toy_perform o s).1). by destruct (toy_perform o s). Qed.

Lemma toy_day_steps : rtc toy_step (assemble toy_op) toy_day.
Proof.
  eapply rtc_l; [apply (toy_step_perform (DoCreate (toy_claim "claim-2" "")))|].
  eapply rtc_l; [apply step_world; by exists (60 * time_Minute)%Z|].
  eapply rtc_l; [apply (toy_step_perform RunGarbageCollection)|].
  eapply rtc_l; [apply (toy_step_perform RunJanitor)|]. apply rtc_refl.
Qed.

(** The instance that was launched has no claim by then. *)
Example toy_day_world :
  let w := sys_world toy_day in
  (map Launch_Shape (toy_launched w), toy_gone w, toy_now w) =
    (["VM.Standard.E4.Flex"], ["ocid1.instance.oc1..claim-2"], (60 * time_Minute)%Z).
Proof. vm_compute. reflexivity. Qed.

(** What the clients of [Toy] do to the log of launches, and to the clock. *)
Ltac toy_answers :=
  first [by destruct (_ || _) | destruct (toy_launched _) eqn:E; simpl; by rewrite ?E | by destruct (String.eqb _ _)].

Lemma toy_logged (A : LaunchInstanceDetails → Prop) : closed Z A (λ w, Forall A (toy_launched w)).
Proof.
  split; intros; try (intros v Hv); simpl; try done.
  1: destruct (_ || _); simpl; [done|apply Forall_cons_2; assumption].
  all: try apply keeps_ret; toy_answers.
Qed.

Lemma toy_clock_closed t : closed Z (λ _, True) (λ w : toy_world, (t <= clock_now w)%Z).
Proof.
  split; intros; try (intros v Hv); simpl; try done; try apply keeps_ret; toy_answers.
Qed.

Lemma toy_clock_goes_on : clock_goes_on (Q := Z) toy_later toy_env.
Proof.
  split_and!; [apply toy_clock_closed|..].
  - intros d w. unfold clock_now, toy_clock, toy_later. simpl. lia.
  - intros w w' [d ->]. unfold clock_now, toy_clock, toy_later. simpl. lia.
Qed.

(** The day's launch is in a domain of the compartment. *)
Lemma launched_proper_witness :
  map Launch_DisplayName (toy_launched (sys_world toy_day)) = ["claim-2"] ∧
  Forall (λ req, Launch_AvailabilityDomain req ∈ ["JPqd:US-ASHBURN-AD-1"; "JPqd:US-ASHBURN-AD-2"] ∧
            Launch_CompartmentId req = CompartmentId toy_options)
    (toy_launched (sys_world toy_day)).
Proof.
  split; [vm_compute; reflexivity|]. apply Forall_forall. intros req Hreq.
  destruct (launched_proper (CP := list string) (RC := string) (TLS := string)
    toy_sdk toy_ipv6 toy_hash toy_hash toy_hash toy_hash Bootstrap.Taint_Key (λ s, s)
    toy_hostname toy_parts toy_parse (λ _, "") (λ _, no_requeue) (λ _ _, None) (λ _, None) (λ _, false) toy_later 2
    aggregate (Some PriceList.default_catalog) toy_env toy_launched toy_logged (λ d w, eq_refl)
    (λ w w' Hw, match Hw with ex_intro _ d Hd => f_equal toy_launched Hd end)
    toy_options None toy_start toy_start toy_op toy_day req toy_op_started eq_refl toy_day_steps Hreq)
    as (class & claim & subnet & it & image & ad & domains & w2 & Hads & Had & _ & _ & _ & _ & _ & _ & Hfor).
  destruct Hfor as (Hcomp & _ & _ & _ & -> & _). injection Hads as <-. split; [exact Had|exact Hcomp].
Defined.

(** A shape that ran out of capacity in one of its zones at the start. *)
Definition toy_marked : toy_system := set_sys_offerings
  (MarkUnavailable 0 "VM.Standard2.2" "US-ASHBURN-AD-1" CapacityTypeOnDemand
     (CloudProvider.cp_offerings (sys_cloud (assemble toy_op)))) (assemble toy_op).

(** A minute and a pass of the janitor later. *)
Definition toy_minute : toy_system :=
  let s := (toy_perform (DoCreate (toy_claim "claim-2" "")) toy_marked).2 in
  (toy_perform RunJanitor (set_sys_world (toy_later time_Minute (sys_world s)) s)).2.

Definition toy_relisted := CloudProvider.list_instance_types (Rqs := toy_rqs) (Q := Z) toy_options
  (price_of (λ _ _, None) toy_minute) toy_parse "us-ashburn-1" 2 toy_class (sys_cloud toy_minute).

Lemma toy_minute_steps : rtc toy_step toy_marked toy_minute.
Proof.
  eapply rtc_l; [apply (toy_step_perform (DoCreate (toy_claim "claim-2" "")))|].
  eapply rtc_l; [apply step_world; by exists time_Minute|].
  eapply rtc_l; [apply (toy_step_perform RunJanitor)|]. apply rtc_refl.
Qed.

Lemma toy_marked_until now :
  (now <=? 3 * time_Minute)%Z = true →
  IsUnavailable now "VM.Standard2.2" "US-ASHBURN-AD-1" CapacityTypeOnDemand
    (CloudProvider.cp_offerings (sys_cloud toy_marked)) = true.
Proof.
  intros Hnow. change (IsUnavailable now "VM.Standard2.2" "US-ASHBURN-AD-1" CapacityTypeOnDemand
    (MarkUnavailable 0 "VM.Standard2.2" "US-ASHBURN-AD-1" CapacityTypeOnDemand
      (NewUnavailableOfferings : UnavailableOfferings (ttl_map unit))) = true).
  unfold IsUnavailable, MarkUnavailable. cbn [cache]. rewrite Get_Set_eq.
  change (0 + _)%Z with (3 * time_Minute)%Z. by rewrite Hnow.
Qed.

(** What is left there is preemptible. *)
Lemma marked_offering_avoided_witness :
  ∃ its c, toy_relisted = (Ok its, c) ∧
    ∀ it o, it ∈ its → IT_Name it = "VM.Standard2.2" → o ∈ IT_Offerings it →
      Instance.offering_zone o = "US-ASHBURN-AD-1" → Of_Available o = true →
      InstanceType.only (Reqs_Get (Of_Requirements o) CapacityTypeLabelKey) CapacityTypePreemptible.
Proof.
  assert (is_ok toy_relisted.1 && (toy_now (CloudProvider.cp_world toy_relisted.2) <=? 3 * time_Minute)%Z = true) as Hc
    by (vm_compute; reflexivity).
  destruct toy_relisted as [[its|e|why] c] eqn:Hlist; [|discriminate Hc..]. exists its, c. split; [reflexivity|].
  intros it o Hit Hname Ho Hz Ha.
  destruct (marked_offering_avoided toy_sdk toy_ipv6 toy_hash toy_hash toy_hash toy_hash Bootstrap.Taint_Key (λ s, s)
    toy_hostname toy_parts toy_parse (λ _, "") (λ _, no_requeue) (λ _ _, None) (λ _, None) (λ _, false) toy_later 2
    toy_op toy_env toy_marked toy_minute c "VM.Standard2.2" "US-ASHBURN-AD-1" (3 * time_Minute) toy_class its it o)
    as [Hleft _]; [exact toy_clock_goes_on|..|exact toy_minute_steps|exact Hlist| |exact Hit|exact Hname|exact Ho|exact Hz|exact Ha|].
  - discriminate.
  - intros now [_ Hnow]. apply Z.leb_le in Hnow. by apply toy_marked_until.
  - apply Z.leb_le. exact Hc.
  - exact Hleft.
Defined.
