(* ===== verification/ConcurrentExamples.v ===== *)
(** * Examples for [Concurrent]

    Two launches side by side in the small cloud, and in one whose only subnet
    has addresses for one of them. *)

From stdpp Require Import base list strings gmap relations.
From Stdlib Require Import ZArith SpecFloat Lia.
From S2P Require Import Prelude Frame Threads GoStrings GoFloat Utils OciModel Api.
From S2P Require Import Options Cache UnavailableOfferings Sched KubeModel ImageFamily.
From S2P Require Import Reconcile Operator Capacity Launches Goroutines System Concurrent.
From S2P Require Import Toy NetworkExamples CloudExamples StartExamples SystemExamples.
From S2P Require Pricing PriceList Bootstrap Subnet InstanceType Instance CloudProvider.

Local Open Scope string_scope.

#[local] Existing Instance list_order.

Notation toy_launch := (launch_thread (Rqs := toy_rqs) toy_sdk toy_ipv6 toy_hash toy_hash Bootstrap.Taint_Key (λ s, s)
  toy_hostname toy_parts toy_parse (λ _ _, None) 2 toy_op "b").
Notation toy_launches_step := (launches_step (Rqs := toy_rqs) toy_sdk toy_ipv6 toy_hash toy_hash toy_hash toy_hash
  Bootstrap.Taint_Key (λ s, s) toy_hostname toy_parts toy_parse (λ _, "") (λ _, no_requeue) (λ _ _, None) (λ _, None)
  (λ _, false) toy_later 2 toy_op toy_env).
Notation toy_pool := (pool (L := mutex) (S := toy_system) (A := NodeClaim Z)).

(** ** Two launches, step by step in turn *)

Definition in_turn (n : nat) : list nat := concat (repeat [0; 1] n).

Section Both.
Context {network : VirtualNetworkClient toy_world}.

Definition both (a b : NodeClaim Z) (s : toy_system) : toy_pool := start (toy_launch b) (start (toy_launch a) (idle s)).

Lemma both_steps a b s l : rtc toy_launches_step (idle s) (schedule l (both a b s)).
Proof.
  eapply rtc_l; [apply (pool_start _ _ _ (toy_launch a)); by exists _, _, "b", a|].
  eapply rtc_l; [apply (pool_start _ _ _ (toy_launch b)); by exists _, _, "b", b|].
  apply moves_steps, schedule_moves.
Qed.
End Both.

Definition toy_both : toy_pool :=
  schedule (in_turn 80) (both (toy_claim "claim-2" "") (toy_claim "claim-3" "") (assemble toy_op)).

Lemma toy_both_steps : rtc toy_launches_step (idle (assemble toy_op)) toy_both.
Proof. exact (both_steps (toy_claim "claim-2" "") (toy_claim "claim-3" "") (assemble toy_op) (in_turn 80)). Qed.

(** Both listed the shapes and the subnets one after the other, and launched. *)
Example toy_both_world :
  (map Launch_DisplayName (toy_launched (sys_world (shared toy_both))), map_to_list (held toy_both),
   map (λ t, match t with Done r => is_ok r | _ => false end) (threads toy_both)) =
  (["claim-3"; "claim-2"], [], [true; true]).
Proof. vm_compute. reflexivity. Qed.

(** ** The theorems on them *)

(** Alone, a launch is the operation; it launches what [toy_morning] has. *)
Example launch_alone_world :
  map Launch_DisplayName (toy_launched (sys_world (seq (toy_launch (toy_claim "claim-2" "")) (assemble toy_op)).2)) =
  map Launch_DisplayName (toy_launched (sys_world toy_morning)).
Proof. vm_compute. reflexivity. Qed.



(** After a few steps, both can still return. *)
Definition toy_started_both : toy_pool :=
  schedule [0; 0; 1; 1; 0] (both (toy_claim "claim-2" "") (toy_claim "claim-3" "") (assemble toy_op)).

Lemma toy_started_both_steps : rtc toy_launches_step (idle (assemble toy_op)) toy_started_both.
Proof. exact (both_steps (toy_claim "claim-2" "") (toy_claim "claim-3" "") (assemble toy_op) [0; 0; 1; 1; 0]). Qed.

Lemma launches_return_witness :
  forallb (λ t, bool_decide (finished t)) (threads toy_started_both) = false ∧
  ∃ p', rtc move toy_started_both p' ∧ Forall finished (threads p').
Proof.
  split; [vm_compute; reflexivity|].
  apply (launches_return (Rqs := toy_rqs) toy_sdk toy_ipv6 toy_hash toy_hash toy_hash toy_hash Bootstrap.Taint_Key (λ s, s)
    toy_hostname toy_parts toy_parse (λ _, "") (λ _, no_requeue) (λ _ _, None) (λ _, None) (λ _, false) toy_later 2
    toy_op toy_env (assemble toy_op) toy_started_both), toy_started_both_steps.
Defined.

(** The launches made side by side are in a domain of the compartment. *)
Lemma launches_side_by_side_proper_witness :
  map Launch_DisplayName (toy_launched (sys_world (shared toy_both))) = ["claim-3"; "claim-2"] ∧
  Forall (λ req, Launch_AvailabilityDomain req ∈ ["JPqd:US-ASHBURN-AD-1"; "JPqd:US-ASHBURN-AD-2"] ∧
            Launch_CompartmentId req = CompartmentId toy_options)
    (toy_launched (sys_world (shared toy_both))).
Proof.
  split; [vm_compute; reflexivity|]. apply Forall_forall. intros req Hreq.
  destruct (Concurrent.launches_proper (CP := list string) (RC := string) (TLS := string)
    toy_sdk toy_ipv6 toy_hash toy_hash toy_hash toy_hash Bootstrap.Taint_Key (λ s, s)
    toy_hostname toy_parts toy_parse (λ _, "") (λ _, no_requeue) (λ _ _, None) (λ _, None) (λ _, false) toy_later 2
    aggregate (Some PriceList.default_catalog) toy_env toy_launched toy_logged (λ d w, eq_refl)
    (λ w w' Hw, match Hw with ex_intro _ d Hd => f_equal toy_launched Hd end)
    toy_options None toy_start toy_start toy_op toy_both req toy_op_started eq_refl toy_both_steps Hreq)
    as (class & claim & subnet & it & image & ad & domains & w2 & Hads & Had & _ & _ & _ & _ & _ & _ & Hfor).
  destruct Hfor as (Hcomp & _ & _ & _ & -> & _). injection Hads as <-. split; [exact Had|exact Hcomp].
Defined.

(** A marked table, two launches, a minute and a pass of the janitor. *)
Definition toy_busy : toy_pool :=
  schedule (in_turn 80) (both (toy_claim "claim-2" "") (toy_claim "claim-3" "") toy_marked).
Definition pass_time (d : Z) (p : toy_pool) : toy_pool :=
  set_shared (set_sys_world (toy_later d (sys_world (shared p))) (shared p)) p.
Definition operate (o : operation Z) (p : toy_pool) : toy_pool := set_shared (toy_perform o (shared p)).2 p.

Lemma pass_time_step d p : toy_launches_step p (pass_time d p).
Proof. apply pool_other, step_world. by exists d. Qed.
Lemma operate_step o p : toy_launches_step p (operate o p).
Proof. apply pool_other, toy_step_perform. Qed.

Definition toy_swept : toy_pool := operate RunJanitor (pass_time time_Minute toy_busy).

Lemma toy_busy_steps : rtc toy_launches_step (idle toy_marked) toy_busy.
Proof. exact (both_steps (toy_claim "claim-2" "") (toy_claim "claim-3" "") toy_marked (in_turn 80)). Qed.
Lemma toy_swept_steps : rtc toy_launches_step (idle toy_marked) toy_swept.
Proof.
  unfold toy_swept. generalize toy_busy_steps. generalize toy_busy. intros p Hp.
  eapply rtc_r; [eapply rtc_r; [exact Hp|apply pass_time_step]|apply operate_step].
Qed.

Notation toy_listed_after := (CloudProvider.list_instance_types (Rqs := toy_rqs) (Q := Z) (Op_Options toy_op)
  (price_in (λ _ _, None) (sys_prices (shared toy_swept))) toy_parse (Op_Region toy_op) 2 toy_class (sys_cloud (shared toy_swept))).

Lemma marks_stay_witness :
  ∃ its c, toy_listed_after = (Ok its, c) ∧
    ∀ it o, it ∈ its → IT_Name it = "VM.Standard2.2" → o ∈ IT_Offerings it →
      Instance.offering_zone o = "US-ASHBURN-AD-1" → Of_Available o = true →
      InstanceType.only (Reqs_Get (Of_Requirements o) CapacityTypeLabelKey) CapacityTypePreemptible.
Proof.
  assert (is_ok toy_listed_after.1 && (toy_now (CloudProvider.cp_world toy_listed_after.2) <=? 3 * time_Minute)%Z = true) as Hc
    by (vm_compute; reflexivity).
  destruct toy_listed_after as [[its|e|why] c] eqn:Hlist; [|discriminate Hc..]. exists its, c. split; [reflexivity|].
  intros it o Hit Hname Ho Hz Ha.
  destruct (marks_stay toy_sdk toy_ipv6 toy_hash toy_hash toy_hash toy_hash Bootstrap.Taint_Key (λ s, s)
    toy_hostname toy_parts toy_parse (λ _, "") (λ _, no_requeue) (λ _ _, None) (λ _, None) (λ _, false) toy_later 2
    toy_op toy_env toy_marked toy_swept c "VM.Standard2.2" "US-ASHBURN-AD-1" (3 * time_Minute) toy_class its it o)
    as [Hleft _]; [exact toy_clock_goes_on|..|exact toy_swept_steps|exact Hlist| |exact Hit|exact Hname|exact Ho|exact Hz|exact Ha|].
  - discriminate.
  - intros now [_ Hnow]. apply Z.leb_le in Hnow. by apply toy_marked_until.
  - apply Z.leb_le. exact Hc.
  - exact Hleft.
Defined.

(** ** One look at the free addresses each

    A subnet of 32 addresses, of which every launch takes six tenths. *)
Definition small_subnet : Subnet := {|
  Subnet_Id := Some "s"; Subnet_DisplayName := Some "nodes"; CidrBlock := Some "10.0.10.0/27";
  Subnet_CompartmentId := None; Subnet_VcnId := None; Subnet_TimeCreated := None
|}.
#[local] Instance small_network : VirtualNetworkClient toy_world := {
  client_ListSubnets _ _ name := mret (if String.eqb name "nodes" then [small_subnet] else []);
  client_GetSubnet _ := mret small_subnet;
  client_ListNetworkSecurityGroups _ _ _ := mret [toy_group "g"];
  client_GetNetworkSecurityGroup id := mret (toy_group id);
  client_GetVnic id := mret (toy_vnic id);
  client_GetSubnetCidrUtilization _ := λ w, (Ok [{| Smy_Cidr := Some "10.0.10.0/27";
    Smy_Utilization := Some (f32_of_Z (10 + 60 * Z.of_nat (length (toy_launched w)))); Smy_AddressType := "Private" |}], w);
  client_CreateNetworkSecurityGroup _ := fail (EText "not used");
  client_DeleteNetworkSecurityGroup _ := fail (EText "not used");
  client_CreateSubnet _ := fail (EText "not used");
  client_DeleteSubnet _ := fail (EText "not used")
}.

(** A claim that asks for room for twenty pods. *)
Definition twenty_pods (name : string) : NodeClaim Z :=
  let c := toy_claim name "" in {|
    Claim_Meta := Claim_Meta c; Claim_CreationTimestamp := Claim_CreationTimestamp c;
    Claim_Requirements := Claim_Requirements c; Claim_Taints := Claim_Taints c;
    Claim_StartupTaints := Claim_StartupTaints c; Claim_Requests := {[ResourcePods := (20 * nano)%Z]};
    Claim_NodeClassRef := Claim_NodeClassRef c; Claim_ProviderID := ""; Claim_ImageID := ""; Claim_NodeName := "";
    Claim_Capacity := ∅; Claim_Allocatable := ∅; Claim_Conditions := [] |}.

(** [n] steps of the first launch, all of the second, the rest of the first. *)
Definition turns (n : nat) : list nat := (repeat 0 n ++ repeat 1 100 ++ repeat 0 100)%list.
Definition after_first (n : nat) : toy_pool :=
  schedule (turns n) (both (twenty_pods "claim-2") (twenty_pods "claim-3") (assemble toy_op)).

Definition outcome (p : toy_pool) : list string * list (option (res string)) :=
  (map Launch_DisplayName (toy_launched (sys_world (shared p))),
   map (λ i, match returned i p with
             | Some (Ok nc) => Some (Ok (Claim_ProviderID nc)) | Some (Err e) => Some (Err e) | _ => None
             end) [0; 1]).

(** Launched one after the other, the second claim is refused. *)
Example one_after_the_other :
  outcome (after_first 100) =
  (["claim-2"], [Some (Ok "ocid1.instance.oc1..claim-2");
                 Some (Err (EText "not enough IPs are available on all subnets"))]).
Proof. vm_compute. reflexivity. Qed.

(** The first has counted when the second starts: both count the addresses before either launches: the subnet
    has room for one and gets both. *)
Theorem subnet_overcommitted :
  rtc (launches_step (Rqs := toy_rqs) toy_sdk toy_ipv6 toy_hash toy_hash toy_hash toy_hash
    Bootstrap.Taint_Key (λ s, s) toy_hostname toy_parts toy_parse (λ _, "") (λ _, no_requeue) (λ _ _, None) (λ _, None)
    (λ _, false) toy_later 2 toy_op toy_env) (idle (assemble toy_op)) (after_first 71) ∧
  outcome (after_first 71) =
    (["claim-2"; "claim-3"], [Some (Ok "ocid1.instance.oc1..claim-2"); Some (Ok "ocid1.instance.oc1..claim-3")]) ∧
  (Subnet.GetSubnetAvailableIPv4Count toy_ipv6 small_subnet toy_start).1 = Ok 29%Z ∧ (29 < 20 + 20)%Z.
Proof.
  split; [exact (both_steps (twenty_pods "claim-2") (twenty_pods "claim-3") (assemble toy_op) (turns 71))|].
  split; [vm_compute; reflexivity|]. split; [vm_compute; reflexivity|]. lia.
Qed.

(** ** The shared variables of the scripts *)

Definition set_data (pre : option string) (data : string) : Bootstrap.Options :=
  let o := toy_bootstrap in {|
    Bootstrap.ClusterName := Bootstrap.ClusterName o; Bootstrap.ClusterEndpoint := Bootstrap.ClusterEndpoint o;
    Bootstrap.ClusterDns := Bootstrap.ClusterDns o; Bootstrap.KubeletConfig := None; Bootstrap.Taints := [];
    Bootstrap.NodeLabels := ∅; Bootstrap.CABundle := Some "Q0E="; Bootstrap.BootstrapToken := "";
    Bootstrap.CustomUserData := Some data; Bootstrap.PreInstallScript := pre |}.

Notation toy_script := (ubuntu Bootstrap.Taint_Key (λ s, s) toy_host).

(** A node without a script before installation makes the script of one that
    has it panic, which is built when it is made alone. *)
Lemma Ubuntu_scripts_race_witness :
  is_ok (seq (toy_script (set_data (Some "echo first") "echo one")) Bootstrap.staticNodeBootstrapVars).1 = true ∧
  ∃ p why, rtc move {| threads := [toy_script (set_data (Some "echo first") "echo one");
                                   toy_script (set_data None "echo two")];
                       held := ∅; shared := Bootstrap.staticNodeBootstrapVars |} p ∧
    returned 0 p = Some (Panic why).
Proof.
  split; [vm_compute; reflexivity|].
  destruct (Ubuntu_scripts_race Bootstrap.Taint_Key (λ s, s) toy_host list_order (set_data (Some "echo first") "echo one")
    (set_data None "echo two") Bootstrap.staticNodeBootstrapVars "Q0E=" "Q0E=" "echo two" "10.0.0.1"
    eq_refl eq_refl eq_refl eq_refl) as (_ & p & r & Hp & Hr & _ & Hpanic).
  destruct (Hpanic (ex_intro _ "echo first" eq_refl) eq_refl) as [why ->]. exists p, why. split; [exact Hp|exact Hr].
Defined.
