(* ===== verification/FakeExamples.v ===== *)
(** * Examples on the fakes

    The fake clients over a concrete clock, the theorems at concrete inputs,
    and tests of the repository run on the model: their expectations are what
    the model computes. *)

From stdpp Require Import base list strings gmap pretty.
From Stdlib Require Import ZArith SpecFloat Lia.
From S2P Require Import Prelude GoStrings GoFloat OciModel Api Options Cache.
From S2P Require Import UnavailableOfferings Sched Selector KubeModel ImageFamily Mock FakeNetwork FakeCompute FakeEnvironment FakeSpec Fixtures Toy.
From S2P Require Import CloudExamples.
From S2P Require Subnet SecurityGroup Bootstrap Instance CloudProvider Garbage Collector.

Local Open Scope string_scope.
Local Open Scope list_scope.

#[local] Existing Instance list_order.

(** ** A clock, a counter of identifiers and one of other random texts *)

Record fake_env := { fe_now : Z; fe_uuids : N; fe_texts : N }.

#[local] Instance fake_clock : Clock fake_env := fe_now.
#[local] Instance fake_entropy : Entropy fake_env := {
  uuid_New e := ("uuid-" +:+ pretty (fe_uuids e),
                 {| fe_now := fe_now e; fe_uuids := fe_uuids e + 1; fe_texts := fe_texts e |});
  Alphanumeric _ e := (pretty (fe_texts e), {| fe_now := fe_now e; fe_uuids := fe_uuids e; fe_texts := fe_texts e + 1 |})
}.

#[local] Instance fake_entropy_laws : EntropyLaws fake_env.
Proof.
  refine {| issued e id := ∃ n, (n < fe_uuids e)%N ∧ id = "uuid-" +:+ pretty n |}.
  - simpl. intros e (n & Hn & Heq). apply (inj _), (inj _) in Heq. lia.
  - simpl. intros e id. split.
    + intros (n & Hn & ->). destruct (decide (n = fe_uuids e)) as [->|Hne]; [by left|]. right. exists n. split; [lia|done].
    + intros [->|(n & Hn & ->)]; [exists (fe_uuids e)|exists n]; (split; [lia|done]).
  - done.
Defined.

(** Texts that are the values. *)
#[local] Instance toy_cmp_json : CmpJson := {|
  json_Image := json_id (toy_image "" ""); json_Images := json_id [];
  json_WrapShape := json_id {| wShape := named_shape ""; CalcCpu := 0; CalMemInGBs := 0; OciModel.AvailableDomains := [];
                               CalMaxVnic := 0; CalMaxBandwidthInGbps := 0 |};
  json_Launch := json_id (toy_request ""); json_Instance := json_id zero_instance; json_Id := json_id None;
  json_Status := json_id None; json_GetAnswer := json_id (zero_instance, None); json_Attachments := json_id (None, []);
  json_ListRequest := json_id ("", ""); json_ListAnswer := json_id ([], None); json_ImagesRequest := json_id ("", None);
  json_UpdateRequest := json_id (None, ∅); json_UpdateAnswer := json_id (None, zero_instance)
|}.
#[local] Instance toy_cmp_laws : CmpJsonLaws.
Proof. split; apply json_id_laws. Defined.

#[local] Instance toy_vcn_json : VcnJson := {|
  json_Subnets := json_id []; json_Groups := json_id []; json_Subnet := json_id (toy_subnet "");
  json_Vnic := json_id (toy_vnic None); json_Group := json_id (toy_group ""); json_Deleted := json_id tt;
  json_Utilization := json_id ∅
|}.

(** ** The compute client *)

Definition fake_start : Fake CmpCli fake_env :=
  {| client := NewCmpCli; env := {| fe_now := 0; fe_uuids := 0; fe_texts := 0 |} |}.

Lemma fake_start_steady : steady fake_start.
Proof.
  split; [apply quiet_new|]. split; [apply own_ids_new|]. intros id. simpl. rewrite lookup_empty. by intros [? ?].
Qed.

Notation fake_calls :=
  [Launch (toy_request "shape-1"); Get "uuid-0"; Tag "uuid-0" {["k" := "v"]}; Terminate "uuid-0"; Terminate "uuid-0"; Get "uuid-0"].

(** A launch, a look, a tag, a termination and a second one. *)
Lemma fake_refines_cloud_witness :
  ∃ i rs s', perform_all fake_calls fake_start = (rs, s') ∧
    rs = [Launched (Ok i); Got (Ok (i, Some 200%Z)); Tagged (Ok (Some 200%Z, None)); Terminated (Ok (Some 200%Z, None));
          Terminated (Panic "nil pointer dereference"); Got (Err (ENodeClaimNotFound None))] ∧
    Inst_Id i = Some "uuid-0" ∧ steady s' ∧ spec_all (abs fake_start) fake_calls rs (abs s').
Proof.
  pose proof (fake_refines_cloud fake_calls fake_start fake_start_steady) as Hr.
  destruct (perform_all fake_calls fake_start) as [rs s'] eqn:Heq. destruct Hr as [Hs Hall].
  eexists _, rs, s'. split; [reflexivity|]. apply (f_equal fst) in Heq. cbn [fst] in Heq. split; [|split; [|split; [exact Hs|exact Hall]]].
  - rewrite <- Heq. vm_compute. reflexivity.
  - reflexivity.
Defined.

(** A mock with a budget of two errors: the first two calls fail, the other inputs are recorded. *)
Definition two_errors : MockedFunction string string := {|
  Output := {| value := None |}; CalledWithInput := {| values := [] |};
  Error := AtomicError_Set (Some (EText "refused")) [MaxCalls 2] (AtomicError_Reset {| err := None; calls := 0; maxCalls := 0 |});
  successfulCalls := 0; failedCalls := 0
|}.

Notation echo := (λ (i : string) (s : MockedFunction string string), (Ok (Some i, None), s) : res (option string * option gerror) * _).

Lemma Invoke_history_witness :
  ∃ outs m, invoke_all (jsonI := json_id "") (jsonO := json_id "") (λ m, m) (λ m _, m) ["a"; "b"; "c"; "d"] echo two_errors = (Ok outs, m) ∧
    outs = [(None, Some (EText "refused")); (None, Some (EText "refused")); (Some "c", None); (Some "d", None)] ∧
    values (CalledWithInput m) = ["c"; "d"] ∧ Calls m = 4%Z ∧ failedCalls m = 2%Z.
Proof.
  destruct (Invoke_history (jsonI := json_id "") (jsonO := json_id "") (lawsI := json_id_laws "") (lawsO := json_id_laws "")
    (λ m, m) (λ m _, m)) with (tr := echo) (l := ["a"; "b"; "c"; "d"]) (s := two_errors)
    as (outs & m & Hrun & _ & Hcalls & Hfailed & Htake & Hvals).
  - reflexivity.
  - reflexivity.
  - intros i s. eexists _, _. split; reflexivity.
  - split; vm_compute; discriminate.
  - vm_compute. discriminate.
  - vm_compute. discriminate.
  - vm_compute. reflexivity.
  - exists outs, m. split; [exact Hrun|]. vm_compute in Hrun. injection Hrun as <- <-.
    split_and!; reflexivity.
Defined.

(** ** The test of the subnet provider: the default subnets of a name *)

Definition network_start : Fake VcnCli fake_env := {| client := NewVcnCli; env := {| fe_now := 0; fe_uuids := 0; fe_texts := 0 |} |}.

Definition items {A} (r : res (list A)) : list A := match r with Ok l => l | _ => [] end.

Example discovers_subnets_by_name :
  map Subnet_Id (items (ListSubnets (Some "private-1") network_start).1) =
    [Some "ocid1.subnet.oc1.iad.aaaaaaaa"; Some "ocid1.subnet.oc1.iad.aaaaaaab"].
Proof. vm_compute. reflexivity. Qed.

(** The test of its cache reads the canned listing after a reset: it is empty, and the test goes
    over no subnet. *)
Example resolves_subnets_from_cache_is_vacuous :
  AtomicPtr_Clone (ListSubnetsOutput (behavior (FakeNetwork.Reset NewVcnCli))) = Ok [].
Proof. reflexivity. Qed.

(** ** The tests of the instance provider *)

#[local] Instance fake_net : VirtualNetworkClient (FakeCloud fake_env) := cloud_network Own.

Notation test_state := (Instance.State (FakeCloud fake_env) (ttl_map (list Subnet)) (ttl_map unit)).

(** A canned listing of three subnets, and the share of each that is in use. *)
Definition test_subnet (id name cidr : string) : Subnet := {|
  Subnet_Id := Some id; Subnet_DisplayName := Some name; CidrBlock := Some cidr; Subnet_CompartmentId := None;
  Subnet_VcnId := Some "vcn_1"; Subnet_TimeCreated := None
|}.
Definition test_usage (cidr : string) (percent : Z) : list IpInventoryCidrUtilizationSummary :=
  [{| Smy_Cidr := Some cidr; Smy_Utilization := Some (f32_of_Z percent); Smy_AddressType := "" |}].

Definition test_network (p1 p2 p3 : Z) : VcnCli := {|
  behavior := {|
    ListSubnetsOutput := {| value := Some [test_subnet "subnet-id-1" "private-1" "10.0.0.0/24";
                                           test_subnet "subnet-id-2" "private-2" "10.0.0.10/24";
                                           test_subnet "subnet-id-3" "private-3" "10.0.0.20/24"] |};
    ListSecurityGroupOutput := {| value := None |};
    GetSubnetOutput := {| value := None |}; GetVnicOutput := {| value := None |};
    GetSecurityGroupResponse := {| value := None |}; CreateSecurityGroupResponse := {| value := None |};
    DeleteSecurityGroupResponse := {| value := None |}; CreateSubnetResponse := {| value := None |};
    DeleteSubnetResponse := {| value := None |};
    GetSubnetCidrUtilizationOutput := {| value := Some {[ "subnet-id-1" := test_usage "10.0.0.0/24" p1;
      "subnet-id-2" := test_usage "10.0.0.10/24" p2; "subnet-id-3" := test_usage "10.0.0.20/24" p3 ]} |} |};
  createdSecurityGroups := ∅; createdSubnets := ∅
|}.

Definition test_class : OciNodeClass := {|
  NC_Meta := toy_meta "test";
  Spec := {| VcnId := "vcn_1"; ImageSelector := [];
    SubnetSelector := [{| SST_Id := ""; SST_Name := "private-1" |}; {| SST_Id := ""; SST_Name := "private-2" |};
                       {| SST_Id := ""; SST_Name := "private-3" |}];
    SecurityGroupSelector := []; UserData := None; PreInstallScript := None; MetaData := ∅;
    ImageFamily := Ubuntu2204ImageFamily; Tags := ∅; DefinedTags := ∅; FreeFormTags := ∅; Kubelet := None;
    NodeClass_BootConfig := None; NodeClass_LaunchOptions := None; BlockDevices := []; AgentList := [] |};
  Status := Status toy_class
|}.

Definition test_start (compute : CmpCli) (net : VcnCli) : test_state := {|
  Instance.ip_subnets := cache_new DefaultTTL; Instance.ip_offerings := NewUnavailableOfferings;
  Instance.ip_bootstrap := Bootstrap.staticNodeBootstrapVars;
  Instance.ip_world := {| cmpCli := compute; vcnCli := net; around := {| fe_now := 0; fe_uuids := 0; fe_texts := 0 |} |}
|}.

Definition chosen_subnet (s : test_state) : option (option string * Z) :=
  match (Instance.FindLeastUtilizedSubnet toy_options toy_ipv6 toy_hash test_class s).1 with
  | Ok (subnet, count) => Some (Subnet_Id subnet, count)
  | _ => None
  end.

(** "should balance instances across multiple subnets", its three cases. *)
Example balances_across_subnets :
  chosen_subnet (test_start NewCmpCli (test_network 30 20 10)) = Some (Some "subnet-id-3", 231%Z) ∧
  chosen_subnet (test_start NewCmpCli (test_network 30 10 100)) = Some (Some "subnet-id-2", 231%Z) ∧
  option_map snd (chosen_subnet (test_start NewCmpCli (test_network 100 100 100))) = Some 0%Z.
Proof. vm_compute. split_and!; reflexivity. Qed.

(** *** Launches into pools without capacity *)

Definition full_pools : CmpCli := {|
  GetImagesOutput := {| value := None |}; ListImagesOutput := {| value := None |};
  DescribeInstanceTypesOutput := {| values := [] |}; LaunchInstanceBehavior := new_mock;
  TerminateInstancesBehavior := new_mock; GetInstanceBehavior := new_mock; GetVnicAttachmentBehavior := new_mock;
  ListInstanceBehavior := new_mock; CalledWithListImagesInput := {| values := [] |};
  UpdateInstanceBehavior := new_mock; Instances := ∅; Vnics := ∅;
  InsufficientCapacityPools := [{| Pool_CapacityType := "on-demand"; Pool_InstanceType := "m5.xlarge"; Pool_Zone := "US-ASHBURN-AD-1" |}]
|}.

(** "should return an ICE error when all attempted instance types return an ICE error" *)
Lemma launch_on_full_pool_witness :
  ∃ s', Instance.launch (toy_request "m5.xlarge") "US-ASHBURN-AD-1" (test_start full_pools NewVcnCli) =
      (Err (EInsufficientCapacity (EText "InsufficientCapacityError: Out of host capacity")), s') ∧
    IsUnavailable (clock_now (Instance.ip_world s')) "m5.xlarge" "US-ASHBURN-AD-1" CapacityTypeOnDemand (Instance.ip_offerings s') = true.
Proof.
  destruct (launch_on_full_pool (SC := ttl_map (list Subnet)) (UC := ttl_map unit) (toy_request "m5.xlarge") "US-ASHBURN-AD-1"
    (test_start full_pools NewVcnCli)) as (s' & Hl & _ & Hu).
  - by split.
  - vm_compute. reflexivity.
  - exists s'. split; [exact Hl|]. simpl in Hu. rewrite Hu. reflexivity.
Defined.

(** *** Listing, on instances the test stored with and without the tag of the cluster *)

Definition stored (id : string) (tags : defined_tags) : Instance := {|
  Inst_Id := Some id; Inst_Shape := Some "VM.Standard.E4.Flex"; Inst_AvailabilityDomain := Some "JPqd:US-ASHBURN-AD-1";
  Inst_LifecycleState := Lifecycle_Other ""; Inst_DefinedTags := tags; Inst_FreeformTags := ∅; Inst_ImageId := None;
  Inst_SourceDetails := SourceViaImage (Some "ocid1.image.oc1.iad.aaaaaaaa"); Inst_TimeCreated := Some 0%Z; Inst_Preemptible := false
|}.
Definition cluster_tags : defined_tags :=
  {["oke-karpenter-ns" := {["karpenter_sh/managed-by" := TagString "toy"]}]}.

Definition two_stored : FakeCloud fake_env := {|
  cmpCli := set_Instances {["a" := stored "a" cluster_tags; "b" := stored "b" ∅]} NewCmpCli;
  vcnCli := NewVcnCli; around := {| fe_now := 0; fe_uuids := 0; fe_texts := 0 |}
|}.

(** "should return all NodePool-owned instances from List" *)
Lemma List_on_fake_witness :
  ∃ l w', Instance.List toy_options 1 two_stored = (Ok l, w') ∧
    stored "a" cluster_tags ∈ l ∧ stored "b" ∅ ∉ l.
Proof.
  destruct (List_on_fake toy_options two_stored 1) as (l & w' & Hl & _ & Hin).
  - by split.
  - lia.
  - exists l, w'. split; [exact Hl|]. rewrite !Hin. split.
    + split; [vm_compute; reflexivity|]. exists "a". vm_compute. reflexivity.
    + intros [Hm _]. vm_compute in Hm. discriminate.
Defined.

(** ** The tests of the collector

    One instance on the fake, created [age] before the pass, and the claims of the API server. *)

Notation gc_state := (CloudProvider.State (FakeCloud fake_env) (ttl_map (gmap string WrapShape)) (ttl_map (list Subnet)) (ttl_map unit)).

Definition gc_start (age : Z) (tags : defined_tags) : Garbage.State gc_state := {|
  Garbage.successfulCount := 0;
  Garbage.gc_world := {|
    CloudProvider.cp_shapes := cache_new InstanceTypesAndZonesTTL; CloudProvider.cp_subnets := cache_new DefaultTTL;
    CloudProvider.cp_offerings := NewUnavailableOfferings; CloudProvider.cp_bootstrap := Bootstrap.staticNodeBootstrapVars;
    CloudProvider.cp_world := {| cmpCli := set_Instances {["i" := stored "i" tags]} NewCmpCli; vcnCli := NewVcnCli;
                                 around := {| fe_now := age; fe_uuids := 0; fe_texts := 0 |} |} |}
|}.

Definition gc_kube (claims : list (NodeClaim Z)) : KubeClient Z (FakeCloud fake_env) := {|
  kube_GetNodeClass _ := mret toy_class;
  kube_GetNodePool name := mret {| Pool_Name := name; Pool_NodeClassRef := Some "default" |};
  kube_ListNodeClaims _ := mret claims;
  kube_ListNodes := mret [];
  kube_DeleteNode _ := mret tt;
  kube_PatchNodeClaim _ _ := mret tt;
  kube_PatchNodeClass _ _ _ := mret tt;
  kube_PatchNodeClassStatus _ _ := mret tt;
  recorder_Publish _ := mret tt
|}.

(** Whether the pass ended well, and what a look at the instance says afterwards. *)
Definition gc_test (age : Z) (tags : defined_tags) (claims : list (NodeClaim Z)) : bool * option bool :=
  let '(r, s') := Collector.pass (kube := gc_kube claims) (TC := ttl_map (gmap string WrapShape)) (UC := ttl_map unit)
    toy_options toy_price toy_parse "us-ashburn-1" 2 (gc_start age tags) in
  (is_ok r,
   match (Instance.Get "i" (CloudProvider.cp_world (Garbage.gc_world s'))).1 with
   | Ok _ => Some true
   | Err e => if IsNodeClaimNotFoundError e then Some false else None
   | Panic _ => None
   end).

(** "should delete an instance if there is no NodeClaim owner"; "should not delete an instance if it
    is within the NodeClaim resolution window"; "... if it was not launched by a NodeClaim"; "... if it
    already has a NodeClaim that matches it" *)
Example collector_tests :
  gc_test time_Minute cluster_tags [] = (true, Some false) ∧
  gc_test 0 cluster_tags [] = (true, Some true) ∧
  gc_test time_Minute ∅ [] = (true, Some true) ∧
  gc_test time_Minute cluster_tags [toy_claim "c" "i"] = (true, Some true).
Proof. vm_compute. split_and!; reflexivity. Qed.

(** ** The default class of the tests, on the default network *)

Example default_class_selects :
  map (λ sel, length (items (ListSubnets (Some (SST_Name sel)) network_start).1)) (SubnetSelector (Spec default_class)) = [2] ∧
  map (λ sel, length (items (ListNetworkSecurityGroups (Some (SGT_Name sel)) network_start).1))
    (SecurityGroupSelector (Spec default_class)) = [1; 1] ∧
  (** the types of the small cloud get the image without a GPU *)
  map (λ it, option_map SI_Id (List.find (image_fits it) default_images)) toy_types = replicate 7 (Some "ocid1.image.amd64").
Proof. vm_compute. split_and!; reflexivity. Qed.
